(* ===== verification/_CoqProject ===== *)
-Q . S2P
Prelude.v
Bytes.v
Request.v
Strings.v
Logging.v
LoggingFacts.v
Args.v
Parser.v
ParserFacts.v
Reassembly.v
PayloadOptions.v
ParserProps.v
HashTable.v
HashTableRep.v
HashTablePools.v
HashTableOps.v
HashTableUpdate.v
HashTableFree.v
HashTableSpec.v
HashTableProps.v
Crypto.v
Config.v
CryptoFacts.v
Client.v
ClientConfig.v
ConfigFacts.v
ClientConfigFacts.v
ConfigProps.v
ClientFacts.v
ClientCryptoFacts.v
CryptoProps.v
EndToEnd.v
EndToEndProps.v
Http.v
HttpFacts.v
HttpSendFacts.v
HttpProps.v
HttpSendProps.v
LoggingProps.v
Server.v
Main.v
ServerFacts.v
ServerInv.v
ServerSteps.v
ServerClean.v
ServerEndToEnd.v
ServerRun.v
ServerProps.v
ListTable.v
ServerHandling.v
ServerWitnesses.v
MainProps.v
MainWitnesses.v
