(* ===== verification/Prelude.v ===== *)
(** * FF proxy: a verification development

    FF is a proxy that takes HTTP requests as UDP datagrams and sends them on
    over TCP.  A client cuts a request into packets, encrypts it when a key is
    shared, and sends the packets; the server puts them together again,
    decrypts the request, and forwards it over HTTP or HTTPS.  This library
    models the server (src/src) and the client in C (src/client/c) function by
    function and proves what makes them correct, and where they are not.

    ** The program and the files that model it

    - [Prelude], [Bytes]: faults and the result monad [res]; fixed-width
      integers, checked reads and writes of buffers, the byte order of the host
      and src/os/linux_endian.h.
    - [Strings]: C strings and the functions of the C library on them.
    - [Request]: src/request.c, request.h, constants.c.  A request is a record;
      its payload is a list of nodes, or dangling when it was freed.
    - [Parser]: src/parser.c.  [ParserFacts] has the well-formedness of a
      request and the wire format of options, [Reassembly] the contract of
      reception, [PayloadOptions] the options inside a payload,
      [ParserProps] the claims.
    - [HashTable]: src/hash_table.c on a heap of pools and nodes with the
      mutex.  [HashTableRep], [HashTablePools], [HashTableOps],
      [HashTableUpdate], [HashTableFree] relate the heap to a list of entries;
      [HashTableSpec] states the interface [RequestTable] with its laws
      [RequestTableLaws], against which the server is proved, and the table as
      an instance; [ListTable] is a second instance; [HashTableProps] the
      claims.
    - [Crypto]: src/crypto.c over the class [OpenSSL], one operation per call
      of the library; [CryptoFacts] has its laws [OpenSSLLaws];
      [CryptoProps] the claims and a toy cipher that satisfies the laws.
    - [Logging], [LoggingFacts], [LoggingProps]: src/logging.c.
    - [Config]: src/config.c.  [ClientConfig]: client/c/config.c.  [Args] is
      the specification of a command line, [ConfigFacts] and
      [ClientConfigFacts] relate the parsers to it, [ConfigProps] has the
      claims.
    - [Client]: client/c/client.c and client/c/crypto.c.  [ClientFacts],
      [ClientCryptoFacts], [EndToEnd], [EndToEndProps]: what the client sends
      is what the server receives.
    - [Http]: src/http.c, with the calls of the log.  [HttpFacts],
      [HttpSendFacts], [HttpProps], [HttpSendProps].
    - [Server]: src/server.c.  The state is the table, the heap of requests,
      the workers and what was sent.  [ServerFacts], [ServerInv],
      [ServerSteps], [ServerClean] have the invariant of the three kinds of
      threads; [ServerEndToEnd], [ServerRun] the way of a request;
      [ServerProps], [ServerHandling] the claims and [ServerWitnesses] runs.
    - [Main]: the start of the proxy in src/server.c, src/main.c,
      client/c/main.c, src/signals.c.  [MainProps], [MainWitnesses].

    Definitions have the names of the source.  A loop is a Fixpoint of its
    own, named after the function or what it does.

    ** What the theorems show

    - The programs: from the two command lines to the bytes sent on
      ([programs_end_to_end]), the same for a server in any state
      ([proxy_end_to_end]), raw HTTP datagrams ([raw_http_proxied]), and the
      exits of the server ([server_main_exits]).
    - Reception: packets in any order and number are put together to the
      message or the request fails ([reassembly_correct]); the parser is
      memory safe on all inputs ([ff_request_parse_chunk_safe]), accepts
      exactly the wire format ([ff_request_parse_options_grammar]), and does
      not depend on the byte order of the host.
    - The table: a refinement of an ordered association list
      ([hash_table_refines]) that is freed completely.
    - Security: with a key only authenticated requests are accepted
      ([decrypt_only_authenticated]); HTTPS sends only to a verified server
      ([tls_send_verified]); the time stamp ([timestamp_window]).
    - Sending: what plain HTTP writes ([http_send_payload]), the transport
      that is chosen ([https_first_option]), and the host that is found
      ([host_header_found], [host_search_stops]).
    - Concurrency: ownership of requests in every state of an execution
      without packets for requests in use ([server_ownership]) and absence of
      faults of the main and the clean-up thread in them ([server_no_fault]).
    - Round trips of client and server, for files of at most 1024 bytes
      ([client_server_round_trip]) and for payloads ([packetise_round_trip]).
    - Command lines: both parsers against a declarative reading
      ([ff_parse_arguments_reading], [ff_client_parse_arguments_reading]) and
      the configuration they give ([started_config_valid]).
    - Flaws, each a theorem about what the code does: use after free by a late
      packet, double free, wrapped range checks, buffers overrun by host names
      in the search and in the log, a null pointer subtracted from when a
      response has no line, reads past short packets and payloads,
      options whose precedence differs from the comment, an empty datagram
      that ends the server, a file of more than 1024 bytes that the client
      overwrites, arguments that are accepted and should not be.

    ** Faults, errors and fuel

    A function that can run into undefined behaviour returns [res]: [Ok] means
    that no access left its block, no freed or null pointer was used or
    subtracted from, no indeterminate byte was read.  Error exits of the code are values.  Loops
    that are not structural take fuel, and [OutOfFuel] is a fault, so every
    theorem that gives [Ok] shows that the fuel is enough: the option loop has
    21 rounds (one more than an array of options holds), the search for the
    host and the loops in it as many as the payload has bytes and one more,
    the copy of a host 257, the loop of [recv] the size of its buffer (each
    round receives a byte), chains of the table the number of nodes, the
    clean-up the length of the table and one, a worker its seven stages.  The
    number of reads from a TLS connection is an argument, since the code has
    no bound; theorems hold for every positive number.

    ** Threads

    The handling of one packet is one step of the main thread; the scan of the
    clean-up thread, which holds the lock of the table, is one step and each
    of its removals another; a worker takes one step for each call of
    [ff_proxy_process_request].  Steps of all threads interleave freely
    ([server_step]).  The invariant holds in executions under a constraint that
    is kept apart from the steps ([undisturbing]): no packet comes for a
    request that a worker or the clean-up thread holds at that time.  Packets
    for other requests come at any time, between the scan and the removals of
    a clean-up too.  Without the constraint the code does use freed memory
    ([late_packet_use_after_free]).

    ** The log

    [ff_log] formats into 255 bytes without a bound ([ff_log_bounds]).  Its
    calls are part of the two functions of src/http.c that send and of the end
    of the search for the host, at the level the configuration has set: these
    messages contain names, addresses and text from the network.  Theorems that
    exclude faults of these functions need a host name of at most 169
    characters unless the level is above WARNING, as it is by default
    ([host_logged]), and for HTTPS an error text of OpenSSL of at most 200
    ([error_logged]).

    ** Arguments of the model

    OpenSSL, the network, the clock, random bytes and [inet_pton] are not part
    of the sources: their results are arguments, with records or classes of
    the laws that are used ([OpenSSLLaws], [http_calls], [tls_calls],
    [network_ok], [client_net_ok], [proxy_ready], [numeric_service]); each
    theorem with such a law has a witness at a concrete instance.

    ** Not modelled

    The other calls of [ff_log]: those of constants and numbers, none of which
    is longer than 200 characters, the address of a received packet
    (server.c:112, at most 45 characters), and those with arguments of the
    command line or errors of OpenSSL (server.c:52, client.c:309 and 330,
    crypto.c:359), which can be longer than the buffer.  The text of log lines
    of a served request, the failure of [malloc], the delivery of signals, data
    races within one step, and the clients in other languages. *)

From stdpp Require Export base list numbers gmap sorting strings.
From Stdlib Require Export ZArith.
#[global] Open Scope Z_scope.

(** ** Faults

    The undefined behaviours of C the model detects.  A function of the
    program that can run into one of them returns a [res]. *)
Inductive fault : Type :=
  | OutOfBounds    (** access outside an allocated buffer *)
  | Indeterminate  (** read of a byte that was never written *)
  | NullDeref      (** dereference of a null pointer *)
  | NullArith      (** subtraction from a null pointer *)
  | UseAfterFree   (** dereference of a freed block *)
  | DoubleFree     (** [free] of a freed block *)
  | AssertFailed   (** [assert] of a false condition *)
  | BadShift       (** shift by a negative amount or by the width or more *)
  | Deadlock       (** a thread locks the mutex it holds *)
  | OutOfFuel.     (** a loop of the model ran out of fuel *)

#[export] Instance fault_eq_dec : EqDecision fault.
Proof. solve_decision. Defined.

(** ** The result monad *)
Inductive res (A : Type) : Type :=
  | Ok (a : A)
  | Err (e : fault).
Arguments Ok {A} a.
Arguments Err {A} e.

#[export] Instance res_ret : MRet res := fun A => Ok.
#[export] Instance res_bind : MBind res := fun A B f m =>
  match m with Ok a => f a | Err e => Err e end.
#[export] Instance res_fmap : FMap res := fun A B f m =>
  match m with Ok a => Ok (f a) | Err e => Err e end.

Definition is_ok {A} (m : res A) : Prop := exists a, m = Ok a.

Definition guard_res (b : bool) (e : fault) : res unit :=
  if b then Ok tt else Err e.

Lemma bind_Ok {A B} (a : A) (f : A -> res B) : Ok a ≫= f = f a.
Proof. done. Qed.

Lemma bind_ok {A B} (m : res A) (f : A -> res B) b :
  m ≫= f = Ok b <-> exists a, m = Ok a /\ f a = Ok b.
Proof. destruct m; simpl; split; naive_solver. Qed.

Lemma guard_res_ok b e u : guard_res b e = Ok u <-> b = true.
Proof. destruct b, u; simpl; split; done. Qed.

(** A decidable proposition that holds by computation. *)
Ltac decide_compute := apply (bool_decide_unpack _); vm_compute; exact I.

(** ** Lists *)

Lemma list_filter_id {A} (P : A -> Prop) `{!forall x, Decision (P x)} (l : list A) :
  (forall x, x ∈ l -> P x) -> filter P l = l.
Proof.
  induction l as [|x l IH]; intros HP; [done|].
  rewrite filter_cons_True by (apply HP; left). f_equal.
  apply IH. intros y Hy. apply HP. by right.
Qed.

Lemma list_filter_comm {A} (P Q : A -> Prop) `{!forall x, Decision (P x)}
    `{!forall x, Decision (Q x)} (l : list A) :
  filter P (filter Q l) = filter Q (filter P l).
Proof. rewrite !list_filter_filter. apply list_filter_iff. naive_solver. Qed.

(** The first element of a filtered list. *)
Lemma filter_split {X} (Q : X -> Prop) `{!forall x, Decision (Q x)} (l : list X) x rest :
  filter Q l = x :: rest ->
  exists pre post, l = pre ++ x :: post /\ Forall (fun y => ~ Q y) pre /\ Q x.
Proof.
  induction l as [|y l IH]; [done|]. rewrite filter_cons. destruct (decide (Q y)) as [Hq|Hq].
  - intros [= -> _]. by exists [], l.
  - intros (pre&post&->&Hpre&Hx)%IH. exists (y :: pre), post. split_and!; try done. by constructor.
Qed.

Lemma take_snoc {A} (l : list A) n : length l = S n -> exists x, l = take n l ++ [x].
Proof.
  intros Hl. destruct (lookup_lt_is_Some_2 l n) as [x Hx]; [lia|]. exists x.
  rewrite <- (take_S_r _ _ _ Hx). symmetry. apply take_ge. lia.
Qed.

(** ** Maps *)

Lemma lookup_alter_if `{Countable K} {A} (f : A -> A) (m : gmap K A) i j :
  alter f i m !! j = (if decide (i = j) then f else id) <$> m !! j.
Proof.
  rewrite lookup_alter. destruct (decide (i = j)) as [->|]; [done|].
  by destruct (m !! j).
Qed.
