(* ===== verification/Bytes.v ===== *)
(** * Machine integers, byte buffers and byte order

    - fixed-width unsigned integers, as [Z] with the wrap-around written out;
    - buffers of C as [list Z], with checked reads and writes;
    - the byte order of the host, [ntohs], [ntohl] of the C library and the
      macros [ntohll], [htonll] of src/os/linux_endian.h.

    The facts of this file reduce every multi-byte field the program reads
    or writes to a big-endian number, whatever the byte order of the host. *)

From S2P Require Import Prelude.

(** ** Fixed-width integers *)

Definition u8 (x : Z) : Z := x mod 2 ^ 8.
Definition u16 (x : Z) : Z := x mod 2 ^ 16.
Definition u32 (x : Z) : Z := x mod 2 ^ 32.
Definition u64 (x : Z) : Z := x mod 2 ^ 64.

Lemma u8_small x : 0 <= x < 256 -> u8 x = x.
Proof. intros. apply Z.mod_small. lia. Qed.
Lemma u16_small x : 0 <= x < 65536 -> u16 x = x.
Proof. intros. apply Z.mod_small. lia. Qed.
Lemma u32_small x : 0 <= x < 4294967296 -> u32 x = x.
Proof. intros. apply Z.mod_small. lia. Qed.
Lemma u64_small x : 0 <= x < 18446744073709551616 -> u64 x = x.
Proof. intros. apply Z.mod_small. lia. Qed.

Lemma u8_range x : 0 <= u8 x < 256.
Proof. apply Z.mod_pos_bound. lia. Qed.
Lemma u16_range x : 0 <= u16 x < 65536.
Proof. apply Z.mod_pos_bound. lia. Qed.
Lemma u32_range x : 0 <= u32 x < 4294967296.
Proof. apply Z.mod_pos_bound. lia. Qed.
Lemma u64_range x : 0 <= u64 x < 18446744073709551616.
Proof. apply Z.mod_pos_bound. lia. Qed.

(** ** Buffers

    A buffer is the list of its bytes.  A byte of an allocated block that was
    never written is [indet], which no read of a value accepts; copying it is
    allowed, as [memcpy] is. *)

Definition indet : Z := -1.

Definition is_byte (b : Z) : Prop := 0 <= b < 256.
#[export] Instance is_byte_dec b : Decision (is_byte b).
Proof. unfold is_byte. apply _. Defined.

Abbreviation bytes bs := (Forall is_byte bs).

(** Length of a buffer, as an integer of the program. *)
Definition zlen {A} (l : list A) : Z := Z.of_nat (length l).

Definition malloc (n : Z) : list Z := replicate (Z.to_nat n) indet.

Definition slice (buff : list Z) (off len : Z) : list Z :=
  take (Z.to_nat len) (drop (Z.to_nat off) buff).

(** [memcpy] from [buff + off]: the [len] bytes read. *)
Definition mem_read (buff : list Z) (off len : Z) : res (list Z) :=
  if bool_decide (0 <= off /\ 0 <= len /\ off + len <= zlen buff)
  then Ok (slice buff off len) else Err OutOfBounds.

(** [memcpy] to [buff + off]. *)
Definition mem_write (buff : list Z) (off : Z) (data : list Z) : res (list Z) :=
  if bool_decide (0 <= off /\ off + zlen data <= zlen buff)
  then Ok (take (Z.to_nat off) buff ++ data ++
           drop (Z.to_nat off + length data) buff)
  else Err OutOfBounds.

(** A read of values: the bytes have to be determinate. *)
Definition load_bytes (buff : list Z) (off len : Z) : res (list Z) :=
  bs ← mem_read buff off len;
  if bool_decide (bytes bs) then Ok bs else Err Indeterminate.

(** [buff[off]] *)
Definition load_byte (buff : list Z) (off : Z) : res Z :=
  if bool_decide (0 <= off) then
    match buff !! Z.to_nat off with
    | None => Err OutOfBounds
    | Some b => if bool_decide (is_byte b) then Ok b else Err Indeterminate
    end
  else Err OutOfBounds.

(** ** Numbers as bytes *)

Fixpoint le_combine (bs : list Z) : Z :=
  match bs with
  | [] => 0
  | b :: bs => b + 256 * le_combine bs
  end.

Fixpoint le_split (n : nat) (x : Z) : list Z :=
  match n with
  | O => []
  | S n => x mod 256 :: le_split n (x / 256)
  end.

Definition be_combine (bs : list Z) : Z := le_combine (rev bs).
Definition be_split (n : nat) (x : Z) : list Z := rev (le_split n x).

Lemma length_le_split n x : length (le_split n x) = n.
Proof. revert x; induction n; intros; simpl; auto. Qed.

Lemma length_be_split n x : length (be_split n x) = n.
Proof. unfold be_split. rewrite length_rev. apply length_le_split. Qed.

Lemma bytes_le_split n x : bytes (le_split n x).
Proof.
  revert x; induction n; intros; simpl; constructor; auto.
  apply Z.mod_pos_bound; lia.
Qed.

Lemma bytes_rev bs : bytes (rev bs) <-> bytes bs.
Proof.
  split; intros H; [rewrite <- (rev_involutive bs)|]; by apply Forall_rev.
Qed.

Lemma bytes_be_split n x : bytes (be_split n x).
Proof. apply bytes_rev, bytes_le_split. Qed.

Lemma le_combine_split n x :
  le_combine (le_split n x) = x mod 256 ^ Z.of_nat n.
Proof.
  revert x; induction n as [|n IH]; intros x; simpl.
  - rewrite Z.mod_1_r. done.
  - rewrite IH, Nat2Z.inj_succ, Z.pow_succ_r by lia.
    rewrite Z.rem_mul_r by lia. lia.
Qed.

Lemma le_split_combine bs :
  bytes bs -> le_split (length bs) (le_combine bs) = bs.
Proof.
  induction 1 as [|b bs Hb _ IH]; simpl; [done|]. unfold is_byte in Hb.
  rewrite (Z.mul_comm 256), Z.mod_add, Z.div_add by lia.
  rewrite Z.mod_small, Z.div_small by lia. f_equal. apply IH.
Qed.

Lemma le_combine_range bs :
  bytes bs -> 0 <= le_combine bs < 256 ^ zlen bs.
Proof.
  unfold zlen. induction 1 as [|b bs Hb _ IH]; simpl; [lia|].
  unfold is_byte in Hb. rewrite Nat2Z.inj_succ, Z.pow_succ_r by lia. lia.
Qed.

Lemma le_combine_app bs1 bs2 :
  le_combine (bs1 ++ bs2) = le_combine bs1 + 256 ^ zlen bs1 * le_combine bs2.
Proof.
  unfold zlen. induction bs1 as [|b bs1 IH]; simpl; [lia|].
  rewrite IH, Nat2Z.inj_succ, Z.pow_succ_r by lia. lia.
Qed.

Lemma zlen_app {A} (l1 l2 : list A) : zlen (l1 ++ l2) = zlen l1 + zlen l2.
Proof. unfold zlen. rewrite length_app. lia. Qed.

Lemma zlen_cons {A} (x : A) (l : list A) : zlen (x :: l) = 1 + zlen l.
Proof. unfold zlen. cbn [length]. lia. Qed.

Lemma zlen_nonneg {A} (l : list A) : 0 <= zlen l.
Proof. unfold zlen. lia. Qed.

Lemma zlen_rev {A} (l : list A) : zlen (rev l) = zlen l.
Proof. unfold zlen. by rewrite length_rev. Qed.

Lemma be_combine_app bs1 bs2 :
  be_combine (bs1 ++ bs2) = be_combine bs1 * 256 ^ zlen bs2 + be_combine bs2.
Proof.
  unfold be_combine. rewrite rev_app_distr, le_combine_app, zlen_rev. lia.
Qed.

Lemma be_combine_range bs :
  bytes bs -> 0 <= be_combine bs < 256 ^ zlen bs.
Proof.
  intros H. rewrite <- (zlen_rev bs). by apply le_combine_range, bytes_rev.
Qed.

Lemma be_combine_split n x :
  be_combine (be_split n x) = x mod 256 ^ Z.of_nat n.
Proof.
  unfold be_combine, be_split. rewrite rev_involutive. apply le_combine_split.
Qed.

Lemma be_split_combine bs :
  bytes bs -> be_split (length bs) (be_combine bs) = bs.
Proof.
  intros H. unfold be_combine, be_split.
  rewrite <- (length_rev bs), le_split_combine by (by apply bytes_rev).
  apply rev_involutive.
Qed.

Lemma le_combine_zero bs :
  bytes bs -> le_combine bs = 0 <-> Forall (fun b => b = 0) bs.
Proof.
  induction 1 as [|b bs Hb Hbs IH]; simpl; [done|].
  pose proof (le_combine_range bs Hbs). unfold is_byte in Hb.
  rewrite Forall_cons, <- IH. lia.
Qed.

Lemma be_combine_zero bs :
  bytes bs -> be_combine bs = 0 <-> Forall (fun b => b = 0) bs.
Proof.
  intros H. unfold be_combine.
  rewrite le_combine_zero by (by apply bytes_rev).
  split; intros H'; [rewrite <- (rev_involutive bs)|]; by apply Forall_rev.
Qed.

(** ** Byte order

    [combine] and [split] are how the host stores an unsigned integer in
    memory; the functions of the C library convert between that order and
    the big-endian network order. *)

Inductive byte_order : Type := LittleEndian | BigEndian.

Class HostOrder : Type := host_order : byte_order.

Section Endian.
Context {HO : HostOrder}.

Definition host_combine (bs : list Z) : Z :=
  match host_order with
  | LittleEndian => le_combine bs
  | BigEndian => be_combine bs
  end.

Definition host_split (n : nat) (x : Z) : list Z :=
  match host_order with
  | LittleEndian => le_split n x
  | BigEndian => be_split n x
  end.

(** Network byte order of an [n]-byte integer. *)
Definition net_swap (n : nat) (x : Z) : Z :=
  match host_order with
  | LittleEndian => be_combine (le_split n x)
  | BigEndian => x
  end.

Definition ntohs (x : Z) : Z := net_swap 2 (u16 x).
Definition ntohl (x : Z) : Z := net_swap 4 (u32 x).
Definition htons (x : Z) : Z := net_swap 2 (u16 x).
Definition htonl (x : Z) : Z := net_swap 4 (u32 x).

Definition ntohll (x : Z) : Z :=
  if 1 =? ntohl 1 then x
  else Z.lor (u64 (Z.shiftl (ntohl (Z.land x 0xFFFFFFFF)) 32))
             (ntohl (Z.shiftr x 32)).

Definition htonll (x : Z) : Z :=
  if 1 =? htonl 1 then x
  else Z.lor (u64 (Z.shiftl (htonl (Z.land x 0xFFFFFFFF)) 32))
             (htonl (Z.shiftr x 32)).

(** A field of a packed structure, read through a pointer to it. *)
Definition load_uint (n : nat) (buff : list Z) (off : Z) : res Z :=
  host_combine <$> load_bytes buff off (Z.of_nat n).

Lemma host_combine_range bs :
  bytes bs -> 0 <= host_combine bs < 256 ^ zlen bs.
Proof.
  unfold host_combine.
  destruct host_order; [apply le_combine_range | apply be_combine_range].
Qed.

Lemma host_combine_zero bs :
  bytes bs -> host_combine bs = 0 <-> be_combine bs = 0.
Proof.
  intros H. unfold host_combine. destruct host_order; [|done].
  by rewrite le_combine_zero, be_combine_zero.
Qed.

Lemma net_swap_combine bs :
  bytes bs -> net_swap (length bs) (host_combine bs) = be_combine bs.
Proof.
  intros H. unfold net_swap, host_combine. destruct host_order; [|done].
  by rewrite le_split_combine.
Qed.

Lemma ntohs_combine bs :
  bytes bs -> length bs = 2%nat -> ntohs (host_combine bs) = be_combine bs.
Proof.
  intros H Hl. pose proof (host_combine_range bs H) as Hr. unfold zlen in Hr.
  rewrite Hl in Hr. unfold ntohs. rewrite u16_small by lia.
  rewrite <- Hl. by apply net_swap_combine.
Qed.

Lemma ntohl_combine bs :
  bytes bs -> length bs = 4%nat -> ntohl (host_combine bs) = be_combine bs.
Proof.
  intros H Hl. pose proof (host_combine_range bs H) as Hr. unfold zlen in Hr.
  rewrite Hl in Hr. unfold ntohl. rewrite u32_small by lia.
  rewrite <- Hl. by apply net_swap_combine.
Qed.

Lemma ntohl_one : (1 =? ntohl 1) =
  match host_order with LittleEndian => false | BigEndian => true end.
Proof. unfold ntohl, net_swap. destruct host_order; reflexivity. Qed.

(** The two halves of a little-endian 64-bit number. *)
Lemma le_halves lo hi :
  bytes lo -> bytes hi -> length lo = 4%nat ->
  Z.land (le_combine (lo ++ hi)) 0xFFFFFFFF = le_combine lo /\
  Z.shiftr (le_combine (lo ++ hi)) 32 = le_combine hi.
Proof.
  intros Hlo Hhi Hl. pose proof (le_combine_range lo Hlo) as Hr.
  unfold zlen in Hr. rewrite Hl in Hr.
  rewrite le_combine_app. unfold zlen. rewrite Hl. split.
  - change 0xFFFFFFFF with (Z.ones 32). rewrite Z.land_ones by lia.
    change (256 ^ Z.of_nat 4) with (2 ^ 32) in *.
    rewrite Z.mul_comm, Z.mod_add by lia. apply Z.mod_small. lia.
  - rewrite Z.shiftr_div_pow2 by lia.
    change (256 ^ Z.of_nat 4) with (2 ^ 32) in *.
    rewrite Z.mul_comm, Z.div_add, Z.div_small by lia. lia.
Qed.

Lemma lor_halves a b :
  0 <= b < 2 ^ 32 -> Z.lor (Z.shiftl a 32) b = a * 2 ^ 32 + b.
Proof.
  intros Hb. rewrite <- Z.shiftl_mul_pow2, <- Z.add_lor_land by lia.
  rewrite <- (Z.add_0_r (Z.lor _ _)) at 1. f_equal. symmetry.
  apply Z.bits_inj'. intros n Hn. rewrite Z.land_spec, Z.bits_0.
  destruct (decide (n < 32)).
  - by rewrite Z.shiftl_spec_low.
  - rewrite <- (Z.mod_small b (2 ^ 32)) by lia.
    rewrite Z.mod_pow2_bits_high by lia. apply andb_false_r.
Qed.

Lemma ntohll_combine bs :
  bytes bs -> length bs = 8%nat -> ntohll (host_combine bs) = be_combine bs.
Proof.
  intros H Hl. unfold ntohll. rewrite ntohl_one.
  destruct host_order eqn:Ho; [|by unfold host_combine; rewrite Ho].
  rewrite <- (take_drop 4 bs) in H |- *.
  assert (length (take 4 bs) = 4%nat) as Hlo by (rewrite length_take; lia).
  assert (length (drop 4 bs) = 4%nat) as Hhi by (rewrite length_drop; lia).
  apply Forall_app in H as [Blo Bhi].
  revert Hlo Hhi Blo Bhi. generalize (take 4 bs) (drop 4 bs). intros lo hi Hlo Hhi Blo Bhi.
  pose proof (ntohl_combine lo Blo Hlo) as Elo.
  pose proof (ntohl_combine hi Bhi Hhi) as Ehi.
  pose proof (be_combine_range lo Blo) as Rlo.
  pose proof (be_combine_range hi Bhi) as Rhi.
  unfold zlen in *. rewrite Hlo in Rlo. rewrite Hhi in Rhi.
  unfold host_combine in *. rewrite Ho in *.
  destruct (le_halves lo hi Blo Bhi Hlo) as [-> ->].
  rewrite Elo, Ehi, be_combine_app.
  rewrite u64_small by (rewrite Z.shiftl_mul_pow2; lia).
  rewrite lor_halves by lia. unfold zlen. rewrite Hhi. done.
Qed.

Lemma length_host_split n x : length (host_split n x) = n.
Proof.
  unfold host_split.
  destruct host_order; [apply length_le_split | apply length_be_split].
Qed.

(** Storing a converted number writes it in network order. *)
Lemma host_split_swap n x :
  0 <= x < 256 ^ Z.of_nat n -> host_split n (net_swap n x) = be_split n x.
Proof.
  intros Hx. unfold host_split, net_swap. destruct host_order; [|done].
  unfold be_combine, be_split.
  rewrite <- (length_le_split n x) at 1. rewrite <- length_rev.
  apply le_split_combine, bytes_rev, bytes_le_split.
Qed.

Lemma store_htons x : host_split 2 (htons x) = be_split 2 (u16 x).
Proof. apply host_split_swap. pose proof (u16_range x). lia. Qed.

Lemma store_htonl x : host_split 4 (htonl x) = be_split 4 (u32 x).
Proof. apply host_split_swap. pose proof (u32_range x). lia. Qed.

Lemma htonll_ntohll x : htonll x = ntohll x.
Proof. reflexivity. Qed.

Lemma store_htonll x :
  0 <= x < 2 ^ 64 -> host_split 8 (htonll x) = be_split 8 x.
Proof.
  intros Hx. rewrite htonll_ntohll.
  assert (host_combine (host_split 8 x) = x) as Ex.
  { unfold host_combine, host_split. destruct host_order.
    - rewrite le_combine_split. apply Z.mod_small. lia.
    - rewrite be_combine_split. apply Z.mod_small. lia. }
  assert (bytes (host_split 8 x)) as Bx.
  { unfold host_split.
    destruct host_order; [apply bytes_le_split | apply bytes_be_split]. }
  rewrite <- Ex at 1. rewrite ntohll_combine by (try done; apply length_host_split).
  unfold host_split, be_split. destruct host_order; [|].
  - unfold be_combine. rewrite <- (length_le_split 8 x) at 1.
    rewrite <- length_rev. apply le_split_combine, bytes_rev, bytes_le_split.
  - apply (be_split_combine (be_split 8 x)), bytes_be_split.
Qed.

End Endian.

(** ** Facts on buffers *)

Lemma length_slice buff off len :
  0 <= off -> 0 <= len -> off + len <= zlen buff ->
  length (slice buff off len) = Z.to_nat len.
Proof.
  intros. unfold slice, zlen in *. rewrite length_take, length_drop. lia.
Qed.

Lemma zlen_slice buff off len :
  0 <= off -> 0 <= len -> off + len <= zlen buff -> zlen (slice buff off len) = len.
Proof. intros. unfold zlen at 1. rewrite length_slice by done. lia. Qed.

Lemma slice_app_l l1 l2 off len :
  0 <= off -> 0 <= len -> off + len <= zlen l1 ->
  slice (l1 ++ l2) off len = slice l1 off len.
Proof.
  intros. unfold slice, zlen in *.
  rewrite drop_app_le by lia. rewrite take_app_le; [done|].
  rewrite length_drop. lia.
Qed.

Lemma slice_app_r l1 l2 off len :
  zlen l1 <= off -> slice (l1 ++ l2) off len = slice l2 (off - zlen l1) len.
Proof.
  intros. unfold slice, zlen in *. rewrite drop_app_ge by lia.
  do 2 f_equal. lia.
Qed.

Lemma slice_full l len : len = zlen l -> slice l 0 len = l.
Proof. intros ->. unfold slice, zlen. rewrite drop_0, Nat2Z.id. apply firstn_all. Qed.

Lemma slice_0_app l1 l2 len : len = zlen l1 -> slice (l1 ++ l2) 0 len = l1.
Proof.
  intros ->. rewrite slice_app_l by (pose proof (zlen_nonneg l1); lia).
  by apply slice_full.
Qed.

Lemma slice_zero buff off : slice buff off 0 = [].
Proof. reflexivity. Qed.

Lemma lookup_slice buff off len k :
  0 <= off -> 0 <= k < len ->
  slice buff off len !! Z.to_nat k = buff !! Z.to_nat (off + k).
Proof.
  intros. unfold slice. rewrite lookup_take_lt by lia.
  rewrite lookup_drop. f_equal. lia.
Qed.

Lemma slice_slice buff off len off' len' :
  0 <= off -> 0 <= off' -> 0 <= len' -> off' + len' <= len ->
  slice (slice buff off len) off' len' = slice buff (off + off') len'.
Proof.
  intros. unfold slice. rewrite skipn_firstn_comm, take_take, drop_drop. f_equal; [lia|f_equal; lia].
Qed.

Lemma bytes_slice buff off len : bytes buff -> bytes (slice buff off len).
Proof. intros. by apply Forall_take, Forall_drop. Qed.

Lemma slice_split buff off len1 len2 :
  0 <= off -> 0 <= len1 -> 0 <= len2 ->
  slice buff off (len1 + len2) = slice buff off len1 ++ slice buff (off + len1) len2.
Proof.
  intros. unfold slice. rewrite !Z2Nat.inj_add by lia.
  by rewrite <- drop_drop, <- take_take_drop.
Qed.

Lemma mem_read_ok buff off len bs :
  mem_read buff off len = Ok bs <->
  0 <= off /\ 0 <= len /\ off + len <= zlen buff /\ bs = slice buff off len.
Proof. unfold mem_read. case_bool_decide; naive_solver. Qed.

Lemma mem_read_slice buff off len :
  0 <= off -> 0 <= len -> off + len <= zlen buff ->
  mem_read buff off len = Ok (slice buff off len).
Proof. intros. by apply mem_read_ok. Qed.

Lemma mem_write_ok buff off data buff' :
  mem_write buff off data = Ok buff' <->
  0 <= off /\ off + zlen data <= zlen buff /\
  buff' = take (Z.to_nat off) buff ++ data ++ drop (Z.to_nat off + length data) buff.
Proof. unfold mem_write. case_bool_decide; naive_solver. Qed.

Lemma load_bytes_slice buff off len :
  0 <= off -> 0 <= len -> off + len <= zlen buff -> bytes (slice buff off len) ->
  load_bytes buff off len = Ok (slice buff off len).
Proof.
  intros. unfold load_bytes. rewrite mem_read_slice by done. simpl.
  by rewrite bool_decide_true.
Qed.

Lemma load_byte_ok buff off b :
  load_byte buff off = Ok b <->
  0 <= off /\ buff !! Z.to_nat off = Some b /\ is_byte b.
Proof.
  unfold load_byte. repeat (case_bool_decide || case_match); naive_solver.
Qed.

Lemma zlen_malloc n : 0 <= n -> zlen (malloc n) = n.
Proof. intros. unfold zlen, malloc. rewrite length_replicate. lia. Qed.

Section Loads.
Context {HO : HostOrder}.

(** The number a field of the wire format holds. *)
Definition be_at (n : nat) (buff : list Z) (off : Z) : Z :=
  be_combine (slice buff off (Z.of_nat n)).

Definition readable (n : nat) (buff : list Z) (off : Z) : Prop :=
  0 <= off /\ off + Z.of_nat n <= zlen buff /\ bytes (slice buff off (Z.of_nat n)).

Lemma load_uint_readable n buff off x : load_uint n buff off = Ok x -> readable n buff off.
Proof.
  unfold load_uint, load_bytes, mem_read. case_bool_decide as Hb; [|done].
  cbn [mbind res_bind]. case_bool_decide as Hby; [|done]. intros _. split_and!; [lia|lia|done].
Qed.

Lemma load_uint_ok n buff off :
  readable n buff off ->
  load_uint n buff off = Ok (host_combine (slice buff off (Z.of_nat n))).
Proof.
  intros (?&?&?). unfold load_uint. by rewrite load_bytes_slice by (done || lia).
Qed.

Lemma length_readable n buff off :
  readable n buff off -> length (slice buff off (Z.of_nat n)) = n.
Proof. intros (?&?&?). rewrite length_slice by lia. lia. Qed.

Lemma load_ntohs buff off :
  readable 2 buff off -> ntohs <$> load_uint 2 buff off = Ok (be_at 2 buff off).
Proof.
  intros H. rewrite load_uint_ok by done. simpl. f_equal.
  apply ntohs_combine; [apply H | by apply length_readable].
Qed.

Lemma load_ntohl buff off :
  readable 4 buff off -> ntohl <$> load_uint 4 buff off = Ok (be_at 4 buff off).
Proof.
  intros H. rewrite load_uint_ok by done. simpl. f_equal.
  apply ntohl_combine; [apply H | by apply length_readable].
Qed.

Lemma load_ntohll buff off :
  readable 8 buff off -> ntohll <$> load_uint 8 buff off = Ok (be_at 8 buff off).
Proof.
  intros H. rewrite load_uint_ok by done. simpl. f_equal.
  apply ntohll_combine; [apply H | by apply length_readable].
Qed.

Lemma be_at_range n buff off :
  readable n buff off -> 0 <= be_at n buff off < 256 ^ Z.of_nat n.
Proof.
  intros H. pose proof (be_combine_range _ (proj2 (proj2 H))) as R.
  unfold zlen in R. by rewrite length_readable in R.
Qed.

Lemma readable_bytes n buff off :
  bytes buff -> 0 <= off -> off + Z.of_nat n <= zlen buff -> readable n buff off.
Proof. intros. repeat split; try done. by apply bytes_slice. Qed.

End Loads.

#[global] Arguments be_split : simpl never.
#[global] Arguments host_split : simpl never.
#[global] Arguments slice : simpl never.
#[global] Arguments malloc : simpl never.
#[global] Arguments zlen : simpl never.
#[global] Arguments load_uint : simpl never.
#[global] Arguments u8 : simpl never.
#[global] Arguments u16 : simpl never.
#[global] Arguments u32 : simpl never.
#[global] Arguments u64 : simpl never.
