(* ===== verification/Request.v ===== *)
(** * Requests: src/request.h, src/request.c and src/constants.c

    The data of a request as it is received and processed, and the
    operations that allocate, fill, join and free its parts. *)

From S2P Require Import Prelude Bytes.

(** ** Enumerations

    Two constants of [ff_request_state] share the number 10, so the type is
    the integers its constants stand for. *)

Definition FF_REQUEST_STATE_RECEIVING : Z := 0.
Definition FF_REQUEST_STATE_RECEIVED : Z := 1.
Definition FF_REQUEST_STATE_RECEIVING_FAIL : Z := 2.
Definition FF_REQUEST_STATE_DECRYPTING : Z := 3.
Definition FF_REQUEST_STATE_DECRYPTED : Z := 4.
Definition FF_REQUEST_STATE_DECRYPTING_FAILED : Z := 5.
Definition FF_REQUEST_STATE_PARSING_OPTIONS : Z := 6.
Definition FF_REQUEST_STATE_PARSED_OPTIONS : Z := 7.
Definition FF_REQUEST_STATE_PARSING_OPTIONS_FAILED : Z := 8.
Definition FF_REQUEST_STATE_SENDING : Z := 9.
Definition FF_REQUEST_STATE_SENT : Z := 10.
Definition FF_REQUEST_STATE_SENDING_FAILED : Z := 10.

Definition FF_VERSION_RAW : Z := -1.
Definition FF_VERSION_1 : Z := 1.

Definition FF_REQUEST_OPTION_TYPE_EOL : Z := 0.
Definition FF_REQUEST_OPTION_TYPE_BREAK : Z := 7.
Definition FF_REQUEST_OPTION_TYPE_ENCRYPTION_MODE : Z := 1.
Definition FF_REQUEST_OPTION_TYPE_ENCRYPTION_IV : Z := 2.
Definition FF_REQUEST_OPTION_TYPE_ENCRYPTION_TAG : Z := 3.
Definition FF_REQUEST_OPTION_TYPE_KEY_DERIVE_MODE : Z := 5.
Definition FF_REQUEST_OPTION_TYPE_KEY_DERIVE_SALT : Z := 6.
Definition FF_REQUEST_OPTION_TYPE_HTTPS : Z := 4.
Definition FF_REQUEST_OPTION_TYPE_TIMESTAMP : Z := 8.

Definition FF_REQUEST_MAX_OPTIONS : Z := 20.

(** ** Structures

    A buffer pointer is the contents of the block it points to; [NULL] is
    the empty block, which the program never tells from a block of size 0. *)

Record ff_request_option_node : Type := mk_option {
  opt_type : Z;
  opt_length : Z;       (* uint16_t *)
  opt_value : list Z;
}.

(** The [next] pointers are the order of a list of nodes. *)
Record ff_request_payload_node : Type := mk_node {
  node_offset : Z;      (* uint16_t *)
  node_length : Z;      (* uint16_t *)
  node_value : list Z;
}.

(** [request->payload]: the list it heads ([NULL] when empty), or a pointer
    to a node that was freed. *)
Inductive payload_ptr : Type :=
  | PayloadNodes (nodes : list ff_request_payload_node)
  | PayloadDangling.

Record ff_request : Type := mk_request {
  rq_state : Z;
  rq_version : Z;
  rq_source : list Z;              (* struct sockaddr *)
  rq_received_at : Z;              (* time_t *)
  rq_request_id : Z;               (* uint64_t *)
  rq_options_length : Z;           (* uint8_t *)
  rq_options : list ff_request_option_node;
  rq_payload_contains_options : bool;
  rq_payload_length : Z;           (* uint64_t *)
  rq_received_length : Z;          (* uint64_t *)
  rq_payload : payload_ptr;
}.

#[export] Instance ff_request_option_node_eq_dec : EqDecision ff_request_option_node.
Proof. solve_decision. Defined.
#[export] Instance ff_request_payload_node_eq_dec : EqDecision ff_request_payload_node.
Proof. solve_decision. Defined.
#[export] Instance payload_ptr_eq_dec : EqDecision payload_ptr.
Proof. solve_decision. Defined.
#[export] Instance ff_request_eq_dec : EqDecision ff_request.
Proof. solve_decision. Defined.

(** Assignments to one field. *)
Definition set_state (v : Z) (r : ff_request) : ff_request :=
  mk_request v (rq_version r) (rq_source r) (rq_received_at r) (rq_request_id r)
    (rq_options_length r) (rq_options r) (rq_payload_contains_options r)
    (rq_payload_length r) (rq_received_length r) (rq_payload r).

Definition set_version (v : Z) (r : ff_request) : ff_request :=
  mk_request (rq_state r) v (rq_source r) (rq_received_at r) (rq_request_id r)
    (rq_options_length r) (rq_options r) (rq_payload_contains_options r)
    (rq_payload_length r) (rq_received_length r) (rq_payload r).

Definition set_source (v : list Z) (r : ff_request) : ff_request :=
  mk_request (rq_state r) (rq_version r) v (rq_received_at r) (rq_request_id r)
    (rq_options_length r) (rq_options r) (rq_payload_contains_options r)
    (rq_payload_length r) (rq_received_length r) (rq_payload r).

Definition set_received_at (v : Z) (r : ff_request) : ff_request :=
  mk_request (rq_state r) (rq_version r) (rq_source r) v (rq_request_id r)
    (rq_options_length r) (rq_options r) (rq_payload_contains_options r)
    (rq_payload_length r) (rq_received_length r) (rq_payload r).

Definition set_request_id (v : Z) (r : ff_request) : ff_request :=
  mk_request (rq_state r) (rq_version r) (rq_source r) (rq_received_at r) v
    (rq_options_length r) (rq_options r) (rq_payload_contains_options r)
    (rq_payload_length r) (rq_received_length r) (rq_payload r).

Definition set_options (n : Z) (v : list ff_request_option_node) (r : ff_request) : ff_request :=
  mk_request (rq_state r) (rq_version r) (rq_source r) (rq_received_at r) (rq_request_id r)
    n v (rq_payload_contains_options r)
    (rq_payload_length r) (rq_received_length r) (rq_payload r).

Definition set_payload_contains_options (v : bool) (r : ff_request) : ff_request :=
  mk_request (rq_state r) (rq_version r) (rq_source r) (rq_received_at r) (rq_request_id r)
    (rq_options_length r) (rq_options r) v
    (rq_payload_length r) (rq_received_length r) (rq_payload r).

Definition set_payload_length (v : Z) (r : ff_request) : ff_request :=
  mk_request (rq_state r) (rq_version r) (rq_source r) (rq_received_at r) (rq_request_id r)
    (rq_options_length r) (rq_options r) (rq_payload_contains_options r)
    v (rq_received_length r) (rq_payload r).

Definition set_received_length (v : Z) (r : ff_request) : ff_request :=
  mk_request (rq_state r) (rq_version r) (rq_source r) (rq_received_at r) (rq_request_id r)
    (rq_options_length r) (rq_options r) (rq_payload_contains_options r)
    (rq_payload_length r) v (rq_payload r).

Definition set_payload (v : payload_ptr) (r : ff_request) : ff_request :=
  mk_request (rq_state r) (rq_version r) (rq_source r) (rq_received_at r) (rq_request_id r)
    (rq_options_length r) (rq_options r) (rq_payload_contains_options r)
    (rq_payload_length r) (rq_received_length r) v.

(** ** src/request.c *)

Definition ff_request_option_node_alloc : ff_request_option_node :=
  mk_option 0 0 [].

(** [malloc(buff_size * sizeof(buff))]: [sizeof(buff)] is the size of a
    pointer, so the block is eight times the bytes copied into it. *)
Definition load_buff (buff_size : Z) (buff : list Z) (off : Z) : res (list Z) :=
  bs ← mem_read buff off buff_size;
  mem_write (malloc (buff_size * 8)) 0 bs.

Definition ff_request_option_load_buff (node : ff_request_option_node)
    (buff_size : Z) (buff : list Z) (off : Z) : res ff_request_option_node :=
  v ← load_buff buff_size buff off;
  Ok (mk_option (opt_type node) (opt_length node) v).

Definition ff_request_payload_node_alloc : ff_request_payload_node :=
  mk_node 0 0 [].

Definition ff_request_payload_load_buff (node : ff_request_payload_node)
    (buff_size : Z) (buff : list Z) (off : Z) : res ff_request_payload_node :=
  v ← load_buff buff_size buff off;
  Ok (mk_node (node_offset node) (node_length node) v).

Definition ff_request_alloc : ff_request :=
  mk_request FF_REQUEST_STATE_RECEIVING 0 (replicate 16 0) 0 0 0 [] false 0 0
    (PayloadNodes []).

(** The blocks a request owns are freed with it; freeing it is an error when
    its payload was freed before, or when it has fewer option nodes than
    [options_length] says. *)
Definition ff_request_free (r : ff_request) : res unit :=
  _ ← guard_res (bool_decide (rq_options_length r <= zlen (rq_options r))) OutOfBounds;
  match rq_payload r with
  | PayloadNodes _ => Ok tt
  | PayloadDangling => Err DoubleFree
  end.

(** The [do] loop of [ff_request_vectorise_payload]. *)
Fixpoint vectorise_loop (value : list Z) (nodes : list ff_request_payload_node)
    : res (list Z) :=
  match nodes with
  | [] => Ok value
  | node :: rest =>
      bs ← mem_read (node_value node) 0 (node_length node);
      value' ← mem_write value (node_offset node) bs;
      vectorise_loop value' rest
  end.

Definition ff_request_vectorise_payload (r : ff_request) : res ff_request :=
  match rq_payload r with
  | PayloadDangling => Err UseAfterFree
  | PayloadNodes [] => Err NullDeref
  | PayloadNodes [_] => Ok r
  | PayloadNodes nodes =>
      value ← vectorise_loop (malloc (rq_payload_length r)) nodes;
      Ok (set_payload (PayloadNodes [mk_node 0 (u16 (rq_payload_length r)) value]) r)
  end.

(** ** src/constants.c *)

(** The bytes of a string literal, without the terminating NUL. *)
Fixpoint chars (s : String.string) : list Z :=
  match s with
  | String.EmptyString => []
  | String.String c s => Z.of_N (Ascii.N_of_ascii c) :: chars s
  end.

Definition HTTP_METHODS : list (list Z) :=
  [chars "GET"; chars "HEAD"; chars "POST"; chars "PUT"; chars "DELETE";
   chars "CONNECT"; chars "OPTIONS"; chars "TRACE"; chars "PATCH"].

(** ** Basic facts *)

Lemma load_buff_ok n buff off v :
  load_buff n buff off = Ok v <->
  0 <= off /\ 0 <= n /\ off + n <= zlen buff /\
  v = slice buff off n ++ replicate (7 * Z.to_nat n) indet.
Proof.
  unfold load_buff. rewrite bind_ok. split.
  - intros (bs & (?&?&?&->)%mem_read_ok & (?&?&->)%mem_write_ok).
    repeat split; try done. simpl. rewrite length_slice by done.
    unfold malloc. rewrite drop_replicate. do 2 f_equal. lia.
  - intros (?&?&?&->). exists (slice buff off n). split; [by apply mem_read_slice|].
    apply mem_write_ok. rewrite zlen_malloc, zlen_slice, length_slice by lia.
    repeat split; try lia. simpl. unfold malloc. rewrite drop_replicate.
    do 2 f_equal. lia.
Qed.

Lemma load_buff_slice n buff off :
  0 <= off -> 0 <= n -> off + n <= zlen buff ->
  load_buff n buff off = Ok (slice buff off n ++ replicate (7 * Z.to_nat n) indet).
Proof. intros. by apply load_buff_ok. Qed.
