(* ===== verification/Strings.v ===== *)
(** * Strings of the C library

    A C string is the list of its characters; the block it lies in has a NUL
    behind them.  The functions of the library the program calls on its
    arguments and for its messages: [strcasecmp], [strchr], [atoi],
    [sscanf("%u")] and the decimal conversions of [printf]. *)

From S2P Require Import Prelude Bytes Request.

(** The characters of a C string: bytes other than NUL. *)
Definition c_chars (s : list Z) : Prop := Forall (fun c => is_byte c /\ c <> 0) s.

(** The block of a string. *)
Definition c_block (s : list Z) : list Z := s ++ [0].

(** The bytes of a string before its NUL ([strlen] and the bytes it spans). *)
Fixpoint c_string (buff : list Z) : res (list Z) :=
  match buff with
  | [] => Err OutOfBounds
  | c :: buff =>
      if c =? indet then Err Indeterminate
      else if c =? 0 then Ok []
      else cons c <$> c_string buff
  end.

(** ** Characters *)

Definition tolower (c : Z) : Z := if (65 <=? c) && (c <=? 90) then c + 32 else c.

Definition isdigit (c : Z) : bool := (48 <=? c) && (c <=? 57).

Definition isalnum (c : Z) : bool :=
  ((48 <=? c) && (c <=? 57)) || ((65 <=? c) && (c <=? 90)) || ((97 <=? c) && (c <=? 122)).

(** Space, and the controls from HT to CR. *)
Definition isspace (c : Z) : bool := (c =? 32) || ((9 <=? c) && (c <=? 13)).

(** ** Comparison and search *)

(** The difference of the first characters that differ in more than case; the
    end of a string counts as NUL. *)
Fixpoint strcasecmp (a b : list Z) : Z :=
  match a, b with
  | [], [] => 0
  | [], y :: _ => - tolower y
  | x :: _, [] => tolower x
  | x :: a, y :: b =>
      if tolower x =? tolower y then strcasecmp a b else tolower x - tolower y
  end.

(** [strchr(s, c) != NULL] *)
Definition has_char (c : Z) (s : list Z) : bool := existsb (Z.eqb c) s.

(** ** Decimal numbers *)

Fixpoint skip_blanks (s : list Z) : list Z :=
  match s with
  | c :: rest => if isspace c then skip_blanks rest else s
  | [] => []
  end.

(** The optional sign, and what follows it. *)
Definition take_sign (s : list Z) : bool * list Z :=
  match s with
  | c :: rest => if c =? 45 then (true, rest) else if c =? 43 then (false, rest) else (false, s)
  | [] => (false, [])
  end.

(** The number the digits at the start of a string stand for, [acc] in front
    of them. *)
Fixpoint digits_value (acc : Z) (s : list Z) : Z :=
  match s with
  | c :: rest => if isdigit c then digits_value (10 * acc + (c - 48)) rest else acc
  | [] => acc
  end.

Definition clamp (lo hi x : Z) : Z := Z.max lo (Z.min hi x).

(** Conversion to [int]. *)
Definition s32 (x : Z) : Z := let u := x mod 2 ^ 32 in if u <? 2 ^ 31 then u else u - 2 ^ 32.

(** [(int) strtol(s, NULL, 10)], as the GNU library has it: the value is kept
    to the range of a [long] and then cut to an [int]. *)
Definition atoi (s : list Z) : Z :=
  let '(neg, s) := take_sign (skip_blanks s) in
  let n := digits_value 0 s in
  s32 (clamp (- 2 ^ 63) (2 ^ 63 - 1) (if neg : bool then - n else n)).

(** [sscanf(s, "%u", &x)]: the value stored in [x], [None] if there is no
    number and [x] is left alone.  A number of more than 64 bits is the
    largest [unsigned long]; a minus sign negates modulo 2^64. *)
Definition sscanf_u (s : list Z) : option Z :=
  let '(neg, s) := take_sign (skip_blanks s) in
  match s with
  | c :: _ =>
      if isdigit c then
        let n := digits_value 0 s in
        Some (u32 (if n <? 2 ^ 64 then u64 (if neg : bool then - n else n) else 2 ^ 64 - 1))
      else None
  | [] => None
  end.

(** The decimal digits of a number below [10 ^ fuel]. *)
Fixpoint digits_rev (fuel : nat) (n : Z) : list Z :=
  match fuel with
  | O => []
  | S fuel => 48 + n mod 10 :: if n <? 10 then [] else digits_rev fuel (n / 10)
  end.

(** [%lu] and [%u]: 20 digits are enough for 64 bits. *)
Definition show_unsigned (n : Z) : list Z := rev (digits_rev 20 n).

(** [%d] *)
Definition show_int (n : Z) : list Z :=
  if n <? 0 then 45 :: show_unsigned (- n) else show_unsigned n.

(** [%02d] *)
Definition show_two (n : Z) : list Z := [48 + n / 10 mod 10; 48 + n mod 10].

Arguments show_unsigned _ : simpl never.
Arguments atoi _ : simpl never.
Arguments sscanf_u _ : simpl never.

(** ** Facts *)

(** [lia] with quotients and remainders by constants. *)
Ltac div_lia := Z.div_mod_to_equations; lia.

Definition caseless (s : list Z) : list Z := map tolower s.

Lemma tolower_pos c : 0 < c -> 0 < tolower c.
Proof. unfold tolower. case_match; lia. Qed.

Lemma strcasecmp_eq a b : c_chars a -> c_chars b ->
  (strcasecmp a b =? 0) = bool_decide (caseless a = caseless b).
Proof.
  assert (forall c : Z, is_byte c /\ c <> 0 -> 0 < tolower c) as Hpos.
  { intros c [Hc Hc0]. apply tolower_pos. unfold is_byte in Hc. lia. }
  intros Ha. revert b. induction Ha as [|x a Hx Ha IH]; intros b Hb; inversion Hb as [|y b' Hy Hb'];
    subst; cbn [strcasecmp caseless map].
  - done.
  - specialize (Hpos _ Hy). rewrite bool_decide_eq_false_2 by done. apply Z.eqb_neq. lia.
  - specialize (Hpos _ Hx). rewrite bool_decide_eq_false_2 by done. apply Z.eqb_neq. lia.
  - destruct (Z.eqb_spec (tolower x) (tolower y)) as [E|E].
    + rewrite (IH _ Hb'). apply bool_decide_ext. unfold caseless. rewrite E. split; [by intros ->|].
      by intros [= ?].
    + rewrite bool_decide_eq_false_2 by naive_solver. apply Z.eqb_neq. lia.
Qed.

Lemma c_string_block s rest : c_chars s -> c_string (c_block s ++ rest) = Ok s.
Proof.
  unfold c_block. rewrite <- app_assoc. induction 1 as [|c s [Hc Hc0] _ IH]; [done|].
  cbn [app c_string]. unfold is_byte in Hc.
  rewrite (proj2 (Z.eqb_neq c indet)), (proj2 (Z.eqb_neq c 0)) by (unfold indet; lia).
  cbn [app] in IH. by rewrite IH.
Qed.

Lemma zlen_c_block s : zlen (c_block s) = zlen s + 1.
Proof. unfold c_block. by rewrite zlen_app. Qed.

Lemma isdigit_range c : isdigit c = true <-> 48 <= c <= 57.
Proof. unfold isdigit. rewrite andb_true_iff, !Z.leb_le. done. Qed.

Lemma isdigit_plain c : isdigit c = true -> isspace c = false /\ c <> 45 /\ c <> 43.
Proof. rewrite isdigit_range. unfold isspace. lia. Qed.

Lemma digits_value_app acc a b : forallb isdigit a = true ->
  digits_value acc (a ++ b) = digits_value (digits_value acc a) b.
Proof.
  revert acc. induction a as [|c a IH]; intros acc Ha; [done|].
  cbn [forallb] in Ha. apply andb_true_iff in Ha as [Hc Ha].
  cbn [app digits_value]. rewrite Hc. by apply IH.
Qed.

Lemma digits_rev_digits fuel n : 0 <= n -> forallb isdigit (digits_rev fuel n) = true.
Proof.
  revert n. induction fuel as [|fuel IH]; intros n Hn; [done|].
  cbn [digits_rev forallb]. apply andb_true_iff. split; [apply isdigit_range; div_lia|].
  case_match; [done|]. apply IH. div_lia.
Qed.

Lemma forallb_rev {A} (f : A -> bool) l : forallb f (rev l) = forallb f l.
Proof.
  induction l as [|x l IH]; [done|]. cbn [rev forallb].
  rewrite forallb_app, IH. cbn [forallb]. rewrite andb_true_r. apply andb_comm.
Qed.

Lemma show_unsigned_digits n : 0 <= n -> forallb isdigit (show_unsigned n) = true.
Proof. intros. unfold show_unsigned. rewrite forallb_rev. by apply digits_rev_digits. Qed.

Lemma digits_rev_value fuel n : 0 <= n < 10 ^ Z.of_nat fuel ->
  digits_value 0 (rev (digits_rev fuel n)) = n.
Proof.
  revert n. induction fuel as [|fuel IH]; intros n Hn; [cbn in *; lia|].
  rewrite Nat2Z.inj_succ, Z.pow_succ_r in Hn by lia.
  cbn [digits_rev rev]. destruct (Z.ltb_spec n 10) as [Hlt|Hge].
  - rewrite Z.mod_small by lia. cbn [rev app digits_value].
    rewrite (proj2 (isdigit_range _)) by lia. lia.
  - rewrite digits_value_app by (rewrite forallb_rev; apply digits_rev_digits; div_lia).
    rewrite IH by div_lia. cbn [digits_value]. rewrite (proj2 (isdigit_range _)) by div_lia. div_lia.
Qed.

Lemma show_unsigned_value n : 0 <= n < 2 ^ 64 -> digits_value 0 (show_unsigned n) = n.
Proof. intros. apply digits_rev_value. change (10 ^ Z.of_nat 20) with 100000000000000000000. lia. Qed.

(** A string of digits starts with one. *)
Lemma show_unsigned_cons n : 0 <= n -> exists c s, show_unsigned n = c :: s /\ isdigit c = true.
Proof.
  intros Hn. pose proof (show_unsigned_digits n Hn) as Hd. destruct (show_unsigned n) as [|c s] eqn:E.
  - exfalso. apply (f_equal length) in E. unfold show_unsigned in E. rewrite length_rev in E.
    cbn in E. lia.
  - exists c, s. split; [done|]. cbn [forallb] in Hd. by apply andb_true_iff in Hd as [? _].
Qed.

Lemma show_unsigned_chars n : 0 <= n -> c_chars (show_unsigned n).
Proof.
  intros Hn. apply Forall_forall. intros c Hc. pose proof (show_unsigned_digits n Hn) as Hd.
  rewrite forallb_forall in Hd. apply list_elem_of_In, Hd, isdigit_range in Hc.
  unfold is_byte. lia.
Qed.

Lemma s32_small x : - 2 ^ 31 <= x < 2 ^ 31 -> s32 x = x.
Proof. intros. unfold s32. cbv zeta. case_match; div_lia. Qed.

Lemma s32_range x : - 2 ^ 31 <= s32 x < 2 ^ 31.
Proof. unfold s32. cbv zeta. pose proof (Z.mod_pos_bound x (2 ^ 32)). case_match; lia. Qed.

(** What follows the digits is not read. *)
Lemma atoi_digits n rest : 0 <= n < 2 ^ 31 ->
  match rest with c :: _ => isdigit c = false | [] => True end ->
  atoi (show_unsigned n ++ rest) = n.
Proof.
  intros Hn Hrest. destruct (show_unsigned_cons n) as (c&s&E&Hc); [lia|].
  destruct (isdigit_plain c Hc) as (Hsp&H45&H43). unfold atoi. rewrite E. cbn [app skip_blanks].
  rewrite Hsp. cbn [take_sign]. rewrite (proj2 (Z.eqb_neq c 45)), (proj2 (Z.eqb_neq c 43)) by done.
  change (c :: s ++ rest) with ((c :: s) ++ rest). rewrite <- E.
  rewrite digits_value_app by (apply show_unsigned_digits; lia). rewrite show_unsigned_value by lia.
  assert (digits_value n rest = n) as ->.
  { destruct rest as [|d rest]; [done|]. cbn [digits_value]. by rewrite Hrest. }
  rewrite s32_small; unfold clamp; lia.
Qed.

Lemma atoi_show n : 0 <= n < 2 ^ 31 -> atoi (show_unsigned n) = n.
Proof. intros. rewrite <- (app_nil_r (show_unsigned n)). by apply atoi_digits. Qed.

Lemma atoi_minus n : 0 <= n <= 2 ^ 31 -> atoi (45 :: show_unsigned n) = - n.
Proof.
  intros Hn. unfold atoi. cbn [skip_blanks]. change (isspace 45) with false. cbn [take_sign].
  change (45 =? 45) with true. cbv iota zeta. rewrite show_unsigned_value by lia.
  rewrite s32_small; unfold clamp; lia.
Qed.

Lemma sscanf_u_show n : 0 <= n < 2 ^ 32 -> sscanf_u (show_unsigned n) = Some n.
Proof.
  intros Hn. destruct (show_unsigned_cons n) as (c&s&E&Hc); [lia|].
  destruct (isdigit_plain c Hc) as (Hsp&H45&H43). unfold sscanf_u. rewrite E. cbn [skip_blanks].
  rewrite Hsp. cbn [take_sign]. rewrite (proj2 (Z.eqb_neq c 45)), (proj2 (Z.eqb_neq c 43)) by done.
  rewrite Hc. rewrite <- E, show_unsigned_value by lia. rewrite (proj2 (Z.ltb_lt n _)) by lia.
  by rewrite u64_small, u32_small by lia.
Qed.

Lemma sscanf_u_minus n : 0 < n < 2 ^ 32 -> sscanf_u (45 :: show_unsigned n) = Some (2 ^ 32 - n).
Proof.
  intros Hn. destruct (show_unsigned_cons n) as (c&s&E&Hc); [lia|].
  unfold sscanf_u. cbn [skip_blanks]. change (isspace 45) with false. cbn [take_sign].
  change (45 =? 45) with true. cbv iota zeta. rewrite E, Hc. rewrite <- E, show_unsigned_value by lia.
  rewrite (proj2 (Z.ltb_lt n _)) by lia. unfold u32, u64. f_equal. div_lia.
Qed.
