(* ===== verification/Logging.v ===== *)
(** * Logging: src/logging.h and src/logging.c

    A call of [ff_log] is given the level kept in the static variable and the
    local time; its result is what it prints.  The buffers it formats into are
    modelled with their sizes. *)

From S2P Require Import Prelude Bytes Request Strings.

Definition FF_DEBUG : Z := 1.
Definition FF_INFO : Z := 2.
Definition FF_WARNING : Z := 3.
Definition FF_ERROR : Z := 4.
Definition FF_FATAL : Z := 5.

(** ** The level *)

(** The value of [ff_log_level] before it is set. *)
Definition initial_log_level : Z := FF_DEBUG.

(** The new value of [ff_log_level]. *)
Definition ff_set_logging_level (level ff_log_level : Z) : Z := level.

(** ** The time *)

Record tm : Type := mk_tm {
  tm_year : Z;           (* years since 1900 *)
  tm_mon : Z;            (* 0 to 11 *)
  tm_mday : Z;
  tm_hour : Z;
  tm_min : Z;
  tm_sec : Z;
}.

(** The conversions of [strftime] for the parts of a date. *)
Definition strftime_field (c : Z) (t : tm) : list Z :=
  if c =? 89 (* Y *) then show_int (1900 + tm_year t)
  else if c =? 109 (* m *) then show_two (tm_mon t + 1)
  else if c =? 100 (* d *) then show_two (tm_mday t)
  else if c =? 72 (* H *) then show_two (tm_hour t)
  else if c =? 73 (* I, the hour on a clock of twelve *) then
    show_two (if tm_hour t mod 12 =? 0 then 12 else tm_hour t mod 12)
  else if c =? 77 (* M *) then show_two (tm_min t)
  else if c =? 83 (* S *) then show_two (tm_sec t)
  else [37; c].

Fixpoint strftime_text (format : list Z) (t : tm) : list Z :=
  match format with
  | [] => []
  | c :: rest =>
      if c =? 37 then
        match rest with
        | d :: rest => strftime_field d t ++ strftime_text rest t
        | [] => []
        end
      else c :: strftime_text rest t
  end.

(** [strftime] into a block: nothing is determinate in it if the text does
    not fit. *)
Definition strftime (block : list Z) (format : list Z) (t : tm) : list Z :=
  let text := c_block (strftime_text format t) in
  if zlen text <=? zlen block then text ++ drop (length text) block
  else map (fun _ => indet) block.

(** ** Formatted messages *)

Inductive printf_arg : Type :=
  | PInt (n : Z)
  | PString (s : list Z).

(** The conversions the messages of the program use: [%s], [%d], [%u], [%hu],
    [%lu] and [%.*s]; an argument that is missing, or of the wrong kind, is
    undefined. *)
Fixpoint printf_text (format : list Z) (args : list printf_arg) : res (list Z) :=
  match format with
  | [] => Ok []
  | c :: rest =>
      if negb (c =? 37) then cons c <$> printf_text rest args
      else
        match rest with
        | [] => Err Indeterminate
        | d :: rest =>
            if d =? 115 (* s *) then
              match args with
              | PString s :: args => app s <$> printf_text rest args
              | _ => Err Indeterminate
              end
            else if d =? 100 (* d *) then
              match args with
              | PInt n :: args => app (show_int n) <$> printf_text rest args
              | _ => Err Indeterminate
              end
            else if d =? 117 (* u *) then
              match args with
              | PInt n :: args => app (show_unsigned n) <$> printf_text rest args
              | _ => Err Indeterminate
              end
            else if (d =? 104) || (d =? 108) (* hu, lu *) then
              match rest, args with
              | 117 :: rest, PInt n :: args => app (show_unsigned n) <$> printf_text rest args
              | _, _ => Err Indeterminate
              end
            else if d =? 46 then
              match rest, args with
              | 42 :: 115 :: rest, PInt n :: PString s :: args =>
                  app (take (Z.to_nat n) s) <$> printf_text rest args
              | _, _ => Err Indeterminate
              end
            else Err Indeterminate
        end
  end.

Definition vsprintf (block : list Z) (format : list Z) (args : list printf_arg) : res (list Z) :=
  text ← printf_text format args;
  mem_write block 0 (c_block text).

Definition log_prefix (type : Z) : list Z :=
  if type =? FF_DEBUG then chars "DEBUG"
  else if type =? FF_INFO then chars "INFO"
  else if type =? FF_WARNING then chars "WARNING"
  else if type =? FF_ERROR then chars "ERROR"
  else if type =? FF_FATAL then chars "FATAL"
  else chars "UNKNOWN".

(** What the call prints. *)
Definition ff_log (ff_log_level : Z) (nowinfo : tm) (type : Z) (message : list Z)
    (args : list printf_arg) : res (list Z) :=
  if type <? ff_log_level then Ok []
  else
    let time_str := strftime (malloc 20) (chars "%Y-%m-%d %H:%I:%S") nowinfo in
    full_message ← vsprintf (malloc 255) message args;
    time ← c_string time_str;
    text ← c_string full_message;
    Ok (chars "[" ++ time ++ chars "] " ++ log_prefix type ++ chars " " ++ text ++ [10]).

(** A call inside a function: the level and the local time it finds; what it
    prints is dropped, a fault is not. *)
Record log_env : Type := mk_log_env {
  lg_level : Z;
  lg_now : tm;
}.

Definition log (lg : log_env) (type : Z) (message : list Z) (args : list printf_arg) : res unit :=
  _ ← ff_log (lg_level lg) (lg_now lg) type message args; Ok tt.
