(* ===== verification/LoggingFacts.v ===== *)
(** * Facts about the log

    The text a call of [ff_log] prints, and a bound on its length that a
    message and its arguments give. *)

From S2P Require Import Prelude Bytes Request Strings Logging.

(** ** The buffers *)

Lemma length_digits_rev fuel n k : 0 <= n < 10 ^ Z.of_nat (S k) ->
  (length (digits_rev fuel n) <= S k)%nat.
Proof.
  revert n k. induction fuel as [|fuel IH]; intros n k Hn; [cbn; lia|].
  cbn [digits_rev length]. destruct (Z.ltb_spec n 10) as [Hlt|Hge]; [cbn; lia|].
  destruct k as [|k]; [change (10 ^ Z.of_nat 1) with 10 in Hn; lia|].
  rewrite (Nat2Z.inj_succ (S k)), Z.pow_succ_r in Hn by lia.
  specialize (IH (n / 10) k ltac:(div_lia)). lia.
Qed.

Lemma digit_char n : is_byte (48 + n mod 10) /\ 48 + n mod 10 <> 0.
Proof. unfold is_byte. split; div_lia. Qed.

Lemma show_two_chars n : c_chars (show_two n).
Proof. repeat constructor; apply digit_char. Qed.

(** The format of the time. *)
Definition time_text (nowinfo : tm) : list Z := strftime_text (chars "%Y-%m-%d %H:%I:%S") nowinfo.

(** The years [strftime] writes with four digits at most. *)
Definition year_fits (nowinfo : tm) : Prop := 0 <= 1900 + tm_year nowinfo <= 9999.

Lemma time_text_eq t : year_fits t ->
  time_text t = show_unsigned (1900 + tm_year t) ++ chars "-" ++ show_two (tm_mon t + 1) ++
    chars "-" ++ show_two (tm_mday t) ++ chars " " ++ show_two (tm_hour t) ++ chars ":" ++
    show_two (if tm_hour t mod 12 =? 0 then 12 else tm_hour t mod 12) ++ chars ":" ++
    show_two (tm_sec t).
Proof.
  intros [Hy _]. unfold time_text. change (chars "%Y-%m-%d %H:%I:%S") with
    [37; 89; 45; 37; 109; 45; 37; 100; 32; 37; 72; 58; 37; 73; 58; 37; 83].
  cbn [strftime_text Z.eqb Pos.eqb]. unfold strftime_field. cbn [Z.eqb Pos.eqb].
  unfold show_int. rewrite (proj2 (Z.ltb_ge _ _)) by done. by rewrite app_nil_r.
Qed.

Lemma time_text_chars t : year_fits t -> c_chars (time_text t).
Proof.
  intros Hy. rewrite time_text_eq by done.
  repeat first [apply show_unsigned_chars, Hy | apply show_two_chars | apply Forall_app; split
    | decide_compute].
Qed.

Lemma time_text_length t : year_fits t -> zlen (time_text t) <= 19.
Proof.
  intros Hy. rewrite time_text_eq by done. rewrite !zlen_app.
  assert (forall n, zlen (show_two n) = 2) as Htwo by done. rewrite !Htwo.
  change (zlen (chars "-")) with 1. change (zlen (chars " ")) with 1.
  change (zlen (chars ":")) with 1.
  assert (zlen (show_unsigned (1900 + tm_year t)) <= 4); [|lia].
  unfold show_unsigned. rewrite zlen_rev. unfold zlen.
  pose proof (length_digits_rev 20 (1900 + tm_year t) 3) as Hl. destruct Hy.
  change (10 ^ Z.of_nat 4) with 10000 in Hl. specialize (Hl ltac:(lia)). lia.
Qed.

Lemma strftime_string t : year_fits t ->
  c_string (strftime (malloc 20) (chars "%Y-%m-%d %H:%I:%S") t) = Ok (time_text t).
Proof.
  intros Hy. unfold strftime. fold (time_text t). rewrite zlen_c_block.
  pose proof (time_text_length t Hy). rewrite (proj2 (Z.leb_le _ _)) by (rewrite zlen_malloc; lia).
  by apply c_string_block, time_text_chars.
Qed.

(** The line of a message. *)
Definition log_line (nowinfo : tm) (type : Z) (text : list Z) : list Z :=
  chars "[" ++ time_text nowinfo ++ chars "] " ++ log_prefix type ++ chars " " ++ text ++ [10].

Lemma ff_log_text level nowinfo type message args text :
  year_fits nowinfo -> printf_text message args = Ok text -> c_chars text ->
  ff_log level nowinfo type message args =
    if type <? level then Ok []
    else if 254 <? zlen text then Err OutOfBounds
    else Ok (log_line nowinfo type text).
Proof.
  intros Hy Ht Hc. unfold ff_log. destruct (type <? level); [done|].
  unfold vsprintf. rewrite Ht. cbn [mbind res_bind]. unfold mem_write.
  rewrite zlen_c_block, zlen_malloc by lia. pose proof (zlen_nonneg text).
  destruct (Z.ltb_spec 254 (zlen text)).
  - by rewrite bool_decide_eq_false_2 by lia.
  - rewrite bool_decide_eq_true_2 by lia. cbn [mbind res_bind]. rewrite strftime_string by done.
    cbn [mbind res_bind]. change (take (Z.to_nat 0) (malloc 255)) with (@nil Z). cbn [app].
    by rewrite c_string_block.
Qed.

Lemma ff_log_overflow level nowinfo type message args text :
  year_fits nowinfo -> printf_text message args = Ok text -> c_chars text ->
  level <= type -> 254 < zlen text -> ff_log level nowinfo type message args = Err OutOfBounds.
Proof.
  intros Hy Ht Hc Hl Hz. rewrite (ff_log_text _ _ _ _ _ text) by done.
  by rewrite (proj2 (Z.ltb_ge _ _)), (proj2 (Z.ltb_lt _ _)) by lia.
Qed.

(** The minutes are not printed: the format has the hour a second time. *)
Lemma log_without_minutes level type message args y mo d h m1 m2 s :
  ff_log level (mk_tm y mo d h m1 s) type message args =
  ff_log level (mk_tm y mo d h m2 s) type message args.
Proof. done. Qed.

(** ** The size of a message *)

(** At most this many characters; [None] if a conversion has no argument. *)
Fixpoint text_bound (format : list Z) (args : list printf_arg) : option Z :=
  match format with
  | [] => Some 0
  | c :: rest =>
      if negb (c =? 37) then Z.add 1 <$> text_bound rest args
      else
        match rest, args with
        | 115 :: rest, PString s :: args => Z.add (zlen s) <$> text_bound rest args
        | 100 :: rest, PInt n :: args => Z.add 21 <$> text_bound rest args
        | 46 :: 42 :: 115 :: rest, PInt n :: PString s :: args =>
            Z.add (Z.max 0 n) <$> text_bound rest args
        | _, _ => None
        end
  end.

Definition arg_ok (a : printf_arg) : Prop :=
  match a with PInt _ => True | PString s => c_chars s end.

Lemma length_digits fuel n : (length (digits_rev fuel n) <= fuel)%nat.
Proof.
  revert n. induction fuel as [|fuel IH]; intros n; cbn; [lia|].
  case_match; cbn; [lia|]. specialize (IH (n / 10)). lia.
Qed.

Lemma show_int_ok n : c_chars (show_int n) /\ zlen (show_int n) <= 21.
Proof.
  assert (forall m, zlen (show_unsigned m) <= 20) as Hl.
  { intros m. unfold show_unsigned. rewrite zlen_rev. pose proof (length_digits 20 m).
    unfold zlen. lia. }
  unfold show_int. destruct (Z.ltb_spec n 0).
  - split; [apply Forall_cons; split; [done|apply show_unsigned_chars; lia]|].
    rewrite zlen_cons. specialize (Hl (- n)). lia.
  - split; [by apply show_unsigned_chars|]. specialize (Hl n). lia.
Qed.

Lemma text_bound_ok format : forall args b,
  c_chars format -> Forall arg_ok args -> text_bound format args = Some b ->
  exists text, printf_text format args = Ok text /\ c_chars text /\ zlen text <= b.
Proof.
  assert (forall (s : list Z) (o : option Z) (k b : Z) (m : res (list Z)),
    c_chars s -> zlen s <= k -> Z.add k <$> o = Some b ->
    (forall b', o = Some b' -> exists t, m = Ok t /\ c_chars t /\ zlen t <= b') ->
    exists t, app s <$> m = Ok t /\ c_chars t /\ zlen t <= b) as Happ.
  { intros s o k b m Hs Hk Ho Hm. destruct o as [b'|]; [|done]. injection Ho as <-.
    destruct (Hm b' eq_refl) as (t&->&Ht&Hz). exists (s ++ t). split_and!; [done| |].
    - by apply Forall_app.
    - rewrite zlen_app. lia. }
  induction format as [format IH] using (induction_ltof1 _ (@length Z)). unfold ltof in IH.
  intros args b Hc Ha Hb.
  destruct format as [|c rest]; [injection Hb as <-; by exists []|].
  apply Forall_cons in Hc as [Hc Hrest]. cbn [text_bound printf_text] in *.
  destruct (Z.eqb_spec c 37) as [->|Hne]; cbn [negb] in *.
  - destruct rest as [|d rest]; [done|]. apply Forall_cons in Hrest as [Hd Hrest].
    destruct (decide (d = 115)) as [->|H115].
    { destruct args as [|[n|s] args]; try done. apply Forall_cons in Ha as [Hs Ha].
      cbn [Z.eqb Pos.eqb]. eapply (Happ s); [done|reflexivity|exact Hb|].
      intros b' Hb'. apply (IH rest); [cbn; lia|done..]. }
    destruct (decide (d = 100)) as [->|H100].
    { destruct args as [|[n|s] args]; try done. apply Forall_cons in Ha as [Hs Ha].
      cbn [Z.eqb Pos.eqb]. destruct (show_int_ok n) as [Hn Hz].
      eapply (Happ (show_int n)); [done|exact Hz|exact Hb|].
      intros b' Hb'. apply (IH rest); [cbn; lia|done..]. }
    destruct (decide (d = 46)) as [->|H46]; [|exfalso; by repeat (case_match; try done)].
    destruct rest as [|e [|f rest]]; [by repeat (case_match; try done)..|].
    destruct (decide (e = 42)) as [->|He]; [|exfalso; by repeat (case_match; try done)].
    destruct (decide (f = 115)) as [->|Hf]; [|exfalso; by repeat (case_match; try done)].
    destruct args as [|[n|s] [|[n'|s'] args]]; try done.
    apply Forall_cons in Ha as [_ Ha]. apply Forall_cons in Ha as [Hs Ha]. cbn [arg_ok] in Hs.
    cbn [Z.eqb Pos.eqb orb]. eapply (Happ (take (Z.to_nat n) s')); [by apply Forall_take| |exact Hb|].
    + unfold zlen. rewrite length_take. lia.
    + intros b' Hb'.
      apply (IH rest); [cbn; lia|by repeat apply Forall_cons in Hrest as [_ Hrest]|done..].
  - assert (forall m : res (list Z), cons c <$> m = app [c] <$> m) as -> by (by intros []).
    eapply (Happ [c]); [by apply Forall_cons|reflexivity|exact Hb|].
    intros b' Hb'. apply (IH rest); [cbn; lia|done..].
Qed.

(** A message that fits the buffer, or is below the level, is logged without
    a fault. *)
Lemma log_ok lg type message args b :
  year_fits (lg_now lg) -> c_chars message -> Forall arg_ok args ->
  text_bound message args = Some b -> (lg_level lg <= type -> b <= 254) ->
  log lg type message args = Ok tt.
Proof.
  intros Hy Hm Ha Hb Hfit. destruct (text_bound_ok message args b Hm Ha Hb) as (text&Ht&Hc&Hz).
  unfold log. rewrite (ff_log_text _ _ _ _ _ text) by done.
  destruct (Z.ltb_spec type (lg_level lg)) as [|Hle]; [done|].
  specialize (Hfit Hle). by rewrite (proj2 (Z.ltb_ge _ _)) by lia.
Qed.
