(* ===== verification/Args.v ===== *)
(** * Reading a command line

    The specification of the two parsers of arguments.  A command line is a
    sequence of items: flags, and options with a value.  [reading] splits the
    arguments into the items before the point where the parser stops, and the
    reason why it stops there.  The names are compared without regard to
    case. *)

From stdpp Require Import finite.
From S2P Require Import Prelude Bytes Request Strings.

Definition named (arg name : list Z) : Prop := caseless arg = name.
#[export] Instance named_dec arg name : Decision (named arg name).
Proof. unfold named. apply _. Defined.

Section Reading.
Context {F V : Type}.
Variables (flag_name : F -> list Z) (option_name : V -> list Z).
Variable valid : V -> list Z -> Prop.

Inductive item : Type :=
  | Flag (f : F)
  | Value (v : V) (arg : list Z).

Inductive ending : Type :=
  | EndOfArgs
  | MissingValue (v : V)                  (** the last argument is the name of an option *)
  | Help
  | Version
  | UnknownArg (arg : list Z)
  | BadValue (v : V) (arg : list Z).

Inductive reading : list (list Z) -> list item -> ending -> Prop :=
  | reading_end : reading [] [] EndOfArgs
  | reading_missing a v : named a (option_name v) -> reading [a] [] (MissingValue v)
  | reading_help a rest : named a (chars "--help") -> reading (a :: rest) [] Help
  | reading_version a rest : named a (chars "--version") -> reading (a :: rest) [] Version
  | reading_unknown a rest :
      ~ named a (chars "--help") -> ~ named a (chars "--version") ->
      (forall f, ~ named a (flag_name f)) -> (forall v, ~ named a (option_name v)) ->
      reading (a :: rest) [] (UnknownArg a)
  | reading_bad a v arg rest :
      named a (option_name v) -> ~ valid v arg -> reading (a :: arg :: rest) [] (BadValue v arg)
  | reading_flag a f rest items e :
      named a (flag_name f) -> reading rest items e -> reading (a :: rest) (Flag f :: items) e
  | reading_value a v arg rest items e :
      named a (option_name v) -> valid v arg -> reading rest items e ->
      reading (a :: arg :: rest) (Value v arg :: items) e.

(** Every command line has a reading. *)
Lemma reading_total `{!EqDecision F, !Finite F, !EqDecision V, !Finite V}
    `{!forall v arg, Decision (valid v arg)} args : exists items e, reading args items e.
Proof.
  remember (length args) as n eqn:Hn. assert (length args <= n)%nat as Hle by lia. clear Hn.
  revert args Hle. induction n as [|n IH]; intros [|a rest] Hle; cbn [length] in Hle; [|lia| |].
  1, 2: exists [], EndOfArgs; constructor.
  destruct (decide (named a (chars "--help"))) as [Hh|Hh]; [exists [], Help; by constructor|].
  destruct (decide (named a (chars "--version"))) as [Hv|Hv]; [exists [], Version; by constructor|].
  destruct (decide (exists f, named a (flag_name f))) as [[f Hf]|Hf].
  { destruct (IH rest ltac:(lia)) as (items&e&Hr). exists (Flag f :: items), e. by constructor. }
  destruct (decide (exists v, named a (option_name v))) as [[v Ho]|Ho].
  2: { exists [], (UnknownArg a). constructor; naive_solver. }
  destruct rest as [|arg rest]; [exists [], (MissingValue v); by constructor|].
  destruct (decide (valid v arg)) as [Hval|Hval]; [|exists [], (BadValue v arg); by constructor].
  cbn [length] in Hle. destruct (IH rest ltac:(lia)) as (items&e&Hr).
  exists (Value v arg :: items), e. by constructor.
Qed.

(** A command line that is read to its end can be continued. *)
Lemma reading_app args items rest more e :
  reading args items EndOfArgs -> reading rest more e -> reading (args ++ rest) (items ++ more) e.
Proof.
  intros Hr Hm. remember EndOfArgs as e0 eqn:E0. revert E0.
  induction Hr; intros E0; try done; cbn [app]; constructor; auto.
Qed.

(** The last item that says something about a setting. *)
Definition last_with {A} (g : item -> option A) (items : list item) : option A :=
  last (omap g items).

Lemma last_with_cons {A} (g : item -> option A) it items (d : A) :
  default d (last_with g (it :: items)) = default (default d (g it)) (last_with g items).
Proof.
  unfold last_with. cbn [omap list_omap]. destruct (g it) as [x|]; cbn; [|done].
  rewrite last_cons. by destruct (last (omap g items)).
Qed.

Lemma last_with_snoc {A} (g : item -> option A) items it :
  last_with g (items ++ [it]) = match g it with Some x => Some x | None => last_with g items end.
Proof.
  unfold last_with. rewrite omap_app. cbn [omap list_omap]. destruct (g it); [apply last_snoc|].
  by rewrite app_nil_r.
Qed.

Lemma last_with_some {A} (g : item -> option A) items x :
  last_with g items = Some x -> exists it, it ∈ items /\ g it = Some x.
Proof.
  unfold last_with. intros Hx. apply last_Some_elem_of in Hx.
  apply list_elem_of_omap in Hx as (it&Hit&Hg). by exists it.
Qed.

(** The value of the last option [v]. *)
Definition value_of `{!EqDecision V} (v : V) (it : item) : option (list Z) :=
  match it with Value w arg => if decide (w = v) then Some arg else None | Flag _ => None end.

Definition last_value `{!EqDecision V} (v : V) (items : list item) : option (list Z) :=
  last_with (value_of v) items.

Lemma last_value_cons `{!EqDecision V} v w arg items :
  last_value v (Value w arg :: items) =
    if decide (w = v) then Some (default arg (last_value v items)) else last_value v items.
Proof.
  unfold last_value, last_with. cbn [omap list_omap value_of]. case_decide; [|done].
  rewrite last_cons. by destruct (last _).
Qed.

(** The values of a reading are valid. *)
Lemma reading_valid args items e v arg :
  reading args items e -> Value v arg ∈ items -> valid v arg.
Proof.
  induction 1 as [| | | | | |a f rest items e Hn Hr IH|a w b rest items e Hn Hv Hr IH];
    intros Hin; try set_solver.
  all: apply elem_of_cons in Hin as [[= ? ?]|Hin]; subst; eauto.
Qed.

Lemma last_value_valid `{!EqDecision V} args items e v arg :
  reading args items e -> last_value v items = Some arg -> valid v arg.
Proof.
  intros Hr Hl. apply last_with_some in Hl as (it&Hin&Hg). destruct it as [f|w b]; [done|].
  cbn in Hg. case_decide; [|done]. simplify_eq. by eapply reading_valid.
Qed.
End Reading.

Arguments item F V : clear implicits.
Arguments ending V : clear implicits.
