(* ===== verification/Parser.v ===== *)
(** * The packet parser: src/parser.c

    Every function takes the buffer it reads, [buff] with an offset where the
    code passes [buff + i], and the number [buff_size] of bytes the caller
    declares valid; the block itself may be larger.  All reads are checked
    against the block, so [Ok] means that no read left it. *)

From S2P Require Import Prelude Bytes Request Strings.

(** [sizeof] of the packed wire structures of request.h. *)
Definition sizeof_raw_ff_request_header : Z := 20.
Definition sizeof_raw_ff_request_option_header : Z := 3.

(** [strncmp] of a string literal and [buff + off]. *)
Fixpoint strncmp (n : nat) (s : list Z) (buff : list Z) (off : Z) : res Z :=
  match n with
  | O => Ok 0
  | S n =>
      let c := default 0 (head s) in
      d ← load_byte buff off;
      if c =? d then
        if c =? 0 then Ok 0 else strncmp n (tail s) buff (off + 1)
      else Ok (c - d)
  end.

Fixpoint is_raw_http_loop (methods : list (list Z)) (buff_size : Z) (buff : list Z)
    : res bool :=
  match methods with
  | [] => Ok false
  | m :: rest =>
      if buff_size <? zlen m then Ok false
      else
        c ← strncmp (length m) m buff 0;
        if c =? 0 then Ok true else is_raw_http_loop rest buff_size buff
  end.

Definition ff_request_is_raw_http (buff_size : Z) (buff : list Z) : res bool :=
  if buff_size =? 0 then Ok false
  else is_raw_http_loop HTTP_METHODS buff_size buff.

Definition ff_request_parse_raw_http (r : ff_request) (buff_size : Z) (buff : list Z)
    : res ff_request :=
  let r := set_version FF_VERSION_RAW r in
  let r := set_state FF_REQUEST_STATE_RECEIVED r in
  let r := set_payload_length buff_size r in
  let r := set_received_length buff_size r in
  let node := mk_node (node_offset ff_request_payload_node_alloc) (u16 buff_size)
                (node_value ff_request_payload_node_alloc) in
  node ← ff_request_payload_load_buff node buff_size buff 0;
  Ok (set_payload (PayloadNodes [node]) r).

(** The overlap test of the insertion loop. *)
Definition overlaps (node cur : ff_request_payload_node) : bool :=
  (node_offset node <? node_offset cur + node_length cur) &&
  (node_offset cur <=? node_offset node + node_length node).

(** The loop that appends a chunk to the payload list; [None] is the overlap
    exit, which leaves the list as it was. *)
Fixpoint append_node (nodes : list ff_request_payload_node) (node : ff_request_payload_node)
    : option (list ff_request_payload_node) :=
  match nodes with
  | [] => Some [node]
  | cur :: rest =>
      if overlaps node cur then None
      else match rest with
           | [] => Some [cur; node]
           | _ => cons cur <$> append_node rest node
           end
  end.

(** How the option loop ends: [goto error], or [break] after [i] bytes with
    the options read and the value given to [payload_contains_options]. *)
Inductive options_exit : Type :=
  | OptionsError
  | OptionsDone (i : Z) (options : list ff_request_option_node) (contains : bool).

Section Parser.
Context {HO : HostOrder}.

Definition ff_request_parse_id (buff_size : Z) (buff : list Z) : res Z :=
  is_raw_http ← ff_request_is_raw_http buff_size buff;
  if is_raw_http : bool then Ok 0
  else ntohll <$> load_uint 8 buff 2.

(** One iteration reads the option header at [buff + off + i].  The number of
    options stays below [FF_REQUEST_MAX_OPTIONS], which bounds the fuel. *)
Fixpoint parse_options_loop (fuel : nat) (current_options_size buff_size : Z)
    (buff : list Z) (off : Z) (i : Z) (options : list ff_request_option_node)
    : res options_exit :=
  match fuel with
  | O => Err OutOfFuel
  | S fuel =>
      if FF_REQUEST_MAX_OPTIONS <=? current_options_size + zlen options
      then Ok OptionsError
      else if buff_size <? i + sizeof_raw_ff_request_option_header
      then Ok OptionsError
      else
        option_type ← load_byte buff (off + i);
        option_length ← ntohs <$> load_uint 2 buff (off + i + 1);
        let i := u32 (i + sizeof_raw_ff_request_option_header) in
        if option_type =? FF_REQUEST_OPTION_TYPE_BREAK then
          if negb (option_length =? 0) then Ok OptionsError
          else Ok (OptionsDone i options true)
        else if option_type =? FF_REQUEST_OPTION_TYPE_EOL then
          if negb (option_length =? 0) then Ok OptionsError
          else Ok (OptionsDone i options false)
        else if buff_size <? u32 (i + option_length) then Ok OptionsError
        else
          let node := mk_option option_type option_length
                        (opt_value ff_request_option_node_alloc) in
          node ← ff_request_option_load_buff node option_length buff (off + i);
          parse_options_loop fuel current_options_size buff_size buff off
            (u32 (i + option_length)) (options ++ [node])
  end.

(** Returns the number of bytes the options took, 0 on an error. *)
Definition ff_request_parse_options (r : ff_request) (buff_size : Z)
    (buff : list Z) (off : Z) : res (Z * ff_request) :=
  let current_options_size := rq_options_length r in
  exit ← parse_options_loop (S (Z.to_nat FF_REQUEST_MAX_OPTIONS))
           current_options_size buff_size buff off 0 [];
  match exit with
  | OptionsError => Ok (0, r)
  | OptionsDone i options contains =>
      let r := set_payload_contains_options contains r in
      if zlen options =? 0 then Ok (i, r)
      else Ok (i, set_options (u8 (current_options_size + zlen options))
                    (take (Z.to_nat current_options_size) (rq_options r) ++ options) r)
  end.

Definition receiving_fail (r : ff_request) : ff_request :=
  set_state FF_REQUEST_STATE_RECEIVING_FAIL r.

(** The end of [ff_request_parse_data_chunk]: the payload node is allocated,
    filled and linked. *)
Definition store_chunk (r : ff_request) (chunk_offset chunk_length : Z)
    (i buff_size : Z) (buff : list Z) : res ff_request :=
  let node := mk_node (u16 chunk_offset) chunk_length
                (node_value ff_request_payload_node_alloc) in
  node ← ff_request_payload_load_buff node (buff_size - i) buff i;
  let finish (r : ff_request) :=
    if rq_received_length r =? rq_payload_length r
    then Ok (set_state FF_REQUEST_STATE_RECEIVED r) else Ok r in
  match rq_payload r with
  | PayloadDangling => Err UseAfterFree
  | PayloadNodes [] =>
      finish (set_received_length (node_length node)
                (set_payload (PayloadNodes [node]) r))
  | PayloadNodes nodes =>
      match append_node nodes node with
      | None => Ok (receiving_fail r)
      | Some nodes' =>
          finish (set_received_length (u64 (rq_received_length r + node_length node))
                    (set_payload (PayloadNodes nodes') r))
      end
  end.

Definition ff_request_parse_data_chunk (r : ff_request) (buff_size : Z) (buff : list Z)
    : res ff_request :=
  if buff_size <? sizeof_raw_ff_request_header then Ok (receiving_fail r)
  else
    version ← ntohs <$> load_uint 2 buff 0;
    request_id ← ntohll <$> load_uint 8 buff 2;
    total_length ← ntohl <$> load_uint 4 buff 10;
    raw_chunk_offset ← load_uint 4 buff 14;
    let chunk_offset := ntohl raw_chunk_offset in
    chunk_length ← ntohs <$> load_uint 2 buff 18;
    let i := sizeof_raw_ff_request_header in
    if negb (rq_version r =? FF_VERSION_1) then Ok (receiving_fail r)
    else if negb (version =? rq_version r) then Ok (receiving_fail r)
    else if negb (request_id =? rq_request_id r) then Ok (receiving_fail r)
    else if negb (total_length =? rq_payload_length r) then Ok (receiving_fail r)
    else if rq_payload_length r <? u32 (chunk_offset + chunk_length)
    then Ok (receiving_fail r)
    else if buff_size <? i + sizeof_raw_ff_request_option_header
    then Ok (receiving_fail r)
    else if raw_chunk_offset =? 0 then
      '(options_i, r) ← ff_request_parse_options r (buff_size - i) buff i;
      if options_i =? 0 then Ok (receiving_fail r)
      else
        let i := i + options_i in
        if buff_size <? i + chunk_length then Ok (receiving_fail r)
        else store_chunk r chunk_offset chunk_length i buff_size buff
    else
      option_type ← load_byte buff i;
      let i := i + sizeof_raw_ff_request_option_header in
      if negb (option_type =? FF_REQUEST_OPTION_TYPE_EOL) then Ok (receiving_fail r)
      else if buff_size <? i + chunk_length then Ok (receiving_fail r)
      else store_chunk r chunk_offset chunk_length i buff_size buff.

Definition ff_request_parse_first_chunk (r : ff_request) (buff_size : Z) (buff : list Z)
    : res ff_request :=
  is_raw_http ← ff_request_is_raw_http buff_size buff;
  if is_raw_http : bool then ff_request_parse_raw_http r buff_size buff
  else if buff_size <? sizeof_raw_ff_request_header then Ok (receiving_fail r)
  else
    version ← ntohs <$> load_uint 2 buff 0;
    request_id ← ntohll <$> load_uint 8 buff 2;
    total_length ← ntohl <$> load_uint 4 buff 10;
    let r := set_version version r in
    let r := set_request_id request_id r in
    let r := set_payload_length total_length r in
    ff_request_parse_data_chunk r buff_size buff.

Definition ff_request_parse_chunk (r : ff_request) (buff_size : Z) (buff : list Z)
    : res ff_request :=
  if rq_version r =? 0 then ff_request_parse_first_chunk r buff_size buff
  else ff_request_parse_data_chunk r buff_size buff.

(** On the [error] exits after the options were read, [cleanup] frees the
    node [request->payload] still points to. *)
Definition ff_request_parse_options_from_payload (r : ff_request) : res ff_request :=
  match rq_payload r with
  | PayloadDangling => Err UseAfterFree
  | PayloadNodes [payload] =>
      let r := set_state FF_REQUEST_STATE_PARSING_OPTIONS r in
      if negb (rq_payload_contains_options r)
      then Ok (set_state FF_REQUEST_STATE_PARSED_OPTIONS r)
      else
        '(options_length, r) ←
          ff_request_parse_options r (node_length payload) (node_value payload) 0;
        if options_length =? 0
        then Ok (set_state FF_REQUEST_STATE_PARSING_OPTIONS_FAILED r)
        else if node_length payload <=? options_length
        then Ok (set_payload PayloadDangling
                   (set_state FF_REQUEST_STATE_PARSING_OPTIONS_FAILED r))
        else if rq_payload_contains_options r
        then Ok (set_payload PayloadDangling
                   (set_state FF_REQUEST_STATE_PARSING_OPTIONS_FAILED r))
        else
          let new_payload := mk_node (node_offset ff_request_payload_node_alloc)
                               (u16 (node_length payload - options_length))
                               (node_value ff_request_payload_node_alloc) in
          new_payload ← ff_request_payload_load_buff new_payload
                          (node_length new_payload) (node_value payload) options_length;
          let r := set_payload (PayloadNodes [new_payload]) r in
          let r := set_payload_length (node_length new_payload) r in
          Ok (set_state FF_REQUEST_STATE_PARSED_OPTIONS r)
  | PayloadNodes _ => Err AssertFailed
  end.

End Parser.
