(* ===== verification/ParserFacts.v ===== *)
(** * Facts about the packet parser

    - the well-formedness invariant of a request under reception;
    - on every packet the parser stays inside the block and ends (its result
      is [Ok]), and it preserves the invariant;
    - the TLV options: what the option loop accepts is exactly the wire
      format [wire_options]. *)

From S2P Require Import Prelude Bytes Request Strings Parser.

(** [lia] with the constants of the program as numbers. *)
Ltac ff_lia :=
  unfold FF_REQUEST_MAX_OPTIONS, FF_REQUEST_OPTION_TYPE_EOL, FF_REQUEST_OPTION_TYPE_BREAK,
    FF_VERSION_1, FF_VERSION_RAW, sizeof_raw_ff_request_header,
    sizeof_raw_ff_request_option_header in *; lia.

(** ** Well-formed requests *)

(** The program's claim on a buffer: its first [n] bytes were written. *)
Definition holds (value : list Z) (n : Z) : Prop :=
  0 <= n <= zlen value /\ bytes (slice value 0 n).

Record wf_option (o : ff_request_option_node) : Prop := {
  wf_opt_type : is_byte (opt_type o);
  wf_opt_not_eol : opt_type o <> FF_REQUEST_OPTION_TYPE_EOL;
  wf_opt_not_break : opt_type o <> FF_REQUEST_OPTION_TYPE_BREAK;
  wf_opt_length : 0 <= opt_length o < 65536;
  wf_opt_value : holds (opt_value o) (opt_length o);
}.

Record wf_node (n : ff_request_payload_node) : Prop := {
  wf_node_offset : 0 <= node_offset n < 65536;
  wf_node_length : 0 <= node_length n < 65536;
  wf_node_value : holds (node_value n) (node_length n);
}.

Definition node_end (n : ff_request_payload_node) : Z := node_offset n + node_length n.

(** Two chunks occupy disjoint ranges of the payload. *)
Definition disjoint_chunks (a b : ff_request_payload_node) : Prop :=
  node_end a <= node_offset b \/ node_end b <= node_offset a.

Definition sum_lengths (nodes : list ff_request_payload_node) : Z :=
  foldr (fun n acc => node_length n + acc) 0 nodes.

Record wf_request (r : ff_request) : Prop := {
  wf_options_length : rq_options_length r = zlen (rq_options r);
  wf_options_max : zlen (rq_options r) < FF_REQUEST_MAX_OPTIONS;
  wf_options : Forall wf_option (rq_options r);
  wf_payload_length : 0 <= rq_payload_length r < 2 ^ 32;
  wf_payload : exists nodes,
    rq_payload r = PayloadNodes nodes /\ Forall wf_node nodes /\
    ForallOrdPairs disjoint_chunks nodes /\
    rq_received_length r = u64 (sum_lengths nodes);
}.

Lemma wf_request_alloc : wf_request ff_request_alloc.
Proof.
  split; simpl; try done; try lia.
  exists []. repeat split; constructor.
Qed.

(** Only the fields the invariant mentions matter. *)
Lemma wf_request_frame r r' :
  wf_request r ->
  rq_options_length r' = rq_options_length r -> rq_options r' = rq_options r ->
  rq_payload_length r' = rq_payload_length r -> rq_payload r' = rq_payload r ->
  rq_received_length r' = rq_received_length r -> wf_request r'.
Proof.
  intros [] E1 E2 E3 E4 E5. split; rewrite ?E1, ?E2, ?E3, ?E4, ?E5; done.
Qed.

Lemma wf_set_state v r : wf_request r -> wf_request (set_state v r).
Proof. intros H. by apply (wf_request_frame r). Qed.
Lemma wf_receiving_fail r : wf_request r -> wf_request (receiving_fail r).
Proof. apply wf_set_state. Qed.
Lemma wf_set_version v r : wf_request r -> wf_request (set_version v r).
Proof. intros H. by apply (wf_request_frame r). Qed.
Lemma wf_set_request_id v r : wf_request r -> wf_request (set_request_id v r).
Proof. intros H. by apply (wf_request_frame r). Qed.
Lemma wf_set_source v r : wf_request r -> wf_request (set_source v r).
Proof. intros H. by apply (wf_request_frame r). Qed.
Lemma wf_set_received_at v r : wf_request r -> wf_request (set_received_at v r).
Proof. intros H. by apply (wf_request_frame r). Qed.
Lemma wf_set_contains v r : wf_request r -> wf_request (set_payload_contains_options v r).
Proof. intros H. by apply (wf_request_frame r). Qed.
Lemma wf_set_payload_length v r :
  0 <= v < 2 ^ 32 -> wf_request r -> wf_request (set_payload_length v r).
Proof. intros Hv []. split; done. Qed.

Create HintDb ff_wf discriminated.
#[export] Hint Resolve wf_request_alloc wf_set_state wf_receiving_fail wf_set_version
  wf_set_request_id wf_set_source wf_set_received_at wf_set_contains
  wf_set_payload_length : ff_wf.

(** ** Reading *)

(** A packet: [buff_size] valid bytes at the start of a block. *)
Record packet_ok (buff_size : Z) (buff : list Z) : Prop := {
  packet_size : 0 <= buff_size <= zlen buff;
  packet_small : buff_size < 2 ^ 16;
  packet_bytes : bytes (slice buff 0 buff_size);
}.

Lemma load_byte_in buff_size buff i :
  packet_ok buff_size buff -> 0 <= i < buff_size ->
  exists b, load_byte buff i = Ok b /\ is_byte b.
Proof.
  intros [Hs _ Hb] Hi.
  destruct (lookup_lt_is_Some_2 buff (Z.to_nat i)) as [b Hb'];
    [unfold zlen in Hs; lia|].
  exists b. assert (is_byte b) as H.
  { eapply Forall_lookup_1 with (i := Z.to_nat i); [exact Hb|].
    rewrite lookup_slice by lia. rewrite <- Hb'. f_equal. }
  split; [|done]. apply load_byte_ok. split; [lia|done].
Qed.

Lemma packet_readable buff_size buff n i :
  packet_ok buff_size buff -> 0 <= i -> i + Z.of_nat n <= buff_size ->
  readable n buff i.
Proof.
  intros [Hs _ Hb] Hi Hn. repeat split; [lia..|].
  replace i with (0 + i) by lia.
  rewrite <- (slice_slice buff 0 buff_size) by lia. by apply bytes_slice.
Qed.

Lemma packet_slice_bytes buff_size buff i n :
  packet_ok buff_size buff -> 0 <= i -> 0 <= n -> i + n <= buff_size ->
  bytes (slice buff i n).
Proof.
  intros Hp Hi Hn Hs.
  pose proof (packet_readable buff_size buff (Z.to_nat n) i Hp Hi) as H.
  rewrite Z2Nat.id in H by lia. destruct (H Hs) as (_ & _ & Hb).
  by rewrite Z2Nat.id in Hb.
Qed.

(** What [load_buff] stores. *)
Lemma holds_loaded bs k n :
  bytes bs -> 0 <= n <= zlen bs -> holds (bs ++ replicate k indet) n.
Proof.
  intros Hb Hn. split.
  - rewrite zlen_app. pose proof (zlen_nonneg (replicate k indet)). lia.
  - rewrite slice_app_l by lia. by apply bytes_slice.
Qed.

(** ** The wire format of the options *)

Definition wire_option (o : ff_request_option_node) : list Z :=
  opt_type o :: be_split 2 (opt_length o) ++ slice (opt_value o) 0 (opt_length o).

Definition wire_end (contains : bool) : list Z :=
  (if contains then FF_REQUEST_OPTION_TYPE_BREAK else FF_REQUEST_OPTION_TYPE_EOL) :: [0; 0].

Definition wire_options (options : list ff_request_option_node) (contains : bool) : list Z :=
  concat (map wire_option options) ++ wire_end contains.

(** An option as the parser stores it: its value in a block of eight times
    its length. *)
Definition loaded (o : ff_request_option_node) : ff_request_option_node :=
  mk_option (opt_type o) (opt_length o)
    (slice (opt_value o) 0 (opt_length o) ++
     replicate (7 * Z.to_nat (opt_length o)) indet).

Lemma zlen_wire_option o :
  wf_option o -> zlen (wire_option o) = 3 + opt_length o.
Proof.
  intros [_ _ _ Hl [Hv _]]. unfold wire_option.
  change (opt_type o :: ?l) with ([opt_type o] ++ l).
  rewrite !zlen_app, zlen_slice by lia. unfold zlen at 2.
  rewrite length_be_split. change (zlen [opt_type o]) with 1. lia.
Qed.

Lemma zlen_wire_end c : zlen (wire_end c) = 3.
Proof. reflexivity. Qed.

Lemma wire_options_cons o options c :
  wire_options (o :: options) c = wire_option o ++ wire_options options c.
Proof. unfold wire_options. simpl. by rewrite app_assoc. Qed.

Lemma wf_loaded o : wf_option o -> wf_option (loaded o).
Proof.
  intros [? ? ? ? [? ?]]. split; try done. simpl.
  apply holds_loaded; [done|]. rewrite zlen_slice; lia.
Qed.

Lemma wire_loaded o : wf_option o -> wire_option (loaded o) = wire_option o.
Proof.
  intros [? ? ? ? [? ?]]. unfold wire_option, loaded. simpl.
  rewrite slice_app_l by (rewrite ?zlen_slice; lia).
  by rewrite slice_full by (rewrite zlen_slice; lia).
Qed.

(** The header of an option, as bytes. *)
Lemma option_header_bytes buff k t len :
  readable 2 buff (k + 1) -> load_byte buff k = Ok t -> be_at 2 buff (k + 1) = len ->
  slice buff k 3 = t :: be_split 2 len.
Proof.
  intros Hr (Hk & Ht & _)%load_byte_ok <-.
  replace 3 with (1 + 2) by lia. rewrite slice_split by lia.
  change (t :: ?l) with ([t] ++ l). f_equal.
  - unfold slice. change (Z.to_nat 1) with 1%nat.
    by rewrite (drop_S buff t) by done.
  - unfold be_at. destruct Hr as (?&?&Hb).
    symmetry. change (Z.of_nat 2) with 2 in *.
    replace 2%nat with (length (slice buff (k + 1) 2)) by (rewrite length_slice; lia).
    by apply be_split_combine.
Qed.

(** Reading at a known place of a concatenation. *)
Lemma slice_mid pre f post off len :
  off = zlen pre -> len = zlen f -> slice (pre ++ f ++ post) off len = f.
Proof.
  intros -> ->. rewrite slice_app_r by lia. rewrite Z.sub_diag.
  by apply slice_0_app.
Qed.

Lemma load_byte_mid pre b post off :
  off = zlen pre -> is_byte b -> load_byte (pre ++ b :: post) off = Ok b.
Proof.
  intros -> Hb. apply load_byte_ok. repeat split; try apply zlen_nonneg; try apply Hb.
  unfold zlen. rewrite Nat2Z.id. by apply list_lookup_middle.
Qed.

Lemma readable_mid n pre x post off :
  off = zlen pre -> readable n (pre ++ be_split n x ++ post) off.
Proof.
  intros ->. pose proof (zlen_nonneg pre). pose proof (zlen_nonneg post).
  repeat split; [done| |].
  - rewrite !zlen_app. unfold zlen at 3. rewrite length_be_split. lia.
  - rewrite slice_mid; [apply bytes_be_split | done |].
    unfold zlen. by rewrite length_be_split.
Qed.

Lemma be_at_mid n pre x post off :
  off = zlen pre -> 0 <= x < 256 ^ Z.of_nat n ->
  be_at n (pre ++ be_split n x ++ post) off = x.
Proof.
  intros -> Hx. unfold be_at. rewrite slice_mid; [|done|].
  - rewrite be_combine_split. by apply Z.mod_small.
  - unfold zlen. by rewrite length_be_split.
Qed.

Section OptionLoop.
Context {HO : HostOrder}.
Variables (buff : list Z) (off buff_size current : Z).
Hypothesis Hoff : 0 <= off.
Hypothesis Hsize : 0 <= buff_size.
Hypothesis Hcur : 0 <= current.
Hypothesis Hbuff : packet_ok (off + buff_size) buff.

Lemma terminator_done c i options :
  0 <= i -> i + 3 <= buff_size -> current + zlen options < FF_REQUEST_MAX_OPTIONS ->
  slice buff (off + i) 3 = wire_end c ->
  exists new, options = options ++ new /\ Forall wf_option new /\
    map loaded new = new /\ i < i + 3 <= buff_size /\ current + zlen options < FF_REQUEST_MAX_OPTIONS /\
    slice buff (off + i) (i + 3 - i) = wire_options new c.
Proof using All.
  intros. exists []. rewrite app_nil_r. replace (i + 3 - i) with 3 by lia.
  repeat split; try done; lia.
Qed.

(** The loop ends within its fuel and reads inside the block; when it does
    not fail, the bytes it consumed are the wire format of the options it
    returns. *)
Lemma parse_options_loop_sound fuel i options :
  0 <= i <= buff_size -> Forall wf_option options ->
  0 < Z.of_nat fuel -> FF_REQUEST_MAX_OPTIONS - current - zlen options < Z.of_nat fuel ->
  exists e,
    parse_options_loop fuel current buff_size buff off i options = Ok e /\
    match e with
    | OptionsError => True
    | OptionsDone i' options' c =>
        exists new, options' = options ++ new /\ Forall wf_option new /\
          map loaded new = new /\ i < i' <= buff_size /\ current + zlen options' < FF_REQUEST_MAX_OPTIONS /\
          slice buff (off + i) (i' - i) = wire_options new c
    end.
Proof using All.
  pose proof (packet_small _ _ Hbuff) as Hsmall. pose proof (packet_size _ _ Hbuff) as Hlen.
  revert i options. unfold FF_REQUEST_MAX_OPTIONS in *.
  induction fuel as [|fuel IH]; intros i options Hi Hwf Hpos Hfuel;
    pose proof (zlen_nonneg options); [lia|].
  simpl. unfold sizeof_raw_ff_request_option_header.
  destruct (Z.leb_spec FF_REQUEST_MAX_OPTIONS (current + zlen options)) as [?|Hmax];
    [by eexists|]. unfold FF_REQUEST_MAX_OPTIONS in Hmax.
  destruct (Z.ltb_spec buff_size (i + 3)) as [?|Hroom]; [by eexists|].
  destruct (load_byte_in _ _ (off + i) Hbuff) as (t & Et & Ht); [lia|].
  assert (readable 2 buff (off + i + 1)) as Hr
    by (apply (packet_readable (off + buff_size)); [done|lia..]).
  rewrite Et. simpl. rewrite load_ntohs by done. simpl.
  pose proof (be_at_range _ _ _ Hr) as Hol.
  remember (be_at 2 buff (off + i + 1)) as len eqn:Elen. symmetry in Elen.
  pose proof (option_header_bytes _ _ _ _ Hr Et Elen) as Ehdr.
  rewrite (u32_small (i + 3)) by lia.
  destruct (Z.eqb_spec t FF_REQUEST_OPTION_TYPE_BREAK) as [->|Hnb].
  { destruct (Z.eqb_spec len 0) as [->|]; simpl; [|by eexists].
    eexists; split; [done|]. apply (terminator_done true); [ff_lia..|done]. }
  destruct (Z.eqb_spec t FF_REQUEST_OPTION_TYPE_EOL) as [->|Hne].
  { destruct (Z.eqb_spec len 0) as [->|]; simpl; [|by eexists].
    eexists; split; [done|]. apply (terminator_done false); [ff_lia..|done]. }
  rewrite (u32_small (i + 3 + len)) by lia.
  destruct (Z.ltb_spec buff_size (i + 3 + len)) as [?|Hfits]; [by eexists|].
  unfold ff_request_option_load_buff. rewrite load_buff_slice by lia. simpl.
  set (o := mk_option t len _).
  assert (bytes (slice buff (off + (i + 3)) len)) as Hval
    by (apply (packet_slice_bytes (off + buff_size)); [done|lia..]).
  assert (wf_option o) as Ho.
  { split; simpl; try done. apply holds_loaded; [done|].
    rewrite zlen_slice; lia. }
  destruct (IH (i + 3 + len) (options ++ [o])) as (e & He & Hpost);
    [lia| apply Forall_app; auto | lia | rewrite zlen_app; change (zlen [o]) with 1; lia|].
  exists e. split; [exact He|]. destruct e as [|i' options' c]; [done|].
  destruct Hpost as (new & -> & Hnew & Hld & Hi' & Hmax' & Hslice).
  exists (o :: new). rewrite <- app_assoc in *.
  split_and!; [done | by constructor | | ff_lia..|].
  { cbn [map]. rewrite Hld. f_equal. unfold loaded, o. cbn [opt_type opt_length opt_value].
    by rewrite slice_0_app by (rewrite zlen_slice; lia). }
  replace (i' - i) with (3 + (len + (i' - (i + 3 + len)))) by lia.
  rewrite !slice_split by lia. rewrite wire_options_cons.
  rewrite Ehdr. unfold wire_option, o. cbn [opt_type opt_length opt_value].
  change (?t :: ?l) with ([t] ++ l). rewrite <- !app_assoc. do 2 f_equal. f_equal.
  - rewrite slice_app_l by (rewrite ?zlen_slice; lia).
    rewrite slice_full by (rewrite zlen_slice; lia). f_equal; lia.
  - rewrite <- Hslice. f_equal; lia.
Qed.
End OptionLoop.


(** Conversely, the loop reads back what the wire format holds. *)
Section Wire.
Context {HO : HostOrder}.

Lemma option_header_mid pre t len post k :
  k = zlen pre -> is_byte t -> 0 <= len < 65536 ->
  load_byte (pre ++ (t :: be_split 2 len) ++ post) k = Ok t /\
  ntohs <$> load_uint 2 (pre ++ (t :: be_split 2 len) ++ post) (k + 1) = Ok len.
Proof.
  intros -> Ht Hlen. split; [by apply load_byte_mid|].
  change (t :: be_split 2 len) with ([t] ++ be_split 2 len).
  rewrite <- app_assoc, (app_assoc pre).
  assert (zlen pre + 1 = zlen (pre ++ [t])) as -> by (rewrite zlen_app; done).
  rewrite load_ntohs by (by apply readable_mid). by rewrite be_at_mid.
Qed.

Lemma parse_options_loop_complete buff_size current c fuel :
  forall pre post new done i off,
  Forall wf_option new -> zlen (wire_options new c) + i <= buff_size < 2 ^ 31 ->
  0 <= i -> off + i = zlen pre -> current + zlen done <= FF_REQUEST_MAX_OPTIONS ->
  Z.min (zlen new) (FF_REQUEST_MAX_OPTIONS - current - zlen done) < Z.of_nat fuel ->
  parse_options_loop fuel current buff_size (pre ++ wire_options new c ++ post) off i done =
    Ok (if current + zlen done + zlen new <? FF_REQUEST_MAX_OPTIONS
        then OptionsDone (i + zlen (wire_options new c)) (done ++ map loaded new) c
        else OptionsError).
Proof.
  induction fuel as [|fuel IH];
    intros pre post new done i off Hwf Hsize Hi Hpre Hmax Hfuel;
    pose proof (zlen_nonneg done); pose proof (zlen_nonneg new); [lia|].
  simpl. unfold sizeof_raw_ff_request_option_header.
  destruct (Z.leb_spec FF_REQUEST_MAX_OPTIONS (current + zlen done)).
  { by rewrite (proj2 (Z.ltb_ge _ _)) by lia. }
  destruct new as [|o new].
  { change (zlen (wire_options [] c)) with 3 in *.
    change (zlen (@nil ff_request_option_node)) with 0 in *.
    rewrite (proj2 (Z.ltb_ge _ _)), u32_small by lia.
    change (wire_options [] c) with
      ((if c then FF_REQUEST_OPTION_TYPE_BREAK else FF_REQUEST_OPTION_TYPE_EOL) :: be_split 2 0).
    edestruct (option_header_mid pre) as [-> Hl]; [exact Hpre|by destruct c|lia|].
    cbn [mbind res_bind]. rewrite Hl. cbn [mbind res_bind].
    rewrite app_nil_r, (proj2 (Z.ltb_lt (current + _ + _) _)) by lia. by destruct c. }
  apply Forall_cons in Hwf as [Ho Hnew].
  pose proof Ho as [Hot Hne Hnb Hol [Hov Hob]].
  rewrite wire_options_cons, zlen_app, zlen_wire_option in * by done.
  pose proof (zlen_nonneg (wire_options new c)).
  rewrite (proj2 (Z.ltb_ge _ _)), u32_small by lia.
  assert (pre ++ (wire_option o ++ wire_options new c) ++ post =
          pre ++ (opt_type o :: be_split 2 (opt_length o)) ++
            slice (opt_value o) 0 (opt_length o) ++ wire_options new c ++ post) as Eb.
  { unfold wire_option. change (?t :: ?l) with ([t] ++ l). by rewrite <- !app_assoc. }
  rewrite Eb. edestruct (option_header_mid pre) as [-> Hl]; [exact Hpre|done..|].
  cbn [mbind res_bind]. rewrite Hl. cbn [mbind res_bind].
  rewrite (proj2 (Z.eqb_neq _ _)), (proj2 (Z.eqb_neq (opt_type o) FF_REQUEST_OPTION_TYPE_EOL)) by done.
  rewrite (u32_small (_ + opt_length o)) by lia.
  rewrite (proj2 (Z.ltb_ge _ _)) by lia.
  rewrite app_assoc. set (pre' := pre ++ opt_type o :: be_split 2 (opt_length o)).
  assert (off + (i + 3) = zlen pre') as Hpre'.
  { unfold pre'. rewrite zlen_app, <- Hpre. unfold zlen. cbn [length].
    rewrite length_be_split. lia. }
  unfold ff_request_option_load_buff.
  rewrite load_buff_slice;
    [|pose proof (zlen_nonneg pre'); lia|lia|
     pose proof (zlen_nonneg post); rewrite !zlen_app, zlen_slice; lia].
  rewrite slice_mid by (rewrite ?zlen_slice; lia). cbn [mbind res_bind opt_type opt_length].
  rewrite (app_assoc pre').
  change (mk_option (opt_type o) (opt_length o) _) with (loaded o).
  assert (zlen (done ++ [loaded o]) = zlen done + 1) as E1 by (by rewrite zlen_app).
  assert (zlen (o :: new) = 1 + zlen new) as E2 by (unfold zlen; simpl; lia).
  rewrite IH, E1, E2; [| done | lia | lia | rewrite zlen_app, zlen_slice; lia | rewrite E1; lia | rewrite E1; lia].
  rewrite <- app_assoc.
  replace (current + (zlen done + 1) + zlen new) with (current + zlen done + (1 + zlen new)) by lia.
  by replace (i + 3 + opt_length o + zlen (wire_options new c))
    with (i + (3 + opt_length o + zlen (wire_options new c))) by lia.
Qed.

End Wire.

(** ** Chunks *)

Lemma ForallOrdPairs_snoc {A} (R : A -> A -> Prop) l x :
  ForallOrdPairs R l -> Forall (fun y => R y x) l -> ForallOrdPairs R (l ++ [x]).
Proof.
  induction 1 as [|y l Hy Hl IH]; intros Hx; simpl.
  - by repeat constructor.
  - apply Forall_cons in Hx as [Hyx Hx].
    constructor; [apply Forall_app; auto | auto].
Qed.

Lemma append_node_spec nodes node :
  append_node nodes node =
    if bool_decide (Forall (fun cur => overlaps node cur = false) nodes)
    then Some (nodes ++ [node]) else None.
Proof.
  induction nodes as [|cur rest IH]; [done|].
  cbn [append_node]. destruct (overlaps node cur) eqn:E.
  - rewrite bool_decide_false; [done|]. intros [? _]%Forall_cons. congruence.
  - rewrite (bool_decide_ext (Forall _ (cur :: rest))
              (Forall (fun cur => overlaps node cur = false) rest))
      by (rewrite Forall_cons; tauto).
    destruct rest as [|c rest]; [done|]. rewrite IH. by case_bool_decide.
Qed.

Lemma not_overlaps_disjoint node cur :
  overlaps node cur = false -> disjoint_chunks cur node.
Proof.
  unfold overlaps, disjoint_chunks, node_end. intros H.
  apply andb_false_iff in H as [H|H]; [apply Z.ltb_ge in H | apply Z.leb_gt in H]; lia.
Qed.

Lemma sum_lengths_app l1 l2 :
  sum_lengths (l1 ++ l2) = sum_lengths l1 + sum_lengths l2.
Proof. induction l1; simpl; lia. Qed.

Lemma u64_add_l a b : u64 (u64 a + b) = u64 (a + b).
Proof. unfold u64. by rewrite Zplus_mod_idemp_l. Qed.

Section Chunks.
Context {HO : HostOrder}.

(** The node [store_chunk] builds. *)
Definition chunk_node (chunk_offset chunk_length i buff_size : Z) (buff : list Z)
    : ff_request_payload_node :=
  mk_node (u16 chunk_offset) chunk_length
    (slice buff i (buff_size - i) ++ replicate (7 * Z.to_nat (buff_size - i)) indet).

Definition finish_chunk (r : ff_request) : ff_request :=
  if rq_received_length r =? rq_payload_length r
  then set_state FF_REQUEST_STATE_RECEIVED r else r.

(** The request after its chunk was linked behind [nodes]. *)
Definition linked (r : ff_request) (nodes : list ff_request_payload_node)
    (node : ff_request_payload_node) : ff_request :=
  finish_chunk
    (set_received_length (u64 (sum_lengths (nodes ++ [node])))
       (set_payload (PayloadNodes (nodes ++ [node])) r)).

Lemma wf_chunk_node chunk_offset chunk_length i buff_size buff :
  packet_ok buff_size buff -> 0 <= i -> 0 <= chunk_length < 65536 ->
  i + chunk_length <= buff_size ->
  wf_node (chunk_node chunk_offset chunk_length i buff_size buff).
Proof.
  intros Hp Hi Hl Hs. pose proof (packet_size _ _ Hp). split; simpl; [apply u16_range|lia|].
  apply holds_loaded; [apply (packet_slice_bytes buff_size); [done|lia..]|].
  rewrite zlen_slice; lia.
Qed.

(** What storing a chunk does: the chunk is linked at the end, or overlaps. *)
Lemma store_chunk_spec r nodes chunk_offset chunk_length i buff_size buff :
  rq_payload r = PayloadNodes nodes -> rq_received_length r = u64 (sum_lengths nodes) ->
  packet_ok buff_size buff -> 0 <= i -> 0 <= chunk_length < 65536 ->
  i + chunk_length <= buff_size ->
  let node := chunk_node chunk_offset chunk_length i buff_size buff in
  store_chunk r chunk_offset chunk_length i buff_size buff =
    Ok (if bool_decide (Forall (fun cur => overlaps node cur = false) nodes)
        then linked r nodes node else receiving_fail r).
Proof.
  intros Hnodes Hrec Hp Hi Hl Hs node. pose proof (packet_size _ _ Hp).
  unfold store_chunk, ff_request_payload_load_buff.
  rewrite load_buff_slice by lia. cbn [mbind res_bind node_offset node_length]. rewrite Hnodes.
  change (mk_node (u16 chunk_offset) chunk_length _) with node.
  destruct nodes as [|n nodes].
  - rewrite bool_decide_true by done. unfold linked, finish_chunk. simpl.
    rewrite u64_small by lia. rewrite Z.add_0_r. by case_match.
  - rewrite append_node_spec. case_bool_decide; [|done].
    unfold linked, finish_chunk. rewrite Hrec, u64_add_l, sum_lengths_app.
    cbn [sum_lengths foldr]. rewrite Z.add_0_r. simpl node_length.
    by case_match.
Qed.

Lemma wf_linked r nodes node :
  wf_request r -> rq_payload r = PayloadNodes nodes -> wf_node node ->
  Forall (fun cur => overlaps node cur = false) nodes -> wf_request (linked r nodes node).
Proof.
  intros [Hol Hom Ho Hpl (nodes' & Hn & Hwn & Hd & Hr)] Hnodes Hnode Hov.
  assert (nodes' = nodes) as -> by congruence.
  assert (wf_request (set_received_length (u64 (sum_lengths (nodes ++ [node])))
       (set_payload (PayloadNodes (nodes ++ [node])) r))) as H.
  { split; try done. exists (nodes ++ [node]). repeat split.
    - apply Forall_app; auto.
    - apply ForallOrdPairs_snoc; [done|].
      eapply Forall_impl; [exact Hov|]. intros cur. apply not_overlaps_disjoint. }
  unfold linked, finish_chunk. case_match; auto with ff_wf.
Qed.

Lemma store_chunk_wf r chunk_offset chunk_length i buff_size buff :
  wf_request r -> packet_ok buff_size buff -> 0 <= i -> 0 <= chunk_length < 65536 ->
  i + chunk_length <= buff_size ->
  exists r', store_chunk r chunk_offset chunk_length i buff_size buff = Ok r' /\ wf_request r'.
Proof.
  intros Hwf Hp Hi Hl Hs. destruct (wf_payload _ Hwf) as (nodes & Hn & Hwn & Hd & Hr).
  rewrite (store_chunk_spec r nodes) by done. eexists. split; [done|].
  case_bool_decide; [|auto with ff_wf].
  apply wf_linked; try done. by apply wf_chunk_node.
Qed.

End Chunks.

(** ** Option parsing, as a step on requests *)

Definition add_options (new : list ff_request_option_node) (c : bool) (r : ff_request)
    : ff_request :=
  set_payload_contains_options c
    (set_options (zlen (rq_options r) + zlen new) (rq_options r ++ new) r).

Lemma wf_add_options new c r :
  wf_request r -> Forall wf_option new ->
  zlen (rq_options r) + zlen new < FF_REQUEST_MAX_OPTIONS -> wf_request (add_options new c r).
Proof.
  intros [] ? ?. split; simpl; rewrite ?zlen_app; try done; try lia.
  by apply Forall_app.
Qed.

Lemma set_options_id r : set_options (rq_options_length r) (rq_options r) r = r.
Proof. by destruct r. Qed.

Section Options.
Context {HO : HostOrder}.

(** The request after the option loop left with options [new]. *)
Lemma parse_options_done r buff_size buff off i new c :
  wf_request r -> zlen (rq_options r) + zlen new < FF_REQUEST_MAX_OPTIONS ->
  parse_options_loop (S (Z.to_nat FF_REQUEST_MAX_OPTIONS)) (rq_options_length r)
    buff_size buff off 0 [] = Ok (OptionsDone i new c) ->
  ff_request_parse_options r buff_size buff off = Ok (i, add_options new c r).
Proof.
  intros Hwf Hmax E. unfold ff_request_parse_options. rewrite E. cbn [mbind res_bind].
  pose proof (zlen_nonneg new). pose proof (zlen_nonneg (rq_options r)).
  unfold add_options. destruct (Z.eqb_spec (zlen new) 0) as [E0|E0].
  - destruct new; [|discriminate E0]. rewrite app_nil_r, Z.add_0_r.
    by rewrite <- (wf_options_length _ Hwf), set_options_id.
  - rewrite (wf_options_length _ Hwf), u8_small by ff_lia.
    do 2 f_equal. unfold set_options, set_payload_contains_options. simpl. f_equal.
    unfold zlen. by rewrite Nat2Z.id, firstn_all.
Qed.

Lemma parse_options_cases r buff_size buff off :
  wf_request r -> 0 <= off -> 0 <= buff_size -> packet_ok (off + buff_size) buff ->
  ff_request_parse_options r buff_size buff off = Ok (0, r) \/
  exists n new c, 0 < n <= buff_size /\ slice buff off n = wire_options new c /\
    Forall wf_option new /\ map loaded new = new /\
    zlen (rq_options r) + zlen new < FF_REQUEST_MAX_OPTIONS /\
    ff_request_parse_options r buff_size buff off = Ok (n, add_options new c r).
Proof.
  intros Hwf Hoff Hs Hp. pose proof (zlen_nonneg (rq_options r)).
  assert (0 <= rq_options_length r) as Hcur by (by rewrite (wf_options_length _ Hwf)).
  destruct (parse_options_loop_sound buff off buff_size (rq_options_length r) Hoff Hs Hcur Hp
              (S (Z.to_nat FF_REQUEST_MAX_OPTIONS)) 0 []) as (e & He & Hpost);
    [lia | constructor | lia | unfold zlen; simpl; ff_lia |].
  destruct e as [|i new c].
  - left. unfold ff_request_parse_options. by rewrite He.
  - right. destruct Hpost as (new' & -> & Hnew & Hld & Hi & Hmax & Hw).
    rewrite (wf_options_length _ Hwf) in Hmax.
    exists i, new', c. rewrite Z.add_0_r, Z.sub_0_r in Hw.
    split; [lia|]. repeat (split; [done|]). by apply parse_options_done.
Qed.

(** The options a wire encoding stands for are appended to the request,
    unless there are too many. *)
Lemma parse_options_wire r buff_size pre post new c :
  wf_request r -> Forall wf_option new -> zlen (wire_options new c) <= buff_size < 2 ^ 31 ->
  ff_request_parse_options r buff_size (pre ++ wire_options new c ++ post) (zlen pre) =
    Ok (if zlen (rq_options r) + zlen new <? FF_REQUEST_MAX_OPTIONS
        then (zlen (wire_options new c), add_options (map loaded new) c r) else (0, r)).
Proof.
  intros Hwf Hnew Hs. pose proof (zlen_nonneg (rq_options r)).
  pose proof (wf_options_max _ Hwf).
  pose proof (parse_options_loop_complete buff_size (rq_options_length r) c
    (S (Z.to_nat FF_REQUEST_MAX_OPTIONS)) pre post new [] 0 (zlen pre) Hnew) as E.
  rewrite (wf_options_length _ Hwf) in E. change (zlen (@nil ff_request_option_node)) with 0 in E.
  rewrite !Z.add_0_r, Z.add_0_l in E. specialize (E Hs ltac:(lia) ltac:(lia)).
  destruct (Z.ltb_spec (zlen (rq_options r) + zlen new) FF_REQUEST_MAX_OPTIONS).
  - apply parse_options_done; [done| unfold zlen in *; by rewrite length_map |].
    rewrite (wf_options_length _ Hwf). apply E; ff_lia.
  - unfold ff_request_parse_options. rewrite (wf_options_length _ Hwf), E; [done|ff_lia..].
Qed.

End Options.

(** ** The whole parser *)

Section Packets.
Context {HO : HostOrder}.

(** The guards of [ff_request_parse_data_chunk] before the options. *)
Definition header_matches (r : ff_request) (buff_size : Z) (buff : list Z) : bool :=
  (sizeof_raw_ff_request_header + sizeof_raw_ff_request_option_header <=? buff_size) &&
  (rq_version r =? FF_VERSION_1) && (be_at 2 buff 0 =? FF_VERSION_1) &&
  (be_at 8 buff 2 =? rq_request_id r) && (be_at 4 buff 10 =? rq_payload_length r) &&
  (u32 (be_at 4 buff 14 + be_at 2 buff 18) <=? rq_payload_length r).

(** The rest of the function, after the header was read. *)
Definition data_chunk_tail (r : ff_request) (buff_size : Z) (buff : list Z) : res ff_request :=
  let chunk_offset := be_at 4 buff 14 in
  let chunk_length := be_at 2 buff 18 in
  if chunk_offset =? 0 then
    '(options_i, r) ← ff_request_parse_options r (buff_size - 20) buff 20;
    if options_i =? 0 then Ok (receiving_fail r)
    else if buff_size <? 20 + options_i + chunk_length then Ok (receiving_fail r)
    else store_chunk r chunk_offset chunk_length (20 + options_i) buff_size buff
  else
    option_type ← load_byte buff 20;
    if negb (option_type =? FF_REQUEST_OPTION_TYPE_EOL) then Ok (receiving_fail r)
    else if buff_size <? 23 + chunk_length then Ok (receiving_fail r)
    else store_chunk r chunk_offset chunk_length 23 buff_size buff.

Lemma parse_data_chunk_eq r buff_size buff :
  packet_ok buff_size buff ->
  ff_request_parse_data_chunk r buff_size buff =
    if header_matches r buff_size buff then data_chunk_tail r buff_size buff
    else Ok (receiving_fail r).
Proof.
  intros Hp. unfold ff_request_parse_data_chunk, header_matches.
  unfold sizeof_raw_ff_request_header, sizeof_raw_ff_request_option_header.
  destruct (Z.ltb_spec buff_size 20).
  { rewrite (proj2 (Z.leb_gt _ _)) by lia. done. }
  rewrite load_ntohs by (apply (packet_readable buff_size); [done|lia..]). cbn [mbind res_bind].
  rewrite load_ntohll by (apply (packet_readable buff_size); [done|lia..]). cbn [mbind res_bind].
  rewrite load_ntohl by (apply (packet_readable buff_size); [done|lia..]). cbn [mbind res_bind].
  assert (readable 4 buff 14) as Hro by (apply (packet_readable buff_size); [done|lia..]).
  rewrite load_uint_ok by done. cbn [mbind res_bind].
  rewrite ntohl_combine; [|apply Hro|by apply length_readable].
  fold (be_at 4 buff 14).
  assert ((host_combine (slice buff 14 (Z.of_nat 4)) =? 0) = (be_at 4 buff 14 =? 0)) as ->.
  { apply eq_true_iff_eq. rewrite !Z.eqb_eq. apply host_combine_zero, Hro. }
  rewrite load_ntohs by (apply (packet_readable buff_size); [done|lia..]). cbn [mbind res_bind].
  destruct (Z.eqb_spec (rq_version r) FF_VERSION_1) as [->|]; simpl;
    [|by rewrite andb_false_r].
  destruct (Z.eqb_spec (be_at 2 buff 0) FF_VERSION_1); simpl; [|by rewrite !andb_false_r].
  destruct (Z.eqb_spec (be_at 8 buff 2) (rq_request_id r)); simpl; [|by rewrite !andb_false_r].
  destruct (Z.eqb_spec (be_at 4 buff 10) (rq_payload_length r)); simpl;
    [|by rewrite !andb_false_r].
  destruct (Z.ltb_spec (rq_payload_length r) (u32 (be_at 4 buff 14 + be_at 2 buff 18))).
  { rewrite (proj2 (Z.leb_gt (u32 _) _)) by lia. by rewrite !andb_false_r. }
  rewrite (proj2 (Z.leb_le (u32 _) _)) by lia. rewrite !andb_true_r.
  change (20 + 3) with 23.
  destruct (Z.ltb_spec buff_size 23), (Z.leb_spec 23 buff_size); first [lia | done].
Qed.

Lemma header_matches_size r buff_size buff :
  header_matches r buff_size buff = true -> 23 <= buff_size.
Proof.
  unfold header_matches. intros H. rewrite !andb_true_iff, Z.leb_le in H. ff_lia.
Qed.

Lemma parse_data_chunk_wf r buff_size buff :
  wf_request r -> packet_ok buff_size buff ->
  exists r', ff_request_parse_data_chunk r buff_size buff = Ok r' /\ wf_request r'.
Proof.
  intros Hwf Hp. rewrite parse_data_chunk_eq by done.
  destruct (header_matches _ _ _) eqn:Hm; [|eauto with ff_wf].
  apply header_matches_size in Hm. unfold data_chunk_tail.
  assert (readable 2 buff 18) as Hr by (apply (packet_readable buff_size); [done|lia..]).
  pose proof (be_at_range _ _ _ Hr) as Hcl. change (256 ^ Z.of_nat 2) with 65536 in Hcl.
  destruct (be_at 4 buff 14 =? 0).
  - destruct (parse_options_cases r (buff_size - 20) buff 20) as
      [E | (n & new & c & Hn & _ & Hnew & _ & Hmax & E)];
      [done|lia|lia|by replace (20 + (buff_size - 20)) with buff_size by lia|..];
      rewrite E; cbn [mbind res_bind]; [simpl; eauto with ff_wf|].
    pose proof (wf_add_options new c r Hwf Hnew Hmax).
    rewrite (proj2 (Z.eqb_neq _ _)) by lia.
    destruct (Z.ltb_spec buff_size (20 + n + be_at 2 buff 18)); [eauto with ff_wf|].
    apply store_chunk_wf; [done..|lia|done|lia].
  - destruct (load_byte_in buff_size buff 20) as (t & -> & _); [done|lia|].
    cbn [mbind res_bind].
    destruct (negb _); [eauto with ff_wf|].
    destruct (Z.ltb_spec buff_size (23 + be_at 2 buff 18)); [eauto with ff_wf|].
    apply store_chunk_wf; [done..|lia|done|lia].
Qed.

(** [strncmp] against a literal without NULs compares the bytes. *)
Lemma strncmp_spec buff_size buff s off :
  packet_ok buff_size buff -> Forall (fun c => c <> 0) s ->
  0 <= off -> off + zlen s <= buff_size ->
  exists c, strncmp (length s) s buff off = Ok c /\ (c = 0 <-> slice buff off (zlen s) = s).
Proof.
  intros Hp Hs. revert off. induction Hs as [|ch s Hch Hs IH]; intros off Hoff Hlen.
  { exists 0. by rewrite slice_zero. }
  change (ch :: s) with ([ch] ++ s) in Hlen |- *. rewrite zlen_app in *.
  change (zlen [ch]) with 1 in *. pose proof (zlen_nonneg s).
  destruct (load_byte_in buff_size buff off Hp) as (d & Hd & _); [lia|].
  assert (slice buff off 1 = [d]) as E1.
  { apply load_byte_ok in Hd as (_ & Hd & _). unfold slice. change (Z.to_nat 1) with 1%nat.
    by rewrite (drop_S buff d). }
  rewrite slice_split, E1 by lia. cbn [app length strncmp head tail default from_option id].
  rewrite Hd. cbn [mbind res_bind].
  destruct (Z.eqb_spec ch d) as [<-|Hne].
  - rewrite (proj2 (Z.eqb_neq ch 0)) by done.
    destruct (IH (off + 1)) as (c & -> & Hc); [lia..|]. exists c. split; [done|].
    rewrite Hc. split; [intros ->; done | congruence].
  - exists (ch - d). split; [done|]. split; [lia | congruence].
Qed.

Lemma is_raw_http_loop_spec methods buff_size buff :
  packet_ok buff_size buff -> Forall (Forall (fun c => c <> 0)) methods ->
  exists b, is_raw_http_loop methods buff_size buff = Ok b /\
    (b = true -> Exists (fun m => zlen m <= buff_size /\ slice buff 0 (zlen m) = m) methods) /\
    (Forall (fun m => zlen m <= buff_size) methods ->
     Exists (fun m => slice buff 0 (zlen m) = m) methods -> b = true).
Proof.
  intros Hp. induction 1 as [|m methods Hm _ IH]; simpl.
  { exists false. repeat split; [done|]. intros _ H. inversion H. }
  destruct (Z.ltb_spec buff_size (zlen m)).
  { exists false. repeat split; [done|]. intros [? _]%Forall_cons. lia. }
  destruct (strncmp_spec buff_size buff m 0) as (c & -> & Hc); [done..|lia|].
  cbn [mbind res_bind]. destruct (Z.eqb_spec c 0) as [Hc0|Hc0].
  { exists true. split; [done|]. split; [|done]. intros _. left. split; [done|]. by apply Hc. }
  destruct IH as (b & -> & Hb & Hb'). exists b. repeat split.
  - intros ->. right. by apply Hb.
  - intros [_ ?]%Forall_cons [Hm'|?]%Exists_cons; [by apply Hc in Hm'|auto].
Qed.

Lemma methods_nonzero : Forall (Forall (fun c => c <> 0)) HTTP_METHODS.
Proof. repeat constructor; discriminate. Qed.

Lemma is_raw_http_total buff_size buff :
  packet_ok buff_size buff -> exists b, ff_request_is_raw_http buff_size buff = Ok b.
Proof.
  intros Hp. unfold ff_request_is_raw_http. case_match; [eauto|].
  destruct (is_raw_http_loop_spec HTTP_METHODS buff_size buff Hp methods_nonzero) as (b & -> & _).
  eauto.
Qed.

(** The request after a raw HTTP packet. *)
Definition raw_request (r : ff_request) (buff_size : Z) (buff : list Z) : ff_request :=
  set_payload (PayloadNodes [mk_node 0 buff_size
      (slice buff 0 buff_size ++ replicate (7 * Z.to_nat buff_size) indet)])
    (set_received_length buff_size (set_payload_length buff_size
      (set_state FF_REQUEST_STATE_RECEIVED (set_version FF_VERSION_RAW r)))).

Lemma parse_raw_http_eq r buff_size buff :
  packet_ok buff_size buff ->
  ff_request_parse_raw_http r buff_size buff = Ok (raw_request r buff_size buff).
Proof.
  intros [? ? ?]. unfold ff_request_parse_raw_http, ff_request_payload_load_buff.
  rewrite load_buff_slice by lia. cbn [mbind res_bind]. simpl.
  by rewrite u16_small by lia.
Qed.

Lemma wf_raw_request r buff_size buff :
  wf_request r -> packet_ok buff_size buff -> wf_request (raw_request r buff_size buff).
Proof.
  intros [] [? ? ?]. split; simpl; try done; [lia|].
  eexists. split; [done|]. repeat split; simpl.
  - constructor; [|done]. split; simpl; [lia..|].
    apply holds_loaded; [done|]. rewrite zlen_slice; lia.
  - by repeat constructor.
  - rewrite Z.add_0_r, u64_small by lia. done.
Qed.

(** A first packet that is not raw HTTP only sets the header fields. *)
Definition with_header (r : ff_request) (buff : list Z) : ff_request :=
  set_payload_length (be_at 4 buff 10)
    (set_request_id (be_at 8 buff 2) (set_version (be_at 2 buff 0) r)).

Lemma parse_first_chunk_eq r buff_size buff :
  packet_ok buff_size buff ->
  ff_request_parse_first_chunk r buff_size buff =
    is_raw_http ← ff_request_is_raw_http buff_size buff;
    if is_raw_http : bool then Ok (raw_request r buff_size buff)
    else if buff_size <? sizeof_raw_ff_request_header then Ok (receiving_fail r)
    else ff_request_parse_data_chunk (with_header r buff) buff_size buff.
Proof.
  intros Hp. unfold ff_request_parse_first_chunk.
  destruct (is_raw_http_total buff_size buff Hp) as (b & ->). cbn [mbind res_bind].
  destruct b; [by apply parse_raw_http_eq|].
  destruct (Z.ltb_spec buff_size sizeof_raw_ff_request_header) as [?|Hs]; [done|].
  unfold sizeof_raw_ff_request_header in Hs.
  rewrite load_ntohs by (apply (packet_readable buff_size); [done|lia..]). cbn [mbind res_bind].
  rewrite load_ntohll by (apply (packet_readable buff_size); [done|lia..]). cbn [mbind res_bind].
  rewrite load_ntohl by (apply (packet_readable buff_size); [done|lia..]). done.
Qed.

Lemma parse_chunk_wf r buff_size buff :
  wf_request r -> packet_ok buff_size buff ->
  exists r', ff_request_parse_chunk r buff_size buff = Ok r' /\ wf_request r'.
Proof.
  intros Hwf Hp. unfold ff_request_parse_chunk.
  case_match; [|by apply parse_data_chunk_wf].
  rewrite parse_first_chunk_eq by done.
  destruct (is_raw_http_total buff_size buff Hp) as (b & ->). cbn [mbind res_bind].
  destruct b; [eexists; split; [done|]; by apply wf_raw_request|].
  destruct (Z.ltb_spec buff_size sizeof_raw_ff_request_header) as [?|Hs]; [eauto with ff_wf|].
  apply parse_data_chunk_wf; [|done]. unfold with_header, sizeof_raw_ff_request_header in *.
  assert (readable 4 buff 10) as Hr by (apply (packet_readable buff_size); [done|lia..]).
  pose proof (be_at_range _ _ _ Hr). auto with ff_wf.
Qed.

End Packets.
