(* ===== verification/Reassembly.v ===== *)
(** * Reassembly of a request from its packets

    The contract of the receiving side: the packets of a request carry slices
    of one message, and when the parser reports the request as received,
    [ff_request_vectorise_payload] yields that message.  The proof counts the
    bytes covered by pairwise disjoint chunks. *)

From S2P Require Import Prelude Bytes Request Strings Parser ParserFacts.

(** ** Covered bytes *)

Definition node_range (n : ff_request_payload_node) : gset Z :=
  list_to_set (seqZ (node_offset n) (node_length n)).

Definition cover (nodes : list ff_request_payload_node) : gset Z :=
  ⋃ (node_range <$> nodes).

Lemma elem_of_node_range n k :
  k ∈ node_range n <-> node_offset n <= k < node_end n.
Proof. unfold node_range, node_end. rewrite elem_of_list_to_set, elem_of_seqZ. lia. Qed.

Lemma elem_of_cover nodes k :
  k ∈ cover nodes <-> exists n, n ∈ nodes /\ node_offset n <= k < node_end n.
Proof.
  unfold cover. rewrite elem_of_union_list. setoid_rewrite list_elem_of_fmap. split.
  - intros (X & (n & -> & Hn) & Hk). exists n. by rewrite <- elem_of_node_range.
  - intros (n & Hn & Hk). exists (node_range n). split; [by exists n|].
    by apply elem_of_node_range.
Qed.

Lemma size_node_range n :
  0 <= node_length n -> Z.of_nat (size (node_range n)) = node_length n.
Proof.
  intros. unfold node_range. rewrite size_list_to_set by apply NoDup_seqZ.
  rewrite length_seqZ. lia.
Qed.

Lemma size_cover nodes :
  Forall (fun n => 0 <= node_length n) nodes -> ForallOrdPairs disjoint_chunks nodes ->
  Z.of_nat (size (cover nodes)) = sum_lengths nodes.
Proof.
  induction nodes as [|n nodes IH]; intros Hl Hd; [done|].
  apply Forall_cons in Hl as [Hn Hl]. inversion Hd as [|? ? Hdn Hdr]; subst.
  change (cover (n :: nodes)) with (node_range n ∪ cover nodes).
  rewrite size_union; [by rewrite Nat2Z.inj_add, size_node_range, IH|].
  intros k Hk1%elem_of_node_range (m & Hm & Hk2)%elem_of_cover.
  eapply Forall_forall in Hdn; [|exact Hm]. unfold disjoint_chunks in Hdn. lia.
Qed.

Definition range (N : Z) : gset Z := list_to_set (seqZ 0 N).

Lemma size_range N : 0 <= N -> Z.of_nat (size (range N)) = N.
Proof.
  intros. unfold range. rewrite size_list_to_set by apply NoDup_seqZ.
  rewrite length_seqZ. lia.
Qed.

Section Cover.
Variables (nodes : list ff_request_payload_node) (N : Z).
Hypothesis Hlen : Forall (fun n => 0 <= node_length n) nodes.
Hypothesis Hdisj : ForallOrdPairs disjoint_chunks nodes.
Hypothesis Hin : Forall (fun n => 0 <= node_offset n /\ node_end n <= N) nodes.
Hypothesis HN : 0 <= N.

Lemma cover_subset : cover nodes ⊆ range N.
Proof using Hin.
  intros k (n & Hn & Hk)%elem_of_cover. eapply Forall_forall in Hin; [|exact Hn].
  unfold range. rewrite elem_of_list_to_set, elem_of_seqZ. lia.
Qed.

Lemma sum_lengths_bound : 0 <= sum_lengths nodes <= N.
Proof using All.
  rewrite <- size_cover by done. split; [lia|].
  rewrite <- (size_range N HN). apply inj_le, subseteq_size, cover_subset.
Qed.

(** Disjoint chunks whose lengths add up to the whole leave no gap. *)
Lemma cover_full k : sum_lengths nodes = N -> 0 <= k < N -> k ∈ cover nodes.
Proof using All.
  intros Hsum Hk.
  assert (cover nodes = range N) as ->.
  { apply leibniz_equiv. apply set_subseteq_size_equiv; [apply cover_subset|].
    apply Nat2Z.inj_le. rewrite size_cover, size_range by done. lia. }
  unfold range. rewrite elem_of_list_to_set, elem_of_seqZ. lia.
Qed.
End Cover.

(** ** The message the chunks carry *)

(** A chunk holds its slice of the message. *)
Definition fits (P : list Z) (n : ff_request_payload_node) : Prop :=
  0 <= node_offset n /\ 0 <= node_length n <= zlen (node_value n) /\ node_end n <= zlen P /\
  slice (node_value n) 0 (node_length n) = slice P (node_offset n) (node_length n).

Lemma lookup_write value off bs k value' :
  mem_write value off bs = Ok value' -> 0 <= k ->
  value' !! Z.to_nat k =
    if bool_decide (off <= k < off + zlen bs) then bs !! Z.to_nat (k - off)
    else value !! Z.to_nat k.
Proof.
  intros (Ho & Hl & ->)%mem_write_ok Hk. unfold zlen in *.
  assert (length (take (Z.to_nat off) value) = Z.to_nat off) as El
    by (rewrite length_take; lia).
  case_bool_decide as Hr.
  - rewrite lookup_app_r, El, lookup_app_l by lia. f_equal. lia.
  - destruct (decide (k < off)).
    + rewrite lookup_app_l by lia. apply lookup_take_lt. lia.
    + rewrite lookup_app_r, El, lookup_app_r, lookup_drop by lia. f_equal. lia.
Qed.

Lemma length_write value off bs value' :
  mem_write value off bs = Ok value' -> length value' = length value.
Proof.
  intros (Ho & Hl & ->)%mem_write_ok. unfold zlen in *.
  rewrite !length_app, length_take, length_drop. lia.
Qed.

Lemma vectorise_loop_spec P nodes : forall value,
  Forall (fits P) nodes -> length value = length P ->
  exists value', vectorise_loop value nodes = Ok value' /\ length value' = length P /\
    forall k, 0 <= k ->
      (k ∈ cover nodes -> value' !! Z.to_nat k = P !! Z.to_nat k) /\
      (k ∉ cover nodes -> value' !! Z.to_nat k = value !! Z.to_nat k).
Proof.
  induction nodes as [|n nodes IH]; intros value Hf Hv.
  { exists value. split_and!; [done..|]. intros k _. split; [|done].
    intros (? & H & _)%elem_of_cover. by apply not_elem_of_nil in H. }
  apply Forall_cons in Hf as [(Ho & Hl & He & Hs) Hf]. simpl.
  rewrite mem_read_slice by lia. cbn [mbind res_bind].
  assert (zlen (slice (node_value n) 0 (node_length n)) = node_length n) as Ez
    by (apply zlen_slice; lia).
  destruct (mem_write value (node_offset n) _) as [v1|] eqn:Ew; cycle 1.
  { unfold mem_write in Ew. case_bool_decide as Hb; [done|].
    contradict Hb. rewrite Ez. unfold node_end, zlen in *. lia. }
  cbn [mbind res_bind]. destruct (IH v1) as (v2 & -> & Hlen2 & Hk2);
    [done | by rewrite (length_write _ _ _ _ Ew)|].
  exists v2. split_and!; [done..|]. intros k Hk. destruct (Hk2 k Hk) as [Hin Hout].
  change (cover (n :: nodes)) with (node_range n ∪ cover nodes).
  rewrite elem_of_union, elem_of_node_range. unfold node_end.
  pose proof (lookup_write _ _ _ k _ Ew Hk) as Hw. rewrite Ez, Hs in Hw.
  destruct (decide (k ∈ cover nodes)) as [Hc|Hc]; [split; [by auto|tauto]|].
  rewrite (Hout Hc), Hw. split.
  - intros [Hr|?]; [|done]. rewrite bool_decide_true by lia.
    rewrite lookup_slice by lia. f_equal. lia.
  - intros Hn. by rewrite bool_decide_false by tauto.
Qed.

Definition carries (P : list Z) (r : ff_request) : Prop :=
  exists nodes, rq_payload r = PayloadNodes nodes /\ Forall (fits P) nodes.

(** The payload is one node that starts with the [N] bytes of [P]. *)
Definition single_payload (P : list Z) (r : ff_request) : Prop :=
  exists node, rq_payload r = PayloadNodes [node] /\ node_offset node = 0 /\
    node_length node = zlen P /\ zlen P <= zlen (node_value node) /\
    slice (node_value node) 0 (zlen P) = P.

Lemma wf_fits_lengths P nodes :
  Forall (fits P) nodes ->
  Forall (fun n => 0 <= node_length n) nodes /\
  Forall (fun n => 0 <= node_offset n /\ node_end n <= zlen P) nodes.
Proof.
  intros H. split; (eapply Forall_impl; [exact H|]); intros n (?&?&?&?); lia.
Qed.

Section Vectorise.
Variables (P : list Z) (r : ff_request) (nodes : list ff_request_payload_node).
Hypothesis Hwf : wf_request r.
Hypothesis Hpay : rq_payload r = PayloadNodes nodes.
Hypothesis Hfits : Forall (fits P) nodes.

Lemma nodes_disjoint : ForallOrdPairs disjoint_chunks nodes.
Proof using Hwf Hpay.
  destruct (wf_payload _ Hwf) as (nodes' & E & _ & Hd & _). rewrite Hpay in E.
  injection E as E. by rewrite E.
Qed.

(** With at most 2^16 bytes in the message the counter does not wrap. *)
Lemma received_length_sum :
  zlen P < 65536 -> rq_received_length r = sum_lengths nodes.
Proof using All.
  intros HP. destruct (wf_payload _ Hwf) as (nodes' & E & _ & Hd & Hr).
  rewrite Hpay in E. injection E as <-. rewrite Hr.
  destruct (wf_fits_lengths P nodes Hfits) as [Hl Hin].
  pose proof (sum_lengths_bound nodes (zlen P) Hl Hd Hin (zlen_nonneg P)).
  apply u64_small. lia.
Qed.

Lemma vectorise_correct :
  zlen P < 65536 -> nodes <> [] -> rq_payload_length r = zlen P ->
  rq_received_length r = rq_payload_length r ->
  exists r', ff_request_vectorise_payload r = Ok r' /\ single_payload P r' /\
    set_payload (rq_payload r) r' = r.
Proof using All.
  intros HP Hne Hlen Hrec. rewrite received_length_sum, Hlen in Hrec by done.
  destruct (wf_fits_lengths P nodes Hfits) as [Hl Hin].
  pose proof nodes_disjoint as Hd. pose proof (zlen_nonneg P) as HP0.
  unfold ff_request_vectorise_payload. rewrite Hpay.
  destruct nodes as [|n1 [|n2 rest]]; [done|..].
  - exists r. split_and!; [done| |by destruct r; simpl in *; subst].
    apply Forall_cons in Hfits as [(?&?&?&E) _]. unfold node_end in *.
    simpl in Hrec. exists n1. rewrite Z.add_0_r in Hrec. rewrite Hrec in *.
    assert (node_offset n1 = 0) as E0 by lia. rewrite E0 in *.
    split_and!; [done..|lia|]. rewrite E. by apply slice_full.
  - destruct (vectorise_loop_spec P (n1 :: n2 :: rest) (malloc (zlen P)))
      as (v & Hv & Hvl & Hk); [done| |].
    { unfold malloc, zlen. rewrite length_replicate. lia. }
    rewrite Hlen, Hv. cbn [mbind res_bind]. eexists. split_and!; [done| |].
    + eexists. split_and!; [done|done| | | ].
      * apply u16_small. lia.
      * unfold zlen. simpl. lia.
      * cbn [node_value]. rewrite slice_full by (unfold zlen; lia).
        apply list_eq. intros k. destruct (decide (k < length P)%nat).
        -- pose proof (Hk (Z.of_nat k) ltac:(lia)) as [Hc _]. rewrite Nat2Z.id in Hc.
           apply Hc. apply (cover_full _ (zlen P)); try done. unfold zlen. lia.
        -- rewrite !(proj2 (lookup_ge_None _ _)) by lia. done.
    + destruct r. simpl in *. by subst.
Qed.
End Vectorise.

(** ** Packets of a message *)

Record packet : Type := mk_packet {
  pk_id : Z;
  pk_total : Z;
  pk_offset : Z;
  pk_options : list ff_request_option_node;
  pk_contains : bool;
  pk_data : list Z;
}.

Definition wire_header (id total off len : Z) : list Z :=
  be_split 2 FF_VERSION_1 ++ be_split 8 id ++ be_split 4 total ++ be_split 4 off ++
  be_split 2 len.

Definition wire_packet (p : packet) : list Z :=
  wire_header (pk_id p) (pk_total p) (pk_offset p) (zlen (pk_data p)) ++
  wire_options (pk_options p) (pk_contains p) ++ pk_data p.

(** A packet of the request [id] with message [P]: it carries a slice of [P],
    and options only at offset 0. *)
Record packet_of (id : Z) (P : list Z) (p : packet) : Prop := {
  po_id : pk_id p = id;
  po_total : pk_total p = zlen P;
  po_offset : 0 <= pk_offset p;
  po_end : pk_offset p + zlen (pk_data p) <= zlen P;
  po_data : pk_data p = slice P (pk_offset p) (zlen (pk_data p));
  po_options : Forall wf_option (pk_options p);
  po_first : pk_offset p <> 0 -> pk_options p = [] /\ pk_contains p = false;
  po_size : zlen (wire_packet p) < 65536;
}.

Lemma zlen_be_split n x : zlen (be_split n x) = Z.of_nat n.
Proof. unfold zlen. by rewrite length_be_split. Qed.

Lemma zlen_wire_header id total off len : zlen (wire_header id total off len) = 20.
Proof. unfold wire_header. by rewrite !zlen_app, !zlen_be_split. Qed.

Section Header.
Variables (id total off len : Z) (post : list Z).
Hypothesis Hid : 0 <= id < 2 ^ 64.
Hypothesis Htotal : 0 <= total < 2 ^ 32.
Hypothesis Hoff : 0 <= off < 2 ^ 32.
Hypothesis Hlen : 0 <= len < 2 ^ 16.

Lemma header_fields :
  let buff := wire_header id total off len ++ post in
  be_at 2 buff 0 = 1 /\ be_at 8 buff 2 = id /\ be_at 4 buff 10 = total /\
  be_at 4 buff 14 = off /\ be_at 2 buff 18 = len.
Proof using All.
  unfold wire_header, FF_VERSION_1. cbn zeta. rewrite <- !app_assoc.
  split_and!.
  - by apply (be_at_mid 2 []).
  - by apply (be_at_mid 8).
  - rewrite (app_assoc (be_split 2 1)). by apply (be_at_mid 4).
  - rewrite (app_assoc (be_split 2 1)), (app_assoc (_ ++ _)). by apply (be_at_mid 4).
  - rewrite (app_assoc (be_split 2 1)), (app_assoc (_ ++ _)), (app_assoc ((_ ++ _) ++ _)).
    by apply (be_at_mid 2).
Qed.
End Header.

Lemma bytes_wire_option o : wf_option o -> bytes (wire_option o).
Proof.
  intros [? ? ? ? [? ?]]. unfold wire_option. constructor; [done|].
  apply Forall_app. split; [apply bytes_be_split | done].
Qed.

Lemma bytes_wire_options options c :
  Forall wf_option options -> bytes (wire_options options c).
Proof.
  intros H. unfold wire_options. apply Forall_app. split.
  - induction H; cbn [map concat]; [constructor|]. apply Forall_app. split; [by apply bytes_wire_option|done].
  - destruct c; repeat constructor; done.
Qed.

Lemma bytes_wire_packet id P p : bytes P -> packet_of id P p -> bytes (wire_packet p).
Proof.
  intros HP []. unfold wire_packet, wire_header. rewrite !Forall_app.
  split_and!; try apply bytes_be_split; [by apply bytes_wire_options|].
  rewrite po_data0. by apply bytes_slice.
Qed.

(** A datagram of the packet, in a block with older bytes behind it. *)
Lemma packet_ok_wire id P p rest :
  bytes P -> packet_of id P p -> packet_ok (zlen (wire_packet p)) (wire_packet p ++ rest).
Proof.
  intros HP Hp. pose proof (zlen_nonneg rest). pose proof (zlen_nonneg (wire_packet p)).
  split; [rewrite zlen_app; lia | pose proof (po_size _ _ _ Hp); lia |].
  rewrite slice_0_app by done. by apply (bytes_wire_packet id P).
Qed.

(** ** What the parser does with a packet of the message *)

Definition packet_node (p : packet) : ff_request_payload_node :=
  mk_node (pk_offset p) (zlen (pk_data p))
    (pk_data p ++ replicate (7 * Z.to_nat (zlen (pk_data p))) indet).

Definition packet_options (p : packet) (r : ff_request) : ff_request :=
  if pk_offset p =? 0 then add_options (map loaded (pk_options p)) (pk_contains p) r else r.

Definition options_fit (p : packet) (r : ff_request) : Prop :=
  pk_offset p = 0 -> zlen (rq_options r) + zlen (pk_options p) < FF_REQUEST_MAX_OPTIONS.

#[export] Instance options_fit_dec p r : Decision (options_fit p r).
Proof. unfold options_fit. apply _. Defined.

Definition accepted (p : packet) (nodes : list ff_request_payload_node) : Prop :=
  Forall (fun cur => overlaps (packet_node p) cur = false) nodes.

(** The request after a packet. *)
Definition receive_packet (r : ff_request) (nodes : list ff_request_payload_node) (p : packet)
    : ff_request :=
  if bool_decide (options_fit p r) then
    if bool_decide (accepted p nodes)
    then linked (packet_options p r) nodes (packet_node p)
    else receiving_fail (packet_options p r)
  else receiving_fail r.

Lemma wf_packet_options p r :
  wf_request r -> Forall wf_option (pk_options p) -> options_fit p r ->
  wf_request (packet_options p r).
Proof.
  intros Hwf Ho Hf. unfold packet_options. destruct (Z.eqb_spec (pk_offset p) 0); [|done].
  apply wf_add_options; [done| |unfold zlen in *; rewrite length_map; auto].
  rewrite Forall_map. eapply Forall_impl; [exact Ho|apply wf_loaded].
Qed.

Lemma packet_options_payload p r : rq_payload (packet_options p r) = rq_payload r.
Proof. unfold packet_options. by case_match. Qed.

Section Packet.
Context {HO : HostOrder}.
Variables (id : Z) (P : list Z) (p : packet) (rest : list Z).
Hypothesis HP : bytes P.
Hypothesis HPlen : zlen P < 65536.
Hypothesis Hid : 0 <= id < 2 ^ 64.
Hypothesis Hp : packet_of id P p.

Let buff := wire_packet p ++ rest.
Let size := zlen (wire_packet p).

Lemma packet_bounds :
  0 <= pk_offset p < 65536 /\ 0 <= zlen (pk_data p) < 65536 /\
  size = 20 + zlen (wire_options (pk_options p) (pk_contains p)) + zlen (pk_data p) /\
  3 <= zlen (wire_options (pk_options p) (pk_contains p)).
Proof.
  destruct Hp. pose proof (zlen_nonneg (pk_data p)). unfold size, wire_packet.
  rewrite !zlen_app, zlen_wire_header. split_and!; try lia.
  unfold wire_options. rewrite zlen_app, zlen_wire_end.
  pose proof (zlen_nonneg (concat (map wire_option (pk_options p)))). lia.
Qed.

Lemma packet_fields :
  be_at 2 buff 0 = 1 /\ be_at 8 buff 2 = id /\ be_at 4 buff 10 = zlen P /\
  be_at 4 buff 14 = pk_offset p /\ be_at 2 buff 18 = zlen (pk_data p).
Proof.
  pose proof packet_bounds as (?&?&_&_). pose proof (zlen_nonneg P). destruct Hp.
  unfold buff, wire_packet. rewrite <- app_assoc, po_id0, po_total0.
  apply header_fields; lia.
Qed.

(** The node stored for the packet is [packet_node]. *)
Lemma packet_chunk_node :
  chunk_node (pk_offset p) (zlen (pk_data p))
    (20 + zlen (wire_options (pk_options p) (pk_contains p))) size buff = packet_node p.
Proof.
  pose proof packet_bounds as (?&?&E&_). unfold chunk_node, packet_node.
  rewrite u16_small by lia.
  replace (size - _) with (zlen (pk_data p)) by lia.
  do 2 f_equal. unfold buff, wire_packet.
  rewrite app_assoc, <- app_assoc. apply slice_mid; [|done].
  by rewrite zlen_app, zlen_wire_header.
Qed.

Lemma packet_node_wf : wf_node (packet_node p).
Proof.
  pose proof packet_bounds as (?&?&_&_). split; simpl; [lia..|].
  apply holds_loaded; [|lia]. rewrite (po_data _ _ _ Hp). by apply bytes_slice.
Qed.

Lemma packet_node_fits : fits P (packet_node p).
Proof.
  pose proof packet_bounds as (?&?&_&_). pose proof (zlen_nonneg (pk_data p)).
  destruct Hp. unfold fits, node_end, packet_node. cbn [node_offset node_length node_value].
  rewrite zlen_app.
  pose proof (zlen_nonneg (replicate (7 * Z.to_nat (zlen (pk_data p))) indet)).
  split_and!; try lia. by rewrite slice_0_app.
Qed.

Lemma first_options_wire r :
  wf_request r ->
  ff_request_parse_options r (size - 20) buff 20 =
    Ok (if zlen (rq_options r) + zlen (pk_options p) <? FF_REQUEST_MAX_OPTIONS
        then (zlen (wire_options (pk_options p) (pk_contains p)),
              add_options (map loaded (pk_options p)) (pk_contains p) r)
        else (0, r)).
Proof.
  intros Hwf. pose proof packet_bounds as (?&?&E&_). pose proof (po_size _ _ _ Hp) as Hs.
  fold size in Hs. unfold buff, wire_packet. rewrite <- !app_assoc.
  rewrite <- (zlen_wire_header (pk_id p) (pk_total p) (pk_offset p) (zlen (pk_data p))) at 2.
  apply parse_options_wire; [done|apply Hp|lia].
Qed.

Lemma later_option_type : pk_offset p <> 0 -> load_byte buff 20 = Ok 0.
Proof.
  intros Hne. destruct (po_first _ _ _ Hp Hne) as [E1 E2].
  unfold buff, wire_packet. rewrite E1, E2, <- !app_assoc.
  change (wire_options [] false ++ ?l) with (0 :: [0; 0] ++ l).
  apply load_byte_mid; [by rewrite zlen_wire_header | done].
Qed.

Lemma parse_packet r nodes :
  wf_request r -> rq_payload r = PayloadNodes nodes -> rq_version r = FF_VERSION_1 ->
  rq_request_id r = id -> rq_payload_length r = zlen P ->
  ff_request_parse_data_chunk r size buff = Ok (receive_packet r nodes p).
Proof.
  intros Hwf Hpay Hver Hrid Hrlen.
  pose proof packet_bounds as (Ho&Hd&Esize&Hopt). pose proof packet_fields as (F1&F2&F3&F4&F5).
  pose proof (packet_ok_wire id P p rest HP Hp) as Hok. fold size buff in Hok.
  pose proof (zlen_nonneg P).
  rewrite parse_data_chunk_eq by done.
  assert (header_matches r size buff = true) as ->.
  { unfold header_matches. rewrite F1, F2, F3, F4, F5, Hver, Hrid, Hrlen.
    rewrite !Z.eqb_refl, u32_small by (pose proof (po_end _ _ _ Hp); lia).
    rewrite !(proj2 (Z.leb_le _ _)); [done| |ff_lia]. apply Hp. }
  destruct (wf_payload _ Hwf) as (nodes' & E & Hwn & Hdj & Hrec).
  rewrite Hpay in E. injection E as <-.
  unfold data_chunk_tail, receive_packet. rewrite F4, F5.
  destruct (Z.eqb_spec (pk_offset p) 0) as [E0|E0].
  - rewrite first_options_wire by done. cbn [mbind res_bind].
    destruct (Z.ltb_spec (zlen (rq_options r) + zlen (pk_options p)) FF_REQUEST_MAX_OPTIONS).
    + rewrite (bool_decide_true (options_fit p r)) by (by intros _).
      rewrite (proj2 (Z.eqb_neq _ _)), (proj2 (Z.ltb_ge _ _)) by lia.
      assert (packet_options p r = add_options (map loaded (pk_options p)) (pk_contains p) r) as <-
        by (unfold packet_options; by rewrite E0).
      rewrite (store_chunk_spec _ nodes); try done; try lia;
        [|by rewrite packet_options_payload|by unfold packet_options; case_match].
      by rewrite packet_chunk_node.
    + rewrite bool_decide_false; [done|]. intros Hf. specialize (Hf E0). lia.
  - rewrite later_option_type by done. cbn [mbind res_bind].
    destruct (po_first _ _ _ Hp E0) as [E1 E2].
    rewrite (bool_decide_true (options_fit p r)) by (by intros ?).
    rewrite E1, E2 in Esize. change (zlen (wire_options [] false)) with 3 in Esize.
    rewrite (proj2 (Z.ltb_ge _ _)) by lia.
    assert (packet_options p r = r) as -> by (unfold packet_options; by rewrite (proj2 (Z.eqb_neq _ _))).
    rewrite (store_chunk_spec _ nodes); try done; try lia.
    pose proof packet_chunk_node as En. rewrite E1, E2 in En.
    change (20 + zlen (wire_options [] false)) with 23 in En. by rewrite En.
Qed.

End Packet.

(** ** Sequences of packets *)

Section Feed.
Context {HO : HostOrder}.

(** The datagrams of one request, in the order of their arrival. *)
Fixpoint feed (r : ff_request) (datagrams : list (Z * list Z)) : res ff_request :=
  match datagrams with
  | [] => Ok r
  | (buff_size, buff) :: datagrams =>
      r' ← ff_request_parse_chunk r buff_size buff; feed r' datagrams
  end.

Definition datagram (d : packet * list Z) : Z * list Z :=
  (zlen (wire_packet (fst d)), wire_packet (fst d) ++ snd d).

Variables (id : Z) (P : list Z).
Hypothesis HP : bytes P.
Hypothesis HPlen : zlen P < 65536.
Hypothesis Hid : 0 <= id < 2 ^ 64.

(** A request some packets of the message were fed to. *)
Record receiving (r : ff_request) (nodes : list ff_request_payload_node) : Prop := {
  rc_wf : wf_request r;
  rc_payload : rq_payload r = PayloadNodes nodes;
  rc_fits : Forall (fits P) nodes;
  rc_phase : rq_version r = 0 /\ nodes = [] /\ rq_state r = FF_REQUEST_STATE_RECEIVING \/
             rq_version r = FF_VERSION_1 /\ rq_request_id r = id /\
             rq_payload_length r = zlen P;
  rc_received : rq_state r = FF_REQUEST_STATE_RECEIVED ->
    nodes <> [] /\ rq_received_length r = rq_payload_length r;
}.

Lemma receiving_alloc : receiving ff_request_alloc [].
Proof.
  split; [apply wf_request_alloc|done|constructor|by left|done].
Qed.

(** The version number of the wire format is no letter. *)
Lemma wire_not_raw p rest :
  packet_of id P p ->
  ff_request_is_raw_http (zlen (wire_packet p)) (wire_packet p ++ rest) = Ok false.
Proof.
  intros Hp. pose proof (packet_ok_wire id P p rest HP Hp) as Hok.
  unfold ff_request_is_raw_http. case_match; [done|].
  destruct (is_raw_http_loop_spec _ _ _ Hok methods_nonzero) as (b & -> & Hb & _).
  destruct b; [|done]. exfalso. specialize (Hb eq_refl).
  apply Exists_exists in Hb as (m & Hm & _ & E).
  unfold wire_packet, wire_header in E. rewrite <- !app_assoc in E.
  change (be_split 2 FF_VERSION_1) with [0; 1] in E.
  repeat (apply elem_of_cons in Hm as [->|Hm]; [discriminate E|]).
  by apply not_elem_of_nil in Hm.
Qed.

(** The request the packet's chunk is parsed into. *)
Definition opened (r : ff_request) (p : packet) : ff_request :=
  if rq_version r =? 0
  then set_payload_length (zlen P) (set_request_id id (set_version FF_VERSION_1 r)) else r.

Lemma parse_chunk_packet r nodes p rest :
  receiving r nodes -> packet_of id P p ->
  ff_request_parse_chunk r (zlen (wire_packet p)) (wire_packet p ++ rest) =
    Ok (receive_packet (opened r p) nodes p).
Proof.
  intros [Hwf Hpay Hfits Hph _] Hp. pose proof (zlen_nonneg P).
  unfold ff_request_parse_chunk, opened. destruct (Z.eqb_spec (rq_version r) 0) as [E|E].
  - rewrite parse_first_chunk_eq by (by apply (packet_ok_wire id P)).
    rewrite wire_not_raw by done. cbn [mbind res_bind].
    destruct (packet_bounds id P p HPlen Hp) as (_ & _ & Hs & Ho).
    pose proof (zlen_nonneg (pk_data p)).
    rewrite (proj2 (Z.ltb_ge _ _)) by ff_lia.
    destruct (packet_fields id P p rest HPlen Hid Hp) as (F1 & F2 & F3 & _).
    unfold with_header. rewrite F1, F2, F3.
    apply (parse_packet id P); try done. auto 10 with ff_wf lia.
  - apply (parse_packet id P); try done; destruct Hph as [?|?]; tauto.
Qed.

Lemma opened_facts r nodes p :
  receiving r nodes ->
  wf_request (opened r p) /\ rq_payload (opened r p) = PayloadNodes nodes /\
  rq_version (opened r p) = FF_VERSION_1 /\ rq_request_id (opened r p) = id /\
  rq_payload_length (opened r p) = zlen P /\ rq_state (opened r p) = rq_state r /\
  rq_options (opened r p) = rq_options r.
Proof.
  intros [Hwf Hpay _ Hph _]. pose proof (zlen_nonneg P). unfold opened.
  destruct (Z.eqb_spec (rq_version r) 0) as [E|E].
  - split_and!; try done. auto 10 with ff_wf lia.
  - destruct Hph as [[]|(?&?&?)]; [done|]. by split_and!.
Qed.

(** The request of [linked], field by field. *)
Lemma linked_fields r nodes node :
  rq_payload (linked r nodes node) = PayloadNodes (nodes ++ [node]) /\
  rq_version (linked r nodes node) = rq_version r /\
  rq_request_id (linked r nodes node) = rq_request_id r /\
  rq_payload_length (linked r nodes node) = rq_payload_length r /\
  rq_received_length (linked r nodes node) = u64 (sum_lengths (nodes ++ [node])) /\
  rq_options (linked r nodes node) = rq_options r /\
  rq_payload_contains_options (linked r nodes node) = rq_payload_contains_options r /\
  rq_state (linked r nodes node) =
    if u64 (sum_lengths (nodes ++ [node])) =? rq_payload_length r
    then FF_REQUEST_STATE_RECEIVED else rq_state r.
Proof. unfold linked, finish_chunk. simpl. case_match; by split_and!. Qed.

Lemma packet_options_fields p r :
  rq_version (packet_options p r) = rq_version r /\
  rq_request_id (packet_options p r) = rq_request_id r /\
  rq_payload_length (packet_options p r) = rq_payload_length r /\
  rq_state (packet_options p r) = rq_state r.
Proof. unfold packet_options. by case_match. Qed.

Lemma receiving_fail_step r nodes :
  wf_request r -> rq_payload r = PayloadNodes nodes -> Forall (fits P) nodes ->
  rq_version r = FF_VERSION_1 -> rq_request_id r = id -> rq_payload_length r = zlen P ->
  receiving (receiving_fail r) nodes.
Proof.
  intros. split; [auto with ff_wf | done | done | right; by split_and! | done].
Qed.

Lemma receive_packet_step r nodes p :
  receiving r nodes -> packet_of id P p ->
  exists nodes', receiving (receive_packet (opened r p) nodes p) nodes'.
Proof.
  intros Hr Hp. destruct (opened_facts r nodes p Hr) as (Hwf & Hpay & Hv & Hi & Hl & Hst & _).
  pose proof (rc_fits _ _ Hr) as Hfits. unfold receive_packet.
  case_bool_decide as Hof; [|exists nodes; by apply receiving_fail_step].
  pose proof (wf_packet_options p _ Hwf (po_options _ _ _ Hp) Hof) as Hwf'.
  destruct (packet_options_fields p (opened r p)) as (Ev & Ei & El & Es).
  rewrite <- Ev in Hv. rewrite <- Ei in Hi. rewrite <- El in Hl.
  rewrite <- (packet_options_payload p) in Hpay.
  case_bool_decide as Hacc; [|exists nodes; by apply receiving_fail_step].
  exists (nodes ++ [packet_node p]).
  destruct (linked_fields (packet_options p (opened r p)) nodes (packet_node p))
    as (L1 & L2 & L3 & L4 & L5 & _ & _ & L8).
  split.
  - apply wf_linked; try done. by apply (packet_node_wf id P).
  - done.
  - apply Forall_app. split; [done|]. constructor; [|done]. by apply (packet_node_fits id).
  - right. by rewrite L2, L3, L4.
  - intros Hrec. split; [by destruct nodes|]. rewrite L4, L5. rewrite L8 in Hrec.
    destruct (Z.eqb_spec (u64 (sum_lengths (nodes ++ [packet_node p])))
                (rq_payload_length (packet_options p (opened r p)))) as [|Hne]; [done|].
    exfalso. rewrite Es, Hst in Hrec. destruct (rc_received _ _ Hr Hrec) as [Hnn Hrl].
    destruct (rc_phase _ _ Hr) as [(_ & ? & _)|(_ & _ & Hpl)]; [done|].
    rewrite (received_length_sum P r nodes), Hpl in Hrl by (try done; apply Hr).
    assert (Forall (fits P) (nodes ++ [packet_node p])) as Hfits'.
    { apply Forall_app. split; [done|]. constructor; [|done]. by apply (packet_node_fits id). }
    destruct (wf_fits_lengths P _ Hfits') as [Hl1 Hl2].
    pose proof (nodes_disjoint (linked (packet_options p (opened r p)) nodes (packet_node p)) _
      ltac:(apply wf_linked; try done; by apply (packet_node_wf id P)) L1) as Hd.
    pose proof (sum_lengths_bound _ (zlen P) Hl1 Hd Hl2 (zlen_nonneg P)) as Hb.
    apply Hne. rewrite Hl, u64_small by lia. rewrite sum_lengths_app in *. simpl in *.
    pose proof (zlen_nonneg (pk_data p)). lia.
Qed.

Lemma feed_cons r p rest ds :
  feed r (map datagram ((p, rest) :: ds)) =
    r' ← ff_request_parse_chunk r (zlen (wire_packet p)) (wire_packet p ++ rest);
    feed r' (map datagram ds).
Proof. reflexivity. Qed.

Lemma feed_receiving ds : forall r nodes r',
  receiving r nodes -> Forall (fun d => packet_of id P (fst d)) ds ->
  feed r (map datagram ds) = Ok r' -> exists nodes', receiving r' nodes'.
Proof.
  induction ds as [|[p rest] ds IH]; intros r nodes r' Hr Hds.
  - intros [= <-]. by exists nodes.
  - apply Forall_cons in Hds as [Hp Hds]. rewrite feed_cons, (parse_chunk_packet r nodes) by done.
    cbn [mbind res_bind]. destruct (receive_packet_step r nodes p Hr Hp) as (nodes1 & H1).
    by apply IH with nodes1.
Qed.

(** Every sequence of packets of the message is parsed without a fault. *)
Lemma feed_total ds : forall r nodes,
  receiving r nodes -> Forall (fun d => packet_of id P (fst d)) ds ->
  exists r', feed r (map datagram ds) = Ok r'.
Proof.
  induction ds as [|[p rest] ds IH]; intros r nodes Hr Hds; [simpl; eauto|].
  apply Forall_cons in Hds as [Hp Hds]. rewrite feed_cons, (parse_chunk_packet r nodes) by done.
  cbn [mbind res_bind]. destruct (receive_packet_step r nodes p Hr Hp) as (nodes1 & H1).
  by apply IH with nodes1.
Qed.

Lemma receiving_vectorise r nodes :
  receiving r nodes -> rq_state r = FF_REQUEST_STATE_RECEIVED ->
  exists r', ff_request_vectorise_payload r = Ok r' /\ single_payload P r'.
Proof.
  intros Hr Hst. destruct (rc_received _ _ Hr Hst) as [Hne Hrec].
  destruct (rc_phase _ _ Hr) as [(_ & ? & _)|(_ & _ & Hlen)]; [done|].
  destruct (vectorise_correct P r nodes) as (r' & E & Hs & _);
    [apply Hr | apply Hr | apply Hr | done.. |]. eauto.
Qed.


(** *** Packets that arrive in order *)

(** Consecutive non-empty chunks from [off] to [fin]. *)
Fixpoint consecutive (off : Z) (ps : list packet) (fin : Z) : Prop :=
  match ps with
  | [] => off = fin
  | p :: ps =>
      pk_offset p = off /\ 0 < zlen (pk_data p) /\
      consecutive (off + zlen (pk_data p)) ps fin
  end.

Lemma consecutive_le off ps fin : consecutive off ps fin -> off <= fin.
Proof.
  revert off. induction ps as [|p ps IH]; intros off; simpl; [lia|].
  intros (_ & ? & H%IH). lia.
Qed.

(** Reception up to [off], without a gap. *)
Record prefix_received (r : ff_request) (nodes : list ff_request_payload_node) (off : Z)
    : Prop := {
  px_receiving : receiving r nodes;
  px_state : rq_state r = FF_REQUEST_STATE_RECEIVING;
  px_sum : sum_lengths nodes = off;
  px_end : Forall (fun n => node_end n <= off) nodes;
}.

Lemma in_order_accepted r nodes off p :
  prefix_received r nodes off -> pk_offset p = off -> accepted p nodes.
Proof.
  intros [_ _ _ He] <-. eapply Forall_impl; [exact He|]. intros n Hn.
  unfold overlaps. apply andb_false_iff. left. apply Z.ltb_ge.
  unfold node_end in Hn. simpl. lia.
Qed.

Lemma receive_in_order r nodes off p :
  prefix_received r nodes off -> packet_of id P p -> pk_offset p = off ->
  options_fit p r ->
  let r' := receive_packet (opened r p) nodes p in
  let off' := off + zlen (pk_data p) in
  receiving r' (nodes ++ [packet_node p]) /\
  rq_options r' = rq_options (packet_options p r) /\
  rq_payload_contains_options r' = rq_payload_contains_options (packet_options p r) /\
  (off' = zlen P -> rq_state r' = FF_REQUEST_STATE_RECEIVED) /\
  (off' <> zlen P -> prefix_received r' (nodes ++ [packet_node p]) off').
Proof.
  intros Hpx Hp Hoff Hof. pose proof Hpx as [Hr Hst Hsum Hend].
  destruct (opened_facts r nodes p Hr) as (Hwf & Hpay & Hv & Hi & Hl & Es & Eo).
  destruct (receive_packet_step r nodes p Hr Hp) as (nodes' & Hr').
  assert (options_fit p (opened r p)) as Hof' by (intros ?; rewrite Eo; auto).
  cbn zeta. unfold receive_packet in *.
  rewrite bool_decide_true, bool_decide_true in * by
    (done || by apply (in_order_accepted r nodes off)).
  destruct (linked_fields (packet_options p (opened r p)) nodes (packet_node p))
    as (L1 & _ & _ & L4 & _ & L6 & L7 & L8).
  destruct (packet_options_fields p (opened r p)) as (_ & _ & Epl & Est).
  assert (nodes' = nodes ++ [packet_node p]) as ->.
  { pose proof (rc_payload _ _ Hr'). congruence. }
  destruct (packet_bounds id P p HPlen Hp) as (? & ? & _).
  assert (sum_lengths (nodes ++ [packet_node p]) = off + zlen (pk_data p)) as Esum
    by (rewrite sum_lengths_app; simpl; lia).
  rewrite Esum, u64_small, Epl, Hl, Est, Es, Hst in L8 by lia.
  split_and!; [done| | | |].
  - rewrite L6. unfold packet_options, opened. by repeat case_match.
  - rewrite L7. unfold packet_options, opened. by repeat case_match.
  - intros E. by rewrite L8, E, Z.eqb_refl.
  - intros E. split; [done| |done|].
    + by rewrite L8, (proj2 (Z.eqb_neq _ _)).
    + apply Forall_app. split; [|repeat constructor; unfold node_end; simpl; lia].
      eapply Forall_impl; [exact Hend|]. simpl. lia.
Qed.

Lemma feed_in_order ds : forall r nodes off p rest,
  prefix_received r nodes off -> options_fit p r ->
  Forall (fun d => packet_of id P (fst d)) ((p, rest) :: ds) ->
  consecutive off (map fst ((p, rest) :: ds)) (zlen P) ->
  exists r' nodes', feed r (map datagram ((p, rest) :: ds)) = Ok r' /\
    receiving r' nodes' /\ rq_state r' = FF_REQUEST_STATE_RECEIVED /\
    rq_options r' = rq_options (packet_options p r) /\
    rq_payload_contains_options r' = rq_payload_contains_options (packet_options p r).
Proof.
  induction ds as [|[p' rest'] ds IH]; intros r nodes off p rest Hpx Hof Hds Hcons;
    apply Forall_cons in Hds as [Hp Hds]; destruct Hcons as (Ho & Hlen & Hcons);
    rewrite feed_cons, (parse_chunk_packet r nodes) by (done || apply Hpx);
    cbn [mbind res_bind]; simpl in Ho, Hlen;
    destruct (receive_in_order r nodes off p Hpx Hp Ho Hof) as (Hr' & Eo & Ec & Hdone & Hmore).
  - eexists _, _. split; [done|]. simpl in Hcons. specialize (Hdone Hcons). by split_and!.
  - cbn [fst] in Hp. pose proof (po_offset _ _ _ Hp).
    pose proof Hcons as (Ho' & Hlen' & Hle%consecutive_le). simpl in Ho', Hlen', Hle.
    assert (pk_offset p' <> 0) as Hne by lia.
    destruct (IH (receive_packet (opened r p) nodes p) (nodes ++ [packet_node p])
               (off + zlen (pk_data p)) p' rest') as (r' & nodes' & E & Hr'' & Hst & Eo' & Ec').
    + apply Hmore. lia.
    + by intros ?.
    + done.
    + done.
    + assert (packet_options p' (receive_packet (opened r p) nodes p) =
              receive_packet (opened r p) nodes p) as Ep
        by (unfold packet_options at 1; by rewrite (proj2 (Z.eqb_neq _ _))).
      rewrite Ep in *. exists r', nodes'. split_and!; [done..|congruence|congruence].
Qed.


Lemma prefix_alloc : prefix_received ff_request_alloc [] 0.
Proof. split; [apply receiving_alloc|done|done|constructor]. Qed.

End Feed.
