(* ===== verification/PayloadOptions.v ===== *)
(** * Options inside the payload

    What [ff_request_parse_options_from_payload] does on each of its exits. *)

From S2P Require Import Prelude Bytes Request Strings Parser ParserFacts Reassembly.

(** ** Options inside the payload *)

Section FromPayload.
Context {HO : HostOrder}.

Lemma packet_ok_node node : wf_node node -> packet_ok (node_length node) (node_value node).
Proof. intros [_ Hl [Hv Hb]]. split; [lia|lia|done]. Qed.

Lemma wf_single_node r node :
  wf_request r -> rq_payload r = PayloadNodes [node] -> wf_node node.
Proof.
  intros Hwf E. destruct (wf_payload _ Hwf) as (nodes & E' & Hn & _).
  rewrite E in E'. injection E' as <-. by apply Forall_inv in Hn.
Qed.

(** The request after its payload was cut behind [n] bytes of options. *)
Definition cut_payload (n : Z) (node : ff_request_payload_node) (r : ff_request) : ff_request :=
  let len := node_length node - n in
  set_state FF_REQUEST_STATE_PARSED_OPTIONS
    (set_payload_length len
       (set_payload (PayloadNodes [mk_node 0 len
          (slice (node_value node) n len ++ replicate (7 * Z.to_nat len) indet)]) r)).

(** The exits of [ff_request_parse_options_from_payload]. *)
Lemma from_payload_cases r node :
  wf_request r -> rq_payload r = PayloadNodes [node] ->
  let r0 := set_state FF_REQUEST_STATE_PARSING_OPTIONS r in
  ff_request_parse_options_from_payload r =
    if negb (rq_payload_contains_options r)
    then Ok (set_state FF_REQUEST_STATE_PARSED_OPTIONS r0)
    else
      '(n, r1) ← ff_request_parse_options r0 (node_length node) (node_value node) 0;
      if n =? 0 then Ok (set_state FF_REQUEST_STATE_PARSING_OPTIONS_FAILED r1)
      else if (node_length node <=? n) || rq_payload_contains_options r1
      then Ok (set_payload PayloadDangling
                 (set_state FF_REQUEST_STATE_PARSING_OPTIONS_FAILED r1))
      else Ok (cut_payload n node r1).
Proof.
  intros Hwf E r0. pose proof (wf_single_node r node Hwf E) as Hn.
  unfold ff_request_parse_options_from_payload. rewrite E. cbn zeta. fold r0.
  change (rq_payload_contains_options r0) with (rq_payload_contains_options r).
  destruct (negb (rq_payload_contains_options r)); [done|].
  destruct (parse_options_cases r0 (node_length node) (node_value node) 0)
    as [-> | (n & new & c & Hlen & _ & _ & _ & _ & ->)];
    [by apply wf_set_state | lia | apply Hn | by apply packet_ok_node |
     reflexivity | ].
  cbn [mbind res_bind]. destruct (Z.eqb_spec n 0); [lia|].
  destruct (Z.leb_spec (node_length node) n); [done|]. cbn [orb].
  case_match; [done|]. pose proof Hn as [_ Hl [Hv _]].
  unfold ff_request_payload_load_buff. cbn [node_length node_offset].
  rewrite u16_small, load_buff_slice by lia. done.
Qed.

(** The option parser on a payload that starts with options. *)
Lemma payload_options_wire r node new c body :
  wf_request r -> wf_node node -> Forall wf_option new ->
  slice (node_value node) 0 (node_length node) = wire_options new c ++ body ->
  zlen (rq_options r) + zlen new < FF_REQUEST_MAX_OPTIONS ->
  ff_request_parse_options r (node_length node) (node_value node) 0 =
    Ok (zlen (wire_options new c), add_options (map loaded new) c r) /\
  node_length node = zlen (wire_options new c) + zlen body /\
  slice (node_value node) (zlen (wire_options new c)) (zlen body) = body.
Proof.
  intros Hwf [_ Hl [Hv Hb]] Hnew Hs Hmax.
  assert (node_length node = zlen (wire_options new c) + zlen body) as El.
  { rewrite <- zlen_app, <- Hs, zlen_slice; lia. }
  assert (node_value node = [] ++ wire_options new c ++
            (body ++ drop (Z.to_nat (node_length node)) (node_value node))) as Ev.
  { rewrite app_nil_l, app_assoc, <- Hs. unfold slice. rewrite drop_0. symmetry. apply take_drop. }
  pose proof (zlen_nonneg body).
  split_and!; [|done|].
  - rewrite Ev. change 0 with (zlen (@nil Z)).
    rewrite parse_options_wire by (done || lia). by rewrite (proj2 (Z.ltb_lt _ _)).
  - rewrite Ev, app_nil_l. by apply slice_mid.
Qed.

(** Options ended by EOL in front of a body. *)
Lemma from_payload_body (r : ff_request)
    (node : ff_request_payload_node) (new : list ff_request_option_node) (body : list Z) :
  wf_request r -> rq_payload r = PayloadNodes [node] ->
  rq_payload_contains_options r = true -> Forall wf_option new -> body <> [] ->
  slice (node_value node) 0 (node_length node) = wire_options new false ++ body ->
  zlen (rq_options r) + zlen new < FF_REQUEST_MAX_OPTIONS ->
  exists r', ff_request_parse_options_from_payload r = Ok r' /\
    rq_state r' = FF_REQUEST_STATE_PARSED_OPTIONS /\
    rq_options r' = rq_options r ++ map loaded new /\
    rq_options_length r' = zlen (rq_options r') /\ rq_payload_contains_options r' = false /\
    rq_payload_length r' = zlen body /\ single_payload body r'.
Proof.
  intros Hwf Hpay Hc Hnew Hbody Hs Hmax. rewrite (from_payload_cases r node), Hc by done.
  pose proof (wf_single_node r node Hwf Hpay) as Hn.
  destruct (payload_options_wire (set_state FF_REQUEST_STATE_PARSING_OPTIONS r)
              node new false body) as (E & El & Eb); [by apply wf_set_state|done..|].
  assert (0 < zlen body) by (destruct body; [done|]; unfold zlen; simpl; lia).
  cbn [negb]. rewrite E. cbn [mbind res_bind].
  assert (3 <= zlen (wire_options new false)).
  { unfold wire_options. rewrite zlen_app, zlen_wire_end.
    pose proof (zlen_nonneg (concat (map wire_option new))). lia. }
  rewrite (proj2 (Z.eqb_neq _ _)), (proj2 (Z.leb_gt _ _)) by lia. cbn [orb].
  eexists. split; [reflexivity|]. unfold cut_payload.
  replace (node_length node - zlen (wire_options new false)) with (zlen body) by lia.
  split_and!; try done.
  { cbn. by rewrite zlen_app. }
  eexists. split_and!; [done..| |]; cbn [node_value].
  - rewrite Eb, zlen_app. pose proof (zlen_nonneg (replicate (7 * Z.to_nat (zlen body)) indet)). lia.
  - rewrite Eb. by apply slice_0_app.
Qed.

End FromPayload.
