(* ===== verification/ParserProps.v ===== *)
(** * Properties of the parser and of reassembly

    The claims about src/parser.c and [ff_request_vectorise_payload] of
    src/request.c, each with a witness on concrete packets. *)

From S2P Require Import Prelude Bytes Request Strings Parser ParserFacts Reassembly PayloadOptions.

(** ** Independence of the byte order of the host *)

Lemma parse_options_loop_order (h1 h2 : HostOrder) buff_size current buff off :
  0 <= off -> packet_ok (off + buff_size) buff ->
  forall fuel i options, 0 <= i <= buff_size ->
  parse_options_loop (HO := h1) fuel current buff_size buff off i options =
  parse_options_loop (HO := h2) fuel current buff_size buff off i options.
Proof.
  intros Hoff Hp. pose proof (packet_small _ _ Hp).
  induction fuel as [|fuel IH]; intros i options Hi; [done|]. simpl.
  destruct (_ <=? _); [done|].
  destruct (Z.ltb_spec buff_size (i + sizeof_raw_ff_request_option_header)) as [?|Hr]; [done|].
  unfold sizeof_raw_ff_request_option_header in *.
  destruct (load_byte buff (off + i)) as [t|]; [|done]. cbn [mbind res_bind].
  assert (readable 2 buff (off + i + 1)) as Hrd
    by (apply (packet_readable (off + buff_size)); [done|lia..]).
  rewrite !load_ntohs by done. cbn [mbind res_bind]. pose proof (be_at_range _ _ _ Hrd).
  destruct (t =? _); [done|]. destruct (t =? _); [done|].
  rewrite (u32_small (i + 3)), u32_small by lia.
  destruct (Z.ltb_spec buff_size (i + 3 + be_at 2 buff (off + i + 1))); [done|].
  destruct (ff_request_option_load_buff _ _ _ _); [|done]. apply IH. lia.
Qed.

Lemma parse_data_chunk_order (h1 h2 : HostOrder) r buff_size buff :
  packet_ok buff_size buff ->
  ff_request_parse_data_chunk (HO := h1) r buff_size buff =
  ff_request_parse_data_chunk (HO := h2) r buff_size buff.
Proof.
  intros Hp. rewrite !parse_data_chunk_eq by done.
  destruct (header_matches _ _ _) eqn:Hm; [|done]. apply header_matches_size in Hm.
  unfold data_chunk_tail, ff_request_parse_options.
  rewrite (parse_options_loop_order h1 h2); [done|lia| |lia].
  by replace (20 + (buff_size - 20)) with buff_size by lia.
Qed.

(** ** Claims *)

Section Claims.
Context {HO : HostOrder}.

(** C3: reassembly.  Datagrams that carry slices of one message [P] of fewer
    than 2^16 bytes, in any number, order and fragmentation, with repetitions
    and with any bytes of older datagrams behind them in the buffer, are all
    parsed without a memory fault; and if the request is then reported as
    received, [ff_request_vectorise_payload] succeeds and its result is one
    payload node that holds exactly [P]. *)
Theorem reassembly_correct (id : Z) (P : list Z) (ds : list (packet * list Z)) :
  bytes P -> zlen P < 65536 -> 0 <= id < 2 ^ 64 ->
  Forall (fun d => packet_of id P (fst d)) ds ->
  exists r, feed ff_request_alloc (map datagram ds) = Ok r /\
    (rq_state r = FF_REQUEST_STATE_RECEIVED ->
     exists r', ff_request_vectorise_payload r = Ok r' /\ single_payload P r').
Proof.
  intros HP HPlen Hid Hds. pose proof (receiving_alloc id P) as H0.
  destruct (feed_total id P HP HPlen Hid ds _ _ H0 Hds) as (r & E).
  destruct (feed_receiving id P HP HPlen Hid ds _ _ r H0 Hds E) as (nodes & Hr).
  exists r. split; [done|]. by apply (receiving_vectorise id P HPlen r nodes).
Qed.

(** Reception completes.  When the chunks of the message arrive in order
    and without gaps, the first with fewer than 20 options, the request is
    received after the last one, and the options and the payload flag are
    those of the first packet. *)
Theorem in_order_received (id : Z) (P : list Z) (p : packet) (rest : list Z)
    (ds : list (packet * list Z)) :
  bytes P -> zlen P < 65536 -> 0 <= id < 2 ^ 64 ->
  Forall (fun d => packet_of id P (fst d)) ((p, rest) :: ds) ->
  consecutive 0 (map fst ((p, rest) :: ds)) (zlen P) ->
  zlen (pk_options p) < FF_REQUEST_MAX_OPTIONS ->
  exists r, feed ff_request_alloc (map datagram ((p, rest) :: ds)) = Ok r /\
    rq_state r = FF_REQUEST_STATE_RECEIVED /\
    rq_options r = map loaded (pk_options p) /\
    rq_payload_contains_options r = pk_contains p.
Proof.
  intros HP HPlen Hid Hds Hc Hopt.
  destruct (feed_in_order id P HP HPlen Hid ds ff_request_alloc [] 0 p rest)
    as (r & nodes & E & _ & Hst & Eo & Ec);
    [apply prefix_alloc | by intros _ | done | done |].
  exists r. destruct Hc as (Hoff & _). simpl in Hoff.
  unfold packet_options in *. rewrite Hoff in *. by split_and!.
Qed.

(** C9: memory safety and termination of the parser.  Whatever bytes a packet
    holds, parsing it into a well-formed request reads only inside the packet,
    ends, and leaves a well-formed request: at most 19 options with their
    values in place, pairwise disjoint chunks, and a count of received bytes
    that is the sum of their lengths. *)
Theorem ff_request_parse_chunk_safe (r : ff_request) (buff_size : Z) (buff : list Z) :
  wf_request r -> packet_ok buff_size buff ->
  exists r', ff_request_parse_chunk r buff_size buff = Ok r' /\ wf_request r'.
Proof. apply parse_chunk_wf. Qed.

(** C10: the option parser accepts exactly the TLV wire format.  It reports [n]
    bytes of options if and only if the first [n] bytes of the buffer are the
    encoding of a list of options with its end marker, no more than fit, and
    then it appends these options and sets the flag by the marker. *)
Theorem ff_request_parse_options_grammar (r r' : ff_request) (buff_size n off : Z)
    (buff : list Z) :
  wf_request r -> 0 <= off -> 0 <= buff_size -> packet_ok (off + buff_size) buff -> 0 < n ->
  ff_request_parse_options r buff_size buff off = Ok (n, r') <->
  exists new c, Forall wf_option new /\ n <= buff_size /\
    slice buff off n = wire_options new c /\
    zlen (rq_options r) + zlen new < FF_REQUEST_MAX_OPTIONS /\
    r' = add_options (map loaded new) c r.
Proof.
  intros Hwf Hoff Hs Hp Hn. pose proof (packet_size _ _ Hp). pose proof (packet_small _ _ Hp).
  split.
  - intros E. destruct (parse_options_cases r buff_size buff off)
      as [E' | (n' & new & c & Hn' & Hsl & Hnew & Hld & Hmax & E')]; try done;
      rewrite E in E'; injection E' as -> ->; [lia|].
    exists new, c. rewrite Hld. split_and!; try done. lia.
  - intros (new & c & Hnew & Hns & Hsl & Hmax & ->).
    assert (buff = take (Z.to_nat off) buff ++ wire_options new c ++
                   drop (Z.to_nat n) (drop (Z.to_nat off) buff)) as Eb.
    { rewrite <- Hsl. unfold slice. by rewrite !take_drop. }
    assert (zlen (wire_options new c) = n) as En
      by (rewrite <- Hsl; apply zlen_slice; lia).
    assert (off = zlen (take (Z.to_nat off) buff)) as Eo
      by (unfold zlen in *; rewrite length_take; lia).
    pose proof (parse_options_wire r buff_size (take (Z.to_nat off) buff)
      (drop (Z.to_nat n) (drop (Z.to_nat off) buff)) new c Hwf Hnew ltac:(lia)) as E.
    rewrite <- Eb, <- Eo, (proj2 (Z.ltb_lt _ _)), En in E by done. exact E.
Qed.

(** C25: the result of parsing a packet does not depend on the byte order of
    the host: the [ntohs], [ntohl] and [ntohll] conversions are all in place. *)
Theorem ff_request_parse_chunk_host_independent (h1 h2 : HostOrder) (r : ff_request)
    (buff_size : Z) (buff : list Z) :
  packet_ok buff_size buff ->
  ff_request_parse_chunk (HO := h1) r buff_size buff =
  ff_request_parse_chunk (HO := h2) r buff_size buff.
Proof.
  intros Hp. unfold ff_request_parse_chunk. rewrite !parse_first_chunk_eq by done.
  by rewrite !(parse_data_chunk_order h1 h2) by done.
Qed.

(** C22: options inside the payload.  When the (decrypted) payload is the wire
    encoding of options, ended by EOL, in front of a non-empty body, the
    options are appended behind those of the header and the payload becomes
    the body. *)
Theorem ff_request_parse_options_from_payload_correct (r : ff_request)
    (node : ff_request_payload_node) (new : list ff_request_option_node) (body : list Z) :
  wf_request r -> rq_payload r = PayloadNodes [node] ->
  rq_payload_contains_options r = true -> Forall wf_option new -> body <> [] ->
  slice (node_value node) 0 (node_length node) = wire_options new false ++ body ->
  zlen (rq_options r) + zlen new < FF_REQUEST_MAX_OPTIONS ->
  exists r', ff_request_parse_options_from_payload r = Ok r' /\
    rq_state r' = FF_REQUEST_STATE_PARSED_OPTIONS /\
    rq_options r' = rq_options r ++ map loaded new /\
    rq_options_length r' = zlen (rq_options r') /\ rq_payload_contains_options r' = false /\
    rq_payload_length r' = zlen body /\ single_payload body r'.
Proof. apply from_payload_body. Qed.

(** Recognition of raw HTTP.  A packet of at least 7 bytes is taken as a
    raw HTTP request exactly when it starts with one of the nine methods. *)
Theorem ff_request_is_raw_http_spec (buff_size : Z) (buff : list Z) :
  packet_ok buff_size buff -> 7 <= buff_size ->
  ff_request_is_raw_http buff_size buff =
    Ok (bool_decide (Exists (fun m => slice buff 0 (zlen m) = m) HTTP_METHODS)).
Proof.
  intros Hp Hs. unfold ff_request_is_raw_http. rewrite (proj2 (Z.eqb_neq _ _)) by lia.
  destruct (is_raw_http_loop_spec HTTP_METHODS buff_size buff Hp methods_nonzero)
    as (b & -> & H1 & H2). f_equal. symmetry.
  assert (Forall (fun m => zlen m <= buff_size) HTTP_METHODS) as Hl.
  { repeat constructor; etrans; try exact Hs; done. }
  destruct b.
  - apply bool_decide_true. eapply Exists_impl; [by apply H1|]. by intros m [_ ?].
  - apply bool_decide_false. intros H. by specialize (H2 Hl H).
Qed.

(** C31: a chunk that arrives after the chunk that directly follows it is
    taken as overlapping it: the request fails although the two chunks share
    no byte. *)
Theorem adjacent_predecessor_rejected (id : Z) (P : list Z) (p1 p2 : packet)
    (rest1 rest2 : list Z) :
  bytes P -> zlen P < 65536 -> 0 <= id < 2 ^ 64 ->
  packet_of id P p1 -> packet_of id P p2 ->
  0 < zlen (pk_data p1) -> 0 < zlen (pk_data p2) ->
  pk_offset p2 = pk_offset p1 + zlen (pk_data p1) ->
  exists r, feed ff_request_alloc (map datagram [(p2, rest2); (p1, rest1)]) = Ok r /\
    rq_state r = FF_REQUEST_STATE_RECEIVING_FAIL /\
    disjoint_chunks (packet_node p1) (packet_node p2).
Proof.
  intros HP HPlen Hid Hp1 Hp2 Hl1 Hl2 Hadj. pose proof (receiving_alloc id P) as H0.
  pose proof (po_offset _ _ _ Hp1).
  rewrite feed_cons, (parse_chunk_packet id P HP HPlen Hid _ [] p2 rest2 H0 Hp2).
  cbn [mbind res_bind].
  assert (receive_packet (opened id P ff_request_alloc p2) [] p2 =
          linked (packet_options p2 (opened id P ff_request_alloc p2)) [] (packet_node p2)) as E2.
  { unfold receive_packet. rewrite (bool_decide_true (options_fit _ _)) by (intros ?; lia).
    by rewrite bool_decide_true by constructor. }
  destruct (receive_packet_step id P HP HPlen _ _ p2 H0 Hp2) as (nodes & Hr).
  assert (nodes = [packet_node p2]) as ->.
  { pose proof (rc_payload _ _ _ _ Hr) as Ep. rewrite E2 in Ep.
    destruct (linked_fields (packet_options p2 (opened id P ff_request_alloc p2)) []
                (packet_node p2)) as (L1 & _). rewrite L1 in Ep. by injection Ep. }
  rewrite feed_cons, (parse_chunk_packet id P HP HPlen Hid _ _ p1 rest1 Hr Hp1).
  cbn [mbind res_bind map feed]. eexists. split; [done|]. split.
  - unfold receive_packet at 1. case_bool_decide; [|done].
    rewrite bool_decide_false; [done|]. intros [Ha _]%Forall_cons.
    unfold overlaps in Ha. simpl in Ha. apply andb_false_iff in Ha as [Ha%Z.ltb_ge|Ha%Z.leb_gt]; lia.
  - unfold disjoint_chunks, node_end. simpl. lia.
Qed.

(** C32: a payload whose options leave no body, or end in a second BREAK, makes
    [ff_request_parse_options_from_payload] free the payload node the request
    still points to; [ff_request_free] then frees it again. *)
Theorem payload_options_double_free (r : ff_request) (node : ff_request_payload_node)
    (new : list ff_request_option_node) (c : bool) (body : list Z) :
  wf_request r -> rq_payload r = PayloadNodes [node] ->
  rq_payload_contains_options r = true -> Forall wf_option new ->
  slice (node_value node) 0 (node_length node) = wire_options new c ++ body ->
  zlen (rq_options r) + zlen new < FF_REQUEST_MAX_OPTIONS ->
  body = [] \/ c = true ->
  exists r', ff_request_parse_options_from_payload r = Ok r' /\
    rq_state r' = FF_REQUEST_STATE_PARSING_OPTIONS_FAILED /\
    ff_request_free r' = Err DoubleFree.
Proof.
  intros Hwf Hpay Hc Hnew Hs Hmax Hbad. rewrite (from_payload_cases r node), Hc by done.
  pose proof (wf_single_node r node Hwf Hpay) as Hn.
  destruct (payload_options_wire (set_state FF_REQUEST_STATE_PARSING_OPTIONS r)
              node new c body) as (E & El & _); [by apply wf_set_state|done..|].
  cbn [negb]. rewrite E. cbn [mbind res_bind].
  assert (3 <= zlen (wire_options new c)).
  { unfold wire_options. rewrite zlen_app, zlen_wire_end.
    pose proof (zlen_nonneg (concat (map wire_option new))). lia. }
  rewrite (proj2 (Z.eqb_neq _ _)) by lia.
  assert ((node_length node <=? zlen (wire_options new c)) || c = true) as Hd.
  { destruct Hbad as [->| ->]; [|apply orb_true_r].
    rewrite (proj2 (Z.leb_le _ _)); [done|]. unfold zlen in El at 2. simpl in El. lia. }
  change (rq_payload_contains_options (add_options _ c _)) with c. rewrite Hd.
  eexists. split; [done|]. split; [done|]. unfold ff_request_free. simpl.
  rewrite bool_decide_true; [done|]. rewrite zlen_app. unfold zlen. rewrite length_map. lia.
Qed.

End Claims.

(** ** Concrete packets *)

Module Samples.

#[export] Instance sample_host : HostOrder := LittleEndian.

Definition message : list Z := chars "GET / HTTP/1.1".

Definition https_option : ff_request_option_node := mk_option FF_REQUEST_OPTION_TYPE_HTTPS 1 [1].

Definition first_half : packet := mk_packet 77 14 0 [https_option] true (chars "GET / ").
Definition second_half : packet := mk_packet 77 14 6 [] false (chars "HTTP/1.1").

Lemma message_bytes : bytes message.
Proof. decide_compute. Qed.

Lemma https_option_wf : wf_option https_option.
Proof.
  split; try done. split; [done|]. repeat constructor; done.
Qed.

Lemma first_half_of : packet_of 77 message first_half.
Proof. split; try done. constructor; [apply https_option_wf|done]. Qed.

Lemma second_half_of : packet_of 77 message second_half.
Proof. by split. Qed.

(** A request whose payload starts with an option. *)
Definition payload_node (body : list Z) : ff_request_payload_node :=
  let v := wire_options [https_option] false ++ body in mk_node 0 (zlen v) v.

Definition payload_request (body : list Z) : ff_request :=
  set_payload_contains_options true
    (set_received_length (node_length (payload_node body))
      (set_payload_length (node_length (payload_node body))
        (set_payload (PayloadNodes [payload_node body]) ff_request_alloc))).

Lemma payload_request_wf body :
  bytes body -> zlen body < 60000 -> wf_request (payload_request body).
Proof.
  intros Hb Hl. pose proof (zlen_nonneg body).
  assert (zlen (wire_options [https_option] false ++ body) = 7 + zlen body) as El
    by (by rewrite zlen_app).
  assert (node_length (payload_node body) = 7 + zlen body) as En by exact El.
  assert (wf_node (payload_node body)) as Hn.
  { split; [done|lia|]. split; [rewrite En; unfold payload_node; cbn [node_value]; lia|].
    apply bytes_slice, Forall_app. split; [|done].
    apply bytes_wire_options. by constructor; [apply https_option_wf|]. }
  split; try done.
  - change (rq_payload_length _) with (node_length (payload_node body)). lia.
  - exists [payload_node body]. split_and!; [done|by constructor|by repeat constructor|].
    change (rq_received_length _) with (node_length (payload_node body)).
    cbn [sum_lengths foldr]. rewrite Z.add_0_r, u64_small; lia.
Qed.

End Samples.

Section Witnesses.
Import Samples.

(** Witness of C3. *)
Lemma reassembly_correct_witness :
  exists r, feed ff_request_alloc (map datagram [(first_half, [1; 2]); (second_half, [])]) = Ok r /\
    (rq_state r = FF_REQUEST_STATE_RECEIVED ->
     exists r', ff_request_vectorise_payload r = Ok r' /\ single_payload message r').
Proof.
  apply (reassembly_correct 77 message [(first_half, [1; 2]); (second_half, [])]).
  - exact message_bytes.
  - reflexivity.
  - split; [discriminate | reflexivity].
  - constructor; [exact first_half_of | constructor; [exact second_half_of | constructor]].
Defined.

(** An example. *)
Lemma in_order_received_witness :
  exists r, feed ff_request_alloc (map datagram [(first_half, [1; 2]); (second_half, [])]) = Ok r /\
    rq_state r = FF_REQUEST_STATE_RECEIVED /\
    rq_options r = map loaded [https_option] /\ rq_payload_contains_options r = true.
Proof.
  apply (in_order_received 77 message first_half [1; 2] [(second_half, [])]).
  - exact message_bytes.
  - reflexivity.
  - split; [discriminate | reflexivity].
  - constructor; [exact first_half_of | constructor; [exact second_half_of | constructor]].
  - repeat split; reflexivity.
  - reflexivity.
Defined.

(** Witness of C9: a packet of the fuzzing corpus. *)
Lemma ff_request_parse_chunk_safe_witness :
  exists r', ff_request_parse_chunk ff_request_alloc 21 (replicate 21 255) = Ok r' /\ wf_request r'.
Proof.
  apply (ff_request_parse_chunk_safe ff_request_alloc 21 (replicate 21 255)).
  - exact wf_request_alloc.
  - split; [split; discriminate | reflexivity | apply bytes_slice; repeat constructor; discriminate].
Defined.

(** Witness of C10. *)
Lemma ff_request_parse_options_grammar_witness :
  exists r', ff_request_parse_options ff_request_alloc 10 (wire_options [https_option] true ++ [9; 9; 9]) 0
    = Ok (7, r').
Proof.
  eexists.
  apply (ff_request_parse_options_grammar ff_request_alloc _ 10 7 0
           (wire_options [https_option] true ++ [9; 9; 9])).
  - exact wf_request_alloc.
  - discriminate.
  - discriminate.
  - split; [split; discriminate | reflexivity | apply bytes_slice; repeat constructor; discriminate].
  - reflexivity.
  - exists [https_option], true. split; [constructor; [exact https_option_wf | constructor]|].
    split; [discriminate|]. split; [reflexivity|]. split; reflexivity.
Defined.

(** The first half of a message of eight bytes, with the id 5. *)
Definition half_wire : list Z := wire_packet (mk_packet 5 8 0 [] false [71; 69; 84; 32]).

Lemma half_wire_ok : packet_ok (zlen half_wire) half_wire.
Proof. split; [by split|done|decide_compute]. Qed.

(** Witness of C25: the numbers of the header are read alike. *)
Lemma ff_request_parse_chunk_host_independent_witness :
  exists r, ff_request_parse_chunk (HO := LittleEndian) ff_request_alloc (zlen half_wire) half_wire =
      Ok r /\
    ff_request_parse_chunk (HO := BigEndian) ff_request_alloc (zlen half_wire) half_wire = Ok r /\
    rq_request_id r = 5 /\ rq_payload_length r = 8 /\ rq_received_length r = 4.
Proof.
  rewrite (ff_request_parse_chunk_host_independent LittleEndian BigEndian ff_request_alloc _ _
    half_wire_ok).
  eexists. split; [vm_compute; reflexivity|]. by vm_compute.
Defined.

(** Witness of C22. *)
Lemma ff_request_parse_options_from_payload_correct_witness :
  exists r', ff_request_parse_options_from_payload (payload_request message) = Ok r' /\
    rq_state r' = FF_REQUEST_STATE_PARSED_OPTIONS /\ rq_options r' = [] ++ map loaded [https_option] /\
    rq_options_length r' = zlen (rq_options r') /\ rq_payload_contains_options r' = false /\ rq_payload_length r' = zlen message /\
    single_payload message r'.
Proof.
  apply (ff_request_parse_options_from_payload_correct (payload_request message)
           (payload_node message) [https_option] message).
  - apply payload_request_wf; [exact message_bytes | reflexivity].
  - reflexivity.
  - reflexivity.
  - constructor; [exact https_option_wf | constructor].
  - discriminate.
  - reflexivity.
  - reflexivity.
Defined.

(** An example. *)
Lemma ff_request_is_raw_http_spec_witness :
  ff_request_is_raw_http 14 message =
    Ok (bool_decide (Exists (fun m => slice message 0 (zlen m) = m) HTTP_METHODS)).
Proof.
  apply (ff_request_is_raw_http_spec 14 message).
  - split; [split; discriminate | reflexivity | apply bytes_slice; exact message_bytes].
  - discriminate.
Defined.

(** Witness of C31. *)
Lemma adjacent_predecessor_rejected_witness :
  exists r, feed ff_request_alloc (map datagram [(second_half, []); (first_half, [])]) = Ok r /\
    rq_state r = FF_REQUEST_STATE_RECEIVING_FAIL /\
    disjoint_chunks (packet_node first_half) (packet_node second_half).
Proof.
  apply (adjacent_predecessor_rejected 77 message first_half second_half [] []).
  - exact message_bytes.
  - reflexivity.
  - split; [discriminate | reflexivity].
  - exact first_half_of.
  - exact second_half_of.
  - reflexivity.
  - reflexivity.
  - reflexivity.
Defined.

(** Witness of C32. *)
Lemma payload_options_double_free_witness :
  exists r', ff_request_parse_options_from_payload (payload_request []) = Ok r' /\
    rq_state r' = FF_REQUEST_STATE_PARSING_OPTIONS_FAILED /\
    ff_request_free r' = Err DoubleFree.
Proof.
  apply (payload_options_double_free (payload_request []) (payload_node []) [https_option] false []).
  - apply payload_request_wf; [constructor | reflexivity].
  - reflexivity.
  - reflexivity.
  - constructor; [exact https_option_wf | constructor].
  - reflexivity.
  - reflexivity.
  - left. reflexivity.
Defined.

(** C33: the test of the chunk range adds the offset and the length of the
    chunk in 32 bits.  Two packets that pass every check make the request
    complete with a chunk outside the payload: joining the chunks writes
    outside the block. *)
Theorem chunk_range_check_wraps :
  exists d1 d2 r, packet_ok (fst d1) (snd d1) /\ packet_ok (fst d2) (snd d2) /\
    feed ff_request_alloc [d1; d2] = Ok r /\ rq_state r = FF_REQUEST_STATE_RECEIVED /\
    ff_request_vectorise_payload r = Err OutOfBounds.
Proof.
  exists (datagram (mk_packet 77 10 0xFFFFFFFF [] false [1], [])),
         (datagram (mk_packet 77 10 0 [] false (replicate 9 2), [])).
  eexists. split_and!.
  - split; [done | done | decide_compute].
  - split; [done | done | decide_compute].
  - vm_compute. reflexivity.
  - reflexivity.
  - vm_compute. reflexivity.
Qed.

End Witnesses.
