(* ===== verification/HashTable.v ===== *)
(** * The hash table: src/hash_table.c

    A tree of pools of 256 buckets, one level per byte of the key from the
    lowest, whose last level holds chains of nodes; all nodes are also in one
    doubly linked list, in the order of their insertion.

    The model keeps the heap: pools and nodes by address, so that the sharing
    of nodes between the chains and the list is that of the code.  Addresses
    are positive, 0 is [NULL], and an allocation takes an address that was
    never used.  Every operation of the code runs under the mutex, so it is
    one function on the state; the loops over chains get as much fuel as there
    are nodes, plus one. *)

From S2P Require Import Prelude Bytes.

Definition NULL : Z := 0.
Definition FF_BUCKET_POOL_BITS : Z := 8.
Definition FF_BUCKET_POOL_LENGTH : Z := 256.

Record ff_hash_table_node : Type := mk_ht_node {
  n_item_id : Z;          (* uint64_t *)
  n_value : Z;            (* void * *)
  n_next : Z;
  n_prev_in_list : Z;
  n_next_in_list : Z;
}.

Record ff_hash_table : Type := mk_hash_table {
  ht_prefix_bit_length : Z;   (* uint8_t *)
  ht_bucket_levels : Z;       (* uint8_t *)
  ht_length : Z;              (* uint32_t *)
  ht_buckets : Z;
  ht_linked_list : Z;
  ht_linked_list_last : Z;
}.

(** The memory of the component.  A bucket is a union of two pointers: one
    word that is read as the address of a pool or of a node. *)
Record ht_state : Type := mk_ht_state {
  st_table : ff_hash_table;
  st_pools : gmap Z (list Z);
  st_nodes : gmap Z ff_hash_table_node;
  st_fresh : Z;
  st_mutex : bool;
}.

(** ** State and failure *)

Definition M (A : Type) : Type := ht_state -> res (A * ht_state).

#[export] Instance M_ret : MRet M := fun A a st => Ok (a, st).
#[export] Instance M_bind : MBind M := fun A B f m st =>
  match m st with
  | Ok (a, st') => f a st'
  | Err e => Err e
  end.

Definition fail {A} (e : fault) : M A := fun _ => Err e.
Definition lift_res {A} (r : res A) : M A := fun st =>
  match r with Ok a => Ok (a, st) | Err e => Err e end.
Definition get_state : M ht_state := fun st => Ok (st, st).

Definition get_table : M ff_hash_table := fun st => Ok (st_table st, st).

Definition set_table (t : ff_hash_table) : M unit := fun st =>
  Ok (tt, mk_ht_state t (st_pools st) (st_nodes st) (st_fresh st) (st_mutex st)).

Definition set_mutex (b : bool) : M unit := fun st =>
  Ok (tt, mk_ht_state (st_table st) (st_pools st) (st_nodes st) (st_fresh st) b).

(** The failure of an access to the address [p]. *)
Definition bad_pointer (p : Z) : fault := if p =? NULL then NullDeref else UseAfterFree.

Definition load_node (p : Z) : M ff_hash_table_node := fun st =>
  match st_nodes st !! p with
  | Some nd => Ok (nd, st)
  | None => Err (bad_pointer p)
  end.

Definition store_node (p : Z) (nd : ff_hash_table_node) : M unit := fun st =>
  match st_nodes st !! p with
  | Some _ => Ok (tt, mk_ht_state (st_table st) (st_pools st) (<[p := nd]> (st_nodes st))
                        (st_fresh st) (st_mutex st))
  | None => Err (bad_pointer p)
  end.

(** An assignment to a field of the node at [p]. *)
Definition modify_node (p : Z) (f : ff_hash_table_node -> ff_hash_table_node) : M unit :=
  nd ← load_node p; store_node p (f nd).

Definition set_n_value (v : Z) (nd : ff_hash_table_node) : ff_hash_table_node :=
  mk_ht_node (n_item_id nd) v (n_next nd) (n_prev_in_list nd) (n_next_in_list nd).
Definition set_n_next (v : Z) (nd : ff_hash_table_node) : ff_hash_table_node :=
  mk_ht_node (n_item_id nd) (n_value nd) v (n_prev_in_list nd) (n_next_in_list nd).
Definition set_n_prev_in_list (v : Z) (nd : ff_hash_table_node) : ff_hash_table_node :=
  mk_ht_node (n_item_id nd) (n_value nd) (n_next nd) v (n_next_in_list nd).
Definition set_n_next_in_list (v : Z) (nd : ff_hash_table_node) : ff_hash_table_node :=
  mk_ht_node (n_item_id nd) (n_value nd) (n_next nd) (n_prev_in_list nd) v.

Definition alloc_node (nd : ff_hash_table_node) : M Z := fun st =>
  Ok (st_fresh st,
      mk_ht_state (st_table st) (st_pools st) (<[st_fresh st := nd]> (st_nodes st))
        (st_fresh st + 1) (st_mutex st)).

Definition free_node (p : Z) : M unit := fun st =>
  match st_nodes st !! p with
  | Some _ => Ok (tt, mk_ht_state (st_table st) (st_pools st) (delete p (st_nodes st))
                        (st_fresh st) (st_mutex st))
  | None => Err DoubleFree
  end.

(** [pool[i]] *)
Definition load_slot (p i : Z) : M Z := fun st =>
  match st_pools st !! p with
  | None => Err (bad_pointer p)
  | Some pool =>
      if bool_decide (0 <= i) then
        match pool !! Z.to_nat i with
        | Some v => Ok (v, st)
        | None => Err OutOfBounds
        end
      else Err OutOfBounds
  end.

Definition store_slot (p i v : Z) : M unit := fun st =>
  match st_pools st !! p with
  | None => Err (bad_pointer p)
  | Some pool =>
      if bool_decide (0 <= i < zlen pool) then
        Ok (tt, mk_ht_state (st_table st) (<[p := <[Z.to_nat i := v]> pool]> (st_pools st))
                  (st_nodes st) (st_fresh st) (st_mutex st))
      else Err OutOfBounds
  end.

Definition free_pool (p : Z) : M unit := fun st =>
  match st_pools st !! p with
  | Some _ => Ok (tt, mk_ht_state (st_table st) (delete p (st_pools st)) (st_nodes st)
                        (st_fresh st) (st_mutex st))
  | None => Err DoubleFree
  end.

Definition mutex_lock : M unit :=
  st ← get_state;
  if st_mutex st then fail Deadlock else set_mutex true.

Definition mutex_unlock : M unit := set_mutex false.

(** ** The operations *)

(** [FF_HASH_GET_FOR_LEVEL] *)
Definition ff_hash_get_for_level (item_id level : Z) : res Z :=
  let s := 64 - FF_BUCKET_POOL_BITS * (level + 1) in
  if bool_decide (0 <= s < 64 /\ 0 <= FF_BUCKET_POOL_BITS * level) then
    Ok (u8 (Z.shiftr (Z.land item_id (Z.shiftr 0xFFFFFFFFFFFFFFFF s))
              (FF_BUCKET_POOL_BITS * level)))
  else Err BadShift.

Definition ff_hash_table_init_bucket : M Z := fun st =>
  Ok (st_fresh st,
      mk_ht_state (st_table st)
        (<[st_fresh st := replicate (Z.to_nat FF_BUCKET_POOL_LENGTH) NULL]> (st_pools st))
        (st_nodes st) (st_fresh st + 1) (st_mutex st)).

(** [ceil] is applied to an integer quotient. *)
Definition ff_hash_table_init (prefix_bit_length : Z) : res ht_state :=
  if prefix_bit_length <=? 0 then Err AssertFailed
  else
    let st := mk_ht_state (mk_hash_table prefix_bit_length
                (u8 (prefix_bit_length / FF_BUCKET_POOL_BITS)) 0 NULL NULL NULL)
                ∅ ∅ 1 false in
    '(buckets, st) ← ff_hash_table_init_bucket st;
    let t := st_table st in
    '(_, st) ← set_table (mk_hash_table (ht_prefix_bit_length t) (ht_bucket_levels t)
                            (ht_length t) buckets NULL NULL) st;
    Ok st.

(** The [for] loop of [ff_hash_table_get_or_create_bucket], [n] levels from
    [level] on; [buckets_list] is what it stored so far.  [None] is the early
    [return NULL]. *)
Fixpoint get_or_create_loop (n : nat) (level buckets item_id : Z) (should_create : bool)
    (buckets_list : list Z) : M (option (Z * list Z)) :=
  match n with
  | O => mret (Some (buckets, buckets_list))
  | S n =>
      hash ← lift_res (ff_hash_get_for_level item_id level);
      child ← load_slot buckets hash;
      if child =? NULL then
        if negb should_create then mret None
        else
          child ← ff_hash_table_init_bucket;
          _ ← store_slot buckets hash child;
          get_or_create_loop n (level + 1) child item_id should_create
            (buckets_list ++ [child])
      else
        get_or_create_loop n (level + 1) child item_id should_create
          (buckets_list ++ [child])
  end.

(** The bucket is the address of a slot: a pool and an index. *)
Definition ff_hash_table_get_or_create_bucket (item_id : Z) (should_create : bool)
    : M (option (Z * Z * list Z)) :=
  t ← get_table;
  r ← get_or_create_loop (Z.to_nat (ht_bucket_levels t - 1)) 0 (ht_buckets t) item_id
        should_create [];
  match r with
  | None => mret None
  | Some (buckets, buckets_list) =>
      hash ← lift_res (ff_hash_get_for_level item_id (ht_bucket_levels t - 1));
      mret (Some (buckets, hash, buckets_list))
  end.

Definition chain_fuel : M nat := fun st => Ok (S (size (st_nodes st)), st).

(** The [do] loop of [ff_hash_table_get_item]. *)
Fixpoint get_item_loop (fuel : nat) (node item_id : Z) : M Z :=
  match fuel with
  | O => fail OutOfFuel
  | S fuel =>
      nd ← load_node node;
      if (n_item_id nd =? item_id) && negb (n_value nd =? NULL) then mret (n_value nd)
      else if n_next nd =? NULL then mret NULL
      else get_item_loop fuel (n_next nd) item_id
  end.

Definition ff_hash_table_get_item (item_id : Z) : M Z :=
  _ ← mutex_lock;
  bucket ← ff_hash_table_get_or_create_bucket item_id false;
  ret ← match bucket with
        | None => mret NULL
        | Some (pool, hash, _) =>
            nodes ← load_slot pool hash;
            if nodes =? NULL then mret NULL
            else fuel ← chain_fuel; get_item_loop fuel nodes item_id
        end;
  _ ← mutex_unlock;
  mret ret.

(** The [while] loop of [ff_hash_table_put_item]: the matching node, or the
    last node of the chain. *)
Fixpoint put_item_loop (fuel : nat) (node last_node item_id : Z) : M (Z + Z) :=
  match fuel with
  | O => fail OutOfFuel
  | S fuel =>
      if node =? NULL then mret (inr last_node)
      else
        nd ← load_node node;
        if n_item_id nd =? item_id then mret (inl node)
        else put_item_loop fuel (n_next nd) node item_id
  end.

(** What follows the loop when there was no match: a new node at the end of
    its chain and of the list. *)
Definition link_chain (pool hash last_node new_node : Z) : M unit :=
  if last_node =? NULL then store_slot pool hash new_node
  else modify_node last_node (set_n_next new_node).

Definition link_list (new_node : Z) : M unit :=
  t ← get_table;
  if ht_linked_list t =? NULL then
    set_table (mk_hash_table (ht_prefix_bit_length t) (ht_bucket_levels t)
                 (ht_length t) (ht_buckets t) new_node new_node)
  else
    _ ← modify_node new_node (set_n_prev_in_list (ht_linked_list_last t));
    _ ← modify_node (ht_linked_list_last t) (set_n_next_in_list new_node);
    set_table (mk_hash_table (ht_prefix_bit_length t) (ht_bucket_levels t)
                 (ht_length t) (ht_buckets t) (ht_linked_list t) new_node).

Definition put_new_item (pool hash last_node item_id item : Z) : M unit :=
  new_node ← alloc_node (mk_ht_node item_id item NULL NULL NULL);
  _ ← link_chain pool hash last_node new_node;
  _ ← link_list new_node;
  t ← get_table;
  set_table (mk_hash_table (ht_prefix_bit_length t) (ht_bucket_levels t)
               (u32 (ht_length t + 1)) (ht_buckets t) (ht_linked_list t)
               (ht_linked_list_last t)).

Definition ff_hash_table_put_item (item_id item : Z) : M unit :=
  _ ← mutex_lock;
  bucket ← ff_hash_table_get_or_create_bucket item_id true;
  _ ← match bucket with
      | None => fail NullDeref
      | Some (pool, hash, _) =>
          nodes ← load_slot pool hash;
          fuel ← chain_fuel;
          found ← put_item_loop fuel nodes nodes item_id;
          match found with
          | inl node => modify_node node (set_n_value item)
          | inr last_node => put_new_item pool hash last_node item_id item
          end
      end;
  mutex_unlock.

(** The body of the match in [ff_hash_table_remove_item]: [node] leaves its
    chain and the list, and is freed. *)
Definition unlink_node (pool hash prev_node node : Z) : M unit :=
  nd ← load_node node;
  _ ← (if negb (prev_node =? NULL) then modify_node prev_node (set_n_next (n_next nd))
       else store_slot pool hash (n_next nd));
  nd ← load_node node;
  _ ← (if negb (n_prev_in_list nd =? NULL)
       then modify_node (n_prev_in_list nd) (set_n_next_in_list (n_next_in_list nd))
       else mret tt);
  nd ← load_node node;
  _ ← (if negb (n_next_in_list nd =? NULL)
       then modify_node (n_next_in_list nd) (set_n_prev_in_list (n_prev_in_list nd))
       else mret tt);
  nd ← load_node node;
  t ← get_table;
  _ ← set_table (mk_hash_table (ht_prefix_bit_length t) (ht_bucket_levels t)
         (u32 (ht_length t - 1)) (ht_buckets t)
         (if ht_linked_list t =? node then n_next_in_list nd else ht_linked_list t)
         (if ht_linked_list_last t =? node then n_prev_in_list nd
          else ht_linked_list_last t));
  free_node node.

(** The [while] loop of [ff_hash_table_remove_item]. *)
Fixpoint remove_item_loop (fuel : nat) (pool hash prev_node node item_id : Z) : M unit :=
  match fuel with
  | O => fail OutOfFuel
  | S fuel =>
      if node =? NULL then mret tt
      else
        nd ← load_node node;
        if n_item_id nd =? item_id then unlink_node pool hash prev_node node
        else remove_item_loop fuel pool hash node (n_next nd) item_id
  end.

(** The scan for a used bucket, from index [i] on. *)
Fixpoint scan_pool (n : nat) (i pool : Z) : M bool :=
  match n with
  | O => mret true
  | S n =>
      v ← load_slot pool i;
      if negb (v =? NULL) then mret false else scan_pool n (i + 1) pool
  end.

Definition nth_bucket (bucket_list : list Z) (i : Z) : M Z :=
  match bucket_list !! Z.to_nat i with
  | Some p => mret p
  | None => fail OutOfBounds
  end.

(** The walk back up the tree; [level] is a [uint8_t]. *)
Fixpoint clear_loop (fuel : nat) (level item_id : Z) (bucket_list : list Z) : M unit :=
  match fuel with
  | O => fail OutOfFuel
  | S fuel =>
      bucket_level ← nth_bucket bucket_list level;
      hash ← lift_res (ff_hash_get_for_level item_id level);
      should_free ← scan_pool (Z.to_nat FF_BUCKET_POOL_LENGTH) 0 bucket_level;
      if negb should_free then mret tt
      else
        _ ← free_pool bucket_level;
        if level =? 0 then
          t ← get_table;
          store_slot (ht_buckets t) hash NULL
        else
          parent ← nth_bucket bucket_list (level - 1);
          _ ← store_slot parent hash NULL;
          clear_loop fuel (u8 (level - 1)) item_id bucket_list
  end.

(** [bucket_list] is a zeroed array of [bucket_levels] pointers. *)
Definition ff_hash_table_remove_item (item_id : Z) : M unit :=
  _ ← mutex_lock;
  t ← get_table;
  bucket ← ff_hash_table_get_or_create_bucket item_id true;
  _ ← match bucket with
      | None => mret tt
      | Some (pool, hash, stored) =>
          let bucket_list :=
            stored ++ replicate (Z.to_nat (ht_bucket_levels t) - length stored) NULL in
          nodes ← load_slot pool hash;
          if nodes =? NULL then mret tt
          else
            fuel ← chain_fuel;
            _ ← remove_item_loop fuel pool hash NULL nodes item_id;
            nodes ← load_slot pool hash;
            if nodes =? NULL then
              clear_loop (Z.to_nat (ht_bucket_levels t)) (u8 (ht_bucket_levels t - 2))
                item_id bucket_list
            else mret tt
      end;
  mutex_unlock.

(** ** Iteration *)

Record ff_hash_table_iterator : Type := mk_iterator {
  it_current_node : Z;
  it_started : bool;
}.

Definition ff_hash_table_iterator_init : M ff_hash_table_iterator :=
  _ ← mutex_lock; mret (mk_iterator NULL false).

Definition ff_hash_table_iterator_next (it : ff_hash_table_iterator)
    : M (Z * ff_hash_table_iterator) :=
  current ← (if negb (it_started it) then t ← get_table; mret (ht_linked_list t)
             else if negb (it_current_node it =? NULL)
             then nd ← load_node (it_current_node it); mret (n_next_in_list nd)
             else mret (it_current_node it));
  let it := mk_iterator current true in
  if current =? NULL then mret (NULL, it)
  else nd ← load_node current; mret (n_value nd, it).

Definition ff_hash_table_iterator_free : M unit := mutex_unlock.

(** ** Freeing the table *)

Fixpoint free_chain (fuel : nat) (node : Z) : M unit :=
  match fuel with
  | O => fail OutOfFuel
  | S fuel =>
      if node =? NULL then mret tt
      else nd ← load_node node; _ ← free_node node; free_chain fuel (n_next nd)
  end.

(** A loop over the buckets of [pool]. *)
Fixpoint for_buckets (n : nat) (i pool : Z) (f : Z -> M unit) : M unit :=
  match n with
  | O => mret tt
  | S n =>
      v ← load_slot pool i;
      _ ← (if negb (v =? NULL) then f v else mret tt);
      for_buckets n (i + 1) pool f
  end.

Fixpoint ff_hash_table_free_bucket_level (bucket_levels : nat) (bucket : Z) : M unit :=
  match bucket_levels with
  | O => fail AssertFailed
  | S O =>
      _ ← for_buckets (Z.to_nat FF_BUCKET_POOL_LENGTH) 0 bucket
            (fun node => fuel ← chain_fuel; free_chain fuel node);
      free_pool bucket
  | S n =>
      _ ← for_buckets (Z.to_nat FF_BUCKET_POOL_LENGTH) 0 bucket
            (fun child => ff_hash_table_free_bucket_level n child);
      free_pool bucket
  end.

Definition ff_hash_table_free : M unit :=
  t ← get_table;
  ff_hash_table_free_bucket_level (Z.to_nat (ht_bucket_levels t)) (ht_buckets t).
