(* ===== verification/HashTableRep.v ===== *)
(** * The hash table: representation

    What the heap of [HashTable] looks like when it holds a given list of
    entries.  A table of [L] levels holds the entries [E], in the order of
    their insertion, when

    - every node is a function of [E] ([node_of]): its neighbours in the list
      are the neighbours in [E], its successor in the chain is the next entry
      whose key has the same low [L] bytes;
    - the pools are the tree given by a map [P] from paths (lists of key
      bytes) to addresses, every slot holding the address of the child, or
      the head of the chain on the last level.

    The lemmas give the effect of each heap operation on this invariant. *)

From S2P Require Import Prelude Bytes HashTable.

(** ** Successors in a list *)

Section next_of.
Implicit Types (x y d n : Z) (l : list Z).

Fixpoint next_of x l : Z :=
  match l with
  | [] => 0
  | y :: l' => if decide (y = x) then hd 0 l' else next_of x l'
  end.

Definition last_of l : Z := hd 0 (reverse l).

Lemma last_of_app l n : last_of (l ++ [n]) = n.
Proof. unfold last_of. by rewrite reverse_app. Qed.

Lemma last_of_cons x y l : last_of (x :: y :: l) = last_of (y :: l).
Proof.
  unfold last_of. rewrite (reverse_cons _ x).
  destruct (reverse (y :: l)) eqn:Hr; [|done].
  apply (f_equal length) in Hr. by rewrite length_reverse in Hr.
Qed.

Lemma last_of_in l : l <> [] -> last_of l ∈ l.
Proof.
  intros Hl. destruct l as [|x l] using rev_ind; [done|].
  rewrite last_of_app. set_solver.
Qed.

Lemma next_of_split x l1 l2 : x ∉ l1 -> next_of x (l1 ++ x :: l2) = hd 0 l2.
Proof.
  induction l1 as [|y l1 IH]; simpl; intros Hx.
  - by rewrite decide_True.
  - rewrite decide_False by set_solver. apply IH. set_solver.
Qed.

Lemma next_of_ne x l : NoDup l -> x <> 0 -> next_of x l <> x.
Proof.
  induction l as [|y l IH]; intros Hnd H0; simpl; [done|].
  apply NoDup_cons in Hnd as [Hy Hnd].
  destruct (decide (y = x)) as [->|]; [|by apply IH].
  destruct l; simpl; set_solver.
Qed.

Lemma next_of_notin x l : x ∉ l -> next_of x l = 0.
Proof.
  induction l as [|y l IH]; simpl; intros Hx; [done|].
  rewrite decide_False by set_solver. apply IH. set_solver.
Qed.

Lemma next_of_cons_ne x y l : y <> x -> next_of x (y :: l) = next_of x l.
Proof. intros. simpl. by rewrite decide_False. Qed.

Lemma next_of_in x l : next_of x l = 0 \/ next_of x l ∈ l.
Proof.
  induction l as [|y l IH]; simpl; [by left|].
  destruct (decide (y = x)); [|set_solver].
  destruct l as [|z l]; simpl; [by left|right; set_solver].
Qed.

(** Appending a new last element [n]. *)
Lemma next_of_app x n l : NoDup l -> x ∈ l ->
  next_of x (l ++ [n]) = if decide (last_of l = x) then n else next_of x l.
Proof.
  induction l as [|y l IH]; intros Hnd Hx; [set_solver|].
  apply NoDup_cons in Hnd as [Hy Hnd]. simpl.
  destruct l as [|z l].
  - simpl. change (last_of [y]) with y.
    destruct (decide (y = x)); [done|set_solver].
  - rewrite last_of_cons. destruct (decide (y = x)) as [->|Hne].
    + rewrite decide_False; [done|].
      intros <-. apply Hy, last_of_in. done.
    + apply IH; [done|set_solver].
Qed.

(** Removing the element [d]. *)
Lemma filter_ne_id d l : d ∉ l -> filter (.≠ d) l = l.
Proof.
  intros Hd. apply list_filter_id. by intros z Hz ->.
Qed.

Lemma hd_filter_ne d l : NoDup l -> d <> 0 ->
  hd 0 (filter (.≠ d) l) = if decide (hd 0 l = d) then next_of d l else hd 0 l.
Proof.
  destruct l as [|y l]; intros Hnd Hd; simpl; [by rewrite decide_False|].
  apply NoDup_cons in Hnd as [Hy Hnd].
  destruct (decide (y = d)) as [->|Hne].
  - rewrite filter_cons_False by naive_solver. by rewrite filter_ne_id.
  - by rewrite filter_cons_True.
Qed.

Lemma next_of_filter x d l : NoDup l -> d <> 0 -> x <> d -> x ∈ l ->
  next_of x (filter (.≠ d) l) =
    if decide (next_of x l = d) then next_of d l else next_of x l.
Proof.
  intros Hnd Hd0 Hxd. induction l as [|y l IH]; intros Hx; [set_solver|].
  pose proof Hnd as [Hy Hnd']%NoDup_cons.
  destruct (decide (y = d)) as [->|Hyd].
  - rewrite filter_cons_False by naive_solver.
    rewrite next_of_cons_ne, filter_ne_id by done.
    rewrite decide_False; [done|]. intros He.
    destruct (next_of_in x l) as [H0|Hin]; congruence.
  - rewrite filter_cons_True by done. rewrite (next_of_cons_ne d y) by done.
    simpl. destruct (decide (y = x)) as [->|Hyx].
    + by apply hd_filter_ne.
    + apply IH; [done|set_solver].
Qed.

Lemma last_of_filter d l : NoDup l -> d <> 0 ->
  last_of (filter (.≠ d) l) =
    if decide (last_of l = d) then next_of d (reverse l) else last_of l.
Proof.
  intros Hnd Hd. unfold last_of. rewrite <- filter_reverse.
  apply hd_filter_ne; [by rewrite reverse_Permutation|done].
Qed.

Lemma hd_app l n : hd 0 (l ++ [n]) = if decide (l = []) then n else hd 0 l.
Proof. by destruct l. Qed.

(** The neighbours of [d] in a list that has it. *)
Lemma next_of_neighbour x l1 d l2 : NoDup (l1 ++ d :: l2) -> d <> 0 ->
  next_of x (l1 ++ d :: l2) = d <-> l1 <> [] /\ x = last_of l1.
Proof.
  intros Hnd Hd. split.
  - intros He. destruct l1 as [|y l1 _] using rev_ind.
    + exfalso. simpl in *. apply NoDup_cons in Hnd as [Hy _].
      destruct (decide (d = x)); [|destruct (next_of_in x l2); congruence].
      destruct l2 as [|z l2]; simpl in *; set_solver.
    + split; [by destruct l1|]. rewrite last_of_app.
      rewrite <- app_assoc in He, Hnd. simpl in *.
      destruct (decide (x = y)); [done|exfalso].
      assert ((d ∉ l1) /\ d <> y /\ d ∉ l2) as (?&?&?).
      { apply NoDup_app in Hnd as (_&Hd1&Hnd). apply NoDup_cons in Hnd as [Hy Hnd].
        apply NoDup_cons in Hnd as [Hd2 _]. set_solver. }
      clear Hnd. revert He. induction l1 as [|z l1 IH]; simpl.
      * rewrite decide_False by done.
        destruct (decide (d = x)); [|destruct (next_of_in x l2); congruence].
        destruct l2; simpl; set_solver.
      * destruct (decide (z = x)); [|apply IH; set_solver].
        destruct l1; simpl; set_solver.
  - intros [Hl ->]. destruct l1 as [|y l1 _] using rev_ind; [done|].
    rewrite last_of_app, <- app_assoc. simpl. rewrite next_of_split; [done|].
    rewrite <- app_assoc in Hnd. apply NoDup_app in Hnd. set_solver.
Qed.

(** [x] precedes [d] iff [d] precedes [x] in the reversed list. *)
Lemma next_of_reverse x d l : NoDup l -> 0 ∉ l -> x ∈ l -> d ∈ l ->
  next_of x l = d <-> next_of d (reverse l) = x.
Proof.
  intros Hnd H0 Hx Hd. apply list_elem_of_split in Hd as (l1&l2&->).
  rewrite next_of_neighbour; [|done|set_solver].
  rewrite reverse_app, reverse_cons, <- app_assoc. simpl.
  rewrite next_of_split.
  2: { rewrite elem_of_reverse. apply NoDup_app in Hnd as (_&_&Hnd).
       by apply NoDup_cons in Hnd as [? _]. }
  fold (last_of l1). split; [by intros [_ ->]|]. intros <-. split; [|done].
  intros ->. by apply H0.
Qed.
End next_of.

(** ** Keys *)

(** The byte of a key that selects the bucket on a level. *)
Definition byte_of (id : Z) (level : nat) : Z := (id / 256 ^ Z.of_nat level) mod 256.

Lemma byte_of_range id level : 0 <= byte_of id level < 256.
Proof. by apply Z.mod_pos_bound. Qed.

Lemma ff_hash_get_for_level_ok id (level : nat) : (level <= 7)%nat ->
  ff_hash_get_for_level id (Z.of_nat level) = Ok (byte_of id level).
Proof.
  intros Hl. unfold ff_hash_get_for_level, FF_BUCKET_POOL_BITS, u8, byte_of.
  set (k := Z.of_nat level). assert (0 <= k <= 7) as Hk by lia. clearbody k.
  rewrite bool_decide_eq_true_2 by lia. f_equal.
  replace (Z.shiftr 0xFFFFFFFFFFFFFFFF (64 - 8 * (k + 1))) with (Z.ones (8 * k + 8)).
  2: { change 0xFFFFFFFFFFFFFFFF with (Z.ones 64).
       rewrite Z.shiftr_div_pow2, Z.ones_div_pow2 by lia. f_equal. lia. }
  replace (256 ^ k) with (2 ^ (8 * k)) by (rewrite Z.pow_mul_r by lia; done).
  assert (0 < 2 ^ (8 * k)) by (apply Z.pow_pos_nonneg; lia).
  rewrite Z.land_ones, Z.shiftr_div_pow2, Z.pow_add_r by lia.
  change (2 ^ 8) with 256. rewrite Z.rem_mul_r by lia.
  rewrite (Z.mul_comm (2 ^ (8 * k))), Z.div_add by lia.
  rewrite (Z.div_small (id mod _)), Z.add_0_l by (apply Z.mod_pos_bound; lia).
  by rewrite Z.mod_mod.
Qed.

Section levels.
Context (L : nat).

(** The path of a key in a tree of [L] levels. *)
Definition path (id : Z) : list Z := map (byte_of id) (seq 0 L).

Lemma length_path id : length (path id) = L.
Proof. unfold path. by rewrite length_map, length_seq. Qed.

Lemma path_lookup id i : (i < L)%nat -> path id !! i = Some (byte_of id i).
Proof.
  intros Hi. unfold path. rewrite list_lookup_fmap, lookup_seq_lt by done. done.
Qed.

Lemma take_path_S id i : (i < L)%nat ->
  take (S i) (path id) = take i (path id) ++ [byte_of id i].
Proof. intros Hi. by apply take_S_r, path_lookup. Qed.

Lemma length_take_path id i : (i <= L)%nat -> length (take i (path id)) = i.
Proof. intros. rewrite length_take, length_path. lia. Qed.

Lemma path_last id : (1 <= L)%nat ->
  take (L - 1) (path id) ++ [byte_of id (L - 1)] = path id.
Proof.
  intros HL. rewrite <- take_path_S by lia. apply take_ge.
  rewrite length_path. lia.
Qed.

(** ** Entries and nodes *)

Record entry : Type := mk_entry { e_ptr : Z; e_id : Z; e_val : Z }.

Definition ptrs (E : list entry) : list Z := map e_ptr E.

(** The entries whose keys have the path [q]. *)
Definition chain (q : list Z) (E : list entry) : list entry :=
  filter (fun e => path (e_id e) = q) E.

Definition chain_of (E : list entry) (e : entry) : list Z :=
  ptrs (chain (path (e_id e)) E).

Definition node_of (E : list entry) (e : entry) : ff_hash_table_node :=
  mk_ht_node (e_id e) (e_val e)
    (next_of (e_ptr e) (chain_of E e))
    (next_of (e_ptr e) (reverse (ptrs E)))
    (next_of (e_ptr e) (ptrs E)).

Record nodes_inv (E : list entry) (nodes : gmap Z ff_hash_table_node) (fresh : Z) : Prop := {
  ni_nodup : NoDup (ptrs E);
  ni_ids : NoDup (map e_id E);
  ni_range : forall e, e ∈ E -> 0 < e_ptr e < fresh;
  ni_node : forall e, e ∈ E -> nodes !! e_ptr e = Some (node_of E e);
  ni_dom : forall p, is_Some (nodes !! p) -> p ∈ ptrs E;
}.

Lemma ptrs_in E p : p ∈ ptrs E <-> exists e, e ∈ E /\ e_ptr e = p.
Proof. unfold ptrs. rewrite list_elem_of_fmap. naive_solver. Qed.

Lemma chain_in q E e : e ∈ chain q E <-> path (e_id e) = q /\ e ∈ E.
Proof. unfold chain. by rewrite list_elem_of_filter. Qed.

Lemma ptrs_chain_sub q E p : p ∈ ptrs (chain q E) -> p ∈ ptrs E.
Proof. rewrite !ptrs_in. setoid_rewrite chain_in. naive_solver. Qed.

Lemma NoDup_map_filter {A} (f : entry -> A) (P : entry -> Prop)
    `{!forall e, Decision (P e)} E :
  NoDup (map f E) -> NoDup (map f (filter P E)).
Proof.
  intros Hnd. eapply sublist_NoDup; [exact Hnd|].
  apply (fmap_sublist f). apply sublist_filter.
Qed.

Lemma NoDup_chain q E : NoDup (ptrs E) -> NoDup (ptrs (chain q E)).
Proof. apply NoDup_map_filter. Qed.

Lemma ptr_inj E e e' : NoDup (ptrs E) -> e ∈ E -> e' ∈ E -> e_ptr e = e_ptr e' -> e = e'.
Proof.
  unfold ptrs. induction E as [|x E IH]; intros Hnd He He' Hp; [set_solver|].
  apply NoDup_cons in Hnd as [Hx Hnd].
  apply elem_of_cons in He as [->|He], He' as [->|He']; [done|..|by apply IH];
    exfalso; apply Hx, ptrs_in; eauto.
Qed.

Lemma nodes_lookup E nodes fresh p nd : nodes_inv E nodes fresh -> nodes !! p = Some nd ->
  exists e, e ∈ E /\ e_ptr e = p /\ nd = node_of E e.
Proof.
  intros Hi Hp. assert (p ∈ ptrs E) as (e&He&<-)%ptrs_in by (eapply ni_dom; eauto).
  exists e. split_and!; [done..|]. rewrite (ni_node _ _ _ Hi e He) in Hp. congruence.
Qed.

Lemma nodes_none E nodes fresh p : nodes_inv E nodes fresh -> p ∉ ptrs E -> nodes !! p = None.
Proof. intros Hi Hp. destruct (nodes !! p) eqn:Hn; [|done]. exfalso. eauto using ni_dom. Qed.

Lemma nodes_null E nodes fresh : nodes_inv E nodes fresh -> 0 ∉ ptrs E.
Proof. intros Hi (e&He&H0)%ptrs_in. apply (ni_range _ _ _ Hi) in He. lia. Qed.

Lemma nodes_fresh E nodes fresh n : nodes_inv E nodes fresh -> fresh <= n -> n ∉ ptrs E.
Proof. intros Hi Hn (e&He&H0)%ptrs_in. apply (ni_range _ _ _ Hi) in He. lia. Qed.

Lemma nodes_size E nodes fresh : nodes_inv E nodes fresh -> size nodes = length E.
Proof.
  intros Hi. assert (dom nodes = list_to_set (ptrs E) :> gset Z) as Hd.
  { apply set_eq. intros p. rewrite elem_of_dom, elem_of_list_to_set. split.
    - apply (ni_dom _ _ _ Hi).
    - intros (e&He&<-)%ptrs_in. exists (node_of E e). by apply (ni_node _ _ _ Hi). }
  rewrite <- size_dom, Hd, size_list_to_set by eauto using ni_nodup.
  apply length_map.
Qed.

Lemma nodes_inv_empty : nodes_inv [] ∅ 1.
Proof.
  constructor; try (intros; set_solver); try apply NoDup_nil_2.
  intros p [? Hp]. by rewrite lookup_empty in Hp.
Qed.

Lemma nodes_inv_fresh E nodes fresh fresh' :
  nodes_inv E nodes fresh -> fresh <= fresh' -> nodes_inv E nodes fresh'.
Proof.
  intros Hi Hf. destruct Hi as [? ? Hr ? ?]. constructor; auto.
  intros e He. specialize (Hr e He). lia.
Qed.

(** Assignment of the value of an entry. *)
Definition set_val (p v : Z) (e : entry) : entry :=
  if decide (e_ptr e = p) then mk_entry (e_ptr e) (e_id e) v else e.

Lemma set_val_ptr p v e : e_ptr (set_val p v e) = e_ptr e.
Proof. unfold set_val. by destruct (decide _). Qed.

Lemma set_val_id p v e : e_id (set_val p v e) = e_id e.
Proof. unfold set_val. by destruct (decide _). Qed.

Lemma ptrs_set_val p v E : ptrs (map (set_val p v) E) = ptrs E.
Proof.
  unfold ptrs. rewrite map_map. apply map_ext. intros. apply set_val_ptr.
Qed.

Lemma ids_set_val p v E : map e_id (map (set_val p v) E) = map e_id E.
Proof. rewrite map_map. apply map_ext. intros. apply set_val_id. Qed.

Lemma chain_set_val q p v E : chain q (map (set_val p v) E) = map (set_val p v) (chain q E).
Proof.
  unfold chain. induction E as [|e E IH]; [done|].
  rewrite map_cons, !filter_cons, set_val_id, IH. by destruct (decide _).
Qed.

Lemma nodes_inv_set_val E nodes fresh p v :
  nodes_inv E nodes fresh ->
  nodes_inv (map (set_val p v) E) (alter (set_n_value v) p nodes) fresh.
Proof.
  intros Hi. constructor.
  - rewrite ptrs_set_val. eauto using ni_nodup.
  - rewrite ids_set_val. eauto using ni_ids.
  - intros e (e0&->&He)%list_elem_of_fmap. rewrite set_val_ptr. eauto using ni_range.
  - intros e (e0&->&He)%list_elem_of_fmap. rewrite set_val_ptr, lookup_alter.
    pose proof (ni_node _ _ _ Hi _ He) as Hn.
    unfold node_of, chain_of. rewrite set_val_id, chain_set_val, !ptrs_set_val, set_val_ptr.
    unfold set_val. destruct (decide (p = e_ptr e0)) as [->|Hne].
    + rewrite decide_True, Hn by done. done.
    + rewrite decide_False, Hn by done. done.
  - intros p'. rewrite lookup_alter_is_Some, ptrs_set_val. eauto using ni_dom.
Qed.

(** Appending an entry. *)
Lemma ptrs_app E e : ptrs (E ++ [e]) = ptrs E ++ [e_ptr e].
Proof. unfold ptrs. by rewrite map_app. Qed.

Lemma chain_app q E e :
  chain q (E ++ [e]) = chain q E ++ (if decide (path (e_id e) = q) then [e] else []).
Proof. unfold chain. rewrite filter_app, filter_cons, filter_nil. by destruct (decide _). Qed.

Definition append_nodes (E : list entry) (e : entry) (nodes : gmap Z ff_hash_table_node)
    : gmap Z ff_hash_table_node :=
  alter (set_n_next_in_list (e_ptr e)) (last_of (ptrs E))
    (alter (set_n_prev_in_list (last_of (ptrs E))) (e_ptr e)
      (alter (set_n_next (e_ptr e)) (last_of (chain_of E e))
        (<[e_ptr e := mk_ht_node (e_id e) (e_val e) 0 0 0]> nodes))).

Lemma last_of_sub l : l = [] /\ last_of l = 0 \/ last_of l ∈ l.
Proof. destruct l; [by left|right; by apply last_of_in]. Qed.

Lemma next_of_cons_eq x l : next_of x (x :: l) = hd 0 l.
Proof. simpl. by rewrite decide_True. Qed.

Lemma node_of_app_old E e e0 : NoDup (ptrs E) -> 0 ∉ ptrs E -> e ∈ E -> e_ptr e0 ∉ ptrs E ->
  node_of (E ++ [e0]) e =
    (if decide (last_of (ptrs E) = e_ptr e) then set_n_next_in_list (e_ptr e0) else id)
    ((if decide (last_of (chain_of E e0) = e_ptr e) then set_n_next (e_ptr e0) else id)
      (node_of E e)).
Proof.
  intros Hnd H0 He Hn.
  assert (e_ptr e ∈ ptrs E) as Hp by (apply ptrs_in; eauto).
  assert (e_ptr e ∈ chain_of E e) as Hc by (apply ptrs_in; exists e; by rewrite chain_in).
  assert (next_of (e_ptr e) (chain_of (E ++ [e0]) e) =
    if decide (last_of (chain_of E e0) = e_ptr e) then e_ptr e0
    else next_of (e_ptr e) (chain_of E e)) as Hchain.
  { destruct (decide (path (e_id e0) = path (e_id e))) as [Hpe|Hpe].
    - assert (chain_of E e0 = chain_of E e) as -> by (unfold chain_of; by rewrite Hpe).
      unfold chain_of at 1. rewrite chain_app, decide_True, ptrs_app by done.
      apply next_of_app; [by apply NoDup_chain|done].
    - unfold chain_of at 1. rewrite chain_app, decide_False, app_nil_r by done.
      rewrite decide_False; [done|].
      destruct (last_of_sub (chain_of E e0)) as [[_ ->]|Hin]; [congruence|].
      intros He0. rewrite He0 in Hin. apply ptrs_in in Hin as (e1&[Hq He1]%chain_in&Hee).
      rewrite (ptr_inj E e1 e) in Hq; done. }
  unfold node_of. rewrite Hchain, ptrs_app, reverse_app.
  change (reverse [e_ptr e0]) with [e_ptr e0]. cbn [app].
  rewrite next_of_cons_ne, next_of_app by (done || congruence).
  by destruct (decide (last_of (chain_of E e0) = _)), (decide (last_of (ptrs E) = _)).
Qed.

Lemma node_of_app_new E e0 : e_ptr e0 ∉ ptrs E ->
  node_of (E ++ [e0]) e0 = mk_ht_node (e_id e0) (e_val e0) 0 (last_of (ptrs E)) 0.
Proof.
  intros Hn. unfold node_of, chain_of. rewrite chain_app, decide_True, !ptrs_app by done.
  rewrite !next_of_split by (done || by intros ?%ptrs_chain_sub).
  rewrite reverse_app. change (reverse [e_ptr e0]) with [e_ptr e0]. cbn [app].
  by rewrite next_of_cons_eq.
Qed.

Lemma nodes_inv_app E e nodes fresh :
  nodes_inv E nodes fresh -> 0 < fresh -> e_ptr e = fresh -> e_id e ∉ map e_id E ->
  nodes_inv (E ++ [e]) (append_nodes E e nodes) (fresh + 1).
Proof.
  intros Hi Hf Hp Hid.
  assert (e_ptr e ∉ ptrs E) as Hn by (eapply nodes_fresh; [done|lia]).
  pose proof (nodes_null _ _ _ Hi) as H0. pose proof (ni_nodup _ _ _ Hi) as Hnd.
  assert (last_of (ptrs E) <> e_ptr e) as Hl1
    by (destruct (last_of_sub (ptrs E)) as [[_ ->]|?]; [lia|congruence]).
  assert (last_of (chain_of E e) <> e_ptr e) as Hl2.
  { destruct (last_of_sub (chain_of E e)) as [[_ ->]|Hin]; [lia|].
    apply ptrs_chain_sub in Hin. congruence. }
  constructor.
  - rewrite ptrs_app. apply NoDup_app. split_and!; [done|set_solver|apply NoDup_singleton].
  - rewrite map_app. apply NoDup_app.
    split_and!; [eauto using ni_ids|set_solver|apply NoDup_singleton].
  - intros e' [He|He]%elem_of_app; [apply (ni_range _ _ _ Hi) in He; lia|].
    apply list_elem_of_singleton in He as ->. lia.
  - unfold append_nodes. intros e' [He|He]%elem_of_app.
    + rewrite node_of_app_old by done.
      assert (e_ptr e <> e_ptr e') by (intros Heq; apply Hn, ptrs_in; eauto).
      rewrite lookup_alter_if, (lookup_alter_ne _ _ (e_ptr e)), lookup_alter_if by done.
      by rewrite lookup_insert_ne, (ni_node _ _ _ Hi e' He).
    + apply list_elem_of_singleton in He as ->. rewrite node_of_app_new by done.
      rewrite lookup_alter_ne, lookup_alter_eq, lookup_alter_ne, lookup_insert_eq by done.
      done.
  - intros p. unfold append_nodes. rewrite !lookup_alter_is_Some, lookup_insert_is_Some.
    rewrite ptrs_app. intros [->|[_ Hp']]; [set_solver|].
    apply (ni_dom _ _ _ Hi) in Hp'. set_solver.
Qed.

(** Removing an entry. *)
Definition remove_ptr (d : Z) (E : list entry) : list entry :=
  filter (fun e => e_ptr e <> d) E.

Lemma ptrs_remove d E : ptrs (remove_ptr d E) = filter (.≠ d) (ptrs E).
Proof.
  unfold ptrs, remove_ptr. induction E as [|e E IH]; [done|].
  rewrite map_cons, !filter_cons. destruct (decide (e_ptr e <> d)), (decide (e_ptr e ≠ d));
    try done. by rewrite map_cons, IH.
Qed.

Lemma chain_remove q d E : chain q (remove_ptr d E) = remove_ptr d (chain q E).
Proof. apply list_filter_comm. Qed.

Lemma remove_ptr_in d E e : e ∈ remove_ptr d E <-> e ∈ E /\ e_ptr e <> d.
Proof. unfold remove_ptr. rewrite list_elem_of_filter. naive_solver. Qed.

Definition remove_nodes (E : list entry) (ed : entry) (nodes : gmap Z ff_hash_table_node)
    : gmap Z ff_hash_table_node :=
  let nd := node_of E ed in
  delete (e_ptr ed)
    (alter (set_n_prev_in_list (n_prev_in_list nd)) (n_next_in_list nd)
      (alter (set_n_next_in_list (n_next_in_list nd)) (n_prev_in_list nd)
        (alter (set_n_next (n_next nd)) (next_of (e_ptr ed) (reverse (chain_of E ed)))
          nodes))).

Lemma chain_of_remove d E e : chain_of (remove_ptr d E) e = filter (.≠ d) (chain_of E e).
Proof. unfold chain_of. by rewrite chain_remove, ptrs_remove. Qed.

(** The successor in a chain, after the removal of [ed] and as the code
    assigns it. *)
Lemma next_chain_remove E e ed : NoDup (ptrs E) -> 0 ∉ ptrs E -> e ∈ E -> ed ∈ E ->
  e_ptr e <> e_ptr ed ->
  next_of (e_ptr e) (chain_of (remove_ptr (e_ptr ed) E) e) =
    if decide (next_of (e_ptr ed) (reverse (chain_of E ed)) = e_ptr e)
    then next_of (e_ptr ed) (chain_of E ed) else next_of (e_ptr e) (chain_of E e).
Proof.
  intros Hnd H0 He Hd Hne. rewrite chain_of_remove.
  assert (e_ptr e ∈ chain_of E e) as Hc by (apply ptrs_in; exists e; by rewrite chain_in).
  assert (e_ptr ed ∈ chain_of E ed) as Hcd by (apply ptrs_in; exists ed; by rewrite chain_in).
  assert (e_ptr ed <> 0) as Hd0 by (intros Hx; apply H0, ptrs_in; eauto).
  destruct (decide (path (e_id e) = path (e_id ed))) as [Hpe|Hpe].
  - assert (chain_of E ed = chain_of E e) as Heq by (unfold chain_of; by rewrite Hpe).
    rewrite Heq in *. rewrite next_of_filter by (done || by apply NoDup_chain).
    apply decide_ext, next_of_reverse; try done; [by apply NoDup_chain|].
    intros ?%ptrs_chain_sub. done.
  - assert (e_ptr ed ∉ chain_of E e) as Hnin.
    { intros (e1&[Hq He1]%chain_in&Hee)%ptrs_in. rewrite (ptr_inj E e1 ed) in Hq; done. }
    rewrite filter_ne_id by done. rewrite decide_False; [done|]. intros Heq.
    destruct (next_of_in (e_ptr ed) (reverse (chain_of E ed))) as [Hz|Hin].
    + apply H0, ptrs_in. exists e. split; [done|congruence].
    + rewrite elem_of_reverse, Heq in Hin.
      apply ptrs_in in Hin as (e1&[Hq He1]%chain_in&Hee).
      rewrite (ptr_inj E e1 e) in Hq; done.
Qed.

Lemma node_of_remove E e ed : NoDup (ptrs E) -> 0 ∉ ptrs E -> e ∈ E -> ed ∈ E ->
  e_ptr e <> e_ptr ed ->
  node_of (remove_ptr (e_ptr ed) E) e =
    (if decide (n_next_in_list (node_of E ed) = e_ptr e)
     then set_n_prev_in_list (n_prev_in_list (node_of E ed)) else id)
    ((if decide (n_prev_in_list (node_of E ed) = e_ptr e)
      then set_n_next_in_list (n_next_in_list (node_of E ed)) else id)
     ((if decide (next_of (e_ptr ed) (reverse (chain_of E ed)) = e_ptr e)
       then set_n_next (n_next (node_of E ed)) else id) (node_of E e))).
Proof.
  intros Hnd H0 He Hd Hne.
  assert (e_ptr e ∈ ptrs E) as Hp by (apply ptrs_in; eauto).
  assert (e_ptr ed ∈ ptrs E) as Hpd by (apply ptrs_in; eauto).
  assert (e_ptr ed <> 0) as Hd0 by congruence.
  assert (NoDup (reverse (ptrs E))) as Hrd by (by rewrite reverse_Permutation).
  unfold node_of at 1. rewrite next_chain_remove, ptrs_remove, <- filter_reverse by done.
  rewrite !next_of_filter by (done || by rewrite elem_of_reverse).
  rewrite (decide_ext (next_of (e_ptr e) (ptrs E) = e_ptr ed)
    (next_of (e_ptr ed) (reverse (ptrs E)) = e_ptr e)) by (by apply next_of_reverse).
  rewrite (decide_ext (next_of (e_ptr e) (reverse (ptrs E)) = e_ptr ed)
    (next_of (e_ptr ed) (ptrs E) = e_ptr e)).
  2: { rewrite next_of_reverse by (done || by rewrite elem_of_reverse).
       by rewrite reverse_involutive. }
  cbn [node_of n_next n_next_in_list n_prev_in_list].
  by repeat destruct (decide _).
Qed.

Lemma nodes_inv_remove E ed nodes fresh :
  nodes_inv E nodes fresh -> ed ∈ E ->
  nodes_inv (remove_ptr (e_ptr ed) E) (remove_nodes E ed nodes) fresh.
Proof.
  intros Hi Hd. pose proof (nodes_null _ _ _ Hi) as H0. pose proof (ni_nodup _ _ _ Hi) as Hnd.
  constructor.
  - by apply NoDup_map_filter.
  - apply NoDup_map_filter. eauto using ni_ids.
  - intros e [He _]%remove_ptr_in. eauto using ni_range.
  - intros e [He Hne]%remove_ptr_in. unfold remove_nodes.
    rewrite lookup_delete_ne, !lookup_alter_if, (ni_node _ _ _ Hi e He) by done.
    by rewrite node_of_remove.
  - intros p. unfold remove_nodes. rewrite lookup_delete_is_Some, !lookup_alter_is_Some.
    intros [Hne Hp%(ni_dom _ _ _ Hi)]. rewrite ptrs_remove, list_elem_of_filter. done.
Qed.
End levels.
