(* ===== verification/HashTablePools.v ===== *)
(** * The hash table: the tree of pools

    The pools of a table of [L] levels as a tree: [P] maps the path of a pool
    (the key bytes that lead to it) to its address.  The lemmas give the
    effect of creating, filling and clearing a bucket on the tree. *)

From S2P Require Import Prelude Bytes HashTable HashTableRep.

Section pools.
Context (L : nat).

#[local] Abbreviation tree := (gmap (list Z) Z).

(** What the slot [b] of the pool at [p] holds. *)
Definition slot (P : tree) (heads : list Z -> Z) (p : list Z) (b : Z) : Z :=
  if decide (S (length p) = L) then heads (p ++ [b]) else default 0 (P !! (p ++ [b])).

Definition pool_ok (P : tree) (heads : list Z -> Z) (p : list Z) (pool : list Z) : Prop :=
  length pool = 256%nat /\
  forall b, 0 <= b < 256 -> pool !! Z.to_nat b = Some (slot P heads p b).

Record pools_inv (root : Z) (P : tree) (heads : list Z -> Z)
    (pools : gmap Z (list Z)) (fresh : Z) : Prop := {
  pi_root : P !! [] = Some root;
  pi_key : forall p c, P !! p = Some c ->
    (length p < L)%nat /\ Forall (fun b => 0 <= b < 256) p /\ 0 < c < fresh;
  pi_inj : forall p p' c, P !! p = Some c -> P !! p' = Some c -> p = p';
  pi_parent : forall p b, is_Some (P !! (p ++ [b])) -> is_Some (P !! p);
  pi_pool : forall p c, P !! p = Some c ->
    exists pool, pools !! c = Some pool /\ pool_ok P heads p pool;
  pi_dom : forall c, is_Some (pools !! c) -> exists p, P !! p = Some c;
  pi_heads : forall q, heads q <> 0 -> is_Some (P !! take (L - 1) q);
}.

Lemma pools_inv_init : (1 <= L)%nat ->
  pools_inv 1 {[ [] := 1 ]} (fun _ => 0) {[ 1 := replicate 256 0 ]} 2.
Proof.
  intros HL. constructor.
  - by rewrite lookup_singleton_eq.
  - intros p c [<- <-]%lookup_singleton_Some. split_and!; [done|constructor|lia..].
  - intros p p' c [<- <-]%lookup_singleton_Some [<- _]%lookup_singleton_Some. done.
  - intros p b [c [Hp _]%lookup_singleton_Some]. by destruct p.
  - intros p c [<- <-]%lookup_singleton_Some. exists (replicate 256 0).
    rewrite lookup_singleton_eq. split; [done|]. split; [by rewrite length_replicate|].
    intros b Hb. rewrite lookup_replicate_2 by lia. f_equal. unfold slot.
    destruct (decide _); [done|]. by rewrite lookup_singleton_ne.
  - intros c [pool [<- _]%lookup_singleton_Some]. exists []. by rewrite lookup_singleton_eq.
  - done.
Qed.

Lemma pool_ok_insert P P' heads heads' p pool b v :
  pool_ok P heads p pool -> 0 <= b < 256 ->
  slot P' heads' p b = v ->
  (forall b', 0 <= b' < 256 -> b' <> b -> slot P' heads' p b' = slot P heads p b') ->
  pool_ok P' heads' p (<[Z.to_nat b := v]> pool).
Proof.
  intros [Hlen Hp] Hb Hv Hne. split; [by rewrite length_insert|].
  intros b' Hb'. destruct (decide (b' = b)) as [->|Hbb].
  - rewrite list_lookup_insert_eq by lia. by rewrite Hv.
  - rewrite list_lookup_insert_ne by lia. rewrite Hne by done. by apply Hp.
Qed.

Lemma pool_ok_ext P P' heads heads' p pool :
  pool_ok P heads p pool ->
  (forall b, 0 <= b < 256 -> slot P' heads' p b = slot P heads p b) ->
  pool_ok P' heads' p pool.
Proof. intros [Hlen Hp] He. split; [done|]. intros b Hb. rewrite He by done. by apply Hp. Qed.

Lemma slot_parent P root heads pools fresh p b :
  pools_inv root P heads pools fresh ->
  (S (length p) < L)%nat -> slot P heads p b <> 0 -> is_Some (P !! (p ++ [b])).
Proof.
  intros Hi Hl. unfold slot. rewrite decide_False by lia.
  destruct (P !! (p ++ [b])); [eauto|done].
Qed.

(** The slots of a pool that is about to be created are empty. *)
Lemma slot_new P root heads pools fresh p b b' :
  pools_inv root P heads pools fresh -> P !! (p ++ [b]) = None -> (S (length p) < L)%nat ->
  slot (<[p ++ [b] := fresh]> P) heads (p ++ [b]) b' = 0.
Proof.
  intros Hi Hnone Hl. unfold slot. rewrite length_app. simpl.
  destruct (decide _) as [Heq|Hneq].
  - destruct (decide (heads ((p ++ [b]) ++ [b']) = 0)) as [|Hh]; [done|].
    apply (pi_heads _ _ _ _ _ Hi) in Hh. rewrite take_app_length' in Hh.
    + rewrite Hnone in Hh. by destruct Hh.
    + rewrite length_app. simpl. lia.
  - rewrite lookup_insert_ne.
    + destruct (P !! ((p ++ [b]) ++ [b'])) eqn:Hc; [|done]. exfalso.
      assert (is_Some (P !! (p ++ [b]))) as [? ?]; [|congruence].
      eapply (pi_parent _ _ _ _ _ Hi). eauto.
    + intros He. apply (f_equal length) in He. rewrite !length_app in He. simpl in He. lia.
Qed.

(** A new pool below the slot [b] of the pool at [p]. *)
Lemma pools_inv_create root P heads pools fresh p b c pool :
  pools_inv root P heads pools fresh -> 0 < fresh ->
  P !! p = Some c -> pools !! c = Some pool -> (S (length p) < L)%nat -> 0 <= b < 256 ->
  P !! (p ++ [b]) = None ->
  pools_inv root (<[p ++ [b] := fresh]> P) heads
    (<[c := <[Z.to_nat b := fresh]> pool]> (<[fresh := replicate 256 0]> pools)) (fresh + 1).
Proof.
  intros Hi Hf Hc Hpool Hl Hb Hnone.
  destruct (pi_key _ _ _ _ _ Hi _ _ Hc) as (_&Hbytes&Hcf).
  constructor.
  - rewrite lookup_insert_ne by (by destruct p). eauto using pi_root.
  - intros p' c' [[<- <-]|[Hne Hp']]%lookup_insert_Some.
    + rewrite length_app. simpl. split_and!; [lia|by rewrite Forall_app, Forall_singleton|lia..].
    + apply (pi_key _ _ _ _ _ Hi) in Hp'. intuition lia.
  - intros p1 p2 c' [[<- <-]|[Hne1 H1]]%lookup_insert_Some
      [[<- H2]|[Hne2 H2]]%lookup_insert_Some; try done.
    + apply (pi_key _ _ _ _ _ Hi) in H2. lia.
    + subst. apply (pi_key _ _ _ _ _ Hi) in H1. lia.
    + eauto using pi_inj.
  - intros p' b' [Heq|[Hne Hp']]%lookup_insert_is_Some; apply lookup_insert_is_Some'.
    + apply app_inj_tail in Heq as [<- _]. right. eauto.
    + right. eauto using pi_parent.
  - intros p' c' [[<- <-]|[Hne Hp']]%lookup_insert_Some.
    + exists (replicate 256 0). rewrite lookup_insert_ne, lookup_insert_eq by lia.
      split; [done|]. split; [by rewrite length_replicate|]. intros b' Hb'.
      rewrite lookup_replicate_2 by lia. f_equal. symmetry. by eapply slot_new.
    + destruct (pi_pool _ _ _ _ _ Hi _ _ Hp') as (pool'&Hpool'&Hok).
      destruct (decide (p' = p)) as [->|Hpp].
      * assert (c' = c) as -> by congruence. assert (pool' = pool) as -> by congruence.
        exists (<[Z.to_nat b := fresh]> pool). rewrite lookup_insert_eq. split; [done|].
        apply (pool_ok_insert P _ heads heads); [done|done| |].
        -- unfold slot. rewrite decide_False, lookup_insert_eq by lia. done.
        -- intros b' _ Hbb. unfold slot. destruct (decide _); [done|].
           rewrite lookup_insert_ne; [done|]. intros [_ ?]%app_inj_tail. congruence.
      * exists pool'. destruct (pi_key _ _ _ _ _ Hi _ _ Hp') as (_&_&?).
        rewrite !lookup_insert_ne by (lia || intros ->; eauto using pi_inj).
        split; [done|]. eapply pool_ok_ext; [done|]. intros b' _. unfold slot.
        destruct (decide _); [done|].
        rewrite lookup_insert_ne; [done|]. intros [? _]%app_inj_tail. congruence.
  - intros c' [<-|[Hne [<-|[Hne' Hs]]%lookup_insert_is_Some]]%lookup_insert_is_Some.
    + exists p. rewrite lookup_insert_ne; [done|]. intros He. congruence.
    + exists (p ++ [b]). by rewrite lookup_insert_eq.
    + apply (pi_dom _ _ _ _ _ Hi) in Hs as [p' Hp']. exists p'.
      rewrite lookup_insert_ne; [done|]. intros He. congruence.
  - intros q Hq%(pi_heads _ _ _ _ _ Hi). apply lookup_insert_is_Some'. by right.
Qed.

(** A new chain head in a slot of the last level. *)
Lemma pools_inv_head root P heads heads' pools fresh p b c pool :
  pools_inv root P heads pools fresh ->
  P !! p = Some c -> pools !! c = Some pool -> S (length p) = L -> 0 <= b < 256 ->
  (forall q, q <> p ++ [b] -> heads' q = heads q) ->
  pools_inv root P heads' (<[c := <[Z.to_nat b := heads' (p ++ [b])]> pool]> pools) fresh.
Proof.
  intros Hi Hc Hpool Hl Hb Hh. constructor; try by destruct Hi.
  - intros p' c' Hp'. destruct (pi_pool _ _ _ _ _ Hi _ _ Hp') as (pool'&Hpool'&Hok).
    destruct (decide (p' = p)) as [->|Hpp].
    + assert (c' = c) as -> by congruence. assert (pool' = pool) as -> by congruence.
      exists (<[Z.to_nat b := heads' (p ++ [b])]> pool). rewrite lookup_insert_eq.
      split; [done|]. apply (pool_ok_insert P _ heads heads'); [done|done| |].
      * unfold slot. by rewrite decide_True.
      * intros b' _ Hbb. unfold slot. rewrite decide_True, decide_True by done.
        apply Hh. intros [_ ?]%app_inj_tail. congruence.
    + exists pool'. rewrite lookup_insert_ne by (intros ->; eauto using pi_inj).
      split; [done|]. eapply pool_ok_ext; [done|]. intros b' _. unfold slot.
      destruct (decide _); [|done]. apply Hh. intros [? _]%app_inj_tail. congruence.
  - intros c' [<-|[Hne Hs]]%lookup_insert_is_Some; [eauto|eauto using pi_dom].
  - intros q Hq. destruct (decide (q = p ++ [b])) as [->|Hne].
    + rewrite take_app_length' by lia. eauto.
    + rewrite Hh in Hq by done. eauto using pi_heads.
Qed.

Lemma pools_inv_ext root P heads heads' pools fresh :
  pools_inv root P heads pools fresh -> (forall q, heads' q = heads q) ->
  pools_inv root P heads' pools fresh.
Proof.
  intros Hi Hh. constructor; try by destruct Hi.
  - intros p c (pool&?&Hok)%(pi_pool _ _ _ _ _ Hi). exists pool. split; [done|].
    eapply pool_ok_ext; [done|]. intros b _. unfold slot. by destruct (decide _).
  - intros q. rewrite Hh. eauto using pi_heads.
Qed.

Lemma pools_inv_fresh root P heads pools fresh fresh' :
  pools_inv root P heads pools fresh -> fresh <= fresh' ->
  pools_inv root P heads pools fresh'.
Proof.
  intros Hi Hf. constructor; try by destruct Hi.
  intros p c Hp%(pi_key _ _ _ _ _ Hi). intuition lia.
Qed.

(** An empty pool leaves the tree. *)
Lemma pools_inv_delete root P heads pools fresh p b c d pool :
  pools_inv root P heads pools fresh ->
  P !! p = Some c -> pools !! c = Some pool -> P !! (p ++ [b]) = Some d ->
  (forall b', 0 <= b' < 256 -> slot P heads (p ++ [b]) b' = 0) ->
  0 <= b < 256 -> (forall q, heads q <> 0 -> length q = L /\ Forall (fun b => 0 <= b < 256) q) ->
  pools_inv root (delete (p ++ [b]) P) heads
    (<[c := <[Z.to_nat b := 0]> pool]> (delete d pools)) fresh.
Proof.
  intros Hi Hc Hpool Hd Hempty Hb Hq.
  destruct (pi_key _ _ _ _ _ Hi _ _ Hd) as (Hlen&_&_). rewrite length_app in Hlen. simpl in Hlen.
  assert (c <> d) as Hcd.
  { intros ->. pose proof (pi_inj _ _ _ _ _ Hi _ _ _ Hc Hd) as He.
    apply (f_equal length) in He. rewrite length_app in He. simpl in He. lia. }
  constructor.
  - rewrite lookup_delete_ne by (by destruct p). eauto using pi_root.
  - intros p' c' [_ Hp']%lookup_delete_Some. eauto using pi_key.
  - intros p1 p2 c' [_ H1]%lookup_delete_Some [_ H2]%lookup_delete_Some. eauto using pi_inj.
  - intros p' b' [Hne Hs]%lookup_delete_is_Some. apply lookup_delete_is_Some.
    split; [|eauto using pi_parent]. intros <-.
    destruct Hs as [c' Hs]. destruct (pi_key _ _ _ _ _ Hi _ _ Hs) as (Hl&Hbs&Hc0).
    rewrite !length_app in Hl. simpl in Hl.
    rewrite Forall_app, Forall_singleton in Hbs. destruct Hbs as [_ Hb']. specialize (Hempty b' Hb').
    unfold slot in Hempty. rewrite length_app in Hempty. simpl in Hempty.
    rewrite decide_False, Hs in Hempty by lia. simpl in Hempty. lia.
  - intros p' c' [Hne Hp']%lookup_delete_Some.
    destruct (pi_pool _ _ _ _ _ Hi _ _ Hp') as (pool'&Hpool'&Hok).
    destruct (decide (p' = p)) as [->|Hpp].
    + assert (c' = c) as -> by congruence. assert (pool' = pool) as -> by congruence.
      exists (<[Z.to_nat b := 0]> pool). rewrite lookup_insert_eq. split; [done|].
      apply (pool_ok_insert P _ heads heads); [done|done| |].
      * unfold slot. by rewrite decide_False, lookup_delete_eq by lia.
      * intros b' _ Hbb. unfold slot. destruct (decide _); [done|].
        rewrite lookup_delete_ne; [done|]. intros [_ ?]%app_inj_tail. congruence.
    + exists pool'. rewrite lookup_insert_ne by (intros ->; eauto using pi_inj).
      rewrite lookup_delete_ne by (intros ->; eauto using pi_inj).
      split; [done|]. eapply pool_ok_ext; [done|]. intros b' _. unfold slot.
      destruct (decide _); [done|].
      rewrite lookup_delete_ne; [done|]. intros [? _]%app_inj_tail. congruence.
  - intros c' [<-|[Hne [Hd' Hs]%lookup_delete_is_Some]]%lookup_insert_is_Some.
    + exists p. rewrite lookup_delete_ne; [done|]. intros He. congruence.
    + apply (pi_dom _ _ _ _ _ Hi) in Hs as [p' Hp']. exists p'.
      rewrite lookup_delete_ne; [done|]. intros He. congruence.
  - intros q Hh. apply lookup_delete_is_Some. split; [|eauto using pi_heads].
    intros Heq. destruct (Hq q Hh) as [Hlq Hbq].
    destruct (take_snoc q (L - 1)) as [b' Hsplit]; [lia|].
    rewrite <- Heq in Hsplit. rewrite Hsplit in Hbq.
    rewrite Forall_app, Forall_singleton in Hbq. destruct Hbq as [_ Hb']. specialize (Hempty b' Hb').
    unfold slot in Hempty. rewrite decide_True in Hempty.
    + congruence.
    + apply (f_equal length) in Heq. rewrite length_take, Hlq in Heq. lia.
Qed.
End pools.
