(* ===== verification/HashTableOps.v ===== *)
(** * The hash table: the operations on the representation

    Every operation of [HashTable] runs to completion on a state that
    represents a list of entries, and leaves a state that represents the
    entries the operation asks for. *)

From S2P Require Import Prelude Bytes HashTable HashTableRep HashTablePools.

(** ** Steps of the heap *)

Lemma M_bind_ok {A B} (m : M A) (f : A -> M B) st a st' :
  m st = Ok (a, st') -> (m ≫= f) st = f a st'.
Proof. intros H. unfold mbind, M_bind. by rewrite H. Qed.

Lemma M_bind_err {A B} (m : M A) (f : A -> M B) st e :
  m st = Err e -> (m ≫= f) st = Err e.
Proof. intros H. unfold mbind, M_bind. by rewrite H. Qed.

(** One step of a sequence, by the equation [H]. *)
Ltac mstep H := rewrite (M_bind_ok _ _ _ _ _ H).

Section steps.
Context (t : ff_hash_table) (pools : gmap Z (list Z)) (nodes : gmap Z ff_hash_table_node).
Context (fresh : Z) (mx : bool).

#[local] Abbreviation st := (mk_ht_state t pools nodes fresh mx).

Lemma load_node_ok p nd : nodes !! p = Some nd -> load_node p st = Ok (nd, st).
Proof. intros H. unfold load_node. cbn [st_nodes]. by rewrite H. Qed.

Lemma modify_node_ok p f nd : nodes !! p = Some nd ->
  modify_node p f st = Ok (tt, mk_ht_state t pools (alter f p nodes) fresh mx).
Proof.
  intros H. unfold modify_node. mstep (load_node_ok p nd H). unfold store_node.
  cbn [st_nodes st_table st_pools st_fresh st_mutex]. rewrite H. do 3 f_equal.
  apply map_eq. intros i. rewrite lookup_insert, lookup_alter.
  destruct (decide (p = i)) as [->|]; [by rewrite H|done].
Qed.

Lemma free_node_ok p : is_Some (nodes !! p) ->
  free_node p st = Ok (tt, mk_ht_state t pools (delete p nodes) fresh mx).
Proof. intros [nd H]. unfold free_node. cbn [st_nodes]. by rewrite H. Qed.

Lemma load_slot_ok c i pool v : pools !! c = Some pool -> 0 <= i ->
  pool !! Z.to_nat i = Some v -> load_slot c i st = Ok (v, st).
Proof.
  intros H Hi Hv. unfold load_slot. cbn [st_pools].
  by rewrite H, bool_decide_eq_true_2, Hv.
Qed.

Lemma store_slot_ok c i v pool : pools !! c = Some pool -> length pool = 256%nat ->
  0 <= i < 256 ->
  store_slot c i v st =
    Ok (tt, mk_ht_state t (<[c := <[Z.to_nat i := v]> pool]> pools) nodes fresh mx).
Proof.
  intros H Hl Hi. unfold store_slot. cbn [st_pools].
  rewrite H, bool_decide_eq_true_2; [done|]. unfold zlen. lia.
Qed.

Lemma free_pool_ok c : is_Some (pools !! c) ->
  free_pool c st = Ok (tt, mk_ht_state t (delete c pools) nodes fresh mx).
Proof. intros [pool H]. unfold free_pool. cbn [st_pools]. by rewrite H. Qed.

Lemma hash_ok id (l : nat) : (l <= 7)%nat ->
  lift_res (ff_hash_get_for_level id (Z.of_nat l)) st = Ok (byte_of id l, st).
Proof. intros Hl. unfold lift_res. by rewrite ff_hash_get_for_level_ok. Qed.

Lemma mutex_lock_ok : mx = false ->
  mutex_lock st = Ok (tt, mk_ht_state t pools nodes fresh true).
Proof. by intros ->. Qed.
End steps.

(** ** Walking the tree *)

Section ops.
Context (L : nat).

Lemma pools_prefix root P heads pools fresh p q :
  pools_inv L root P heads pools fresh -> is_Some (P !! (p ++ q)) -> is_Some (P !! p).
Proof.
  intros Hi. induction q as [|b q IH] using rev_ind; [by rewrite app_nil_r|].
  rewrite app_assoc. intros H%(pi_parent _ _ _ _ _ _ Hi). auto.
Qed.

Lemma pools_take_prefix root P heads pools fresh p i j :
  pools_inv L root P heads pools fresh -> (i <= j)%nat ->
  is_Some (P !! take j p) -> is_Some (P !! take i p).
Proof.
  intros Hi Hij H. eapply pools_prefix; [done|].
  erewrite (take_take_drop p i (j - i)). by replace (i + (j - i))%nat with j by lia.
Qed.

Lemma pool_load root P heads pools fresh p c b t nodes fr mx :
  pools_inv L root P heads pools fresh -> P !! p = Some c -> 0 <= b < 256 ->
  load_slot c b (mk_ht_state t pools nodes fr mx) =
    Ok (slot L P heads p b, mk_ht_state t pools nodes fr mx).
Proof.
  intros Hi Hp Hb. destruct (pi_pool _ _ _ _ _ _ Hi _ _ Hp) as (pool&Hpool&_&Hs).
  eapply load_slot_ok; [done|lia|]. by apply Hs.
Qed.

Lemma slot_inner root P heads pools fresh p b :
  pools_inv L root P heads pools fresh -> (S (length p) < L)%nat ->
  slot L P heads p b = 0 <-> P !! (p ++ [b]) = None.
Proof.
  intros Hi Hl. unfold slot. rewrite decide_False by lia.
  destruct (P !! (p ++ [b])) as [c|] eqn:Hc; [|done]. simpl. split; [|done].
  intros ->. apply (pi_key _ _ _ _ _ _ Hi) in Hc. lia.
Qed.

(** The walk without creation finds the pool of the last level, if it is there. *)
Lemma get_loop_ok root P heads t pools nodes fresh mx id n i c acc :
  pools_inv L root P heads pools fresh -> (L <= 8)%nat -> (S (i + n) = L)%nat ->
  P !! take i (path L id) = Some c ->
  exists r, get_or_create_loop n (Z.of_nat i) c id false acc
      (mk_ht_state t pools nodes fresh mx) = Ok (r, mk_ht_state t pools nodes fresh mx) /\
    fst <$> r = P !! take (L - 1) (path L id).
Proof.
  intros Hi HL. revert i c acc. induction n as [|n IH]; intros i c acc Hn Hc.
  - exists (Some (c, acc)). split; [done|]. simpl. rewrite <- Hc. do 2 f_equal. lia.
  - cbn [get_or_create_loop]. mstep (hash_ok t pools nodes fresh mx id i ltac:(lia)).
    mstep (pool_load _ _ _ _ _ _ _ _ t nodes fresh mx Hi Hc (byte_of_range id i)).
    pose proof (length_take_path L id i ltac:(lia)) as Hlen.
    pose proof (take_path_S L id i ltac:(lia)) as HS.
    destruct (P !! take (S i) (path L id)) as [c'|] eqn:Hc'.
    + assert (slot L P heads (take i (path L id)) (byte_of id i) = c') as ->.
      { unfold slot. by rewrite decide_False, <- HS, Hc' by lia. }
      assert (c' <> 0) by (apply (pi_key _ _ _ _ _ _ Hi) in Hc'; lia).
      rewrite (proj2 (Z.eqb_neq c' NULL)) by done.
      replace (Z.of_nat i + 1) with (Z.of_nat (S i)) by lia.
      apply IH; [lia|done].
    + assert (slot L P heads (take i (path L id)) (byte_of id i) = 0) as ->.
      { eapply slot_inner; [done|lia|]. by rewrite <- HS. }
      exists None. split; [done|]. simpl.
      destruct (P !! take (L - 1) (path L id)) eqn:Hl; [|done]. exfalso.
      assert (is_Some (P !! take (S i) (path L id))) as [? ?]; [|congruence].
      eapply (pools_take_prefix _ _ _ _ _ _ _ (L - 1)); [done|lia|eauto].
Qed.

(** The walk with creation extends the tree to the pool of the last level and
    lists the pools it went through: the result [r] of [n] levels from level
    [i] on. *)
Definition create_post (root : Z) (P : gmap (list Z) Z) (heads : list Z -> Z)
    (t : ff_hash_table) (nodes : gmap Z ff_hash_table_node) (fresh : Z) (mx : bool)
    (id : Z) (n i : nat) (acc : list Z) (r : res (option (Z * list Z) * ht_state)) : Prop :=
  exists P' pools' fresh' c' stored,
    r = Ok (Some (c', acc ++ stored), mk_ht_state t pools' nodes fresh' mx) /\
    pools_inv L root P' heads pools' fresh' /\ P ⊆ P' /\ fresh <= fresh' /\
    P' !! take (L - 1) (path L id) = Some c' /\
    length stored = n /\
    (forall j, (j < n)%nat -> stored !! j = P' !! take (S (i + j)) (path L id)).

Lemma create_post_cons root P P1 heads t nodes fresh fresh1 mx id n i acc c1 r :
  create_post root P1 heads t nodes fresh1 mx id n (S i) (acc ++ [c1]) r ->
  P ⊆ P1 -> fresh <= fresh1 -> P1 !! take (S i) (path L id) = Some c1 ->
  create_post root P heads t nodes fresh mx id (S n) i acc r.
Proof.
  intros (P'&pools'&fresh'&c'&stored&Heq&Hi'&Hsub'&Hf'&Hl&Hlen'&Hst) Hsub Hf1 Hc1.
  exists P', pools', fresh', c', (c1 :: stored).
  rewrite Heq, <- app_assoc. split_and!; try done; [by etrans|lia|simpl; lia|].
  intros [|j] Hj; simpl.
  - rewrite Nat.add_0_r. symmetry. by eapply lookup_weaken.
  - rewrite Hst by lia. do 3 f_equal. lia.
Qed.

Lemma create_loop_ok root P heads t pools nodes fresh mx id n i c acc :
  pools_inv L root P heads pools fresh -> 0 < fresh -> (L <= 8)%nat -> (S (i + n) = L)%nat ->
  P !! take i (path L id) = Some c ->
  create_post root P heads t nodes fresh mx id n i acc
    (get_or_create_loop n (Z.of_nat i) c id true acc (mk_ht_state t pools nodes fresh mx)).
Proof.
  intros Hi Hf HL. revert P pools fresh i c acc Hi Hf.
  induction n as [|n IH]; intros P pools fresh i c acc Hi Hf Hn Hc.
  { exists P, pools, fresh, c, []. rewrite app_nil_r. split_and!; try done; [|lia].
    rewrite <- Hc. do 2 f_equal. lia. }
  cbn [get_or_create_loop]. mstep (hash_ok t pools nodes fresh mx id i ltac:(lia)).
  mstep (pool_load _ _ _ _ _ _ _ _ t nodes fresh mx Hi Hc (byte_of_range id i)).
  pose proof (length_take_path L id i ltac:(lia)) as Hlen.
  pose proof (take_path_S L id i ltac:(lia)) as HS.
  replace (Z.of_nat i + 1) with (Z.of_nat (S i)) by lia.
  destruct (P !! take (S i) (path L id)) as [c1|] eqn:Hc1.
  - assert (slot L P heads (take i (path L id)) (byte_of id i) = c1) as ->.
    { unfold slot. by rewrite decide_False, <- HS, Hc1 by lia. }
    assert (c1 <> 0) by (apply (pi_key _ _ _ _ _ _ Hi) in Hc1; lia).
    rewrite (proj2 (Z.eqb_neq c1 NULL)) by done.
    eapply create_post_cons; [apply IH|..]; try done; lia.
  - assert (slot L P heads (take i (path L id)) (byte_of id i) = 0) as ->.
    { eapply slot_inner; [done|lia|]. by rewrite <- HS. }
    rewrite Z.eqb_refl. cbn [negb].
    destruct (pi_pool _ _ _ _ _ _ Hi _ _ Hc) as (pool&Hpool&Hpl&_).
    rewrite (M_bind_ok _ _ _ fresh (mk_ht_state t (<[fresh := replicate 256 0]> pools)
      nodes (fresh + 1) mx)) by done.
    assert (fresh <> c) by (apply (pi_key _ _ _ _ _ _ Hi) in Hc; lia).
    mstep (store_slot_ok t (<[fresh := replicate 256 0]> pools) nodes (fresh + 1) mx c
      (byte_of id i) fresh pool ltac:(by rewrite lookup_insert_ne) Hpl (byte_of_range id i)).
    eapply (create_post_cons _ _ (<[take (S i) (path L id) := fresh]> P)); [apply IH|..].
    + rewrite HS. apply pools_inv_create; rewrite <- ?HS; try done; [lia|].
      apply byte_of_range.
    + lia.
    + lia.
    + by rewrite lookup_insert_eq.
    + by apply insert_subseteq.
    + lia.
    + by rewrite lookup_insert_eq.
Qed.

(** ** The representation invariant *)

Definition heads (E : list entry) (q : list Z) : Z := hd 0 (ptrs (chain L q E)).

Record ht_inv (E : list entry) (P : gmap (list Z) Z) (st : ht_state) : Prop := {
  hi_levels : ht_bucket_levels (st_table st) = Z.of_nat L;
  hi_length : ht_length (st_table st) = u32 (zlen E);
  hi_list : ht_linked_list (st_table st) = hd 0 (ptrs E);
  hi_last : ht_linked_list_last (st_table st) = last_of (ptrs E);
  hi_fresh : 0 < st_fresh st;
  hi_nodes : nodes_inv L E (st_nodes st) (st_fresh st);
  hi_pools : pools_inv L (ht_buckets (st_table st)) P (heads E) (st_pools st) (st_fresh st);
}.

Lemma find_bucket_ok E P t pools nodes fresh mx id :
  (1 <= L <= 8)%nat -> ht_inv E P (mk_ht_state t pools nodes fresh mx) ->
  exists r, ff_hash_table_get_or_create_bucket id false (mk_ht_state t pools nodes fresh mx) =
    Ok (r, mk_ht_state t pools nodes fresh mx) /\
    (fun x => fst x) <$> r = (fun c => (c, byte_of id (L - 1))) <$> P !! take (L - 1) (path L id).
Proof.
  intros HL Hi. pose proof (hi_levels _ _ _ Hi) as Hlv. pose proof (hi_pools _ _ _ Hi) as Hp.
  cbn [st_table st_pools st_fresh] in *.
  unfold ff_hash_table_get_or_create_bucket.
  rewrite (M_bind_ok _ _ _ t (mk_ht_state t pools nodes fresh mx)) by done.
  rewrite Hlv.
  destruct (get_loop_ok _ _ _ t _ nodes _ mx id (L - 1) 0 (ht_buckets t) [] Hp ltac:(lia)
    ltac:(lia) (pi_root _ _ _ _ _ _ Hp)) as (r&Heq&Hr).
  replace (Z.to_nat (Z.of_nat L - 1)) with (L - 1)%nat by lia. mstep Heq.
  destruct r as [[c l]|]; simpl in Hr; rewrite <- Hr.
  - replace (Z.of_nat L - 1) with (Z.of_nat (L - 1)) by lia.
    mstep (hash_ok t pools nodes fresh mx id (L - 1) ltac:(lia)).
    eexists. split; [done|]. done.
  - exists None. done.
Qed.

Lemma create_bucket_ok E P t pools nodes fresh mx id :
  (1 <= L <= 8)%nat -> ht_inv E P (mk_ht_state t pools nodes fresh mx) ->
  exists P' pools' fresh' c stored,
    ff_hash_table_get_or_create_bucket id true (mk_ht_state t pools nodes fresh mx) =
      Ok (Some (c, byte_of id (L - 1), stored), mk_ht_state t pools' nodes fresh' mx) /\
    ht_inv E P' (mk_ht_state t pools' nodes fresh' mx) /\
    P' !! take (L - 1) (path L id) = Some c /\ length stored = (L - 1)%nat /\
    (forall j, (j < L - 1)%nat -> stored !! j = P' !! take (S j) (path L id)).
Proof.
  intros HL Hi. pose proof (hi_levels _ _ _ Hi) as Hlv. pose proof (hi_pools _ _ _ Hi) as Hp.
  pose proof (hi_nodes _ _ _ Hi) as Hnd. pose proof (hi_fresh _ _ _ Hi) as Hf.
  cbn [st_table st_pools st_fresh st_nodes] in *.
  unfold ff_hash_table_get_or_create_bucket.
  rewrite (M_bind_ok _ _ _ t (mk_ht_state t pools nodes fresh mx)) by done.
  rewrite Hlv. replace (Z.to_nat (Z.of_nat L - 1)) with (L - 1)%nat by lia.
  destruct (create_loop_ok _ _ _ t _ nodes _ mx id (L - 1) 0 (ht_buckets t) [] Hp Hf ltac:(lia)
    ltac:(lia) (pi_root _ _ _ _ _ _ Hp))
    as (P'&pools'&fresh'&c&stored&Heq&Hi'&_&Hf'&Hc&Hlen&Hst).
  exists P', pools', fresh', c, stored. mstep Heq.
  replace (Z.of_nat L - 1) with (Z.of_nat (L - 1)) by lia.
  mstep (hash_ok t pools' nodes fresh' mx id (L - 1) ltac:(lia)).
  split_and!; try done. destruct Hi. constructor; cbn in *; try done; [lia|].
  eapply nodes_inv_fresh; eauto.
Qed.

Lemma slot_head P h id : (1 <= L)%nat ->
  slot L P h (take (L - 1) (path L id)) (byte_of id (L - 1)) = h (path L id).
Proof.
  intros HL. unfold slot. rewrite length_take_path, decide_True by lia. by rewrite path_last.
Qed.

Lemma heads_path E q : heads E q <> 0 -> length q = L /\ Forall (fun b => 0 <= b < 256) q.
Proof.
  unfold heads. destruct (chain L q E) as [|e C] eqn:HC; [done|]. intros _.
  assert (e ∈ chain L q E) as [<- _]%chain_in by (rewrite HC; left).
  split; [apply length_path|]. apply Forall_fmap, Forall_forall. intros i _. apply byte_of_range.
Qed.

(** ** Chains *)

(** The abstract view of entries: an association list, oldest first. *)
Definition abs (E : list entry) : list (Z * Z) := map (fun e => (e_id e, e_val e)) E.

Fixpoint assoc_get (id : Z) (A : list (Z * Z)) : Z :=
  match A with
  | [] => NULL
  | (k, v) :: A => if k =? id then v else assoc_get id A
  end.

Lemma assoc_get_notin id A : id ∉ A.*1 -> assoc_get id A = NULL.
Proof.
  induction A as [|[k v] A IH]; intros Hn; [done|]. simpl in *.
  rewrite (proj2 (Z.eqb_neq k id)) by set_solver. apply IH. set_solver.
Qed.

Lemma abs_ids E : (abs E).*1 = map e_id E.
Proof. unfold abs. induction E; simpl; by f_equal. Qed.

Lemma assoc_get_chain E id : assoc_get id (abs (chain L (path L id) E)) = assoc_get id (abs E).
Proof.
  induction E as [|e E IH]; [done|]. unfold chain in *. rewrite filter_cons.
  destruct (decide _) as [|Hne]; simpl.
  - by destruct (e_id e =? id).
  - rewrite (proj2 (Z.eqb_neq (e_id e) id)); [done|]. intros He. apply Hne. by rewrite He.
Qed.

Section chains.
Context (E : list entry) (nodes : gmap Z ff_hash_table_node) (fresh : Z) (id : Z).
Context (Hnodes : nodes_inv L E nodes fresh).
Context (t : ff_hash_table) (pools : gmap Z (list Z)) (fr : Z) (mx : bool).

#[local] Abbreviation st := (mk_ht_state t pools nodes fr mx).
#[local] Abbreviation C := (chain L (path L id) E).

(** A node of the chain: it is live, and it points to the next one. *)
Lemma chain_node C1 e C2 : C = C1 ++ e :: C2 ->
  e ∈ E /\ nodes !! e_ptr e = Some (node_of L E e) /\ e_ptr e <> NULL /\
  n_next (node_of L E e) = hd 0 (ptrs C2) /\
  next_of (e_ptr e) (reverse (chain_of L E e)) = last_of (ptrs C1) /\
  (e_ptr e ∉ ptrs C1).
Proof.
  intros HC. assert (e ∈ C) as Hin by (rewrite HC; set_solver).
  apply chain_in in Hin as [Hpath He].
  assert (chain_of L E e = ptrs C1 ++ e_ptr e :: ptrs C2) as Hch.
  { unfold chain_of. rewrite Hpath, HC. unfold ptrs. by rewrite map_app. }
  assert (NoDup (chain_of L E e)) as Hnd by (apply NoDup_chain; eauto using ni_nodup).
  rewrite Hch in Hnd. pose proof Hnd as (_&Hd&Hnd2)%NoDup_app.
  apply NoDup_cons in Hnd2 as [Hn2 _].
  assert (e_ptr e ∉ ptrs C1) as Hn1 by set_solver.
  split_and!; [done|by apply (ni_node _ _ _ _ Hnodes)| | | |done].
  - apply (ni_range _ _ _ _ Hnodes) in He. unfold NULL. lia.
  - cbn [node_of n_next]. rewrite Hch. by apply next_of_split.
  - rewrite Hch, reverse_app, reverse_cons, <- app_assoc. simpl.
    rewrite next_of_split by (by rewrite elem_of_reverse). done.
Qed.

Lemma get_item_loop_ok fuel C1 e C2 : C = C1 ++ e :: C2 -> (length C2 < fuel)%nat ->
  get_item_loop fuel (e_ptr e) id st = Ok (assoc_get id (abs (e :: C2)), st).
Proof.
  revert C1 e C2. induction fuel as [|fuel IH]; intros C1 e C2 HC Hf; [lia|].
  destruct (chain_node _ _ _ HC) as (He&Hn&H0&Hnext&_). cbn [get_item_loop].
  mstep (load_node_ok t pools nodes fr mx _ _ Hn). rewrite Hnext.
  assert (id ∈ map e_id [e] -> id ∉ map e_id C2) as Hdup.
  { intros Hid. assert (NoDup (map e_id C)) as Hnd
      by (apply NoDup_map_filter; eauto using ni_ids).
    rewrite HC, map_app in Hnd. apply NoDup_app in Hnd as (_&_&Hnd). simpl in *.
    apply NoDup_cons in Hnd as [Hnd _]. set_solver. }
  cbn [node_of n_item_id n_value].
  change (abs (e :: C2)) with ((e_id e, e_val e) :: abs C2). cbn [assoc_get].
  destruct (Z.eqb_spec (e_id e) id) as [Hid|Hid]; cbn [andb].
  2: destruct C2 as [|e2 C2]; [done|].
  - destruct (Z.eqb_spec (e_val e) NULL) as [Hv|Hv]; cbn [negb]; [|done].
    assert (assoc_get id (abs C2) = NULL) as HC2
      by (apply assoc_get_notin; rewrite abs_ids; apply Hdup; simpl; set_solver).
    rewrite Hv. destruct C2 as [|e2 C2]; [done|].
    assert (C = (C1 ++ [e]) ++ e2 :: C2) as HC' by (rewrite <- app_assoc; exact HC).
    destruct (chain_node _ _ _ HC') as (_&_&H2&_). change (hd 0 (ptrs (e2 :: C2))) with (e_ptr e2).
    rewrite (proj2 (Z.eqb_neq (e_ptr e2) NULL)) by done.
    rewrite (IH _ _ _ HC'), HC2 by (simpl in Hf; lia). done.
  - assert (C = (C1 ++ [e]) ++ e2 :: C2) as HC' by (rewrite <- app_assoc; exact HC).
    destruct (chain_node _ _ _ HC') as (_&_&H2&_). change (hd 0 (ptrs (e2 :: C2))) with (e_ptr e2).
    rewrite (proj2 (Z.eqb_neq (e_ptr e2) NULL)) by done.
    apply (IH _ _ _ HC'). simpl in Hf; lia.
Qed.

Lemma chain_hd_null C1 C2 : C = C1 ++ C2 -> hd 0 (ptrs C2) = NULL <-> C2 = [].
Proof.
  destruct C2 as [|e C2]; [done|]. intros HC. split; [|done].
  destruct (chain_node _ _ _ HC) as (_&_&H0&_). done.
Qed.

Lemma put_item_loop_ok fuel C1 C2 last_node : C = C1 ++ C2 -> (length C2 < fuel)%nat ->
  (C1 = [] /\ C2 <> [] \/ last_node = last_of (ptrs C1)) ->
  (id ∉ map e_id C1) ->
  (exists e, e ∈ E /\ e_id e = id /\
    put_item_loop fuel (hd 0 (ptrs C2)) last_node id st = Ok (inl (e_ptr e), st)) \/
  (id ∉ map e_id C) /\
    put_item_loop fuel (hd 0 (ptrs C2)) last_node id st = Ok (inr (last_of (ptrs C)), st).
Proof.
  revert C1 C2 last_node. induction fuel as [|fuel IH]; intros C1 C2 ln HC Hf Hl Hid; [lia|].
  cbn [put_item_loop]. destruct C2 as [|e C2].
  - right. rewrite HC, app_nil_r. split; [done|]. destruct Hl as [[_ ?]| ->]; done.
  - destruct (chain_node _ _ _ HC) as (He&Hn&H0&Hnext&_).
    change (hd 0 (ptrs (e :: C2))) with (e_ptr e).
    rewrite (proj2 (Z.eqb_neq (e_ptr e) NULL)) by done.
    mstep (load_node_ok t pools nodes fr mx _ _ Hn). rewrite Hnext. cbn [node_of n_item_id].
    destruct (Z.eqb_spec (e_id e) id) as [Heq|Hne]; [left; by exists e|].
    apply (IH (C1 ++ [e])).
    + by rewrite <- app_assoc.
    + simpl in Hf. lia.
    + right. by rewrite ptrs_app, last_of_app.
    + rewrite map_app. set_solver.
Qed.

Lemma remove_item_loop_ok fuel pool hash C1 C2 : C = C1 ++ C2 -> (length C2 < fuel)%nat ->
  (id ∉ map e_id C1) ->
  (exists C1' e C2', C = C1' ++ e :: C2' /\ e_id e = id /\
    remove_item_loop fuel pool hash (last_of (ptrs C1)) (hd 0 (ptrs C2)) id st =
      unlink_node pool hash (last_of (ptrs C1')) (e_ptr e) st) \/
  (id ∉ map e_id C) /\
    remove_item_loop fuel pool hash (last_of (ptrs C1)) (hd 0 (ptrs C2)) id st = Ok (tt, st).
Proof.
  revert C1 C2. induction fuel as [|fuel IH]; intros C1 C2 HC Hf Hid; [lia|].
  cbn [remove_item_loop]. destruct C2 as [|e C2].
  - right. by rewrite HC, app_nil_r.
  - destruct (chain_node _ _ _ HC) as (He&Hn&H0&Hnext&_).
    change (hd 0 (ptrs (e :: C2))) with (e_ptr e).
    rewrite (proj2 (Z.eqb_neq (e_ptr e) NULL)) by done.
    rewrite (M_bind_ok _ _ _ _ _ (load_node_ok t pools nodes fr mx _ _ Hn)).
    rewrite Hnext. cbn [node_of n_item_id].
    destruct (Z.eqb_spec (e_id e) id) as [Heq|Hne]; [left; by exists C1, e, C2|].
    replace (e_ptr e) with (last_of (ptrs (C1 ++ [e])))
      by (rewrite ptrs_app; apply last_of_app).
    apply IH.
    + by rewrite <- app_assoc.
    + simpl in Hf. lia.
    + rewrite map_app. set_solver.
Qed.

Lemma id_notin_chain : id ∉ map e_id C -> id ∉ map e_id E.
Proof.
  intros Hn (e&Heq&He)%list_elem_of_fmap. apply Hn, list_elem_of_fmap. exists e.
  split; [done|]. apply chain_in. split; [by rewrite Heq|done].
Qed.

Lemma length_chain : (length C <= size nodes)%nat.
Proof.
  rewrite (nodes_size _ _ _ _ Hnodes). apply length_filter.
Qed.
End chains.

Lemma chain_fuel_ok t pools nodes fr mx :
  chain_fuel (mk_ht_state t pools nodes fr mx) =
    Ok (S (size nodes), mk_ht_state t pools nodes fr mx).
Proof. done. Qed.

(** ** Lookup *)

Lemma get_item_ok E P st id : (1 <= L <= 8)%nat -> ht_inv E P st -> st_mutex st = false ->
  ff_hash_table_get_item id st = Ok (assoc_get id (abs E), st).
Proof.
  intros HL Hi Hm. destruct st as [t pools nodes fresh mx]. simpl in Hm. subst mx.
  assert (ht_inv E P (mk_ht_state t pools nodes fresh true)) as Hi' by (by destruct Hi).
  unfold ff_hash_table_get_item. mstep (mutex_lock_ok t pools nodes fresh false eq_refl).
  destruct (find_bucket_ok E P _ _ _ _ true id HL Hi') as (r&Hr&Hc). mstep Hr.
  pose proof (hi_nodes _ _ _ Hi) as Hn. pose proof (hi_pools _ _ _ Hi) as Hp. cbn in Hn, Hp.
  destruct r as [[[c h] l]|]; simpl in Hc.
  - destruct (P !! take (L - 1) (path L id)) as [c'|] eqn:HP; [|done]. simpl in Hc.
    injection Hc as -> ->.
    pose proof (pool_load _ _ _ _ _ _ _ _ t nodes fresh true Hp HP (byte_of_range id (L - 1)))
      as Hload.
    rewrite slot_head in Hload by lia.
    assert ((nodes0 ← load_slot c' (byte_of id (L - 1));
             if nodes0 =? NULL then mret NULL
             else fuel ← chain_fuel; get_item_loop fuel nodes0 id)
             (mk_ht_state t pools nodes fresh true) =
            Ok (assoc_get id (abs E), mk_ht_state t pools nodes fresh true)) as Heq.
    { mstep Hload. rewrite <- assoc_get_chain. unfold heads.
      destruct (chain L (path L id) E) as [|e C2] eqn:HC; [done|].
      destruct (chain_node _ _ _ _ Hn [] e C2 HC) as (_&_&H0&_).
      change (hd 0 (ptrs (e :: C2))) with (e_ptr e).
      rewrite (proj2 (Z.eqb_neq (e_ptr e) NULL)) by done.
      mstep (chain_fuel_ok t pools nodes fresh true).
      rewrite (get_item_loop_ok _ _ _ _ Hn t pools fresh true _ [] e C2 HC); [done|].
      pose proof (length_chain _ _ _ id Hn) as Hlen. rewrite HC in Hlen. simpl in Hlen. lia. }
    mstep Heq. done.
  - destruct (P !! take (L - 1) (path L id)) eqn:HP; [done|].
    rewrite (M_bind_ok _ _ _ NULL (mk_ht_state t pools nodes fresh true)) by done.
    rewrite <- assoc_get_chain.
    destruct (chain L (path L id) E) as [|e C2] eqn:HC; [done|]. exfalso.
    destruct (chain_node _ _ _ _ Hn [] e C2 HC) as (_&_&H0&_).
    destruct (pi_heads _ _ _ _ _ _ Hp (path L id)) as [? ?]; [|congruence].
    unfold heads. by rewrite HC.
Qed.
End ops.
