(* ===== verification/HashTableUpdate.v ===== *)
(** * The hash table: insertion, removal, iteration, destruction

    The operations that change the table, on the representation of
    [HashTableOps]. *)

From S2P Require Import Prelude Bytes HashTable HashTableRep HashTablePools HashTableOps.

(** The abstract operations. *)
Definition assoc_put (id v : Z) (A : list (Z * Z)) : list (Z * Z) :=
  if bool_decide (id ∈ A.*1)
  then map (fun kv => if kv.1 =? id then (kv.1, v) else kv) A
  else A ++ [(id, v)].

Definition assoc_remove (id : Z) (A : list (Z * Z)) : list (Z * Z) :=
  filter (fun kv => kv.1 <> id) A.

Section update.
Context (L : nat).
Implicit Types (E : list entry) (e : entry).

Lemma id_inj E e e' : NoDup (map e_id E) -> e ∈ E -> e' ∈ E -> e_id e = e_id e' -> e = e'.
Proof.
  induction E as [|x E IH]; intros Hnd He He' Hp; [set_solver|].
  apply NoDup_cons in Hnd as [Hx Hnd].
  apply elem_of_cons in He as [->|He], He' as [->|He']; [done|..|by apply IH];
    exfalso; apply Hx, list_elem_of_fmap; eauto.
Qed.

(** ** Insertion *)

Lemma abs_set_val E e v : NoDup (ptrs E) -> NoDup (map e_id E) -> e ∈ E ->
  abs (map (set_val (e_ptr e) v) E) = assoc_put (e_id e) v (abs E).
Proof.
  intros Hp Hid He. unfold assoc_put. rewrite bool_decide_eq_true_2.
  2: { rewrite abs_ids. apply list_elem_of_fmap. eauto. }
  unfold abs. rewrite !map_map. apply map_ext_in. intros e' He'. apply list_elem_of_In in He'.
  unfold set_val. simpl. destruct (decide (e_ptr e' = e_ptr e)) as [Heq|Hne]; simpl.
  - assert (e' = e) as -> by eauto using ptr_inj. by rewrite Z.eqb_refl.
  - rewrite (proj2 (Z.eqb_neq _ _)); [done|]. intros Heq. apply Hne.
    by rewrite (id_inj E e' e).
Qed.

Lemma heads_set_val E p v q : heads L (map (set_val p v) E) q = heads L E q.
Proof. unfold heads. by rewrite chain_set_val, ptrs_set_val. Qed.

Lemma heads_app E e q :
  heads L (E ++ [e]) q =
    if decide (path L (e_id e) = q /\ chain L q E = []) then e_ptr e else heads L E q.
Proof.
  unfold heads. rewrite chain_app.
  destruct (decide (path L (e_id e) = q)) as [Hq|Hq].
  - destruct (chain L q E) as [|e' C] eqn:HC; simpl.
    + by rewrite decide_True.
    + by rewrite decide_False by naive_solver.
  - rewrite app_nil_r. by rewrite decide_False by naive_solver.
Qed.

(** The new node at the end of its chain. *)
Lemma link_chain_ok root P E e t pools nodes fresh mx c : (1 <= L)%nat ->
  pools_inv L root P (heads L E) pools fresh -> nodes_inv L E nodes fresh ->
  P !! take (L - 1) (path L (e_id e)) = Some c -> e_ptr e = fresh -> 0 < fresh ->
  let last := last_of (chain_of L E e) in
  let nodes1 := <[e_ptr e := mk_ht_node (e_id e) (e_val e) 0 0 0]> nodes in
  exists pools',
    link_chain c (byte_of (e_id e) (L - 1)) last (e_ptr e)
      (mk_ht_state t pools nodes1 (fresh + 1) mx) =
      Ok (tt, mk_ht_state t pools' (alter (set_n_next (e_ptr e)) last nodes1) (fresh + 1) mx) /\
    pools_inv L root P (heads L (E ++ [e])) pools' (fresh + 1).
Proof.
  intros HL Hp Hn Hc He Hf last nodes1. unfold link_chain.
  apply (pools_inv_fresh L _ _ _ _ _ (fresh + 1)) in Hp; [|lia].
  destruct (chain L (path L (e_id e)) E) as [|e1 C] eqn:HC.
  - assert (last = 0) as -> by (unfold last, chain_of; by rewrite HC).
    rewrite Z.eqb_refl.
    destruct (pi_pool _ _ _ _ _ _ Hp _ _ Hc) as (pool&Hpool&Hlen&_).
    assert (e_ptr e = heads L (E ++ [e]) (path L (e_id e))) as Hh
      by (rewrite heads_app, decide_True; done).
    eexists. split.
    + rewrite (store_slot_ok t pools nodes1 (fresh + 1) mx c _ _ pool Hpool Hlen
        (byte_of_range _ _)). do 3 f_equal.
      symmetry. apply alter_id. intros x. unfold nodes1.
      rewrite lookup_insert_ne, (nodes_none _ _ _ _ _ Hn) by (done || lia || eauto using nodes_null).
      done.
    + pose proof (pools_inv_head L root P (heads L E) (heads L (E ++ [e])) pools (fresh + 1)
        _ (byte_of (e_id e) (L - 1)) c pool Hp Hc Hpool) as Hnew.
      rewrite path_last, <- Hh, length_take_path in Hnew by lia.
      apply Hnew; [lia|apply byte_of_range|].
      intros q Hq. rewrite heads_app, decide_False; [done|]. naive_solver.
  - assert (last ∈ ptrs E) as Hin.
    { apply (ptrs_chain_sub L (path L (e_id e))). apply last_of_in. by rewrite HC. }
    pose proof Hin as (e'&He'&Hl)%ptrs_in.
    rewrite (proj2 (Z.eqb_neq _ _)) by (intros H0; rewrite H0 in Hin; by eapply nodes_null).
    exists pools. split.
    + eapply modify_node_ok. unfold nodes1. rewrite lookup_insert_ne.
      * rewrite <- Hl. by apply (ni_node _ _ _ _ Hn).
      * rewrite <- Hl. apply (ni_range _ _ _ _ Hn) in He'. lia.
    + eapply pools_inv_ext; [done|]. intros q. rewrite heads_app, decide_False; [done|].
      intros [<- ?]. congruence.
Qed.

(** The new node at the end of the list. *)
Lemma link_list_ok E e nodes0 nodes t pools fresh mx :
  nodes_inv L E nodes0 fresh -> e_ptr e = fresh -> 0 < fresh ->
  ht_linked_list t = hd 0 (ptrs E) -> ht_linked_list_last t = last_of (ptrs E) ->
  (forall e', e' ∈ E -> is_Some (nodes !! e_ptr e')) -> nodes !! 0 = None ->
  nodes !! e_ptr e = Some (mk_ht_node (e_id e) (e_val e) 0 0 0) ->
  link_list (e_ptr e)
    (mk_ht_state t pools nodes (fresh + 1) mx) =
  Ok (tt, mk_ht_state
            (mk_hash_table (ht_prefix_bit_length t) (ht_bucket_levels t) (ht_length t)
               (ht_buckets t) (hd 0 (ptrs (E ++ [e]))) (last_of (ptrs (E ++ [e])))) pools
            (alter (set_n_next_in_list (e_ptr e)) (last_of (ptrs E))
              (alter (set_n_prev_in_list (last_of (ptrs E))) (e_ptr e) nodes)) (fresh + 1) mx).
Proof.
  intros Hn He Hf Hll Hlast Hlive H0 Hnew. rewrite ptrs_app, last_of_app. unfold link_list.
  rewrite (M_bind_ok _ _ _ t (mk_ht_state t pools nodes (fresh + 1) mx)) by done.
  destruct E as [|e1 E].
  - rewrite Hll. unfold set_table. cbn. do 3 f_equal.
    rewrite !alter_id; [done|..].
    + intros x Hx. rewrite Hnew in Hx. by injection Hx as <-.
    + intros x. rewrite lookup_alter_ne, H0 by lia. done.
  - set (E1 := e1 :: E) in *.
    assert (last_of (ptrs E1) ∈ ptrs E1) as Hin by (by apply last_of_in).
    pose proof (nodes_null _ _ _ _ Hn) as Hnull.
    assert (hd 0 (ptrs E1) = e_ptr e1) as Hhd by done.
    assert (e_ptr e1 <> 0) by (intros Hz; apply Hnull; rewrite <- Hz; apply ptrs_in; exists e1;
      split; [left|done]).
    rewrite Hll, Hhd, (proj2 (Z.eqb_neq (e_ptr e1) NULL)) by done.
    mstep (modify_node_ok t pools nodes (fresh + 1) mx _
      (set_n_prev_in_list (ht_linked_list_last t)) _ Hnew).
    rewrite Hlast. apply ptrs_in in Hin as (e'&He'&Hl). rewrite <- Hl.
    destruct (Hlive e' He') as [nd Hnd].
    assert (e_ptr e <> e_ptr e') by (apply (ni_range _ _ _ _ Hn) in He'; lia).
    erewrite M_bind_ok; [|eapply modify_node_ok; by rewrite lookup_alter_ne]. done.
Qed.

Lemma put_new_ok E P t pools nodes fresh mx id v c : (1 <= L <= 8)%nat ->
  ht_inv L E P (mk_ht_state t pools nodes fresh mx) -> (id ∉ map e_id E) ->
  P !! take (L - 1) (path L id) = Some c ->
  let e := mk_entry fresh id v in
  let last_node := last_of (ptrs (chain L (path L id) E)) in
  exists t' pools' nodes',
    put_new_item c (byte_of id (L - 1)) last_node id v (mk_ht_state t pools nodes fresh mx) =
      Ok (tt, mk_ht_state t' pools' nodes' (fresh + 1) mx) /\
    ht_inv L (E ++ [e]) P (mk_ht_state t' pools' nodes' (fresh + 1) mx).
Proof.
  intros HL [Hlv Hlen Hll Hlast Hf Hn Hp] Hid Hc e last_node. cbn in *. unfold put_new_item.
  set (nodes1 := <[fresh := mk_ht_node id v 0 0 0]> nodes).
  rewrite (M_bind_ok _ _ _ fresh (mk_ht_state t pools nodes1 (fresh + 1) mx)) by done.
  destruct (link_chain_ok _ P E e t pools nodes fresh mx c ltac:(lia) Hp Hn Hc eq_refl Hf)
    as (pools'&Hchain&Hp'). mstep Hchain.
  pose proof (nodes_null _ _ _ _ Hn) as H0.
  erewrite M_bind_ok.
  2: { apply (link_list_ok E e nodes _ t pools' fresh mx Hn eq_refl Hf Hll Hlast).
       - intros e' He'. rewrite lookup_alter_is_Some, lookup_insert_is_Some'. right.
         rewrite (ni_node _ _ _ _ Hn e' He'). eauto.
       - apply lookup_alter_None. rewrite lookup_insert_ne by (simpl; lia).
         by eapply nodes_none.
       - rewrite lookup_alter_ne, lookup_insert_eq; [done|]. simpl.
         destruct (last_of_sub (chain_of L E e)) as [[_ ->]|Hin]; [lia|].
         apply ptrs_chain_sub in Hin as (e'&He'&<-)%ptrs_in.
         apply (ni_range _ _ _ _ Hn) in He'. lia. }
  do 3 eexists. split; [done|]. constructor; cbn; try done.
  - rewrite Hlen. unfold u32, zlen. rewrite length_app, Zplus_mod_idemp_l. f_equal. simpl. lia.
  - lia.
  - by apply (nodes_inv_app L E e).
Qed.

Lemma abs_app E e : abs (E ++ [e]) = abs E ++ [(e_id e, e_val e)].
Proof. unfold abs. by rewrite map_app. Qed.

Lemma put_item_ok E P st id v : (1 <= L <= 8)%nat -> ht_inv L E P st -> st_mutex st = false ->
  exists E' P' st', ff_hash_table_put_item id v st = Ok (tt, st') /\
    ht_inv L E' P' st' /\ st_mutex st' = false /\ abs E' = assoc_put id v (abs E).
Proof.
  intros HL Hi Hm. destruct st as [t pools nodes fresh mx]. simpl in Hm. subst mx.
  assert (ht_inv L E P (mk_ht_state t pools nodes fresh true)) as Hi' by (by destruct Hi).
  unfold ff_hash_table_put_item. mstep (mutex_lock_ok t pools nodes fresh false eq_refl).
  destruct (create_bucket_ok L E P _ _ _ _ true id HL Hi')
    as (P'&pools'&fresh'&c&stored&Heq&Hi2&Hc&_&_). mstep Heq. clear Hi Hi' Heq.
  pose proof (hi_nodes _ _ _ _ Hi2) as Hn. pose proof (hi_pools _ _ _ _ Hi2) as Hp. cbn in Hn, Hp.
  pose proof (pool_load _ _ _ _ _ _ _ _ _ t nodes fresh' true Hp Hc (byte_of_range id (L - 1)))
    as Hload.
  rewrite slot_head in Hload by lia.
  unfold mbind at 1, M_bind at 1. mstep Hload.
  mstep (chain_fuel_ok t pools' nodes fresh' true). unfold heads.
  destruct (put_item_loop_ok L E nodes fresh' id Hn t pools' fresh' true (S (size nodes)) []
    (chain L (path L id) E) (hd 0 (ptrs (chain L (path L id) E)))) as [(e&He&Hid&Hloop)|[Hid Hloop]].
  - done.
  - pose proof (length_chain L E nodes fresh' id Hn). lia.
  - destruct (chain L (path L id) E); [by right|by left].
  - set_solver.
  - mstep Hloop. pose proof (ni_node _ _ _ _ Hn e He) as Hnd.
    rewrite (modify_node_ok _ _ _ _ _ _ _ _ Hnd).
    exists (map (set_val (e_ptr e) v) E), P'. eexists. split; [done|].
    destruct Hi2 as [Hlv Hlen Hll Hlast Hf _ _]. cbn in *. split_and!.
    + constructor; cbn; try done; [|by rewrite ptrs_set_val..| |].
      * rewrite Hlen. unfold zlen. by rewrite length_map.
      * by apply nodes_inv_set_val.
      * eapply pools_inv_ext; [done|]. apply heads_set_val.
    + done.
    + rewrite <- Hid. apply abs_set_val; eauto using ni_nodup, ni_ids.
  - mstep Hloop. apply id_notin_chain in Hid.
    destruct (put_new_ok E P' t pools' nodes fresh' true id v c HL Hi2 Hid Hc)
      as (t'&pools2&nodes'&Hnew&Hi3).
    rewrite Hnew.
    exists (E ++ [mk_entry fresh' id v]), P'. eexists. split; [done|]. split_and!; [|done|].
    + by destruct Hi3.
    + rewrite abs_app. unfold assoc_put. rewrite bool_decide_eq_false_2; [done|].
      by rewrite abs_ids.
Qed.

(** ** Removal *)

(** An assignment through a pointer that may be null. *)
Lemma modify_if_ok t pools nodes fresh mx p f :
  nodes !! 0 = None -> (p = 0 \/ is_Some (nodes !! p)) ->
  (if negb (p =? NULL) then modify_node p f else mret tt) (mk_ht_state t pools nodes fresh mx) =
    Ok (tt, mk_ht_state t pools (alter f p nodes) fresh mx).
Proof.
  intros H0 [->|[nd Hp]].
  - simpl. rewrite alter_id; [done|]. intros x Hx. congruence.
  - assert (p <> 0) by congruence. rewrite (proj2 (Z.eqb_neq p NULL)) by done.
    by eapply modify_node_ok.
Qed.

Lemma heads_remove E e q : NoDup (ptrs E) -> 0 ∉ ptrs E -> e ∈ E ->
  heads L (remove_ptr (e_ptr e) E) q =
    if decide (heads L E q = e_ptr e) then n_next (node_of L E e) else heads L E q.
Proof.
  intros Hnd H0 He. unfold heads. rewrite chain_remove, ptrs_remove.
  assert (e_ptr e <> 0) by (intros Hz; apply H0, ptrs_in; eauto).
  rewrite hd_filter_ne; [|by apply NoDup_chain|done].
  destruct (decide _) as [Heq|]; [|done]. cbn [node_of n_next]. unfold chain_of.
  destruct (chain L q E) as [|e1 C] eqn:HC; simpl in Heq; [done|].
  assert (e1 ∈ chain L q E) as [Hq He1]%chain_in by (rewrite HC; left).
  assert (e1 = e) as -> by eauto using ptr_inj. by rewrite Hq, HC.
Qed.

Lemma length_remove E e : NoDup (ptrs E) -> e ∈ E ->
  length E = S (length (remove_ptr (e_ptr e) E)).
Proof.
  unfold remove_ptr, ptrs. induction E as [|e1 E IH]; intros Hnd He; [set_solver|].
  apply NoDup_cons in Hnd as [Hn Hnd]. rewrite filter_cons.
  destruct (decide (e_ptr e1 <> e_ptr e)) as [Hne|Heq]; simpl; f_equal.
  - apply IH; [done|]. apply elem_of_cons in He as [->|?]; done.
  - rewrite list_filter_id; [done|]. intros e' He' Hp. apply Hn.
    apply ptrs_in. exists e'. split; [done|]. apply dec_stable in Heq. congruence.
Qed.

Lemma u32_remove (n m : nat) : n = S m -> u32 (u32 (Z.of_nat n) - 1) = u32 (Z.of_nat m).
Proof.
  intros ->. unfold u32. rewrite Zminus_mod_idemp_l. f_equal. lia.
Qed.

(** The first assignment of the match: the chain without the node. *)
Lemma unlink_chain_ok root P E t pools nodes fresh mx id c C1 e C2 : (1 <= L)%nat ->
  pools_inv L root P (heads L E) pools fresh -> nodes_inv L E nodes fresh ->
  P !! take (L - 1) (path L id) = Some c ->
  chain L (path L id) E = C1 ++ e :: C2 ->
  exists pools',
    (if negb (last_of (ptrs C1) =? NULL)
     then modify_node (last_of (ptrs C1)) (set_n_next (n_next (node_of L E e)))
     else store_slot c (byte_of id (L - 1)) (n_next (node_of L E e)))
      (mk_ht_state t pools nodes fresh mx) =
      Ok (tt, mk_ht_state t pools'
                (alter (set_n_next (n_next (node_of L E e))) (last_of (ptrs C1)) nodes) fresh mx) /\
    pools_inv L root P (heads L (remove_ptr (e_ptr e) E)) pools' fresh.
Proof.
  intros HL Hp Hn Hc HC. pose proof (nodes_null _ _ _ _ Hn) as H0.
  pose proof (ni_nodup _ _ _ _ Hn) as Hnd.
  destruct (chain_node _ _ _ _ id Hn _ _ _ HC) as (He&Hnode&Hz&Hnext&Hprev&Hfst).
  assert (path L (e_id e) = path L id) as Hpe.
  { assert (e ∈ chain L (path L id) E) as [? _]%chain_in by (rewrite HC; set_solver). done. }
  destruct C1 as [|e1 C1].
  - change (last_of (ptrs [])) with 0. rewrite Z.eqb_refl. cbn [negb].
    destruct (pi_pool _ _ _ _ _ _ Hp _ _ Hc) as (pool&Hpool&Hlen&_).
    eexists. split.
    + rewrite (store_slot_ok t pools nodes fresh mx c _ _ pool Hpool Hlen
        (byte_of_range _ _)). do 3 f_equal.
      symmetry. apply alter_id. intros x. by rewrite (nodes_none _ _ _ _ _ Hn).
    + pose proof (pools_inv_head L root P (heads L E) (heads L (remove_ptr (e_ptr e) E)) pools
        fresh _ (byte_of id (L - 1)) c pool Hp Hc Hpool) as Hnew.
      rewrite path_last, length_take_path, heads_remove in Hnew by (lia || done).
      rewrite decide_True in Hnew by (unfold heads; by rewrite HC).
      apply Hnew; [lia|apply byte_of_range|].
      intros q Hq. rewrite heads_remove, decide_False; [done| |done..].
      unfold heads. intros Hh. destruct (chain L q E) as [|e' C] eqn:HC'; [done|].
      assert (e' ∈ chain L q E) as [Hq' He']%chain_in by (rewrite HC'; left).
      assert (e' = e) as -> by eauto using ptr_inj. congruence.
  - assert (last_of (ptrs (e1 :: C1)) ∈ ptrs E) as Hin.
    { apply (ptrs_chain_sub L (path L id)). rewrite HC. unfold ptrs. rewrite map_app.
      apply elem_of_app. left. by apply last_of_in. }
    pose proof Hin as (e'&He'&Hl)%ptrs_in. rewrite <- Hl.
    rewrite (proj2 (Z.eqb_neq _ _)) by (rewrite Hl; intros Hx; rewrite Hx in Hin; done).
    exists pools. split; [eapply modify_node_ok; by apply (ni_node _ _ _ _ Hn)|].
    eapply pools_inv_ext; [done|]. intros q.
    rewrite heads_remove, decide_False; [done| |done..]. unfold heads. intros Hh.
    destruct (chain L q E) as [|e2 C] eqn:HC'; [done|].
    assert (e2 ∈ chain L q E) as [Hq' He2]%chain_in by (rewrite HC'; left).
    assert (e2 = e) as -> by eauto using ptr_inj.
    rewrite <- Hq', Hpe, HC in HC'. injection HC' as -> _. apply Hfst. left.
Qed.

Lemma unlink_ok E P t pools nodes fresh mx id c C1 e C2 : (1 <= L <= 8)%nat ->
  ht_inv L E P (mk_ht_state t pools nodes fresh mx) ->
  P !! take (L - 1) (path L id) = Some c ->
  chain L (path L id) E = C1 ++ e :: C2 ->
  exists t' pools' nodes',
    unlink_node c (byte_of id (L - 1)) (last_of (ptrs C1)) (e_ptr e)
      (mk_ht_state t pools nodes fresh mx) = Ok (tt, mk_ht_state t' pools' nodes' fresh mx) /\
    ht_buckets t' = ht_buckets t /\
    ht_inv L (remove_ptr (e_ptr e) E) P (mk_ht_state t' pools' nodes' fresh mx).
Proof.
  intros HL [Hlv Hlen Hll Hlast Hf Hn Hp] Hc HC. cbn in *.
  pose proof (nodes_null _ _ _ _ Hn) as H0. pose proof (ni_nodup _ _ _ _ Hn) as Hnd.
  destruct (chain_node _ _ _ _ id Hn _ _ _ HC) as (He&Hnode&Hz&Hnext&Hprev&Hfst).
  set (d := e_ptr e) in *. set (nd := node_of L E e) in *.
  assert (nodes !! 0 = None) as Hnone by (by eapply nodes_none).
  assert (NoDup (reverse (ptrs E))) as Hrd by (by rewrite reverse_Permutation).
  assert (forall p, p = 0 \/ p ∈ ptrs E -> p = 0 \/ is_Some (nodes !! p)) as Hlive.
  { intros p [->|(e'&He'&<-)%ptrs_in]; [by left|right].
    rewrite (ni_node _ _ _ _ Hn e' He'). eauto. }
  assert (n_prev_in_list nd = 0 \/ is_Some (nodes !! n_prev_in_list nd)) as Hlp.
  { apply Hlive. destruct (next_of_in d (reverse (ptrs E))) as [|Hin]; [by left|right].
    by rewrite elem_of_reverse in Hin. }
  assert (n_next_in_list nd = 0 \/ is_Some (nodes !! n_next_in_list nd)) as Hln
    by (apply Hlive, next_of_in).
  assert (n_prev_in_list nd <> d) as Hpd by (by apply next_of_ne).
  assert (n_next_in_list nd <> d) as Hnxd by (by apply next_of_ne).
  assert (last_of (ptrs C1) <> d) as Hld.
  { destruct (last_of_sub (ptrs C1)) as [[_ ->]|Hin]; [done|]. intros Hx. congruence. }
  unfold unlink_node. mstep (load_node_ok t pools nodes fresh mx d nd Hnode).
  destruct (unlink_chain_ok _ P E t pools nodes fresh mx id c C1 e C2 ltac:(lia) Hp Hn Hc HC)
    as (pools'&Hchain&Hp'). mstep Hchain. fold nd.
  erewrite M_bind_ok; [|apply load_node_ok; by rewrite lookup_alter_ne].
  erewrite M_bind_ok.
  2: { apply modify_if_ok; [by apply lookup_alter_None|].
       destruct Hlp as [?|Hlp]; [by left|right]. by rewrite lookup_alter_is_Some. }
  erewrite M_bind_ok; [|apply load_node_ok; by rewrite !lookup_alter_ne].
  erewrite M_bind_ok.
  2: { apply modify_if_ok; [by rewrite !lookup_alter_None|].
       destruct Hln as [?|Hln]; [by left|right]. by rewrite !lookup_alter_is_Some. }
  erewrite M_bind_ok; [|apply load_node_ok; by rewrite !lookup_alter_ne].
  erewrite M_bind_ok; [|reflexivity]. erewrite M_bind_ok; [|reflexivity].
  cbn [st_table st_pools st_nodes st_fresh st_mutex].
  rewrite free_node_ok by (rewrite !lookup_alter_is_Some; eauto).
  do 3 eexists. split; [done|]. split; [done|]. constructor; cbn; try done.
  - rewrite Hlen. apply u32_remove. by apply length_remove.
  - rewrite Hll, ptrs_remove, hd_filter_ne by done. fold d.
    destruct (Z.eqb_spec (hd 0 (ptrs E)) d), (decide (hd 0 (ptrs E) = d)); done.
  - rewrite Hlast, ptrs_remove, last_of_filter by done. fold d.
    destruct (Z.eqb_spec (last_of (ptrs E)) d), (decide (last_of (ptrs E) = d)); done.
  - pose proof (nodes_inv_remove L E e nodes fresh Hn He) as Hr. unfold remove_nodes in Hr.
    fold d nd in Hr. rewrite Hprev in Hr. exact Hr.
Qed.

(** ** Clearing the empty pools of a path *)

Lemma scan_pool_ok root P h pools fresh p c t nodes fr mx n i :
  pools_inv L root P h pools fresh -> P !! p = Some c -> 0 <= i -> i + Z.of_nat n = 256 ->
  exists b, scan_pool n i c (mk_ht_state t pools nodes fr mx) =
      Ok (b, mk_ht_state t pools nodes fr mx) /\
    (b = true <-> forall b', i <= b' < 256 -> slot L P h p b' = 0).
Proof.
  intros Hp Hc. revert i. induction n as [|n IH]; intros i Hi Hn.
  - exists true. split; [done|]. split; [|done]. intros _ b' ?. lia.
  - cbn [scan_pool].
    mstep (pool_load _ _ _ _ _ _ _ _ i t nodes fr mx Hp Hc ltac:(lia)).
    destruct (Z.eqb_spec (slot L P h p i) NULL) as [Hs|Hs]; cbn [negb].
    + destruct (IH (i + 1) ltac:(lia) ltac:(lia)) as (b&Hb&Hall). exists b. split; [done|].
      rewrite Hall. split; [|intros Ha b' ?; apply Ha; lia].
      intros Ha b' Hb'. destruct (decide (b' = i)) as [->|]; [done|]. apply Ha. lia.
    + exists false. split; [done|]. split; [done|]. intros Ha. exfalso. apply Hs, Ha. lia.
Qed.

Lemma clear_loop_ok E fuel P t pools nodes fresh mx id bl (l : nat) :
  (2 <= L <= 8)%nat -> ht_inv L E P (mk_ht_state t pools nodes fresh mx) ->
  (l <= L - 2)%nat -> (l < fuel)%nat -> is_Some (P !! take (S l) (path L id)) ->
  (forall j, (j <= l)%nat -> bl !! j = P !! take (S j) (path L id)) ->
  exists P' pools', clear_loop fuel (Z.of_nat l) id bl (mk_ht_state t pools nodes fresh mx) =
      Ok (tt, mk_ht_state t pools' nodes fresh mx) /\
    ht_inv L E P' (mk_ht_state t pools' nodes fresh mx).
Proof.
  intros HL. revert P pools l. induction fuel as [|fuel IH];
    intros P pools l Hi Hl Hf [c Hc] Hbl; [lia|].
  pose proof (hi_pools _ _ _ _ Hi) as Hp. cbn in Hp. cbn [clear_loop].
  pose proof (take_path_S L id l ltac:(lia)) as HS.
  assert (nth_bucket bl (Z.of_nat l) (mk_ht_state t pools nodes fresh mx) =
    Ok (c, mk_ht_state t pools nodes fresh mx)) as Hnth.
  { unfold nth_bucket. rewrite Nat2Z.id, Hbl, Hc by lia. done. }
  mstep Hnth. mstep (hash_ok t pools nodes fresh mx id l ltac:(lia)).
  destruct (scan_pool_ok _ _ _ _ _ _ _ t nodes fresh mx 256 0 Hp Hc ltac:(lia) ltac:(lia))
    as (b&Hscan&Hb).
  change (Z.to_nat FF_BUCKET_POOL_LENGTH) with 256%nat. mstep Hscan.
  destruct b; cbn [negb]; [|by exists P, pools].
  assert (is_Some (pools !! c)) as Hlive
    by (destruct (pi_pool _ _ _ _ _ _ Hp _ _ Hc) as (?&?&_); eauto).
  mstep (free_pool_ok t pools nodes fresh mx c Hlive).
  (* the parent of the freed pool *)
  assert (is_Some (P !! take l (path L id))) as [par Hpar]
    by (eapply (pools_take_prefix L _ _ _ _ _ _ l (S l)); [done|lia|eauto]).
  destruct (pi_pool _ _ _ _ _ _ Hp _ _ Hpar) as (pool&Hpool&Hlen&_).
  assert (c <> par) as Hne.
  { intros ->. pose proof (pi_inj _ _ _ _ _ _ Hp _ _ _ Hc Hpar) as Heq.
    apply (f_equal length) in Heq. rewrite !length_take_path in Heq by lia. lia. }
  pose proof (store_slot_ok t (delete c pools) nodes fresh mx par (byte_of id l) NULL pool
    ltac:(by rewrite lookup_delete_ne) Hlen (byte_of_range id l)) as Hstore.
  assert (pools_inv L (ht_buckets t) (delete (take (S l) (path L id)) P) (heads L E)
    (<[par := <[Z.to_nat (byte_of id l) := NULL]> pool]> (delete c pools)) fresh) as Hp'.
  { rewrite HS. eapply pools_inv_delete; try done; rewrite <- ?HS; try done.
    - by apply Hb.
    - apply byte_of_range.
    - apply heads_path. }
  destruct l as [|l].
  - simpl (Z.of_nat 0 =? 0). cbv iota. erewrite M_bind_ok; [|reflexivity].
    cbn [st_table]. rewrite take_0, (pi_root _ _ _ _ _ _ Hp) in Hpar. injection Hpar as Hpar.
    rewrite Hpar, Hstore. do 2 eexists. split; [done|]. by destruct Hi.
  - rewrite (proj2 (Z.eqb_neq (Z.of_nat (S l)) 0)) by lia.
    replace (Z.of_nat (S l) - 1) with (Z.of_nat l) by lia.
    assert (nth_bucket bl (Z.of_nat l) (mk_ht_state t (delete c pools) nodes fresh mx) =
      Ok (par, mk_ht_state t (delete c pools) nodes fresh mx)) as Hnth'.
    { unfold nth_bucket. rewrite Nat2Z.id, Hbl, Hpar by lia. done. }
    mstep Hnth'. mstep Hstore.
    assert (u8 (Z.of_nat l) = Z.of_nat l) as -> by (apply u8_small; lia).
    apply (IH (delete (take (S (S l)) (path L id)) P)); [by destruct Hi|lia..| |].
    + rewrite lookup_delete_ne; [eauto|]. intros Heq. apply (f_equal length) in Heq.
      rewrite !length_take_path in Heq by lia. lia.
    + intros j Hj. rewrite lookup_delete_ne; [apply Hbl; lia|]. intros Heq.
      apply (f_equal length) in Heq. rewrite !length_take_path in Heq by lia. lia.
Qed.

Lemma abs_remove E e : NoDup (ptrs E) -> NoDup (map e_id E) -> e ∈ E ->
  abs (remove_ptr (e_ptr e) E) = assoc_remove (e_id e) (abs E).
Proof.
  intros Hp Hid He. unfold remove_ptr, assoc_remove, abs.
  assert (forall E', (forall e', e' ∈ E' -> e' ∈ E) ->
    map (fun e => (e_id e, e_val e)) (filter (fun e' => e_ptr e' <> e_ptr e) E') =
    filter (fun kv => kv.1 <> e_id e) (map (fun e => (e_id e, e_val e)) E')) as Hgen;
    [|by apply Hgen].
  induction E' as [|e' E' IH]; intros Hsub; [done|]. rewrite map_cons, !filter_cons. simpl.
  assert (e' ∈ E) as He' by (apply Hsub; left).
  rewrite <- IH by (intros e2 ?; apply Hsub; by right).
  destruct (decide (e_ptr e' <> e_ptr e)) as [Hne|Heq].
  - rewrite decide_True; [done|]. intros Heq. apply Hne. by rewrite (id_inj E e' e).
  - apply dec_stable in Heq. assert (e' = e) as -> by eauto using ptr_inj.
    by rewrite decide_False by naive_solver.
Qed.

Lemma abs_remove_notin id E : id ∉ map e_id E -> assoc_remove id (abs E) = abs E.
Proof.
  intros Hn. apply list_filter_id. intros kv Hkv Heq. apply Hn.
  rewrite <- abs_ids, <- Heq. by apply list_elem_of_fmap_2.
Qed.

Lemma remove_loop_ok E P t pools nodes fresh mx id c : (1 <= L <= 8)%nat ->
  ht_inv L E P (mk_ht_state t pools nodes fresh mx) ->
  P !! take (L - 1) (path L id) = Some c ->
  exists E' t' pools' nodes',
    remove_item_loop (S (size nodes)) c (byte_of id (L - 1)) NULL (heads L E (path L id)) id
      (mk_ht_state t pools nodes fresh mx) = Ok (tt, mk_ht_state t' pools' nodes' fresh mx) /\
    ht_buckets t' = ht_buckets t /\
    ht_inv L E' P (mk_ht_state t' pools' nodes' fresh mx) /\
    abs E' = assoc_remove id (abs E).
Proof.
  intros HL Hi Hc. pose proof (hi_nodes _ _ _ _ Hi) as Hn. cbn in Hn.
  destruct (remove_item_loop_ok L E nodes fresh id Hn t pools fresh mx (S (size nodes)) c
    (byte_of id (L - 1)) [] (chain L (path L id) E)) as [(C1&e&C2&HC&Hid&Hloop)|[Hid Hloop]].
  - done.
  - pose proof (length_chain L E nodes fresh id Hn). lia.
  - set_solver.
  - destruct (unlink_ok E P t pools nodes fresh mx id c C1 e C2 HL Hi Hc HC)
      as (t'&pools'&nodes'&Hu&Hb&Hi').
    exists (remove_ptr (e_ptr e) E), t', pools', nodes'. split; [etrans; [exact Hloop|done]|].
    split_and!; [done..|]. rewrite <- Hid.
    apply abs_remove; eauto using ni_nodup, ni_ids. 
    assert (e ∈ chain L (path L id) E) as [_ ?]%chain_in by (rewrite HC; set_solver). done.
  - exists E, t, pools, nodes. split; [exact Hloop|]. split_and!; [done..|].
    symmetry. apply abs_remove_notin. by eapply id_notin_chain.
Qed.

Lemma remove_item_ok E P st id : (2 <= L <= 8)%nat -> ht_inv L E P st -> st_mutex st = false ->
  exists E' P' st', ff_hash_table_remove_item id st = Ok (tt, st') /\
    ht_inv L E' P' st' /\ st_mutex st' = false /\ abs E' = assoc_remove id (abs E).
Proof.
  intros HL Hi Hm. destruct st as [t pools nodes fresh mx]. simpl in Hm. subst mx.
  assert (ht_inv L E P (mk_ht_state t pools nodes fresh true)) as Hi' by (by destruct Hi).
  unfold ff_hash_table_remove_item. mstep (mutex_lock_ok t pools nodes fresh false eq_refl).
  erewrite M_bind_ok; [|reflexivity]. cbn [st_table].
  destruct (create_bucket_ok L E P _ _ _ _ true id ltac:(lia) Hi')
    as (P1&pools1&fresh1&c&stored&Heq&Hi1&Hc&Hlen&Hst). mstep Heq. clear Hi Hi' Heq.
  pose proof (hi_pools _ _ _ _ Hi1) as Hp. pose proof (hi_levels _ _ _ _ Hi1) as Hlv. cbn in Hp, Hlv.
  pose proof (pool_load _ _ _ _ _ _ _ _ _ t nodes fresh1 true Hp Hc (byte_of_range id (L - 1)))
    as Hload.
  rewrite slot_head in Hload by lia.
  unfold mbind at 1, M_bind at 1. mstep Hload.
  destruct (Z.eqb_spec (heads L E (path L id)) NULL) as [Hh|Hh].
  { exists E, P1, (mk_ht_state t pools1 nodes fresh1 false).
    split; [done|]. split; [by destruct Hi1|]. split; [done|].
    symmetry. apply abs_remove_notin. apply (id_notin_chain L).
    unfold heads in Hh. apply (chain_hd_null L E nodes fresh1 id (hi_nodes _ _ _ _ Hi1) []) in Hh;
      [|done]. rewrite Hh. set_solver. }
  mstep (chain_fuel_ok t pools1 nodes fresh1 true).
  destruct (remove_loop_ok E P1 t pools1 nodes fresh1 true id c ltac:(lia) Hi1 Hc)
    as (E'&t'&pools'&nodes'&Hloop&_&Hi2&Habs). mstep Hloop.
  pose proof (hi_pools _ _ _ _ Hi2) as Hp2. cbn in Hp2.
  pose proof (pool_load _ _ _ _ _ _ _ _ _ t' nodes' fresh1 true Hp2 Hc
    (byte_of_range id (L - 1))) as Hload2.
  rewrite slot_head in Hload2 by lia. mstep Hload2.
  destruct (_ =? NULL).
  - rewrite Hlv, Nat2Z.id.
    assert (u8 (Z.of_nat L - 2) = Z.of_nat (L - 2)) as -> by (rewrite u8_small; lia).
    destruct (clear_loop_ok E' L P1 t' pools' nodes' fresh1 true id
      (stored ++ replicate (L - length stored) NULL) (L - 2) HL Hi2) as (P2&pools2&Hclr&Hi3).
    + lia.
    + lia.
    + replace (S (L - 2)) with (L - 1)%nat by lia. eauto.
    + intros j Hj. rewrite lookup_app_l by lia. apply Hst. lia.
    + rewrite Hclr. exists E', P2. eexists. split; [done|]. split; [by destruct Hi3|done].
  - exists E', P1. eexists. split; [done|]. split; [by destruct Hi2|done].
Qed.

(** ** Creation *)

Lemma init_ok (prefix : Z) : (1 <= L <= 8)%nat -> prefix / 8 = Z.of_nat L ->
  exists P st, ff_hash_table_init prefix = Ok st /\ ht_inv L [] P st /\ st_mutex st = false.
Proof.
  intros HL Hpre. unfold ff_hash_table_init.
  assert (0 < prefix) as Hpos.
  { destruct (Z.leb_spec prefix 0); [|done].
    assert (prefix / 8 <= 0) by (apply Z.div_le_upper_bound; lia). lia. }
  rewrite (proj2 (Z.leb_gt prefix 0)) by done.
  exists {[ [] := 1 ]}. eexists. split; [done|]. split; [|done].
  constructor; cbn; try done.
  - unfold FF_BUCKET_POOL_BITS. rewrite Hpre. apply u8_small. lia.
  - eapply nodes_inv_fresh; [apply nodes_inv_empty|lia].
  - apply (pools_inv_init L). lia.
Qed.
End update.
