(* ===== verification/HashTableFree.v ===== *)
(** * The hash table: destruction

    [ff_hash_table_free] releases every pool and every node of the table,
    each once. *)

From S2P Require Import Prelude Bytes HashTable HashTableRep HashTablePools HashTableOps.

Section free.
Context (L : nat) (HL : (1 <= L <= 8)%nat).
Context (E : list entry) (P : gmap (list Z) Z) (st0 : ht_state).
Context (Hinv : ht_inv L E P st0).

#[local] Abbreviation pools0 := (st_pools st0).
#[local] Abbreviation nodes0 := (st_nodes st0).

(** [pools'] and [nodes'] are [pools] and [nodes] without the blocks of the
    paths of [S]. *)
Record freed (S : list Z -> Prop) (pools pools' : gmap Z (list Z))
    (nodes nodes' : gmap Z ff_hash_table_node) : Prop := {
  fr_pool : forall q x, S q -> P !! q = Some x -> pools' !! x = None;
  fr_pool_ne : forall x, (forall q, S q -> P !! q <> Some x) -> pools' !! x = pools !! x;
  fr_node : forall e, e ∈ E -> S (path L (e_id e)) -> nodes' !! e_ptr e = None;
  fr_node_ne : forall x, (forall e, e ∈ E -> S (path L (e_id e)) -> e_ptr e <> x) ->
    nodes' !! x = nodes !! x;
}.

(** The blocks of the paths of [S] are as they were. *)
Record intact (S : list Z -> Prop) (pools : gmap Z (list Z))
    (nodes : gmap Z ff_hash_table_node) : Prop := {
  in_pool : forall q x, S q -> P !! q = Some x -> pools !! x = pools0 !! x;
  in_node : forall e, e ∈ E -> S (path L (e_id e)) -> nodes !! e_ptr e = nodes0 !! e_ptr e;
}.

Lemma freed_empty S pools nodes :
  (forall q, S q -> P !! q = None) -> (forall e, e ∈ E -> ~ S (path L (e_id e))) ->
  freed S pools pools nodes nodes.
Proof.
  intros HP HE. constructor; try done.
  - intros q x Hq. by rewrite HP.
  - intros e He Hs. by destruct (HE e He).
Qed.

Lemma freed_app S1 S2 S pools pools1 pools2 nodes nodes1 nodes2 :
  freed S1 pools pools1 nodes nodes1 -> freed S2 pools1 pools2 nodes1 nodes2 ->
  (forall q, S q <-> S1 q \/ S2 q) -> (forall q, S1 q -> S2 q -> False) ->
  freed S pools pools2 nodes nodes2.
Proof.
  intros H1 H2 HS Hd. pose proof (hi_pools _ _ _ _ Hinv) as Hp.
  pose proof (ni_nodup _ _ _ _ (hi_nodes _ _ _ _ Hinv)) as Hnd.
  constructor.
  - intros q x [Hq|Hq]%HS HP; [|by eapply fr_pool].
    rewrite (fr_pool_ne _ _ _ _ _ H2); [by eapply fr_pool|].
    intros q' Hq' HP'. rewrite (pi_inj _ _ _ _ _ _ Hp _ _ _ HP' HP) in Hq'. eauto.
  - intros x Hx. rewrite (fr_pool_ne _ _ _ _ _ H2), (fr_pool_ne _ _ _ _ _ H1); [done|..];
      intros q Hq; apply Hx, HS; auto.
  - intros e He [Hq|Hq]%HS; [|by eapply fr_node].
    rewrite (fr_node_ne _ _ _ _ _ H2); [by eapply fr_node|].
    intros e' He' Hq' Heq. rewrite (ptr_inj E e' e) in Hq' by done. eauto.
  - intros x Hx. rewrite (fr_node_ne _ _ _ _ _ H2), (fr_node_ne _ _ _ _ _ H1); [done|..];
      intros e He Hq; apply Hx; [done|apply HS; auto|done|apply HS; auto].
Qed.

Lemma intact_freed S S' pools pools' nodes nodes' :
  intact S' pools nodes -> freed S pools pools' nodes nodes' ->
  (forall q, S q -> S' q -> False) -> intact S' pools' nodes'.
Proof.
  intros Hi Hf Hd. pose proof (hi_pools _ _ _ _ Hinv) as Hp.
  pose proof (ni_nodup _ _ _ _ (hi_nodes _ _ _ _ Hinv)) as Hnd. constructor.
  - intros q x Hq HP. rewrite (fr_pool_ne _ _ _ _ _ Hf); [by eapply in_pool|].
    intros q' Hq' HP'. rewrite (pi_inj _ _ _ _ _ _ Hp _ _ _ HP' HP) in Hq'. eauto.
  - intros e He Hq. rewrite (fr_node_ne _ _ _ _ _ Hf); [by eapply in_node|].
    intros e' He' Hq' Heq. rewrite (ptr_inj E e' e) in Hq' by done. eauto.
Qed.

Lemma intact_sub S S' pools nodes :
  intact S pools nodes -> (forall q, S' q -> S q) -> intact S' pools nodes.
Proof. intros [H1 H2] Hs. constructor; eauto. Qed.

(** ** Chains *)

Lemma free_chain_ok q t pools nodes fresh mx fuel C1 C2 :
  chain L q E = C1 ++ C2 -> (length C2 < fuel)%nat ->
  (forall e, e ∈ C2 -> nodes !! e_ptr e = nodes0 !! e_ptr e) ->
  exists nodes', free_chain fuel (hd 0 (ptrs C2)) (mk_ht_state t pools nodes fresh mx) =
      Ok (tt, mk_ht_state t pools nodes' fresh mx) /\
    (forall e, e ∈ C2 -> nodes' !! e_ptr e = None) /\
    (forall x, (x ∉ ptrs C2) -> nodes' !! x = nodes !! x).
Proof.
  revert nodes C1 C2. induction fuel as [|fuel IH]; intros nodes C1 C2 HC Hf Hlive; [lia|].
  pose proof (hi_nodes _ _ _ _ Hinv) as Hn.
  destruct C2 as [|e C2]; cbn [free_chain].
  { exists nodes. split; [done|]. split; [set_solver|done]. }
  assert (e ∈ chain L q E) as [Hq He]%chain_in by (rewrite HC; set_solver).
  rewrite <- Hq in HC.
  destruct (chain_node _ _ _ _ (e_id e) Hn _ _ _ HC) as (_&Hnode&H0&Hnext&_&_).
  change (hd 0 (ptrs (e :: C2))) with (e_ptr e).
  rewrite (proj2 (Z.eqb_neq (e_ptr e) NULL)) by done.
  assert (nodes !! e_ptr e = Some (node_of L E e)) as Hl by (rewrite Hlive; [done|left]).
  mstep (load_node_ok t pools nodes fresh mx _ _ Hl).
  mstep (free_node_ok t pools nodes fresh mx (e_ptr e) ltac:(eauto)). rewrite Hnext.
  assert (e_ptr e ∉ ptrs C2) as Hnin.
  { pose proof (NoDup_chain L (path L (e_id e)) _ (ni_nodup _ _ _ _ Hn)) as Hnd.
    rewrite HC in Hnd. unfold ptrs in *. rewrite map_app in Hnd.
    apply NoDup_app in Hnd as (_&_&Hnd). by apply NoDup_cons in Hnd as [? _]. }
  rewrite Hq in HC.
  destruct (IH (delete (e_ptr e) nodes) (C1 ++ [e]) C2) as (nodes'&Heq&Hd&Hk).
  - by rewrite <- app_assoc.
  - simpl in Hf. lia.
  - intros e' He'. rewrite lookup_delete_ne; [apply Hlive; by right|].
    intros Heq. apply Hnin. rewrite Heq. apply ptrs_in; eauto.
  - exists nodes'. split; [done|]. split.
    + intros e' [->|He']%elem_of_cons; [|by apply Hd].
      rewrite Hk by done. apply lookup_delete_eq.
    + intros x Hx. unfold ptrs in Hx. cbn in Hx.
      rewrite Hk by set_solver. apply lookup_delete_ne. set_solver.
Qed.

Lemma chain_live_size q (nodes : gmap Z ff_hash_table_node) :
  (forall e, e ∈ chain L q E -> is_Some (nodes !! e_ptr e)) ->
  (length (chain L q E) <= size nodes)%nat.
Proof.
  intros Hl. rewrite <- size_dom.
  replace (length (chain L q E)) with (size (list_to_set (ptrs (chain L q E)) : gset Z)).
  - apply subseteq_size. intros x (e&He&<-)%elem_of_list_to_set%ptrs_in.
    apply elem_of_dom. eauto.
  - rewrite size_list_to_set; [unfold ptrs; by rewrite length_map|].
    apply NoDup_chain. apply (ni_nodup _ _ _ _ (hi_nodes _ _ _ _ Hinv)).
Qed.

(** ** Subtrees *)

Definition below (p q : list Z) : Prop := p `prefix_of` q.

(** The paths through the slots of [p] from [i] on. *)
Definition below_from (p : list Z) (i : Z) (q : list Z) : Prop :=
  exists b, i <= b < 256 /\ below (p ++ [b]) q.

Lemma below_inj p b b' q : below (p ++ [b]) q -> below (p ++ [b']) q -> b = b'.
Proof.
  intros [r ->] [r' Heq]. rewrite <- !app_assoc in Heq. apply app_inv_head in Heq.
  by injection Heq.
Qed.

Lemma below_refl p : below p p.
Proof. exists []. by rewrite app_nil_r. Qed.

Lemma below_self p b : ~ below (p ++ [b]) p.
Proof.
  intros [r Heq]. apply (f_equal length) in Heq. rewrite !length_app in Heq. simpl in Heq. lia.
Qed.

Lemma path_bytes id : Forall (fun b => 0 <= b < 256) (path L id).
Proof. apply Forall_fmap, Forall_forall. intros i _. apply byte_of_range. Qed.

(** An empty slot has nothing below it. *)
Lemma below_empty p b c : P !! p = Some c ->
  slot L P (heads L E) p b = 0 ->
  (forall q, below (p ++ [b]) q -> P !! q = None) /\
  (forall e, e ∈ E -> ~ below (p ++ [b]) (path L (e_id e))).
Proof.
  intros Hc Hs. pose proof (hi_pools _ _ _ _ Hinv) as Hp.
  destruct (pi_key _ _ _ _ _ _ Hp _ _ Hc) as (Hlen&_&_).
  assert (forall e, e ∈ E -> heads L E (path L (e_id e)) <> 0) as Hhead.
  { intros e He. unfold heads.
    destruct (chain L (path L (e_id e)) E) as [|e' C] eqn:HC.
    - assert (e ∈ chain L (path L (e_id e)) E) as Hin by (by apply chain_in).
      rewrite HC in Hin. set_solver.
    - by destruct (chain_node _ _ _ _ _ (hi_nodes _ _ _ _ Hinv) [] e' C HC) as (_&_&?&_). }
  unfold slot in Hs. destruct (decide (S (length p) = L)) as [Hleaf|Hinner].
  - split.
    + intros q [r ->]. destruct (P !! ((p ++ [b]) ++ r)) as [x|] eqn:Hq; [|done].
      destruct (pi_key _ _ _ _ _ _ Hp _ _ Hq) as (Hl&_&_).
      rewrite !length_app in Hl. simpl in Hl. lia.
    + intros e He [r Hr]. apply (Hhead e He).
      assert (r = []) as ->.
      { apply (f_equal length) in Hr. rewrite length_path, !length_app in Hr. simpl in Hr.
        destruct r; [done|simpl in Hr; lia]. }
      rewrite app_nil_r in Hr. by rewrite Hr.
  - destruct (P !! (p ++ [b])) as [c'|] eqn:Hc'; simpl in Hs.
    { apply (pi_key _ _ _ _ _ _ Hp) in Hc'. lia. }
    split.
    + intros q [r ->]. destruct (P !! ((p ++ [b]) ++ r)) eqn:Hq; [|done].
      destruct (pools_prefix L _ _ _ _ _ (p ++ [b]) r Hp) as [? ?]; [eauto|congruence].
    + intros e He [r Hr]. pose proof (pi_heads _ _ _ _ _ _ Hp _ (Hhead e He)) as Hs'.
      destruct (pools_take_prefix L _ _ _ _ _ _ (S (length p)) (L - 1) Hp ltac:(lia) Hs')
        as [x Hx]. rewrite Hr, take_app_length' in Hx.
      * congruence.
      * rewrite length_app. simpl. lia.
Qed.

(** What the loop over the buckets of [p] asks of its body. *)
Definition frees_slots (p : list Z) (f : Z -> M unit) : Prop :=
  forall b t pools nodes fresh mx, 0 <= b < 256 -> slot L P (heads L E) p b <> 0 ->
    intact (below (p ++ [b])) pools nodes ->
    exists pools' nodes',
      f (slot L P (heads L E) p b) (mk_ht_state t pools nodes fresh mx) =
        Ok (tt, mk_ht_state t pools' nodes' fresh mx) /\
      freed (below (p ++ [b])) pools pools' nodes nodes'.

Lemma for_buckets_ok p c f : P !! p = Some c -> frees_slots p f ->
  forall n i t pools nodes fresh mx, 0 <= i -> i + Z.of_nat n = 256 ->
  pools !! c = pools0 !! c -> intact (below_from p i) pools nodes ->
  exists pools' nodes', for_buckets n i c f (mk_ht_state t pools nodes fresh mx) =
      Ok (tt, mk_ht_state t pools' nodes' fresh mx) /\
    freed (below_from p i) pools pools' nodes nodes'.
Proof.
  intros Hc Hf. pose proof (hi_pools _ _ _ _ Hinv) as Hp.
  destruct (pi_pool _ _ _ _ _ _ Hp _ _ Hc) as (pool&Hpool&_&Hslots).
  induction n as [|n IH]; intros i t pools nodes fresh mx Hi Hn Hpc Hin; cbn [for_buckets].
  { exists pools, nodes. split; [done|].
    apply freed_empty; [intros q|intros e _]; intros (b&?&_); lia. }
  assert (load_slot c i (mk_ht_state t pools nodes fresh mx) =
    Ok (slot L P (heads L E) p i, mk_ht_state t pools nodes fresh mx)) as Hload.
  { eapply load_slot_ok; [by rewrite Hpc|done|]. apply Hslots. lia. }
  mstep Hload.
  assert (exists pools1 nodes1,
    (if negb (slot L P (heads L E) p i =? NULL) then f (slot L P (heads L E) p i) else mret tt)
      (mk_ht_state t pools nodes fresh mx) = Ok (tt, mk_ht_state t pools1 nodes1 fresh mx) /\
    freed (below (p ++ [i])) pools pools1 nodes nodes1) as (pools1&nodes1&Hstep&Hf1).
  { destruct (Z.eqb_spec (slot L P (heads L E) p i) NULL) as [Hz|Hz]; cbn [negb].
    - exists pools, nodes. split; [done|].
      destruct (below_empty p i c Hc Hz) as [? ?]. by apply freed_empty.
    - apply Hf; [lia|done|]. eapply intact_sub; [done|]. intros q Hq. exists i. split; [lia|done]. }
  mstep Hstep.
  assert (forall q, below (p ++ [i]) q -> below_from p (i + 1) q -> False) as Hdisj.
  { intros q Hq (b&Hb&Hq'). pose proof (below_inj _ _ _ _ Hq Hq'). lia. }
  destruct (IH (i + 1) t pools1 nodes1 fresh mx) as (pools'&nodes'&Heq&Hf2); [lia|lia|..].
  - rewrite (fr_pool_ne _ _ _ _ _ Hf1); [done|]. intros q Hq HP.
    rewrite (pi_inj _ _ _ _ _ _ Hp _ _ _ HP Hc) in Hq. by eapply below_self.
  - eapply intact_freed; [|done|done]. eapply intact_sub; [done|].
    intros q (b&Hb&Hq). exists b. split; [lia|done].
  - exists pools', nodes'. split; [done|]. eapply freed_app; [done|done| |done].
    intros q. split.
    + intros (b&Hb&Hq). destruct (decide (b = i)) as [->|]; [by left|right].
      exists b. split; [lia|done].
    + intros [Hq|(b&Hb&Hq)]; [exists i|exists b]; (split; [lia|done]).
Qed.

Lemma freed_ext S S' pools pools' nodes nodes' :
  freed S pools pools' nodes nodes' ->
  (forall q, Forall (fun b => 0 <= b < 256) q -> S q <-> S' q) ->
  freed S' pools pools' nodes nodes'.
Proof.
  intros [H1 H2 H3 H4] HS. pose proof (hi_pools _ _ _ _ Hinv) as Hp.
  assert (forall q x, P !! q = Some x -> S q <-> S' q) as HP
    by (intros q x Hq; apply HS; by apply (pi_key _ _ _ _ _ _ Hp _ _ Hq)).
  assert (forall id, S (path L id) <-> S' (path L id)) as HE by (intros; apply HS, path_bytes).
  constructor.
  - intros q x Hq Hx. eapply H1; [by eapply HP|done].
  - intros x Hx. apply H2. intros q Hq Hx'. eapply Hx; [by eapply HP|done].
  - intros e He Hs. apply H3; [done|]. by apply HE.
  - intros x Hx. apply H4. intros e He Hs. apply Hx; [done|]. by apply HE.
Qed.

Lemma free_chains_slots p c : P !! p = Some c -> S (length p) = L ->
  frees_slots p (fun node => fuel ← chain_fuel; free_chain fuel node).
Proof.
  intros Hc Hlen b t pools nodes fresh mx Hb Hs Hin.
  pose proof (hi_pools _ _ _ _ Hinv) as Hp. pose proof (hi_nodes _ _ _ _ Hinv) as Hn.
  unfold slot in *. rewrite decide_True in * by done.
  assert (forall e, e ∈ chain L (p ++ [b]) E -> nodes !! e_ptr e = nodes0 !! e_ptr e) as Hlive.
  { intros e [Hq He]%chain_in. apply (in_node _ _ _ Hin); [done|]. by rewrite Hq. }
  mstep (chain_fuel_ok t pools nodes fresh mx).
  destruct (free_chain_ok (p ++ [b]) t pools nodes fresh mx (S (size nodes)) []
    (chain L (p ++ [b]) E)) as (nodes'&Heq&Hd&Hk); [done| |done|].
  { pose proof (chain_live_size (p ++ [b]) nodes) as Hsz.
    assert (length (chain L (p ++ [b]) E) <= size nodes)%nat; [|lia]. apply Hsz.
    intros e He. rewrite Hlive by done. apply chain_in in He as [_ He].
    rewrite (ni_node _ _ _ _ Hn e He). eauto. }
  exists pools, nodes'. split; [exact Heq|]. constructor.
  - intros q x [r ->] Hq. destruct (pi_key _ _ _ _ _ _ Hp _ _ Hq) as (Hl&_&_).
    rewrite !length_app in Hl. simpl in Hl. lia.
  - done.
  - intros e He [r Hr]. apply Hd, chain_in. split; [|done].
    assert (r = []) as ->; [|by rewrite app_nil_r in Hr].
    apply (f_equal length) in Hr. rewrite length_path, !length_app in Hr. simpl in Hr.
    destruct r; [done|simpl in Hr; lia].
  - intros x Hx. apply Hk. intros (e&[Hq He]%chain_in&Heqx)%ptrs_in.
    eapply Hx; [done| |done]. by rewrite Hq.
Qed.

Lemma free_pool_freed p c t pools pools' nodes nodes' fresh mx :
  P !! p = Some c -> pools !! c = pools0 !! c ->
  freed (below_from p 0) pools pools' nodes nodes' ->
  exists pools2, free_pool c (mk_ht_state t pools' nodes' fresh mx) =
      Ok (tt, mk_ht_state t pools2 nodes' fresh mx) /\
    freed (below p) pools pools2 nodes nodes'.
Proof.
  intros Hc Hpc Hf. pose proof (hi_pools _ _ _ _ Hinv) as Hp.
  destruct (pi_pool _ _ _ _ _ _ Hp _ _ Hc) as (pool&Hpool&_).
  destruct (pi_key _ _ _ _ _ _ Hp _ _ Hc) as (Hlen&_&_).
  assert (is_Some (pools' !! c)) as Hlive.
  { rewrite (fr_pool_ne _ _ _ _ _ Hf), Hpc, Hpool; [eauto|]. intros q (b&_&Hq) HP.
    rewrite (pi_inj _ _ _ _ _ _ Hp _ _ _ HP Hc) in Hq. by eapply below_self. }
  exists (delete c pools'). split; [by apply free_pool_ok|].
  assert (freed (fun q => q = p) pools' (delete c pools') nodes' nodes') as Hf2.
  { constructor.
    - intros q x -> Hx. rewrite Hc in Hx. injection Hx as <-. apply lookup_delete_eq.
    - intros x Hx. apply lookup_delete_ne. intros <-. by apply (Hx p).
    - intros e He Heq. exfalso. apply (f_equal length) in Heq. rewrite length_path in Heq. lia.
    - done. }
  eapply freed_ext; [eapply (freed_app _ _ (fun q => below_from p 0 q \/ q = p)); [done|done|done|]|].
  - intros q (b&_&Hq) ->. by eapply below_self.
  - intros q Hq. split.
    + intros [(b&_&[r ->])| ->]; [|apply below_refl]. exists (b :: r). by rewrite <- app_assoc.
    + intros [[|b r] ->]; [right; by rewrite app_nil_r|left]. exists b.
      apply Forall_app in Hq as [_ Hq]. apply Forall_cons in Hq as [Hq _]. split; [exact Hq|].
      exists r. by rewrite <- app_assoc.
Qed.

Lemma free_bucket_level_ok n : forall p c t pools nodes fresh mx,
  P !! p = Some c -> (length p + S n = L)%nat -> intact (below p) pools nodes ->
  exists pools' nodes',
    ff_hash_table_free_bucket_level (S n) c (mk_ht_state t pools nodes fresh mx) =
      Ok (tt, mk_ht_state t pools' nodes' fresh mx) /\
    freed (below p) pools pools' nodes nodes'.
Proof.
  induction n as [|n IH]; intros p c t pools nodes fresh mx Hc Hlen Hin.
  all: assert (pools !! c = pools0 !! c) as Hpc by (eapply (in_pool _ _ _ Hin); [apply below_refl|done]).
  all: assert (intact (below_from p 0) pools nodes) as Hin0 by
    (eapply intact_sub; [done|]; intros q (b&_&[r ->]); exists (b :: r); by rewrite <- app_assoc).
  - destruct (for_buckets_ok p c _ Hc (free_chains_slots p c Hc ltac:(lia)) 256 0 t pools nodes
      fresh mx ltac:(lia) ltac:(lia) Hpc Hin0) as (pools1&nodes1&Hloop&Hf).
    destruct (free_pool_freed p c t pools pools1 nodes nodes1 fresh mx Hc Hpc Hf)
      as (pools2&Hfree&Hf2).
    exists pools2, nodes1. split; [|done]. cbn [ff_hash_table_free_bucket_level].
    change (Z.to_nat FF_BUCKET_POOL_LENGTH) with 256%nat. mstep Hloop. exact Hfree.
  - assert (frees_slots p (fun child => ff_hash_table_free_bucket_level (S n) child)) as Hsl.
    { intros b t' pools' nodes' fresh' mx' Hb Hs Hin'. unfold slot in *.
      rewrite decide_False in * by lia.
      destruct (P !! (p ++ [b])) as [c'|] eqn:Hc'; [|done]. cbn [default] in *.
      apply IH; [done| |done]. rewrite length_app. simpl. lia. }
    destruct (for_buckets_ok p c _ Hc Hsl 256 0 t pools nodes
      fresh mx ltac:(lia) ltac:(lia) Hpc Hin0) as (pools1&nodes1&Hloop&Hf).
    destruct (free_pool_freed p c t pools pools1 nodes nodes1 fresh mx Hc Hpc Hf)
      as (pools2&Hfree&Hf2).
    exists pools2, nodes1. split; [|done].
    change (ff_hash_table_free_bucket_level (S (S n)) c)
      with (_ ← for_buckets (Z.to_nat FF_BUCKET_POOL_LENGTH) 0 c
              (fun child => ff_hash_table_free_bucket_level (S n) child); free_pool c).
    change (Z.to_nat FF_BUCKET_POOL_LENGTH) with 256%nat. mstep Hloop. exact Hfree.
Qed.

(** Nothing is left. *)
Lemma free_ok : exists st', ff_hash_table_free st0 = Ok (tt, st') /\
  st_pools st' = ∅ /\ st_nodes st' = ∅.
Proof.
  pose proof (hi_pools _ _ _ _ Hinv) as Hp. pose proof (hi_nodes _ _ _ _ Hinv) as Hn.
  pose proof (hi_levels _ _ _ _ Hinv) as Hlv.
  destruct (free_bucket_level_ok (L - 1) [] (ht_buckets (st_table st0)) (st_table st0)
    pools0 nodes0 (st_fresh st0) (st_mutex st0) (pi_root _ _ _ _ _ _ Hp))
    as (pools'&nodes'&Heq&Hf); [simpl; lia|by constructor|].
  exists (mk_ht_state (st_table st0) pools' nodes' (st_fresh st0) (st_mutex st0)). split_and!.
  - unfold ff_hash_table_free. erewrite M_bind_ok; [|reflexivity]. rewrite Hlv, Nat2Z.id.
    replace L with (S (L - 1)) at 1 by lia. destruct st0. exact Heq.
  - apply map_eq. intros x. rewrite lookup_empty. cbn [st_pools].
    destruct (pools0 !! x) eqn:Hx.
    + destruct (pi_dom _ _ _ _ _ _ Hp x) as [q Hq]; [eauto|].
      eapply (fr_pool _ _ _ _ _ Hf); [by exists q|done].
    + rewrite (fr_pool_ne _ _ _ _ _ Hf); [done|]. intros q _ Hq.
      destruct (pi_pool _ _ _ _ _ _ Hp _ _ Hq) as (?&?&_). congruence.
  - apply map_eq. intros x. rewrite lookup_empty. cbn [st_nodes].
    destruct (nodes0 !! x) eqn:Hx.
    + destruct (nodes_lookup _ _ _ _ _ _ Hn Hx) as (e&He&<-&_).
      eapply (fr_node _ _ _ _ _ Hf); [done|]. by exists (path L (e_id e)).
    + rewrite (fr_node_ne _ _ _ _ _ Hf); [done|]. intros e He _ Hq.
      pose proof (ni_node _ _ _ _ Hn e He). congruence.
Qed.
End free.
