(* ===== verification/HashTableSpec.v ===== *)
(** * The hash table: its contract

    [RequestTable] is what the server relies on: a finite map from request
    ids to pointers that remembers the order of insertion.  The table of
    [HashTable] with two to eight levels implements it. *)

From S2P Require Import Prelude Bytes HashTable HashTableRep HashTablePools HashTableOps.
From S2P Require Import HashTableUpdate HashTableFree.

(** ** The interface *)

Class RequestTable (T : Type) : Type := {
  tbl_iterator : Type;
  tbl_get : Z -> T -> res (Z * T);
  tbl_put : Z -> Z -> T -> res (unit * T);
  tbl_remove : Z -> T -> res (unit * T);
  tbl_length : T -> Z;
  tbl_iter_init : T -> res (tbl_iterator * T);
  tbl_iter_next : tbl_iterator -> T -> res ((Z * tbl_iterator) * T);
  tbl_iter_free : T -> res (unit * T);
  tbl_free : T -> res (unit * T);
  (** the table holds the pairs [A], oldest first *)
  tbl_rep : list (Z * Z) -> T -> Prop;
  (** an iterator of a table that holds [A], before the pairs [r] *)
  tbl_iter_rep : list (Z * Z) -> list (Z * Z) -> tbl_iterator -> T -> Prop;
}.

Class RequestTableLaws (T : Type) `{!RequestTable T} : Prop := {
  tbl_rep_nodup A (t : T) : tbl_rep A t -> NoDup A.*1;
  tbl_get_ok A (t : T) id : tbl_rep A t -> tbl_get id t = Ok (assoc_get id A, t);
  tbl_put_ok A (t : T) id v : tbl_rep A t ->
    exists t', tbl_put id v t = Ok (tt, t') /\ tbl_rep (assoc_put id v A) t';
  tbl_remove_ok A (t : T) id : tbl_rep A t ->
    exists t', tbl_remove id t = Ok (tt, t') /\ tbl_rep (assoc_remove id A) t';
  tbl_length_ok A (t : T) : tbl_rep A t -> tbl_length t = u32 (zlen A);
  tbl_iter_init_ok A (t : T) : tbl_rep A t ->
    exists i t', tbl_iter_init t = Ok (i, t') /\ tbl_iter_rep A A i t';
  tbl_iter_length_ok A r i (t : T) : tbl_iter_rep A r i t -> tbl_length t = u32 (zlen A);
  tbl_iter_next_ok A k v r i (t : T) : tbl_iter_rep A ((k, v) :: r) i t ->
    exists i', tbl_iter_next i t = Ok ((v, i'), t) /\ tbl_iter_rep A r i' t;
  tbl_iter_end_ok A i (t : T) : tbl_iter_rep A [] i t ->
    exists i', tbl_iter_next i t = Ok ((NULL, i'), t) /\ tbl_iter_rep A [] i' t;
  tbl_iter_free_ok A r i (t : T) : tbl_iter_rep A r i t ->
    exists t', tbl_iter_free t = Ok (tt, t') /\ tbl_rep A t';
  tbl_free_ok A (t : T) : tbl_rep A t -> exists t', tbl_free t = Ok (tt, t');
}.

(** ** Iteration over the representation *)

Section iteration.
Context (L : nat).

(** The iterator will next return the entries [r] of [E]. *)
Definition iter_at (E r : list entry) (it : ff_hash_table_iterator) : Prop :=
  it_started it = false /\ r = E \/
  it_started it = true /\ r = [] /\ it_current_node it = NULL \/
  it_started it = true /\ exists E1 e, E = E1 ++ e :: r /\ it_current_node it = e_ptr e.

Lemma iter_next_ok E P st it e r :
  ht_inv L E P st -> iter_at E (e :: r) it ->
  exists it', ff_hash_table_iterator_next it st = Ok ((e_val e, it'), st) /\ iter_at E r it'.
Proof.
  destruct st as [t pools nodes fresh mx].
  intros [Hlv Hlen Hll Hlast Hf Hn Hp] Hat. cbn in *.
  exists (mk_iterator (e_ptr e) true).
  assert (exists E1, E = E1 ++ e :: r) as [E1 HE].
  { destruct Hat as [(_&<-)|[(_&?&_)|(_&E1&e1&->&_)]]; [by exists []|done|].
    exists (E1 ++ [e1]). by rewrite <- app_assoc. }
  assert (e ∈ E) as He by (rewrite HE; set_solver).
  pose proof (ni_node _ _ _ _ Hn e He) as Hnode.
  assert (e_ptr e <> NULL) by (apply (ni_range _ _ _ _ Hn) in He; unfold NULL; lia).
  split; [|right; right; split; [done|]; by exists E1, e].
  unfold ff_hash_table_iterator_next.
  assert ((if negb (it_started it) then t0 ← get_table; mret (ht_linked_list t0)
           else if negb (it_current_node it =? NULL)
           then nd ← load_node (it_current_node it); mret (n_next_in_list nd)
           else mret (it_current_node it)) (mk_ht_state t pools nodes fresh mx) =
          Ok (e_ptr e, mk_ht_state t pools nodes fresh mx)) as Hcur.
  { destruct Hat as [(->&<-)|[(_&?&_)|(->&E2&e1&HE2&->)]]; [|done|].
    - cbn. erewrite M_bind_ok; [|reflexivity]. cbn [st_table]. rewrite Hll. done.
    - assert (e1 ∈ E) as He1 by (rewrite HE2; set_solver).
      pose proof (ni_range _ _ _ _ Hn e1 He1) as Hr.
      cbn [negb]. rewrite (proj2 (Z.eqb_neq (e_ptr e1) NULL)) by (unfold NULL; lia).
      cbn [negb]. mstep (load_node_ok t pools nodes fresh mx _ _ (ni_node _ _ _ _ Hn e1 He1)).
      cbn [node_of n_next_in_list]. unfold mret, M_ret. do 2 f_equal.
      pose proof (ni_nodup _ _ _ _ Hn) as Hnd. rewrite HE2 in Hnd |- *.
      unfold ptrs in *. rewrite map_app in *. cbn [map] in *. rewrite next_of_split; [done|].
      apply NoDup_app in Hnd. set_solver. }
  mstep Hcur. cbv zeta. rewrite (proj2 (Z.eqb_neq (e_ptr e) NULL)) by done.
  mstep (load_node_ok t pools nodes fresh mx _ _ Hnode). done.
Qed.

Lemma iter_end_ok E P st it :
  ht_inv L E P st -> iter_at E [] it ->
  exists it', ff_hash_table_iterator_next it st = Ok ((NULL, it'), st) /\ iter_at E [] it'.
Proof.
  destruct st as [t pools nodes fresh mx].
  intros [Hlv Hlen Hll Hlast Hf Hn Hp] Hat. cbn in *.
  exists (mk_iterator NULL true). split; [|right; left; done].
  unfold ff_hash_table_iterator_next.
  destruct Hat as [(->&<-)|[(->&_&->)|(->&E2&e1&HE2&->)]].
  - cbn. erewrite M_bind_ok; [|unfold mbind, M_bind; cbn; rewrite Hll; reflexivity]. done.
  - done.
  - assert (e1 ∈ E) as He1 by (rewrite HE2; set_solver).
    pose proof (ni_range _ _ _ _ Hn e1 He1) as Hr.
    cbn [negb]. rewrite (proj2 (Z.eqb_neq (e_ptr e1) NULL)) by (unfold NULL; lia). cbn [negb].
    assert (n_next_in_list (node_of L E e1) = NULL) as Hnext.
    { cbn. pose proof (ni_nodup _ _ _ _ Hn) as Hnd. rewrite HE2 in Hnd |- *.
      rewrite ptrs_app in *. rewrite next_of_split; [done|]. apply NoDup_app in Hnd. set_solver. }
    erewrite M_bind_ok; [|mstep (load_node_ok t pools nodes fresh mx _ _
      (ni_node _ _ _ _ Hn e1 He1)); rewrite Hnext; reflexivity]. done.
Qed.
End iteration.

(** ** The implementation *)

(** The state [st] represents the pairs [A], oldest first. *)
Definition ht_rep (A : list (Z * Z)) (st : ht_state) : Prop :=
  exists L E P, (2 <= L <= 8)%nat /\ ht_inv L E P st /\ st_mutex st = false /\ abs E = A.

Definition ht_iter_rep (A r : list (Z * Z)) (it : ff_hash_table_iterator)
    (st : ht_state) : Prop :=
  exists L E P R, (2 <= L <= 8)%nat /\ ht_inv L E P st /\ st_mutex st = true /\ abs E = A /\
    iter_at E R it /\ abs R = r.

#[export] Instance ht_request_table : RequestTable ht_state := {
  tbl_iterator := ff_hash_table_iterator;
  tbl_get := ff_hash_table_get_item;
  tbl_put := ff_hash_table_put_item;
  tbl_remove := ff_hash_table_remove_item;
  tbl_length := fun st => ht_length (st_table st);
  tbl_iter_init := ff_hash_table_iterator_init;
  tbl_iter_next := ff_hash_table_iterator_next;
  tbl_iter_free := ff_hash_table_iterator_free;
  tbl_free := ff_hash_table_free;
  tbl_rep := ht_rep;
  tbl_iter_rep := ht_iter_rep;
}.

Lemma length_abs E : zlen (abs E) = zlen E.
Proof. unfold zlen, abs. by rewrite length_map. Qed.

Lemma ht_inv_mutex L E P t pools nodes fresh mx mx' :
  ht_inv L E P (mk_ht_state t pools nodes fresh mx) ->
  ht_inv L E P (mk_ht_state t pools nodes fresh mx').
Proof. by destruct 1. Qed.

Lemma ht_rep_nodup A st : ht_rep A st -> NoDup A.*1.
Proof.
  intros (L&E&P&HL&Hi&Hm&<-). rewrite abs_ids. eapply ni_ids. apply (hi_nodes _ _ _ _ Hi).
Qed.

Lemma ht_get_ok A st id : ht_rep A st -> ff_hash_table_get_item id st = Ok (assoc_get id A, st).
Proof. intros (L&E&P&HL&Hi&Hm&<-). apply (get_item_ok L E P); [lia|done|done]. Qed.

Lemma ht_put_ok A st id v : ht_rep A st ->
  exists st', ff_hash_table_put_item id v st = Ok (tt, st') /\ ht_rep (assoc_put id v A) st'.
Proof.
  intros (L&E&P&HL&Hi&Hm&<-).
  destruct (put_item_ok L E P st id v ltac:(lia) Hi Hm) as (E'&P'&st'&Heq&Hi'&Hm'&Ha).
  exists st'. split; [done|]. by exists L, E', P'.
Qed.

Lemma ht_remove_ok A st id : ht_rep A st ->
  exists st', ff_hash_table_remove_item id st = Ok (tt, st') /\ ht_rep (assoc_remove id A) st'.
Proof.
  intros (L&E&P&HL&Hi&Hm&<-).
  destruct (remove_item_ok L E P st id HL Hi Hm) as (E'&P'&st'&Heq&Hi'&Hm'&Ha).
  exists st'. split; [done|]. by exists L, E', P'.
Qed.

Lemma ht_length_ok A st : ht_rep A st -> ht_length (st_table st) = u32 (zlen A).
Proof. intros (L&E&P&HL&Hi&Hm&<-). rewrite length_abs. apply (hi_length _ _ _ _ Hi). Qed.

Lemma ht_iter_init_ok A st : ht_rep A st ->
  exists it st', ff_hash_table_iterator_init st = Ok (it, st') /\ ht_iter_rep A A it st'.
Proof.
  destruct st as [t pools nodes fresh mx]. intros (L&E&P&HL&Hi&Hm&<-). simpl in Hm. subst mx.
  exists (mk_iterator NULL false), (mk_ht_state t pools nodes fresh true). split; [done|].
  exists L, E, P, E. split; [done|]. split; [by eapply ht_inv_mutex|].
  split_and!; try done. by left.
Qed.

Lemma ht_iter_next_ok A k v r it st : ht_iter_rep A ((k, v) :: r) it st ->
  exists it', ff_hash_table_iterator_next it st = Ok ((v, it'), st) /\ ht_iter_rep A r it' st.
Proof.
  intros (L&E&P&[|e R]&HL&Hi&Hm&HA&Hat&HR); [done|]. injection HR as <- <- HR.
  destruct (iter_next_ok L E P st it e R Hi Hat) as (it'&Heq&Hat').
  exists it'. split; [done|]. by exists L, E, P, R.
Qed.

Lemma ht_iter_end_ok A it st : ht_iter_rep A [] it st ->
  exists it', ff_hash_table_iterator_next it st = Ok ((NULL, it'), st) /\
    ht_iter_rep A [] it' st.
Proof.
  intros (L&E&P&[|e R]&HL&Hi&Hm&HA&Hat&HR); [|done].
  destruct (iter_end_ok L E P st it Hi Hat) as (it'&Heq&Hat').
  exists it'. split; [done|]. by exists L, E, P, [].
Qed.

Lemma ht_iter_free_ok A r it st : ht_iter_rep A r it st ->
  exists st', ff_hash_table_iterator_free st = Ok (tt, st') /\ ht_rep A st'.
Proof.
  destruct st as [t pools nodes fresh mx]. intros (L&E&P&R&HL&Hi&Hm&HA&Hat&HR).
  exists (mk_ht_state t pools nodes fresh false). split; [done|].
  exists L, E, P. split; [done|]. split; [by eapply ht_inv_mutex|done].
Qed.

Lemma ht_free_ok A st : ht_rep A st -> exists st', ff_hash_table_free st = Ok (tt, st').
Proof.
  intros (L&E&P&HL&Hi&_&_). destruct (free_ok L ltac:(lia) E P st Hi) as (st'&?&_). eauto.
Qed.

#[export] Instance ht_request_table_laws : RequestTableLaws ht_state.
Proof.
  constructor; cbn; eauto using ht_rep_nodup, ht_get_ok, ht_put_ok, ht_remove_ok, ht_length_ok,
    ht_iter_init_ok, ht_iter_next_ok, ht_iter_end_ok, ht_iter_free_ok, ht_free_ok.
  intros A r it st (L&E&P&R&HL&Hi&_&<-&_). rewrite length_abs. apply (hi_length _ _ _ _ Hi).
Qed.

Lemma ht_init_rep (prefix : Z) : 16 <= prefix < 72 ->
  exists st, ff_hash_table_init prefix = Ok st /\ ht_rep [] st.
Proof.
  intros Hp. assert (2 <= prefix / 8 <= 8) as Hq.
  { split; [apply Z.div_le_lower_bound; lia|].
    assert (prefix / 8 < 9) by (apply Z.div_lt_upper_bound; lia). lia. }
  destruct (init_ok (Z.to_nat (prefix / 8)) prefix) as (P&st&Heq&Hi&Hm); [lia|lia|].
  exists st. split; [done|]. exists (Z.to_nat (prefix / 8)), [], P. split_and!; try done; lia.
Qed.
