(* ===== verification/HashTableProps.v ===== *)
(** * The hash table: properties

    The table implements an ordered association list over any sequence of
    operations, and is released completely.  The last section has the widths
    of the prefix for which it does not. *)

From S2P Require Import Prelude Bytes HashTable HashTableRep HashTablePools HashTableOps.
From S2P Require Import HashTableUpdate HashTableSpec HashTableFree.

(** ** Sequences of operations *)

Inductive ht_op : Type :=
  | OpGet (id : Z)
  | OpPut (id item : Z)
  | OpRemove (id : Z).

(** The results of the lookups of a sequence, on the heap. *)
Fixpoint run_ops (ops : list ht_op) : M (list Z) :=
  match ops with
  | [] => mret []
  | OpGet id :: ops =>
      v ← ff_hash_table_get_item id; l ← run_ops ops; mret (v :: l)
  | OpPut id v :: ops => _ ← ff_hash_table_put_item id v; run_ops ops
  | OpRemove id :: ops => _ ← ff_hash_table_remove_item id; run_ops ops
  end.

(** The same on association lists: the results and the final pairs. *)
Fixpoint spec_ops (ops : list ht_op) (A : list (Z * Z)) : list Z * list (Z * Z) :=
  match ops with
  | [] => ([], A)
  | OpGet id :: ops => let '(l, A') := spec_ops ops A in (assoc_get id A :: l, A')
  | OpPut id v :: ops => spec_ops ops (assoc_put id v A)
  | OpRemove id :: ops => spec_ops ops (assoc_remove id A)
  end.

(** The loop of a caller: [while ((v = ff_hash_table_iterator_next(it)) != NULL)]. *)
Fixpoint iterate (fuel : nat) (it : ff_hash_table_iterator) : M (list Z) :=
  match fuel with
  | O => fail OutOfFuel
  | S fuel =>
      '(v, it) ← ff_hash_table_iterator_next it;
      if v =? NULL then mret [] else l ← iterate fuel it; mret (v :: l)
  end.

Definition all_values (fuel : nat) : M (list Z) :=
  it ← ff_hash_table_iterator_init;
  l ← iterate fuel it;
  _ ← ff_hash_table_iterator_free;
  mret l.

Lemma run_ops_ok ops : forall A st, ht_rep A st ->
  exists st', run_ops ops st = Ok ((spec_ops ops A).1, st') /\ ht_rep (spec_ops ops A).2 st'.
Proof.
  induction ops as [|[id|id v|id] ops IH]; intros A st Hr; cbn [run_ops spec_ops].
  - by exists st.
  - destruct (IH A st Hr) as (st'&Heq&Hr').
    mstep (ht_get_ok A st id Hr). mstep Heq.
    destruct (spec_ops ops A) as [l A']. by exists st'.
  - destruct (ht_put_ok A st id v Hr) as (st1&Hput&Hr1). mstep Hput. by apply IH.
  - destruct (ht_remove_ok A st id Hr) as (st1&Hrem&Hr1). mstep Hrem. by apply IH.
Qed.

Lemma iterate_ok A fuel : forall r it st, ht_iter_rep A r it st ->
  (length r < fuel)%nat -> Forall (fun kv => kv.2 <> NULL) r ->
  exists it', iterate fuel it st = Ok (r.*2, st) /\ ht_iter_rep A [] it' st.
Proof.
  induction fuel as [|fuel IH]; intros r it st Hr Hf Hnn; [lia|]. cbn [iterate].
  destruct r as [|[k v] r].
  - destruct (ht_iter_end_ok A it st Hr) as (it'&Heq&Hr'). mstep Heq. by exists it'.
  - destruct (ht_iter_next_ok A k v r it st Hr) as (it'&Heq&Hr'). mstep Heq.
    apply Forall_cons in Hnn as [Hv Hnn].
    rewrite (proj2 (Z.eqb_neq v NULL)) by done.
    destruct (IH r it' st Hr' ltac:(simpl in Hf; lia) Hnn) as (it2&Hit&Hr2).
    exists it2. mstep Hit. done.
Qed.

Lemma all_values_ok A st : ht_rep A st -> Forall (fun kv => kv.2 <> NULL) A ->
  exists st', all_values (S (length A)) st = Ok (A.*2, st') /\ ht_rep A st'.
Proof.
  intros Hr Hnn. unfold all_values.
  destruct (ht_iter_init_ok A st Hr) as (it&st1&Hinit&Hit). mstep Hinit.
  destruct (iterate_ok A (S (length A)) A it st1 Hit ltac:(lia) Hnn) as (it'&Hall&Hit').
  mstep Hall. destruct (ht_iter_free_ok A [] it' st1 Hit') as (st2&Hfree&Hr2).
  mstep Hfree. by exists st2.
Qed.

Definition op_nonnull (op : ht_op) : Prop :=
  match op with OpPut _ v => v <> NULL | _ => True end.

Lemma assoc_put_nonnull id v A : v <> NULL -> Forall (fun kv => kv.2 <> NULL) A ->
  Forall (fun kv => kv.2 <> NULL) (assoc_put id v A).
Proof.
  intros Hv HA. unfold assoc_put. destruct (bool_decide _).
  - apply Forall_fmap. eapply Forall_impl; [done|]. intros [k w] Hw. simpl in *.
    by destruct (k =? id).
  - apply Forall_app. split; [done|]. by apply Forall_singleton.
Qed.

Lemma spec_ops_nonnull ops : forall A, Forall op_nonnull ops ->
  Forall (fun kv => kv.2 <> NULL) A -> Forall (fun kv => kv.2 <> NULL) (spec_ops ops A).2.
Proof.
  induction ops as [|[id|id v|id] ops IH]; intros A Hops HA; cbn [spec_ops]; [done|..];
    apply Forall_cons in Hops as [Hop Hops].
  - specialize (IH A Hops HA). by destruct (spec_ops ops A).
  - apply IH; [done|]. by apply assoc_put_nonnull.
  - apply IH; [done|]. rewrite Forall_forall in *.
    intros kv [_ Hkv]%list_elem_of_filter. by apply HA.
Qed.

(** C5: The hash table refines an ordered association list.  For every
    prefix width of two to eight bytes and every sequence of lookups,
    insertions and removals of non-null values, the operations on the heap
    run without a fault and without running out of fuel, the lookups return
    what the association list says, the length is its length (as a
    [uint32_t]), and a complete iteration returns its values in the order of
    insertion. *)
Theorem hash_table_refines (prefix : Z) (ops : list ht_op) :
  16 <= prefix < 72 -> Forall op_nonnull ops ->
  let '(outs, A) := spec_ops ops [] in
  exists st0 st1 st2,
    ff_hash_table_init prefix = Ok st0 /\
    run_ops ops st0 = Ok (outs, st1) /\
    ht_length (st_table st1) = u32 (zlen A) /\
    all_values (S (length A)) st1 = Ok (A.*2, st2).
Proof.
  intros Hp Hops. destruct (ht_init_rep prefix Hp) as (st0&Hinit&Hr0).
  destruct (run_ops_ok ops [] st0 Hr0) as (st1&Hrun&Hr1).
  pose proof (spec_ops_nonnull ops [] Hops (Forall_nil_2 _)) as Hnn.
  destruct (spec_ops ops []) as [outs A]. simpl in *.
  destruct (all_values_ok A st1 Hr1 Hnn) as (st2&Hall&_).
  exists st0, st1, st2. split_and!; try done. exact (ht_length_ok A st1 Hr1).
Qed.

(** Witness of C5. *)
Lemma hash_table_refines_witness :
  exists st0 st1 st2,
    ff_hash_table_init 16 = Ok st0 /\
    run_ops [OpPut 5 50; OpPut 0x10005 60; OpGet 5; OpRemove 5; OpGet 5; OpGet 0x10005] st0 =
      Ok ([50; 0; 60], st1) /\
    ht_length (st_table st1) = u32 1 /\ all_values 2 st1 = Ok ([60], st2).
Proof.
  apply (hash_table_refines 16
    [OpPut 5 50; OpPut 0x10005 60; OpGet 5; OpRemove 5; OpGet 5; OpGet 0x10005]);
    [lia|repeat constructor; done].
Defined.

(** ** The laws of a map *)

Lemma assoc_get_put id v A : assoc_get id (assoc_put id v A) = v.
Proof.
  unfold assoc_put. case_bool_decide as Hin.
  - induction A as [|[k w] A IH]; [set_solver|]. simpl.
    destruct (Z.eqb_spec k id) as [->|Hne]; simpl.
    + by rewrite Z.eqb_refl.
    + rewrite (proj2 (Z.eqb_neq k id)) by done. apply IH. set_solver.
  - induction A as [|[k w] A IH]; simpl in *; [by rewrite Z.eqb_refl|].
    rewrite (proj2 (Z.eqb_neq k id)) by set_solver. apply IH. set_solver.
Qed.

Lemma assoc_get_put_ne id id' v A : id <> id' ->
  assoc_get id' (assoc_put id v A) = assoc_get id' A.
Proof.
  intros Hne. unfold assoc_put. case_bool_decide as Hin.
  - clear Hin. induction A as [|[k w] A IH]; [done|]. simpl.
    destruct (Z.eqb_spec k id) as [->|Hk]; simpl.
    + rewrite (proj2 (Z.eqb_neq id id')) by done. apply IH.
    + by rewrite IH.
  - clear Hin. induction A as [|[k w] A IH]; simpl.
    + by rewrite (proj2 (Z.eqb_neq id id')).
    + by rewrite IH.
Qed.

Lemma assoc_get_remove id A : assoc_get id (assoc_remove id A) = NULL.
Proof.
  apply assoc_get_notin. unfold assoc_remove.
  intros ([k w]&Heq&[Hne _]%list_elem_of_filter)%list_elem_of_fmap. by apply Hne.
Qed.

Lemma assoc_get_remove_ne id id' A : id <> id' ->
  assoc_get id' (assoc_remove id A) = assoc_get id' A.
Proof.
  intros Hne. unfold assoc_remove. induction A as [|[k w] A IH]; [done|].
  rewrite filter_cons. cbn [fst]. destruct (decide (k <> id)) as [Hk|Hk]; simpl.
  - by rewrite IH.
  - apply dec_stable in Hk as ->. by rewrite (proj2 (Z.eqb_neq id id')).
Qed.

(** After any sequence of operations on a table of two to eight levels,
    a lookup returns the pointer last stored under its id, and null once the
    id is removed, and storing or removing one id changes no other lookup. *)
Theorem hash_table_map_laws (prefix : Z) (ops : list ht_op) (id id' v : Z) :
  16 <= prefix < 72 -> id <> id' ->
  exists st0 outs st w st1 st2,
    ff_hash_table_init prefix = Ok st0 /\ run_ops ops st0 = Ok (outs, st) /\
    ff_hash_table_get_item id' st = Ok (w, st) /\
    ff_hash_table_put_item id v st = Ok (tt, st1) /\
    ff_hash_table_get_item id st1 = Ok (v, st1) /\
    ff_hash_table_get_item id' st1 = Ok (w, st1) /\
    ff_hash_table_remove_item id st1 = Ok (tt, st2) /\
    ff_hash_table_get_item id st2 = Ok (NULL, st2) /\
    ff_hash_table_get_item id' st2 = Ok (w, st2).
Proof.
  intros Hp Hne. destruct (ht_init_rep prefix Hp) as (st0&Hinit&Hr0).
  destruct (run_ops_ok ops [] st0 Hr0) as (st&Hrun&Hr).
  set (A := (spec_ops ops []).2) in *.
  destruct (ht_put_ok A st id v Hr) as (st1&Hput&Hr1).
  destruct (ht_remove_ok _ st1 id Hr1) as (st2&Hrem&Hr2).
  exists st0, (spec_ops ops []).1, st, (assoc_get id' A), st1, st2.
  split_and!; try done.
  - by apply ht_get_ok.
  - by rewrite (ht_get_ok _ _ id Hr1), assoc_get_put.
  - by rewrite (ht_get_ok _ _ id' Hr1), assoc_get_put_ne.
  - by rewrite (ht_get_ok _ _ id Hr2), assoc_get_remove.
  - by rewrite (ht_get_ok _ _ id' Hr2), assoc_get_remove_ne, assoc_get_put_ne.
Qed.

(** An example. *)
Lemma hash_table_map_laws_witness :
  exists st0 outs st w st1 st2,
    ff_hash_table_init 16 = Ok st0 /\ run_ops [OpPut 7 70] st0 = Ok (outs, st) /\
    ff_hash_table_get_item 7 st = Ok (w, st) /\
    ff_hash_table_put_item 0x10007 80 st = Ok (tt, st1) /\
    ff_hash_table_get_item 0x10007 st1 = Ok (80, st1) /\
    ff_hash_table_get_item 7 st1 = Ok (w, st1) /\
    ff_hash_table_remove_item 0x10007 st1 = Ok (tt, st2) /\
    ff_hash_table_get_item 0x10007 st2 = Ok (NULL, st2) /\
    ff_hash_table_get_item 7 st2 = Ok (w, st2).
Proof. apply (hash_table_map_laws 16 [OpPut 7 70] 0x10007 7 80); lia. Defined.

(** C19: [ff_hash_table_free] releases the table completely: after any
    sequence of operations it frees every pool and every node once, without
    touching a freed block, and none is left. *)
Theorem hash_table_free_complete (prefix : Z) (ops : list ht_op) :
  16 <= prefix < 72 ->
  exists st0 outs st st',
    ff_hash_table_init prefix = Ok st0 /\ run_ops ops st0 = Ok (outs, st) /\
    ff_hash_table_free st = Ok (tt, st') /\ st_pools st' = ∅ /\ st_nodes st' = ∅.
Proof.
  intros Hp. destruct (ht_init_rep prefix Hp) as (st0&Hinit&Hr0).
  destruct (run_ops_ok ops [] st0 Hr0) as (st&Hrun&(L&E&P&HL&Hi&_&_)).
  destruct (free_ok L ltac:(lia) E P st Hi) as (st'&Hfree&?&?).
  by exists st0, (spec_ops ops []).1, st, st'.
Qed.

(** Witness of C19. *)
Lemma hash_table_free_complete_witness :
  exists st0 outs st st',
    ff_hash_table_init 16 = Ok st0 /\
    run_ops [OpPut 1 10; OpPut 0x10001 20; OpPut 2 30; OpRemove 1] st0 = Ok (outs, st) /\
    ff_hash_table_free st = Ok (tt, st') /\ st_pools st' = ∅ /\ st_nodes st' = ∅.
Proof.
  apply (hash_table_free_complete 16 [OpPut 1 10; OpPut 0x10001 20; OpPut 2 30; OpRemove 1]). lia.
Defined.

(** ** Widths that do not work *)

Lemma remove_one_level P st id v p : ht_inv 1 [mk_entry p id v] P st -> st_mutex st = false ->
  ff_hash_table_remove_item id st = Err OutOfBounds.
Proof.
  intros Hi Hm. destruct st as [t pools nodes fresh mx]. simpl in Hm. subst mx.
  set (E := [mk_entry p id v]) in *.
  assert (ht_inv 1 E P (mk_ht_state t pools nodes fresh true)) as Hi' by (by destruct Hi).
  unfold ff_hash_table_remove_item. mstep (mutex_lock_ok t pools nodes fresh false eq_refl).
  erewrite M_bind_ok; [|reflexivity]. cbn [st_table].
  destruct (create_bucket_ok 1 E P _ _ _ _ true id ltac:(lia) Hi')
    as (P1&pools1&fresh1&c&stored&Heq&Hi1&Hc&Hlen&Hst). mstep Heq. clear Hi Hi' Heq.
  pose proof (hi_pools _ _ _ _ Hi1) as Hp. pose proof (hi_levels _ _ _ _ Hi1) as Hlv. cbn in Hp, Hlv.
  pose proof (pool_load _ _ _ _ _ _ _ _ _ t nodes fresh1 true Hp Hc (byte_of_range id 0)) as Hload.
  pose proof (slot_head 1 P1 (heads 1 E) id ltac:(lia)) as Hs. cbn [Nat.sub] in *.
  rewrite Hs in Hload. unfold mbind at 1, M_bind at 1. mstep Hload.
  assert (chain 1 (path 1 id) E = E) as HC by (apply list_filter_id; by intros e ->%list_elem_of_singleton).
  assert (heads 1 E (path 1 id) = p) as Hh by (unfold heads; by rewrite HC).
  assert (0 < p) as Hpos.
  { apply (ni_range _ _ _ _ (hi_nodes _ _ _ _ Hi1) (mk_entry p id v)). left. }
  rewrite Hh, (proj2 (Z.eqb_neq p NULL)) by (unfold NULL; lia).
  mstep (chain_fuel_ok t pools1 nodes fresh1 true).
  destruct (remove_loop_ok 1 E P1 t pools1 nodes fresh1 true id c ltac:(lia) Hi1 Hc)
    as (E'&t'&pools'&nodes'&Hloop&_&Hi2&Habs). rewrite Hh in Hloop. mstep Hloop.
  assert (E' = []) as ->.
  { unfold abs, assoc_remove in Habs. simpl in Habs. rewrite filter_cons in Habs.
    rewrite decide_False in Habs by naive_solver. by destruct E'. }
  pose proof (hi_pools _ _ _ _ Hi2) as Hp2. cbn in Hp2.
  pose proof (pool_load _ _ _ _ _ _ _ _ _ t' nodes' fresh1 true Hp2 Hc (byte_of_range id 0))
    as Hload2.
  pose proof (slot_head 1 P1 (heads 1 []) id ltac:(lia)) as Hs2. cbn [Nat.sub] in *.
  rewrite Hs2 in Hload2. mstep Hload2. cbn [heads]. rewrite Hlv.
  destruct stored; [|done]. done.
Qed.

(** A table with a prefix of one byte does not support removal: removing
    the entry that was stored last reads [bucket_list] at level
    [(uint8_t)(1 - 2) = 255], out of its bounds. *)
Theorem hash_table_one_level_remove (prefix id v : Z) :
  8 <= prefix < 16 ->
  exists st0 st1, ff_hash_table_init prefix = Ok st0 /\
    ff_hash_table_put_item id v st0 = Ok (tt, st1) /\
    ff_hash_table_remove_item id st1 = Err OutOfBounds.
Proof.
  intros Hp.
  destruct (init_ok 1 prefix) as (P&st0&Hinit&Hi&Hm); [lia| |].
  { symmetry. apply (Z.div_unique_pos prefix 8 1 (prefix - 8)); lia. }
  destruct (put_item_ok 1 [] P st0 id v ltac:(lia) Hi Hm) as (E'&P'&st1&Hput&Hi1&Hm1&Habs).
  exists st0, st1. split; [done|]. split; [done|].
  destruct E' as [|[p id' v'] [|e2 E']]; try done. injection Habs as -> ->.
  by eapply remove_one_level.
Qed.

(** An example. *)
Lemma hash_table_one_level_remove_witness :
  exists st0 st1, ff_hash_table_init 8 = Ok st0 /\
    ff_hash_table_put_item 3 30 st0 = Ok (tt, st1) /\
    ff_hash_table_remove_item 3 st1 = Err OutOfBounds.
Proof. apply (hash_table_one_level_remove 8 3 30). lia. Defined.

(** [ceil] in [ff_hash_table_init] rounds a quotient that is already
    truncated, so a prefix of less than eight bits gives a table of no level,
    on which every operation shifts by 64 bits. *)
Theorem hash_table_no_level (prefix id v : Z) :
  1 <= prefix < 8 ->
  exists st, ff_hash_table_init prefix = Ok st /\
    ff_hash_table_get_item id st = Err BadShift /\
    ff_hash_table_put_item id v st = Err BadShift /\
    ff_hash_table_remove_item id st = Err BadShift.
Proof.
  intros Hp.
  assert (prefix = 1 \/ prefix = 2 \/ prefix = 3 \/ prefix = 4 \/ prefix = 5 \/ prefix = 6 \/
    prefix = 7) as Hcases by lia.
  destruct Hcases as [->|[->|[->|[->|[->|[->| ->]]]]]]; (eexists; split; [reflexivity|done]).
Qed.

(** An example. *)
Lemma hash_table_no_level_witness :
  exists st, ff_hash_table_init 4 = Ok st /\
    ff_hash_table_get_item 1 st = Err BadShift /\
    ff_hash_table_put_item 1 2 st = Err BadShift /\
    ff_hash_table_remove_item 1 st = Err BadShift.
Proof. apply (hash_table_no_level 4 1 2). lia. Defined.
