(* ===== verification/Crypto.v ===== *)
(** * Decryption of requests: src/crypto.c

    OpenSSL is not part of the repository: the class [OpenSSL] has one
    operation per call the program makes, on an abstract cipher context, with
    [None] for the failure the program tests for.  [OpenSSLLaws] states what
    the program relies on. *)

From S2P Require Import Prelude Bytes Request Strings.

Class OpenSSL : Type := {
  evp_ctx : Type;
  EVP_CIPHER_CTX_new : option evp_ctx;
  (** [EVP_DecryptInit_ex(ctx, EVP_aes_256_gcm(), NULL, NULL, NULL)] *)
  EVP_DecryptInit_cipher : evp_ctx -> option evp_ctx;
  (** [EVP_CIPHER_CTX_ctrl(ctx, EVP_CTRL_GCM_SET_IVLEN, len, NULL)] *)
  EVP_ctrl_set_ivlen : evp_ctx -> Z -> option evp_ctx;
  (** [EVP_DecryptInit_ex(ctx, NULL, NULL, key, iv)] *)
  EVP_DecryptInit_key : evp_ctx -> list Z -> list Z -> option evp_ctx;
  (** the output of [EVP_DecryptUpdate] *)
  EVP_DecryptUpdate : evp_ctx -> list Z -> option (evp_ctx * list Z);
  (** [EVP_CIPHER_CTX_ctrl(ctx, EVP_CTRL_GCM_SET_TAG, len, tag)] *)
  EVP_ctrl_set_tag : evp_ctx -> Z -> list Z -> option evp_ctx;
  (** the output of [EVP_DecryptFinal_ex], when it returns more than 0 *)
  EVP_DecryptFinal_ex : evp_ctx -> option (list Z);
  EVP_EncryptInit_cipher : evp_ctx -> option evp_ctx;
  EVP_EncryptInit_key : evp_ctx -> list Z -> list Z -> option evp_ctx;
  EVP_EncryptUpdate : evp_ctx -> list Z -> option (evp_ctx * list Z);
  EVP_EncryptFinal_ex : evp_ctx -> option (evp_ctx * list Z);
  (** [EVP_CIPHER_CTX_ctrl(ctx, EVP_CTRL_GCM_GET_TAG, len, tag)] *)
  EVP_ctrl_get_tag : evp_ctx -> Z -> option (list Z);
  (** password, salt, iterations (an [int]) and length of the key *)
  PKCS5_PBKDF2_HMAC : list Z -> list Z -> Z -> Z -> option (list Z);
}.

(** ** Configuration and constants: src/crypto.h *)

Definition FF_CRYPTO_MODE_AES_256_GCM : Z := 1.
Definition FF_KEY_DERIVE_MODE_PBKDF2 : Z := 1.

(** [key] is the block of a NUL-terminated string, [None] for [NULL]. *)
Record ff_encryption_config : Type := mk_encryption_config {
  ec_key : option (list Z);
  ec_pbkdf2_iterations : Z;      (* uint32_t *)
}.

Record ff_derived_key : Type := mk_derived_key {
  dk_key : list Z;
  dk_length : Z;                 (* uint16_t *)
}.

Definition ff_derived_key_alloc (length : Z) : ff_derived_key :=
  mk_derived_key (replicate (Z.to_nat length) 0) length.

(** The options the loops over [request->options] visit. *)
Definition visited_options (r : ff_request) : res (list ff_request_option_node) :=
  _ ← guard_res (bool_decide (rq_options_length r <= zlen (rq_options r))) OutOfBounds;
  Ok (take (Z.to_nat (rq_options_length r)) (rq_options r)).

(** [malloc(length)] and [memcpy] of the value of an option. *)
Definition copy_value (o : ff_request_option_node) : res (list Z) :=
  bs ← mem_read (opt_value o) 0 (opt_length o);
  mem_write (malloc (opt_length o)) 0 bs.

(** Steps that may also take the [error] exit of the function. *)
Definition try_bind {A B} (m : res (option A)) (f : A -> res (option B)) : res (option B) :=
  o ← m; match o with Some a => f a | None => Ok None end.

Notation "x ←? m ; k" := (try_bind m (fun x => k))
  (at level 20, m at level 100, k at level 200, only parsing) : stdpp_scope.

Section Crypto.
Context {OS : OpenSSL}.

(** *** Key derivation *)

Definition ff_derive_key_pbkdf2 (config : ff_encryption_config) (salt : list Z)
    (salt_length : Z) (out_key : ff_derived_key) : res (option ff_derived_key) :=
  match ec_key config with
  | None => Err NullDeref
  | Some key =>
      pass ← c_string key;
      salt ← mem_read salt 0 salt_length;
      match PKCS5_PBKDF2_HMAC pass salt (s32 (ec_pbkdf2_iterations config)) (dk_length out_key) with
      | Some k =>
          k ← mem_write (dk_key out_key) 0 k;
          Ok (Some (mk_derived_key k (dk_length out_key)))
      | None => Ok None
      end
  end.

(** The loop over the options: the mode and the salt. *)
Fixpoint derive_options_loop (options : list ff_request_option_node)
    (mode : Z) (salt : option (list Z)) (salt_length : Z) : res (Z * option (list Z) * Z) :=
  match options with
  | [] => Ok (mode, salt, salt_length)
  | o :: rest =>
      if opt_type o =? FF_REQUEST_OPTION_TYPE_KEY_DERIVE_MODE then
        if opt_length o =? 1 then
          mode ← load_byte (opt_value o) 0;
          derive_options_loop rest mode salt salt_length
        else derive_options_loop rest mode salt salt_length
      else if opt_type o =? FF_REQUEST_OPTION_TYPE_KEY_DERIVE_SALT then
        salt ← copy_value o;
        derive_options_loop rest mode (Some salt) (opt_length o)
      else derive_options_loop rest mode salt salt_length
  end.

Definition ff_derive_key (r : ff_request) (config : ff_encryption_config)
    (out_key : ff_derived_key) : res (option ff_derived_key) :=
  options ← visited_options r;
  '(mode, salt, salt_length) ← derive_options_loop options 0 None 0;
  if mode =? 0 then Ok None
  else
    match salt with
    | None => Ok None
    | Some salt =>
        if salt_length =? 0 then Ok None
        else if mode =? FF_KEY_DERIVE_MODE_PBKDF2
        then ff_derive_key_pbkdf2 config salt salt_length out_key
        else Ok None
    end.

(** *** AES-256-GCM *)

(** The [do] loop: the context, the plaintext buffer and its length. *)
Fixpoint decrypt_loop (ctx : evp_ctx) (nodes : list ff_request_payload_node)
    (plaintext_buff : list Z) (plaintext_len : Z) : res (option (evp_ctx * list Z * Z)) :=
  match nodes with
  | [] => Ok (Some (ctx, plaintext_buff, plaintext_len))
  | node :: rest =>
      bs ← mem_read (node_value node) 0 (node_length node);
      p ←? Ok (EVP_DecryptUpdate ctx bs);
      let '(ctx, out) := p in
      plaintext_buff ← mem_write plaintext_buff plaintext_len out;
      decrypt_loop ctx rest plaintext_buff (plaintext_len + zlen out)
  end.

(** [Some] is the return of [true]; the payload is then one node that owns
    the plaintext buffer. *)
Definition ff_decrypt_request_aes_256_gcm (r : ff_request) (config : ff_encryption_config)
    (iv : list Z) (iv_len : Z) (tag : list Z) (tag_len : Z) : res (option ff_request) :=
  let plaintext_buff := malloc (rq_payload_length r) in
  derived_key ←? ff_derive_key r config (ff_derived_key_alloc 32);
  ctx ←? Ok EVP_CIPHER_CTX_new;
  ctx ←? Ok (EVP_DecryptInit_cipher ctx);
  ctx ←? Ok (EVP_ctrl_set_ivlen ctx iv_len);
  ctx ←? Ok (EVP_DecryptInit_key ctx (dk_key derived_key) iv);
  match rq_payload r with
  | PayloadDangling => Err UseAfterFree
  | PayloadNodes [] => Err NullDeref
  | PayloadNodes nodes =>
      p ←? decrypt_loop ctx nodes plaintext_buff 0;
      let '(ctx, plaintext_buff, plaintext_len) := p in
      ctx ←? Ok (EVP_ctrl_set_tag ctx tag_len tag);
      out ←? Ok (EVP_DecryptFinal_ex ctx);
      plaintext_buff ← mem_write plaintext_buff plaintext_len out;
      let plaintext_len := plaintext_len + zlen out in
      Ok (Some (set_payload (PayloadNodes [mk_node 0 (u16 plaintext_len) plaintext_buff])
                  (set_payload_length plaintext_len r)))
  end.

(** *** The request *)

Record crypto_options : Type := mk_crypto_options {
  co_mode : Z;
  co_iv : option (list Z);
  co_iv_len : Z;
  co_tag : option (list Z);
  co_tag_len : Z;
}.

Fixpoint crypto_options_loop (options : list ff_request_option_node) (c : crypto_options)
    : res crypto_options :=
  match options with
  | [] => Ok c
  | o :: rest =>
      if opt_type o =? FF_REQUEST_OPTION_TYPE_ENCRYPTION_MODE then
        if opt_length o =? 1 then
          mode ← load_byte (opt_value o) 0;
          crypto_options_loop rest
            (mk_crypto_options mode (co_iv c) (co_iv_len c) (co_tag c) (co_tag_len c))
        else crypto_options_loop rest c
      else if opt_type o =? FF_REQUEST_OPTION_TYPE_ENCRYPTION_IV then
        iv ← copy_value o;
        crypto_options_loop rest
          (mk_crypto_options (co_mode c) (Some iv) (opt_length o) (co_tag c) (co_tag_len c))
      else if opt_type o =? FF_REQUEST_OPTION_TYPE_ENCRYPTION_TAG then
        tag ← copy_value o;
        crypto_options_loop rest
          (mk_crypto_options (co_mode c) (co_iv c) (co_iv_len c) (Some tag) (opt_length o))
      else crypto_options_loop rest c
  end.

Definition decrypt_error (r : ff_request) : ff_request :=
  set_state FF_REQUEST_STATE_DECRYPTING_FAILED r.
Definition decrypt_done (r : ff_request) : ff_request :=
  set_state FF_REQUEST_STATE_DECRYPTED r.

(** [config] is [None] for a null pointer. *)
Definition ff_decrypt_request (r : ff_request) (config : option ff_encryption_config)
    : res ff_request :=
  let r := set_state FF_REQUEST_STATE_DECRYPTING r in
  let keyed := match config with
               | Some c => match ec_key c with Some _ => Some c | None => None end
               | None => None
               end in
  options ← visited_options r;
  c ← crypto_options_loop options (mk_crypto_options 0 None 0 None 0);
  if co_mode c =? 0 then
    match keyed with
    | Some _ => Ok (decrypt_error r)
    | None => Ok (decrypt_done r)
    end
  else
    match keyed with
    | None => Ok (decrypt_error r)
    | Some config =>
        match co_iv c with
        | None => Ok (decrypt_error r)
        | Some iv =>
            if co_iv_len c =? 0 then Ok (decrypt_error r)
            else
              match co_tag c with
              | None => Ok (decrypt_error r)
              | Some tag =>
                  if co_tag_len c =? 0 then Ok (decrypt_error r)
                  else if co_mode c =? FF_CRYPTO_MODE_AES_256_GCM then
                    d ← ff_decrypt_request_aes_256_gcm r config iv (co_iv_len c) tag
                          (co_tag_len c);
                    match d with
                    | Some r => Ok (decrypt_done r)
                    | None => Ok (decrypt_error r)
                    end
                  else Ok (decrypt_error r)
              end
        end
    end.

End Crypto.
