(* ===== verification/Config.v ===== *)
(** * The arguments of the server: src/config.h and src/config.c

    The parser of the command line is a loop over the arguments with a state;
    here one function per argument.  [inet_pton] belongs to the system and is
    an argument: whether it accepts an address of the family. *)

From S2P Require Import Prelude Bytes Request Strings Logging Crypto.

(** ** src/version.h, src/config.h *)

Definition FF_VERSION : list Z := chars "0.1.0-alpha".

Record ff_config : Type := mk_config {
  cf_port : option (list Z);             (* None is NULL *)
  cf_ip_address : option (list Z);
  cf_timestamp_fudge_factor : Z;         (* uint16_t *)
  cf_encryption : ff_encryption_config;
  cf_logging_level : Z;
  cf_ipv6_v6only : bool;
}.

(** The static variable [ff_global_config] before [main]. *)
Definition zero_config : ff_config :=
  mk_config None None 0 (mk_encryption_config None 0) 0 false.

Inductive ff_action : Type :=
  | FF_ACTION_START_PROXY
  | FF_ACTION_PRINT_VERSION
  | FF_ACTION_PRINT_USAGE
  | FF_ACTION_INVALID_ARGS.

#[export] Instance ff_action_eq_dec : EqDecision ff_action.
Proof. solve_decision. Defined.

Inductive address_family : Type := AF_INET | AF_INET6.

#[export] Instance address_family_eq_dec : EqDecision address_family.
Proof. solve_decision. Defined.

(** ** Parsing *)

Definition FF_PARSE_ARG_STATE_DEFAULT : Z := 0.
Definition FF_PARSE_ARG_PARSE_PORT : Z := 1.
Definition FF_PARSE_ARG_PARSE_IP : Z := 2.
Definition FF_PARSE_ARG_PARSE_PSK : Z := 3.
Definition FF_PARSE_ARG_PARSE_PBKDF2_ITERATIONS : Z := 4.
Definition FF_PARSE_ARG_PARSE_TIMESTAMP_FUDGE_FACTOR : Z := 5.

Definition UINT16_MAX : Z := 65535.

Definition default_listen_address : list Z := chars "0.0.0.0".

Definition set_v6only (config : ff_config) : ff_config :=
  mk_config (cf_port config) (cf_ip_address config) (cf_timestamp_fudge_factor config)
    (cf_encryption config) (cf_logging_level config) true.

(** The local variables of [ff_parse_arguments]. *)
Record arg_locals : Type := mk_arg_locals {
  al_port : option (list Z);
  al_listen_address : list Z;
  al_state : Z;
  al_logging_level : Z;
  al_key : option (list Z);
  al_pbkdf2_iterations : Z;              (* uint32_t *)
  al_timestamp_fudge_factor : Z;         (* uint16_t *)
}.

Definition initial_locals : arg_locals :=
  mk_arg_locals None default_listen_address FF_PARSE_ARG_STATE_DEFAULT FF_ERROR None 1000 30.

Definition set_arg_state (state : Z) (l : arg_locals) : arg_locals :=
  mk_arg_locals (al_port l) (al_listen_address l) state (al_logging_level l) (al_key l)
    (al_pbkdf2_iterations l) (al_timestamp_fudge_factor l).
Definition set_arg_level (level : Z) (l : arg_locals) : arg_locals :=
  mk_arg_locals (al_port l) (al_listen_address l) (al_state l) level (al_key l)
    (al_pbkdf2_iterations l) (al_timestamp_fudge_factor l).
Definition set_arg_port (port : list Z) (l : arg_locals) : arg_locals :=
  mk_arg_locals (Some port) (al_listen_address l) (al_state l) (al_logging_level l) (al_key l)
    (al_pbkdf2_iterations l) (al_timestamp_fudge_factor l).
Definition set_arg_address (address : list Z) (l : arg_locals) : arg_locals :=
  mk_arg_locals (al_port l) address (al_state l) (al_logging_level l) (al_key l)
    (al_pbkdf2_iterations l) (al_timestamp_fudge_factor l).
Definition set_arg_key (key : list Z) (l : arg_locals) : arg_locals :=
  mk_arg_locals (al_port l) (al_listen_address l) (al_state l) (al_logging_level l) (Some key)
    (al_pbkdf2_iterations l) (al_timestamp_fudge_factor l).
Definition set_arg_iterations (n : Z) (l : arg_locals) : arg_locals :=
  mk_arg_locals (al_port l) (al_listen_address l) (al_state l) (al_logging_level l) (al_key l)
    n (al_timestamp_fudge_factor l).
Definition set_arg_fudge (n : Z) (l : arg_locals) : arg_locals :=
  mk_arg_locals (al_port l) (al_listen_address l) (al_state l) (al_logging_level l) (al_key l)
    (al_pbkdf2_iterations l) n.

(** What the loop does after an argument: go on, or [goto done] with the
    action, the configuration as it is then, and what was printed to
    [stderr]. *)
Inductive arg_step : Type :=
  | ArgNext (l : arg_locals) (config : ff_config)
  | ArgDone (action : ff_action) (config : ff_config) (err : list Z).

Definition invalid_arg (option_name arg : list Z) : list Z :=
  chars "Invalid " ++ option_name ++ chars " argument: " ++ arg ++ [10; 10].

Section Parse.
Variable inet_pton : address_family -> list Z -> bool.

(** The [case] of the default state: the name of an option. *)
Definition parse_option_name (arg : list Z) (l : arg_locals) (config : ff_config) : arg_step :=
  if strcasecmp arg (chars "--help") =? 0 then ArgDone FF_ACTION_PRINT_USAGE config []
  else if strcasecmp arg (chars "--version") =? 0 then ArgDone FF_ACTION_PRINT_VERSION config []
  else if strcasecmp arg (chars "--port") =? 0
  then ArgNext (set_arg_state FF_PARSE_ARG_PARSE_PORT l) config
  else if strcasecmp arg (chars "--ip-address") =? 0
  then ArgNext (set_arg_state FF_PARSE_ARG_PARSE_IP l) config
  else if strcasecmp arg (chars "--ipv6-v6only") =? 0 then ArgNext l (set_v6only config)
  else if strcasecmp arg (chars "--pre-shared-key") =? 0
  then ArgNext (set_arg_state FF_PARSE_ARG_PARSE_PSK l) config
  else if strcasecmp arg (chars "--pbkdf2-iterations") =? 0
  then ArgNext (set_arg_state FF_PARSE_ARG_PARSE_PBKDF2_ITERATIONS l) config
  else if strcasecmp arg (chars "--timestamp-fudge-factor") =? 0
  then ArgNext (set_arg_state FF_PARSE_ARG_PARSE_TIMESTAMP_FUDGE_FACTOR l) config
  else if strcasecmp arg (chars "-vvv") =? 0 then ArgNext (set_arg_level FF_DEBUG l) config
  else if strcasecmp arg (chars "-vv") =? 0 then ArgNext (set_arg_level FF_INFO l) config
  else if strcasecmp arg (chars "-v") =? 0 then ArgNext (set_arg_level FF_WARNING l) config
  else ArgDone FF_ACTION_INVALID_ARGS config (chars "Unkown argument " ++ arg ++ [10; 10]).

(** The [switch] on the state. *)
Definition parse_arg (arg : list Z) (l : arg_locals) (config : ff_config) : arg_step :=
  let next l := ArgNext (set_arg_state FF_PARSE_ARG_STATE_DEFAULT l) config in
  if al_state l =? FF_PARSE_ARG_STATE_DEFAULT then parse_option_name arg l config
  else if al_state l =? FF_PARSE_ARG_PARSE_PORT then
    let parsed_port := atoi arg in
    if (parsed_port <=? 0) || (UINT16_MAX <? parsed_port)
    then ArgDone FF_ACTION_INVALID_ARGS config (invalid_arg (chars "--port") arg)
    else next (set_arg_port arg l)
  else if al_state l =? FF_PARSE_ARG_PARSE_IP then
    if negb (inet_pton (if has_char 58 arg then AF_INET6 else AF_INET) arg)
    then ArgDone FF_ACTION_INVALID_ARGS config (invalid_arg (chars "--ip-address") arg)
    else next (set_arg_address arg l)
  else if al_state l =? FF_PARSE_ARG_PARSE_PSK then next (set_arg_key (c_block arg) l)
  else if al_state l =? FF_PARSE_ARG_PARSE_PBKDF2_ITERATIONS then
    let pbkdf2_iterations := u32 (atoi arg) in
    if pbkdf2_iterations <=? 0
    then ArgDone FF_ACTION_INVALID_ARGS config (invalid_arg (chars "--pbkdf2-iterations") arg)
    else next (set_arg_iterations pbkdf2_iterations l)
  else if al_state l =? FF_PARSE_ARG_PARSE_TIMESTAMP_FUDGE_FACTOR then
    let parsed := atoi arg in
    if (parsed <=? 0) || (UINT16_MAX <? parsed)
    then ArgDone FF_ACTION_INVALID_ARGS config (invalid_arg (chars "--timestamp-fudge-factor") arg)
    else next (set_arg_fudge (u16 parsed) l)
  else ArgDone FF_ACTION_INVALID_ARGS config (chars "Unkown parse arg state" ++ [10; 10]).

(** The [for] loop. *)
Fixpoint parse_args_loop (args : list (list Z)) (l : arg_locals) (config : ff_config) : arg_step :=
  match args with
  | [] => ArgNext l config
  | arg :: rest =>
      match parse_arg arg l config with
      | ArgNext l config => parse_args_loop rest l config
      | done => done
      end
  end.

(** Returns the action, the configuration and what was printed to [stderr]. *)
Definition ff_parse_arguments (config : ff_config) (argv : list (list Z))
    : ff_action * ff_config * list Z :=
  match parse_args_loop (tail argv) initial_locals config with
  | ArgDone action config err => (action, config, err)
  | ArgNext l config =>
      match al_port l with
      | None => (FF_ACTION_INVALID_ARGS, config, chars "--port is required" ++ [10; 10])
      | Some port =>
          (FF_ACTION_START_PROXY,
           mk_config (Some port) (Some (al_listen_address l)) (al_timestamp_fudge_factor l)
             (mk_encryption_config (al_key l) (al_pbkdf2_iterations l)) (al_logging_level l)
             (cf_ipv6_v6only config), [])
      end
  end.
End Parse.

(** ** Messages

    The calls of [fwrite] write [sizeof(message)] bytes, the NUL included. *)

Definition line (s : String.string) : list Z := chars s ++ [10].

Definition ff_usage_message : list Z :=
  chars "ff version " ++ FF_VERSION ++ [10; 10] ++
  line "start proxy: ff" ++
  line "    --port bind_port_num" ++
  line "    [--ip-address bind_ip_address] # format: 0.0.0.0 or 2001:db8::1" ++
  line "    [--ipv6-v6only] # don't accept IPv4 connections on an IPv6 socket" ++
  line "    [--pbkdf2-iterations num] # hashing iterations used to derive encryption keys " ++
  line "    [--timestamp-fudge-factor num] # amount of seconds away from the hosts time to tolerate for incoming requests " ++
  line "    [--pre-shared-key pre_shared_key]" ++
  line "    -v[vv] " ++
  [10] ++
  line "show version: ff --version" ++
  line "show usage: ff --help".

(** What is written to the stream. *)
Definition ff_print_usage : list Z := c_block ff_usage_message.

Definition ff_print_version : list Z := c_block (chars "ff version " ++ FF_VERSION ++ [10]).
