(* ===== verification/CryptoFacts.v ===== *)
(** * Decryption: facts

    The runs of the cipher as functions on byte strings, what the program
    relies on of OpenSSL, and what the functions of [Crypto] compute. *)

From S2P Require Import Prelude Bytes Request Strings Parser ParserFacts Crypto.

(** ** Runs of AES-256-GCM *)

Section Runs.
Context {OS : OpenSSL}.

Fixpoint decrypt_updates (ctx : evp_ctx) (chunks : list (list Z)) : option (evp_ctx * list Z) :=
  match chunks with
  | [] => Some (ctx, [])
  | c :: rest =>
      '(ctx, out) ← EVP_DecryptUpdate ctx c;
      '(ctx, outs) ← decrypt_updates ctx rest;
      Some (ctx, out ++ outs)
  end.

Definition gcm_decrypt (key iv : list Z) (chunks : list (list Z)) (tag : list Z)
    : option (list Z) :=
  ctx ← EVP_CIPHER_CTX_new;
  ctx ← EVP_DecryptInit_cipher ctx;
  ctx ← EVP_ctrl_set_ivlen ctx (zlen iv);
  ctx ← EVP_DecryptInit_key ctx key iv;
  '(ctx, out) ← decrypt_updates ctx chunks;
  ctx ← EVP_ctrl_set_tag ctx (zlen tag) tag;
  fin ← EVP_DecryptFinal_ex ctx;
  Some (out ++ fin).

Fixpoint encrypt_updates (ctx : evp_ctx) (chunks : list (list Z)) : option (evp_ctx * list Z) :=
  match chunks with
  | [] => Some (ctx, [])
  | c :: rest =>
      '(ctx, out) ← EVP_EncryptUpdate ctx c;
      '(ctx, outs) ← encrypt_updates ctx rest;
      Some (ctx, out ++ outs)
  end.

Definition gcm_encrypt (key iv : list Z) (chunks : list (list Z)) (tag_len : Z)
    : option (list Z * list Z) :=
  ctx ← EVP_CIPHER_CTX_new;
  ctx ← EVP_EncryptInit_cipher ctx;
  ctx ← EVP_ctrl_set_ivlen ctx (zlen iv);
  ctx ← EVP_EncryptInit_key ctx key iv;
  '(ctx, out) ← encrypt_updates ctx chunks;
  '(ctx, fin) ← EVP_EncryptFinal_ex ctx;
  tag ← EVP_ctrl_get_tag ctx tag_len;
  Some (out ++ fin, tag).
End Runs.

(** What the program relies on: AES-GCM is a stream mode, whose updates give
    one byte per byte and whose end gives none; decrypting a ciphertext with
    its key, IV and tag gives the plaintext back, however it is cut; keys and
    tags have the length asked for. *)
Class OpenSSLLaws `{OS : OpenSSL} : Prop := {
  decrypt_update_out ctx c ctx' out : bytes c ->
    EVP_DecryptUpdate ctx c = Some (ctx', out) -> zlen out = zlen c /\ bytes out;
  decrypt_final_out ctx out : EVP_DecryptFinal_ex ctx = Some out -> out = [];
  encrypt_update_out ctx c ctx' out : bytes c ->
    EVP_EncryptUpdate ctx c = Some (ctx', out) -> zlen out = zlen c /\ bytes out;
  encrypt_final_out ctx ctx' out : EVP_EncryptFinal_ex ctx = Some (ctx', out) -> out = [];
  get_tag_out ctx n tag : EVP_ctrl_get_tag ctx n = Some tag -> zlen tag = n /\ bytes tag;
  pbkdf2_out pass salt iterations n key :
    PKCS5_PBKDF2_HMAC pass salt iterations n = Some key -> zlen key = n;
  gcm_round_trip key iv m c tag cs : bytes m ->
    gcm_encrypt key iv [m] 16 = Some (c, tag) -> concat cs = c ->
    gcm_decrypt key iv cs tag = Some m;
}.

(** ** Options *)

Definition opt_bytes (o : ff_request_option_node) : list Z :=
  slice (opt_value o) 0 (opt_length o).

Definition node_bytes (n : ff_request_payload_node) : list Z :=
  slice (node_value n) 0 (node_length n).

(** The last option with the property [p], or [d]. *)
Fixpoint last_option (p : ff_request_option_node -> bool)
    (options : list ff_request_option_node) (d : option ff_request_option_node)
    : option ff_request_option_node :=
  match options with
  | [] => d
  | o :: rest => last_option p rest (if p o then Some o else d)
  end.

Definition has_type (ty : Z) (o : ff_request_option_node) : bool := opt_type o =? ty.
Definition has_byte (ty : Z) (o : ff_request_option_node) : bool :=
  (opt_type o =? ty) && (opt_length o =? 1).

Lemma has_type_eq ty o : has_type ty o = (opt_type o =? ty).
Proof. done. Qed.
Lemma has_byte_eq ty o : has_byte ty o = (opt_type o =? ty) && (opt_length o =? 1).
Proof. done. Qed.

(** The byte of the last one-byte option of a type, 0 without one. *)
Definition option_byte (ty : Z) (options : list ff_request_option_node) : Z :=
  default 0 (o ← last_option (has_byte ty) options None; head (opt_bytes o)).

Definition option_bytes (ty : Z) (options : list ff_request_option_node) : option (list Z) :=
  opt_bytes <$> last_option (has_type ty) options None.

Lemma zlen_opt_bytes o : wf_option o -> zlen (opt_bytes o) = opt_length o.
Proof. intros [_ _ _ Hl [Hv _]]. apply zlen_slice; lia. Qed.

Lemma copy_value_ok o : wf_option o -> copy_value o = Ok (opt_bytes o).
Proof.
  intros Ho. pose proof (zlen_opt_bytes o Ho) as Hz. destruct Ho as [_ _ _ Hl [Hv _]].
  unfold copy_value. rewrite mem_read_slice by lia. cbn [mbind res_bind].
  apply mem_write_ok. fold (opt_bytes o). rewrite zlen_malloc, Hz by lia.
  split_and!; [lia..|]. simpl. rewrite drop_ge; [by rewrite app_nil_r|].
  unfold zlen in Hz. unfold malloc. rewrite length_replicate. lia.
Qed.

Lemma load_first_byte o : wf_option o -> opt_length o = 1 ->
  exists b, load_byte (opt_value o) 0 = Ok b /\ head (opt_bytes o) = Some b.
Proof.
  intros [_ _ _ _ [Hv Hb]] H1. rewrite H1 in *. unfold opt_bytes. rewrite H1.
  destruct (opt_value o) as [|b v] eqn:E; [unfold zlen in Hv; simpl in Hv; lia|].
  exists b. split; [|done]. apply load_byte_ok. split_and!; [done|done|].
  cbn in Hb. by apply Forall_inv in Hb.
Qed.

Lemma visited_options_ok r : wf_request r -> visited_options r = Ok (rq_options r).
Proof.
  intros Hwf. unfold visited_options. rewrite (wf_options_length _ Hwf).
  rewrite bool_decide_true by done. cbn. f_equal. apply take_ge. unfold zlen. lia.
Qed.

Lemma derive_options_loop_ok options : Forall wf_option options -> forall m s l om os,
  m = default 0 (om ≫= (fun o => head (opt_bytes o))) ->
  s = opt_bytes <$> os -> (forall o, os = Some o -> l = zlen (opt_bytes o)) -> (os = None -> l = 0) ->
  let om' := last_option (has_byte FF_REQUEST_OPTION_TYPE_KEY_DERIVE_MODE) options om in
  let os' := last_option (has_type FF_REQUEST_OPTION_TYPE_KEY_DERIVE_SALT) options os in
  derive_options_loop options m s l =
    Ok (default 0 (om' ≫= (fun o => head (opt_bytes o))), opt_bytes <$> os',
        default 0 ((fun o => zlen (opt_bytes o)) <$> os')).
Proof.
  induction 1 as [|o options Ho _ IH]; intros m s l om os -> -> Hl1 Hl2;
    cbv zeta; cbn [derive_options_loop last_option].
  - do 3 f_equal. destruct os as [o|]; simpl; eauto.
  - rewrite !has_byte_eq, !has_type_eq.
    destruct (Z.eqb_spec (opt_type o) FF_REQUEST_OPTION_TYPE_KEY_DERIVE_MODE) as [Ht|Ht].
    + rewrite (proj2 (Z.eqb_neq (opt_type o) FF_REQUEST_OPTION_TYPE_KEY_DERIVE_SALT))
        by (rewrite Ht; done).
      destruct (Z.eqb_spec (opt_length o) 1) as [H1|H1]; cbn [andb]; [|by apply IH].
      destruct (load_first_byte o Ho H1) as (b&Hb&Hh). rewrite Hb. cbn [mbind res_bind].
      apply IH; try done. cbn. by rewrite Hh.
    + cbn [andb].
      destruct (Z.eqb_spec (opt_type o) FF_REQUEST_OPTION_TYPE_KEY_DERIVE_SALT) as [Hs|Hs];
        [|by apply IH].
      rewrite copy_value_ok by done. cbn [mbind res_bind]. apply IH; try done.
      intros o' [= <-]. symmetry. by apply zlen_opt_bytes.
Qed.

Definition crypto_params (m : Z) (oiv otag : option ff_request_option_node) : crypto_options :=
  mk_crypto_options m (opt_bytes <$> oiv) (default 0 ((fun o => zlen (opt_bytes o)) <$> oiv))
    (opt_bytes <$> otag) (default 0 ((fun o => zlen (opt_bytes o)) <$> otag)).

Lemma crypto_options_loop_ok options : Forall wf_option options -> forall om oiv otag,
  crypto_options_loop options
    (crypto_params (default 0 (om ≫= (fun o => head (opt_bytes o)))) oiv otag) =
    Ok (crypto_params
      (default 0 (last_option (has_byte FF_REQUEST_OPTION_TYPE_ENCRYPTION_MODE) options om
                    ≫= (fun o => head (opt_bytes o))))
      (last_option (has_type FF_REQUEST_OPTION_TYPE_ENCRYPTION_IV) options oiv)
      (last_option (has_type FF_REQUEST_OPTION_TYPE_ENCRYPTION_TAG) options otag)).
Proof.
  induction 1 as [|o options Ho _ IH]; intros om oiv otag; [done|].
  cbn [crypto_options_loop last_option]. unfold crypto_params in *. cbn [co_mode co_iv co_iv_len
    co_tag co_tag_len]. rewrite !has_byte_eq, !has_type_eq.
  destruct (Z.eqb_spec (opt_type o) FF_REQUEST_OPTION_TYPE_ENCRYPTION_MODE) as [Ht|Ht].
  - rewrite (proj2 (Z.eqb_neq (opt_type o) FF_REQUEST_OPTION_TYPE_ENCRYPTION_IV)),
      (proj2 (Z.eqb_neq (opt_type o) FF_REQUEST_OPTION_TYPE_ENCRYPTION_TAG))
      by (rewrite Ht; done).
    destruct (Z.eqb_spec (opt_length o) 1) as [H1|H1]; cbn [andb]; [|by apply IH].
    destruct (load_first_byte o Ho H1) as (b&Hb&Hh). rewrite Hb. cbn [mbind res_bind].
    rewrite <- IH. cbn. by rewrite Hh.
  - cbn [andb]. destruct (Z.eqb_spec (opt_type o) FF_REQUEST_OPTION_TYPE_ENCRYPTION_IV) as [Hi|Hi].
    + rewrite (proj2 (Z.eqb_neq (opt_type o) FF_REQUEST_OPTION_TYPE_ENCRYPTION_TAG))
        by (rewrite Hi; done).
      rewrite copy_value_ok by done. cbn [mbind res_bind]. rewrite <- IH. cbn.
      by rewrite zlen_opt_bytes.
    + destruct (Z.eqb_spec (opt_type o) FF_REQUEST_OPTION_TYPE_ENCRYPTION_TAG) as [Hg|Hg];
        [|by apply IH].
      rewrite copy_value_ok by done. cbn [mbind res_bind]. rewrite <- IH. cbn.
      by rewrite zlen_opt_bytes.
Qed.

(** ** Key derivation *)

Section Facts.
Context {OS : OpenSSL} {OL : OpenSSLLaws}.

(** The key the request and the configuration determine. *)
Definition derived (options : list ff_request_option_node) (pass : list Z) (iterations : Z)
    : option (list Z) :=
  if option_byte FF_REQUEST_OPTION_TYPE_KEY_DERIVE_MODE options =? FF_KEY_DERIVE_MODE_PBKDF2 then
    match option_bytes FF_REQUEST_OPTION_TYPE_KEY_DERIVE_SALT options with
    | Some (b :: salt) => PKCS5_PBKDF2_HMAC pass (b :: salt) (s32 iterations) 32
    | _ => None
    end
  else None.

Lemma mem_write_all n data : zlen data = n -> mem_write (replicate (Z.to_nat n) 0) 0 data = Ok data.
Proof.
  intros Hn. apply mem_write_ok. unfold zlen in *. rewrite length_replicate.
  split_and!; [lia|lia|]. simpl. rewrite drop_ge; [by rewrite app_nil_r|].
  rewrite length_replicate. lia.
Qed.

Lemma derive_key_ok r config key pass : wf_request r ->
  ec_key config = Some key -> c_string key = Ok pass ->
  ff_derive_key r config (ff_derived_key_alloc 32) =
    Ok ((fun k => mk_derived_key k 32) <$>
          derived (rq_options r) pass (ec_pbkdf2_iterations config)).
Proof.
  intros Hwf Hkey Hpass. unfold ff_derive_key. rewrite visited_options_ok by done.
  cbn [mbind res_bind].
  rewrite (derive_options_loop_ok _ (wf_options _ Hwf) 0 None 0 None None) by done.
  cbn [mbind res_bind]. unfold derived, option_byte, option_bytes.
  set (m := default 0 _). set (os := last_option (has_type _) _ _).
  destruct (Z.eqb_spec m 0) as [->|Hm]; [done|].
  destruct os as [o|]; cbn [fmap option_fmap option_map]; [|by destruct (_ =? _)].
  destruct (opt_bytes o) as [|b salt] eqn:Hb.
  { change (default 0 (Some (zlen (@nil Z))) =? 0) with true. by destruct (m =? _). }
  cbn [default]. rewrite (proj2 (Z.eqb_neq _ 0)) by (unfold zlen; simpl; lia).
  destruct (Z.eqb_spec m FF_KEY_DERIVE_MODE_PBKDF2) as [Hmode|Hmode]; [|done].
  unfold ff_derive_key_pbkdf2. rewrite Hkey, Hpass. cbn [mbind res_bind].
  rewrite mem_read_slice by (unfold zlen; simpl; lia).
  cbn [mbind res_bind]. rewrite slice_full by done. cbn [ff_derived_key_alloc dk_length dk_key].
  destruct (PKCS5_PBKDF2_HMAC _ _ _ _) as [k|] eqn:Hk; [|done]. cbn.
  rewrite mem_write_all by (by eapply pbkdf2_out). done.
Qed.

(** ** The cipher loop *)

Lemma mem_write_app pre rest data : zlen data <= zlen rest ->
  mem_write (pre ++ rest) (zlen pre) data = Ok ((pre ++ data) ++ drop (length data) rest).
Proof.
  intros Hl. apply mem_write_ok. rewrite zlen_app. pose proof (zlen_nonneg pre).
  split_and!; [lia|lia|]. unfold zlen. rewrite Nat2Z.id.
  rewrite take_app_length, drop_app_ge, <- app_assoc by lia. do 3 f_equal. lia.
Qed.

Lemma wf_node_read n : wf_node n ->
  mem_read (node_value n) 0 (node_length n) = Ok (node_bytes n) /\
  zlen (node_bytes n) = node_length n /\ bytes (node_bytes n).
Proof.
  intros [_ Hl [Hv Hb]]. unfold node_bytes. rewrite mem_read_slice, zlen_slice by lia. done.
Qed.

Lemma sum_lengths_nonneg nodes : Forall wf_node nodes -> 0 <= sum_lengths nodes.
Proof.
  induction 1 as [|n nodes [_ Hl _] _ IH]; unfold sum_lengths in *; cbn [foldr]; lia.
Qed.

Lemma decrypt_loop_ok nodes : Forall wf_node nodes -> forall ctx pre rest,
  sum_lengths nodes <= zlen rest ->
  match decrypt_updates ctx (map node_bytes nodes) with
  | Some (ctx', out) => decrypt_loop ctx nodes (pre ++ rest) (zlen pre) =
      Ok (Some (ctx', (pre ++ out) ++ drop (length out) rest, zlen pre + zlen out)) /\
      zlen out = sum_lengths nodes /\ bytes out
  | None => decrypt_loop ctx nodes (pre ++ rest) (zlen pre) = Ok None
  end.
Proof.
  induction 1 as [|n nodes Hn Hnodes IH]; intros ctx pre rest Hl.
  { cbn. rewrite app_nil_r, drop_0, Z.add_0_r. done. }
  destruct (wf_node_read n Hn) as (Hread&Hlen&Hb). pose proof (sum_lengths_nonneg _ Hnodes) as Hs.
  unfold sum_lengths in Hl; cbn [foldr] in Hl; fold (sum_lengths nodes) in Hl.
  cbn [decrypt_updates decrypt_loop map]. rewrite Hread. cbn [mbind res_bind].
  destruct (EVP_DecryptUpdate ctx (node_bytes n)) as [[ctx1 out]|] eqn:Hu; [|done].
  destruct (decrypt_update_out _ _ _ _ Hb Hu) as [Hout Hbo].
  cbn [try_bind mbind res_bind option_bind].
  rewrite mem_write_app by lia. cbn [mbind res_bind].
  rewrite <- zlen_app.
  specialize (IH ctx1 (pre ++ out) (drop (length out) rest)).
  assert (sum_lengths nodes <= zlen (drop (length out) rest)) as Hl'.
  { unfold zlen in *. rewrite length_drop. lia. }
  specialize (IH Hl').
  destruct (decrypt_updates ctx1 (map node_bytes nodes)) as [[ctx2 outs]|]; [|done].
  destruct IH as (IH&Hz&Hbs). rewrite IH. cbn.
  rewrite !zlen_app, Z.add_assoc, drop_drop, length_app, <- !app_assoc. split_and!; [done| |].
  - unfold sum_lengths in *. lia.
  - by apply Forall_app.
Qed.

(** The request with the plaintext [pt] as its payload. *)
Definition decrypted (r : ff_request) (pt : list Z) : ff_request :=
  set_payload (PayloadNodes [mk_node 0 (u16 (zlen pt))
      (pt ++ drop (length pt) (malloc (rq_payload_length r)))])
    (set_payload_length (zlen pt) r).

Lemma decrypt_aes_ok r config key pass iv tag nodes :
  wf_request r -> ec_key config = Some key -> c_string key = Ok pass ->
  rq_payload r = PayloadNodes nodes -> nodes <> [] -> sum_lengths nodes <= rq_payload_length r ->
  let result :=
    k ← derived (rq_options r) pass (ec_pbkdf2_iterations config);
    gcm_decrypt k iv (map node_bytes nodes) tag in
  ff_decrypt_request_aes_256_gcm r config iv (zlen iv) tag (zlen tag) =
    Ok (decrypted r <$> result) /\
  (forall pt, result = Some pt -> zlen pt = sum_lengths nodes /\ bytes pt).
Proof.
  intros Hwf Hkey Hpass Hpay Hne Hsum result.
  assert (Forall wf_node nodes) as Hnodes.
  { destruct (wf_payload _ Hwf) as (nodes'&Hp'&Hn'&_).
    rewrite Hpay in Hp'. by injection Hp' as <-. }
  unfold ff_decrypt_request_aes_256_gcm. rewrite (derive_key_ok r config key pass) by done.
  rewrite Hpay. unfold result, gcm_decrypt.
  destruct (derived _ _ _) as [k|]; cbn [fmap option_fmap option_map try_bind mbind res_bind
    option_bind dk_key]; [|done].
  destruct EVP_CIPHER_CTX_new as [c1|]; cbn [try_bind mbind res_bind option_bind]; [|done].
  destruct (EVP_DecryptInit_cipher c1) as [c2|]; cbn [try_bind mbind res_bind option_bind]; [|done].
  destruct (EVP_ctrl_set_ivlen c2 _) as [c3|]; cbn [try_bind mbind res_bind option_bind]; [|done].
  destruct (EVP_DecryptInit_key c3 k iv) as [c4|]; cbn [try_bind mbind res_bind option_bind];
    [|done].
  destruct nodes as [|n nodes]; [done|].
  pose proof (decrypt_loop_ok (n :: nodes) Hnodes c4 [] (malloc (rq_payload_length r))) as Hloop.
  change (zlen (@nil Z)) with 0 in Hloop. cbn [app] in Hloop.
  specialize (Hloop ltac:(rewrite zlen_malloc; [done|]; apply Hwf)).
  destruct (decrypt_updates c4 _) as [[c5 out]|]; cbn [mbind option_bind];
    [|rewrite Hloop; done].
  destruct Hloop as (Hloop&Hz&Hb). rewrite Hloop. cbn [try_bind mbind res_bind].
  destruct (EVP_ctrl_set_tag c5 _ tag) as [c6|]; cbn [try_bind mbind res_bind option_bind]; [|done].
  destruct (EVP_DecryptFinal_ex c6) as [fin|] eqn:Hfin;
    cbn [try_bind mbind res_bind option_bind]; [|done].
  apply decrypt_final_out in Hfin as ->. rewrite Z.add_0_l, app_nil_r.
  rewrite mem_write_app by (change (zlen (@nil Z)) with 0; apply zlen_nonneg).
  cbn [mbind res_bind fmap option_fmap option_map]. rewrite app_nil_r, drop_0.
  change (zlen (@nil Z)) with 0. rewrite Z.add_0_r. split; [done|]. by intros pt [= <-].
Qed.

(** ** The request *)

(** What authenticated decryption with the parameters of the request gives. *)
Definition authenticated (options : list ff_request_option_node) (pass : list Z)
    (iterations : Z) (chunks : list (list Z)) : option (list Z) :=
  if option_byte FF_REQUEST_OPTION_TYPE_ENCRYPTION_MODE options =? FF_CRYPTO_MODE_AES_256_GCM then
    match option_bytes FF_REQUEST_OPTION_TYPE_ENCRYPTION_IV options,
          option_bytes FF_REQUEST_OPTION_TYPE_ENCRYPTION_TAG options with
    | Some (b :: iv), Some (c :: tag) =>
        k ← derived options pass iterations; gcm_decrypt k (b :: iv) chunks (c :: tag)
    | _, _ => None
    end
  else None.

Definition decrypt_result (r : ff_request) (o : option (list Z)) : ff_request :=
  match o with
  | Some pt => decrypt_done (decrypted (set_state FF_REQUEST_STATE_DECRYPTING r) pt)
  | None => decrypt_error (set_state FF_REQUEST_STATE_DECRYPTING r)
  end.

Lemma crypto_options_request r : wf_request r ->
  crypto_options_loop (rq_options r) (mk_crypto_options 0 None 0 None 0) =
    Ok (crypto_params (option_byte FF_REQUEST_OPTION_TYPE_ENCRYPTION_MODE (rq_options r))
          (last_option (has_type FF_REQUEST_OPTION_TYPE_ENCRYPTION_IV) (rq_options r) None)
          (last_option (has_type FF_REQUEST_OPTION_TYPE_ENCRYPTION_TAG) (rq_options r) None)).
Proof. intros Hwf. apply (crypto_options_loop_ok _ (wf_options _ Hwf) None None None). Qed.

Lemma decrypt_request_keyed r config key pass nodes :
  wf_request r -> ec_key config = Some key -> c_string key = Ok pass ->
  rq_payload r = PayloadNodes nodes -> nodes <> [] -> sum_lengths nodes <= rq_payload_length r ->
  let o := authenticated (rq_options r) pass (ec_pbkdf2_iterations config)
             (map node_bytes nodes) in
  ff_decrypt_request r (Some config) = Ok (decrypt_result r o) /\
  (forall pt, o = Some pt -> zlen pt = sum_lengths nodes /\ bytes pt).
Proof.
  intros Hwf Hkey Hpass Hpay Hne Hsum o. unfold ff_decrypt_request. rewrite Hkey.
  set (r0 := set_state FF_REQUEST_STATE_DECRYPTING r).
  assert (wf_request r0) as Hwf0 by (by apply wf_set_state).
  change (rq_options r) with (rq_options r0) in *. change (rq_payload r) with (rq_payload r0) in *.
  change (rq_payload_length r) with (rq_payload_length r0) in *.
  rewrite visited_options_ok by done. cbn [mbind res_bind].
  rewrite crypto_options_request by done. cbn [mbind res_bind]. unfold o, authenticated, option_bytes.
  set (m := option_byte _ _). set (oiv := last_option _ _ _).
  set (otag := last_option (has_type FF_REQUEST_OPTION_TYPE_ENCRYPTION_TAG) _ _).
  unfold crypto_params. cbn [co_mode co_iv co_iv_len co_tag co_tag_len].
  destruct (Z.eqb_spec m 0) as [->|Hm]; [done|].
  destruct oiv as [o1|]; cbn [fmap option_fmap option_map default id];
    [|by destruct (m =? _)].
  destruct (opt_bytes o1) as [|b iv]; [change (zlen (@nil Z) =? 0) with true; by destruct (m =? _)|].
  rewrite (proj2 (Z.eqb_neq (zlen (b :: iv)) 0)) by (unfold zlen; simpl; lia).
  destruct otag as [o2|]; cbn [fmap option_fmap option_map default id]; [|by destruct (m =? _)].
  destruct (opt_bytes o2) as [|c tag]; [change (zlen (@nil Z) =? 0) with true; by destruct (m =? _)|].
  rewrite (proj2 (Z.eqb_neq (zlen (c :: tag)) 0)) by (unfold zlen; simpl; lia).
  destruct (m =? FF_CRYPTO_MODE_AES_256_GCM); [|done].
  destruct (decrypt_aes_ok r0 config key pass (b :: iv) (c :: tag) nodes Hwf0 Hkey Hpass Hpay Hne
    Hsum) as [Haes Hpt].
  rewrite Haes. split; [|done]. cbn [mbind res_bind].
  by destruct (derived _ _ _ ≫= _).
Qed.

Lemma decrypt_request_no_key r config : wf_request r ->
  (config = None \/ exists c, config = Some c /\ ec_key c = None) ->
  ff_decrypt_request r config =
    Ok (set_state (if option_byte FF_REQUEST_OPTION_TYPE_ENCRYPTION_MODE (rq_options r) =? 0
                   then FF_REQUEST_STATE_DECRYPTED else FF_REQUEST_STATE_DECRYPTING_FAILED) r).
Proof.
  intros Hwf Hc. unfold ff_decrypt_request.
  rewrite visited_options_ok by (by apply wf_set_state). cbn [mbind res_bind].
  rewrite crypto_options_request by (by apply wf_set_state). cbn [mbind res_bind].
  unfold crypto_params. cbn [co_mode].
  change (rq_options (set_state _ r)) with (rq_options r).
  destruct Hc as [->|(c&->&->)]; by destruct (_ =? 0).
Qed.

(** The decrypted request is well formed. *)
Lemma wf_decrypted r nodes pt :
  wf_request r -> rq_payload r = PayloadNodes nodes -> sum_lengths nodes < 65536 ->
  sum_lengths nodes <= rq_payload_length r ->
  zlen pt = sum_lengths nodes -> bytes pt -> wf_request (decrypted r pt).
Proof.
  intros [H1 H2 H3 H4 (nodes'&Hp&Hn&Hd&Hr)] Hpay Hlt Hsum Hz Hb.
  rewrite Hpay in Hp. injection Hp as <-. pose proof (zlen_nonneg pt).
  split; cbn; try done; [lia|]. eexists. split; [done|]. split_and!.
  - constructor; [|constructor]. rewrite u16_small by lia. split; cbn; [lia|lia|].
    split.
    + rewrite zlen_app. pose proof (zlen_nonneg (drop (length pt) (malloc (rq_payload_length r)))).
      lia.
    + by rewrite slice_0_app.
  - by repeat constructor.
  - rewrite Hr. cbn. rewrite u16_small by lia. f_equal. lia.
Qed.
End Facts.
