(* ===== verification/Client.v ===== *)
(** * The C client: client/c/client.c and client/c/crypto.c

    The client reads a payload, puts options in front of it, encrypts it when
    a key is set, cuts it into packets and sends them.  The clock, the random
    bytes and what the calls of the network return are arguments. *)

From S2P Require Import Prelude Bytes Request Strings Crypto.

(** ** client/c/client_p.h, client/c/config.h *)

Definition FF_CLIENT_READ_PAYLOAD_BUFFER_SIZE : Z := 1024.
Definition FF_CLIENT_MAX_PACKETS : Z := 1024.
Definition FF_CLIENT_MAX_PACKET_LENGTH : Z := 1300.

Record ff_client_packet : Type := mk_client_packet {
  cp_value : list Z;
  cp_length : Z;         (* uint16_t *)
}.

Record ff_client_config : Type := mk_client_config {
  cc_port : option (list Z);
  cc_ip_address : option (list Z);
  cc_https : bool;
  cc_encryption : ff_encryption_config;
  cc_logging_level : Z;
}.

Section Client.
Context {HO : HostOrder}.

(** ** Writing options *)

(** The [for] loop of [ff_client_write_options] on the block of [buffer],
    which starts at [off] of the block. *)
Fixpoint write_options_loop (options : list ff_request_option_node) (block : list Z)
    (off buff_i : Z) : res (Z * list Z) :=
  match options with
  | [] => Ok (buff_i, block)
  | o :: rest =>
      block ← mem_write block (off + buff_i) [u8 (opt_type o)];
      block ← mem_write block (off + buff_i + 1) (host_split 2 (htons (opt_length o)));
      let buff_i := u32 (buff_i + 3) in
      value ← mem_read (opt_value o) 0 (opt_length o);
      block ← mem_write block (off + buff_i) value;
      write_options_loop rest block off (u32 (buff_i + opt_length o))
  end.

Definition ff_client_write_options (block : list Z) (off : Z)
    (options : list ff_request_option_node) (amount : Z) : res (Z * list Z) :=
  _ ← guard_res (bool_decide (amount <= zlen options)) OutOfBounds;
  write_options_loop (take (Z.to_nat amount) options) block off 0.

(** ** The payload *)

(** The loop for the last node never runs: [next_node] starts as [NULL]. *)
Definition ff_client_request_add_payload (r : ff_request) (node : ff_request_payload_node)
    : res ff_request :=
  match rq_payload r with
  | PayloadDangling => Err UseAfterFree
  | PayloadNodes [] =>
      Ok (set_payload_length (u64 (rq_payload_length r + node_length node))
            (set_payload (PayloadNodes [node]) r))
  | PayloadNodes (last_node :: _) =>
      let node := mk_node (u16 (node_offset last_node + node_length last_node))
                    (node_length node) (node_value node) in
      Ok (set_payload_length (u64 (rq_payload_length r + node_length node))
            (set_payload (PayloadNodes [last_node; node]) r))
  end.

(** The options that go into the payload. *)
Definition payload_option_list (https : bool) (now : Z) : list ff_request_option_node :=
  (if https then [mk_option FF_REQUEST_OPTION_TYPE_HTTPS 1 [1]] else []) ++
  [mk_option FF_REQUEST_OPTION_TYPE_TIMESTAMP 8 (host_split 8 (htonll (u64 now)));
   mk_option FF_REQUEST_OPTION_TYPE_EOL (opt_length ff_request_option_node_alloc)
     (opt_value ff_request_option_node_alloc)].

(** [length] after one [+=] per option, each option with its header. *)
Definition options_size (options : list ff_request_option_node) : Z :=
  foldl (fun length o => u16 (length + (3 + opt_length o))) 0 options.

(** Returns the number of options and the request. *)
Definition ff_client_create_payload_options (r : ff_request) (config : ff_client_config)
    (now : Z) : res (Z * ff_request) :=
  let options := payload_option_list (cc_https config) now in
  let option_i := zlen options in
  let length := options_size options in
  '(_, value) ← ff_client_write_options (malloc length) 0 options option_i;
  let payload := mk_node (node_offset ff_request_payload_node_alloc) length value in
  r ← ff_client_request_add_payload r payload;
  Ok (option_i, r).

(** [realloc] *)
Definition realloc (block : list Z) (size : Z) : list Z :=
  take (Z.to_nat size) block ++
  replicate (Z.to_nat size - length block) indet.

(** The [while] loop of [ff_client_read_payload_from_file]: [file] is what is
    left to read.  [None] is [exit(1)], which [realloc] to no bytes leads to. *)
Fixpoint read_payload_loop (fuel : nat) (file value : list Z) (payload_length : Z)
    : res (option (list Z * Z)) :=
  match fuel with
  | O => Err OutOfFuel
  | S fuel =>
      let buffer := take (Z.to_nat FF_CLIENT_READ_PAYLOAD_BUFFER_SIZE) file in
      let chunk_length := u16 (zlen buffer) in
      if chunk_length =? 0 then Ok (Some (value, payload_length))
      else
        let payload_length := u16 (payload_length + chunk_length) in
        if payload_length =? 0 then Ok None
        else
          let value := realloc value payload_length in
          value ← mem_write value 0 buffer;
          read_payload_loop fuel (drop (Z.to_nat FF_CLIENT_READ_PAYLOAD_BUFFER_SIZE) file)
            value payload_length
  end.

Definition ff_client_read_payload_from_file (r : ff_request) (file : list Z)
    : res (option ff_request) :=
  p ←? read_payload_loop (S (length file)) file (malloc FF_CLIENT_READ_PAYLOAD_BUFFER_SIZE) 0;
  let '(value, payload_length) := p in
  let payload := mk_node (node_offset ff_request_payload_node_alloc) payload_length value in
  r ← ff_client_request_add_payload r payload;
  Ok (Some r).

(** ** Packets *)

(** [struct ff_client_packet] takes 16 bytes, and the array is allocated with
    the size of 1024 pointers. *)
Definition packets_capacity : Z := FF_CLIENT_MAX_PACKETS * 8 / 16.

(** The block of a packet: header, options and chunk.  [count] is the number
    of packets before it. *)
Definition write_packet (r : ff_request) (request_id chunk_offset bytes_left count : Z)
    : res (ff_client_packet * Z) :=
  let buffer := replicate (Z.to_nat FF_CLIENT_MAX_PACKET_LENGTH) 0 in
  buffer ← mem_write buffer 0 (host_split 2 (htons FF_VERSION_1));
  buffer ← mem_write buffer 2 (host_split 8 (htonll request_id));
  buffer ← mem_write buffer 10 (host_split 4 (htonl (rq_payload_length r)));
  buffer ← mem_write buffer 14 (host_split 4 (htonl chunk_offset));
  let packet_length := 20 in
  '(packet_length, buffer) ←
    (if count =? 0 then
       '(n, buffer) ← ff_client_write_options buffer packet_length (rq_options r)
                        (rq_options_length r);
       Ok (u16 (packet_length + n), buffer)
     else
       buffer ← mem_write buffer packet_length [FF_REQUEST_OPTION_TYPE_EOL];
       buffer ← mem_write buffer (packet_length + 1) (host_split 2 0);
       Ok (packet_length + 3, buffer));
  let bytes_left_in_packet := u16 (FF_CLIENT_MAX_PACKET_LENGTH - packet_length) in
  let chunk_length :=
    if bytes_left_in_packet <? bytes_left then bytes_left_in_packet else bytes_left in
  buffer ← mem_write buffer 18 (host_split 2 (htons chunk_length));
  match rq_payload r with
  | PayloadDangling => Err UseAfterFree
  | PayloadNodes [] => Err NullDeref
  | PayloadNodes (payload :: _) =>
      chunk ← mem_read (node_value payload) chunk_offset chunk_length;
      buffer ← mem_write buffer packet_length chunk;
      Ok (mk_client_packet buffer (u16 (packet_length + chunk_length)), chunk_length)
  end.

Fixpoint packetise_loop (fuel : nat) (r : ff_request) (request_id chunk_offset bytes_left : Z)
    (packets : list ff_client_packet) : res (list ff_client_packet) :=
  match fuel with
  | O => Err OutOfFuel
  | S fuel =>
      if bytes_left <=? 0 then Ok packets
      else
        '(packet, chunk_length) ←
          write_packet r request_id chunk_offset bytes_left (u16 (zlen packets));
        _ ← guard_res (bool_decide (zlen packets < packets_capacity)) OutOfBounds;
        packetise_loop fuel r request_id (u32 (chunk_offset + chunk_length))
          (u16 (bytes_left - chunk_length)) (packets ++ [packet])
  end.

(** The eight random bytes as a number; [None] is [exit], when there are none. *)
Definition ff_client_generate_request_id (rnd : option (list Z)) : option Z :=
  buffer ← rnd;
  let b i := default 0 (buffer !! i) in
  Some (Z.lor (Z.lor (Z.lor (Z.lor (Z.lor (Z.lor (Z.lor (b 0%nat) (Z.shiftl (b 1%nat) 8))
    (Z.shiftl (b 2%nat) 16)) (Z.shiftl (b 3%nat) 24)) (Z.shiftl (b 4%nat) 32))
    (Z.shiftl (b 5%nat) 40)) (Z.shiftl (b 6%nat) 48)) (Z.shiftl (b 7%nat) 56)).

Definition ff_client_packetise_request (r : ff_request) (rnd_id : option (list Z))
    : res (option (list ff_client_packet)) :=
  request_id ←? Ok (ff_client_generate_request_id rnd_id);
  let bytes_left := u16 (rq_payload_length r) in
  Some <$> packetise_loop (S (Z.to_nat bytes_left)) r request_id 0 bytes_left [].

Definition ff_client_calculate_request_size (r : ff_request) : res Z :=
  options ← visited_options r;
  Ok (u32 (foldl (fun length o => u32 (u32 (length + 3) + opt_length o)) 20 options
           + rq_payload_length r)).
End Client.

(** ** Encryption: client/c/crypto.c *)

(** A new last element of [request->options], an array of 20 pointers. *)
Definition push_option (o : ff_request_option_node) (r : ff_request) : res ff_request :=
  _ ← guard_res (bool_decide (rq_options_length r < FF_REQUEST_MAX_OPTIONS)) OutOfBounds;
  Ok (set_options (u8 (rq_options_length r + 1))
        (take (Z.to_nat (rq_options_length r)) (rq_options r) ++ [o]) r).

(** A new option with the bytes of a buffer as its value. *)
Definition push_loaded (ty len : Z) (buff : list Z) (r : ff_request) : res ff_request :=
  o ← ff_request_option_load_buff (mk_option ty len (opt_value ff_request_option_node_alloc))
        len buff 0;
  push_option o r.

Section ClientCrypto.
Context {OS : OpenSSL}.

Fixpoint encrypt_loop (ctx : evp_ctx) (nodes : list ff_request_payload_node)
    (ciphertext_buff : list Z) (ciphertext_len : Z) : res (option (evp_ctx * list Z * Z)) :=
  match nodes with
  | [] => Ok (Some (ctx, ciphertext_buff, ciphertext_len))
  | node :: rest =>
      bs ← mem_read (node_value node) 0 (node_length node);
      p ←? Ok (EVP_EncryptUpdate ctx bs);
      let '(ctx, out) := p in
      ciphertext_buff ← mem_write ciphertext_buff ciphertext_len out;
      encrypt_loop ctx rest ciphertext_buff (ciphertext_len + zlen out)
  end.

(** [RAND_bytes] into a block of [n] bytes: the bytes it gives, or its failure. *)
Definition rand_bytes (n : Z) (rnd : option (list Z)) : res (option (list Z)) :=
  match rnd with
  | None => Ok None
  | Some bs => Some <$> mem_write (replicate (Z.to_nat n) 0) 0 bs
  end.

(** [None] is the return of [false]; otherwise the request and the IV, the
    tag and the salt. *)
Definition ff_client_encrypt_request_aes_256_gcm_pbkdf2 (r : ff_request)
    (config : ff_encryption_config) (rnd_salt rnd_iv : option (list Z))
    : res (option (ff_request * list Z * list Z * list Z)) :=
  let ciphertext_buff := malloc (rq_payload_length r) in
  salt ←? rand_bytes 16 rnd_salt;
  key ←? ff_derive_key_pbkdf2 config salt 16 (ff_derived_key_alloc 32);
  iv ←? rand_bytes 12 rnd_iv;
  ctx ←? Ok EVP_CIPHER_CTX_new;
  ctx ←? Ok (EVP_EncryptInit_cipher ctx);
  ctx ←? Ok (EVP_ctrl_set_ivlen ctx 12);
  ctx ←? Ok (EVP_EncryptInit_key ctx (dk_key key) iv);
  match rq_payload r with
  | PayloadDangling => Err UseAfterFree
  | PayloadNodes [] => Err NullDeref
  | PayloadNodes nodes =>
      p ←? encrypt_loop ctx nodes ciphertext_buff 0;
      let '(ctx, ciphertext_buff, ciphertext_len) := p in
      p ←? Ok (EVP_EncryptFinal_ex ctx);
      let '(ctx, out) := p in
      ciphertext_buff ← mem_write ciphertext_buff ciphertext_len out;
      let ciphertext_len := ciphertext_len + zlen out in
      tag ←? Ok (EVP_ctrl_get_tag ctx 16);
      tag ← mem_write (replicate 16 0) 0 tag;
      Ok (Some (set_payload_length ciphertext_len
                  (set_payload (PayloadNodes [mk_node 0 (u16 ciphertext_len) ciphertext_buff]) r),
                iv, tag, salt))
  end.

Definition ff_client_encrypt_request (r : ff_request) (config : option ff_encryption_config)
    (rnd_salt rnd_iv : option (list Z)) : res (option ff_request) :=
  match config with
  | None => Ok None
  | Some config =>
      p ←? ff_client_encrypt_request_aes_256_gcm_pbkdf2 r config rnd_salt rnd_iv;
      let '(r, iv, tag, salt) := p in
      r ← push_loaded FF_REQUEST_OPTION_TYPE_ENCRYPTION_MODE 1 [FF_CRYPTO_MODE_AES_256_GCM] r;
      r ← push_loaded FF_REQUEST_OPTION_TYPE_ENCRYPTION_IV 12 iv r;
      r ← push_loaded FF_REQUEST_OPTION_TYPE_ENCRYPTION_TAG 16 tag r;
      r ← push_loaded FF_REQUEST_OPTION_TYPE_KEY_DERIVE_MODE 1 [FF_KEY_DERIVE_MODE_PBKDF2] r;
      r ← push_loaded FF_REQUEST_OPTION_TYPE_KEY_DERIVE_SALT 16 salt r;
      Ok (Some r)
  end.

(** ** A request: [ff_client_make_request] up to the sending of its packets *)

(** The random bytes of a run: salt, IV and request id. *)
Record client_random : Type := mk_client_random {
  cr_salt : option (list Z);
  cr_iv : option (list Z);
  cr_id : option (list Z);
}.

Inductive client_outcome : Type :=
  | ClientExit                                   (** [exit] *)
  | ClientError (r : ff_request)                 (** the [error] exit before sending *)
  | ClientPackets (packets : list ff_client_packet) (r : ff_request).

Definition ff_client_make_packets `{!HostOrder} (config : ff_client_config) (file : list Z)
    (now : Z) (rnd : client_random) : res client_outcome :=
  let r := ff_request_alloc in
  '(options_in_payload, r) ← ff_client_create_payload_options r config now;
  o ← ff_client_read_payload_from_file r file;
  match o with
  | None => Ok ClientExit
  | Some r =>
      r ← ff_request_vectorise_payload r;
      o ← (match ec_key (cc_encryption config) with
           | Some _ =>
               ff_client_encrypt_request r (Some (cc_encryption config)) (cr_salt rnd) (cr_iv rnd)
           | None => Ok (Some r)
           end);
      match o with
      | None => Ok (ClientError r)
      | Some r =>
          r ← push_option (mk_option
                (if options_in_payload =? 0 then FF_REQUEST_OPTION_TYPE_EOL
                 else FF_REQUEST_OPTION_TYPE_BREAK)
                (opt_length ff_request_option_node_alloc)
                (opt_value ff_request_option_node_alloc)) r;
          o ← ff_client_packetise_request r (cr_id rnd);
          match o with
          | None => Ok ClientExit
          | Some packets => Ok (ClientPackets packets r)
          end
      end
  end.

(** ** Sending the packets *)

(** What the calls of [ff_client_send_request] return: whether the address
    was found and the socket opened, and the value of each [sendto]. *)
Record client_net : Type := mk_client_net {
  cn_getaddrinfo : option (list Z) -> option (list Z) -> bool;    (* address and port *)
  cn_socket : bool;
  cn_sendto : Z -> list Z -> Z;
}.

(** The [for] loop: the datagrams sent, and [false] for [goto error]. *)
Fixpoint send_loop (net : client_net) (i : Z) (packets : list ff_client_packet)
    (out : list (list Z)) : res (list (list Z) * bool) :=
  match packets with
  | [] => Ok (out, true)
  | p :: rest =>
      bs ← mem_read (cp_value p) 0 (cp_length p);
      if cn_sendto net i bs <=? 0 then Ok (out, false)
      else send_loop net (i + 1) rest (out ++ [bs])
  end.

(** Returns the datagrams sent and 0, or 1 on an error. *)
Definition ff_client_send_request (net : client_net) (config : ff_client_config)
    (packets : list ff_client_packet)
    : res (list (list Z) * Z) :=
  if negb (cn_getaddrinfo net (cc_ip_address config) (cc_port config)) then Ok ([], 1)
  else if negb (cn_socket net) then Ok ([], 1)
  else
    '(out, sent) ← send_loop net 0 packets [];
    Ok (out, if sent : bool then 0 else 1).

(** Returns the datagrams sent and the exit code ([exit(1)] included). *)
Definition ff_client_make_request `{!HostOrder} (config : ff_client_config) (file : list Z)
    (now : Z) (rnd : client_random) (net : client_net) : res (list (list Z) * Z) :=
  outcome ← ff_client_make_packets config file now rnd;
  match outcome with
  | ClientExit => Ok ([], 1)
  | ClientError r =>
      _ ← ff_request_free r;
      Ok ([], 1)
  | ClientPackets packets r =>
      '(out, ret) ← ff_client_send_request net config packets;
      _ ← ff_request_free r;
      if ret =? 0 then Ok (out, 0) else Ok (out, 1)
  end.

End ClientCrypto.
