(* ===== verification/ClientConfig.v ===== *)
(** * The arguments of the C client: client/c/config.h and client/c/config.c

    As for the server, one function per argument.  The options are written
    into the configuration as they come, the key, the iterations and the
    level at the end. *)

From S2P Require Import Prelude Bytes Request Strings Logging Crypto Config Client.

Inductive ff_client_action : Type :=
  | FF_CLIENT_ACTION_MAKE_REQUEST
  | FF_CLIENT_ACTION_PRINT_VERSION
  | FF_CLIENT_ACTION_PRINT_USAGE
  | FF_CLIENT_ACTION_INVALID_ARGS.

#[export] Instance ff_client_action_eq_dec : EqDecision ff_client_action.
Proof. solve_decision. Defined.

Definition FF_CLIENT_PARSE_ARG_STATE_DEFAULT : Z := 0.
Definition FF_CLIENT_PARSE_ARG_PARSE_PORT : Z := 1.
Definition FF_CLIENT_PARSE_ARG_PARSE_IP : Z := 2.
Definition FF_CLIENT_PARSE_ARG_PARSE_PSK : Z := 3.
Definition FF_CLIENT_PARSE_ARG_PARSE_PBKDF2_ITERATIONS : Z := 4.

Definition default_ip_address : list Z := chars "127.0.0.1".

(** [memset] of the configuration: [struct ff_config], whose size is passed,
    is as large as [struct ff_client_config]. *)
Definition zero_client_config : ff_client_config :=
  mk_client_config None None false (mk_encryption_config None 0) 0.

Definition set_cc_port (port : list Z) (c : ff_client_config) : ff_client_config :=
  mk_client_config (Some port) (cc_ip_address c) (cc_https c) (cc_encryption c)
    (cc_logging_level c).
Definition set_cc_ip_address (address : list Z) (c : ff_client_config) : ff_client_config :=
  mk_client_config (cc_port c) (Some address) (cc_https c) (cc_encryption c) (cc_logging_level c).
Definition set_cc_https (c : ff_client_config) : ff_client_config :=
  mk_client_config (cc_port c) (cc_ip_address c) true (cc_encryption c) (cc_logging_level c).

(** The local variables of [ff_client_parse_arguments]. *)
Record client_locals : Type := mk_client_locals {
  cl_state : Z;
  cl_logging_level : Z;
  cl_encryption : ff_encryption_config;
}.

Definition initial_client_locals : client_locals :=
  mk_client_locals FF_CLIENT_PARSE_ARG_STATE_DEFAULT FF_ERROR (mk_encryption_config None 1000).

Definition set_cl_state (state : Z) (l : client_locals) : client_locals :=
  mk_client_locals state (cl_logging_level l) (cl_encryption l).
Definition set_cl_level (level : Z) (l : client_locals) : client_locals :=
  mk_client_locals (cl_state l) level (cl_encryption l).
Definition set_cl_encryption (e : ff_encryption_config) (l : client_locals) : client_locals :=
  mk_client_locals (cl_state l) (cl_logging_level l) e.

Inductive client_arg_step : Type :=
  | ClientArgNext (l : client_locals) (config : ff_client_config)
  | ClientArgDone (action : ff_client_action) (config : ff_client_config) (err : list Z).

(** The [case] of the default state. *)
Definition client_option_name (arg : list Z) (l : client_locals) (config : ff_client_config)
    : client_arg_step :=
  if strcasecmp arg (chars "--help") =? 0
  then ClientArgDone FF_CLIENT_ACTION_PRINT_USAGE config []
  else if strcasecmp arg (chars "--version") =? 0
  then ClientArgDone FF_CLIENT_ACTION_PRINT_VERSION config []
  else if strcasecmp arg (chars "--port") =? 0
  then ClientArgNext (set_cl_state FF_CLIENT_PARSE_ARG_PARSE_PORT l) config
  else if strcasecmp arg (chars "--ip-address") =? 0
  then ClientArgNext (set_cl_state FF_CLIENT_PARSE_ARG_PARSE_IP l) config
  else if strcasecmp arg (chars "--pre-shared-key") =? 0
  then ClientArgNext (set_cl_state FF_CLIENT_PARSE_ARG_PARSE_PSK l) config
  else if strcasecmp arg (chars "--pbkdf2-iterations") =? 0
  then ClientArgNext (set_cl_state FF_CLIENT_PARSE_ARG_PARSE_PBKDF2_ITERATIONS l) config
  else if strcasecmp arg (chars "--https") =? 0 then ClientArgNext l (set_cc_https config)
  else if strcasecmp arg (chars "-vvv") =? 0 then ClientArgNext (set_cl_level FF_DEBUG l) config
  else if strcasecmp arg (chars "-vv") =? 0 then ClientArgNext (set_cl_level FF_INFO l) config
  else if strcasecmp arg (chars "-v") =? 0 then ClientArgNext (set_cl_level FF_WARNING l) config
  else ClientArgDone FF_CLIENT_ACTION_INVALID_ARGS config
         (chars "Unkown argument " ++ arg ++ [10; 10]).

(** The [switch] on the state. *)
Definition client_parse_arg (arg : list Z) (l : client_locals) (config : ff_client_config)
    : client_arg_step :=
  let default := set_cl_state FF_CLIENT_PARSE_ARG_STATE_DEFAULT in
  if cl_state l =? FF_CLIENT_PARSE_ARG_STATE_DEFAULT then client_option_name arg l config
  else if cl_state l =? FF_CLIENT_PARSE_ARG_PARSE_PORT then
    let port := atoi arg in
    if (port <=? 0) || (UINT16_MAX <? port)
    then ClientArgDone FF_CLIENT_ACTION_INVALID_ARGS config (invalid_arg (chars "--port") arg)
    else ClientArgNext (default l) (set_cc_port arg config)
  else if cl_state l =? FF_CLIENT_PARSE_ARG_PARSE_IP then
    ClientArgNext (default l) (set_cc_ip_address arg config)
  else if cl_state l =? FF_CLIENT_PARSE_ARG_PARSE_PSK then
    ClientArgNext (default (set_cl_encryption
      (mk_encryption_config (Some (c_block arg)) (ec_pbkdf2_iterations (cl_encryption l))) l))
      config
  else if cl_state l =? FF_CLIENT_PARSE_ARG_PARSE_PBKDF2_ITERATIONS then
    let pbkdf2_iterations :=
      match sscanf_u arg with Some n => n | None => ec_pbkdf2_iterations (cl_encryption l) end in
    if pbkdf2_iterations =? 0
    then ClientArgDone FF_CLIENT_ACTION_INVALID_ARGS config
           (invalid_arg (chars "--pbkdf2-iterations") arg)
    else ClientArgNext (default (set_cl_encryption
           (mk_encryption_config (ec_key (cl_encryption l)) pbkdf2_iterations) l)) config
  else ClientArgDone FF_CLIENT_ACTION_INVALID_ARGS config
         (chars "Unkown parse arg state" ++ [10; 10]).

(** The [for] loop. *)
Fixpoint client_args_loop (args : list (list Z)) (l : client_locals) (config : ff_client_config)
    : client_arg_step :=
  match args with
  | [] => ClientArgNext l config
  | arg :: rest =>
      match client_parse_arg arg l config with
      | ClientArgNext l config => client_args_loop rest l config
      | done => done
      end
  end.

(** Returns the action, the configuration and what was printed to [stderr];
    the configuration passed in is overwritten first. *)
Definition ff_client_parse_arguments (config : ff_client_config) (argv : list (list Z))
    : ff_client_action * ff_client_config * list Z :=
  match client_args_loop (tail argv) initial_client_locals zero_client_config with
  | ClientArgDone action config err => (action, config, err)
  | ClientArgNext l config =>
      match cc_port config with
      | None => (FF_CLIENT_ACTION_INVALID_ARGS, config, chars "--port is required" ++ [10; 10])
      | Some _ =>
          let config := match cc_ip_address config with
                        | None => set_cc_ip_address default_ip_address config
                        | Some _ => config
                        end in
          (FF_CLIENT_ACTION_MAKE_REQUEST,
           mk_client_config (cc_port config) (cc_ip_address config) (cc_https config)
             (cl_encryption l) (cl_logging_level l), [])
      end
  end.

Definition ff_client_usage_message : list Z :=
  chars "ff version " ++ FF_VERSION ++ [10; 10] ++
  line "make request: ff_client " ++
  line "    --port dest_port_num" ++
  line "    [--ip-address dest_server] # format: IPv[46] address or hostname " ++
  line "    [--pre-shared-key pre_shared_key] # encrypt the payload " ++
  line "    [--https]" ++
  line "    -v[vv] " ++
  line "    # Request body is read from STDIN" ++
  [10] ++
  line "show version : ff_client --version" ++
  line "show usage : ff_client --help".

Definition ff_client_print_usage : list Z := c_block ff_client_usage_message.
