(* ===== verification/ConfigFacts.v ===== *)
(** * What the parsers of the arguments do

    Each parser against the reading of its command line: the loop over the
    arguments, from the state in which the name of an option is expected. *)

From stdpp Require Import finite.
From S2P Require Import Prelude Bytes Request Strings Logging Args Crypto Config Client.
From S2P Require Import ClientConfig.

(** ** Comparison with the names of options *)

Definition name_is (a name : list Z) : bool := bool_decide (caseless a = name).

Lemma compare_name a name : c_chars a -> c_chars name -> caseless name = name ->
  (strcasecmp a name =? 0) = name_is a name.
Proof.
  intros Ha Hn Hl. rewrite strcasecmp_eq by done. unfold name_is. apply bool_decide_ext.
  by rewrite Hl.
Qed.

Lemma named_is a n name : named a n -> name_is a name = bool_decide (n = name).
Proof. intros Hn. apply bool_decide_ext. by rewrite <- Hn. Qed.

Lemma name_is_false a name : ~ named a name -> name_is a name = false.
Proof. apply bool_decide_eq_false_2. Qed.

Lemma chars_lower name : forallb (fun c => bool_decide (is_byte c /\ c <> 0) && (tolower c =? c)) name = true ->
  c_chars name /\ caseless name = name.
Proof.
  intros Hf. rewrite forallb_forall in Hf. split.
  - apply Forall_forall. intros c Hc. apply list_elem_of_In, Hf, andb_true_iff in Hc as [Hc _].
    by apply bool_decide_eq_true in Hc.
  - unfold caseless. induction name as [|c name IH]; [done|]. cbn [map]. f_equal.
    + specialize (Hf c (or_introl eq_refl)). apply andb_true_iff in Hf as [_ Hf]. by apply Z.eqb_eq.
    + apply IH. intros x Hx. apply Hf. by right.
Qed.

(** Turns the tests of an argument into decisions. *)
Ltac name_tests :=
  repeat match goal with
  | |- context [strcasecmp ?a ?n =? 0] =>
      rewrite (compare_name a n) by (first [done | by apply chars_lower])
  end.

(** ** The server *)

Inductive server_flag : Type := V6only | VerboseWarning | VerboseInfo | VerboseDebug.
Inductive server_option : Type := OptPort | OptIp | OptPsk | OptIterations | OptFudge.

#[export] Instance server_flag_eq_dec : EqDecision server_flag.
Proof. solve_decision. Defined.
#[export] Instance server_option_eq_dec : EqDecision server_option.
Proof. solve_decision. Defined.
#[export] Program Instance server_flag_finite : Finite server_flag :=
  {| enum := [V6only; VerboseWarning; VerboseInfo; VerboseDebug] |}.
Next Obligation. by apply (bool_decide_unpack _). Qed.
Next Obligation. intros []; by apply (bool_decide_unpack _). Qed.
#[export] Program Instance server_option_finite : Finite server_option :=
  {| enum := [OptPort; OptIp; OptPsk; OptIterations; OptFudge] |}.
Next Obligation. by apply (bool_decide_unpack _). Qed.
Next Obligation. intros []; by apply (bool_decide_unpack _). Qed.

Definition server_flag_name (f : server_flag) : list Z :=
  match f with
  | V6only => chars "--ipv6-v6only"
  | VerboseWarning => chars "-v"
  | VerboseInfo => chars "-vv"
  | VerboseDebug => chars "-vvv"
  end.

Definition server_option_name (o : server_option) : list Z :=
  match o with
  | OptPort => chars "--port"
  | OptIp => chars "--ip-address"
  | OptPsk => chars "--pre-shared-key"
  | OptIterations => chars "--pbkdf2-iterations"
  | OptFudge => chars "--timestamp-fudge-factor"
  end.

(** A number from 1 to 65535. *)
Definition small_number (arg : list Z) : Prop := 0 < atoi arg <= UINT16_MAX.

Definition family_of (address : list Z) : address_family :=
  if has_char 58 address then AF_INET6 else AF_INET.

Definition level_of (f : server_flag) : option Z :=
  match f with
  | V6only => None
  | VerboseWarning => Some FF_WARNING
  | VerboseInfo => Some FF_INFO
  | VerboseDebug => Some FF_DEBUG
  end.

Abbreviation server_items := (list (item server_flag server_option)).

(** The settings of a list of items: for each, the last item counts. *)
Definition verbosity (items : server_items) : option Z :=
  last_with (fun it => match it with Flag f => level_of f | Value _ _ => None end) items.

Definition wants_v6only (items : server_items) : bool :=
  existsb (fun it => match it with Flag V6only => true | _ => false end) items.

Section Server.
Variable inet_pton : address_family -> list Z -> bool.

Definition server_valid (o : server_option) (arg : list Z) : Prop :=
  match o with
  | OptPort => small_number arg
  | OptIp => inet_pton (family_of arg) arg = true
  | OptPsk => True
  | OptIterations => u32 (atoi arg) <> 0
  | OptFudge => small_number arg
  end.

#[export] Instance server_valid_dec o arg : Decision (server_valid o arg).
Proof. destruct o; cbn; unfold small_number; apply _. Defined.

Definition server_reading := reading server_flag_name server_option_name server_valid.

(** The local variables and the configuration after a list of items. *)
Definition read_locals (items : server_items) (l : arg_locals) : arg_locals :=
  mk_arg_locals
    (default (al_port l) (Some <$> last_value OptPort items))
    (default (al_listen_address l) (last_value OptIp items))
    (al_state l)
    (default (al_logging_level l) (verbosity items))
    (default (al_key l) ((fun k => Some (c_block k)) <$> last_value OptPsk items))
    (default (al_pbkdf2_iterations l) ((fun s => u32 (atoi s)) <$> last_value OptIterations items))
    (default (al_timestamp_fudge_factor l) (atoi <$> last_value OptFudge items)).

Definition read_config (items : server_items) (config : ff_config) : ff_config :=
  if wants_v6only items then set_v6only config else config.

Definition option_state (o : server_option) : Z :=
  match o with
  | OptPort => FF_PARSE_ARG_PARSE_PORT
  | OptIp => FF_PARSE_ARG_PARSE_IP
  | OptPsk => FF_PARSE_ARG_PARSE_PSK
  | OptIterations => FF_PARSE_ARG_PARSE_PBKDF2_ITERATIONS
  | OptFudge => FF_PARSE_ARG_PARSE_TIMESTAMP_FUDGE_FACTOR
  end.

Definition apply_flag (f : server_flag) (l : arg_locals) : arg_locals :=
  match level_of f with Some level => set_arg_level level l | None => l end.

Definition apply_value (o : server_option) (arg : list Z) (l : arg_locals) : arg_locals :=
  match o with
  | OptPort => set_arg_port arg l
  | OptIp => set_arg_address arg l
  | OptPsk => set_arg_key (c_block arg) l
  | OptIterations => set_arg_iterations (u32 (atoi arg)) l
  | OptFudge => set_arg_fudge (atoi arg) l
  end.

(** *** One argument *)

Lemma parse_flag a f l config : c_chars a -> named a (server_flag_name f) ->
  parse_option_name a l config =
    ArgNext (apply_flag f l) (match f with V6only => set_v6only config | _ => config end).
Proof.
  intros Ha Hn. unfold parse_option_name. name_tests. rewrite !(named_is _ _ _ Hn). by destruct f.
Qed.

Lemma parse_name a o l config : c_chars a -> named a (server_option_name o) ->
  parse_option_name a l config = ArgNext (set_arg_state (option_state o) l) config.
Proof.
  intros Ha Hn. unfold parse_option_name. name_tests. rewrite !(named_is _ _ _ Hn). by destruct o.
Qed.

Lemma parse_unknown a l config : c_chars a ->
  ~ named a (chars "--help") -> ~ named a (chars "--version") ->
  (forall f, ~ named a (server_flag_name f)) -> (forall o, ~ named a (server_option_name o)) ->
  parse_option_name a l config =
    ArgDone FF_ACTION_INVALID_ARGS config (chars "Unkown argument " ++ a ++ [10; 10]).
Proof.
  intros Ha Hh Hv Hf Ho. unfold parse_option_name. name_tests.
  assert (forall f n, server_flag_name f = n -> ~ named a n) as Hf' by (by intros f n <-).
  assert (forall o n, server_option_name o = n -> ~ named a n) as Ho' by (by intros o n <-).
  rewrite !name_is_false by first [done | by eapply (Hf' V6only) | by eapply (Hf' VerboseDebug)
    | by eapply (Hf' VerboseInfo) | by eapply (Hf' VerboseWarning) | by eapply (Ho' OptPort)
    | by eapply (Ho' OptIp) | by eapply (Ho' OptPsk) | by eapply (Ho' OptIterations)
    | by eapply (Ho' OptFudge)].
  done.
Qed.

Lemma parse_value o arg l config : al_state l = option_state o ->
  parse_arg inet_pton arg l config =
    if decide (server_valid o arg)
    then ArgNext (set_arg_state FF_PARSE_ARG_STATE_DEFAULT (apply_value o arg l)) config
    else ArgDone FF_ACTION_INVALID_ARGS config (invalid_arg (server_option_name o) arg).
Proof.
  intros Hs. unfold parse_arg. rewrite Hs. pose proof (u32_range (atoi arg)) as Hu.
  destruct (decide (server_valid o arg)) as [Hv|Hv]; destruct o;
    cbn [server_valid option_state server_option_name apply_value] in *;
    unfold small_number, family_of, UINT16_MAX in *;
    cbv [FF_PARSE_ARG_STATE_DEFAULT FF_PARSE_ARG_PARSE_PORT FF_PARSE_ARG_PARSE_IP
      FF_PARSE_ARG_PARSE_PSK FF_PARSE_ARG_PARSE_PBKDF2_ITERATIONS
      FF_PARSE_ARG_PARSE_TIMESTAMP_FUDGE_FACTOR Z.eqb Pos.eqb].
  all: try (destruct (Z.leb_spec (atoi arg) 0), (Z.ltb_spec 65535 (atoi arg)); try lia; cbn [orb];
            rewrite ?u16_small by lia; done).
  all: try (destruct (Z.leb_spec (u32 (atoi arg)) 0); try lia; done).
  - by rewrite Hv.
  - by destruct (inet_pton _ arg).
Qed.

(** *** The loop *)

Lemma read_flag f items l :
  read_locals (Flag f :: items) l = read_locals items (apply_flag f l).
Proof. unfold read_locals, verbosity, last_value. rewrite !last_with_cons. by destruct f. Qed.

Lemma read_value o arg items l :
  read_locals (Value o arg :: items) l = read_locals items (apply_value o arg l).
Proof.
  unfold read_locals, verbosity. rewrite !last_with_cons, !last_value_cons.
  destruct o; cbn [decide decide_rel]; f_equal; by destruct (last_value _ items).
Qed.

Lemma read_config_flag f items config :
  read_config (Flag f :: items) config =
    read_config items (match f with V6only => set_v6only config | _ => config end).
Proof. unfold read_config. destruct f; cbn; try done. by destruct (wants_v6only items). Qed.

(** What the loop returns for a reading. *)
Definition loop_result (items : server_items) (e : ending server_option) (l : arg_locals)
    (config : ff_config) : arg_step :=
  let config := read_config items config in
  match e with
  | EndOfArgs => ArgNext (read_locals items l) config
  | MissingValue o => ArgNext (set_arg_state (option_state o) (read_locals items l)) config
  | Help => ArgDone FF_ACTION_PRINT_USAGE config []
  | Version => ArgDone FF_ACTION_PRINT_VERSION config []
  | UnknownArg a =>
      ArgDone FF_ACTION_INVALID_ARGS config (chars "Unkown argument " ++ a ++ [10; 10])
  | BadValue o arg =>
      ArgDone FF_ACTION_INVALID_ARGS config (invalid_arg (server_option_name o) arg)
  end.

Lemma parse_default a l config : al_state l = FF_PARSE_ARG_STATE_DEFAULT ->
  parse_arg inet_pton a l config = parse_option_name a l config.
Proof. intros Hs. unfold parse_arg. by rewrite Hs. Qed.

Lemma apply_state o arg l : al_state l = FF_PARSE_ARG_STATE_DEFAULT ->
  set_arg_state FF_PARSE_ARG_STATE_DEFAULT (apply_value o arg (set_arg_state (option_state o) l)) =
  apply_value o arg l.
Proof. intros Hs. destruct l, o; cbn in *; by subst. Qed.

Lemma read_nil l : read_locals [] l = l.
Proof. by destruct l. Qed.

Lemma parse_args_loop_reading args items e l config :
  server_reading args items e -> Forall c_chars args -> al_state l = FF_PARSE_ARG_STATE_DEFAULT ->
  parse_args_loop inet_pton args l config = loop_result items e l config.
Proof.
  intros Hr. revert l config.
  induction Hr as [|a v Hn|a rest Hn|a rest Hn|a rest Hh Hv Hf Ho|a v arg rest Hn Hv
    |a f rest items e Hn Hr IH|a v arg rest items e Hn Hv Hr IH]; intros l config Hc Hs;
    cbn [parse_args_loop]; rewrite ?parse_default by done;
    try (apply Forall_cons in Hc as [Ha Hc]).
  - unfold loop_result. by rewrite read_nil.
  - rewrite (parse_name _ v) by done. unfold loop_result. by rewrite read_nil.
  - unfold parse_option_name. name_tests. by rewrite !(named_is _ _ _ Hn).
  - unfold parse_option_name. name_tests. by rewrite !(named_is _ _ _ Hn).
  - by rewrite parse_unknown.
  - rewrite (parse_name _ v) by done. rewrite (parse_value v) by done. by rewrite decide_False by done.
  - rewrite (parse_flag _ f) by done. rewrite IH; [|done|by destruct f].
    unfold loop_result. by rewrite read_flag, read_config_flag.
  - apply Forall_cons in Hc as [Harg Hc]. rewrite (parse_name _ v) by done.
    rewrite (parse_value v), decide_True by done. rewrite apply_state by done.
    rewrite IH; [|done|by destruct v]. unfold loop_result. by rewrite read_value.
Qed.

(** The result of the parser for a reading: the action, the configuration
    and the message.  Unless there is a reason to stop, the proxy is started
    if a port was given; the last item for each setting counts, and what was
    not set has its default. *)
Definition server_outcome (items : server_items) (e : ending server_option) (config : ff_config)
    : ff_action * ff_config * list Z :=
  let v6only := cf_ipv6_v6only config || wants_v6only items in
  let unset := if wants_v6only items then set_v6only config else config in
  match e with
  | EndOfArgs | MissingValue _ =>
      match last_value OptPort items with
      | None => (FF_ACTION_INVALID_ARGS, unset, chars "--port is required" ++ [10; 10])
      | Some port =>
          (FF_ACTION_START_PROXY,
           mk_config (Some port)
             (Some (default default_listen_address (last_value OptIp items)))
             (default 30 (atoi <$> last_value OptFudge items))
             (mk_encryption_config (c_block <$> last_value OptPsk items)
                (default 1000 ((fun s => u32 (atoi s)) <$> last_value OptIterations items)))
             (default FF_ERROR (verbosity items)) v6only, [])
      end
  | Help => (FF_ACTION_PRINT_USAGE, unset, [])
  | Version => (FF_ACTION_PRINT_VERSION, unset, [])
  | UnknownArg a => (FF_ACTION_INVALID_ARGS, unset, chars "Unkown argument " ++ a ++ [10; 10])
  | BadValue o arg => (FF_ACTION_INVALID_ARGS, unset, invalid_arg (server_option_name o) arg)
  end.

Lemma ff_parse_arguments_outcome prog args items e config :
  server_reading args items e -> Forall c_chars args ->
  ff_parse_arguments inet_pton config (prog :: args) = server_outcome items e config.
Proof.
  intros Hr Hc. unfold ff_parse_arguments. cbn [tail].
  rewrite (parse_args_loop_reading _ items e) by done.
  assert (cf_ipv6_v6only (read_config items config) = cf_ipv6_v6only config || wants_v6only items)
    as Hv6 by (unfold read_config; destruct (wants_v6only items); by rewrite ?orb_true_r, ?orb_false_r).
  assert (al_key (read_locals items initial_locals) = c_block <$> last_value OptPsk items)
    as Hkey by (cbn [read_locals al_key]; by destruct (last_value OptPsk items)).
  destruct e; cbn [loop_result server_outcome]; try done.
  all: cbn [set_arg_state al_port al_key al_listen_address al_pbkdf2_iterations
    al_timestamp_fudge_factor al_logging_level]; rewrite Hv6, Hkey.
  all: cbn [read_locals al_port]; by destruct (last_value OptPort items).
Qed.
End Server.
