(* ===== verification/ClientConfigFacts.v ===== *)
(** * What the parser of the client's arguments does

    The loop over the arguments against the reading of the command line. *)

From stdpp Require Import finite.
From S2P Require Import Prelude Bytes Request Strings Logging Args Crypto Config Client.
From S2P Require Import ClientConfig ConfigFacts.

Inductive client_flag : Type := Https | ClientWarning | ClientInfo | ClientDebug.
Inductive client_option : Type := ClientPort | ClientIp | ClientPsk | ClientIterations.

#[export] Instance client_flag_eq_dec : EqDecision client_flag.
Proof. solve_decision. Defined.
#[export] Instance client_option_eq_dec : EqDecision client_option.
Proof. solve_decision. Defined.
#[export] Program Instance client_flag_finite : Finite client_flag :=
  {| enum := [Https; ClientWarning; ClientInfo; ClientDebug] |}.
Next Obligation. by apply (bool_decide_unpack _). Qed.
Next Obligation. intros []; by apply (bool_decide_unpack _). Qed.
#[export] Program Instance client_option_finite : Finite client_option :=
  {| enum := [ClientPort; ClientIp; ClientPsk; ClientIterations] |}.
Next Obligation. by apply (bool_decide_unpack _). Qed.
Next Obligation. intros []; by apply (bool_decide_unpack _). Qed.

Definition client_flag_name (f : client_flag) : list Z :=
  match f with
  | Https => chars "--https"
  | ClientWarning => chars "-v"
  | ClientInfo => chars "-vv"
  | ClientDebug => chars "-vvv"
  end.

Definition client_option_text (o : client_option) : list Z :=
  match o with
  | ClientPort => chars "--port"
  | ClientIp => chars "--ip-address"
  | ClientPsk => chars "--pre-shared-key"
  | ClientIterations => chars "--pbkdf2-iterations"
  end.

(** What is not a number is valid for the iterations: it leaves them. *)
Definition client_valid (o : client_option) (arg : list Z) : Prop :=
  match o with
  | ClientPort => small_number arg
  | ClientIterations => sscanf_u arg <> Some 0
  | ClientIp | ClientPsk => True
  end.

#[export] Instance client_valid_dec o arg : Decision (client_valid o arg).
Proof. destruct o; cbn; unfold small_number; apply _. Defined.

Definition client_reading := reading client_flag_name client_option_text client_valid.

Abbreviation client_items := (list (item client_flag client_option)).

Definition client_level_of (f : client_flag) : option Z :=
  match f with
  | Https => None
  | ClientWarning => Some FF_WARNING
  | ClientInfo => Some FF_INFO
  | ClientDebug => Some FF_DEBUG
  end.

Definition client_verbosity (items : client_items) : option Z :=
  last_with (fun it => match it with Flag f => client_level_of f | Value _ _ => None end) items.

Definition wants_https (items : client_items) : bool :=
  existsb (fun it => match it with Flag Https => true | _ => false end) items.

(** The last number given for the iterations. *)
Definition iterations_given (items : client_items) : option Z :=
  last_with (fun it => match it with Value ClientIterations arg => sscanf_u arg | _ => None end)
    items.

(** The local variables and the configuration after a list of items. *)
Definition client_read_locals (items : client_items) (l : client_locals) : client_locals :=
  mk_client_locals (cl_state l) (default (cl_logging_level l) (client_verbosity items))
    (mk_encryption_config
       (default (ec_key (cl_encryption l))
          ((fun k => Some (c_block k)) <$> last_value ClientPsk items))
       (default (ec_pbkdf2_iterations (cl_encryption l)) (iterations_given items))).

Definition client_read_config (items : client_items) (c : ff_client_config) : ff_client_config :=
  mk_client_config (default (cc_port c) (Some <$> last_value ClientPort items))
    (default (cc_ip_address c) (Some <$> last_value ClientIp items))
    (cc_https c || wants_https items) (cc_encryption c) (cc_logging_level c).

Definition client_option_state (o : client_option) : Z :=
  match o with
  | ClientPort => FF_CLIENT_PARSE_ARG_PARSE_PORT
  | ClientIp => FF_CLIENT_PARSE_ARG_PARSE_IP
  | ClientPsk => FF_CLIENT_PARSE_ARG_PARSE_PSK
  | ClientIterations => FF_CLIENT_PARSE_ARG_PARSE_PBKDF2_ITERATIONS
  end.

(** ** One argument *)

Definition ready (l : client_locals) : Prop :=
  cl_state l = FF_CLIENT_PARSE_ARG_STATE_DEFAULT /\ ec_pbkdf2_iterations (cl_encryption l) <> 0.

Lemma client_default a l config : ready l ->
  client_parse_arg a l config = client_option_name a l config.
Proof. intros [Hs _]. unfold client_parse_arg. by rewrite Hs. Qed.

Lemma client_parse_name a o l config : c_chars a -> named a (client_option_text o) ->
  client_option_name a l config = ClientArgNext (set_cl_state (client_option_state o) l) config.
Proof.
  intros Ha Hn. unfold client_option_name. name_tests. rewrite !(named_is _ _ _ Hn). by destruct o.
Qed.

Lemma client_parse_flag a f l config : c_chars a -> named a (client_flag_name f) ->
  client_option_name a l config =
    ClientArgNext (client_read_locals [Flag f] l) (client_read_config [Flag f] config).
Proof.
  intros Ha Hn. unfold client_option_name. name_tests. rewrite !(named_is _ _ _ Hn).
  by destruct l as [s g [k n]], config as [p i [] e g'], f.
Qed.

Lemma client_parse_unknown a l config : c_chars a ->
  ~ named a (chars "--help") -> ~ named a (chars "--version") ->
  (forall f, ~ named a (client_flag_name f)) -> (forall o, ~ named a (client_option_text o)) ->
  client_option_name a l config =
    ClientArgDone FF_CLIENT_ACTION_INVALID_ARGS config (chars "Unkown argument " ++ a ++ [10; 10]).
Proof.
  intros Ha Hh Hv Hf Ho. unfold client_option_name. name_tests.
  assert (forall f n, client_flag_name f = n -> ~ named a n) as Hf' by (by intros f n <-).
  assert (forall o n, client_option_text o = n -> ~ named a n) as Ho' by (by intros o n <-).
  rewrite !name_is_false by first [done | by eapply (Hf' Https) | by eapply (Hf' ClientDebug)
    | by eapply (Hf' ClientInfo) | by eapply (Hf' ClientWarning) | by eapply (Ho' ClientPort)
    | by eapply (Ho' ClientIp) | by eapply (Ho' ClientPsk) | by eapply (Ho' ClientIterations)].
  done.
Qed.

Lemma client_parse_value o arg l config : ready l ->
  client_parse_arg arg (set_cl_state (client_option_state o) l) config =
    if decide (client_valid o arg)
    then ClientArgNext (client_read_locals [Value o arg] l) (client_read_config [Value o arg] config)
    else ClientArgDone FF_CLIENT_ACTION_INVALID_ARGS config
           (invalid_arg (client_option_text o) arg).
Proof.
  intros [Hs Hi]. destruct l as [s g [k n]], config as [p i h e g']. cbn in Hs, Hi. subst s.
  unfold client_parse_arg, client_read_locals, client_read_config.
  destruct (decide (client_valid o arg)) as [Hv|Hv]; destruct o;
    cbn [client_valid client_option_state client_option_text set_cl_state cl_state cl_encryption
      cl_logging_level ec_key ec_pbkdf2_iterations] in *;
    unfold small_number, UINT16_MAX in *;
    cbv [FF_CLIENT_PARSE_ARG_STATE_DEFAULT FF_CLIENT_PARSE_ARG_PARSE_PORT
      FF_CLIENT_PARSE_ARG_PARSE_IP FF_CLIENT_PARSE_ARG_PARSE_PSK
      FF_CLIENT_PARSE_ARG_PARSE_PBKDF2_ITERATIONS Z.eqb Pos.eqb].
  all: try (destruct (Z.leb_spec (atoi arg) 0), (Z.ltb_spec 65535 (atoi arg)); try lia; by destruct h).
  - unfold iterations_given, last_with. cbn [omap list_omap].
    destruct (sscanf_u arg) as [m|]; [destruct m|destruct n]; try done; by destruct h.
  - destruct (decide (sscanf_u arg = Some 0)) as [->|]; [done|tauto].
Qed.

(** ** The loop *)

Lemma client_read_cons it items l :
  client_read_locals (it :: items) l = client_read_locals items (client_read_locals [it] l).
Proof.
  unfold client_read_locals, client_verbosity, iterations_given.
  rewrite !(last_with_cons _ it items), !(last_with_cons _ it []). cbn [last_with omap list_omap last].
  destruct it as [f|o arg]; [done|]. rewrite !last_value_cons. f_equal. f_equal.
  case_decide; [by destruct (last_value _ items)|done].
Qed.

Lemma client_read_config_cons it items c :
  client_read_config (it :: items) c = client_read_config items (client_read_config [it] c).
Proof.
  unfold client_read_config. cbn [cc_port cc_ip_address cc_https cc_encryption cc_logging_level].
  assert (cc_https c || wants_https (it :: items) =
    cc_https c || wants_https [it] || wants_https items) as ->.
  { unfold wants_https. cbn [existsb]. by rewrite orb_false_r, orb_assoc. }
  destruct it as [f|o arg]; [done|]. rewrite !last_value_cons.
  f_equal; case_decide; try done; by destruct (last_value _ items).
Qed.

Lemma ready_read o arg l : ready l -> client_valid o arg -> ready (client_read_locals [Value o arg] l).
Proof.
  intros [Hs Hi] Hv. split; [done|]. destruct o; cbn; try done. cbn in Hv.
  unfold iterations_given, last_with. cbn [omap list_omap]. destruct (sscanf_u arg); cbn; congruence.
Qed.

(** What the loop returns for a reading. *)
Definition client_loop_result (items : client_items) (e : ending client_option) (l : client_locals)
    (config : ff_client_config) : client_arg_step :=
  let config := client_read_config items config in
  match e with
  | EndOfArgs => ClientArgNext (client_read_locals items l) config
  | MissingValue o =>
      ClientArgNext (set_cl_state (client_option_state o) (client_read_locals items l)) config
  | Help => ClientArgDone FF_CLIENT_ACTION_PRINT_USAGE config []
  | Version => ClientArgDone FF_CLIENT_ACTION_PRINT_VERSION config []
  | UnknownArg a =>
      ClientArgDone FF_CLIENT_ACTION_INVALID_ARGS config
        (chars "Unkown argument " ++ a ++ [10; 10])
  | BadValue o arg =>
      ClientArgDone FF_CLIENT_ACTION_INVALID_ARGS config (invalid_arg (client_option_text o) arg)
  end.

Lemma client_read_nil l : client_read_locals [] l = l.
Proof. by destruct l as [? ? []]. Qed.

Lemma client_read_config_nil c : client_read_config [] c = c.
Proof. by destruct c as [? ? [] ? ?]. Qed.

Lemma client_args_loop_reading args items e l config :
  client_reading args items e -> Forall c_chars args -> ready l ->
  client_args_loop args l config = client_loop_result items e l config.
Proof.
  intros Hr. revert l config.
  induction Hr as [|a v Hn|a rest Hn|a rest Hn|a rest Hh Hv Hf Ho|a v arg rest Hn Hv
    |a f rest items e Hn Hr IH|a v arg rest items e Hn Hv Hr IH]; intros l config Hc Hs;
    cbn [client_args_loop]; rewrite ?client_default by done;
    try (apply Forall_cons in Hc as [Ha Hc]); unfold client_loop_result;
    rewrite ?client_read_config_nil.
  - by rewrite client_read_nil.
  - rewrite (client_parse_name _ v) by done. by rewrite client_read_nil.
  - unfold client_option_name. name_tests. by rewrite !(named_is _ _ _ Hn).
  - unfold client_option_name. name_tests. by rewrite !(named_is _ _ _ Hn).
  - by rewrite client_parse_unknown.
  - rewrite (client_parse_name _ v) by done. rewrite (client_parse_value v) by done.
    by rewrite decide_False by done.
  - rewrite (client_parse_flag _ f) by done. rewrite IH; [|done|by destruct l, Hs, f].
    unfold client_loop_result. by rewrite (client_read_cons _ items), (client_read_config_cons _ items).
  - apply Forall_cons in Hc as [Harg Hc]. rewrite (client_parse_name _ v) by done.
    rewrite (client_parse_value v), decide_True by done.
    rewrite IH; [|done|by apply ready_read]. unfold client_loop_result.
    by rewrite (client_read_cons _ items), (client_read_config_cons _ items).
Qed.

(** The result of the parser for a reading. *)
Definition client_result (items : client_items) (e : ending client_option)
    : ff_client_action * ff_client_config * list Z :=
  let unset := mk_client_config (last_value ClientPort items) (last_value ClientIp items)
                 (wants_https items) (mk_encryption_config None 0) 0 in
  match e with
  | EndOfArgs | MissingValue _ =>
      match last_value ClientPort items with
      | None => (FF_CLIENT_ACTION_INVALID_ARGS, unset, chars "--port is required" ++ [10; 10])
      | Some port =>
          (FF_CLIENT_ACTION_MAKE_REQUEST,
           mk_client_config (Some port)
             (Some (default default_ip_address (last_value ClientIp items)))
             (wants_https items)
             (mk_encryption_config (c_block <$> last_value ClientPsk items)
                (default 1000 (iterations_given items)))
             (default FF_ERROR (client_verbosity items)), [])
      end
  | Help => (FF_CLIENT_ACTION_PRINT_USAGE, unset, [])
  | Version => (FF_CLIENT_ACTION_PRINT_VERSION, unset, [])
  | UnknownArg a =>
      (FF_CLIENT_ACTION_INVALID_ARGS, unset, chars "Unkown argument " ++ a ++ [10; 10])
  | BadValue o arg =>
      (FF_CLIENT_ACTION_INVALID_ARGS, unset, invalid_arg (client_option_text o) arg)
  end.

Lemma ff_client_parse_arguments_result prog args items e config :
  client_reading args items e -> Forall c_chars args ->
  ff_client_parse_arguments config (prog :: args) = client_result items e.
Proof.
  intros Hr Hc. unfold ff_client_parse_arguments. cbn [tail].
  rewrite (client_args_loop_reading _ items e) by done.
  assert (client_read_config items zero_client_config =
    mk_client_config (last_value ClientPort items) (last_value ClientIp items)
      (wants_https items) (mk_encryption_config None 0) 0) as Hcfg.
  { unfold client_read_config. cbn [zero_client_config cc_port cc_ip_address cc_https orb
      cc_encryption cc_logging_level].
    f_equal; by destruct (last_value _ items). }
  assert (cl_encryption (client_read_locals items initial_client_locals) =
    mk_encryption_config (c_block <$> last_value ClientPsk items)
      (default 1000 (iterations_given items))) as Henc.
  { cbn [client_read_locals cl_encryption]. f_equal. by destruct (last_value ClientPsk items). }
  unfold client_loop_result. rewrite Hcfg.
  destruct e; cbn [client_result cc_port cc_ip_address set_cl_state cl_encryption cl_logging_level];
    try done.
  all: rewrite ?Henc; destruct (last_value ClientPort items), (last_value ClientIp items);
    try done; cbn [cl_encryption]; by rewrite ?Henc.
Qed.
