(* ===== verification/ConfigProps.v ===== *)
(** * Properties of the parsers of the arguments *)

From S2P Require Import Prelude Bytes Request Strings Logging Args Crypto Config Client.
From S2P Require Import ClientConfig ConfigFacts ClientConfigFacts.

(** The pre-shared key is null or the block of a string. *)
Definition key_string (key : option (list Z)) : Prop :=
  match key with None => True | Some block => exists k, block = c_block k /\ c_chars k end.

(** What the rest of the server relies on in its configuration. *)
Record started_config (inet_pton : address_family -> list Z -> bool) (config : ff_config)
    : Prop := {
  sc_port : exists port, cf_port config = Some port /\ small_number port;
  sc_address : exists address, cf_ip_address config = Some address /\
    (address = default_listen_address \/ inet_pton (family_of address) address = true);
  sc_fudge : 0 < cf_timestamp_fudge_factor config <= UINT16_MAX;
  sc_key : key_string (ec_key (cf_encryption config));
  sc_iterations : 0 < ec_pbkdf2_iterations (cf_encryption config) < 2 ^ 32;
  sc_level : FF_DEBUG <= cf_logging_level config <= FF_ERROR;
}.

(** The values of a reading are arguments. *)
Lemma reading_chars {F V} (fn : F -> list Z) (on : V -> list Z) valid args items e v arg :
  reading fn on valid args items e -> Forall c_chars args -> Value v arg ∈ items -> c_chars arg.
Proof.
  intros Hr. induction Hr as [| | | | | |a f rest items e Hn Hr IH|a w b rest items e Hn Hv Hr IH];
    intros Hc Hin; try set_solver.
  - apply Forall_cons in Hc as [_ Hc]. apply elem_of_cons in Hin as [?|Hin]; [done|auto].
  - apply Forall_cons in Hc as [_ Hc]. apply Forall_cons in Hc as [Hb Hc].
    apply elem_of_cons in Hin as [[= ? ?]|Hin]; [by subst|auto].
Qed.

Lemma last_value_chars {F V} `{!EqDecision V} (fn : F -> list Z) (on : V -> list Z) valid args items
    e v arg :
  reading fn on valid args items e -> Forall c_chars args -> last_value v items = Some arg ->
  c_chars arg.
Proof.
  intros Hr Hc Hl. apply last_with_some in Hl as (it&Hin&Hg). destruct it as [f|w b]; [done|].
  cbn in Hg. case_decide; [|done]. simplify_eq. by eapply reading_chars.
Qed.

Section Server.
Variable inet_pton : address_family -> list Z -> bool.

Lemma outcome_started args items e config config' err :
  server_reading inet_pton args items e -> Forall c_chars args ->
  server_outcome items e config = (FF_ACTION_START_PROXY, config', err) ->
  started_config inet_pton config'.
Proof.
  intros Hr Hc Ho.
  assert (forall o arg, last_value o items = Some arg -> server_valid inet_pton o arg) as Hval
    by (intros; by eapply last_value_valid).
  assert (exists port, last_value OptPort items = Some port /\
    config' = snd (fst (server_outcome items EndOfArgs config))) as (port&Hp&->).
  { destruct e; cbn [server_outcome] in Ho; try done;
      destruct (last_value OptPort items) as [port|] eqn:Hp; simplify_eq;
      exists port; cbn [server_outcome]; by rewrite Hp. }
  cbn [server_outcome]. rewrite Hp. split; cbn.
  - exists port. split; [done|]. exact (Hval OptPort port Hp).
  - eexists. split; [done|]. destruct (last_value OptIp items) as [a|] eqn:Ha; [|by left].
    right. exact (Hval OptIp a Ha).
  - destruct (last_value OptFudge items) as [a|] eqn:Ha; [|done]. exact (Hval OptFudge a Ha).
  - destruct (last_value OptPsk items) as [k|] eqn:Hk; [|done]. exists k.
    split; [done|]. by eapply last_value_chars.
  - destruct (last_value OptIterations items) as [a|] eqn:Ha; [|done]. cbn.
    pose proof (Hval OptIterations a Ha) as Hv. cbn in Hv. pose proof (u32_range (atoi a)). lia.
  - destruct (verbosity items) as [level|] eqn:Hl; [|done]. cbn.
    apply last_with_some in Hl as (it&_&Hg). by destruct it as [[]|]; cbn in Hg; simplify_eq.
Qed.

(** C11: The server's command line.  Every command line has a reading: flags
    and options with their values, up to the point where it stops.  For every
    reading the parser returns exactly what it says: help or version when it
    comes first, an error for what is unknown, out of range, or without a
    port, and otherwise a start with, for each setting, the value given last,
    or its default. *)
Theorem ff_parse_arguments_reading (config : ff_config) (prog : list Z) (args : list (list Z)) :
  Forall c_chars args ->
  (exists items e, server_reading inet_pton args items e) /\
  (forall items e, server_reading inet_pton args items e ->
     ff_parse_arguments inet_pton config (prog :: args) = server_outcome items e config).
Proof.
  intros Hc. split; [|intros items e Hr; by apply ff_parse_arguments_outcome].
  exact (reading_total server_flag_name server_option_name (server_valid inet_pton) args).
Qed.

(** C18: The configuration of a proxy that is started is well-formed: a port
    from 1 to 65535, an address the system accepts (or the default), a time
    window from 1 to 65535 seconds, a key that is a string, a positive number
    of iterations and one of the four log levels. *)
Theorem started_config_valid (config config' : ff_config) (prog : list Z) (args : list (list Z))
    (err : list Z) :
  Forall c_chars args ->
  ff_parse_arguments inet_pton config (prog :: args) = (FF_ACTION_START_PROXY, config', err) ->
  started_config inet_pton config'.
Proof.
  intros Hc Hp. destruct (reading_total server_flag_name server_option_name
    (server_valid inet_pton) args) as (items&e&Hr).
  rewrite (ff_parse_arguments_outcome _ _ _ items e) in Hp by done. by eapply outcome_started.
Qed.

(** C35: An option without its value is accepted.  When the name of an option
    is the last argument, the server starts as if it were not there: with
    [--pre-shared-key] at the end it runs without a key and accepts
    unencrypted requests. *)
Theorem missing_value_ignored (config : ff_config) (prog a : list Z) (args : list (list Z))
    (items : server_items) (o : server_option) :
  Forall c_chars args -> c_chars a -> server_reading inet_pton args items EndOfArgs ->
  named a (server_option_name o) ->
  ff_parse_arguments inet_pton config (prog :: args ++ [a]) =
  ff_parse_arguments inet_pton config (prog :: args).
Proof.
  intros Hc Ha Hr Hn. rewrite (ff_parse_arguments_outcome _ _ args items EndOfArgs) by done.
  rewrite (ff_parse_arguments_outcome _ _ _ (items ++ []) (MissingValue o)).
  - by rewrite app_nil_r.
  - apply reading_app; [done|by constructor].
  - apply Forall_app. by split; [|constructor].
Qed.
End Server.

(** C17: The client's command line, as the server's; what is not a number
    leaves the iterations as they are. *)
Theorem ff_client_parse_arguments_reading (config : ff_client_config) (prog : list Z)
    (args : list (list Z)) :
  Forall c_chars args ->
  (exists items e, client_reading args items e) /\
  (forall items e, client_reading args items e ->
     ff_client_parse_arguments config (prog :: args) = client_result items e).
Proof.
  intros Hc. split; [|intros items e Hr; by apply ff_client_parse_arguments_result].
  exact (reading_total client_flag_name client_option_text client_valid args).
Qed.

(** C36: A negative number of iterations is accepted and becomes a large one:
    the test for a positive number is made on an unsigned variable, in the
    server and in the client, so [-n] stands for [2^32 - n]. *)
Theorem negative_iterations_wrap (inet_pton : address_family -> list Z -> bool)
    (prog port : list Z) (n : Z) (config : ff_config) (client : ff_client_config) :
  c_chars port -> small_number port -> 0 < n <= 2 ^ 31 ->
  let argv := [prog; chars "--port"; port; chars "--pbkdf2-iterations"; 45 :: show_unsigned n] in
  (exists config', ff_parse_arguments inet_pton config argv = (FF_ACTION_START_PROXY, config', []) /\
     ec_pbkdf2_iterations (cf_encryption config') = 2 ^ 32 - n) /\
  (exists client', ff_client_parse_arguments client argv =
       (FF_CLIENT_ACTION_MAKE_REQUEST, client', []) /\
     ec_pbkdf2_iterations (cc_encryption client') = 2 ^ 32 - n).
Proof.
  intros Hc Hp Hn argv.
  set (args := [chars "--port"; port; chars "--pbkdf2-iterations"; 45 :: show_unsigned n]).
  change argv with (prog :: args). clearbody argv.
  assert (Forall c_chars args) as Hargs.
  { assert (c_chars (45 :: show_unsigned n)) as Hm.
    { apply Forall_cons. split; [done|]. apply show_unsigned_chars. lia. }
    apply Forall_cons. split; [by apply chars_lower|]. apply Forall_cons. split; [done|].
    apply Forall_cons. split; [by apply chars_lower|]. apply Forall_cons. by split. }
  assert (u32 (- n) = 2 ^ 32 - n) as Hu by (unfold u32; div_lia).
  split.
  - assert (server_reading inet_pton args
      [Value OptPort port; Value OptIterations (45 :: show_unsigned n)] EndOfArgs) as Hr.
    { apply reading_value; [done|done|]. apply reading_value; [done| |constructor].
      cbn. rewrite atoi_minus by lia. lia. }
    rewrite (ff_parse_arguments_outcome _ prog _ _ _ config Hr Hargs). eexists. split; [reflexivity|].
    cbn [cf_encryption ec_pbkdf2_iterations]. rewrite last_value_cons, decide_False by done.
    rewrite last_value_cons, decide_True by done. cbn [last_value last_with omap list_omap last].
    change (u32 (atoi (45 :: show_unsigned n)) = 2 ^ 32 - n). by rewrite atoi_minus by lia.
  - assert (client_reading args
      [Value ClientPort port; Value ClientIterations (45 :: show_unsigned n)] EndOfArgs) as Hr.
    { apply reading_value; [done|done|]. apply reading_value; [done| |constructor].
      cbn. rewrite sscanf_u_minus by lia. intros [= ?]. lia. }
    rewrite (ff_client_parse_arguments_result prog _ _ _ client Hr Hargs). eexists.
    split; [reflexivity|]. cbn [cc_encryption ec_pbkdf2_iterations]. unfold iterations_given, last_with.
    cbn [omap list_omap]. by rewrite sscanf_u_minus by lia.
Qed.

(** ** Examples *)

(** Dotted addresses: [n] more numbers, [v] the number being read. *)
Fixpoint dotted (n : nat) (seen : bool) (v : Z) (s : list Z) : bool :=
  match s with
  | [] => bool_decide (n = 0%nat) && seen
  | c :: s =>
      if isdigit c then (10 * v + (c - 48) <=? 255) && dotted n true (10 * v + (c - 48)) s
      else if (c =? 46) && seen then match n with O => false | S n => dotted n false 0 s end
      else false
  end.

(** A system that knows addresses of version 4. *)
Definition sample_pton (family : address_family) (address : list Z) : bool :=
  match family with AF_INET => dotted 3 false 0 address | AF_INET6 => false end.

Definition sample_args : list (list Z) :=
  [chars "--PORT"; chars "80"; chars "--port"; chars "8080"; chars "--ip-address";
   chars "127.0.0.1"; chars "--pre-shared-key"; chars "secret"; chars "-vvv"].

Definition sample_items : server_items :=
  [Value OptPort (chars "80"); Value OptPort (chars "8080"); Value OptIp (chars "127.0.0.1");
   Value OptPsk (chars "secret"); Flag VerboseDebug].

Lemma sample_args_chars : Forall c_chars sample_args.
Proof. decide_compute. Qed.

Lemma sample_args_reading : server_reading sample_pton sample_args sample_items EndOfArgs.
Proof.
  apply reading_value; [reflexivity|by vm_compute|].
  apply reading_value; [reflexivity|by vm_compute|].
  apply reading_value; [reflexivity|by vm_compute|].
  apply reading_value; [reflexivity|by vm_compute|].
  apply reading_flag; [reflexivity|]. apply reading_end.
Qed.

Definition sample_started : ff_config :=
  mk_config (Some (chars "8080")) (Some (chars "127.0.0.1")) 30
    (mk_encryption_config (Some (c_block (chars "secret"))) 1000) FF_DEBUG false.

(** Witness of C11. *)
Lemma ff_parse_arguments_reading_witness :
  (exists items e, server_reading sample_pton sample_args items e) /\
  ff_parse_arguments sample_pton zero_config (chars "ff" :: sample_args) =
    (FF_ACTION_START_PROXY, sample_started, []).
Proof.
  destruct (ff_parse_arguments_reading sample_pton zero_config (chars "ff") sample_args
    sample_args_chars) as [Ht He].
  split; [exact Ht|]. rewrite (He sample_items EndOfArgs sample_args_reading).
  vm_compute. reflexivity.
Defined.

(** Witness of C18. *)
Lemma started_config_valid_witness : started_config sample_pton sample_started.
Proof.
  apply (started_config_valid sample_pton zero_config sample_started (chars "ff") sample_args []).
  - exact sample_args_chars.
  - vm_compute. reflexivity.
Defined.

(** Witness of C35: the key is missing. *)
Lemma missing_value_ignored_witness :
  ff_parse_arguments sample_pton zero_config
    [chars "ff"; chars "--port"; chars "8080"; chars "--pre-shared-key"] =
  ff_parse_arguments sample_pton zero_config [chars "ff"; chars "--port"; chars "8080"].
Proof.
  apply (missing_value_ignored sample_pton zero_config (chars "ff") (chars "--pre-shared-key")
    [chars "--port"; chars "8080"] [Value OptPort (chars "8080")] OptPsk).
  - decide_compute.
  - decide_compute.
  - apply reading_value; [reflexivity|by vm_compute|apply reading_end].
  - reflexivity.
Defined.

(** Witness of C17: what is not a number is ignored. *)
Lemma ff_client_parse_arguments_reading_witness :
  ff_client_parse_arguments zero_client_config
    [chars "ff_client"; chars "--https"; chars "--port"; chars "80"; chars "--pbkdf2-iterations";
     chars "many"] =
  (FF_CLIENT_ACTION_MAKE_REQUEST,
   mk_client_config (Some (chars "80")) (Some (chars "127.0.0.1")) true
     (mk_encryption_config None 1000) FF_ERROR, []).
Proof.
  destruct (ff_client_parse_arguments_reading zero_client_config (chars "ff_client")
    [chars "--https"; chars "--port"; chars "80"; chars "--pbkdf2-iterations"; chars "many"])
    as [_ He].
  - decide_compute.
  - rewrite (He [Flag Https; Value ClientPort (chars "80"); Value ClientIterations (chars "many")]
      EndOfArgs).
    + vm_compute. reflexivity.
    + apply reading_flag; [reflexivity|]. apply reading_value; [reflexivity|by vm_compute|].
      apply reading_value; [reflexivity|by vm_compute|apply reading_end].
Defined.

(** Witness of C36. *)
Lemma negative_iterations_wrap_witness :
  exists config', ff_parse_arguments sample_pton zero_config
    [chars "ff"; chars "--port"; chars "80"; chars "--pbkdf2-iterations"; 45 :: show_unsigned 1] =
      (FF_ACTION_START_PROXY, config', []) /\
    ec_pbkdf2_iterations (cf_encryption config') = 4294967295.
Proof.
  destruct (negative_iterations_wrap sample_pton (chars "ff") (chars "80") 1 zero_config
    zero_client_config) as [Hs _].
  - decide_compute.
  - by vm_compute.
  - done.
  - exact Hs.
Defined.
