(* ===== verification/ClientFacts.v ===== *)
(** * The C client: facts

    What the client writes, in terms of the wire format of [ParserFacts] and
    [Reassembly]. *)

From S2P Require Import Prelude Bytes Request Strings Parser ParserFacts Reassembly Crypto.
From S2P Require Import CryptoFacts.
From S2P Require Import Client.

(** ** Writing into a block *)

Lemma mem_write_next pre rest off data : off = zlen pre -> zlen data <= zlen rest ->
  mem_write (pre ++ rest) off data = Ok ((pre ++ data) ++ drop (length data) rest).
Proof. intros -> Hl. by apply mem_write_app. Qed.

Lemma mem_write_mid pre mid post off data : off = zlen pre -> length data = length mid ->
  mem_write (pre ++ mid ++ post) off data = Ok (pre ++ data ++ post).
Proof.
  intros -> Hl. rewrite mem_write_app, <- app_assoc, drop_app_length'; [done|done|].
  rewrite zlen_app. pose proof (zlen_nonneg post). unfold zlen in *. lia.
Qed.

Lemma zlen_drop {A} (l : list A) n : Z.of_nat n <= zlen l -> zlen (drop n l) = zlen l - Z.of_nat n.
Proof. unfold zlen. rewrite length_drop. lia. Qed.

Section Facts.
Context {HO : HostOrder}.

(** ** Options *)

Record writable (o : ff_request_option_node) : Prop := {
  wr_type : is_byte (opt_type o);
  wr_length : 0 <= opt_length o < 65536;
  wr_value : opt_length o <= zlen (opt_value o);
}.

Lemma wf_option_writable o : wf_option o -> writable o.
Proof. intros [? _ _ ? [[_ ?] _]]. by split. Qed.

Lemma zlen_wire_writable o : writable o -> zlen (wire_option o) = 3 + opt_length o.
Proof.
  intros [_ Hl Hv]. unfold wire_option. change (opt_type o :: ?l) with ([opt_type o] ++ l).
  rewrite !zlen_app, zlen_be_split, zlen_slice by lia. change (zlen [opt_type o]) with 1. lia.
Qed.

Lemma write_options_loop_ok options : Forall writable options -> forall pre rest off buff_i,
  off + buff_i = zlen pre -> 0 <= buff_i ->
  buff_i + zlen (concat (map wire_option options)) < 2 ^ 32 ->
  zlen (concat (map wire_option options)) <= zlen rest ->
  write_options_loop options (pre ++ rest) off buff_i =
    Ok (buff_i + zlen (concat (map wire_option options)),
        (pre ++ concat (map wire_option options)) ++
        drop (length (concat (map wire_option options))) rest).
Proof.
  induction 1 as [|o options Ho _ IH]; intros pre rest off buff_i Hoff Hi Hmax Hl.
  { cbn. by rewrite Z.add_0_r, app_nil_r. }
  cbn [map concat] in *. rewrite zlen_app, zlen_wire_writable in * by done.
  destruct Ho as [Ht Hlen Hv]. pose proof (zlen_nonneg (concat (map wire_option options))).
  cbn [write_options_loop].
  assert (u8 (opt_type o) = opt_type o) as -> by (by apply u8_small).
  rewrite mem_write_next; [|done|change (zlen [opt_type o]) with 1; lia]. cbn [mbind res_bind].
  rewrite store_htons, (u16_small (opt_length o)) by lia.
  rewrite mem_write_next; [|rewrite zlen_app; change (zlen [opt_type o]) with 1; lia|].
  2: { rewrite zlen_be_split, zlen_drop; simpl; lia. }
  cbn [mbind res_bind]. rewrite mem_read_slice by lia. cbn [mbind res_bind].
  rewrite (u32_small (buff_i + 3)) by lia. rewrite drop_drop, length_be_split.
  change (length [opt_type o] + 2)%nat with 3%nat.
  rewrite mem_write_next.
  2: { rewrite !zlen_app, zlen_be_split. change (zlen [opt_type o]) with 1. lia. }
  2: { rewrite zlen_slice, zlen_drop by lia. lia. }
  cbn [mbind res_bind]. rewrite u32_small by lia.
  assert (length (wire_option o) = (3 + Z.to_nat (opt_length o))%nat) as Hwl.
  { pose proof (zlen_wire_writable o ltac:(by split)) as Hz. unfold zlen in Hz. lia. }
  assert (length (slice (opt_value o) 0 (opt_length o)) = Z.to_nat (opt_length o)) as Hsl
    by (apply length_slice; lia).
  replace (((pre ++ [opt_type o]) ++ be_split 2 (opt_length o)) ++
           slice (opt_value o) 0 (opt_length o)) with (pre ++ wire_option o)
    by (unfold wire_option; rewrite <- !app_assoc; done).
  rewrite drop_drop, Hsl, IH.
  - rewrite drop_drop, length_app, Hwl, <- !app_assoc. do 2 f_equal. lia.
  - rewrite zlen_app, zlen_wire_writable by (by split). lia.
  - lia.
  - lia.
  - rewrite zlen_drop by lia. lia.
Qed.

(** The option that ends a list of options. *)
Definition terminator (c : bool) : ff_request_option_node :=
  mk_option (if c then FF_REQUEST_OPTION_TYPE_BREAK else FF_REQUEST_OPTION_TYPE_EOL) 0 [].

Lemma terminator_writable c : writable (terminator c).
Proof. split; destruct c; done. Qed.

Lemma wire_terminated opts c : concat (map wire_option (opts ++ [terminator c])) = wire_options opts c.
Proof. rewrite map_app, concat_app. unfold wire_options. by destruct c. Qed.

Lemma write_terminated opts c pre rest off :
  Forall wf_option opts -> off = zlen pre -> zlen (wire_options opts c) <= zlen rest ->
  zlen rest < 2 ^ 32 ->
  ff_client_write_options (pre ++ rest) off (opts ++ [terminator c]) (zlen (opts ++ [terminator c])) =
    Ok (zlen (wire_options opts c),
        (pre ++ wire_options opts c) ++ drop (length (wire_options opts c)) rest).
Proof.
  intros Hopts -> Hl Hmax. unfold ff_client_write_options.
  rewrite bool_decide_true by done. cbn [guard_res mbind res_bind].
  unfold zlen at 1. rewrite Nat2Z.id, take_ge by done.
  rewrite (write_options_loop_ok _); rewrite ?wire_terminated; try done; try lia.
  apply Forall_app. split; [|by constructor; [apply terminator_writable|]].
  eapply Forall_impl; [exact Hopts|]. apply wf_option_writable.
Qed.

(** ** Packets *)

(** A packet as the client allocates it: a block of 1300 bytes. *)
Definition client_packet (p : packet) : ff_client_packet :=
  mk_client_packet
    (wire_packet p ++ replicate (Z.to_nat (FF_CLIENT_MAX_PACKET_LENGTH - zlen (wire_packet p))) 0)
    (zlen (wire_packet p)).

(** The packet of the request for the rest of the message from [off] on. *)
Definition next_packet (id : Z) (P : list Z) (opts : list ff_request_option_node) (c : bool)
    (off : Z) : packet :=
  let opts' := if off =? 0 then opts else [] in
  let c' := (off =? 0) && c in
  let n := Z.min (zlen P - off)
             (FF_CLIENT_MAX_PACKET_LENGTH - 20 - zlen (wire_options opts' c')) in
  mk_packet id (zlen P) off opts' c' (slice P off n).

Record sendable (id : Z) (P : list Z) (opts : list ff_request_option_node) (c : bool)
    (r : ff_request) : Prop := {
  sd_id : 0 <= id < 2 ^ 64;
  sd_size : zlen P < 65536;
  sd_payload : single_payload P r;
  sd_length : rq_payload_length r = zlen P;
  sd_opts : Forall wf_option opts;
  sd_options : rq_options r = opts ++ [terminator c];
  sd_options_length : rq_options_length r = zlen (rq_options r);
  sd_fit : 20 + zlen (wire_options opts c) < FF_CLIENT_MAX_PACKET_LENGTH;
}.

(** The request can be freed. *)
Lemma sendable_free id P opts c r : sendable id P opts c r -> ff_request_free r = Ok tt.
Proof.
  intros Hs. destruct (sd_payload _ _ _ _ _ Hs) as (node&Hp&_). unfold ff_request_free.
  rewrite (sd_options_length _ _ _ _ _ Hs), Hp. by rewrite bool_decide_eq_true_2 by lia.
Qed.

Lemma zlen_wire_packet p : 
  zlen (wire_packet p) = 20 + zlen (wire_options (pk_options p) (pk_contains p)) + zlen (pk_data p).
Proof. unfold wire_packet. rewrite !zlen_app, zlen_wire_header. lia. Qed.

Lemma zlen_wire_options_pos opts c : 3 <= zlen (wire_options opts c).
Proof.
  unfold wire_options. rewrite zlen_app, zlen_wire_end.
  pose proof (zlen_nonneg (concat (map wire_option opts))). lia.
Qed.

Lemma next_packet_of id P opts c off r : sendable id P opts c r -> 0 <= off < zlen P ->
  packet_of id P (next_packet id P opts c off) /\ 0 < zlen (pk_data (next_packet id P opts c off)) /\
  zlen (wire_packet (next_packet id P opts c off)) <= FF_CLIENT_MAX_PACKET_LENGTH /\
  (off <> 0 -> off + zlen (pk_data (next_packet id P opts c off)) <> zlen P ->
   zlen (pk_data (next_packet id P opts c off)) = 1277).
Proof.
  intros [Hid Hsz Hp Hlen Hopts _ _ Hfit] Hoff.
  set (opts' := if off =? 0 then opts else []). set (c' := (off =? 0) && c).
  assert (3 <= zlen (wire_options opts' c') < 1280 /\ (off <> 0 -> zlen (wire_options opts' c') = 3))
    as [Hw Hw3].
  { pose proof (zlen_wire_options_pos opts c). unfold opts', c', FF_CLIENT_MAX_PACKET_LENGTH in *.
    destruct (Z.eqb_spec off 0); cbn [andb]; [lia|]. change (zlen (wire_options [] false)) with 3. lia. }
  assert (zlen (pk_data (next_packet id P opts c off)) =
    Z.min (zlen P - off) (FF_CLIENT_MAX_PACKET_LENGTH - 20 - zlen (wire_options opts' c'))) as Hn.
  { unfold next_packet. fold opts' c'. cbn [pk_data].
    apply zlen_slice; unfold FF_CLIENT_MAX_PACKET_LENGTH; lia. }
  assert (zlen (wire_packet (next_packet id P opts c off)) <= FF_CLIENT_MAX_PACKET_LENGTH) as Hwp.
  { rewrite zlen_wire_packet, Hn. unfold next_packet. fold opts' c'. cbn [pk_options pk_contains].
    lia. }
  unfold FF_CLIENT_MAX_PACKET_LENGTH in *. split_and!.
  - split; [done|done|change (0 <= off); lia|
      change (off + zlen (pk_data (next_packet id P opts c off)) <= zlen P); lia| | | |lia].
    + rewrite Hn. unfold next_packet. fold opts' c'. done.
    + unfold next_packet. cbn [pk_options]. by destruct (off =? 0).
    + intros Hne. unfold next_packet. cbn [pk_options pk_contains pk_offset] in *.
      by rewrite (proj2 (Z.eqb_neq off 0)).
  - lia.
  - done.
  - intros Hne. rewrite Hn, Hw3 by done. lia.
Qed.

(** The header of a packet, without the length of its chunk. *)
Definition header_start (id total off : Z) : list Z :=
  be_split 2 FF_VERSION_1 ++ be_split 8 id ++ be_split 4 total ++ be_split 4 off.

Lemma zlen_header_start id total off : zlen (header_start id total off) = 18.
Proof. unfold header_start. by rewrite !zlen_app, !zlen_be_split. Qed.

Lemma write_header_ok id total off : 0 <= id < 2 ^ 64 -> 0 <= total < 2 ^ 32 -> 0 <= off < 2 ^ 32 ->
  (buffer ← mem_write (replicate (Z.to_nat FF_CLIENT_MAX_PACKET_LENGTH) 0) 0
              (host_split 2 (htons FF_VERSION_1));
   buffer ← mem_write buffer 2 (host_split 8 (htonll id));
   buffer ← mem_write buffer 10 (host_split 4 (htonl total));
   mem_write buffer 14 (host_split 4 (htonl off))) =
  Ok (header_start id total off ++ [0; 0] ++ replicate 1280 0).
Proof.
  intros Hid Ht Ho. rewrite store_htons, store_htonll, !store_htonl, !u32_small by lia.
  change (u16 FF_VERSION_1) with FF_VERSION_1.
  change (replicate (Z.to_nat FF_CLIENT_MAX_PACKET_LENGTH) 0) with ([] ++ replicate 1300 0).
  assert (forall n m : nat, zlen (replicate n 0) = Z.of_nat n) as Hz
    by (intros; unfold zlen; by rewrite length_replicate).
  rewrite mem_write_next; [|done|rewrite zlen_be_split, Hz by exact O; lia]. cbn [mbind res_bind].
  rewrite drop_replicate, length_be_split.
  rewrite mem_write_next; [|by rewrite zlen_app, zlen_be_split|rewrite zlen_be_split, Hz by exact O; lia].
  cbn [mbind res_bind]. rewrite drop_replicate, length_be_split.
  rewrite mem_write_next; [|by rewrite !zlen_app, !zlen_be_split|rewrite zlen_be_split, Hz by exact O; lia].
  cbn [mbind res_bind]. rewrite drop_replicate, length_be_split.
  rewrite mem_write_next; [|by rewrite !zlen_app, !zlen_be_split|rewrite zlen_be_split, Hz by exact O; lia].
  rewrite drop_replicate, length_be_split.
  change (replicate (1300 - 2 - 8 - 4 - 4) 0) with ([0; 0] ++ replicate 1280 0).
  unfold header_start. by rewrite <- !app_assoc.
Qed.

(** The options of a packet, written behind its header. *)
Lemma write_packet_options_ok id P opts c r off count hdr :
  sendable id P opts c r -> (count =? 0) = (off =? 0) -> zlen hdr = 20 ->
  let W := wire_options (if off =? 0 then opts else []) ((off =? 0) && c) in
  (if count =? 0 then
     '(n, buffer) ← ff_client_write_options (hdr ++ replicate 1280 0) 20 (rq_options r)
                      (rq_options_length r);
     Ok (u16 (20 + n), buffer)
   else
     buffer ← mem_write (hdr ++ replicate 1280 0) 20 [FF_REQUEST_OPTION_TYPE_EOL];
     buffer ← mem_write buffer (20 + 1) (host_split 2 0);
     Ok (20 + 3, buffer)) =
  Ok (20 + zlen W, (hdr ++ W) ++ replicate (1280 - length W) 0).
Proof.
  intros [Hid Hsz Hp Hlen Hopts Ho Hol Hfit] Hcount Hh. rewrite Hcount, Hol, Ho.
  pose proof (zlen_wire_options_pos opts c). unfold FF_CLIENT_MAX_PACKET_LENGTH in *.
  destruct (Z.eqb_spec off 0) as [->|Hne]; cbn [andb].
  - rewrite write_terminated; [|done|done|..];
      [|unfold zlen at 2; rewrite length_replicate; lia|unfold zlen; rewrite length_replicate; lia].
    cbn [mbind res_bind]. rewrite u16_small, drop_replicate by lia. done.
  - change (replicate 1280 0) with ([0] ++ [0; 0] ++ replicate 1277 0).
    rewrite mem_write_mid by done. cbn [mbind res_bind].
    rewrite (app_assoc hdr), mem_write_mid.
    + cbn [mbind res_bind]. change (zlen (wire_options [] false)) with 3.
      assert (host_split 2 0 = [0; 0]) as -> by (unfold host_split; by destruct host_order).
      change (wire_options [] false) with ([FF_REQUEST_OPTION_TYPE_EOL] ++ [0; 0]).
      by rewrite <- !app_assoc.
    + rewrite zlen_app, Hh. done.
    + by rewrite length_host_split.
Qed.

Lemma write_packet_ok id P opts c r off count :
  sendable id P opts c r -> (count =? 0) = (off =? 0) -> 0 <= off < zlen P ->
  let p := next_packet id P opts c off in
  write_packet r id off (zlen P - off) count = Ok (client_packet p, zlen (pk_data p)).
Proof.
  intros Hs Hcount Hoff p.
  destruct (next_packet_of id P opts c off r Hs Hoff) as (Hpo&Hpos&Hwp&_). fold p in Hpo, Hpos, Hwp.
  pose proof Hs as [Hid Hsz (node&Hpay&_&_&Hv&Hsl) Hlen Hopts Ho Hol Hfit].
  unfold write_packet. 
  pose proof (write_header_ok id (rq_payload_length r) off Hid ltac:(lia) ltac:(lia)) as Hhdr.
  pose proof (zlen_header_start id (rq_payload_length r) off) as Hz.
  destruct (mem_write (replicate (Z.to_nat FF_CLIENT_MAX_PACKET_LENGTH) 0) 0 _) as [b1|] eqn:E1;
    [|done]. cbn [mbind res_bind] in Hhdr |- *.
  destruct (mem_write b1 2 _) as [b2|] eqn:E2; [|done]. cbn [mbind res_bind] in Hhdr |- *.
  destruct (mem_write b2 10 _) as [b3|] eqn:E3; [|done]. cbn [mbind res_bind] in Hhdr |- *.
  rewrite Hhdr. cbn [mbind res_bind]. rewrite (app_assoc _ [0; 0]).
  rewrite (write_packet_options_ok id P opts c r off count) by
    (done || rewrite zlen_app, Hz; done).
  cbn [mbind res_bind]. 
  set (W := wire_options (if off =? 0 then opts else []) ((off =? 0) && c)).
  assert (pk_data p = slice P off (Z.min (zlen P - off) (FF_CLIENT_MAX_PACKET_LENGTH - 20 - zlen W)))
    as Hdata by done.
  assert (zlen (wire_packet p) = 20 + zlen W + zlen (pk_data p)) as Hzw by apply zlen_wire_packet.
  unfold FF_CLIENT_MAX_PACKET_LENGTH in *.
  pose proof (zlen_wire_options_pos (if off =? 0 then opts else []) ((off =? 0) && c)) as HW3.
  fold W in HW3.
  rewrite (u16_small (1300 - (20 + zlen W))) by lia.
  replace (if 1300 - (20 + zlen W) <? zlen P - off then 1300 - (20 + zlen W) else zlen P - off)
    with (zlen (pk_data p)).
  2: { rewrite Hdata, zlen_slice by lia. destruct (Z.ltb_spec (1300 - (20 + zlen W)) (zlen P - off)); lia. }
  rewrite store_htons, (u16_small (zlen (pk_data p))) by lia.
  rewrite <- !app_assoc, mem_write_mid; [|by rewrite Hz|by rewrite length_be_split].
  cbn [mbind res_bind]. rewrite Hpay.
  assert (mem_read (node_value node) off (zlen (pk_data p)) = Ok (pk_data p)) as ->.
  { assert (off + zlen (pk_data p) <= zlen P) as Hend by apply (po_end _ _ _ Hpo).
    pose proof (po_data _ _ _ Hpo) as Hd. change (pk_offset p) with off in Hd.
    rewrite mem_read_slice by lia. f_equal. rewrite Hd at 2.
    replace (slice P off (zlen (pk_data p)))
      with (slice (slice (node_value node) 0 (zlen P)) off (zlen (pk_data p))) by (by rewrite Hsl).
    by rewrite slice_slice by lia. }
  cbn [mbind res_bind].
  rewrite (app_assoc (be_split 2 _)), (app_assoc (header_start _ _ _)), mem_write_next.
  2: { rewrite !zlen_app, Hz, zlen_be_split. lia. }
  2: { unfold zlen at 2. rewrite length_replicate. unfold zlen in *. lia. }
  cbn [mbind res_bind]. rewrite drop_replicate. do 2 f_equal. unfold client_packet. f_equal.
  - unfold wire_packet at 1. fold W. unfold wire_header, header_start. rewrite Hlen.
    rewrite <- !app_assoc. do 7 f_equal.
    f_equal. unfold FF_CLIENT_MAX_PACKET_LENGTH. unfold zlen in *. lia.
  - rewrite u16_small; lia.
Qed.

(** The packets so far: none at the start, and then enough bytes that there
    are few of them. *)
Definition progress (P : list Z) (off n : Z) : Prop :=
  0 <= off <= zlen P /\ (n = 0 <-> off = 0) /\ (off < zlen P -> 0 < n -> 1277 * (n - 1) < off).

Lemma packetise_loop_ok id P opts c r : sendable id P opts c r -> forall fuel off packets,
  progress P off (zlen packets) -> zlen P - off < Z.of_nat fuel ->
  exists ps, packetise_loop fuel r id off (zlen P - off) packets =
      Ok (packets ++ map client_packet ps) /\
    Forall (packet_of id P) ps /\ consecutive off ps (zlen P) /\
    Forall (fun p => zlen (wire_packet p) <= FF_CLIENT_MAX_PACKET_LENGTH) ps /\
    (off < zlen P -> head ps = Some (next_packet id P opts c off)).
Proof.
  intros Hs. pose proof (sd_size _ _ _ _ _ Hs) as Hsz.
  induction fuel as [|fuel IH]; intros off packets (Hoff&Hzero&Hcount) Hfuel; [lia|].
  cbn [packetise_loop]. pose proof (zlen_nonneg packets).
  destruct (Z.leb_spec (zlen P - off) 0) as [Hle|Hgt].
  { exists []. cbn. rewrite app_nil_r. split_and!; try done; lia. }
  assert (zlen packets < 512) as Hn by (destruct (decide (zlen packets = 0)); lia).
  rewrite (u16_small (zlen packets)) by lia.
  assert ((zlen packets =? 0) = (off =? 0)) as Heqb.
  { destruct (Z.eqb_spec (zlen packets) 0), (Z.eqb_spec off 0); tauto. }
  rewrite (write_packet_ok id P opts c) by (done || lia). cbn [mbind res_bind].
  destruct (next_packet_of id P opts c off r Hs ltac:(lia)) as (Hpo&Hpos&Hmax&Hfull).
  set (p := next_packet id P opts c off) in *.
  rewrite bool_decide_true by (exact Hn). cbn [guard_res mbind res_bind].
  assert (off + zlen (pk_data p) <= zlen P) as Hend by apply (po_end _ _ _ Hpo).
  rewrite u32_small, u16_small by lia.
  replace (zlen P - off - zlen (pk_data p)) with (zlen P - (off + zlen (pk_data p))) by lia.
  destruct (IH (off + zlen (pk_data p)) (packets ++ [client_packet p])) as (ps&Heq&Hps&Hc&Hsm&_).
  - assert (zlen (packets ++ [client_packet p]) = zlen packets + 1) as -> by (by rewrite zlen_app).
    split_and!; [lia|lia|lia|]. intros Hlt _. destruct (decide (off = 0)) as [->|Hne]; [lia|].
    rewrite Hfull by lia. lia.
  - lia.
  - exists (p :: ps). rewrite Heq, <- app_assoc. cbn [map]. split_and!; try done;
    by constructor.
Qed.

Lemma packetise_ok id P opts c r rnd : sendable id P opts c r -> 0 < zlen P ->
  ff_client_generate_request_id rnd = Some id ->
  exists ps, ff_client_packetise_request r rnd =
      Ok (Some (map client_packet (next_packet id P opts c 0 :: ps))) /\
    Forall (packet_of id P) (next_packet id P opts c 0 :: ps) /\
    Forall (fun p => zlen (wire_packet p) <= FF_CLIENT_MAX_PACKET_LENGTH)
      (next_packet id P opts c 0 :: ps) /\
    consecutive 0 (next_packet id P opts c 0 :: ps) (zlen P).
Proof.
  intros Hs Hpos Hid. unfold ff_client_packetise_request. rewrite Hid. cbn [try_bind mbind res_bind].
  pose proof (sd_size _ _ _ _ _ Hs). rewrite (sd_length _ _ _ _ _ Hs), u16_small by lia.
  destruct (packetise_loop_ok id P opts c r Hs (S (Z.to_nat (zlen P))) 0 [])
    as (ps&Heq&Hps&Hc&Hsm&Hhd); [|lia|].
  { split_and!; try done; lia. }
  rewrite Z.sub_0_r in Heq. rewrite Heq.
  destruct ps as [|p ps]; [by specialize (Hhd Hpos)|].
  specialize (Hhd Hpos). injection Hhd as ->. exists ps. done.
Qed.

(** ** Sending *)

(** The network takes every datagram. *)
Record client_net_ok (config : ff_client_config) (net : client_net) : Prop := {
  cn_found : cn_getaddrinfo net (cc_ip_address config) (cc_port config) = true;
  cn_open : cn_socket net = true;
  cn_sends i bs : 0 < zlen bs -> 0 < cn_sendto net i bs;
}.

Lemma send_loop_ok config net ps : client_net_ok config net -> forall i out,
  send_loop net i (map client_packet ps) out = Ok (out ++ map wire_packet ps, true).
Proof.
  intros Hn. induction ps as [|p ps IH]; intros i out; cbn [map send_loop]; [by rewrite app_nil_r|].
  cbn [client_packet cp_value cp_length].
  rewrite mem_read_slice by (rewrite ?zlen_app; pose proof (zlen_nonneg (wire_packet p));
    pose proof (zlen_nonneg (replicate
      (Z.to_nat (FF_CLIENT_MAX_PACKET_LENGTH - zlen (wire_packet p))) 0)); lia).
  rewrite slice_0_app by done. cbn [mbind res_bind].
  assert (0 < zlen (wire_packet p)) as Hw.
  { rewrite zlen_wire_packet. pose proof (zlen_wire_options_pos (pk_options p) (pk_contains p)).
    pose proof (zlen_nonneg (pk_data p)). lia. }
  rewrite (proj2 (Z.leb_gt _ _)) by (by apply (cn_sends _ _ Hn)). rewrite IH, <- app_assoc. done.
Qed.

Lemma send_packets_ok net config ps : client_net_ok config net ->
  ff_client_send_request net config (map client_packet ps) = Ok (map wire_packet ps, 0).
Proof.
  intros Hn. unfold ff_client_send_request. rewrite (cn_found _ _ Hn), (cn_open _ _ Hn). cbn [negb].
  by rewrite (send_loop_ok config).
Qed.

(** ** The payload *)

(** The options of the payload, without the one that ends the list. *)
Definition payload_options (https : bool) (now : Z) : list ff_request_option_node :=
  (if https then [mk_option FF_REQUEST_OPTION_TYPE_HTTPS 1 [1]] else []) ++
  [mk_option FF_REQUEST_OPTION_TYPE_TIMESTAMP 8 (be_split 8 (u64 now))].

Lemma payload_options_wf https now : Forall wf_option (payload_options https now).
Proof.
  assert (bytes (be_split 8 (u64 now))) as Hb by apply bytes_be_split.
  unfold payload_options. apply Forall_app. split.
  - destruct https; [|constructor]. constructor; [|constructor].
    split; try done. split; [done|]. by repeat constructor.
  - constructor; [by split|constructor].
Qed.

Lemma payload_option_list_eq https now :
  payload_option_list https now = payload_options https now ++ [terminator false].
Proof.
  unfold payload_option_list, payload_options.
  rewrite store_htonll by apply u64_range. by rewrite <- app_assoc.
Qed.

Lemma zlen_payload_options https now :
  zlen (wire_options (payload_options https now) false) = if https then 18 else 14.
Proof.
  rewrite <- (wire_terminated _ false). unfold payload_options. pose proof (zlen_be_split 8 (u64 now)).
  destruct https; cbn [app map concat]; rewrite !zlen_app, !zlen_wire_writable;
    first [done | apply terminator_writable | split; cbn [opt_type opt_length opt_value]; done || lia].
Qed.

Lemma create_payload_options_ok config now :
  let W := wire_options (payload_options (cc_https config) now) false in
  ff_client_create_payload_options ff_request_alloc config now =
    Ok (if cc_https config then 3 else 2,
        set_payload_length (zlen W) (set_payload (PayloadNodes [mk_node 0 (zlen W) W])
          ff_request_alloc)).
Proof.
  intros W. unfold ff_client_create_payload_options.
  assert (options_size (payload_option_list (cc_https config) now) = zlen W) as ->.
  { unfold W. rewrite zlen_payload_options. by destruct (cc_https config). }
  assert (zlen (payload_option_list (cc_https config) now) = if cc_https config then 3 else 2)
    as Hn by (by destruct (cc_https config)).
  rewrite payload_option_list_eq.
  assert (0 <= zlen W < 100) as HW by (unfold W; rewrite zlen_payload_options;
    destruct (cc_https config); lia).
  change (malloc (zlen W)) with ([] ++ malloc (zlen W)).
  rewrite write_terminated; [|apply payload_options_wf|done|..];
    [|rewrite zlen_malloc; unfold W in *; lia|rewrite zlen_malloc; lia].
  cbn [mbind res_bind]. fold W. rewrite <- payload_option_list_eq, Hn.
  assert (([] ++ W) ++ drop (length W) (malloc (zlen W)) = W) as ->.
  { cbn [app]. rewrite drop_ge; [by rewrite app_nil_r|].
    unfold malloc. rewrite length_replicate. unfold zlen. lia. }
  cbn [ff_client_request_add_payload ff_request_alloc rq_payload mbind res_bind node_length
    rq_payload_length]. rewrite Z.add_0_l, u64_small by lia. done.
Qed.

(** Files that fit into the read buffer arrive as they are. *)
Lemma read_payload_loop_small file : 0 < zlen file <= FF_CLIENT_READ_PAYLOAD_BUFFER_SIZE ->
  read_payload_loop (S (length file)) file (malloc FF_CLIENT_READ_PAYLOAD_BUFFER_SIZE) 0 =
    Ok (Some (file, zlen file)).
Proof.
  unfold FF_CLIENT_READ_PAYLOAD_BUFFER_SIZE. intros Hl.
  destruct file as [|b file]; [unfold zlen in Hl; simpl in Hl; lia|].
  set (f := b :: file) in *. change (length f) with (S (length file)).
  cbn [read_payload_loop]. unfold FF_CLIENT_READ_PAYLOAD_BUFFER_SIZE.
  rewrite take_ge, drop_ge by (unfold zlen in Hl; lia).
  rewrite (u16_small (zlen f)) by lia. rewrite (proj2 (Z.eqb_neq (zlen f) 0)) by lia.
  rewrite Z.add_0_l, (u16_small (zlen f)), (proj2 (Z.eqb_neq (zlen f) 0)) by lia.
  assert (mem_write (realloc (malloc 1024) (zlen f)) 0 f = Ok f) as ->.
  { apply mem_write_ok. unfold realloc, malloc. rewrite take_replicate, length_replicate.
    unfold zlen in *. rewrite length_app, !length_replicate.
    split_and!; [lia|lia|]. cbn. rewrite drop_ge; [by rewrite app_nil_r|].
    rewrite length_app, !length_replicate. lia. }
  cbn [mbind res_bind]. done.
Qed.

Lemma read_payload_ok r last file :
  rq_payload r = PayloadNodes [last] -> 0 <= node_length last < 60000 -> node_offset last = 0 ->
  rq_payload_length r = node_length last ->
  0 < zlen file <= FF_CLIENT_READ_PAYLOAD_BUFFER_SIZE ->
  ff_client_read_payload_from_file r file =
    Ok (Some (set_payload_length (node_length last + zlen file)
                (set_payload (PayloadNodes [last; mk_node (node_length last) (zlen file) file]) r))).
Proof.
  intros Hp Hl Ho Hlen Hf. unfold ff_client_read_payload_from_file.
  rewrite read_payload_loop_small by done. cbn [try_bind mbind res_bind].
  unfold ff_client_request_add_payload. rewrite Hp, Ho, Hlen. cbn [node_length mbind res_bind].
  unfold FF_CLIENT_READ_PAYLOAD_BUFFER_SIZE in *.
  rewrite Z.add_0_l, u16_small, u64_small by lia. done.
Qed.

Lemma vectorise_two r W B :
  rq_payload r = PayloadNodes [mk_node 0 (zlen W) W; mk_node (zlen W) (zlen B) B] ->
  rq_payload_length r = zlen W + zlen B -> zlen W + zlen B < 65536 ->
  ff_request_vectorise_payload r =
    Ok (set_payload (PayloadNodes [mk_node 0 (zlen (W ++ B)) (W ++ B)]) r).
Proof.
  intros Hp Hl Hmax. pose proof (zlen_nonneg W). pose proof (zlen_nonneg B).
  unfold ff_request_vectorise_payload. rewrite Hp, Hl. cbn [vectorise_loop node_value node_length
    node_offset]. rewrite !mem_read_slice, !slice_full by (done || lia). cbn [mbind res_bind].
  change (malloc (zlen W + zlen B)) with ([] ++ malloc (zlen W + zlen B)).
  rewrite mem_write_next; [|done|rewrite zlen_malloc; lia]. cbn [mbind res_bind app].
  rewrite mem_write_next; [|done|rewrite zlen_drop; rewrite zlen_malloc; unfold zlen; lia].
  cbn [mbind res_bind]. rewrite drop_drop, drop_ge, app_nil_r.
  - rewrite zlen_app, u16_small by lia. done.
  - unfold malloc. rewrite length_replicate. unfold zlen. lia.
Qed.
End Facts.
