(* ===== verification/ClientCryptoFacts.v ===== *)
(** * The C client: encryption

    What [ff_client_encrypt_request] makes of a request with one payload
    node, in terms of the runs of the cipher of [CryptoFacts]. *)

From S2P Require Import Prelude Bytes Request Strings Parser ParserFacts Reassembly Crypto.
From S2P Require Import CryptoFacts.
From S2P Require Import Client ClientFacts.

(** The options that describe the encryption. *)
Definition encryption_options (iv tag salt : list Z) : list ff_request_option_node :=
  [mk_option FF_REQUEST_OPTION_TYPE_ENCRYPTION_MODE 1 [FF_CRYPTO_MODE_AES_256_GCM];
   mk_option FF_REQUEST_OPTION_TYPE_ENCRYPTION_IV 12 iv;
   mk_option FF_REQUEST_OPTION_TYPE_ENCRYPTION_TAG 16 tag;
   mk_option FF_REQUEST_OPTION_TYPE_KEY_DERIVE_MODE 1 [FF_KEY_DERIVE_MODE_PBKDF2];
   mk_option FF_REQUEST_OPTION_TYPE_KEY_DERIVE_SALT 16 salt].

(** Random or computed bytes of the length the client allocates for them. *)
Definition of_size (n : Z) (bs : list Z) : Prop := zlen bs = n /\ bytes bs.

Lemma encryption_options_wf iv tag salt :
  of_size 12 iv -> of_size 16 tag -> of_size 16 salt ->
  Forall wf_option (encryption_options iv tag salt).
Proof.
  intros [Hi Bi] [Ht Bt] [Hs Bs]. unfold encryption_options.
  repeat (constructor; [split; cbn; try done; split; cbn; [try done; lia|]|]); try constructor;
    try (by apply bytes_slice); repeat constructor; done.
Qed.

Lemma opt_bytes_loaded o : wf_option o -> opt_bytes (loaded o) = opt_bytes o.
Proof.
  intros [_ _ _ Hl [Hv _]]. unfold opt_bytes, loaded. cbn [opt_value opt_length].
  rewrite slice_app_l by (rewrite ?zlen_slice; lia).
  by rewrite slice_full by (rewrite zlen_slice; lia).
Qed.

Lemma loaded_loaded o : wf_option o -> loaded (loaded o) = loaded o.
Proof.
  intros Ho. pose proof (opt_bytes_loaded o Ho) as H. unfold opt_bytes in H.
  unfold loaded at 1. rewrite H. done.
Qed.

Section Facts.
Context {OS : OpenSSL} {OL : OpenSSLLaws}.

Lemma push_loaded_ok ty len buff r opts :
  0 <= len <= zlen buff -> rq_options r = opts -> rq_options_length r = zlen opts ->
  zlen opts < FF_REQUEST_MAX_OPTIONS ->
  push_loaded ty len buff r =
    Ok (set_options (zlen opts + 1) (opts ++ [loaded (mk_option ty len buff)]) r).
Proof.
  intros Hl Ho Hol Hmax. pose proof (zlen_nonneg opts).
  unfold push_loaded, ff_request_option_load_buff. rewrite load_buff_slice by lia.
  cbn [mbind res_bind opt_type opt_length]. unfold push_option.
  rewrite Hol, Ho, bool_decide_true by done. cbn [guard_res mbind res_bind].
  unfold FF_REQUEST_MAX_OPTIONS in *. rewrite u8_small, take_ge by (unfold zlen in *; lia). done.
Qed.

Lemma rand_bytes_ok n bs : zlen bs = n -> rand_bytes n (Some bs) = Ok (Some bs).
Proof. intros Hn. unfold rand_bytes. by rewrite mem_write_all. Qed.

(** The request with the ciphertext as its payload. *)
Definition encrypted (r : ff_request) (c : list Z) : ff_request :=
  set_payload_length (zlen c) (set_payload (PayloadNodes [mk_node 0 (zlen c) c]) r).

Lemma encrypt_aes_ok r config key pass M salt iv :
  ec_key config = Some key -> c_string key = Ok pass ->
  rq_payload r = PayloadNodes [mk_node 0 (zlen M) M] -> rq_payload_length r = zlen M ->
  zlen M < 65536 -> bytes M -> of_size 16 salt -> of_size 12 iv ->
  let result :=
    k ← PKCS5_PBKDF2_HMAC pass salt (s32 (ec_pbkdf2_iterations config)) 32;
    gcm_encrypt k iv [M] 16 in
  ff_client_encrypt_request_aes_256_gcm_pbkdf2 r config (Some salt) (Some iv) =
    Ok ((fun ct => (encrypted r (fst ct), iv, snd ct, salt)) <$> result) /\
  (forall c tag, result = Some (c, tag) -> zlen c = zlen M /\ bytes c /\ of_size 16 tag).
Proof.
  intros Hkey Hpass Hpay Hlen Hmax HM [Hs Bs] [Hi Bi] result. pose proof (zlen_nonneg M).
  unfold ff_client_encrypt_request_aes_256_gcm_pbkdf2.
  rewrite rand_bytes_ok by done. cbn [try_bind mbind res_bind].
  unfold ff_derive_key_pbkdf2. rewrite Hkey, Hpass. cbn [mbind res_bind].
  rewrite mem_read_slice, slice_full by (done || lia). cbn [mbind res_bind].
  unfold result, gcm_encrypt. rewrite Hpay, Hlen.
  cbn [ff_derived_key_alloc dk_length dk_key].
  destruct (PKCS5_PBKDF2_HMAC pass salt _ 32) as [k|] eqn:Hk; [|done].
  rewrite mem_write_all by (by eapply pbkdf2_out). cbn [try_bind mbind res_bind option_bind].
  rewrite rand_bytes_ok, Hi by done. cbn [try_bind mbind res_bind].
  destruct EVP_CIPHER_CTX_new as [c1|]; cbn [try_bind mbind res_bind option_bind]; [|done].
  destruct (EVP_EncryptInit_cipher c1) as [c2|]; cbn [try_bind mbind res_bind option_bind]; [|done].
  destruct (EVP_ctrl_set_ivlen c2 _) as [c3|]; cbn [try_bind mbind res_bind option_bind]; [|done].
  cbn [dk_key].
  destruct (EVP_EncryptInit_key c3 k iv) as [c4|]; cbn [try_bind mbind res_bind option_bind];
    [|done].
  cbn [encrypt_loop encrypt_updates node_value node_length].
  rewrite mem_read_slice, slice_full by (done || lia). cbn [mbind res_bind].
  destruct (EVP_EncryptUpdate c4 M) as [[c5 out]|] eqn:Hu;
    cbn [try_bind mbind res_bind option_bind]; [|done].
  destruct (encrypt_update_out _ _ _ _ HM Hu) as [Hout Hbo].
  assert (mem_write (malloc (zlen M)) 0 out = Ok out) as ->.
  { apply mem_write_ok. rewrite zlen_malloc by lia. split_and!; [lia|lia|]. cbn.
    rewrite drop_ge; [by rewrite app_nil_r|]. unfold malloc. rewrite length_replicate.
    unfold zlen in *. lia. }
  cbn [mbind res_bind].
  destruct (EVP_EncryptFinal_ex c5) as [[c6 fin]|] eqn:Hfin;
    cbn [try_bind mbind res_bind option_bind]; [|done].
  apply encrypt_final_out in Hfin as ->. rewrite Z.add_0_l, app_nil_r.
  assert (mem_write out (zlen out) [] = Ok out) as ->.
  { rewrite <- (app_nil_r out) at 1. by rewrite mem_write_app, !app_nil_r. }
  cbn [mbind res_bind].
  destruct (EVP_ctrl_get_tag c6 16) as [tag|] eqn:Htag;
    cbn [try_bind mbind res_bind option_bind]; [|done].
  destruct (get_tag_out _ _ _ Htag) as [Hzt Hbt].
  rewrite (mem_write_all 16) by done. cbn [mbind res_bind fmap option_fmap option_map fst snd].
  rewrite ?app_nil_r. change (zlen (@nil Z)) with 0.
  rewrite Z.add_0_r, u16_small by (pose proof (zlen_nonneg out); lia).
  split; [done|]. intros c tag' [= <- <-]. by split_and!.
Qed.

Lemma encrypt_request_ok r config key pass M salt iv :
  ec_key config = Some key -> c_string key = Ok pass ->
  rq_payload r = PayloadNodes [mk_node 0 (zlen M) M] -> rq_payload_length r = zlen M ->
  rq_options r = [] -> rq_options_length r = 0 ->
  zlen M < 65536 -> bytes M -> of_size 16 salt -> of_size 12 iv ->
  let result :=
    k ← PKCS5_PBKDF2_HMAC pass salt (s32 (ec_pbkdf2_iterations config)) 32;
    gcm_encrypt k iv [M] 16 in
  ff_client_encrypt_request r (Some config) (Some salt) (Some iv) =
    Ok ((fun ct => set_options 5 (map loaded (encryption_options iv (snd ct) salt))
                     (encrypted r (fst ct))) <$> result) /\
  (forall c tag, result = Some (c, tag) -> zlen c = zlen M /\ bytes c /\ of_size 16 tag).
Proof.
  intros Hkey Hpass Hpay Hlen Ho Hol Hmax HM Hs Hi result.
  destruct (encrypt_aes_ok r config key pass M salt iv Hkey Hpass Hpay Hlen Hmax HM Hs Hi)
    as [Henc Hres]. fold result in Henc, Hres.
  unfold ff_client_encrypt_request. rewrite Henc.
  destruct result as [[c tag]|]; [|done]. split; [|done].
  destruct (Hres c tag eq_refl) as (_&_&Htag&_). destruct Hs as [Hs _], Hi as [Hi _].
  cbn [fmap option_fmap option_map fst snd try_bind mbind res_bind].
  assert (zlen [FF_CRYPTO_MODE_AES_256_GCM] = 1) as H1 by done.
  assert (zlen [FF_KEY_DERIVE_MODE_PBKDF2] = 1) as H2 by done.
  do 5 (erewrite push_loaded_ok; [|lia|reflexivity|cbn; rewrite ?Ho, ?Hol; done|
    cbn; rewrite ?Ho; done]; cbn [mbind res_bind]).
  cbn. by rewrite Ho.
Qed.

Lemma gcm_encrypt_out k iv M c tag : bytes M -> gcm_encrypt k iv [M] 16 = Some (c, tag) ->
  zlen c = zlen M /\ bytes c /\ of_size 16 tag.
Proof.
  intros HM. unfold gcm_encrypt. cbn [encrypt_updates].
  destruct EVP_CIPHER_CTX_new as [c1|]; cbn [mbind option_bind]; [|done].
  destruct (EVP_EncryptInit_cipher c1) as [c2|]; cbn [mbind option_bind]; [|done].
  destruct (EVP_ctrl_set_ivlen c2 _) as [c3|]; cbn [mbind option_bind]; [|done].
  destruct (EVP_EncryptInit_key c3 k iv) as [c4|]; cbn [mbind option_bind]; [|done].
  destruct (EVP_EncryptUpdate c4 M) as [[c5 out]|] eqn:Hu; cbn [mbind option_bind]; [|done].
  destruct (encrypt_update_out _ _ _ _ HM Hu) as [Hout Hbo].
  destruct (EVP_EncryptFinal_ex c5) as [[c6 fin]|] eqn:Hfin; cbn [mbind option_bind]; [|done].
  apply encrypt_final_out in Hfin as ->.
  destruct (EVP_ctrl_get_tag c6 16) as [tag'|] eqn:Htag; cbn [mbind option_bind]; [|done].
  intros [= <- <-]. rewrite !app_nil_r. split_and!; try done; by apply get_tag_out in Htag.
Qed.

(** ** What the packets of a run carry *)

(** The outcome of encryption, when there is a key. *)
Definition sealed (config : ff_encryption_config) (M salt iv : list Z)
    : option (list Z * list ff_request_option_node) :=
  match ec_key config with
  | None => Some (M, [])
  | Some key =>
      match c_string key with
      | Err _ => None
      | Ok pass =>
          k ← PKCS5_PBKDF2_HMAC pass salt (s32 (ec_pbkdf2_iterations config)) 32;
          '(c, tag) ← gcm_encrypt k iv [M] 16;
          Some (c, map loaded (encryption_options iv tag salt))
      end
  end.

(** A key that is a string, if there is one. *)
Definition key_ok (config : ff_encryption_config) : Prop :=
  forall key, ec_key config = Some key -> exists pass, c_string key = Ok pass.

Lemma map_loaded_wf opts : Forall wf_option opts -> Forall wf_option (map loaded opts).
Proof. intros H. apply Forall_fmap. eapply Forall_impl; [exact H|]. apply wf_loaded. Qed.

Lemma wire_map_loaded opts c : Forall wf_option opts ->
  wire_options (map loaded opts) c = wire_options opts c.
Proof.
  intros H. unfold wire_options. f_equal. f_equal. rewrite map_map.
  apply map_ext_in. intros o Ho. apply wire_loaded.
  rewrite Forall_forall in H. apply H. by apply list_elem_of_In.
Qed.

Lemma zlen_encryption_options iv tag salt :
  zlen iv = 12 -> zlen tag = 16 -> zlen salt = 16 ->
  zlen (wire_options (encryption_options iv tag salt) true) = 64.
Proof.
  intros Hi Ht Hs. rewrite <- (wire_terminated _ true). unfold encryption_options.
  cbn [app map concat]. rewrite !zlen_app, !zlen_wire_writable; cbn [opt_length terminator];
    first [done | apply terminator_writable | split; cbn [opt_type opt_length opt_value]; done || lia].
Qed.

Lemma sealed_facts config M salt iv c opts :
  bytes M -> of_size 16 salt -> of_size 12 iv -> sealed config M salt iv = Some (c, opts) ->
  zlen c = zlen M /\ bytes c /\ Forall wf_option opts /\ map loaded opts = opts /\
  zlen opts <= 5 /\ zlen (wire_options opts true) <= 64.
Proof.
  intros HM [Hs Bs] [Hi Bi]. unfold sealed. destruct (ec_key config) as [key|].
  2: { intros [= <- <-]. split_and!; try done. }
  destruct (c_string key) as [pass|]; [|done].
  destruct (PKCS5_PBKDF2_HMAC _ _ _ _) as [k|]; cbn [mbind option_bind]; [|done].
  destruct (gcm_encrypt k iv [M] 16) as [[c' tag]|] eqn:He; cbn [mbind option_bind]; [|done].
  intros Heq. assert (c = c' /\ opts = map loaded (encryption_options iv tag salt)) as [-> ->]
    by (split; congruence).
  destruct (gcm_encrypt_out k iv M c' tag HM He) as (Hc&Bc&Ht&Bt).
  assert (Forall wf_option (encryption_options iv tag salt)) as Hwf
    by (by apply encryption_options_wf).
  split_and!; [done|done|by apply map_loaded_wf| |done|].
  - rewrite map_map. apply map_ext_in. intros o Ho. apply loaded_loaded.
    rewrite Forall_forall in Hwf. apply Hwf. by apply list_elem_of_In.
  - rewrite wire_map_loaded, zlen_encryption_options by done. done.
Qed.

(** The request with the option that ends its list. *)
Lemma push_terminator_ok (M c : list Z) opts r :
  zlen M < 65536 -> zlen c = zlen M /\ bytes c /\ Forall wf_option opts /\ map loaded opts = opts /\
    zlen opts <= 5 /\ zlen (wire_options opts true) <= 64 ->
  rq_payload r = PayloadNodes [mk_node 0 (zlen c) c] -> rq_payload_length r = zlen c ->
  rq_options r = opts -> rq_options_length r = zlen opts ->
  exists r2, push_option (terminator true) r = Ok r2 /\
    (forall id, 0 <= id < 2 ^ 64 -> sendable id c opts true r2).
Proof.
  intros HM (Hzc&Bc&Hwf&Hld&H5&H64) Hp Hl Ho Hol. unfold push_option.
  pose proof (zlen_nonneg opts).
  rewrite Hol, Ho, bool_decide_true by (unfold FF_REQUEST_MAX_OPTIONS; lia).
  cbn [guard_res mbind res_bind]. eexists. split; [done|]. intros id Hid.
  rewrite u8_small, take_ge by (unfold zlen in *; lia).
  split; cbn; try done; try lia; [|by rewrite zlen_app|unfold FF_CLIENT_MAX_PACKET_LENGTH; lia].
  exists (mk_node 0 (zlen c) c). cbn. rewrite slice_full by done. by split_and!.
Qed.

(** The request the packets are cut from. *)
Lemma make_packets_request `{!HostOrder} config file now salt iv rnd_id :
  bytes file -> 0 < zlen file <= FF_CLIENT_READ_PAYLOAD_BUFFER_SIZE ->
  key_ok (cc_encryption config) -> of_size 16 salt -> of_size 12 iv ->
  let M := wire_options (payload_options (cc_https config) now) false ++ file in
  match sealed (cc_encryption config) M salt iv with
  | None => exists r, ff_request_free r = Ok tt /\
      ff_client_make_packets config file now (mk_client_random (Some salt) (Some iv) rnd_id)
      = Ok (ClientError r)
  | Some (c, opts) =>
      exists r, (forall id, 0 <= id < 2 ^ 64 -> sendable id c opts true r) /\
        ff_client_make_packets config file now (mk_client_random (Some salt) (Some iv) rnd_id) =
          o ← ff_client_packetise_request r rnd_id;
          match o with
          | None => Ok ClientExit
          | Some packets => Ok (ClientPackets packets r)
          end
  end.
Proof.
  intros Hb Hf Hkey Hs Hi M. unfold ff_client_make_packets.
  rewrite create_payload_options_ok. cbn [mbind res_bind].
  set (W := wire_options (payload_options (cc_https config) now) false) in *.
  assert (0 < zlen W < 100) as HW by (unfold W; rewrite zlen_payload_options;
    destruct (cc_https config); lia).
  assert (bytes M) as HM.
  { apply Forall_app. split; [|done]. apply bytes_wire_options, payload_options_wf. }
  unfold FF_CLIENT_READ_PAYLOAD_BUFFER_SIZE in *.
  erewrite read_payload_ok; [|reflexivity|cbn [node_length]; lia|done|done|done].
  cbn [mbind res_bind node_length].
  erewrite (vectorise_two _ W file); [|reflexivity|reflexivity|lia]. fold M.
  cbn [mbind res_bind cr_salt cr_iv cr_id].
  assert (zlen M = zlen W + zlen file) as HzM by apply zlen_app.
  set (r := set_payload _ (set_payload_length _ _)).
  assert (rq_payload_length r = zlen M) as Hpl by (by rewrite HzM).
  assert ((if (if cc_https config then 3 else 2) =? 0 then FF_REQUEST_OPTION_TYPE_EOL
           else FF_REQUEST_OPTION_TYPE_BREAK) = FF_REQUEST_OPTION_TYPE_BREAK) as ->
    by (by destruct (cc_https config)).
  change (mk_option FF_REQUEST_OPTION_TYPE_BREAK _ _) with (terminator true).
  pose proof (sealed_facts (cc_encryption config) M salt iv) as Hsf. unfold sealed in *.
  destruct (ec_key (cc_encryption config)) as [key|] eqn:Hk.
  - destruct (Hkey key Hk) as [pass Hpass]. rewrite Hpass in *.
    destruct (encrypt_request_ok r (cc_encryption config) key pass M salt iv Hk Hpass)
      as [Henc _]; try done; [lia|].
    rewrite Henc.
    assert (ff_request_free r = Ok tt) as Hfree by done.
    destruct (PKCS5_PBKDF2_HMAC _ _ _ _) as [k|]; cbn [mbind option_bind] in *; [|by exists r].
    destruct (gcm_encrypt k iv [M] 16) as [[c tag]|]; cbn [mbind option_bind] in *;
      [|by exists r].
    cbn [fmap option_fmap option_map fst snd mbind res_bind].
    destruct (push_terminator_ok M c _ (set_options 5 (map loaded (encryption_options iv tag salt))
      (encrypted r c)) ltac:(lia) (Hsf c _ HM Hs Hi eq_refl)) as (r2&Hp2&Hsend); try done.
    exists r2. split; [done|]. by rewrite Hp2.
  - cbn [mbind res_bind].
    destruct (push_terminator_ok M M [] r ltac:(lia) (Hsf M [] HM Hs Hi eq_refl))
      as (r2&Hp2&Hsend); try done.
    exists r2. split; [done|]. by rewrite Hp2.
Qed.
End Facts.
