(* ===== verification/CryptoProps.v ===== *)
(** * Properties of decryption

    The claims about src/crypto.c, and a cipher with the laws of
    [OpenSSLLaws] on which their witnesses run. *)

From S2P Require Import Prelude Bytes Request Strings Parser ParserFacts Reassembly Crypto.
From S2P Require Import CryptoFacts.

Section Claims.
Context {OS : OpenSSL} {OL : OpenSSLLaws}.

(** C6: With a pre-shared key, only authenticated requests are accepted.
    [ff_decrypt_request] never faults on a well-formed request with payload
    and a key that is a string; the request comes out as DECRYPTED exactly
    when its options name AES-256-GCM, a non-empty IV and tag, PBKDF2 and a
    non-empty salt, and the cipher accepts the tag under the derived key, and
    then its payload is the plaintext.  In every other case, an unencrypted
    request included, it comes out as DECRYPTING_FAILED with its payload as
    it was. *)
Theorem decrypt_only_authenticated (r : ff_request) (config : ff_encryption_config)
    (key pass : list Z) (nodes : list ff_request_payload_node) :
  wf_request r -> ec_key config = Some key -> c_string key = Ok pass ->
  rq_payload r = PayloadNodes nodes -> nodes <> [] ->
  sum_lengths nodes <= rq_payload_length r -> sum_lengths nodes < 65536 ->
  exists r', ff_decrypt_request r (Some config) = Ok r' /\
    match authenticated (rq_options r) pass (ec_pbkdf2_iterations config)
            (map node_bytes nodes) with
    | Some pt => rq_state r' = FF_REQUEST_STATE_DECRYPTED /\ single_payload pt r' /\
        wf_request r' /\ rq_payload_length r' = zlen pt /\ rq_options r' = rq_options r
    | None => r' = set_state FF_REQUEST_STATE_DECRYPTING_FAILED r
    end.
Proof.
  intros Hwf Hkey Hpass Hpay Hne Hsum Hlt.
  destruct (decrypt_request_keyed r config key pass nodes Hwf Hkey Hpass Hpay Hne Hsum)
    as [Heq Hpt].
  exists (decrypt_result r (authenticated (rq_options r) pass (ec_pbkdf2_iterations config)
            (map node_bytes nodes))). split; [exact Heq|].
  destruct (authenticated _ _ _ _) as [pt|]; [|done].
  destruct (Hpt pt eq_refl) as [Hz Hb]. pose proof (zlen_nonneg pt).
  split_and!; try done.
  - eexists. split; [done|]. cbn. rewrite u16_small, zlen_app, slice_0_app by (lia || done).
    pose proof (zlen_nonneg (drop (length pt) (malloc (rq_payload_length r)))). split_and!; lia || done.
  - apply wf_set_state. eapply wf_decrypted; try done; [by apply wf_set_state|done..].
Qed.

(** Without a pre-shared key, a request whose options ask for no
    encryption passes unchanged, and any other is rejected. *)
Theorem decrypt_without_key (r : ff_request) (config : option ff_encryption_config) :
  wf_request r -> (config = None \/ exists c, config = Some c /\ ec_key c = None) ->
  ff_decrypt_request r config =
    Ok (set_state (if option_byte FF_REQUEST_OPTION_TYPE_ENCRYPTION_MODE (rq_options r) =? 0
                   then FF_REQUEST_STATE_DECRYPTED else FF_REQUEST_STATE_DECRYPTING_FAILED) r).
Proof. apply decrypt_request_no_key. Qed.
End Claims.

(** ** A cipher for the witnesses

    It flips bits of every byte and uses the sum of the ciphertext, sixteen
    times, as the tag. *)

Module Toy.

Definition flip (b : Z) : Z := Z.lxor b 90.

Definition sum_bytes (bs : list Z) : Z := foldr Z.add 0 bs.

Definition toy_tag (s n : Z) : list Z := replicate (Z.to_nat n) (s mod 256).

(** A context: the sum of the ciphertext so far, and the tag to compare with. *)
#[export] Instance toy_openssl : OpenSSL := {
  evp_ctx := Z * list Z;
  EVP_CIPHER_CTX_new := Some (0, []);
  EVP_DecryptInit_cipher ctx := Some ctx;
  EVP_ctrl_set_ivlen ctx _ := Some ctx;
  EVP_DecryptInit_key ctx _ _ := Some ctx;
  EVP_DecryptUpdate ctx bs := Some ((fst ctx + sum_bytes bs, snd ctx), map flip bs);
  EVP_ctrl_set_tag ctx _ tag := Some (fst ctx, tag);
  EVP_DecryptFinal_ex ctx :=
    if bool_decide (snd ctx = toy_tag (fst ctx) 16) then Some [] else None;
  EVP_EncryptInit_cipher ctx := Some ctx;
  EVP_EncryptInit_key ctx _ _ := Some ctx;
  EVP_EncryptUpdate ctx bs :=
    Some ((fst ctx + sum_bytes (map flip bs), snd ctx), map flip bs);
  EVP_EncryptFinal_ex ctx := Some (ctx, []);
  EVP_ctrl_get_tag ctx n := if 0 <=? n then Some (toy_tag (fst ctx) n) else None;
  PKCS5_PBKDF2_HMAC pass salt _ n :=
    if 0 <=? n then Some (replicate (Z.to_nat n) (sum_bytes (pass ++ salt) mod 256)) else None;
}.

Lemma flip_byte b : is_byte b -> is_byte (flip b).
Proof.
  unfold is_byte, flip. intros Hb. split; [apply Z.lxor_nonneg; lia|].
  destruct (decide (Z.lxor b 90 = 0)) as [->|Hne]; [done|].
  assert (0 <= Z.lxor b 90) by (apply Z.lxor_nonneg; lia).
  apply (Z.log2_lt_pow2 _ 8); [lia|].
  eapply Z.le_lt_trans; [apply Z.log2_lxor; lia|].
  apply Z.max_lub_lt; [|done].
  destruct (decide (b = 0)) as [->|]; [done|]. apply Z.log2_lt_pow2; lia.
Qed.

Lemma flip_flip bs : map flip (map flip bs) = bs.
Proof.
  rewrite map_map. rewrite <- (map_id bs) at 2. apply map_ext. intros b. unfold flip.
  by rewrite Z.lxor_assoc, Z.lxor_nilpotent, Z.lxor_0_r.
Qed.

Lemma bytes_flip bs : bytes bs -> bytes (map flip bs).
Proof. intros H. apply Forall_fmap. eapply Forall_impl; [exact H|]. apply flip_byte. Qed.

Lemma sum_bytes_app l1 l2 : sum_bytes (l1 ++ l2) = sum_bytes l1 + sum_bytes l2.
Proof. unfold sum_bytes. induction l1; cbn; lia. Qed.

Lemma toy_updates cs : forall s t,
  decrypt_updates (s, t) cs = Some ((s + sum_bytes (concat cs), t), map flip (concat cs)).
Proof.
  induction cs as [|c cs IH]; intros s t; cbn -[sum_bytes].
  - by rewrite Z.add_0_r.
  - rewrite IH. cbn -[sum_bytes]. by rewrite sum_bytes_app, map_app, Z.add_assoc.
Qed.

#[export] Instance toy_laws : OpenSSLLaws.
Proof.
  constructor.
  - intros ctx c ctx' out Hc [= <- <-]. unfold zlen. rewrite length_map.
    split; [done|by apply bytes_flip].
  - intros ctx out. cbn. case_bool_decide; [|done]. by intros [= <-].
  - intros ctx c ctx' out Hc [= <- <-]. unfold zlen. rewrite length_map.
    split; [done|by apply bytes_flip].
  - by intros ctx ctx' out [= _ <-].
  - intros ctx n tag. cbn. destruct (Z.leb_spec 0 n); [|done]. intros [= <-].
    unfold toy_tag, zlen. rewrite length_replicate. split; [lia|].
    apply Forall_replicate, Z.mod_pos_bound. lia.
  - intros pass salt iterations n key. cbn. destruct (Z.leb_spec 0 n); [|done]. intros [= <-].
    unfold zlen. rewrite length_replicate. lia.
  - intros key iv m c tag cs Hm He Hcs. cbn -[sum_bytes] in He. injection He as <- <-.
    unfold gcm_decrypt. cbn -[sum_bytes decrypt_updates]. rewrite toy_updates.
    cbn -[sum_bytes toy_tag]. rewrite Hcs, !app_nil_r.
    rewrite bool_decide_true by done. cbn. by rewrite app_nil_r, flip_flip.
Qed.
End Toy.

(** ** Witnesses *)

Section Witnesses.
Import Toy.

(** The request of a sender with the key "k": six bytes of ciphertext. *)
Definition toy_config : ff_encryption_config := mk_encryption_config (Some [107; 0]) 1000.

Definition toy_cipher : list Z := map flip [71; 69; 84; 32; 47; 10].

Definition toy_options : list ff_request_option_node :=
  [mk_option FF_REQUEST_OPTION_TYPE_ENCRYPTION_MODE 1 [1];
   mk_option FF_REQUEST_OPTION_TYPE_ENCRYPTION_IV 2 [5; 6];
   mk_option FF_REQUEST_OPTION_TYPE_ENCRYPTION_TAG 16 (toy_tag (sum_bytes toy_cipher) 16);
   mk_option FF_REQUEST_OPTION_TYPE_KEY_DERIVE_MODE 1 [1];
   mk_option FF_REQUEST_OPTION_TYPE_KEY_DERIVE_SALT 1 [9]].

Definition toy_request (options : list ff_request_option_node) : ff_request :=
  set_options (zlen options) options
    (set_received_length 6 (set_payload_length 6
      (set_payload (PayloadNodes [mk_node 0 6 toy_cipher]) ff_request_alloc))).

Lemma toy_request_wf : wf_request (toy_request toy_options).
Proof.
  split; try done.
  - repeat constructor; done.
  - eexists. split; [reflexivity|]. repeat constructor; done.
Qed.

(** Witness of C6. *)
Lemma decrypt_only_authenticated_witness :
  exists r', ff_decrypt_request (toy_request toy_options) (Some toy_config) = Ok r' /\
    rq_state r' = FF_REQUEST_STATE_DECRYPTED /\ single_payload [71; 69; 84; 32; 47; 10] r' /\
    wf_request r' /\ rq_payload_length r' = 6 /\ rq_options r' = toy_options.
Proof.
  pose proof (decrypt_only_authenticated (toy_request toy_options) toy_config [107; 0] [107]
    [mk_node 0 6 toy_cipher] toy_request_wf eq_refl eq_refl eq_refl ltac:(done) ltac:(done)
    eq_refl) as Hdec.
  assert (authenticated (rq_options (toy_request toy_options)) [107]
    (ec_pbkdf2_iterations toy_config) (map node_bytes [mk_node 0 6 toy_cipher]) =
    Some [71; 69; 84; 32; 47; 10]) as Ha by (vm_compute; reflexivity).
  rewrite Ha in Hdec. exact Hdec.
Defined.

(** An example. *)
Lemma decrypt_without_key_witness :
  ff_decrypt_request (toy_request []) None =
    Ok (set_state FF_REQUEST_STATE_DECRYPTED (toy_request [])) /\
  ff_decrypt_request (toy_request toy_options) None =
    Ok (set_state FF_REQUEST_STATE_DECRYPTING_FAILED (toy_request toy_options)).
Proof.
  split.
  - apply (decrypt_without_key (toy_request []) None); [|left; reflexivity].
    split; try done. eexists. split; [reflexivity|]. repeat constructor; done.
  - apply (decrypt_without_key (toy_request toy_options) None);
      [exact toy_request_wf|left; reflexivity].
Defined.
End Witnesses.
