(* ===== verification/EndToEnd.v ===== *)
(** * From the client to the server

    The packets the C client makes of a file, received in order by the
    server's parser, give the file back, with the options of the client,
    encrypted or not. *)

From S2P Require Import Prelude Bytes Request Strings Parser ParserFacts Reassembly.
From S2P Require Import PayloadOptions Crypto.
From S2P Require Import CryptoFacts Client ClientFacts ClientCryptoFacts.

(** ** The request id *)

Lemma lor_shiftl a b k : 0 <= k -> 0 <= a < 2 ^ k -> Z.lor a (Z.shiftl b k) = a + b * 2 ^ k.
Proof.
  intros Hk Ha. rewrite <- Z.shiftl_mul_pow2, <- Z.add_lor_land by lia.
  rewrite <- (Z.add_0_r (Z.lor _ _)) at 1. f_equal. symmetry.
  apply Z.bits_inj'. intros n Hn. rewrite Z.land_spec, Z.bits_0.
  destruct (decide (n < k)).
  - rewrite Z.shiftl_spec_low by done. apply andb_false_r.
  - rewrite <- (Z.mod_small a (2 ^ k)) by lia. by rewrite Z.mod_pow2_bits_high by lia.
Qed.

Lemma generate_request_id_ok bs : of_size 8 bs ->
  ff_client_generate_request_id (Some bs) = Some (le_combine bs) /\ 0 <= le_combine bs < 2 ^ 64.
Proof.
  intros [Hl Hb]. pose proof (le_combine_range bs Hb) as Hr. rewrite Hl in Hr. split; [|done].
  destruct bs as [|b0 [|b1 [|b2 [|b3 [|b4 [|b5 [|b6 [|b7 [|]]]]]]]]];
    try (exfalso; unfold zlen in Hl; simpl in Hl; lia).
  rewrite !Forall_cons in Hb. unfold is_byte in Hb.
  cbn [ff_client_generate_request_id mbind option_bind lookup list_lookup default]. unfold id.
  cbn [le_combine]. f_equal.
  rewrite (lor_shiftl b0 b1 8) by lia. rewrite (lor_shiftl _ b2 16) by lia.
  rewrite (lor_shiftl _ b3 24) by lia. rewrite (lor_shiftl _ b4 32) by lia.
  rewrite (lor_shiftl _ b5 40) by lia. rewrite (lor_shiftl _ b6 48) by lia.
  rewrite (lor_shiftl _ b7 56) by lia. lia.
Qed.

(** ** Joined chunks *)

Lemma wf_vectorised P r r' :
  wf_request r -> single_payload P r' -> bytes P -> zlen P < 65536 ->
  set_payload (rq_payload r) r' = r -> rq_received_length r = zlen P -> wf_request r'.
Proof.
  intros [H1 H2 H3 H4 _] (node&Hp&Ho&Hl&Hv&Hs) HP Hlt Heq Hrec. pose proof (zlen_nonneg P).
  rewrite <- Heq in H1, H2, H3, H4, Hrec. cbn in H1, H2, H3, H4, Hrec.
  split; try done. exists [node]. split; [done|]. split_and!.
  - constructor; [|constructor]. split; [lia|lia|]. rewrite Hl. split; [lia|by rewrite Hs].
  - by repeat constructor.
  - rewrite Hrec. cbn [sum_lengths foldr]. rewrite u64_small; lia.
Qed.

Section Server.
Context {HO : HostOrder}.

(** The packets of the client, as datagrams. *)
Definition datagrams (packets : list ff_client_packet) : list (Z * list Z) :=
  map (fun p => (cp_length p, cp_value p)) packets.

Lemma datagrams_client ps : exists rests,
  datagrams (map client_packet ps) = map datagram (zip ps rests) /\ length rests = length ps.
Proof.
  exists (map (fun p => replicate (Z.to_nat (FF_CLIENT_MAX_PACKET_LENGTH - zlen (wire_packet p))) 0) ps).
  split; [|by rewrite length_map]. unfold datagrams. rewrite map_map.
  induction ps as [|p ps IH]; [done|]. cbn [map zip zip_with]. by rewrite IH.
Qed.

(** A complete request, its chunks joined. *)
Lemma received_joined id P r1 nodes :
  bytes P -> zlen P < 65536 -> receiving id P r1 nodes ->
  rq_state r1 = FF_REQUEST_STATE_RECEIVED ->
  exists r2, ff_request_vectorise_payload r1 = Ok r2 /\ wf_request r2 /\ single_payload P r2 /\
    rq_options r2 = rq_options r1 /\
    rq_payload_contains_options r2 = rq_payload_contains_options r1 /\
    rq_payload_length r2 = zlen P /\ rq_request_id r2 = id.
Proof.
  intros HP Hsz Hr Hst. destruct (rc_received _ _ _ _ Hr Hst) as [Hne Hrec].
  destruct (rc_phase _ _ _ _ Hr) as [(_&?&_)|(_&Hi&Hplen)]; [done|].
  destruct (vectorise_correct P r1 nodes) as (r2&Hv&Hsp&Hset);
    [apply Hr|apply Hr|apply Hr|done..|].
  exists r2. assert (rq_options r2 = rq_options r1 /\ rq_payload_length r2 = rq_payload_length r1 /\
    rq_payload_contains_options r2 = rq_payload_contains_options r1 /\
    rq_request_id r2 = rq_request_id r1) as (E1&E2&E3&E4).
  { rewrite <- Hset. done. }
  split_and!; try done; [|congruence..].
  eapply wf_vectorised; [apply Hr|done|done|done|done|congruence].
Qed.

(** Reception of the packets of a sendable request, up to one joined payload. *)
Lemma packets_received id P opts c r rnd : sendable id P opts c r -> bytes P -> 0 < zlen P ->
  zlen opts < FF_REQUEST_MAX_OPTIONS -> ff_client_generate_request_id rnd = Some id ->
  exists packets r1 r2,
    ff_client_packetise_request r rnd = Ok (Some packets) /\
    Forall (fun p => cp_length p <= FF_CLIENT_MAX_PACKET_LENGTH) packets /\
    feed ff_request_alloc (datagrams packets) = Ok r1 /\
    rq_state r1 = FF_REQUEST_STATE_RECEIVED /\
    ff_request_vectorise_payload r1 = Ok r2 /\ wf_request r2 /\ single_payload P r2 /\
    rq_options r2 = map loaded opts /\ rq_payload_contains_options r2 = c /\
    rq_payload_length r2 = zlen P.
Proof.
  intros Hs HP Hpos Hopts Hid. pose proof Hs as [Hidr Hsz _ _ _ _ _ _].
  destruct (packetise_ok id P opts c r rnd Hs Hpos Hid) as (ps&Heq&Hps&Hsm&Hc).
  set (p := next_packet id P opts c 0) in *.
  destruct (datagrams_client (p :: ps)) as (rests&Hd&Hlen).
  destruct rests as [|rest rests]; [done|]. cbn [zip zip_with] in Hd.
  assert (map fst (zip ps rests) = ps) as Hfst.
  { apply fst_zip. simpl in Hlen. lia. }
  destruct (feed_in_order id P HP Hsz Hidr (zip ps rests) ff_request_alloc [] 0 p rest)
    as (r1&nodes&Hfeed&Hr&Hst&Ho&Hcont).
  - apply prefix_alloc.
  - intros _. done.
  - apply Forall_cons in Hps as [Hp Hps]. constructor; [done|].
    assert (Forall (packet_of id P) (fst <$> zip ps rests)) as Hps'
      by (change (fst <$> zip ps rests) with (map fst (zip ps rests)); by rewrite Hfst).
    rewrite Forall_fmap in Hps'. exact Hps'.
  - cbn [map fst]. by rewrite Hfst.
  - destruct (received_joined id P r1 nodes HP Hsz Hr Hst) as (r2&Hv&Hwf&Hsp&Eo&Ec&El&_).
    exists (map client_packet (p :: ps)), r1, r2. rewrite Hd.
    split_and!; try done; [by apply Forall_fmap|by rewrite Eo, Ho|by rewrite Ec, Hcont].
Qed.

(** ** Decryption of what the client sealed *)

Context {OS : OpenSSL} {OL : OpenSSLLaws}.

Lemma authenticated_sealed config key pass M salt iv c opts :
  ec_key config = Some key -> c_string key = Ok pass ->
  bytes M -> of_size 16 salt -> of_size 12 iv -> sealed config M salt iv = Some (c, opts) ->
  authenticated opts pass (ec_pbkdf2_iterations config) [c] = Some M.
Proof.
  intros Hkey Hpass HM Hs Hi. unfold sealed. rewrite Hkey, Hpass.
  destruct (PKCS5_PBKDF2_HMAC pass salt _ 32) as [k|] eqn:Hk; cbn [mbind option_bind]; [|done].
  destruct (gcm_encrypt k iv [M] 16) as [[c' tag]|] eqn:He; cbn [mbind option_bind]; [|done].
  intros Heq. assert (c = c' /\ opts = map loaded (encryption_options iv tag salt)) as [-> ->]
    by (split; congruence).
  destruct (gcm_encrypt_out k iv M c' tag HM He) as (_&_&Ht).
  pose proof (encryption_options_wf iv tag salt Hi Ht Hs) as Hwf.
  unfold encryption_options in Hwf. rewrite !Forall_cons in Hwf.
  destruct Hwf as (W1&W2&W3&W4&W5&_). destruct Hi as [Hi _], Hs as [Hs _], Ht as [Ht _].
  set (opts := map loaded (encryption_options iv tag salt)).
  assert (option_byte FF_REQUEST_OPTION_TYPE_ENCRYPTION_MODE opts = 1) as Hm1.
  { transitivity (default 0 (head (opt_bytes (loaded (mk_option
      FF_REQUEST_OPTION_TYPE_ENCRYPTION_MODE 1 [FF_CRYPTO_MODE_AES_256_GCM]))))); [done|].
    by rewrite opt_bytes_loaded. }
  assert (option_byte FF_REQUEST_OPTION_TYPE_KEY_DERIVE_MODE opts = 1) as Hm2.
  { transitivity (default 0 (head (opt_bytes (loaded (mk_option
      FF_REQUEST_OPTION_TYPE_KEY_DERIVE_MODE 1 [FF_KEY_DERIVE_MODE_PBKDF2]))))); [done|].
    by rewrite opt_bytes_loaded. }
  assert (forall ty v, opt_bytes (mk_option ty (zlen v) v) = v) as Hv
    by (intros; by apply slice_full).
  assert (option_bytes FF_REQUEST_OPTION_TYPE_ENCRYPTION_IV opts = Some iv) as Hiv.
  { transitivity (Some (opt_bytes (loaded (mk_option FF_REQUEST_OPTION_TYPE_ENCRYPTION_IV 12 iv))));
      [done|]. rewrite opt_bytes_loaded, <- Hi by done. by rewrite Hv. }
  assert (option_bytes FF_REQUEST_OPTION_TYPE_ENCRYPTION_TAG opts = Some tag) as Htg.
  { transitivity (Some (opt_bytes (loaded (mk_option FF_REQUEST_OPTION_TYPE_ENCRYPTION_TAG 16 tag))));
      [done|]. rewrite opt_bytes_loaded, <- Ht by done. by rewrite Hv. }
  assert (option_bytes FF_REQUEST_OPTION_TYPE_KEY_DERIVE_SALT opts = Some salt) as Hsl.
  { transitivity (Some (opt_bytes (loaded (mk_option FF_REQUEST_OPTION_TYPE_KEY_DERIVE_SALT 16 salt))));
      [done|]. rewrite opt_bytes_loaded, <- Hs by done. by rewrite Hv. }
  unfold authenticated, derived. rewrite Hm1, Hm2, Hiv, Htg, Hsl.
  change (1 =? FF_CRYPTO_MODE_AES_256_GCM) with true.
  change (1 =? FF_KEY_DERIVE_MODE_PBKDF2) with true. cbv iota.
  destruct iv as [|i iv]; [done|]. destruct tag as [|g tag]; [done|].
  destruct salt as [|l salt]; [done|]. rewrite Hk. cbn [mbind option_bind].
  eapply gcm_round_trip; [done|exact He|]. cbn. apply app_nil_r.
Qed.

(** The stages of the server up to the options of the payload. *)
Lemma sealed_received config M salt iv c opts r2 :
  key_ok config -> bytes M -> zlen M < 65536 -> of_size 16 salt -> of_size 12 iv ->
  sealed config M salt iv = Some (c, opts) ->
  wf_request r2 -> single_payload c r2 -> rq_options r2 = opts -> rq_payload_length r2 = zlen c ->
  exists r3 node, ff_decrypt_request r2 (Some config) = Ok r3 /\
    rq_state r3 = FF_REQUEST_STATE_DECRYPTED /\ wf_request r3 /\
    rq_payload r3 = PayloadNodes [node] /\ node_bytes node = M /\ rq_options r3 = opts /\
    rq_payload_contains_options r3 = rq_payload_contains_options r2.
Proof.
  intros Hkey HM Hlt Hs Hi Hseal Hwf (node&Hp&Ho&Hl&Hv&Hsl) Hopt Hplen.
  destruct (sealed_facts config M salt iv c opts HM Hs Hi Hseal) as (Hzc&Bc&_).
  assert (node_bytes node = c) as Hnb by (unfold node_bytes; by rewrite Hl).
  destruct (ec_key config) as [key|] eqn:Hk.
  - destruct (Hkey key Hk) as [pass Hpass].
    pose proof (authenticated_sealed config key pass M salt iv c opts Hk Hpass HM Hs Hi Hseal) as Ha.
    assert (sum_lengths [node] = zlen c) as Hsum by (cbn; lia).
    destruct (decrypt_request_keyed r2 config key pass [node] Hwf Hk Hpass Hp) as [Hdec Hpt];
      [done|lia|].
    cbn [map] in Hdec, Hpt. rewrite Hnb, Hopt, Ha in Hdec, Hpt.
    destruct (Hpt M eq_refl) as [HzM _].
    eexists _, _. split; [exact Hdec|]. split; [done|]. split_and!; [|done| |done|done].
    + apply wf_set_state. eapply wf_decrypted; try done; [by apply wf_set_state|cbn; lia..].
    + unfold node_bytes. cbn [node_value node_length]. rewrite u16_small by (pose proof (zlen_nonneg M); lia).
      by rewrite slice_0_app.
  - unfold sealed in Hseal. rewrite Hk in Hseal.
    assert (c = M /\ opts = []) as [-> ->] by (split; congruence).
    exists (set_state FF_REQUEST_STATE_DECRYPTED r2), node.
    rewrite decrypt_request_no_key by eauto. rewrite Hopt. split_and!; try done.
    by apply wf_set_state.
Qed.
End Server.
