(* ===== verification/EndToEndProps.v ===== *)
(** * Properties of the client and of client and server together *)

From S2P Require Import Prelude Bytes Request Strings Parser ParserFacts Reassembly.
From S2P Require Import PayloadOptions Crypto.
From S2P Require Import CryptoFacts CryptoProps Client ClientFacts ClientCryptoFacts EndToEnd.

(** ** Reading a file in buffers *)

Lemma length_realloc block size : length (realloc block size) = Z.to_nat size.
Proof. unfold realloc. rewrite length_app, length_take, length_replicate. lia. Qed.

Lemma mem_write_start data buff :
  (length data <= length buff)%nat -> mem_write buff 0 data = Ok (data ++ drop (length data) buff).
Proof. intros H. apply mem_write_ok. unfold zlen. split_and!; [lia|lia|done]. Qed.

Lemma drop_slice buff off len k :
  0 <= off -> 0 <= k <= len ->
  drop (Z.to_nat k) (slice buff off len) = slice buff (off + k) (len - k).
Proof.
  intros. unfold slice. rewrite skipn_firstn_comm, drop_drop. f_equal; [lia|f_equal; lia].
Qed.

(** The loop after a buffer [first] of 1024 bytes, with [n] more of them in
    [middle] and a last one. *)
Lemma read_loop_buffers n : forall first middle last fuel (j : nat),
  length first = 1024%nat -> length middle = (1024 * n)%nat -> 0 < zlen last <= 1024 ->
  Z.of_nat (1024 * (j + n + 1)) + zlen last < 65536 ->
  (length (middle ++ last) < fuel)%nat ->
  read_payload_loop fuel (middle ++ last) (first ++ replicate (1024 * j) indet)
    (Z.of_nat (1024 * (j + 1))) =
  Ok (Some (last ++ drop (length last) (drop (1024 * n) (first ++ middle)) ++
              replicate (1024 * (j + n) + length last) indet,
            Z.of_nat (1024 * (j + n + 1)) + zlen last)).
Proof.
  induction n as [|n IH]; intros first middle last fuel j H1 Hm Hl Hz Hf;
    (destruct fuel as [|fuel]; [lia|]); cbn [read_payload_loop];
    change (Z.to_nat FF_CLIENT_READ_PAYLOAD_BUFFER_SIZE) with 1024%nat.
  - rewrite Nat.mul_0_r in Hm. apply nil_length_inv in Hm as ->. cbn [app].
    assert (0 < length last <= 1024)%nat as Hl' by (unfold zlen in Hl; lia).
    rewrite take_ge, drop_ge by lia. rewrite (u16_small (zlen last)) by lia.
    rewrite (proj2 (Z.eqb_neq (zlen last) 0)) by lia. rewrite u16_small by lia.
    rewrite (proj2 (Z.eqb_neq _ 0)) by lia. rewrite Nat.add_0_r, app_nil_r.
    rewrite (mem_write_start last) by (rewrite length_realloc; unfold zlen; lia).
    cbn [mbind res_bind]. destruct fuel as [|fuel]; [cbn [app] in Hf; lia|].
    cbn [read_payload_loop]. rewrite take_nil. cbn [zlen].
    change (u16 (zlen (@nil Z)) =? 0) with true. cbv iota. do 3 f_equal.
    unfold realloc. rewrite take_ge by (rewrite length_app, length_replicate; unfold zlen; lia).
    rewrite drop_app_le by (rewrite length_app, length_replicate; lia).
    rewrite drop_app_le by lia. rewrite drop_0, <- app_assoc, <- replicate_add. do 3 f_equal.
    rewrite length_app, length_replicate. unfold zlen. lia.
  - assert (exists m1 m2, middle = m1 ++ m2 /\ length m1 = 1024%nat /\ length m2 = (1024 * n)%nat)
      as (m1&m2&->&L1&L2).
    { exists (take 1024 middle), (drop 1024 middle). rewrite take_drop, length_take, length_drop.
      split_and!; [done|lia|lia]. }
    rewrite <- app_assoc. rewrite take_app_length', drop_app_length' by done.
    assert (zlen m1 = 1024) as -> by (unfold zlen; lia). change (u16 1024) with 1024.
    change (1024 =? 0) with false. cbv iota. rewrite u16_small by (unfold zlen in *; lia).
    rewrite (proj2 (Z.eqb_neq _ 0)) by lia.
    rewrite (mem_write_start m1) by (rewrite length_realloc; lia). cbn [mbind res_bind].
    assert (drop (length m1) (realloc (first ++ replicate (1024 * j) indet)
      (Z.of_nat (1024 * (j + 1)) + 1024)) = replicate (1024 * (j + 1)) indet) as ->.
    { unfold realloc. rewrite take_ge by (rewrite length_app, length_replicate; lia).
      rewrite <- app_assoc, drop_app_length' by lia. rewrite <- replicate_add. f_equal.
      rewrite length_app, length_replicate. lia. }
    replace (Z.of_nat (1024 * (j + 1)) + 1024) with (Z.of_nat (1024 * (j + 1 + 1))) by lia.
    rewrite (IH m1 m2 last fuel (j + 1)%nat); [|done|lia|done|lia|].
    + replace (j + 1 + n)%nat with (j + S n)%nat by lia. rewrite (drop_app_ge first) by lia.
      by replace (1024 * S n - length first)%nat with (1024 * n)%nat by lia.
    + rewrite !length_app in *. lia.
Qed.

Lemma read_payload_overwrites first middle last n file :
  file = first ++ middle ++ last -> zlen first = 1024 -> zlen middle = 1024 * Z.of_nat n ->
  zlen file < 65536 -> 0 < zlen last <= 1024 ->
  read_payload_loop (S (length file)) file (malloc FF_CLIENT_READ_PAYLOAD_BUFFER_SIZE) 0 =
  Ok (Some (last ++ drop (length last) (drop (1024 * n) (first ++ middle)) ++
              replicate (Z.to_nat (zlen file - 1024)) indet, zlen file)).
Proof.
  intros -> H1 Hm Hz Hl. cbn [read_payload_loop].
  change (Z.to_nat FF_CLIENT_READ_PAYLOAD_BUFFER_SIZE) with 1024%nat.
  rewrite take_app_length', drop_app_length', H1 by (unfold zlen in H1; lia).
  change (u16 1024 =? 0) with false. change (u16 (0 + u16 1024)) with 1024.
  change (1024 =? 0) with false. cbv iota.
  rewrite (mem_write_start first) by (rewrite length_realloc; unfold zlen in H1; lia).
  cbn [mbind res_bind].
  assert (drop (length first) (realloc (malloc FF_CLIENT_READ_PAYLOAD_BUFFER_SIZE) 1024) =
    replicate (1024 * 0) indet) as ->.
  { apply drop_ge. rewrite length_realloc. unfold zlen in H1. lia. }
  change 1024 with (Z.of_nat (1024 * (0 + 1))). rewrite !zlen_app in *.
  rewrite (read_loop_buffers n first middle last _ 0); unfold zlen in *; rewrite ?length_app; try lia.
  do 2 f_equal. f_equal; [do 3 f_equal; lia|lia].
Qed.

Section Claims.
Context {HO : HostOrder} {OS : OpenSSL} {OL : OpenSSLLaws}.

(** C8: What the C client sends is what the server proxies.  For a file of
    1 to 1024 bytes, with or without a pre-shared key (the same on both
    sides), the client's run never faults and leaves a request that can be
    freed; unless OpenSSL refuses to encrypt, it gives packets that, received
    in order into a new request, complete it, and after joining the chunks,
    decryption and the options of the payload the server's request is
    PARSED_OPTIONS, its payload is the file, and its options end with the
    HTTPS flag (if the client set it) and the client's time stamp. *)
Theorem client_server_round_trip (config : ff_client_config) (file : list Z) (now : Z)
    (salt iv id_bytes : list Z) :
  bytes file -> 0 < zlen file <= FF_CLIENT_READ_PAYLOAD_BUFFER_SIZE ->
  key_ok (cc_encryption config) ->
  of_size 16 salt -> of_size 12 iv -> of_size 8 id_bytes ->
  let rnd := mk_client_random (Some salt) (Some iv) (Some id_bytes) in
  let M := wire_options (payload_options (cc_https config) now) false ++ file in
  match sealed (cc_encryption config) M salt iv with
  | None => exists r, ff_request_free r = Ok tt /\
      ff_client_make_packets config file now rnd = Ok (ClientError r)
  | Some (_, opts) =>
      exists packets r r1 r2 r3 r4,
        ff_client_make_packets config file now rnd = Ok (ClientPackets packets r) /\
        ff_request_free r = Ok tt /\
        feed ff_request_alloc (datagrams packets) = Ok r1 /\
        rq_state r1 = FF_REQUEST_STATE_RECEIVED /\
        ff_request_vectorise_payload r1 = Ok r2 /\
        ff_decrypt_request r2 (Some (cc_encryption config)) = Ok r3 /\
        rq_state r3 = FF_REQUEST_STATE_DECRYPTED /\
        ff_request_parse_options_from_payload r3 = Ok r4 /\
        rq_state r4 = FF_REQUEST_STATE_PARSED_OPTIONS /\
        single_payload file r4 /\ rq_payload_length r4 = zlen file /\
        rq_options r4 = opts ++ map loaded (payload_options (cc_https config) now)
  end.
Proof.
  intros Hb Hf Hkey Hs Hi Hid rnd M.
  pose proof (make_packets_request config file now salt iv (Some id_bytes) Hb Hf Hkey Hs Hi) as Hmk.
  cbv zeta in Hmk. fold M rnd in Hmk. unfold FF_CLIENT_READ_PAYLOAD_BUFFER_SIZE in Hf.
  assert (zlen M < 2000 /\ 0 < zlen M) as [HM1 HM0].
  { unfold M. rewrite zlen_app, zlen_payload_options. destruct (cc_https config); lia. }
  assert (bytes M) as HM.
  { apply Forall_app. split; [|done]. apply bytes_wire_options, payload_options_wf. }
  destruct (sealed (cc_encryption config) M salt iv) as [[c opts]|] eqn:Hseal; [|exact Hmk].
  destruct Hmk as (r&Hsend&Hmk). destruct (generate_request_id_ok id_bytes Hid) as [Hgen Hrange].
  destruct (sealed_facts _ M salt iv c opts HM Hs Hi Hseal) as (Hzc&Bc&Hwfo&Hld&H5&_).
  destruct (packets_received (le_combine id_bytes) c opts true r (Some id_bytes)
    (Hsend _ Hrange) Bc) as (packets&r1&r2&Hpk&_&Hfeed&Hst&Hvec&Hwf2&Hsp&Ho2&Hc2&Hl2);
    [lia|unfold FF_REQUEST_MAX_OPTIONS; lia|done|].
  rewrite Hld in Ho2.
  destruct (sealed_received (cc_encryption config) M salt iv c opts r2 Hkey HM)
    as (r3&node&Hdec&Hst3&Hwf3&Hp3&Hnb&Ho3&Hc3); try done; [lia|].
  destruct (from_payload_body r3 node (payload_options (cc_https config) now) file)
    as (r4&Hparse&Hst4&Ho4&_&_&Hl4&Hsp4); try done.
  - congruence.
  - apply payload_options_wf.
  - intros Hnil. rewrite Hnil in Hf. unfold zlen in Hf. simpl in Hf. lia.
  - rewrite Ho3. unfold FF_REQUEST_MAX_OPTIONS.
    assert (zlen (payload_options (cc_https config) now) <= 2) by (by destruct (cc_https config)).
    lia.
  - exists packets, r, r1, r2, r3, r4. rewrite Hmk, Hpk. split_and!; try done.
    + by eapply sendable_free, Hsend.
    + by rewrite Ho4, Ho3.
Qed.

(** C14: Packets carry any payload.  A request with one payload node of 1 to
    65535 bytes and options that leave room in the first packet is cut into
    packets of at most 1300 bytes, within the array allocated for them; the
    server receives them in order and joins them to the same payload with the
    same options. *)
Theorem packetise_round_trip (id : Z) (P : list Z) (opts : list ff_request_option_node)
    (c : bool) (r : ff_request) (rnd : option (list Z)) :
  sendable id P opts c r -> bytes P -> 0 < zlen P -> zlen opts < FF_REQUEST_MAX_OPTIONS ->
  ff_client_generate_request_id rnd = Some id ->
  exists packets r1 r2,
    ff_client_packetise_request r rnd = Ok (Some packets) /\
    Forall (fun p => cp_length p <= FF_CLIENT_MAX_PACKET_LENGTH) packets /\
    feed ff_request_alloc (datagrams packets) = Ok r1 /\
    rq_state r1 = FF_REQUEST_STATE_RECEIVED /\
    ff_request_vectorise_payload r1 = Ok r2 /\ wf_request r2 /\ single_payload P r2 /\
    rq_options r2 = map loaded opts /\ rq_payload_contains_options r2 = c /\
    rq_payload_length r2 = zlen P.
Proof. apply packets_received. Qed.

(** C40: The client loses all of a file of more than 1024 bytes but the last
    two buffers.  For files of up to 65535 bytes, added to a request that has
    the node with the options, as in [ff_client_make_request]: each buffer
    read is copied to the start of the payload, so the payload starts with the
    last one, of 1 to 1024 bytes; the rest of the buffer before it follows,
    and everything behind was never written. *)
Theorem client_file_overwritten (r : ff_request) (options : ff_request_payload_node)
    (file : list Z) :
  FF_CLIENT_READ_PAYLOAD_BUFFER_SIZE < zlen file < 65536 ->
  rq_payload r = PayloadNodes [options] ->
  let q := (zlen file - 1) / FF_CLIENT_READ_PAYLOAD_BUFFER_SIZE in
  let previous := slice file (1024 * (q - 1)) 1024 in
  let last := slice file (1024 * q) (zlen file - 1024 * q) in
  exists r', ff_client_read_payload_from_file r file = Ok (Some r') /\
    0 < zlen last <= FF_CLIENT_READ_PAYLOAD_BUFFER_SIZE /\
    rq_payload r' = PayloadNodes [options;
      mk_node (u16 (node_offset options + node_length options)) (zlen file)
        (last ++ drop (length last) previous ++ replicate (Z.to_nat (zlen file - 1024)) indet)].
Proof.
  intros Hz Hp q previous last. unfold FF_CLIENT_READ_PAYLOAD_BUFFER_SIZE in Hz, q |- *.
  assert (1024 * q < zlen file <= 1024 * q + 1024 /\ 1 <= q) as [Hq Hq1] by (unfold q; div_lia).
  assert (0 < zlen last <= 1024) as Hlast by (unfold last; rewrite zlen_slice by lia; lia).
  unfold ff_client_read_payload_from_file.
  rewrite (read_payload_overwrites (slice file 0 1024) (slice file 1024 (1024 * (q - 1))) last
    (Z.to_nat (q - 1)) file); [|..|done].
  - cbn [try_bind mbind res_bind]. unfold ff_client_request_add_payload. rewrite Hp.
    eexists. split_and!; [done|lia|lia|]. cbn [rq_payload set_payload_length set_payload].
    do 7 f_equal. unfold previous.
    pose proof (slice_split file 0 1024 (1024 * (q - 1))) as Hs. rewrite Z.add_0_l in Hs.
    rewrite <- Hs by lia. replace (1024 * Z.to_nat (q - 1))%nat with (Z.to_nat (1024 * (q - 1))) by lia.
    rewrite drop_slice by lia. cbn [node_value]. do 3 f_equal. f_equal; lia.
  - unfold last. pose proof (slice_split file 1024 (1024 * (q - 1)) (zlen file - 1024 * q)) as H1.
    replace (1024 + 1024 * (q - 1)) with (1024 * q) in H1 by lia. rewrite <- H1 by lia.
    pose proof (slice_split file 0 1024 (1024 * (q - 1) + (zlen file - 1024 * q))) as H2.
    rewrite Z.add_0_l in H2. rewrite <- H2 by lia. symmetry. apply slice_full. lia.
  - rewrite zlen_slice by lia. lia.
  - rewrite zlen_slice by lia. lia.
  - lia.
Qed.
End Claims.

(** ** Witnesses *)

Section Witnesses.
Import Toy.
#[local] Instance witness_host : HostOrder := LittleEndian.

Definition toy_client (https : bool) : ff_client_config :=
  mk_client_config None None https toy_config 0.

Definition toy_file : list Z := chars "GET / HTTP/1.1".

Lemma toy_file_bytes : bytes toy_file.
Proof. decide_compute. Qed.

Lemma of_size_replicate n b : is_byte b -> of_size (Z.of_nat n) (replicate n b).
Proof.
  intros Hb. split; [unfold zlen; by rewrite length_replicate|]. by apply Forall_replicate.
Qed.

Lemma toy_file_size : 0 < zlen toy_file <= FF_CLIENT_READ_PAYLOAD_BUFFER_SIZE.
Proof. by split. Qed.
Lemma toy_salt : of_size 16 (replicate 16 3).
Proof. by apply (of_size_replicate 16). Qed.
Lemma toy_iv : of_size 12 (replicate 12 4).
Proof. by apply (of_size_replicate 12). Qed.
Lemma toy_id : of_size 8 (replicate 8 5).
Proof. by apply (of_size_replicate 8). Qed.

Lemma toy_key_ok : key_ok (cc_encryption (toy_client true)).
Proof. intros key [= <-]. by exists [107]. Qed.

(** What the client seals in the run of the witness. *)
Definition toy_message : list Z :=
  wire_options (payload_options (cc_https (toy_client true)) 1600000000) false ++ toy_file.

Lemma toy_sealed :
  sealed (cc_encryption (toy_client true)) toy_message (replicate 16 3) (replicate 12 4) =
    Some (map flip toy_message,
          map loaded (encryption_options (replicate 12 4)
            (toy_tag (sum_bytes (map flip toy_message)) 16) (replicate 16 3))).
Proof. vm_compute. reflexivity. Qed.

(** Witness of C8. *)
Lemma client_server_round_trip_witness :
  exists packets r r1 r2 r3 r4,
    ff_client_make_packets (toy_client true) toy_file 1600000000
      (mk_client_random (Some (replicate 16 3)) (Some (replicate 12 4)) (Some (replicate 8 5))) =
      Ok (ClientPackets packets r) /\
    feed ff_request_alloc (datagrams packets) = Ok r1 /\
    rq_state r1 = FF_REQUEST_STATE_RECEIVED /\
    ff_request_vectorise_payload r1 = Ok r2 /\
    ff_decrypt_request r2 (Some toy_config) = Ok r3 /\
    rq_state r3 = FF_REQUEST_STATE_DECRYPTED /\
    ff_request_parse_options_from_payload r3 = Ok r4 /\
    rq_state r4 = FF_REQUEST_STATE_PARSED_OPTIONS /\ single_payload toy_file r4.
Proof.
  pose proof (client_server_round_trip (toy_client true) toy_file 1600000000 (replicate 16 3)
    (replicate 12 4) (replicate 8 5) toy_file_bytes toy_file_size toy_key_ok
    toy_salt toy_iv toy_id) as Hrt.
  cbv zeta in Hrt. fold toy_message in Hrt. rewrite toy_sealed in Hrt.
  destruct Hrt as (packets&r&r1&r2&r3&r4&H1&_&H2&H3&H4&H5&H6&H7&H8&H9&_).
  exact (ex_intro _ packets (ex_intro _ r (ex_intro _ r1 (ex_intro _ r2 (ex_intro _ r3 (ex_intro _ r4
    (conj H1 (conj H2 (conj H3 (conj H4 (conj H5 (conj H6 (conj H7 (conj H8 H9)))))))))))))).
Defined.

(** A payload of two packets. *)
Definition long_payload : list Z := replicate 2000 65.

Definition long_request : ff_request :=
  set_options 1 [terminator false]
    (set_payload_length 2000
      (set_payload (PayloadNodes [mk_node 0 2000 long_payload]) ff_request_alloc)).

Lemma long_request_sendable : sendable 5 long_payload [] false long_request.
Proof.
  split; try done. exists (mk_node 0 2000 long_payload). split_and!; try done.
Qed.

(** Witness of C14. *)
Lemma packetise_round_trip_witness :
  exists packets r1 r2,
    ff_client_packetise_request long_request (Some [5; 0; 0; 0; 0; 0; 0; 0]) = Ok (Some packets) /\
    Forall (fun p => cp_length p <= FF_CLIENT_MAX_PACKET_LENGTH) packets /\
    feed ff_request_alloc (datagrams packets) = Ok r1 /\
    rq_state r1 = FF_REQUEST_STATE_RECEIVED /\
    ff_request_vectorise_payload r1 = Ok r2 /\ wf_request r2 /\ single_payload long_payload r2 /\
    rq_options r2 = map loaded [] /\ rq_payload_contains_options r2 = false /\
    rq_payload_length r2 = zlen long_payload.
Proof.
  apply (packetise_round_trip 5 long_payload [] false long_request
           (Some [5; 0; 0; 0; 0; 0; 0; 0]));
    first [exact long_request_sendable | reflexivity | done |
           apply Forall_replicate; done].
Defined.

(** The request with the options of the payload. *)
Definition optioned_request : ff_request :=
  match ff_client_create_payload_options ff_request_alloc (toy_client true) 1600000000 with
  | Ok (_, r) => r
  | Err _ => ff_request_alloc
  end.

Definition options_node : ff_request_payload_node :=
  match rq_payload optioned_request with
  | PayloadNodes [node] => node
  | _ => ff_request_payload_node_alloc
  end.

(** Witness of C40: of 2051 bytes, the first 1024 and three of the next are
    lost. *)
Lemma client_file_overwritten_witness :
  exists r', ff_client_read_payload_from_file optioned_request
      (replicate 1024 65 ++ replicate 1024 66 ++ replicate 3 67) = Ok (Some r') /\
    rq_payload r' = PayloadNodes [options_node;
      mk_node 18 2051 (replicate 3 67 ++ replicate 1021 66 ++ replicate 1027 indet)].
Proof.
  destruct (client_file_overwritten optioned_request options_node
    (replicate 1024 65 ++ replicate 1024 66 ++ replicate 3 67)) as (r'&H1&_&H2).
  - done.
  - vm_compute. reflexivity.
  - exists r'. split; [exact H1|]. rewrite H2. vm_compute. reflexivity.
Defined.
End Witnesses.
