(* ===== verification/Http.v ===== *)
(** * Sending the HTTP request: src/http.c

    The search for the destination host in the payload, the choice between
    HTTP and HTTPS, and the loops that send the payload and read the
    response.  The network and OpenSSL are arguments: what their calls
    return.  The calls of [ff_log] that print a host name, an address, an
    error of OpenSSL or the response are part of the functions, and so are all
    others of the two functions that send; the messages of the search that are
    constants are left out. *)

From S2P Require Import Prelude Bytes Request Strings Logging Parser Crypto.

Definition FF_HTTP_HOST_HEADER_MAX_SEARCH_LENGTH : Z := 8096.
Definition FF_HTTP_RESPONSE_BUFF_SIZE : Z := 4096.
Definition POSIX_HOST_NAME_MAX : Z := 255.

(** The characters of a host name. *)
Definition is_host_char (c : Z) : bool := (c =? 46) || (c =? 45) || isalnum c.

(** [strncasecmp] of [buff + off] and a string literal. *)
Fixpoint strncasecmp (n : nat) (buff : list Z) (off : Z) (s : list Z) : res Z :=
  match n with
  | O => Ok 0
  | S n =>
      let c := default 0 (head s) in
      d ← load_byte buff off;
      if tolower d =? tolower c then
        if d =? 0 then Ok 0 else strncasecmp n buff (off + 1) (tail s)
      else Ok (tolower d - tolower c)
  end.

(** [strchr(buff + i, c)]: the index found, [None] for [NULL]. *)
Fixpoint strchr (buff : list Z) (c i : Z) : res (option Z) :=
  match buff with
  | [] => Err OutOfBounds
  | d :: rest =>
      if bool_decide (is_byte d) then
        if d =? c then Ok (Some i) else if d =? 0 then Ok None else strchr rest c (i + 1)
      else Err Indeterminate
  end.

(** ** The destination host

    [line] is always [http_request + i]. *)

Section Host.
Variables (value : list Z) (payload_len : Z).

(** [FF_HTTP_DESTINATION_CONSUME_CHAR(x)]: the new position, [None] is
    [goto error]. *)
Definition consume_char (i x : Z) : res (option Z) :=
  let i := u64 (i + x) in
  if payload_len <? i then Ok None
  else
    c ← load_byte value i;
    if c =? 0 then Ok None
    else if FF_HTTP_HOST_HEADER_MAX_SEARCH_LENGTH <=? i then Ok None
    else Ok (Some i).

(** The loop over the spaces before the host. *)
Fixpoint skip_spaces (fuel : nat) (i : Z) : res (option Z) :=
  match fuel with
  | O => Err OutOfFuel
  | S fuel =>
      c ← load_byte value i;
      if c =? 32 then i ←? consume_char i 1; skip_spaces fuel i else Ok (Some i)
  end.

(** The loop to the end of a line. *)
Fixpoint skip_line (fuel : nat) (i : Z) : res (option Z) :=
  match fuel with
  | O => Err OutOfFuel
  | S fuel =>
      c ← load_byte value i;
      if negb (c =? 10) then i ←? consume_char i 1; skip_line fuel i else Ok (Some i)
  end.

(** The loop that copies the host: the block and the length of the name. *)
Fixpoint copy_host (fuel : nat) (i : Z) (host_name : list Z) (host_len : Z)
    : res (list Z * Z) :=
  match fuel with
  | O => Err OutOfFuel
  | S fuel =>
      if i <=? payload_len then
        c ← load_byte value i;
        if is_host_char c && (host_len <=? 255) then
          host_name ← mem_write host_name host_len [c];
          copy_host fuel (u64 (i + 1)) host_name (host_len + 1)
        else Ok (host_name, host_len)
      else Ok (host_name, host_len)
  end.

(** The end of the headers: an empty line. *)
Definition at_empty_line (i : Z) : res bool :=
  if (2 <? u64 (payload_len - i)) && negb (i =? 0) then
    c ← load_byte value i;
    if c =? 10 then Ok true
    else if c =? 13 then
      d ← load_byte value (i + 1); Ok (d =? 10)
    else Ok false
  else Ok false.

Definition at_host_header (i : Z) : res bool :=
  if 5 <? u64 (payload_len - i) then
    c ← strncasecmp 5 value i (chars "host:"); Ok (c =? 0)
  else Ok false.

(** The [while (1)] loop; [Some] is the string returned. *)
Fixpoint host_loop (fuel : nat) (i : Z) (host_name : list Z) : res (option (list Z)) :=
  match fuel with
  | O => Err OutOfFuel
  | S fuel =>
      headers_end ← at_empty_line i;
      if headers_end : bool then Ok None
      else
        host_header ← at_host_header i;
        if host_header : bool then
          i ←? consume_char i 5;
          i ←? skip_spaces (S (Z.to_nat payload_len)) i;
          '(host_name, host_len) ← copy_host 257 i host_name 0;
          host_name ← mem_write host_name host_len [0];
          Some <$> c_string host_name
        else
          i ←? skip_line (S (Z.to_nat payload_len)) i;
          i ←? consume_char i 1;
          host_loop fuel i host_name
  end.
End Host.

Definition ff_http_get_destination_host (r : ff_request) : res (option (list Z)) :=
  match rq_payload r with
  | PayloadDangling => Err UseAfterFree
  | PayloadNodes [] => Err NullDeref
  | PayloadNodes (payload :: _) =>
      let host_name := malloc (POSIX_HOST_NAME_MAX + 1) in
      let payload_len := rq_payload_length r in
      if payload_len =? 0 then
        i ←? consume_char (node_value payload) payload_len 0 1;
        host_loop (node_value payload) payload_len (S (Z.to_nat payload_len)) i host_name
      else host_loop (node_value payload) payload_len (S (Z.to_nat payload_len)) 0 host_name
  end.

(** The [done] exit of the search: the log of the host found. *)
Definition log_destination_host (lg : log_env) (host : option (list Z)) : res unit :=
  match host with
  | None => Ok tt
  | Some host_name => log lg FF_DEBUG (chars "Found destination host: %s") [PString host_name]
  end.

(** ** Plain HTTP *)

(** The response buffer before the first read, in both functions. *)
Definition no_response : list Z := replicate (Z.to_nat FF_HTTP_RESPONSE_BUFF_SIZE) 0.

(** The first line of the response, in both functions: without a newline,
    [strchr] returns a null pointer, from which [response] is subtracted.  The
    precision, at most 100, bounds what is read of it. *)
Definition log_response (lg : log_env) (response : list Z) : res unit :=
  newline ← strchr response 10 0;
  match newline with
  | None => Err NullArith
  | Some response_header_length =>
      log lg FF_DEBUG (chars "Response: %.*s")
        [PInt (if 100 <? response_header_length then 100 else response_header_length);
         PString (slice response 0 response_header_length)]
  end.

Definition log_dns_lookup (level : Z) (nowinfo : tm) (host_name : list Z) : res (list Z) :=
  ff_log level nowinfo FF_DEBUG (chars "Performing DNS lookup of %s") [PString host_name].

Definition log_dns_failure (level : Z) (nowinfo : tm) (host_name : list Z) : res (list Z) :=
  ff_log level nowinfo FF_WARNING (chars "Failed to perform DNS lookup for host: %s")
    [PString host_name].

(** What the calls of [ff_http_send_request_unencrypted] return: whether the
    address was found, its text as [inet_ntop] gives it, whether the socket was
    opened and the connection made, the values of [write] given the bytes
    offered, and the data of each [recv] ([None] is a negative return). *)
Record http_env : Type := mk_http_env {
  he_getaddrinfo : list Z -> bool;
  he_address : list Z -> list Z;
  he_socket : bool;
  he_connect : bool;
  he_write : Z -> Z -> Z;
  he_recv : Z -> Z -> option (list Z);
}.

(** The [do] loop of [write]: the bytes written, [sent], and [false] for
    [goto error]. *)
Fixpoint write_loop (fuel : nat) (env : http_env) (value : list Z) (payload_length sent : Z)
    (out : list Z) : res (list Z * Z * bool) :=
  match fuel with
  | O => Err OutOfFuel
  | S fuel =>
      bs ← mem_read value sent (u64 (payload_length - sent));
      let chunk := he_write env sent (zlen bs) in
      if chunk <? 0 then Ok (out, sent, false)
      else if chunk =? 0 then Ok (out, sent, true)
      else
        let out := out ++ take (Z.to_nat chunk) bs in
        let sent := u32 (sent + u32 chunk) in
        if sent <? payload_length then write_loop fuel env value payload_length sent out
        else Ok (out, sent, true)
  end.

(** The [do] loop of [recv]: the response buffer, the bytes received, and
    [false] for [goto error]. *)
Fixpoint recv_loop (fuel : nat) (env : http_env) (response : list Z) (received : Z)
    : res (list Z * Z * bool) :=
  match fuel with
  | O => Err OutOfFuel
  | S fuel =>
      match he_recv env received (FF_HTTP_RESPONSE_BUFF_SIZE - received - 1) with
      | None => Ok (response, received, false)
      | Some [] => Ok (response, received, true)
      | Some bs =>
          response ← mem_write response received bs;
          let received := u32 (received + u32 (zlen bs)) in
          c ← strncasecmp 5 response 0 (chars "HTTP/");
          if (0 <? received) && (c =? 0) then Ok (response, received, true)
          else if received <? FF_HTTP_RESPONSE_BUFF_SIZE - 1
          then recv_loop fuel env response received
          else Ok (response, received, true)
      end
  end.

(** The loop on the empty buffer: each round but the last receives a byte. *)
Definition http_response (env : http_env) : res (list Z * Z * bool) :=
  recv_loop (Z.to_nat FF_HTTP_RESPONSE_BUFF_SIZE) env no_response 0.

(** Returns what was written to the socket and whether the function returned
    [true]. *)
Definition ff_http_send_request_unencrypted (lg : log_env) (env : http_env) (r : ff_request)
    (host_name : list Z) : res (list Z * bool) :=
  _ ← log_dns_lookup (lg_level lg) (lg_now lg) host_name;
  if negb (he_getaddrinfo env host_name) then
    _ ← log_dns_failure (lg_level lg) (lg_now lg) host_name; Ok ([], false)
  else if negb (he_socket env) then
    _ ← log lg FF_ERROR (chars "Failed to open socket") []; Ok ([], false)
  else
    _ ← log lg FF_DEBUG (chars "Resolved host %s to ip address %s")
          [PString host_name; PString (he_address env host_name)];
    if negb (he_connect env) then
      _ ← log lg FF_WARNING (chars "Failed to connect to host: %s") [PString host_name];
      Ok ([], false)
    else
      match rq_payload r with
      | PayloadDangling => Err UseAfterFree
      | PayloadNodes [] => Err NullDeref
      | PayloadNodes (payload :: _) =>
          '(out, sent, written) ← write_loop (S (Z.to_nat (rq_payload_length r))) env
                              (node_value payload) (rq_payload_length r) 0 [];
          if negb written then
            _ ← log lg FF_WARNING (chars "Failed to write to socket: %s (%d bytes remaining)")
                  [PString host_name; PInt (s32 (rq_payload_length r - sent))];
            Ok (out, false)
          else
            _ ← log lg FF_DEBUG
                  (chars "Finished sending request to %s over HTTP (%d bytes sent)")
                  [PString host_name; PInt (s32 sent)];
            '(response, received, read) ← http_response env;
            if negb read then
              _ ← log lg FF_WARNING
                    (chars "Failed to read response from socket for host: %s (%d bytes received)")
                    [PString host_name; PInt (s32 received)];
              Ok (out, false)
            else
              _ ← log lg FF_DEBUG (chars "Finished receiving response from %s (%d bytes received)")
                    [PString host_name; PInt (s32 received)];
              _ ← log_response lg response;
              Ok (out, true)
      end.

(** ** HTTPS *)

(** What was set on the connection before it is made: the name the
    certificate has to be for ([X509_VERIFY_PARAM_set1_host]), and whether the
    peer is verified ([SSL_set_verify] with [SSL_VERIFY_PEER]). *)
Record ssl_settings : Type := mk_ssl_settings {
  ssl_host : option (list Z);
  ssl_verify_peer : bool;
}.

(** What the calls of [ff_http_send_request_tls] return, in their order: the
    set-up of the connection, its verification under the settings made, the
    text of an error, and then the values of [BIO_write] and of [BIO_read]
    with [BIO_should_retry].  [te_skip_host_validation] is the macro
    [OPENSSL_SKIP_HOST_VALIDATION] of the build. *)
Record tls_env : Type := mk_tls_env {
  te_skip_host_validation : bool;
  te_method : bool;
  te_ctx_new : bool;
  te_ssl_connect : bool;
  te_conn_hostname : list Z -> bool;      (* the result is not tested *)
  te_conn_port : bool;
  te_get_ssl : bool;
  te_cipher_list : bool;
  te_host_name : list Z -> bool;
  te_param_host : list Z -> bool;
  te_connect : ssl_settings -> bool;
  te_handshake : ssl_settings -> bool;
  te_peer_certificate : ssl_settings -> bool;
  te_verify_result : ssl_settings -> bool;
  te_error_string : list Z;
  te_write : Z -> Z -> Z;
  te_read : Z -> Z -> option (list Z) * bool;
}.

(** The [do] loop of [BIO_write]: the bytes written, and [sent], to which the
    return below 1 that ends the loop is added too. *)
Fixpoint bio_write_loop (fuel : nat) (env : tls_env) (value : list Z) (payload_length sent : Z)
    (out : list Z) : res (list Z * Z) :=
  match fuel with
  | O => Err OutOfFuel
  | S fuel =>
      bs ← mem_read value sent (payload_length - sent);
      let chunk := te_write env sent (zlen bs) in
      if 0 <? chunk
      then bio_write_loop fuel env value payload_length (sent + chunk)
             (out ++ take (Z.to_nat chunk) bs)
      else Ok (out, sent + chunk)
  end.

(** The [do] loop of [BIO_read]: a failed read counts as -1 bytes.  [n] bounds
    the number of reads. *)
Fixpoint bio_read_loop (n : nat) (env : tls_env) (response : list Z) (received : Z)
    : res (list Z * Z) :=
  match n with
  | O => Err OutOfFuel
  | S n =>
      let '(data, should_retry) := te_read env received (FF_HTTP_RESPONSE_BUFF_SIZE - received) in
      let chunk := match data with Some bs => zlen bs | None => -1 end in
      response ← match data with
                 | Some bs => mem_write response received bs
                 | None => Ok response
                 end;
      let received := received + chunk in
      c ← (if 5 <? received then strncasecmp 5 response 0 (chars "http/") else Ok 1);
      if (5 <? received) && (c =? 0) then Ok (response, received)
      else if (0 <? chunk) || (should_retry : bool)
      then bio_read_loop n env response received
      else Ok (response, received)
  end.

(** A step of the set-up: the message of its failure and [goto error], or the
    rest of the function. *)
Definition tls_step (lg : log_env) (passed : bool) (type : Z) (message : list Z)
    (args : list printf_arg) (rest : res (list Z * bool)) : res (list Z * bool) :=
  if passed then rest else _ ← log lg type message args; Ok ([], false).

Definition ff_http_send_request_tls (lg : log_env) (env : tls_env) (reads : nat) (r : ff_request)
    (host_name : list Z) : res (list Z * bool) :=
  let error := [PString (te_error_string env)] in
  tls_step lg (te_method env) FF_ERROR (chars "Failed to initialise OpenSSL method") [] (
  tls_step lg (te_ctx_new env) FF_ERROR (chars "Failed to initialise OpenSSL context") [] (
  tls_step lg (te_ssl_connect env) FF_ERROR (chars "Failed to initialise OpenSSL connection") [] (
  tls_step lg (te_conn_port env) FF_ERROR
    (chars "Failed to set OpenSSL connection host name") [] (
  tls_step lg (te_get_ssl env) FF_ERROR (chars "Failed to set OpenSSL ssl") [] (
  tls_step lg (te_cipher_list env) FF_ERROR (chars "Failed to set OpenSSL preferred ciphers") [] (
  tls_step lg (te_host_name env host_name) FF_ERROR
    (chars "Failed to set OpenSSL TLS host name") [] (
  tls_step lg (te_skip_host_validation env || te_param_host env host_name) FF_ERROR
    (chars "Failed to set OpenSSL param host name") [] (
  let ssl := mk_ssl_settings
    (if te_skip_host_validation env then None else Some host_name) true in
  tls_step lg (te_connect env ssl) FF_WARNING
    (chars "Failed to perform OpenSSL request connection: %s") error (
  tls_step lg (te_handshake env ssl) FF_WARNING
    (chars "Failed to perform OpenSSL request handshake: %s") error (
  tls_step lg (te_peer_certificate env ssl) FF_WARNING
    (chars "Server did not present a certificate") [] (
  tls_step lg (te_verify_result env ssl) FF_WARNING
    (chars "Server certificate could not be validated against CA: %s") error (
    match rq_payload r with
    | PayloadDangling => Err UseAfterFree
    | PayloadNodes [] => Err NullDeref
    | PayloadNodes (payload :: _) =>
        '(out, sent) ← bio_write_loop (S (S (Z.to_nat (rq_payload_length r)))) env
                         (node_value payload) (rq_payload_length r) 0 [];
        _ ← log lg FF_DEBUG (chars "Finished sending request to %s over HTTPS (%d bytes sent)")
              [PString host_name; PInt sent];
        '(response, received) ← bio_read_loop reads env no_response 0;
        _ ← log lg FF_DEBUG (chars "Finished receiving response from %s (%d bytes received)")
              [PString host_name; PInt received];
        _ ← log_response lg response;
        Ok (out, true)
    end)))))))))))).

(** ** The request *)

(** The loop over the options, from the last to the first. *)
Fixpoint https_loop (options : list ff_request_option_node) (https : bool) : res bool :=
  match options with
  | [] => Ok https
  | o :: rest =>
      if opt_type o =? FF_REQUEST_OPTION_TYPE_HTTPS then
        https ← (if opt_length o =? 1 then b ← load_byte (opt_value o) 0; Ok (b =? 1)
                 else Ok false);
        https_loop rest https
      else https_loop rest https
  end.

(** The transport the function called, with the host and the bytes it wrote. *)
Inductive sent_event : Type :=
  | SentHttp (host out : list Z)
  | SentHttps (host out : list Z).

Record send_env : Type := mk_send_env {
  se_http : http_env;
  se_tls : tls_env;
  se_tls_reads : nat;
  se_nowinfo : tm;                        (* the local time, for the log *)
}.

(** From the search for the host to the end: [https] chooses the transport,
    its result the state. *)
Definition send_over (lg : log_env) (env : send_env) (https : bool) (r : ff_request)
    : res (ff_request * option sent_event) :=
  host ← ff_http_get_destination_host r;
  _ ← log_destination_host lg host;
  match host with
  | None => Ok (set_state FF_REQUEST_STATE_SENDING_FAILED r, None)
  | Some host_name =>
      '(ev, success) ←
        (if https then
           '(out, ok) ← ff_http_send_request_tls lg (se_tls env) (se_tls_reads env) r host_name;
           Ok (SentHttps host_name out, ok)
         else
           '(out, ok) ← ff_http_send_request_unencrypted lg (se_http env) r host_name;
           Ok (SentHttp host_name out, ok));
      Ok (set_state (if success : bool then FF_REQUEST_STATE_SENT
                     else FF_REQUEST_STATE_SENDING_FAILED) r, Some ev)
  end.

Definition ff_http_send_request (lg : log_env) (env : send_env) (r : ff_request)
    : res (ff_request * option sent_event) :=
  options ← visited_options r;
  https ← https_loop (rev options) false;
  send_over lg env https r.
