(* ===== verification/HttpFacts.v ===== *)
(** * Facts about src/http.c

    What each loop of the search for the host does on a payload given as a
    list of header lines, and what the loops that send a payload write. *)

From S2P Require Import Prelude Bytes Request Strings Parser ParserFacts Reassembly Crypto Http.

(** ** Reads at the end of a prefix *)

Lemma load_byte_at pre c post i :
  is_byte c -> i = zlen pre -> load_byte (pre ++ c :: post) i = Ok c.
Proof.
  intros Hc ->. apply load_byte_ok. unfold zlen. split_and!; [lia| |done].
  rewrite Nat2Z.id. by apply list_lookup_middle.
Qed.

Lemma load_byte_end value i : i = zlen value -> load_byte value i = Err OutOfBounds.
Proof.
  intros ->. unfold load_byte, zlen. rewrite bool_decide_true by lia.
  rewrite Nat2Z.id, lookup_ge_None_2 by lia. done.
Qed.

(** [strncasecmp] compares, whatever the bytes are. *)
Lemma strncasecmp_ok s w pre post i :
  i = zlen pre -> length w = length s -> bytes w ->
  Forall (fun c => tolower c <> 0) s ->
  exists c, strncasecmp (length s) (pre ++ w ++ post) i s = Ok c /\
    (c = 0 <-> map tolower w = map tolower s).
Proof.
  revert w pre i. induction s as [|a s IH]; intros w pre i -> Hl Hw Hs.
  { destruct w; [|done]. exists 0. done. }
  destruct w as [|d w]; [done|]. injection Hl as Hl. apply Forall_cons in Hw as [Hd Hw].
  apply Forall_cons in Hs as [Ha Hs]. cbn [length strncasecmp head default app tail map].
  rewrite load_byte_at by done. cbn [mbind res_bind].
  destruct (Z.eqb_spec (tolower d) (tolower (id a))) as [E|E]; cbn [id] in *.
  - destruct (Z.eqb_spec d 0) as [->|Hd0]; [by rewrite <- E in Ha|].
    destruct (IH w (pre ++ [d]) (zlen pre + 1)) as (c&Hc&Hiff); try done.
    { by rewrite zlen_app. }
    rewrite <- app_assoc in Hc. exists c. split; [done|]. rewrite Hiff, E. split; congruence.
  - exists (tolower d - tolower a). split; [done|]. split; [lia|]. intros [= ?]. lia.
Qed.

(** ** Header lines *)

(** The bytes of a line: no NUL and no newline. *)
Definition line_char (c : Z) : Prop := is_byte c /\ c <> 0 /\ c <> 10.

Definition is_host_line (l : list Z) : bool :=
  bool_decide (map tolower (take 5 l) = chars "host:").

(** The lines, each with its newline. *)
Definition header_text (lines : list (list Z)) : list Z :=
  concat (map (fun l => l ++ [10]) lines).

(** Lines the search passes over; a blank line ends the headers, except as
    the first line of the payload. *)
Definition passed_line (l : list Z) : Prop :=
  Forall line_char l /\ is_host_line l = false.
Definition not_blank (l : list Z) : Prop := l <> [] /\ l <> [13].

Record passed_lines (lines : list (list Z)) : Prop := {
  pl_lines : Forall passed_line lines;
  pl_tail : Forall not_blank (tail lines);
}.

Lemma host_prefix_line l rest :
  is_host_line l = false -> 5 <= zlen (l ++ 10 :: rest) ->
  map tolower (take 5 (l ++ 10 :: rest)) <> map tolower (chars "host:").
Proof.
  unfold is_host_line. rewrite bool_decide_eq_false. intros Hl Hlen E.
  change (map tolower (chars "host:")) with (chars "host:") in E.
  destruct (decide (5 <= length l)%nat) as [H5|H5].
  { apply Hl. by rewrite take_app_le in E. }
  assert (10 ∈ chars "host:") as Hin.
  { rewrite <- E. change 10 with (tolower 10). apply list_elem_of_fmap_2.
    rewrite take_app, take_ge by lia. apply elem_of_app. right.
    destruct (5 - length l)%nat eqn:E5; [lia|]. cbn. left. }
  vm_compute in Hin. repeat (apply elem_of_cons in Hin as [?|Hin]; [done|]).
  by apply elem_of_nil in Hin.
Qed.

Section Search.
Variables (value : list Z) (N : Z).
Hypothesis N_range : N < 18446744073709551616.

Lemma consume_char_ok i x j c pre post :
  j = i + x -> 0 <= i -> 0 <= x -> j <= N -> j < FF_HTTP_HOST_HEADER_MAX_SEARCH_LENGTH ->
  value = pre ++ c :: post -> j = zlen pre -> is_byte c -> c <> 0 ->
  consume_char value N i x = Ok (Some j).
Proof using N_range.
  unfold FF_HTTP_HOST_HEADER_MAX_SEARCH_LENGTH.
  intros Hj Hi Hx HN H8 -> Hp Hc H0. unfold consume_char. rewrite <- Hj, u64_small by lia.
  rewrite (proj2 (Z.ltb_ge _ _)) by lia. rewrite load_byte_at by done. cbn [mbind res_bind].
  rewrite (proj2 (Z.eqb_neq c 0)) by done. unfold FF_HTTP_HOST_HEADER_MAX_SEARCH_LENGTH.
  by rewrite (proj2 (Z.leb_gt _ _)) by lia.
Qed.

(** A run of bytes that [skip] passes, up to a byte where it stops. *)
Lemma skip_line_ok l pre post fuel i :
  value = pre ++ l ++ 10 :: post -> i = zlen pre -> Forall line_char l ->
  i + zlen l <= N -> i + zlen l < FF_HTTP_HOST_HEADER_MAX_SEARCH_LENGTH ->
  (length l < fuel)%nat ->
  skip_line value N fuel i = Ok (Some (i + zlen l)).
Proof using N_range.
  revert pre fuel i. induction l as [|a l IH]; intros pre fuel i Hv Hi Hl HN H8 Hf;
    (destruct fuel as [|fuel]; [cbn in Hf; lia|]); cbn [skip_line].
  - assert (load_byte value i = Ok 10) as -> by (rewrite Hv; by apply load_byte_at).
    cbn. do 2 f_equal. unfold zlen. cbn. lia.
  - apply Forall_cons in Hl as [(Ha&Ha0&Ha10) Hl]. rewrite zlen_cons in *.
    assert (load_byte value i = Ok a) as -> by (rewrite Hv; by apply load_byte_at).
    cbn [mbind res_bind]. rewrite (proj2 (Z.eqb_neq a 10)) by done. cbn [negb].
    pose proof (zlen_nonneg l). pose proof (zlen_nonneg pre).
    assert (value = (pre ++ [a]) ++ l ++ 10 :: post) as Hv' by (by rewrite <- app_assoc).
    assert (zlen (pre ++ [a]) = i + 1) as Hz by (rewrite zlen_app; by subst i).
    assert (exists c l', l ++ 10 :: post = c :: l' /\ is_byte c /\ c <> 0) as (c&l'&Hc&Bc&C0).
    { destruct l as [|c l]; [by exists 10, post|]. apply Forall_cons in Hl as [(?&?&?) _].
      by exists c, (l ++ 10 :: post). }
    rewrite (consume_char_ok i 1 (i + 1) c (pre ++ [a]) l'); try done; try lia;
      [|by rewrite <- Hc].
    cbn [try_bind mbind res_bind]. rewrite (IH (pre ++ [a])); try done; try lia.
    + do 2 f_equal. lia.
    + cbn in Hf. lia.
Qed.

Lemma skip_spaces_ok k c pre post fuel i :
  value = pre ++ replicate k 32 ++ c :: post -> i = zlen pre ->
  is_byte c -> c <> 0 -> c <> 32 ->
  i + Z.of_nat k <= N -> i + Z.of_nat k < FF_HTTP_HOST_HEADER_MAX_SEARCH_LENGTH ->
  (k < fuel)%nat ->
  skip_spaces value N fuel i = Ok (Some (i + Z.of_nat k)).
Proof using N_range.
  revert pre fuel i. induction k as [|k IH]; intros pre fuel i Hv Hi Bc C0 C32 HN H8 Hf;
    (destruct fuel as [|fuel]; [lia|]); cbn [skip_spaces].
  - assert (load_byte value i = Ok c) as -> by (rewrite Hv; by apply load_byte_at).
    cbn [mbind res_bind]. rewrite (proj2 (Z.eqb_neq c 32)) by done. do 2 f_equal. lia.
  - assert (load_byte value i = Ok 32) as -> by (rewrite Hv; by apply load_byte_at).
    cbn [mbind res_bind Z.eqb Pos.eqb]. pose proof (zlen_nonneg pre).
    assert (value = (pre ++ [32]) ++ replicate k 32 ++ c :: post) as Hv' by (by rewrite <- app_assoc).
    assert (zlen (pre ++ [32]) = i + 1) as Hz by (rewrite zlen_app; by subst i).
    assert (exists d l', replicate k 32 ++ c :: post = d :: l' /\ is_byte d /\ d <> 0)
      as (d&l'&Hd&Bd&D0).
    { destruct k as [|k]; [by exists c, post|]. by exists 32, (replicate k 32 ++ c :: post). }
    rewrite (consume_char_ok i 1 (i + 1) d (pre ++ [32]) l'); try done; try lia;
      [|by rewrite <- Hd].
    cbn [try_bind mbind res_bind]. rewrite (IH (pre ++ [32])); try done; try lia.
    do 2 f_equal. lia.
Qed.

(** The copy stops at [c], or after 256 bytes. *)
Lemma copy_host_ok h c pre post fuel i done rest :
  value = pre ++ h ++ c :: post -> i = zlen pre -> is_byte c ->
  Forall (fun d => is_byte d /\ is_host_char d = true) h -> i + zlen h <= N ->
  is_host_char c = false \/ zlen done + zlen h = 256 ->
  zlen done + zlen h <= 256 -> zlen h <= zlen rest -> (length h < fuel)%nat ->
  copy_host value N fuel i (done ++ rest) (zlen done) =
    Ok (done ++ h ++ drop (length h) rest, zlen done + zlen h).
Proof using N_range.
  revert pre fuel i done rest.
  induction h as [|a h IH]; intros pre fuel i done rest Hv Hi Bc Hh HN Hstop H256 Hr Hf;
    (destruct fuel as [|fuel]; [cbn in Hf; lia|]); cbn [copy_host];
    pose proof (zlen_nonneg pre); pose proof (zlen_nonneg done).
  - change (zlen (@nil Z)) with 0 in *. rewrite (proj2 (Z.leb_le _ _)) by lia.
    assert (load_byte value i = Ok c) as -> by (rewrite Hv; by apply load_byte_at).
    cbn [mbind res_bind].
    assert (is_host_char c && (zlen done <=? 255) = false) as ->.
    { destruct Hstop as [->|?]; [done|]. rewrite (proj2 (Z.leb_gt _ _)) by lia.
      apply andb_false_r. }
    by rewrite Z.add_0_r.
  - rewrite zlen_cons in *. pose proof (zlen_nonneg h).
    apply Forall_cons in Hh as [[Ba Ha] Hh]. rewrite (proj2 (Z.leb_le _ _)) by lia.
    assert (load_byte value i = Ok a) as -> by (rewrite Hv; by apply load_byte_at).
    cbn [mbind res_bind]. rewrite Ha, (proj2 (Z.leb_le _ _)) by lia. cbn [andb].
    destruct rest as [|b rest]; [change (zlen (@nil Z)) with 0 in Hr; lia|].
    rewrite zlen_cons in Hr.
    assert (mem_write (done ++ b :: rest) (zlen done) [a] = Ok ((done ++ [a]) ++ rest)) as ->.
    { apply mem_write_ok. rewrite zlen_app, (zlen_cons b). pose proof (zlen_nonneg rest).
      split_and!; [lia|change (zlen [a]) with 1; lia|]. unfold zlen. rewrite Nat2Z.id.
      rewrite take_app_length, <- app_assoc. f_equal. cbn [length].
      rewrite Nat.add_1_r, drop_app_ge by lia.
      by replace (S (length done) - length done)%nat with 1%nat by lia. }
    cbn [mbind res_bind]. rewrite u64_small by lia.
    assert (zlen done + 1 = zlen (done ++ [a])) as -> by (by rewrite zlen_app).
    assert (zlen (done ++ [a]) = zlen done + 1) as Hz by (by rewrite zlen_app).
    rewrite (IH (pre ++ [a]) fuel (i + 1) (done ++ [a]) rest); try done; try lia.
    + rewrite Hz, <- app_assoc. f_equal. f_equal. lia.
    + by rewrite <- app_assoc.
    + by rewrite zlen_app, Hi.
    + rewrite Hz. destruct Hstop; [by left|right; lia].
    + cbn in Hf. lia.
Qed.

(** ** One line *)

Lemma at_host_header_ok w pre post i :
  value = pre ++ w ++ post -> i = zlen pre -> length w = 5%nat -> bytes w ->
  0 <= N - i -> (5 < N - i) ->
  at_host_header value N i = Ok (is_host_line w).
Proof using N_range.
  intros Hv Hi Hl Bw H0 H5. unfold at_host_header. pose proof (zlen_nonneg pre).
  rewrite u64_small by lia. rewrite (proj2 (Z.ltb_lt _ _)) by lia.
  destruct (strncasecmp_ok (chars "host:") w pre post i Hi Hl Bw) as (c&Hc&Hiff).
  { decide_compute. }
  rewrite Hv. change 5%nat with (length (chars "host:")). rewrite Hc. cbn [mbind res_bind].
  f_equal. apply Bool.eq_iff_eq_true. rewrite Z.eqb_eq, Hiff. unfold is_host_line.
  rewrite bool_decide_eq_true, take_ge by lia. done.
Qed.

(** At the start of a line that is passed over. *)
Lemma at_host_header_passed l rest pre i :
  value = pre ++ l ++ 10 :: rest -> i = zlen pre -> passed_line l -> 0 <= N - i ->
  N <= zlen value -> bytes (slice value 0 N) ->
  at_host_header value N i = Ok false.
Proof using N_range.
  intros Hv Hi [Hl Hh] H0 HN HB. pose proof (zlen_nonneg pre).
  destruct (decide (5 < N - i)) as [H5|H5].
  - assert (5 <= zlen (l ++ 10 :: rest)) as Hlen.
    { rewrite Hv, zlen_app in HN. lia. }
    rewrite (at_host_header_ok (take 5 (l ++ 10 :: rest)) pre (drop 5 (l ++ 10 :: rest)) i);
      try done.
    + f_equal. unfold is_host_line. rewrite take_take.
      apply bool_decide_eq_false. by apply (host_prefix_line l rest).
    + by rewrite take_drop.
    + rewrite length_take. unfold zlen in Hlen. lia.
    + assert (take 5 (l ++ 10 :: rest) = slice (slice value 0 N) i 5) as ->.
      { rewrite slice_slice by lia. unfold slice. rewrite Hv, Hi. unfold zlen.
        replace (Z.to_nat (0 + Z.of_nat (length pre))) with (length pre) by lia.
        rewrite drop_app_length. f_equal. }
      by apply bytes_slice.
  - unfold at_host_header. rewrite u64_small by lia. by rewrite (proj2 (Z.ltb_ge _ _)) by lia.
Qed.

Lemma at_empty_line_passed l rest pre i :
  value = pre ++ l ++ 10 :: rest -> i = zlen pre -> Forall line_char l -> 0 <= N - i ->
  (i = 0 \/ not_blank l) ->
  at_empty_line value N i = Ok false.
Proof using N_range.
  intros Hv Hi Hl H0 Hb. unfold at_empty_line. pose proof (zlen_nonneg pre).
  destruct (Z.eqb_spec i 0) as [E|E]; [by rewrite andb_false_r|].
  destruct Hb as [?|[Hb Hb13]]; [done|]. destruct (2 <? u64 (N - i)); [|done]. cbn [andb negb].
  destruct l as [|a l]; [done|]. apply Forall_cons in Hl as [(Ba&A0&A10) Hl].
  assert (load_byte value i = Ok a) as -> by (rewrite Hv; by apply load_byte_at).
  cbn [mbind res_bind]. rewrite (proj2 (Z.eqb_neq a 10)) by done.
  destruct (Z.eqb_spec a 13) as [->|]; [|done].
  destruct l as [|b l]; [done|]. apply Forall_cons in Hl as [(Bb&B0&B10) _].
  assert (load_byte value (i + 1) = Ok b) as ->.
  { rewrite Hv. change ((13 :: b :: l) ++ 10 :: rest) with ([13] ++ b :: l ++ 10 :: rest).
    rewrite (app_assoc pre). apply load_byte_at; [done|]. by rewrite zlen_app, Hi. }
  cbn. by rewrite (proj2 (Z.eqb_neq b 10)) by done.
Qed.

(** ** The lines before the host or the end of the headers *)

Hypothesis N_block : N <= zlen value.
Hypothesis N_bytes : bytes (slice value 0 N).

Lemma host_loop_line l c rest pre fuel hn :
  value = pre ++ l ++ 10 :: c :: rest -> passed_line l -> (pre = [] \/ not_blank l) ->
  is_byte c -> c <> 0 -> zlen pre + zlen l + 1 <= N ->
  zlen pre + zlen l + 1 < FF_HTTP_HOST_HEADER_MAX_SEARCH_LENGTH ->
  host_loop value N (S fuel) (zlen pre) hn =
  host_loop value N fuel (zlen pre + zlen l + 1) hn.
Proof using All.
  intros Hv Hl Hb Bc C0 HN H8. pose proof (zlen_nonneg pre). pose proof (zlen_nonneg l).
  cbn [host_loop].
  rewrite (at_empty_line_passed l (c :: rest) pre); try done; [|apply Hl|lia|].
  2:{ destruct Hb as [-> |?]; [by left|by right]. }
  cbn [mbind res_bind]. rewrite (at_host_header_passed l (c :: rest) pre) by (done || lia).
  cbn [mbind res_bind]. destruct Hl as [Hl _].
  rewrite (skip_line_ok l pre (c :: rest)); try done; [|lia..|unfold zlen in *; lia].
  cbn [try_bind mbind res_bind].
  rewrite (consume_char_ok _ 1 (zlen pre + zlen l + 1) c (pre ++ l ++ [10]) rest);
    try done; try lia.
  - by rewrite <- !app_assoc.
  - rewrite !zlen_app. change (zlen [10]) with 1. lia.
Qed.

Lemma host_loop_lines lines c rest pre fuel hn :
  value = pre ++ header_text lines ++ c :: rest -> Forall passed_line lines ->
  Forall not_blank lines \/ pre = [] /\ Forall not_blank (tail lines) ->
  is_byte c -> c <> 0 -> zlen pre + zlen (header_text lines) <= N ->
  zlen pre + zlen (header_text lines) < FF_HTTP_HOST_HEADER_MAX_SEARCH_LENGTH ->
  host_loop value N (length lines + fuel) (zlen pre) hn =
  host_loop value N fuel (zlen pre + zlen (header_text lines)) hn.
Proof using All.
  revert pre. induction lines as [|l lines IH]; intros pre Hv Hp Hb Bc C0 HN H8.
  { change (zlen (header_text [])) with 0. by rewrite Z.add_0_r. }
  apply Forall_cons in Hp as [Hl Hp].
  assert (header_text (l :: lines) = l ++ 10 :: header_text lines) as Ht.
  { unfold header_text. cbn. by rewrite <- app_assoc. }
  rewrite Ht in *. rewrite zlen_app, zlen_cons in *.
  assert (zlen (pre ++ l ++ [10]) = zlen pre + zlen l + 1) as Hz.
  { rewrite !zlen_app. change (zlen [10]) with 1. lia. }
  assert (value = (pre ++ l ++ [10]) ++ header_text lines ++ c :: rest) as Hv'.
  { rewrite Hv. by rewrite <- !app_assoc. }
  assert (exists d r, header_text lines ++ c :: rest = d :: r /\ is_byte d /\ d <> 0)
    as (d&r&Hd&Bd&D0).
  { destruct lines as [|[|d l2] ls]; [by exists c, rest|by eexists 10, _|].
    apply Forall_cons in Hp as [[Hl2 _] _]. apply Forall_cons in Hl2 as [(?&?&?) _].
    by eexists d, _. }
  pose proof (zlen_nonneg (header_text lines)). cbn [length Nat.add].
  rewrite (host_loop_line l d r); try done; [|..|lia|lia].
  - replace (zlen pre + zlen l + 1) with (zlen (pre ++ l ++ [10])).
    rewrite IH; try done; [f_equal; lia|..|lia|lia].
    left. destruct Hb as [Hb|[_ Hb]]; [by apply Forall_cons in Hb as [_ ?]|done].
  - rewrite Hv, <- app_assoc. cbn. by rewrite <- Hd.
  - destruct Hb as [Hb|[-> _]]; [|by left]. right. by apply Forall_cons in Hb as [? _].
Qed.

(** The line of the host: [k] spaces, the host [h] and the byte after it. *)
Lemma host_loop_host hdr k h c rest pre fuel :
  value = pre ++ hdr ++ replicate k 32 ++ h ++ c :: rest ->
  length hdr = 5%nat -> map tolower hdr = chars "host:" -> bytes hdr ->
  Forall (fun d => is_byte d /\ is_host_char d = true) h ->
  is_byte c -> c <> 0 -> c <> 32 -> is_host_char c = false \/ zlen h = 256 ->
  zlen h <= 256 -> zlen pre + 5 + Z.of_nat k + zlen h < N ->
  zlen pre + 5 + Z.of_nat k < FF_HTTP_HOST_HEADER_MAX_SEARCH_LENGTH ->
  host_loop value N (S fuel) (zlen pre) (malloc 256) =
  (host_name ← mem_write (h ++ malloc (256 - zlen h)) (zlen h) [0]; Some <$> c_string host_name).
Proof using All.
  intros Hv H5 Hlow Bh Hh Bc C0 C32 Hstop H256 HN H8.
  pose proof (zlen_nonneg pre). pose proof (zlen_nonneg h). cbn [host_loop].
  assert (exists a hdr', hdr = a :: hdr' /\ is_byte a /\ a <> 10 /\ a <> 13)
    as (a&hdr'&Ehdr&Ba&A10&A13).
  { destruct hdr as [|a hdr']; [done|]. exists a, hdr'. apply Forall_cons in Bh as [? _].
    injection Hlow as Ha _. split_and!; [done..| |]; intros ->; vm_compute in Ha; done. }
  assert (at_empty_line value N (zlen pre) = Ok false) as ->.
  { unfold at_empty_line. destruct (_ && _); [|done].
    assert (load_byte value (zlen pre) = Ok a) as ->.
    { rewrite Hv, Ehdr. by apply load_byte_at. }
    cbn [mbind res_bind]. by rewrite (proj2 (Z.eqb_neq a 10)), (proj2 (Z.eqb_neq a 13)) by done. }
  cbn [mbind res_bind].
  rewrite (at_host_header_ok hdr pre _ _ Hv) by (done || lia). cbn [mbind res_bind].
  assert (is_host_line hdr = true) as ->.
  { unfold is_host_line. rewrite take_ge by lia. by apply bool_decide_eq_true. }
  assert (exists d r, replicate k 32 ++ h ++ c :: rest = d :: r /\ is_byte d /\ d <> 0)
    as (d&r&Hd&Bd&D0).
  { destruct k as [|k]; [|by eexists 32, _]. destruct h as [|d h]; [by exists c, rest|].
    apply Forall_cons in Hh as [[Bd Hd] _]. exists d, (h ++ c :: rest). split_and!; try done.
    by intros ->. }
  assert (zlen (pre ++ hdr) = zlen pre + 5) as Hz5 by (rewrite zlen_app; unfold zlen; lia).
  rewrite (consume_char_ok (zlen pre) 5 (zlen pre + 5) d (pre ++ hdr) r); try done; try lia.
  2:{ by rewrite Hv, <- app_assoc, Hd. }
  cbn [try_bind mbind res_bind].
  assert (exists e r, h ++ c :: rest = e :: r /\ is_byte e /\ e <> 0 /\ e <> 32)
    as (e&r'&He&Be&E0&E32).
  { destruct h as [|e h]; [by exists c, rest|].
    apply Forall_cons in Hh as [[Be He] _]. exists e, (h ++ c :: rest).
    split_and!; try done; by intros ->. }
  rewrite (skip_spaces_ok k e (pre ++ hdr) r'); try done; try lia.
  2:{ by rewrite Hv, <- app_assoc, He. }
  cbn [try_bind mbind res_bind].
  rewrite (copy_host_ok h c (pre ++ hdr ++ replicate k 32) rest 257 _ [] (malloc 256));
    try done; try (change (zlen []) with 0; lia).
  - cbn [mbind res_bind app]. change (zlen []) with 0. rewrite Z.add_0_l. do 3 f_equal.
    unfold malloc. rewrite drop_replicate. f_equal. unfold zlen. lia.
  - by rewrite Hv, <- !app_assoc.
  - rewrite !zlen_app. unfold zlen in *. rewrite length_replicate. lia.
  - unfold zlen in H256. lia.
Qed.
End Search.

(** ** Termination

    The fuel of the loops is never used up, whatever the block holds. *)

Section Termination.
Variables (value : list Z) (N : Z).

Lemma load_byte_fuel buff i : load_byte buff i <> Err OutOfFuel.
Proof. unfold load_byte. repeat (case_match || case_bool_decide); done. Qed.

Lemma consume_char_fuel i x : consume_char value N i x <> Err OutOfFuel.
Proof.
  unfold consume_char. destruct (N <? _); [done|].
  destruct (load_byte value _) eqn:E; cbn [mbind res_bind].
  - by repeat case_match.
  - intros [= ->]. by apply load_byte_fuel in E.
Qed.

Lemma consume_char_some i x j :
  0 <= i < FF_HTTP_HOST_HEADER_MAX_SEARCH_LENGTH -> 0 <= x <= 5 ->
  consume_char value N i x = Ok (Some j) ->
  j = i + x /\ j <= N /\ j < FF_HTTP_HOST_HEADER_MAX_SEARCH_LENGTH.
Proof.
  unfold consume_char, FF_HTTP_HOST_HEADER_MAX_SEARCH_LENGTH. intros Hi Hx.
  rewrite u64_small by lia. destruct (Z.ltb_spec N (i + x)); [done|].
  destruct (load_byte value _); [|done]. cbn [mbind res_bind].
  destruct (_ =? 0); [done|]. destruct (Z.leb_spec 8096 (i + x)); [done|].
  intros [= <-]. lia.
Qed.

(** A loop that consumes one byte while [p] holds. *)
Lemma skip_fuel (skip : nat -> Z -> res (option Z)) (p : Z -> bool) :
  (forall fuel i, skip (S fuel) i =
    (c ← load_byte value i;
     if p c then i ←? consume_char value N i 1; skip fuel i else Ok (Some i))) ->
  forall fuel i, 0 <= i <= N -> i < FF_HTTP_HOST_HEADER_MAX_SEARCH_LENGTH ->
  N - i < Z.of_nat fuel ->
  skip fuel i <> Err OutOfFuel /\
  forall j, skip fuel i = Ok (Some j) ->
    i <= j <= N /\ j < FF_HTTP_HOST_HEADER_MAX_SEARCH_LENGTH.
Proof.
  intros Hskip fuel. induction fuel as [|fuel IH]; intros i H0 H8 Hf; [lia|].
  rewrite Hskip. destruct (load_byte value i) as [c|e] eqn:El; cbn [mbind res_bind].
  2:{ split; [|done]. intros [= ->]. by apply load_byte_fuel in El. }
  destruct (p c).
  2:{ split; [done|]. intros j [= <-]. lia. }
  destruct (consume_char value N i 1) as [[j|]|e] eqn:Ec; cbn [try_bind mbind res_bind].
  - apply consume_char_some in Ec as (->&?&?); [|lia..].
    destruct (IH (i + 1)) as [Hs1 Hs2]; [lia..|]. split; [done|]. intros j Hj.
    apply Hs2 in Hj. lia.
  - done.
  - split; [|done]. intros [= ->]. by apply consume_char_fuel in Ec.
Qed.

Lemma copy_host_fuel fuel i hn len :
  0 <= len -> 256 - len < Z.of_nat fuel -> len <= 256 ->
  copy_host value N fuel i hn len <> Err OutOfFuel.
Proof.
  revert i hn len. induction fuel as [|fuel IH]; intros i hn len H0 Hf H256; [lia|].
  cbn [copy_host]. destruct (i <=? N); [|done].
  destruct (load_byte value i) as [c|e] eqn:El; cbn [mbind res_bind].
  2:{ intros [= ->]. by apply load_byte_fuel in El. }
  destruct (is_host_char c); [|done]. destruct (Z.leb_spec len 255); [|done]. cbn [andb].
  unfold mem_write. case_bool_decide; [|done]. cbn [mbind res_bind]. apply IH; lia.
Qed.

Lemma c_string_fuel buff : c_string buff <> Err OutOfFuel.
Proof.
  induction buff as [|c buff IH]; [done|]. cbn [c_string]. repeat case_match; try done.
  destruct (c_string buff); cbn; congruence.
Qed.

Lemma at_empty_line_fuel i : at_empty_line value N i <> Err OutOfFuel.
Proof.
  unfold at_empty_line. destruct (_ && _); [|done].
  destruct (load_byte value i) eqn:E1; cbn [mbind res_bind].
  2:{ intros [= ->]. by apply load_byte_fuel in E1. }
  destruct (_ =? 10); [done|]. destruct (_ =? 13); [|done].
  destruct (load_byte value (i + 1)) eqn:E2; cbn [mbind res_bind]; [done|].
  intros [= ->]. by apply load_byte_fuel in E2.
Qed.

Lemma strncasecmp_fuel n buff i s : strncasecmp n buff i s <> Err OutOfFuel.
Proof.
  revert i s. induction n as [|n IH]; intros i s; [done|]. cbn [strncasecmp].
  destruct (load_byte buff i) eqn:E; cbn [mbind res_bind].
  2:{ intros [= ->]. by apply load_byte_fuel in E. }
  by repeat case_match.
Qed.

Lemma at_host_header_fuel i : at_host_header value N i <> Err OutOfFuel.
Proof.
  unfold at_host_header. destruct (5 <? _); [|done].
  destruct (strncasecmp 5 value i (chars "host:")) eqn:E; cbn [mbind res_bind]; [done|].
  intros [= ->]. by apply strncasecmp_fuel in E.
Qed.

Lemma host_loop_fuel fuel i hn :
  0 <= i <= N -> i < FF_HTTP_HOST_HEADER_MAX_SEARCH_LENGTH -> N - i < Z.of_nat fuel ->
  host_loop value N fuel i hn <> Err OutOfFuel.
Proof.
  revert i. induction fuel as [|fuel IH]; intros i Hi H8 Hf; [lia|]. cbn [host_loop].
  destruct (at_empty_line value N i) as [[]|e] eqn:Ee; cbn [mbind res_bind]; [done|..].
  2:{ intros [= ->]. by apply at_empty_line_fuel in Ee. }
  destruct (at_host_header value N i) as [hh|e] eqn:Eh; cbn [mbind res_bind].
  2:{ intros [= ->]. by apply at_host_header_fuel in Eh. }
  pose proof (skip_fuel (skip_line value N) (fun c => negb (c =? 10)) (fun _ _ => eq_refl)) as Hline.
  pose proof (skip_fuel (skip_spaces value N) (fun c => c =? 32) (fun _ _ => eq_refl)) as Hsp.
  destruct hh.
  - destruct (consume_char value N i 5) as [[j|]|e] eqn:Ec; cbn [try_bind mbind res_bind];
      [|done|intros [= ->]; by apply consume_char_fuel in Ec].
    apply consume_char_some in Ec as (->&?&?); [|lia..].
    destruct (Hsp (S (Z.to_nat N)) (i + 5)) as [Hs1 Hs2]; [lia..|].
    destruct (skip_spaces value N (S (Z.to_nat N)) (i + 5)) as [[j|]|e]; cbn [try_bind mbind res_bind];
      [|done|congruence].
    pose proof (copy_host_fuel 257 j hn 0) as Hcp.
    destruct (copy_host value N 257 j hn 0) as [[hn' len]|e]; cbn [mbind res_bind];
      [|intros [= ->]; apply Hcp; [lia..|done]].
    unfold mem_write. case_bool_decide; [|done]. cbn [mbind res_bind].
    pose proof (c_string_fuel (take (Z.to_nat len) hn' ++ [0] ++ drop (Z.to_nat len + length [0]) hn')).
    destruct (c_string _); cbn; congruence.
  - destruct (Hline (S (Z.to_nat N)) i) as [Hs1 Hs2]; [lia..|].
    destruct (skip_line value N (S (Z.to_nat N)) i) as [[j|]|e]; cbn [try_bind mbind res_bind];
      [|done|congruence].
    destruct (Hs2 j eq_refl) as [? ?].
    destruct (consume_char value N j 1) as [[k|]|e] eqn:Ec; cbn [try_bind mbind res_bind];
      [|done|intros [= ->]; by apply consume_char_fuel in Ec].
    apply consume_char_some in Ec as (->&?&?); [|lia..]. apply IH; lia.
Qed.
End Termination.

(** ** The end of the block *)

Section End_of_block.
Variables (value : list Z) (N : Z).
Hypothesis N_range : N < 18446744073709551616.
Hypothesis N_end : N = zlen value.

(** The search reads the byte after the payload. *)
Lemma skip_line_end l pre fuel i :
  value = pre ++ l -> i = zlen pre -> Forall line_char l -> l <> [] ->
  N < FF_HTTP_HOST_HEADER_MAX_SEARCH_LENGTH -> (length l <= fuel)%nat ->
  skip_line value N fuel i = Err OutOfBounds.
Proof using All.
  revert pre fuel i. induction l as [|a l IH]; intros pre fuel i Hv Hi Hl Hne H8 Hf; [done|].
  destruct fuel as [|fuel]; [cbn in Hf; lia|]. cbn [skip_line].
  apply Forall_cons in Hl as [(Ba&A0&A10) Hl].
  assert (load_byte value i = Ok a) as -> by (rewrite Hv; by apply load_byte_at).
  cbn [mbind res_bind]. rewrite (proj2 (Z.eqb_neq a 10)) by done. cbn [negb].
  assert (N = i + 1 + zlen l) as HN by (rewrite N_end, Hv, zlen_app, zlen_cons; lia).
  pose proof (zlen_nonneg l). pose proof (zlen_nonneg pre).
  assert (zlen (pre ++ [a]) = i + 1) as Hz by (rewrite zlen_app; by subst i).
  destruct l as [|b l].
  - unfold consume_char. change (zlen (@nil Z)) with 0 in HN.
    rewrite u64_small, (proj2 (Z.ltb_ge _ _)) by lia. rewrite load_byte_end by lia. done.
  - apply Forall_cons in Hl as [(Bb&B0&B10) Hl]. rewrite zlen_cons in *.
    pose proof (zlen_nonneg l).
    rewrite (consume_char_ok value N N_range i 1 (i + 1) b (pre ++ [a]) l); try done; try lia.
    2:{ by rewrite Hv, <- app_assoc. }
    cbn [try_bind mbind res_bind]. apply (IH (pre ++ [a])); try done.
    + by rewrite <- app_assoc.
    + by constructor.
    + cbn in *. lia.
Qed.

(** An unterminated last line is neither blank nor, when it does not start
    with the name, a Host header. *)
Lemma at_empty_line_end l pre :
  value = pre ++ l -> Forall line_char l ->
  at_empty_line value N (zlen pre) = Ok false.
Proof using All.
  intros Hv Hl. unfold at_empty_line. pose proof (zlen_nonneg pre). pose proof (zlen_nonneg l).
  assert (N = zlen pre + zlen l) as HN by (by rewrite N_end, Hv, zlen_app).
  rewrite u64_small by lia. destruct (Z.ltb_spec 2 (N - zlen pre)) as [H2|]; [|done].
  destruct (negb _); [|done]. cbn [andb].
  destruct l as [|a [|b l]]; rewrite ?zlen_cons in *; change (zlen (@nil Z)) with 0 in *; [lia..|].
  apply Forall_cons in Hl as [(Ba&A0&A10) Hl]. apply Forall_cons in Hl as [(Bb&B0&B10) _].
  assert (load_byte value (zlen pre) = Ok a) as -> by (rewrite Hv; by apply load_byte_at).
  cbn [mbind res_bind]. rewrite (proj2 (Z.eqb_neq a 10)) by done.
  destruct (Z.eqb_spec a 13) as [->|]; [|done].
  assert (load_byte value (zlen pre + 1) = Ok b) as ->.
  { rewrite Hv. change (13 :: b :: l) with ([13] ++ b :: l). rewrite app_assoc. apply load_byte_at; [done|]. by rewrite zlen_app. }
  cbn. by rewrite (proj2 (Z.eqb_neq b 10)) by done.
Qed.

Lemma at_host_header_end l pre :
  value = pre ++ l -> Forall line_char l -> is_host_line l = false ->
  at_host_header value N (zlen pre) = Ok false.
Proof using All.
  intros Hv Hl Hh. pose proof (zlen_nonneg pre). pose proof (zlen_nonneg l).
  assert (N = zlen pre + zlen l) as HN by (by rewrite N_end, Hv, zlen_app).
  destruct (decide (5 < zlen l)) as [H5|H5].
  - rewrite (at_host_header_ok value N N_range (take 5 l) pre (drop 5 l)); try done; try lia.
    + f_equal. unfold is_host_line in *. by rewrite take_take.
    + by rewrite take_drop.
    + rewrite length_take. unfold zlen in H5. lia.
    + apply Forall_take. eapply Forall_impl; [exact Hl|]. by intros ? (?&_).
  - unfold at_host_header. rewrite u64_small by lia. by rewrite (proj2 (Z.ltb_ge _ _)) by lia.
Qed.
(** A blank line at the end of the block: it is taken for a line like any
    other, and the byte behind it is read. *)
Lemma host_loop_blank_end l pre fuel hn :
  value = pre ++ l ++ [10] -> l = [] \/ l = [13] ->
  N < FF_HTTP_HOST_HEADER_MAX_SEARCH_LENGTH ->
  host_loop value N (S fuel) (zlen pre) hn = Err OutOfBounds.
Proof using All.
  intros Hv Hl H8. unfold FF_HTTP_HOST_HEADER_MAX_SEARCH_LENGTH in H8. pose proof (zlen_nonneg pre).
  assert (Forall line_char l /\ 0 <= zlen l <= 1) as [Hc Hz] by
    (destruct Hl as [-> | ->]; (split; [repeat constructor; done|done])).
  assert (N = zlen pre + zlen l + 1) as HN.
  { rewrite N_end, Hv, !zlen_app. change (zlen [10]) with 1. lia. }
  cbn [host_loop]. unfold at_empty_line. rewrite u64_small by lia.
  rewrite (proj2 (Z.ltb_ge 2 _)) by lia. cbn [andb mbind res_bind].
  unfold at_host_header. rewrite u64_small by lia. rewrite (proj2 (Z.ltb_ge 5 _)) by lia.
  cbn [mbind res_bind].
  rewrite (skip_line_ok value N N_range l pre []); try done;
    [|lia|unfold FF_HTTP_HOST_HEADER_MAX_SEARCH_LENGTH; lia|unfold zlen in *; lia].
  cbn [try_bind mbind res_bind]. unfold consume_char.
  rewrite u64_small by lia. rewrite (proj2 (Z.ltb_ge _ _)) by lia.
  by rewrite load_byte_end by lia.
Qed.
End End_of_block.
