(* ===== verification/HttpSendFacts.v ===== *)
(** * Facts about the loops of src/http.c that talk to the server

    What is written is always a prefix of the payload, and the response
    buffer is never left, given what the calls of the system promise; the
    messages fit the buffer of the log for host names that are not too
    long. *)

From S2P Require Import Prelude Bytes Request Strings Logging LoggingFacts Parser ParserFacts.
From S2P Require Import Reassembly Crypto CryptoFacts.
From S2P Require Import Http HttpFacts.

(** ** Scans of the response *)

Lemma strncasecmp_total n buff off s :
  bytes buff -> 0 <= off -> off + Z.of_nat n <= zlen buff ->
  is_ok (strncasecmp n buff off s).
Proof.
  intros Hb. revert off s. induction n as [|n IH]; intros off s H0 Hn; [by eexists|].
  cbn [strncasecmp]. destruct (lookup_lt_is_Some_2 buff (Z.to_nat off)) as [d Hd].
  { unfold zlen in Hn. lia. }
  assert (load_byte buff off = Ok d) as ->.
  { apply load_byte_ok. split_and!; try done. by eapply Forall_lookup_1. }
  cbn [mbind res_bind]. destruct (tolower d =? _); [|by eexists].
  destruct (d =? 0); [by eexists|]. apply IH; lia.
Qed.

Lemma strchr_total buff c i : bytes buff -> 0 ∈ buff -> is_ok (strchr buff c i).
Proof.
  revert i. induction buff as [|d buff IH]; intros i Hb H0; [by apply elem_of_nil in H0|].
  apply Forall_cons in Hb as [Hd Hb]. cbn [strchr]. rewrite bool_decide_true by done.
  destruct (d =? c); [by eexists|]. destruct (Z.eqb_spec d 0); [by eexists|].
  apply IH; [done|]. apply elem_of_cons in H0 as [<-|]; done.
Qed.

(** The byte found, and those before it. *)
Lemma strchr_found buff c i n :
  strchr buff c i = Ok (Some n) -> i <= n /\ c_chars (slice buff 0 (n - i)).
Proof.
  revert i. induction buff as [|d buff IH]; intros i; [done|]. cbn [strchr].
  case_bool_decide as Hd; [|done]. destruct (d =? c).
  { intros [= ->]. rewrite Z.sub_diag. split; [lia|constructor]. }
  destruct (Z.eqb_spec d 0) as [|H0]; [done|]. intros [Hle Hc]%IH. split; [lia|].
  replace (n - i) with (n - (i + 1) + 1) by lia. unfold slice in *.
  rewrite Z2Nat.inj_add, Nat.add_1_r by lia. cbn. by apply Forall_cons.
Qed.

Lemma strchr_in buff rest c i :
  bytes buff -> c ∈ buff -> (0 ∉ buff) -> exists n, strchr (buff ++ rest) c i = Ok (Some n).
Proof.
  revert i. induction buff as [|d buff IH]; intros i Hb Hc H0; [by apply elem_of_nil in Hc|].
  apply Forall_cons in Hb as [Hd Hb]. apply not_elem_of_cons in H0 as [Hd0 H0].
  cbn [app strchr]. rewrite bool_decide_true by done.
  destruct (Z.eqb_spec d c) as [->|Hne]; [by eexists|].
  rewrite (proj2 (Z.eqb_neq d 0)) by done. apply IH; [done| |done].
  apply elem_of_cons in Hc as [->|]; done.
Qed.

(** ** The log

    A host name that fits the log of both functions: with warnings or less
    enabled, at most 169 characters. *)
Record host_logged (lg : log_env) (host : list Z) : Prop := {
  hl_year : year_fits (lg_now lg);
  hl_chars : c_chars host;
  hl_size : lg_level lg <= FF_WARNING -> zlen host <= 169;
}.

(** An error of OpenSSL that fits. *)
Record error_logged (lg : log_env) (env : tls_env) : Prop := {
  el_year : year_fits (lg_now lg);
  el_chars : c_chars (te_error_string env);
  el_size : lg_level lg <= FF_WARNING -> zlen (te_error_string env) <= 200;
}.

Lemma log_text lg type message args :
  log lg type message args = Ok tt ->
  is_ok (ff_log (lg_level lg) (lg_now lg) type message args).
Proof. unfold log. destruct (ff_log _ _ _ _ _); [by eexists|done]. Qed.

Lemma log_host_ok lg host type message args b :
  host_logged lg host -> type <= FF_WARNING -> c_chars message -> Forall arg_ok args ->
  text_bound message args = Some b -> (zlen host <= 169 -> b <= 254) ->
  log lg type message args = Ok tt.
Proof.
  intros [Hy _ Hs] Ht Hm Ha Hb Hfit. eapply log_ok; try done. intros Hl. apply Hfit, Hs. lia.
Qed.

(** [log lg] of a message with the host in it, by the size of the host. *)
Ltac log_host H :=
  match goal with
  | |- context [log ?lg ?type ?message ?args] =>
      assert (log lg type message args = Ok tt) as ->;
        [eapply (log_host_ok lg _ type message args _ H);
           [done | decide_compute
           | repeat first [apply Forall_cons; split | apply Forall_nil; exact I
                          | exact I | apply (hl_chars _ _ H) | done]
           | reflexivity | lia]
        | rewrite bind_Ok]
  end.

Lemma log_response_cases lg response :
  year_fits (lg_now lg) ->
  (forall n, strchr response 10 0 = Ok (Some n) -> log_response lg response = Ok tt) /\
  (strchr response 10 0 = Ok None -> log_response lg response = Err NullArith).
Proof.
  intros Hy. unfold log_response. split; [|by intros ->]. intros n Hn. rewrite Hn.
  cbn [mbind res_bind]. apply strchr_found in Hn as [H0 Hc]. rewrite Z.sub_0_r in Hc.
  eapply log_ok; [done|decide_compute| |reflexivity|].
  - repeat constructor; done.
  - intros _. destruct (Z.ltb_spec 100 n); lia.
Qed.

(** ** Growing a prefix *)

Lemma grow_prefix value sent len chunk :
  0 <= sent -> 0 <= chunk <= len ->
  slice value 0 sent ++ take (Z.to_nat chunk) (slice value sent len) =
  slice value 0 (sent + chunk).
Proof.
  intros H0 Hc. rewrite (slice_split value 0 sent chunk) by lia. f_equal.
  unfold slice. rewrite take_take. do 2 f_equal. lia.
Qed.

(** ** Plain HTTP *)

(** [write] returns at most the count it was given, [recv] at most the bytes
    asked for, and the text of an address is shorter than [INET6_ADDRSTRLEN]. *)
Record http_calls (env : http_env) : Prop := {
  hc_write s n : 0 <= n -> he_write env s n <= n;
  hc_recv s n bs : 0 <= n -> he_recv env s n = Some bs -> zlen bs <= n /\ bytes bs;
  hc_address h : c_chars (he_address env h) /\ zlen (he_address env h) <= 45;
}.

(** Every [write] makes progress. *)
Definition http_writes (env : http_env) : Prop :=
  forall s n, 0 < n -> 0 < he_write env s n.

Lemma write_loop_ok env value L fuel sent :
  http_calls env -> L <= zlen value -> L < 4294967296 -> 0 <= sent -> sent <= L ->
  sent < L \/ sent = 0 -> (Z.to_nat (L - sent) < fuel)%nat ->
  exists m b, write_loop fuel env value L sent (slice value 0 sent) = Ok (slice value 0 m, m, b) /\
    sent <= m <= L /\ (http_writes env -> 0 < L -> m = L /\ b = true).
Proof.
  intros Hc HL H32. revert sent. induction fuel as [|fuel IH]; intros sent H0 HsL Hlt Hf; [lia|].
  cbn [write_loop]. rewrite u64_small by lia. rewrite mem_read_slice by lia.
  cbn [mbind res_bind]. rewrite zlen_slice by lia.
  pose proof (hc_write env Hc sent (L - sent)) as Hw.
  destruct (Z.ltb_spec (he_write env sent (L - sent)) 0) as [Hn|Hn].
  { exists sent, false. split_and!; [done|lia|lia|]; intros Hp; specialize (Hp sent (L - sent)); lia. }
  destruct (Z.eqb_spec (he_write env sent (L - sent)) 0) as [Hz|Hz].
  { exists sent, true. split_and!; [done|lia|lia|]; intros Hp; specialize (Hp sent (L - sent)); lia. }
  cbv zeta. rewrite grow_prefix by lia. rewrite (u32_small (he_write _ _ _)), u32_small by lia.
  destruct (Z.ltb_spec (sent + he_write env sent (L - sent)) L) as [Hlt'|Hge].
  - destruct (IH (sent + he_write env sent (L - sent))) as (m&b&Hr&Hm&Hp); [lia..|].
    exists m, b. split_and!; [done|lia|lia|done].
  - eexists _, true. split_and!; [done|lia|lia|]. intros. split; [lia|done].
Qed.

(** The response buffer stays a block of bytes that ends in a NUL. *)
Definition response_ok (size : Z) (response : list Z) : Prop :=
  zlen response = size /\ bytes response /\ 0 ∈ drop (Z.to_nat (size - 1)) response.

Lemma response_zero size :
  0 < size -> response_ok size (replicate (Z.to_nat size) 0).
Proof.
  intros. split_and!; [unfold zlen; rewrite length_replicate; lia|by apply Forall_replicate|].
  rewrite drop_replicate. destruct (Z.to_nat size - _)%nat eqn:E; [lia|]. left.
Qed.

Lemma response_write size response off bs :
  response_ok size response -> 0 <= off -> off + zlen bs <= size - 1 -> bytes bs ->
  exists response', mem_write response off bs = Ok response' /\ response_ok size response'.
Proof.
  intros (Hl&Hb&Hz) H0 Hle Hbs. eexists. split.
  { apply mem_write_ok. split_and!; [lia|lia|done]. }
  assert (Z.to_nat off + length bs <= Z.to_nat (size - 1))%nat as Hn.
  { unfold zlen in Hle. lia. }
  unfold response_ok, zlen in *. split_and!.
  - rewrite !length_app, length_take, length_drop. lia.
  - apply Forall_app. split; [by apply Forall_take|]. apply Forall_app.
    split; [done|by apply Forall_drop].
  - rewrite app_assoc, drop_app_ge by (rewrite length_app, length_take; lia).
    rewrite drop_drop, length_app, length_take.
    replace (_ + _)%nat with (Z.to_nat (size - 1)) by lia. done.
Qed.

Lemma response_scan size response :
  response_ok size response -> is_ok (strchr response 10 0).
Proof.
  intros (_&Hb&Hz). apply strchr_total; [done|].
  rewrite <- (take_drop (Z.to_nat (size - 1)) response). set_solver.
Qed.

Lemma recv_loop_ok env fuel response received :
  http_calls env -> response_ok FF_HTTP_RESPONSE_BUFF_SIZE response ->
  0 <= received < FF_HTTP_RESPONSE_BUFF_SIZE - 1 ->
  FF_HTTP_RESPONSE_BUFF_SIZE - 1 - received < Z.of_nat fuel ->
  exists rs n b, recv_loop fuel env response received = Ok (rs, n, b) /\
    response_ok FF_HTTP_RESPONSE_BUFF_SIZE rs.
Proof.
  unfold FF_HTTP_RESPONSE_BUFF_SIZE.
  intros Hc. revert response received.
  induction fuel as [|fuel IH]; intros response received Hr H0 Hf; [lia|].
  cbn [recv_loop]. unfold FF_HTTP_RESPONSE_BUFF_SIZE.
  destruct (he_recv env received (4096 - received - 1)) as [[|b bs]|] eqn:E; [by eauto| |by eauto].
  destruct (hc_recv env Hc received (4096 - received - 1) (b :: bs)) as [Hl Hb]; [lia|done|].
  pose proof (zlen_nonneg bs) as Hbs.
  destruct (response_write 4096 response received (b :: bs)) as (rs&->&Hrs); [done|lia|lia|done|].
  cbn [mbind res_bind]. cbv zeta. rewrite zlen_cons in *.
  rewrite (u32_small (1 + zlen bs)), u32_small by lia.
  destruct (strncasecmp_total 5 rs 0 (chars "HTTP/")) as [c ->];
    [apply Hrs|done|destruct Hrs as [-> _]; done|].
  cbn [mbind res_bind]. destruct (_ && _); [by eauto|].
  destruct (Z.ltb_spec (received + (1 + zlen bs)) (4096 - 1)); [|by eauto].
  apply IH; [done|lia|lia].
Qed.

(** The first bytes received are the start of an HTTP response with a line. *)
Record reply_line (reply : list Z) : Prop := {
  rl_bytes : bytes reply;
  rl_size : 5 < zlen reply < FF_HTTP_RESPONSE_BUFF_SIZE;
  rl_http : map tolower (take 5 reply) = chars "http/";
  rl_newline : 10 ∈ reply;
  rl_text : 0 ∉ reply;
}.

(** It lies at the start of the response buffer. *)
Lemma reply_written reply s :
  reply_line reply -> s = chars "http/" \/ s = chars "HTTP/" ->
  exists rest, mem_write no_response 0 reply = Ok (reply ++ rest) /\
    response_ok FF_HTTP_RESPONSE_BUFF_SIZE (reply ++ rest) /\
    strncasecmp 5 (reply ++ rest) 0 s = Ok 0 /\
    exists n, strchr (reply ++ rest) 10 0 = Ok (Some n).
Proof.
  intros [Hb Hs Hh Hn H0] Hprefix.
  destruct (response_write FF_HTTP_RESPONSE_BUFF_SIZE no_response 0 reply
    (response_zero FF_HTTP_RESPONSE_BUFF_SIZE ltac:(done))) as (rs&Hw&Hrs); [lia|lia|done|].
  pose proof Hw as (_&_&Hrs')%mem_write_ok. change (take (Z.to_nat 0) _) with (@nil Z) in Hrs'.
  cbn [app] in Hrs'. eexists. rewrite <- Hrs'.
  split_and!; [exact Hw|exact Hrs| |rewrite Hrs'; by apply strchr_in].
  assert (length s = 5%nat /\ map tolower s = chars "http/") as [Hl Hlow]
    by (by destruct Hprefix as [-> | ->]).
  destruct (strncasecmp_ok s (take 5 reply) []
    (drop 5 reply ++ drop (Z.to_nat 0 + length reply) no_response) 0)
    as (c&Hc&Hiff); [done| |by apply Forall_take| |].
  - rewrite length_take, Hl. unfold zlen in Hs. lia.
  - destruct Hprefix as [-> | ->]; decide_compute.
  - cbn [app] in Hc. rewrite app_assoc, take_drop, Hl in Hc. rewrite Hrs', Hc. f_equal.
    apply Hiff. by rewrite Hlow.
Qed.

(** ** HTTPS *)

(** The settings of the connection: the name of the host, unless the build
    leaves it out, and the verification of the peer. *)
Definition tls_settings (env : tls_env) (host : list Z) : ssl_settings :=
  mk_ssl_settings (if te_skip_host_validation env then None else Some host) true.

(** Everything the program checks before it sends over TLS. *)
Definition tls_verified (env : tls_env) (host : list Z) : bool :=
  te_method env && te_ctx_new env && te_ssl_connect env && te_conn_port env &&
  te_get_ssl env && te_cipher_list env && te_host_name env host &&
  (te_skip_host_validation env || te_param_host env host) &&
  te_connect env (tls_settings env host) && te_handshake env (tls_settings env host) &&
  te_peer_certificate env (tls_settings env host) &&
  te_verify_result env (tls_settings env host).

Definition tls_calls (env : tls_env) : Prop :=
  forall s n, 0 <= n -> te_write env s n <= n.

Definition tls_writes (env : tls_env) : Prop :=
  forall s n, 0 < n -> 0 < te_write env s n.

(** A step of the set-up. *)
Lemma tls_step_true lg type message args rest b :
  b = true -> tls_step lg b type message args rest = rest.
Proof. by intros ->. Qed.

Lemma tls_step_false lg type message args rest b :
  log lg type message args = Ok tt ->
  tls_step lg b type message args rest = if b then rest else Ok ([], false).
Proof. unfold tls_step. by intros ->. Qed.

Lemma log_constant_ok lg type message :
  year_fits (lg_now lg) -> c_chars message -> is_Some (text_bound message []) ->
  default 255 (text_bound message []) <= 254 -> log lg type message [] = Ok tt.
Proof.
  intros Hy Hc [b Hb] Hle. rewrite Hb in Hle. cbn in Hle.
  eapply log_ok; [done|done|constructor|exact Hb|]. lia.
Qed.

Lemma log_error_ok lg env type message b :
  error_logged lg env -> type <= FF_WARNING -> c_chars message ->
  text_bound message [PString (te_error_string env)] = Some b ->
  (zlen (te_error_string env) <= 200 -> b <= 254) ->
  log lg type message [PString (te_error_string env)] = Ok tt.
Proof.
  intros [Hy Hc Hs] Ht Hm Hb Hfit. eapply log_ok; [done|done|by repeat constructor|exact Hb|].
  intros Hl. apply Hfit, Hs. lia.
Qed.

Ltac log_constant :=
  apply log_constant_ok; [done | decide_compute | by eexists | by vm_compute].
Ltac log_error :=
  eapply log_error_ok; [done | done | decide_compute | reflexivity | lia].

(** Without verification nothing is sent. *)
Lemma tls_unverified lg env reads r host :
  error_logged lg env -> tls_verified env host = false ->
  ff_http_send_request_tls lg env reads r host = Ok ([], false).
Proof.
  intros He Hv. pose proof (el_year _ _ He). unfold ff_http_send_request_tls.
  fold (tls_settings env host). unfold tls_verified in Hv. cbv zeta.
  do 8 (rewrite tls_step_false by log_constant).
  do 2 (rewrite tls_step_false by log_error).
  rewrite tls_step_false by log_constant. rewrite tls_step_false by log_error.
  repeat (case_match; [|done]). done.
Qed.

(** With it, the function goes on to send. *)
Lemma tls_verified_run lg env reads r host :
  tls_verified env host = true ->
  ff_http_send_request_tls lg env reads r host =
    match rq_payload r with
    | PayloadDangling => Err UseAfterFree
    | PayloadNodes [] => Err NullDeref
    | PayloadNodes (payload :: _) =>
        '(out, sent) ← bio_write_loop (S (S (Z.to_nat (rq_payload_length r)))) env
                         (node_value payload) (rq_payload_length r) 0 [];
        _ ← log lg FF_DEBUG (chars "Finished sending request to %s over HTTPS (%d bytes sent)")
              [PString host; PInt sent];
        '(response, received) ← bio_read_loop reads env no_response 0;
        _ ← log lg FF_DEBUG (chars "Finished receiving response from %s (%d bytes received)")
              [PString host; PInt received];
        _ ← log_response lg response;
        Ok (out, true)
    end.
Proof.
  unfold tls_verified. rewrite !andb_true_iff.
  intros (((((((((((H1&H2)&H3)&H4)&H5)&H6)&H7)&H8)&H9)&H10)&H11)&H12).
  unfold ff_http_send_request_tls. fold (tls_settings env host). cbv zeta.
  by rewrite !tls_step_true by done.
Qed.

Lemma bio_write_loop_ok env value L fuel sent :
  tls_calls env -> L <= zlen value -> 0 <= sent <= L ->
  L - sent + 1 < Z.of_nat fuel ->
  exists m n, bio_write_loop fuel env value L sent (slice value 0 sent) = Ok (slice value 0 m, n) /\
    sent <= m <= L /\ (tls_writes env -> m = L).
Proof.
  intros Hc HL. revert sent. induction fuel as [|fuel IH]; intros sent H0 Hf; [lia|].
  cbn [bio_write_loop]. rewrite mem_read_slice by lia.
  cbn [mbind res_bind]. rewrite zlen_slice by lia. cbv zeta.
  pose proof (Hc sent (L - sent)) as Hw.
  destruct (Z.ltb_spec 0 (te_write env sent (L - sent))) as [Hp|Hp].
  - rewrite grow_prefix by lia.
    destruct (IH (sent + te_write env sent (L - sent))) as (m&n&->&Hm&Ht); [lia..|].
    exists m, n. split_and!; [done|lia|lia|done].
  - eexists sent, _. split_and!; [done|lia|lia|]. intros Ht. specialize (Ht sent (L - sent)). lia.
Qed.

(** ** The option *)

Definition is_https (o : ff_request_option_node) : Prop :=
  opt_type o = FF_REQUEST_OPTION_TYPE_HTTPS.
#[export] Instance is_https_dec o : Decision (is_https o).
Proof. unfold is_https. apply _. Defined.

(** The transport a request asks for: HTTPS if its first HTTPS option is one
    byte with the value 1. *)
Definition https_wanted (options : list ff_request_option_node) : bool :=
  match head (filter is_https options) with
  | Some o => bool_decide (opt_bytes o = [1])
  | None => false
  end.

Definition sent_over (https : bool) (host P : list Z) : sent_event :=
  if https then SentHttps host P else SentHttp host P.

(** The options are all visited. *)
Lemma visited_all r :
  rq_options_length r = zlen (rq_options r) -> visited_options r = Ok (rq_options r).
Proof.
  intros Hl. unfold visited_options. rewrite Hl, bool_decide_true by lia. cbn.
  rewrite take_ge; [done|]. unfold zlen. lia.
Qed.

Lemma https_loop_app l1 l2 h :
  https_loop (l1 ++ l2) h = (h' ← https_loop l1 h; https_loop l2 h').
Proof.
  revert h. induction l1 as [|o l1 IH]; intros h; [done|]. cbn [app https_loop].
  destruct (opt_type o =? _); [|apply IH].
  destruct (if opt_length o =? 1 then _ else _); [|done]. apply IH.
Qed.

Lemma https_loop_other l h :
  Forall (fun o => ~ is_https o) l -> https_loop l h = Ok h.
Proof.
  induction 1 as [|o l Ho _ IH]; [done|]. cbn [https_loop].
  by rewrite (proj2 (Z.eqb_neq _ _)) by done.
Qed.

Lemma https_loop_total l h :
  Forall wf_option l -> is_ok (https_loop l h).
Proof.
  intros Hl. revert h. induction Hl as [|o l Ho _ IH]; intros h; [by eexists|].
  cbn [https_loop]. destruct (opt_type o =? _); [|apply IH].
  destruct (Z.eqb_spec (opt_length o) 1) as [H1|]; [|apply IH].
  destruct (load_first_byte o) as (b&->&_); [done|done|]. apply IH.
Qed.

(** The value of an option, as the loop reads it. *)
Lemma https_option_value o h rest :
  wf_option o -> is_https o ->
  https_loop (o :: rest) h = https_loop rest (bool_decide (opt_bytes o = [1])).
Proof.
  intros Ho Hh. cbn [https_loop]. rewrite (proj2 (Z.eqb_eq _ _) Hh).
  pose proof (zlen_opt_bytes o Ho) as Hz.
  destruct (Z.eqb_spec (opt_length o) 1) as [H1|H1].
  - destruct (load_first_byte o) as (b&->&Hb); [done|done|]. cbn [mbind res_bind]. f_equal.
    assert (opt_bytes o = [b]) as ->.
    { destruct (opt_bytes o) as [|c [|d l]]; [done|by injection Hb as ->|].
      rewrite H1, !zlen_cons in Hz. pose proof (zlen_nonneg l). lia. }
    apply Bool.eq_iff_eq_true. rewrite Z.eqb_eq, bool_decide_eq_true. naive_solver.
  - cbn [mbind res_bind]. rewrite bool_decide_eq_false_2; [done|]. intros E. rewrite E in Hz. done.
Qed.

(** The loop from the last option to the first ends with the first one. *)
Lemma https_loop_wanted options :
  Forall wf_option options -> https_loop (rev options) false = Ok (https_wanted options).
Proof.
  intros Hopts. unfold https_wanted.
  destruct (filter is_https options) as [|o rest] eqn:Ef; cbn [head].
  - apply https_loop_other, Forall_rev, Forall_forall. intros o Ho Hh.
    apply (elem_of_nil o). rewrite <- Ef. by apply list_elem_of_filter.
  - destruct (filter_split is_https options o rest Ef) as (pre&post&->&Hpre&Ho).
    apply Forall_app in Hopts as [_ Hopts]. apply Forall_cons in Hopts as [Hwo Hpost].
    rewrite rev_app_distr. cbn [rev]. rewrite <- app_assoc, https_loop_app.
    destruct (https_loop_total (rev post) false) as [h ->]; [by apply Forall_rev|].
    cbn [mbind res_bind app]. rewrite https_option_value by done.
    by apply https_loop_other, Forall_rev.
Qed.
