(* ===== verification/HttpProps.v ===== *)
(** * Properties of src/http.c *)

From S2P Require Import Prelude Bytes Request Strings Parser ParserFacts Reassembly Crypto.
From S2P Require Import CryptoFacts.
From S2P Require Import Http HttpFacts HttpSendFacts.

(** A request whose one payload node holds [P]. *)
Record holds_payload (P : list Z) (r : ff_request) : Prop := {
  hp_single : single_payload P r;
  hp_length : rq_payload_length r = zlen P;
  hp_bytes : bytes P;
  hp_small : zlen P < 65536;
}.

Lemma holds_payload_block P r :
  holds_payload P r ->
  exists node rest, rq_payload r = PayloadNodes [node] /\ node_value node = P ++ rest.
Proof.
  intros [(node&Hp&_&_&Hz&Hs) _ _ _]. exists node, (drop (length P) (node_value node)).
  split; [done|]. rewrite <- Hs at 1. unfold slice. rewrite drop_0. unfold zlen.
  rewrite Nat2Z.id. by rewrite take_drop.
Qed.

Lemma c_string_ok h rest :
  Forall (fun d => is_byte d /\ is_host_char d = true) h -> c_string (h ++ 0 :: rest) = Ok h.
Proof.
  induction 1 as [|d h [Bd Hd] _ IH]; [done|]. cbn [app c_string].
  unfold is_byte in Bd. rewrite (proj2 (Z.eqb_neq d indet)) by (unfold indet; lia).
  rewrite (proj2 (Z.eqb_neq d 0)) by (by intros ->). by rewrite IH.
Qed.

(** The payload of a request for the host [h]: lines that are passed over,
    the name of the header in any case, spaces and the host. *)
Record host_request (lines : list (list Z)) (hdr : list Z) (k : nat) (h : list Z) (c : Z)
    (rest P : list Z) : Prop := {
  hr_text : P = header_text lines ++ hdr ++ replicate k 32 ++ h ++ c :: rest;
  hr_lines : passed_lines lines;
  hr_header : map tolower hdr = chars "host:";
  hr_host : Forall (fun d => is_byte d /\ is_host_char d = true) h;
  hr_stop : is_host_char c = false /\ c <> 0 /\ c <> 32;
  hr_limit : zlen (header_text lines) + 5 + Z.of_nat k < FF_HTTP_HOST_HEADER_MAX_SEARCH_LENGTH;
}.

Lemma length_header_text lines : (length lines <= length (header_text lines))%nat.
Proof.
  induction lines as [|l lines IH]; [done|]. unfold header_text in *. cbn.
  rewrite !length_app. cbn. lia.
Qed.

Lemma get_destination_host_loop P r node :
  holds_payload P r -> P <> [] -> rq_payload r = PayloadNodes [node] ->
  ff_http_get_destination_host r =
    host_loop (node_value node) (zlen P) (S (length P)) 0 (malloc 256).
Proof.
  intros [_ Hl _ _] Hne Hp. unfold ff_http_get_destination_host. rewrite Hp, Hl.
  rewrite (proj2 (Z.eqb_neq _ 0)) by (destruct P; [done|unfold zlen; cbn; lia]).
  unfold zlen at 2. by rewrite Nat2Z.id.
Qed.

(** The copy stops after the host, or after 256 of its bytes. *)
Lemma host_cut h c rest :
  Forall (fun d => is_byte d /\ is_host_char d = true) h ->
  is_byte c -> c <> 0 -> c <> 32 -> is_host_char c = false ->
  exists h1 c1 r1, h ++ c :: rest = h1 ++ c1 :: r1 /\ h1 = slice h 0 (Z.min (zlen h) 256) /\
    zlen h1 = Z.min (zlen h) 256 /\ is_byte c1 /\ c1 <> 0 /\ c1 <> 32 /\
    (is_host_char c1 = false \/ zlen h1 = 256).
Proof.
  intros Hh Bc C0 C32 Hc. destruct (decide (zlen h <= 256)) as [Hle|Hgt].
  - exists h, c, rest. rewrite Z.min_l by done. rewrite slice_full by done. split_and!; auto.
  - rewrite Z.min_r by lia. destruct (drop 256 h) as [|d h2] eqn:Ed.
    { apply (f_equal length) in Ed. rewrite length_drop in Ed. cbn in Ed. unfold zlen in Hgt. lia. }
    exists (take 256 h), d, (h2 ++ c :: rest).
    assert (zlen (take 256 h) = 256) as Hz by (unfold zlen in *; rewrite length_take; lia).
    assert (d ∈ h) as Hd. { rewrite <- (take_drop 256 h), Ed. set_solver. }
    rewrite Forall_forall in Hh. destruct (Hh d Hd) as [Bd Hcd].
    split_and!; try done; [|by intros ->|by intros ->|by right].
    rewrite <- (take_drop 256 h) at 1. by rewrite Ed, <- app_assoc.
Qed.

(** The first [n] of the bytes of the host, up to 256, are copied. *)
Lemma host_request_run lines hdr k h c rest P r :
  host_request lines hdr k h c rest P -> holds_payload P r ->
  ff_http_get_destination_host r =
    (let n := Z.min (zlen h) 256 in
     host_name ← mem_write (slice h 0 n ++ malloc (256 - n)) n [0];
     Some <$> c_string host_name).
Proof.
  intros [HP [Hpl Hpt] Hhd Hh (Hc&C0&C32) H8] HR.
  destruct (holds_payload_block P r HR) as (node&tl&Hp&Hv).
  assert (length hdr = 5%nat) as H5.
  { transitivity (length (map tolower hdr)); [by rewrite length_map|by rewrite Hhd]. }
  pose proof (hp_bytes _ _ HR) as BP.
  assert (bytes hdr /\ is_byte c) as [Bhdr Bc].
  { rewrite HP in BP. apply Forall_app in BP as [_ BP]. apply Forall_app in BP as [? BP].
    apply Forall_app in BP as [_ BP]. apply Forall_app in BP as [_ BP].
    by apply Forall_cons in BP as [? _]. }
  destruct (host_cut h c rest Hh Bc C0 C32 Hc) as (h1&c1&r1&Eh&Eh1&Hz1&Bc1&C10&C132&Hs1).
  assert (zlen (header_text lines ++ hdr ++ replicate k 32 ++ h1 ++ c1 :: r1) = zlen P) as HzP.
  { by rewrite HP, Eh. }
  rewrite !zlen_app, zlen_cons in HzP.
  assert (zlen hdr = 5) as Hz5 by (unfold zlen; lia).
  assert (zlen (replicate k 32) = Z.of_nat k) as Hzk by (unfold zlen; by rewrite length_replicate).
  pose proof (zlen_nonneg r1). pose proof (zlen_nonneg h1). pose proof (zlen_nonneg (header_text lines)).
  rewrite (get_destination_host_loop P r node HR) by (done || (intros ->; unfold zlen in HzP; cbn in HzP; lia)).
  assert (exists a hdr', hdr = a :: hdr' /\ is_byte a /\ a <> 0) as (a&hdr'&Ehdr&Ba&A0).
  { destruct hdr as [|a hdr']; [done|]. apply Forall_cons in Bhdr as [? _].
    exists a, hdr'. split_and!; try done. intros ->. by vm_compute in Hhd. }
  pose proof (hp_small _ _ HR) as Hsm.
  assert (slice (node_value node) 0 (zlen P) = P) as Hsl.
  { rewrite Hv. by apply slice_0_app. }
  pose proof (length_header_text lines) as HlH.
  replace (S (length P)) with (length lines + S (length P - length lines))%nat
    by (unfold zlen in *; lia).
  change 0 with (zlen (@nil Z)).
  rewrite (host_loop_lines (node_value node) (zlen P) ltac:(lia)
    ltac:(rewrite Hv, zlen_app; pose proof (zlen_nonneg tl); lia) ltac:(by rewrite Hsl)
    lines a (hdr' ++ replicate k 32 ++ h ++ c :: rest ++ tl) []); try done.
  - change (zlen (@nil Z)) with 0. rewrite Z.add_0_l.
    rewrite (host_loop_host (node_value node) (zlen P) ltac:(lia)
      ltac:(rewrite Hv, zlen_app; pose proof (zlen_nonneg tl); lia) ltac:(by rewrite Hsl)
      hdr k h1 c1 (r1 ++ tl) (header_text lines)); try done; try lia.
    + cbv zeta. by rewrite Hz1, Eh1.
    + rewrite Hv, HP, Eh. by rewrite <- !app_assoc.
    + rewrite Eh1. by apply Forall_take, Forall_drop.
  - rewrite Hv, HP, Ehdr. cbn. by rewrite <- !app_assoc, <- app_comm_cons, <- !app_assoc.
  - by right.
  - change (zlen (@nil Z)) with 0. lia.
  - change (zlen (@nil Z)) with 0. unfold FF_HTTP_HOST_HEADER_MAX_SEARCH_LENGTH in *. lia.
Qed.

(** A host that fits is returned. *)
Lemma get_destination_host_found (lines : list (list Z)) (hdr : list Z) (k : nat) (h : list Z) (c : Z)
    (rest P : list Z) (r : ff_request) :
  host_request lines hdr k h c rest P -> holds_payload P r -> zlen h <= POSIX_HOST_NAME_MAX ->
  ff_http_get_destination_host r = Ok (Some h).
Proof.
  unfold POSIX_HOST_NAME_MAX. intros Hq HR Hl. rewrite (host_request_run _ _ _ _ _ _ _ _ Hq HR).
  pose proof (zlen_nonneg h). cbv zeta. rewrite Z.min_l, slice_full by (done || lia).
  assert (mem_write (h ++ malloc (256 - zlen h)) (zlen h) [0] =
          Ok (h ++ 0 :: malloc (255 - zlen h))) as ->.
  { apply mem_write_ok. rewrite zlen_app, zlen_malloc by lia. change (zlen [0]) with 1.
    split_and!; [lia|lia|]. replace (Z.to_nat (zlen h)) with (length h) by (unfold zlen; lia).
    rewrite take_app_length, drop_app_ge by lia. cbn [app length]. unfold malloc.
    rewrite drop_replicate. do 3 f_equal. unfold zlen in *. lia. }
  cbn [mbind res_bind]. rewrite c_string_ok by apply Hq. done.
Qed.

(** The search at the blank line after the header lines. *)
Lemma search_at_blank lines blank body P r :
  passed_lines lines -> blank = [10] \/ blank = [13; 10] ->
  P = header_text lines ++ blank ++ body -> holds_payload P r ->
  zlen (header_text lines) < FF_HTTP_HOST_HEADER_MAX_SEARCH_LENGTH ->
  exists node tl fuel, rq_payload r = PayloadNodes [node] /\
    node_value node = header_text lines ++ blank ++ body ++ tl /\
    ff_http_get_destination_host r =
      host_loop (node_value node) (zlen P) (S fuel) (zlen (header_text lines))
        (malloc (POSIX_HOST_NAME_MAX + 1)).
Proof.
  intros [Hpl Hpt] Hb HP HR H8.
  destruct (holds_payload_block P r HR) as (node&tl&Hp&Hv).
  pose proof (hp_small _ _ HR) as Hsm. pose proof (hp_bytes _ _ HR) as BP.
  assert (exists a b', blank = a :: b' /\ is_byte a /\ a <> 0) as (a&b'&Eb&Ba&A0).
  { destruct Hb as [-> | ->]; eexists _, _; done. }
  assert (zlen P = zlen (header_text lines) + zlen (blank ++ body) /\ 0 < zlen (blank ++ body))
    as [HzP Hpos].
  { rewrite HP, zlen_app. split; [done|]. rewrite Eb, <- app_comm_cons, zlen_cons.
    pose proof (zlen_nonneg (b' ++ body)). lia. }
  pose proof (length_header_text lines) as HlH. pose proof (zlen_nonneg (header_text lines)).
  assert (node_value node = header_text lines ++ blank ++ body ++ tl) as Hv'.
  { by rewrite Hv, HP, <- !app_assoc. }
  exists node, tl, (length P - length lines)%nat. split_and!; [done|done|].
  rewrite (get_destination_host_loop P r node HR) by (done || (intros ->; unfold zlen in *; cbn in *; lia)).
  replace (S (length P)) with (length lines + S (length P - length lines))%nat
    by (unfold zlen in *; lia).
  change 0 with (zlen (@nil Z)).
  rewrite (host_loop_lines (node_value node) (zlen P) ltac:(lia)
    ltac:(rewrite Hv, zlen_app; pose proof (zlen_nonneg tl); lia)
    ltac:(rewrite Hv, slice_0_app; done)
    lines a (b' ++ body ++ tl) []); try done; try (change (zlen (@nil Z)) with 0; lia).
  - by rewrite Hv', Eb.
  - by right.
Qed.

Section Claims.

(** C13: The destination is the value of the Host header: for every payload
    whose header lines before it are neither blank nor a Host header, with the
    name of the header in any case, any number of spaces, and a host of at
    most 255 letters, digits, dots and hyphens with another character (not
    NUL or a space) after it, the search returns the host, if it starts within
    the first 8096 bytes. *)
Theorem host_header_found (lines : list (list Z)) (hdr : list Z) (k : nat) (h : list Z) (c : Z)
    (rest P : list Z) (r : ff_request) :
  host_request lines hdr k h c rest P -> holds_payload P r -> zlen h <= POSIX_HOST_NAME_MAX ->
  ff_http_get_destination_host r = Ok (Some h).
Proof. apply get_destination_host_found. Qed.

(** C38: A host of more than 255 characters overruns the buffer: the loop
    copies 256 of them into a block of 256 bytes and the NUL is written after
    its end. *)
Theorem host_name_overflow (lines : list (list Z)) (hdr : list Z) (k : nat) (h : list Z) (c : Z)
    (rest P : list Z) (r : ff_request) :
  host_request lines hdr k h c rest P -> holds_payload P r -> POSIX_HOST_NAME_MAX < zlen h ->
  ff_http_get_destination_host r = Err OutOfBounds.
Proof.
  unfold POSIX_HOST_NAME_MAX. intros Hq HR Hl. rewrite (host_request_run _ _ _ _ _ _ _ _ Hq HR).
  cbv zeta. rewrite Z.min_r by lia. unfold mem_write. rewrite bool_decide_false; [done|].
  rewrite zlen_app, zlen_slice, zlen_malloc by lia. change (zlen [0]) with 1. lia.
Qed.

(** C23: The body is not searched: when the header lines are followed by a
    blank line (LF or CR LF) before any Host header, and blank line and body
    are more than two bytes, no host is found, whatever the body holds.
    Without a body the blank line at the end of the payload is not seen: the
    search goes on and reads the byte behind the payload, which is outside the
    block when the block ends with the payload. *)
Theorem host_search_stops (lines : list (list Z)) (blank body P : list Z) (r : ff_request) :
  passed_lines lines -> lines <> [] -> blank = [10] \/ blank = [13; 10] ->
  P = header_text lines ++ blank ++ body -> holds_payload P r ->
  zlen (header_text lines) < FF_HTTP_HOST_HEADER_MAX_SEARCH_LENGTH ->
  (2 < zlen (blank ++ body) -> ff_http_get_destination_host r = Ok None) /\
  (body = [] -> rq_payload r = PayloadNodes [mk_node 0 (zlen P) P] ->
   zlen P < FF_HTTP_HOST_HEADER_MAX_SEARCH_LENGTH ->
   ff_http_get_destination_host r = Err OutOfBounds).
Proof.
  intros Hpl Hne Hb HP HR H8. split.
  - intros H2. destruct (search_at_blank lines blank body P r Hpl Hb HP HR H8)
      as (node&tl&fuel&_&Hv&->).
    pose proof (hp_small _ _ HR). pose proof (zlen_nonneg (header_text lines)).
    assert (zlen P = zlen (header_text lines) + zlen (blank ++ body)) as HzP
      by (by rewrite HP, zlen_app).
    cbn [host_loop]. unfold at_empty_line. rewrite u64_small by lia.
    rewrite (proj2 (Z.ltb_lt _ _)) by lia.
    rewrite (proj2 (Z.eqb_neq _ 0)) by
      (pose proof (length_header_text lines); destruct lines; [done|]; unfold zlen in *; cbn in *; lia).
    cbn [andb negb]. rewrite Hv.
    destruct Hb as [-> | ->]; cbn [app];
      rewrite (load_byte_at (header_text lines) _ _ (zlen (header_text lines))) by done; [done|].
    cbn [mbind res_bind Z.eqb Pos.eqb].
    assert (load_byte (header_text lines ++ 13 :: 10 :: body ++ tl) (zlen (header_text lines) + 1) =
      Ok 10) as ->; [|done].
    change (13 :: 10 :: body ++ tl) with ([13] ++ 10 :: body ++ tl). rewrite app_assoc.
    apply load_byte_at; [done|]. by rewrite zlen_app.
  - intros -> Hp Hz. destruct (search_at_blank lines blank [] P r Hpl Hb HP HR H8)
      as (node&tl&fuel&Hnode&_&->).
    rewrite Hp in Hnode. injection Hnode as <-. cbn [node_value].
    pose proof (hp_small _ _ HR). rewrite app_nil_r in HP.
    apply (host_loop_blank_end P (zlen P) ltac:(lia) eq_refl
      (if decide (blank = [10]) then [] else [13]));
      [|case_decide; auto|done].
    rewrite HP at 1. f_equal. by destruct Hb as [-> | ->].
Qed.

(** C24: The search for the host ends on every request: it never runs longer
    than the length of the payload. *)
Theorem host_search_terminates (r : ff_request) :
  0 <= rq_payload_length r < 2 ^ 64 -> ff_http_get_destination_host r <> Err OutOfFuel.
Proof.
  intros Hl. unfold ff_http_get_destination_host.
  destruct (rq_payload r) as [[|payload ?]|]; try done.
  destruct (Z.eqb_spec (rq_payload_length r) 0) as [E|E].
  - rewrite E. unfold consume_char. done.
  - apply host_loop_fuel; unfold FF_HTTP_HOST_HEADER_MAX_SEARCH_LENGTH; lia.
Qed.

(** The search reads past the payload: when the block of the payload
    ends with it, as after its chunks were joined, and its last line has no
    newline, the byte after the block is read. *)
Theorem host_search_overread (lines : list (list Z)) (l P : list Z) (r : ff_request) :
  passed_lines lines -> passed_line l -> l <> [] -> P = header_text lines ++ l ->
  rq_payload r = PayloadNodes [mk_node 0 (zlen P) P] -> rq_payload_length r = zlen P ->
  zlen P < FF_HTTP_HOST_HEADER_MAX_SEARCH_LENGTH -> bytes P ->
  ff_http_get_destination_host r = Err OutOfBounds.
Proof.
  intros [Hpl Hpt] [Hl Hh] Hne HP Hp Hlen H8 BP.
  assert (zlen P = zlen (header_text lines) + zlen l) as HzP by (by rewrite HP, zlen_app).
  pose proof (length_header_text lines) as HlH. pose proof (zlen_nonneg (header_text lines)).
  assert (0 < zlen l) by (destruct l; [done|]; unfold zlen; cbn; lia).
  unfold FF_HTTP_HOST_HEADER_MAX_SEARCH_LENGTH in H8.
  unfold ff_http_get_destination_host. rewrite Hp, Hlen, (proj2 (Z.eqb_neq _ 0)) by lia.
  cbn [node_value].
  destruct l as [|a l']; [done|]. pose proof (Forall_inv Hl) as (Ba&A0&_).
  replace (S (Z.to_nat (zlen P))) with (length lines + S (length P - length lines))%nat
    by (unfold zlen in *; lia).
  change 0 with (zlen (@nil Z)).
  rewrite (host_loop_lines P (zlen P) ltac:(lia) ltac:(lia) ltac:(by rewrite slice_full)
    lines a l' []); try done;
    try (change (zlen (@nil Z)) with 0; unfold FF_HTTP_HOST_HEADER_MAX_SEARCH_LENGTH; lia).
  2:{ by right. }
  change (zlen (@nil Z)) with 0. rewrite Z.add_0_l. cbn [host_loop].
  rewrite (at_empty_line_end P (zlen P) ltac:(lia) eq_refl (a :: l') (header_text lines))
    by done. cbn [mbind res_bind].
  rewrite (at_host_header_end P (zlen P) ltac:(lia) eq_refl (a :: l') (header_text lines))
    by done. cbn [mbind res_bind].
  rewrite (skip_line_end P (zlen P) ltac:(lia) eq_refl (a :: l') (header_text lines));
    try done. unfold zlen in *. lia.
Qed.
End Claims.

(** ** Witnesses *)

(** A request with one payload node whose block is the payload. *)
Definition payload_request (P : list Z) : ff_request :=
  set_payload_length (zlen P)
    (set_payload (PayloadNodes [mk_node 0 (zlen P) P]) ff_request_alloc).

Definition sample_lines : list (list Z) := [chars "GET / HTTP/1.1" ++ [13]; chars "A: b" ++ [13]].

Definition sample_payload (h : list Z) : list Z :=
  header_text sample_lines ++ chars "HoSt:" ++ replicate 1 32 ++ h ++ 13 :: [10; 13; 10].

Lemma payload_request_holds P :
  bytes P -> zlen P < 65536 -> holds_payload P (payload_request P).
Proof.
  intros Hb Hs. split; try done. eexists. split_and!; [reflexivity|done|done|cbn; lia|].
  by apply slice_full.
Qed.

Lemma sample_passed : passed_lines sample_lines.
Proof.
  assert (forall c, Decision (line_char c)) by (intros c; unfold line_char; apply _).
  assert (forall l, Decision (passed_line l)) by (intros l; unfold passed_line; apply _).
  assert (forall l, Decision (not_blank l)) by (intros l; unfold not_blank; apply _).
  split; repeat constructor; try done.
Qed.

Lemma sample_request h :
  Forall (fun d => is_byte d /\ is_host_char d = true) h ->
  host_request sample_lines (chars "HoSt:") 1 h 13 [10; 13; 10] (sample_payload h).
Proof. intros Hh. split; try done. apply sample_passed. Qed.

Lemma sample_bytes h : bytes h -> bytes (sample_payload h).
Proof.
  intros Hh. unfold sample_payload. repeat (apply Forall_app; split); try done;
    decide_compute.
Qed.

Lemma replicate_host n :
  Forall (fun d => is_byte d /\ is_host_char d = true) (replicate n 97).
Proof. by apply Forall_replicate. Qed.

(** Witness of C13. *)
Lemma host_header_found_witness :
  ff_http_get_destination_host (payload_request (sample_payload (replicate 255 97))) =
    Ok (Some (replicate 255 97)).
Proof.
  apply (host_header_found sample_lines (chars "HoSt:") 1 (replicate 255 97) 13 [10; 13; 10]
           (sample_payload (replicate 255 97))).
  - apply sample_request, replicate_host.
  - apply payload_request_holds; [apply sample_bytes; by apply Forall_replicate|reflexivity].
  - done.
Defined.

(** Witness of C38. *)
Lemma host_name_overflow_witness :
  ff_http_get_destination_host (payload_request (sample_payload (replicate 300 97))) =
    Err OutOfBounds.
Proof.
  apply (host_name_overflow sample_lines (chars "HoSt:") 1 (replicate 300 97) 13 [10; 13; 10]
           (sample_payload (replicate 300 97))).
  - apply sample_request, replicate_host.
  - apply payload_request_holds; [apply sample_bytes; by apply Forall_replicate|reflexivity].
  - done.
Defined.

Definition bodied_payload : list Z :=
  header_text sample_lines ++ [13; 10] ++ chars "Host: example.com".

Lemma bodied_bytes : bytes bodied_payload.
Proof. decide_compute. Qed.

(** The same request without the body. *)
Definition bodiless_payload : list Z := header_text sample_lines ++ [13; 10].

(** Witness of C23: a Host line in the body, and no body. *)
Lemma host_search_stops_witness :
  ff_http_get_destination_host (payload_request bodied_payload) = Ok None /\
  ff_http_get_destination_host (payload_request bodiless_payload) = Err OutOfBounds.
Proof.
  split.
  - apply (host_search_stops sample_lines [13; 10] (chars "Host: example.com") bodied_payload);
      [exact sample_passed|discriminate|by right|reflexivity| |reflexivity|reflexivity].
    apply payload_request_holds; [exact bodied_bytes|reflexivity].
  - apply (host_search_stops sample_lines [13; 10] [] bodiless_payload);
      [exact sample_passed|discriminate|by right|reflexivity| |reflexivity|reflexivity
      |reflexivity|reflexivity].
    apply payload_request_holds; [decide_compute|reflexivity].
Defined.

(** Witness of C24. *)
Lemma host_search_terminates_witness :
  ff_http_get_destination_host (payload_request bodied_payload) <> Err OutOfFuel.
Proof. apply (host_search_terminates (payload_request bodied_payload)). by split. Defined.

Definition cut_payload : list Z := header_text sample_lines ++ chars "Accept".

Lemma cut_passed : passed_line (chars "Accept").
Proof. split; [|reflexivity]. repeat constructor; done. Qed.

Lemma cut_bytes : bytes cut_payload.
Proof. decide_compute. Qed.

(** An example. *)
Lemma host_search_overread_witness :
  ff_http_get_destination_host (payload_request cut_payload) = Err OutOfBounds.
Proof.
  apply (host_search_overread sample_lines (chars "Accept") cut_payload).
  - exact sample_passed.
  - exact cut_passed.
  - discriminate.
  - reflexivity.
  - reflexivity.
  - reflexivity.
  - reflexivity.
  - exact cut_bytes.
Defined.
