(* ===== verification/HttpSendProps.v ===== *)
(** * Properties of sending a request with src/http.c *)

From S2P Require Import Prelude Bytes Request Strings Logging LoggingFacts Parser ParserFacts.
From S2P Require Import Reassembly Crypto CryptoFacts.
From S2P Require Import Http HttpFacts HttpSendFacts HttpProps.

(** The connection of plain HTTP is made. *)
Definition http_reachable (env : http_env) (host : list Z) : bool :=
  he_getaddrinfo env host && he_socket env && he_connect env.

(** The first read gives the start of an HTTP response, with a line. *)
Record http_reply (env : http_env) (reply : list Z) : Prop := {
  ht_read : he_recv env 0 (FF_HTTP_RESPONSE_BUFF_SIZE - 1) = Some reply;
  ht_line : reply_line reply;
}.

(** The same over TLS. *)
Record tls_reply (env : tls_env) (reply : list Z) : Prop := {
  tr_read : exists retry, te_read env 0 FF_HTTP_RESPONSE_BUFF_SIZE = (Some reply, retry);
  tr_line : reply_line reply;
}.

Lemma bio_read_reply env reply n :
  tls_reply env reply ->
  exists rest received, bio_read_loop (S n) env no_response 0 = Ok (reply ++ rest, received) /\
    exists k, strchr (reply ++ rest) 10 0 = Ok (Some k).
Proof.
  intros [[retry Hr] Hl]. cbn [bio_read_loop]. rewrite Z.sub_0_r, Hr.
  destruct (reply_written reply (chars "http/") Hl (or_introl eq_refl)) as (rest&Hw&_&Hc&Hk).
  rewrite Hw. cbn [mbind res_bind].
  rewrite Z.add_0_l, (proj2 (Z.ltb_lt _ _)) by apply Hl. rewrite Hc. cbn. eauto.
Qed.

Lemma response_fuel : exists n, Z.to_nat FF_HTTP_RESPONSE_BUFF_SIZE = S n.
Proof. exists 4095%nat. done. Qed.

Lemma recv_reply env reply :
  http_reply env reply ->
  exists rest received, http_response env = Ok (reply ++ rest, received, true) /\
    exists k, strchr (reply ++ rest) 10 0 = Ok (Some k).
Proof.
  intros [Hr Hl]. unfold http_response.
  destruct (reply_written reply (chars "HTTP/") Hl (or_intror eq_refl)) as (rest&Hw&_&Hc&Hk).
  destruct response_fuel as [fuel ->]. cbn [recv_loop].
  rewrite Z.sub_0_r, Hr. destruct Hl as [_ Hs _ _ _].
  destruct reply as [|b reply]; [unfold zlen in Hs; cbn in Hs; lia|]. rewrite Hw.
  cbn [mbind res_bind]. rewrite Hc. cbn [mbind res_bind]. rewrite Z.add_0_l.
  unfold FF_HTTP_RESPONSE_BUFF_SIZE in Hs. rewrite !u32_small by (rewrite ?u32_small; lia).
  rewrite (proj2 (Z.ltb_lt 0 _)) by lia. cbn. eauto.
Qed.

(** A server that closes the connection at once. *)
Lemma http_no_answer env :
  he_recv env 0 (FF_HTTP_RESPONSE_BUFF_SIZE - 1) = Some [] ->
  http_response env = Ok (no_response, 0, true) /\ strchr no_response 10 0 = Ok None.
Proof.
  intros He. split; [|by vm_compute]. unfold http_response.
  destruct response_fuel as [fuel ->]. cbn [recv_loop]. by rewrite Z.sub_0_r, He.
Qed.

(** ** Plain HTTP *)

Lemma host_arg lg host : host_logged lg host -> Forall arg_ok [PString host].
Proof. intros H. apply Forall_cons. split; [apply H|constructor]. Qed.

Lemma log_dns_lookup_ok lg host :
  host_logged lg host -> is_ok (log_dns_lookup (lg_level lg) (lg_now lg) host).
Proof.
  intros H. apply log_text.
  eapply (log_host_ok lg host); [done|done|decide_compute|by eapply host_arg|reflexivity|lia].
Qed.

Lemma log_dns_failure_ok lg host :
  host_logged lg host -> is_ok (log_dns_failure (lg_level lg) (lg_now lg) host).
Proof.
  intros H. apply log_text.
  eapply (log_host_ok lg host); [done|done|decide_compute|by eapply host_arg|reflexivity|lia].
Qed.

(** A host that is not reached gets nothing. *)
Lemma send_unencrypted_unreachable lg env r host :
  http_calls env -> host_logged lg host -> http_reachable env host = false ->
  ff_http_send_request_unencrypted lg env r host = Ok ([], false).
Proof.
  intros Hc Hl Hr. unfold ff_http_send_request_unencrypted. unfold http_reachable in Hr.
  destruct (log_dns_lookup_ok lg host Hl) as [t1 ->]. cbn [mbind res_bind].
  destruct (log_dns_failure_ok lg host Hl) as [t2 ->]. cbn [mbind res_bind].
  pose proof (hl_year _ _ Hl). destruct (hc_address _ Hc host) as [Ha Hz].
  destruct (he_getaddrinfo env host); cbn [negb andb] in *; [|done].
  destruct (he_socket env); cbn [negb andb] in *.
  - log_host Hl. rewrite Hr. cbn [negb]. by log_host Hl.
  - assert (log lg FF_ERROR (chars "Failed to open socket") [] = Ok tt) as -> by log_constant. done.
Qed.

Lemma http_response_ok env :
  http_calls env ->
  exists rs n read, http_response env = Ok (rs, n, read) /\
    response_ok FF_HTTP_RESPONSE_BUFF_SIZE rs.
Proof.
  intros Hc. apply recv_loop_ok; [done|by apply response_zero|by unfold FF_HTTP_RESPONSE_BUFF_SIZE|].
  unfold FF_HTTP_RESPONSE_BUFF_SIZE. lia.
Qed.

(** What happens once the connection is made. *)
Lemma send_unencrypted_connected lg env P r host :
  http_calls env -> holds_payload P r -> host_logged lg host -> http_reachable env host = true ->
  exists m written rs n read,
    0 <= m <= zlen P /\ (http_writes env -> 0 < zlen P -> m = zlen P /\ written = true) /\
    http_response env = Ok (rs, n, read) /\ response_ok FF_HTTP_RESPONSE_BUFF_SIZE rs /\
    ff_http_send_request_unencrypted lg env r host =
      if written && read then _ ← log_response lg rs; Ok (slice P 0 m, true)
      else Ok (slice P 0 m, false).
Proof.
  intros Hc HR Hlg Hr. unfold http_reachable in Hr. apply andb_true_iff in Hr as [Hr Hcn].
  apply andb_true_iff in Hr as [Hg Hso].
  destruct (http_response_ok env Hc) as (rs&n&read&Hrecv&Hrs).
  unfold ff_http_send_request_unencrypted.
  destruct (log_dns_lookup_ok lg host Hlg) as [t1 ->]. cbn [mbind res_bind].
  rewrite Hg, Hso, Hcn. cbn [negb]. destruct (hc_address _ Hc host) as [Ha Hz].
  log_host Hlg. destruct (holds_payload_block P r HR) as (node&tl&Hp&Hv).
  destruct HR as [_ Hl _ Hs]. rewrite Hp, Hl. pose proof (zlen_nonneg P). pose proof (zlen_nonneg tl).
  destruct (write_loop_ok env (node_value node) (zlen P) (S (Z.to_nat (zlen P))) 0)
    as (m&b&Hw&Hm&Hall); try done; try lia; [rewrite Hv, zlen_app; lia|].
  change (slice (node_value node) 0 0) with (@nil Z) in Hw. rewrite Hw. cbn [mbind res_bind].
  rewrite Hv, slice_app_l by lia.
  exists m, b, rs, n, read. split_and!; [lia|lia|exact Hall|exact Hrecv|exact Hrs|].
  destruct b; cbn [negb andb]; log_host Hlg; [|done]. rewrite Hrecv.
  cbn [mbind res_bind]. destruct read; cbn [negb]; by log_host Hlg.
Qed.

Lemma slice_prefix (P : list Z) m : slice P 0 m `prefix_of` P.
Proof. exists (drop (Z.to_nat m) P). unfold slice. by rewrite drop_0, take_drop. Qed.

(** To a host that answers. *)
Lemma send_unencrypted_ok lg env P r host reply :
  http_calls env -> holds_payload P r -> host_logged lg host ->
  http_reachable env host = true -> http_writes env -> 0 < zlen P -> http_reply env reply ->
  ff_http_send_request_unencrypted lg env r host = Ok (P, true).
Proof.
  intros Hc HR Hl Hr Hw HP Hrep.
  destruct (send_unencrypted_connected lg env P r host Hc HR Hl Hr)
    as (m&b&rs&n&read&_&Hall&Hrs&_&->).
  destruct (Hall Hw HP) as [-> ->]. destruct (recv_reply env reply Hrep) as (rest&n'&Hrecv&k&Hk).
  rewrite Hrecv in Hrs. injection Hrs as <- <- <-. cbn [andb].
  destruct (log_response_cases lg (reply ++ rest) (hl_year _ _ Hl)) as [Hok _].
  rewrite (Hok k Hk). cbn [mbind res_bind]. by rewrite slice_full.
Qed.

(** ** HTTPS *)

(** What a verified server gets. *)
Lemma send_tls_prefix lg env reads P r host out ok :
  holds_payload P r -> tls_calls env -> tls_verified env host = true ->
  ff_http_send_request_tls lg env reads r host = Ok (out, ok) -> out `prefix_of` P.
Proof.
  intros HR Hc Hver. rewrite tls_verified_run by done.
  destruct (holds_payload_block P r HR) as (node&tl&Hp&Hv). destruct HR as [_ Hl _ Hs].
  rewrite Hp, Hl. pose proof (zlen_nonneg P). pose proof (zlen_nonneg tl).
  destruct (bio_write_loop_ok env (node_value node) (zlen P) (S (S (Z.to_nat (zlen P)))) 0)
    as (m&n&Hwr&Hm&_); [done|rewrite Hv, zlen_app; lia|lia|lia|].
  change (slice (node_value node) 0 0) with (@nil Z) in Hwr. rewrite Hwr. cbn [mbind res_bind].
  rewrite Hv, slice_app_l by lia.
  intros (_&_&([]&_&(_&_&(_&_&[= <- <-])%bind_ok)%bind_ok)%bind_ok)%bind_ok. apply slice_prefix.
Qed.

(** A verified server that answers gets the payload. *)
Lemma send_tls_ok lg env reads P r host reply :
  holds_payload P r -> tls_calls env -> tls_writes env -> tls_reply env reply ->
  host_logged lg host -> tls_verified env host = true ->
  ff_http_send_request_tls lg env (S reads) r host = Ok (P, true).
Proof.
  intros HR Hc Hw Hreply Hlg Hver. rewrite tls_verified_run by done.
  destruct (holds_payload_block P r HR) as (node&tl&Hp&Hv). destruct HR as [_ Hl _ Hs].
  rewrite Hp, Hl. pose proof (zlen_nonneg P). pose proof (zlen_nonneg tl).
  destruct (bio_write_loop_ok env (node_value node) (zlen P) (S (S (Z.to_nat (zlen P)))) 0)
    as (m&n&Hwr&_&Hm); [done|rewrite Hv, zlen_app; lia|lia|lia|].
  change (slice (node_value node) 0 0) with (@nil Z) in Hwr. rewrite Hwr, (Hm Hw).
  cbn [mbind res_bind]. rewrite Hv, slice_0_app by done. log_host Hlg.
  destruct (bio_read_reply env reply reads Hreply) as (rest&n'&Hrd&k&Hk). rewrite Hrd.
  cbn [mbind res_bind]. log_host Hlg.
  destruct (log_response_cases lg (reply ++ rest) (hl_year _ _ Hlg)) as [Hok _].
  by rewrite (Hok k Hk).
Qed.

Section Claims.

(** C16: Plain HTTP sends the payload and nothing else.  Whatever the system
    calls return, within what they promise, and for a host name that fits the
    log, the function neither leaves its buffers nor the payload: it has
    written a prefix of the payload, the whole of it when the host is reached
    and every [write] makes progress.  Its only fault is the subtraction from
    a null pointer when the response received has no newline, for instance
    when the server closes the connection without an answer; with an HTTP
    response that starts with a line it returns true. *)
Theorem http_send_payload (lg : log_env) (env : http_env) (P : list Z) (r : ff_request)
    (host : list Z) :
  http_calls env -> holds_payload P r -> host_logged lg host ->
  match ff_http_send_request_unencrypted lg env r host with
  | Ok (out, _) =>
      out `prefix_of` P /\
      (http_reachable env host = true -> http_writes env -> 0 < zlen P -> out = P)
  | Err e =>
      e = NullArith /\
      exists response n, http_response env = Ok (response, n, true) /\
        strchr response 10 0 = Ok None
  end /\
  (http_reachable env host = true -> http_writes env -> 0 < zlen P ->
   (forall reply, http_reply env reply ->
      ff_http_send_request_unencrypted lg env r host = Ok (P, true)) /\
   (he_recv env 0 (FF_HTTP_RESPONSE_BUFF_SIZE - 1) = Some [] ->
      ff_http_send_request_unencrypted lg env r host = Err NullArith)).
Proof.
  intros Hc HR Hl. destruct (http_reachable env host) eqn:Hr.
  2:{ rewrite send_unencrypted_unreachable by done. split; [|done]. by split; [apply prefix_nil|]. }
  destruct (send_unencrypted_connected lg env P r host Hc HR Hl Hr)
    as (m&b&rs&n&read&Hm&Hall&Hrs&Hok&Hrun).
  destruct (log_response_cases lg rs (hl_year _ _ Hl)) as [Hsome Hnone].
  destruct (response_scan _ _ Hok) as [[k|] Hk].
  - split.
    + rewrite Hrun, (Hsome k Hk). destruct (b && read); cbn [mbind res_bind];
        (split; [apply slice_prefix|]); intros _ Hw HP; destruct (Hall Hw HP) as [-> _];
        by apply slice_full.
    + intros _ Hw HP. split; [intros reply; by apply send_unencrypted_ok|]. intros He. exfalso.
      destruct (http_no_answer env He) as [Hno Hline]. rewrite Hno in Hrs. congruence.
  - split.
    + rewrite Hrun, (Hnone Hk). destruct b, read; cbn [andb mbind res_bind]; [by eauto|..];
        (split; [apply slice_prefix|]); intros _ Hw HP; destruct (Hall Hw HP) as [-> ?]; try done;
        by apply slice_full.
    + intros _ Hw HP. split; [intros reply; by apply send_unencrypted_ok|]. intros He.
      destruct (http_no_answer env He) as [Hno _]. rewrite Hno in Hrs. injection Hrs as _ _ <-.
      destruct (Hall Hw HP) as [-> ->]. by rewrite Hrun, (Hnone Hk).
Qed.

(** C12: HTTPS sends only to a verified server.  Whatever the network does: if
    any step of the set-up fails, the handshake, the presence of a certificate
    and its verification, for the name of the host unless the build leaves
    that out, included, nothing is written and the function returns false
    (for errors of OpenSSL that fit the log).  If they all succeed, what is
    written when it returns is a prefix of the payload; and it is the payload,
    and the function does return true, when every write makes progress, the
    server answers at once with an HTTP response that has a line, and the
    host name fits the log. *)
Theorem tls_send_verified (lg : log_env) (env : tls_env) (reads : nat) (P : list Z)
    (r : ff_request) (host : list Z) :
  (error_logged lg env -> tls_verified env host = false ->
   ff_http_send_request_tls lg env reads r host = Ok ([], false)) /\
  (holds_payload P r -> tls_calls env -> tls_verified env host = true ->
   (forall out ok, ff_http_send_request_tls lg env reads r host = Ok (out, ok) ->
      out `prefix_of` P) /\
   (forall reply, tls_writes env -> tls_reply env reply -> host_logged lg host ->
      (0 < reads)%nat -> ff_http_send_request_tls lg env reads r host = Ok (P, true))).
Proof.
  split; [apply tls_unverified|]. intros HR Hc Hv. split.
  - intros out ok. by apply send_tls_prefix.
  - intros reply Hw Hrep Hl Hn. destruct reads as [|reads]; [lia|]. by eapply send_tls_ok.
Qed.

(** A read that has to be retried corrupts the stack: the -1 it returns
    is added to the bytes received, and the next read writes one byte before
    the response buffer. *)
Theorem tls_read_retry_underflow (lg : log_env) (env : tls_env) (reads : nat) (P : list Z)
    (r : ff_request) (host : list Z) (b : Z) (bs : list Z) (retry : bool) :
  holds_payload P r -> tls_calls env -> tls_verified env host = true -> host_logged lg host ->
  te_read env 0 FF_HTTP_RESPONSE_BUFF_SIZE = (None, true) ->
  te_read env (-1) (FF_HTTP_RESPONSE_BUFF_SIZE + 1) = (Some (b :: bs), retry) ->
  ff_http_send_request_tls lg env (S (S reads)) r host = Err OutOfBounds.
Proof.
  intros HR Hc Hver Hlg H1 H2. rewrite tls_verified_run by done.
  destruct (holds_payload_block P r HR) as (node&tl&Hp&Hv). destruct HR as [_ Hl _ Hs].
  rewrite Hp, Hl. pose proof (zlen_nonneg P). pose proof (zlen_nonneg tl).
  destruct (bio_write_loop_ok env (node_value node) (zlen P) (S (S (Z.to_nat (zlen P)))) 0)
    as (m&n&Hwr&_&_); [done|rewrite Hv, zlen_app; lia|lia|lia|].
  change (slice (node_value node) 0 0) with (@nil Z) in Hwr. rewrite Hwr. cbn [mbind res_bind].
  log_host Hlg. cbn [bio_read_loop]. rewrite Z.sub_0_r, H1. cbn [mbind res_bind].
  change (0 + -1) with (-1). change (5 <? -1) with false. cbn [andb mbind res_bind orb].
  change (FF_HTTP_RESPONSE_BUFF_SIZE - -1) with (FF_HTTP_RESPONSE_BUFF_SIZE + 1). rewrite H2.
  unfold mem_write. by rewrite bool_decide_false by lia.
Qed.

(** C28: The first HTTPS option decides the transport.  A request is sent over
    HTTPS if its first option of type HTTPS is one byte with the value 1, and
    over plain HTTP if it is another one or there is none, whatever options
    come after it; those inside the encrypted payload come after the ones of
    the packet, so they do not take precedence. *)
Theorem https_first_option (lg : log_env) (env : send_env) (r : ff_request) :
  wf_request r ->
  ff_http_send_request lg env r = send_over lg env (https_wanted (rq_options r)) r /\
  (forall r' ev, ff_http_send_request lg env r = Ok (r', Some ev) ->
   exists host out, ff_http_get_destination_host r = Ok (Some host) /\
     ev = sent_over (https_wanted (rq_options r)) host out).
Proof.
  intros [Hlen _ Hopts _ _].
  assert (ff_http_send_request lg env r = send_over lg env (https_wanted (rq_options r)) r) as Heq.
  { unfold ff_http_send_request. rewrite visited_all by done. cbn [mbind res_bind].
    by rewrite https_loop_wanted. }
  split; [exact Heq|]. intros r' ev. rewrite Heq. unfold send_over.
  destruct (ff_http_get_destination_host r) as [[host|]|]; [| |done]; rewrite bind_Ok;
    intros (_&_&H)%bind_ok; [|done].
  destruct (https_wanted (rq_options r)); apply bind_ok in H as ([ev1 ok]&H1&[= _ <-]);
    apply bind_ok in H1 as ([out ok1]&_&[= <- _]); by exists host, out.
Qed.

(** A request that could not be sent is reported as sent: without a
    destination host nothing is written, and the state SENDING_FAILED the
    function sets is the value of SENT. *)
Theorem send_failure_is_sent (lg : log_env) (env : send_env) (r : ff_request) :
  wf_request r -> ff_http_get_destination_host r = Ok None ->
  ff_http_send_request lg env r = Ok (set_state FF_REQUEST_STATE_SENT r, None).
Proof.
  intros [Hlen _ Hopts _ _] Hhost. unfold ff_http_send_request. rewrite visited_all by done.
  cbn [mbind res_bind]. rewrite https_loop_wanted by done. cbn [mbind res_bind].
  unfold send_over. by rewrite Hhost.
Qed.
End Claims.

(** ** Witnesses *)

Definition sample_reply : list Z := chars "HTTP/1.1 200 OK" ++ [10].

Lemma sample_reply_line : reply_line sample_reply.
Proof. split; [decide_compute|done|done|decide_compute|decide_compute]. Qed.

Definition sample_log (level : Z) : log_env := mk_log_env level (mk_tm 120 1 29 13 37 5).

(** A network where every write takes at most seven bytes and the server
    answers at once, with [reply]. *)
Definition sample_http (reply : list Z) : http_env :=
  mk_http_env (fun _ => true) (fun _ => chars "203.0.113.5") true true (fun _ n => Z.min n 7)
    (fun _ n => Some (take (Z.to_nat n) reply)).

Lemma sample_http_calls reply : bytes reply -> http_calls (sample_http reply).
Proof.
  intros Hb. split; [cbn; lia| |intros h; split; [decide_compute|done]].
  cbn. intros s n bs Hn [= <-]. split.
  - unfold zlen. rewrite length_take. lia.
  - by apply Forall_take.
Qed.

Lemma sample_http_writes reply : http_writes (sample_http reply).
Proof. intros s n Hn. cbn. lia. Qed.

Lemma sample_http_reply : http_reply (sample_http sample_reply) sample_reply.
Proof. split; [by vm_compute|exact sample_reply_line]. Qed.

Lemma bodied_holds : holds_payload bodied_payload (payload_request bodied_payload).
Proof. apply payload_request_holds; [exact bodied_bytes|reflexivity]. Qed.

Lemma sample_host_logged level : host_logged (sample_log level) (chars "a.b").
Proof. by split; [|decide_compute|]. Qed.

(** Witness of C16: the server answers, and it does not. *)
Lemma http_send_payload_witness :
  ff_http_send_request_unencrypted (sample_log FF_DEBUG) (sample_http sample_reply)
    (payload_request bodied_payload) (chars "a.b") = Ok (bodied_payload, true) /\
  ff_http_send_request_unencrypted (sample_log FF_DEBUG) (sample_http [])
    (payload_request bodied_payload) (chars "a.b") = Err NullArith.
Proof.
  split.
  - apply (http_send_payload (sample_log FF_DEBUG) (sample_http sample_reply) bodied_payload
      (payload_request bodied_payload) (chars "a.b")
      (sample_http_calls _ (rl_bytes _ sample_reply_line)) bodied_holds
      (sample_host_logged FF_DEBUG)) with sample_reply.
    + reflexivity.
    + apply sample_http_writes.
    + reflexivity.
    + exact sample_http_reply.
  - apply (http_send_payload (sample_log FF_DEBUG) (sample_http []) bodied_payload
      (payload_request bodied_payload) (chars "a.b")
      (sample_http_calls [] (Forall_nil_2 _)) bodied_holds (sample_host_logged FF_DEBUG)).
    + reflexivity.
    + apply sample_http_writes.
    + reflexivity.
    + cbn. by rewrite take_nil.
Defined.

Definition sample_tls (verify : bool) (reads : Z -> Z -> option (list Z) * bool) : tls_env :=
  mk_tls_env false true true true (fun _ => true) true true true (fun _ => true) (fun _ => true)
    (fun _ => true) (fun _ => true) (fun _ => true)
    (fun ssl => verify && ssl_verify_peer ssl && bool_decide (is_Some (ssl_host ssl)))
    (chars "certificate verify failed") (fun _ n => Z.min n 7) reads.

Definition sample_read (s n : Z) : option (list Z) * bool := (Some sample_reply, false).

(** Reads that always fail. *)
Definition silent_read (s n : Z) : option (list Z) * bool := (None, false).

(** The first read fails and is to be retried. *)
Definition retry_read (s n : Z) : option (list Z) * bool :=
  if s =? 0 then (None, true) else (Some sample_reply, false).

Lemma sample_tls_calls v reads : tls_calls (sample_tls v reads).
Proof. intros s n Hn. cbn. lia. Qed.

Lemma sample_tls_writes v reads : tls_writes (sample_tls v reads).
Proof. intros s n Hn. cbn. lia. Qed.

Lemma sample_tls_reply v : tls_reply (sample_tls v sample_read) sample_reply.
Proof. split; [by exists false|exact sample_reply_line]. Qed.

Lemma sample_error_logged level v reads : error_logged (sample_log level) (sample_tls v reads).
Proof. by split; [|decide_compute|]. Qed.

(** Witness of C12: a verified server that answers, and an unverified one that
    does not. *)
Lemma tls_send_verified_witness :
  ff_http_send_request_tls (sample_log FF_DEBUG) (sample_tls true sample_read) 1
    (payload_request bodied_payload) (chars "a.b") = Ok (bodied_payload, true) /\
  ff_http_send_request_tls (sample_log FF_DEBUG) (sample_tls false silent_read) 1
    (payload_request bodied_payload) (chars "a.b") = Ok ([], false).
Proof.
  split.
  - destruct (tls_send_verified (sample_log FF_DEBUG) (sample_tls true sample_read) 1
      bodied_payload (payload_request bodied_payload) (chars "a.b")) as [_ H].
    destruct (H bodied_holds (sample_tls_calls true sample_read) eq_refl) as [_ Hall].
    apply (Hall sample_reply (sample_tls_writes true sample_read) (sample_tls_reply true)
      (sample_host_logged FF_DEBUG)). lia.
  - apply (tls_send_verified (sample_log FF_DEBUG) (sample_tls false silent_read) 1
      bodied_payload (payload_request bodied_payload) (chars "a.b")).
    + exact (sample_error_logged FF_DEBUG false silent_read).
    + reflexivity.
Defined.

(** An example. *)
Lemma tls_read_retry_underflow_witness :
  ff_http_send_request_tls (sample_log FF_DEBUG) (sample_tls true retry_read) 2
    (payload_request bodied_payload) (chars "a.b") = Err OutOfBounds.
Proof.
  apply (tls_read_retry_underflow (sample_log FF_DEBUG) (sample_tls true retry_read) 0
    bodied_payload (payload_request bodied_payload) (chars "a.b") 72
    (chars "TTP/1.1 200 OK" ++ [10]) false).
  - exact bodied_holds.
  - exact (sample_tls_calls true retry_read).
  - reflexivity.
  - exact (sample_host_logged FF_DEBUG).
  - reflexivity.
  - reflexivity.
Defined.

Definition https_option (b : Z) : ff_request_option_node :=
  mk_option FF_REQUEST_OPTION_TYPE_HTTPS 1 [b].

Definition sample_send : send_env :=
  mk_send_env (sample_http sample_reply) (sample_tls true sample_read) 1 (mk_tm 120 1 29 13 37 5).

Lemma wf_https_option b : is_byte b -> wf_option (https_option b).
Proof. intros Hb. split; try done. split; [done|]. repeat constructor; apply Hb. Qed.

Definition with_options (P : list Z) (options : list ff_request_option_node) : ff_request :=
  set_options (zlen options) options (set_received_length (zlen P) (payload_request P)).

Lemma wf_with_options P options :
  bytes P -> zlen P < 65536 -> Forall wf_option options ->
  zlen options < FF_REQUEST_MAX_OPTIONS -> wf_request (with_options P options).
Proof.
  intros HP Hs Ho Hm. pose proof (zlen_nonneg P). split; try done.
  { cbn. lia. }
  eexists. split_and!; [reflexivity| | |].
  - constructor; [|constructor]. split; cbn; [lia|lia|]. split; [lia|]. by rewrite slice_full.
  - repeat constructor.
  - cbn. rewrite u64_small by lia. lia.
Qed.

(** The packet says [a], the encrypted options say [b]. *)
Definition two_options (a b : Z) : list ff_request_option_node := [https_option a; https_option b].

Lemma wf_two_options P a b :
  bytes P -> zlen P < 65536 -> is_byte a -> is_byte b ->
  wf_request (with_options P (two_options a b)).
Proof.
  intros HP Hs Ha Hb. apply wf_with_options; try done.
  constructor; [by apply wf_https_option|]. constructor; [by apply wf_https_option|constructor].
Qed.

Definition host_payload : list Z := sample_payload (chars "a.b").

Lemma host_payload_bytes : bytes host_payload.
Proof. decide_compute. Qed.

(** Witness of C28: the first option says HTTP, and HTTPS. *)
Lemma https_first_option_witness :
  snd <$> ff_http_send_request (sample_log FF_DEBUG) sample_send
            (with_options host_payload (two_options 0 1)) =
    Ok (Some (SentHttp (chars "a.b") host_payload)) /\
  snd <$> ff_http_send_request (sample_log FF_DEBUG) sample_send
            (with_options host_payload (two_options 1 0)) =
    Ok (Some (SentHttps (chars "a.b") host_payload)).
Proof.
  split.
  - rewrite (proj1 (https_first_option (sample_log FF_DEBUG) sample_send
      (with_options host_payload (two_options 0 1))
      (wf_two_options host_payload 0 1 host_payload_bytes ltac:(done) ltac:(done) ltac:(done)))).
    vm_compute. reflexivity.
  - rewrite (proj1 (https_first_option (sample_log FF_DEBUG) sample_send
      (with_options host_payload (two_options 1 0))
      (wf_two_options host_payload 1 0 host_payload_bytes ltac:(done) ltac:(done) ltac:(done)))).
    vm_compute. reflexivity.
Defined.

(** An example. *)
Lemma send_failure_is_sent_witness :
  ff_http_send_request (sample_log FF_DEBUG) sample_send
    (with_options bodied_payload (two_options 0 1)) =
    Ok (set_state FF_REQUEST_STATE_SENT (with_options bodied_payload (two_options 0 1)), None).
Proof.
  apply (send_failure_is_sent (sample_log FF_DEBUG) sample_send
    (with_options bodied_payload (two_options 0 1))).
  - by apply wf_two_options; [exact bodied_bytes|..].
  - vm_compute. reflexivity.
Defined.
