(* ===== verification/LoggingProps.v ===== *)
(** * Properties of the log

    What a call of [ff_log] prints, and when it leaves its buffers. *)

From S2P Require Import Prelude Bytes Request Strings Logging LoggingFacts Parser ParserFacts.
From S2P Require Import Reassembly Crypto CryptoFacts Http HttpFacts HttpSendFacts HttpProps.

(** ** Messages with the name of a host *)

Lemma host_chars h : Forall (fun d => is_byte d /\ is_host_char d = true) h -> c_chars h.
Proof.
  intros Hh. eapply Forall_impl; [exact Hh|]. cbn. intros d [Hb Hd]. split; [done|].
  by intros ->.
Qed.

(** C27: The log never leaves its buffers for messages of at most 254
    characters, in the years to 9999: a message below the level prints
    nothing, any other one line with the time, the level and the text.  A
    longer message is written past the end of the buffer of 255 bytes. *)
Theorem ff_log_bounds (level : Z) (nowinfo : tm) (type : Z) (message : list Z)
    (args : list printf_arg) (text : list Z) :
  year_fits nowinfo -> printf_text message args = Ok text -> c_chars text ->
  ff_log level nowinfo type message args =
    if type <? level then Ok []
    else if 254 <? zlen text then Err OutOfBounds
    else Ok (log_line nowinfo type text).
Proof. apply ff_log_text. Qed.

(** Witness of C27. *)
Lemma ff_log_bounds_witness :
  ff_log FF_INFO (mk_tm 120 1 29 13 37 5) FF_WARNING (chars "Cleaned up %u expired")
    [PInt 12] = Ok (chars "[2020-02-29 13:01:05] WARNING Cleaned up 12 expired" ++ [10]).
Proof.
  rewrite (ff_log_bounds FF_INFO (mk_tm 120 1 29 13 37 5) FF_WARNING
    (chars "Cleaned up %u expired") [PInt 12] (chars "Cleaned up 12 expired")).
  - reflexivity.
  - done.
  - reflexivity.
  - decide_compute.
Defined.

(** C30: A long host name in a request overruns the buffer of the log.  The
    search for the Host header returns names of up to 255 characters; with
    verbose logging, the messages about the lookup of a name write it into 255
    bytes together with their text, past the end for 230 characters (-vvv)
    and, when the lookup fails, for 216 (-v). *)
Theorem log_host_overflow (lines : list (list Z)) (hdr : list Z) (k : nat) (h : list Z) (c : Z)
    (rest P : list Z) (r : ff_request) (level : Z) (nowinfo : tm) :
  host_request lines hdr k h c rest P -> holds_payload P r -> year_fits nowinfo ->
  216 <= zlen h <= POSIX_HOST_NAME_MAX ->
  ff_http_get_destination_host r = Ok (Some h) /\
  (level <= FF_WARNING -> log_dns_failure level nowinfo h = Err OutOfBounds) /\
  (level <= FF_DEBUG -> 230 <= zlen h -> log_dns_lookup level nowinfo h = Err OutOfBounds).
Proof.
  intros Hr Hp Hy Hh. split; [by eapply get_destination_host_found; [| |lia]|].
  pose proof (host_chars h (hr_host _ _ _ _ _ _ _ Hr)) as Hc.
  split; intros Hl; [|intros H230].
  - apply (ff_log_overflow _ _ _ _ _ (chars "Failed to perform DNS lookup for host: " ++ h ++ []));
      [done|done| |done|].
    + repeat (apply Forall_app; split); try done. decide_compute.
    + rewrite !zlen_app. change (zlen (chars "Failed to perform DNS lookup for host: ")) with 39.
      change (zlen (@nil Z)) with 0. lia.
  - apply (ff_log_overflow _ _ _ _ _ (chars "Performing DNS lookup of " ++ h ++ []));
      [done|done| |done|].
    + repeat (apply Forall_app; split); try done. decide_compute.
    + rewrite !zlen_app. change (zlen (chars "Performing DNS lookup of ")) with 25.
      change (zlen (@nil Z)) with 0. lia.
Qed.

(** The first message ends the sending of a request over plain HTTP. *)
Lemma send_log_overflow lg env r h :
  log_dns_lookup (lg_level lg) (lg_now lg) h = Err OutOfBounds ->
  ff_http_send_request_unencrypted lg env r h = Err OutOfBounds.
Proof. unfold ff_http_send_request_unencrypted. by intros ->. Qed.

(** Witness of C30. *)
Lemma log_host_overflow_witness :
  ff_http_get_destination_host (payload_request (sample_payload (replicate 255 97))) =
    Ok (Some (replicate 255 97)) /\
  log_dns_lookup FF_DEBUG (mk_tm 120 1 29 13 37 5) (replicate 255 97) = Err OutOfBounds.
Proof.
  destruct (log_host_overflow sample_lines (chars "HoSt:") 1 (replicate 255 97) 13 [10; 13; 10]
    (sample_payload (replicate 255 97)) (payload_request (sample_payload (replicate 255 97)))
    FF_DEBUG (mk_tm 120 1 29 13 37 5)) as (H1&_&H2).
  - apply sample_request, replicate_host.
  - apply payload_request_holds; [apply sample_bytes; by apply Forall_replicate|reflexivity].
  - done.
  - done.
  - split; [exact H1|apply H2; done].
Defined.
