(* ===== verification/Server.v ===== *)
(** * The proxy server: src/server.c

    The server keeps a table from request ids to the requests being received.
    The main thread handles one packet at a time; a request that is complete
    gets a thread of its own, which decrypts it and sends it on; a further
    thread removes requests that stay incomplete.

    Requests are heap blocks: the table and the threads hold pointers to them,
    and an access to a freed request is an error.  The functions of the main
    thread and of the clean-up thread are state passing; a worker is cut into
    the stages of [ff_proxy_process_request], so that the steps of the other
    threads can come between them.  The table is any [RequestTable]. *)

From S2P Require Import Prelude Bytes HashTable HashTableSpec Request Strings Logging Config.
From S2P Require Import Parser Crypto Http.

Definition FF_PROXY_BUFF_SIZE : Z := 2000.
Definition FF_PROXY_OLD_REQUEST_THRESHOLD_SECS : Z := 60.

(** [sizeof(struct sockaddr)] *)
Definition sizeof_sockaddr : Z := 16.

(** ** State *)

(** What a worker does next. *)
Inductive stage : Type :=
  | Vectorise | Decrypt | ParseOptions | Validate | Send | Remove | Release.

#[export] Instance stage_eq_dec : EqDecision stage.
Proof. solve_decision. Defined.

(** A thread running [ff_proxy_process_request] on a request. *)
Record worker : Type := mk_worker {
  wk_request : Z;
  wk_stage : stage;
}.

Record server (T : Type) : Type := mk_server {
  sv_table : T;
  sv_heap : gmap Z ff_request;
  sv_fresh : Z;                           (* the next address *)
  sv_workers : list worker;
  sv_sent : list sent_event;              (* what was sent on, newest last *)
}.
Arguments mk_server {T} _ _ _ _ _.
Arguments sv_table {T} _.
Arguments sv_heap {T} _.
Arguments sv_fresh {T} _.
Arguments sv_workers {T} _.
Arguments sv_sent {T} _.

Section State.
Context {T : Type}.
Implicit Types st : server T.

(** The server at its start. *)
Definition initial (t : T) : server T := mk_server t ∅ 1 [] [].

Definition put_table (t : T) st : server T :=
  mk_server t (sv_heap st) (sv_fresh st) (sv_workers st) (sv_sent st).
Definition set_workers (ws : list worker) st : server T :=
  mk_server (sv_table st) (sv_heap st) (sv_fresh st) ws (sv_sent st).
Definition add_sent (ev : option sent_event) st : server T :=
  mk_server (sv_table st) (sv_heap st) (sv_fresh st) (sv_workers st)
    (sv_sent st ++ match ev with Some ev => [ev] | None => [] end).

Definition load_request (p : Z) st : res ff_request :=
  match sv_heap st !! p with Some r => Ok r | None => Err (bad_pointer p) end.
Definition store_request (p : Z) (r : ff_request) st : server T :=
  mk_server (sv_table st) (<[p := r]> (sv_heap st)) (sv_fresh st) (sv_workers st) (sv_sent st).

(** [ff_request_alloc] at a fresh address. *)
Definition new_request (r : ff_request) st : Z * server T :=
  (sv_fresh st,
   mk_server (sv_table st) (<[sv_fresh st := r]> (sv_heap st)) (sv_fresh st + 1)
     (sv_workers st) (sv_sent st)).

(** [ff_request_free] of the block at [p]. *)
Definition free_request (p : Z) st : res (server T) :=
  r ← load_request p st;
  _ ← ff_request_free r;
  Ok (mk_server (sv_table st) (delete p (sv_heap st)) (sv_fresh st) (sv_workers st) (sv_sent st)).
End State.

(** ** The main thread *)

Section Server.
Context {HO : HostOrder} {OS : OpenSSL} {T : Type} {RT : RequestTable T}.
Implicit Types st : server T.

Definition table_remove (id : Z) st : res (server T) :=
  '(_, t) ← tbl_remove id (sv_table st); Ok (put_table t st).

(** The [switch] at the end of the handler. *)
Definition switch_state (request_id p : Z) st : res (server T) :=
  r ← load_request p st;
  if rq_state r =? FF_REQUEST_STATE_RECEIVING then Ok st
  else if rq_state r =? FF_REQUEST_STATE_RECEIVING_FAIL then
    st ← (if negb (request_id =? 0) then table_remove request_id st else Ok st);
    free_request p st
  else if rq_state r =? FF_REQUEST_STATE_RECEIVED then
    Ok (set_workers (sv_workers st ++ [mk_worker p Vectorise]) st)
  else Ok st.

(** The request of the id, allocated and stored if there is none. *)
Definition find_request (request_id : Z) (src_address : list Z) (now : Z) st
    : res (Z * server T) :=
  '(p, t) ← tbl_get request_id (sv_table st);
  let st := put_table t st in
  if p =? NULL then
    source ← mem_read src_address 0 sizeof_sockaddr;
    let '(p, st) := new_request (set_source source (set_received_at now ff_request_alloc)) st in
    '(_, t) ← tbl_put request_id p (sv_table st);
    Ok (p, put_table t st)
  else Ok (p, st).

Definition ff_proxy_process_incoming_packet (src_address : list Z) (packet_buff : list Z)
    (buff_len : Z) (now : Z) st : res (server T) :=
  is_raw_http ← ff_request_is_raw_http buff_len packet_buff;
  if is_raw_http : bool then
    let '(p, st) := new_request ff_request_alloc st in
    r ← load_request p st;
    r ← ff_request_parse_chunk r buff_len packet_buff;
    switch_state 0 p (store_request p r st)
  else
    request_id ← ff_request_parse_id buff_len packet_buff;
    if request_id =? 0 then Ok st
    else
      '(p, st) ← find_request request_id src_address now st;
      r ← load_request p st;
      source ← mem_read src_address 0 sizeof_sockaddr;
      if negb (bool_decide (rq_source r = source)) then Ok st
      else
        r ← ff_request_parse_chunk r buff_len packet_buff;
        switch_state request_id p (store_request p r st).

(** *** The loop of [ff_proxy_start]

    [recvfrom] fills the start of [buffer] with a datagram, cut to its size;
    what was there before stays behind it. *)

Inductive received : Type :=
  | Datagram (src_address data : list Z) (now : Z)
  | RecvError.

(** The function returns with a code, or waits for the next datagram. *)
Inductive proxy_exit : Type :=
  | Returned (code : Z)
  | Waiting (buffer : list Z).

Definition recvfrom (buffer data : list Z) : Z * list Z :=
  let bs := take (length buffer) data in
  (zlen bs, bs ++ drop (length bs) buffer).

Fixpoint proxy_loop (packets : list received) (buffer : list Z) st : res (proxy_exit * server T) :=
  match packets with
  | [] => Ok (Waiting buffer, st)
  | RecvError :: _ => Ok (Returned 1, st)
  | Datagram src_address data now :: rest =>
      let '(recv_len, buffer) := recvfrom buffer data in
      if recv_len =? 0 then
        '(_, t) ← tbl_free (sv_table st);
        Ok (Returned 0, put_table t st)
      else
        st ← ff_proxy_process_incoming_packet src_address buffer recv_len now st;
        proxy_loop rest buffer st
  end.

(** ** Workers *)

(** The loop over the options, from the last to the first. *)
Fixpoint timestamp_loop (options : list ff_request_option_node) (timestamp : Z) : res Z :=
  match options with
  | [] => Ok timestamp
  | o :: rest =>
      if (opt_type o =? FF_REQUEST_OPTION_TYPE_TIMESTAMP) && (opt_length o =? 8) then
        timestamp ← ntohll <$> load_uint 8 (opt_value o) 0;
        timestamp_loop rest timestamp
      else timestamp_loop rest timestamp
  end.

Definition ff_proxy_validate_request_timestamp (r : ff_request) (config : ff_config) (time : Z)
    : res bool :=
  options ← visited_options r;
  timestamp ← timestamp_loop (rev options) 0;
  if timestamp =? 0 then Ok true
  else
    let now := u64 time in
    let diff := if timestamp <? now then u64 (now - timestamp) else u64 (timestamp - now) in
    Ok (diff <=? cf_timestamp_fudge_factor config).

(** One stage of [ff_proxy_process_request] on the request at [p]; [None] is
    its return. *)
Definition worker_stage (config : ff_config) (env : send_env) (time : Z) (w : worker) st
    : res (server T * option worker) :=
  let p := wk_request w in
  let next s := Some (mk_worker p s) in
  match wk_stage w with
  | Vectorise =>
      r ← load_request p st;
      r ← ff_request_vectorise_payload r;
      Ok (store_request p r st, next Decrypt)
  | Decrypt =>
      r ← load_request p st;
      r ← ff_decrypt_request r (Some (cf_encryption config));
      Ok (store_request p r st,
          next (if rq_state r =? FF_REQUEST_STATE_DECRYPTED then ParseOptions else Remove))
  | ParseOptions =>
      r ← load_request p st;
      r ← ff_request_parse_options_from_payload r;
      Ok (store_request p r st,
          next (if rq_state r =? FF_REQUEST_STATE_PARSED_OPTIONS then Validate else Remove))
  | Validate =>
      r ← load_request p st;
      valid ← ff_proxy_validate_request_timestamp r config time;
      Ok (st, next (if valid : bool then Send else Remove))
  | Send =>
      r ← load_request p st;
      '(r, ev) ← ff_http_send_request (mk_log_env (cf_logging_level config) (se_nowinfo env)) env r;
      Ok (add_sent ev (store_request p r st), next Remove)
  | Remove =>
      r ← load_request p st;
      st ← (if negb (rq_request_id r =? 0) then table_remove (rq_request_id r) st else Ok st);
      Ok (st, next Release)
  | Release =>
      st ← free_request p st;
      Ok (st, None)
  end.

(** The stages of a worker from [w] to its end, with no other thread between
    them; there are seven. *)
Fixpoint run_worker (fuel : nat) (config : ff_config) (env : send_env) (time : Z) (w : worker) st
    : res (server T) :=
  match fuel with
  | O => Err OutOfFuel
  | S fuel =>
      '(st, next) ← worker_stage config env time w st;
      match next with
      | Some w => run_worker fuel config env time w st
      | None => Ok st
      end
  end.

Definition ff_proxy_process_request (config : ff_config) (env : send_env) (time p : Z) st
    : res (server T) :=
  run_worker 7 config env time (mk_worker p Vectorise) st.

(** ** The clean-up thread *)

Definition has_expired (now : Z) (r : ff_request) : bool :=
  (rq_state r =? FF_REQUEST_STATE_RECEIVING) &&
  (FF_PROXY_OLD_REQUEST_THRESHOLD_SECS <=? now - rq_received_at r).

(** The loop over the iterator; [requests_to_remove] has room for [room]
    pointers. *)
Fixpoint expired_loop (fuel : nat) (now room : Z) (heap : gmap Z ff_request)
    (iterator : tbl_iterator) (t : T) (requests_to_remove : list Z) : res (list Z * T) :=
  match fuel with
  | O => Err OutOfFuel
  | S fuel =>
      '((p, iterator), t) ← tbl_iter_next iterator t;
      if p =? NULL then Ok (requests_to_remove, t)
      else
        match heap !! p with
        | None => Err (bad_pointer p)
        | Some r =>
            if has_expired now r then
              _ ← guard_res (bool_decide (zlen requests_to_remove < room)) OutOfBounds;
              expired_loop fuel now room heap iterator t (requests_to_remove ++ [p])
            else expired_loop fuel now room heap iterator t requests_to_remove
        end
  end.

(** The part of an iteration that holds the lock of the table. *)
Definition clean_up_scan (now : Z) st : res (list Z * server T) :=
  '(iterator, t) ← tbl_iter_init (sv_table st);
  let room := tbl_length t in
  '(requests_to_remove, t) ← expired_loop (S (Z.to_nat room)) now room (sv_heap st) iterator t [];
  '(_, t) ← tbl_iter_free t;
  Ok (requests_to_remove, put_table t st).

(** One removal of the second loop. *)
Definition clean_up_remove (p : Z) st : res (server T) :=
  r ← load_request p st;
  table_remove (rq_request_id r) st.

Fixpoint clean_up_removals (requests_to_remove : list Z) st : res (server T) :=
  match requests_to_remove with
  | [] => Ok st
  | p :: rest => st ← clean_up_remove p st; clean_up_removals rest st
  end.

(** The body of the [while (1)] loop of [ff_proxy_clean_up_old_requests_loop]. *)
Definition clean_up_old_requests (now : Z) st : res (server T) :=
  '(requests_to_remove, st) ← clean_up_scan now st;
  clean_up_removals requests_to_remove st.

End Server.
