(* ===== verification/Main.v ===== *)
(** * The programs: src/main.c, client/c/main.c, src/signals.c and the start
      of src/server.c

    The two [main] functions from the command line to their end, with the
    static variables of the program at their initial values.  The functions of
    the system are arguments.  What is printed is the output of [main] and of
    the functions of config.c; the log of the functions they call is left
    out. *)

From S2P Require Import Prelude Bytes HashTable HashTableSpec Request Strings Logging Parser.
From S2P Require Import Crypto.
From S2P Require Import Config Client ClientConfig Http Server.

Definition EXIT_SUCCESS : Z := 0.
Definition EXIT_FAILURE : Z := 1.

(** ** The start of the proxy *)

(** What the calls of [ff_proxy_start] return: the family of the address
    found, if any, and whether there was a socket and it could be bound. *)
Record proxy_env : Type := mk_proxy_env {
  pe_getaddrinfo : list Z -> list Z -> option address_family;
  pe_socket : bool;
  pe_bind : bool;
}.

(** The calls made on the socket; the results of [setsockopt] are only
    logged. *)
Inductive socket_call : Type := SetReuseAddr | SetV6Only | Bind.

Section Programs.
Context {HO : HostOrder} {OS : OpenSSL}.

(** [res] is not initialised: without an address it is read all the same.
    Returns the calls on the socket, how the function ends and the state of
    the server. *)
Definition ff_proxy_start (config : ff_config) (env : proxy_env) (packets : list received)
    : res (list socket_call * proxy_exit * server ht_state) :=
  requests ← ff_hash_table_init 16;
  let st := initial requests in
  match cf_ip_address config, cf_port config with
  | Some ip_address, Some port =>
      match pe_getaddrinfo env ip_address port with
      | None => Err Indeterminate
      | Some ai_family =>
          if negb (pe_socket env) then Ok ([], Returned EXIT_FAILURE, st)
          else
            let calls :=
              [SetReuseAddr] ++
              (if bool_decide (ai_family = AF_INET6) && cf_ipv6_v6only config
               then [SetV6Only] else []) ++
              [Bind] in
            if negb (pe_bind env) then Ok (calls, Returned EXIT_FAILURE, st)
            else
              '(ret, st) ← proxy_loop packets (malloc FF_PROXY_BUFF_SIZE) st;
              Ok (calls, ret, st)
      end
  | _, _ => Err NullDeref
  end.

(** ** [main] of the server *)

(** A process that has ended: its exit code and its output. *)
Record exited : Type := mk_exited {
  ex_code : Z;
  ex_stdout : list Z;
  ex_stderr : list Z;
}.

(** The signal handler writes the message with its NUL and calls [exit]. *)
Definition ff_sigint_handler : exited :=
  mk_exited 1 (c_block (chars "Interrupt signal received, terminating process!" ++ [10])) [].

Inductive server_run : Type :=
  | Exited (x : exited)
  | Stopped (code : Z) (st : server ht_state)    (** [ff_proxy_start] has returned *)
  | Serving (config : ff_config) (calls : list socket_call) (buffer : list Z)
      (st : server ht_state).                    (** it waits for a datagram *)

(** The last log line of [main]; the level is the initial one unless the proxy
    was started. *)
Definition exit_line (nowinfo : tm) : res (list Z) :=
  ff_log initial_log_level nowinfo FF_INFO (chars "Exiting...") [].

Definition server_main (inet_pton : address_family -> list Z -> bool) (env : proxy_env)
    (nowinfo : tm) (argv : list (list Z)) (packets : list received) : res server_run :=
  let '(action, config, err) := ff_parse_arguments inet_pton zero_config argv in
  match action with
  | FF_ACTION_START_PROXY =>
      '(calls, ret, st) ← ff_proxy_start config env packets;
      match ret with
      | Returned code => Ok (Stopped code st)
      | Waiting buffer => Ok (Serving config calls buffer st)
      end
  | FF_ACTION_PRINT_VERSION =>
      log ← exit_line nowinfo; Ok (Exited (mk_exited 0 (ff_print_version ++ log) err))
  | FF_ACTION_PRINT_USAGE =>
      log ← exit_line nowinfo; Ok (Exited (mk_exited 0 (ff_print_usage ++ log) err))
  | FF_ACTION_INVALID_ARGS =>
      log ← exit_line nowinfo; Ok (Exited (mk_exited EXIT_FAILURE log (err ++ ff_print_usage)))
  end.

(** ** [main] of the client *)

Inductive client_run : Type :=
  | ClientExited (x : exited)
  | ClientSent (sent : list (list Z)) (code : Z).

Definition client_main (argv : list (list Z)) (file : list Z) (now : Z) (rnd : client_random)
    (net : client_net) (nowinfo : tm) : res client_run :=
  let '(action, config, err) := ff_client_parse_arguments zero_client_config argv in
  match action with
  | FF_CLIENT_ACTION_MAKE_REQUEST =>
      '(sent, ret) ← ff_client_make_request config file now rnd net;
      Ok (ClientSent sent ret)
  | FF_CLIENT_ACTION_PRINT_VERSION =>
      log ← exit_line nowinfo; Ok (ClientExited (mk_exited 0 (ff_print_version ++ log) err))
  | FF_CLIENT_ACTION_PRINT_USAGE =>
      log ← exit_line nowinfo; Ok (ClientExited (mk_exited 0 (ff_client_print_usage ++ log) err))
  | FF_CLIENT_ACTION_INVALID_ARGS =>
      log ← exit_line nowinfo;
      Ok (ClientExited (mk_exited EXIT_FAILURE log (err ++ ff_client_print_usage)))
  end.
End Programs.
