(* ===== verification/ServerFacts.v ===== *)
(** * Facts about src/server.c: what the parser and the workers leave alone

    A packet and the stages of a worker keep the identity of a request: its
    id, its source, the time of its first packet. *)

From S2P Require Import Prelude Bytes HashTable HashTableSpec Request Strings Logging Config.
From S2P Require Import Parser ParserFacts Crypto.
From S2P Require Import CryptoFacts Http Server.

(** ** What a packet changes *)

Record same_identity (r r' : ff_request) : Prop := {
  si_version : rq_version r' = rq_version r;
  si_id : rq_request_id r' = rq_request_id r;
  si_source : rq_source r' = rq_source r;
  si_received_at : rq_received_at r' = rq_received_at r;
}.

(** The state after a packet. *)
Definition next_state (s s' : Z) : Prop :=
  s' = s \/ s' = FF_REQUEST_STATE_RECEIVED \/ s' = FF_REQUEST_STATE_RECEIVING_FAIL.

Lemma same_identity_trans r1 r2 r3 :
  same_identity r1 r2 -> same_identity r2 r3 -> same_identity r1 r3.
Proof. intros [] []. split; congruence. Qed.

Section Frames.
Context {HO : HostOrder}.

Lemma finish_frame (r r' : ff_request) :
  (if rq_received_length r =? rq_payload_length r
   then Ok (set_state FF_REQUEST_STATE_RECEIVED r) else Ok r) = Ok r' ->
  same_identity r r' /\ next_state (rq_state r) (rq_state r').
Proof. destruct (_ =? _); intros [= <-]; split; try done; [right; left|left]; done. Qed.

Lemma store_chunk_frame r off len i n buff r' :
  store_chunk r off len i n buff = Ok r' ->
  same_identity r r' /\ next_state (rq_state r) (rq_state r').
Proof.
  unfold store_chunk. destruct (ff_request_payload_load_buff _ _ _ _) as [node|]; [|done].
  cbn [mbind res_bind]. destruct (rq_payload r) as [[|n1 nodes]|]; [|..|done].
  - intros H. apply finish_frame in H as [H1 H2]. split; [by destruct H1|done].
  - destruct (append_node _ _).
    + intros H. apply finish_frame in H as [H1 H2]. split; [by destruct H1|done].
    + intros [= <-]. split; [done|]. right; by right.
Qed.

Lemma parse_options_frame r n buff off k r' :
  ff_request_parse_options r n buff off = Ok (k, r') ->
  same_identity r r' /\ rq_state r' = rq_state r.
Proof.
  unfold ff_request_parse_options.
  destruct (parse_options_loop _ _ _ _ _ _ _) as [[|i options contains]|]; [..|done].
  - intros [= _ <-]. done.
  - cbn [mbind res_bind]. destruct (_ =? 0); intros [= _ <-]; done.
Qed.

Lemma parse_data_chunk_frame r n buff r' :
  packet_ok n buff -> ff_request_parse_data_chunk r n buff = Ok r' ->
  same_identity r r' /\ next_state (rq_state r) (rq_state r') /\
  (rq_state r' <> FF_REQUEST_STATE_RECEIVING_FAIL ->
   rq_version r = FF_VERSION_1 /\ rq_request_id r = be_at 8 buff 2).
Proof.
  intros Hp. rewrite parse_data_chunk_eq by done.
  destruct (header_matches r n buff) eqn:Hm.
  2:{ intros [= <-]. split_and!; [done|right; by right|done]. }
  intros Ht.
  assert (same_identity r r' /\ next_state (rq_state r) (rq_state r')) as [H1 H2].
  { revert Ht. unfold data_chunk_tail. destruct (_ =? 0).
    - destruct (ff_request_parse_options _ _ _ _) as [[k r1]|] eqn:Eo; [|done].
      apply parse_options_frame in Eo as [E1 E2]. cbn [mbind res_bind].
      destruct (k =? 0); [intros [= <-]; split; [by destruct E1|right; by right]|].
      destruct (n <? _); [intros [= <-]; split; [by destruct E1|right; by right]|].
      intros Hs. apply store_chunk_frame in Hs as [S1 S2]. rewrite <- E2.
      split; [by eapply same_identity_trans|done].
    - destruct (load_byte buff 20); [|done]. cbn [mbind res_bind].
      destruct (negb _); [intros [= <-]; split; [done|right; by right]|].
      destruct (n <? _); [intros [= <-]; split; [done|right; by right]|].
      apply store_chunk_frame. }
  split_and!; [done|done|]. intros _. unfold header_matches in Hm.
  rewrite !andb_true_iff, !Z.eqb_eq in Hm. destruct Hm as [[[[[_ ?] _] ?] _] _]. done.
Qed.

(** A packet that is not raw HTTP, into a new request or one of its id. *)
Lemma parse_chunk_frame r n buff r' :
  packet_ok n buff -> ff_request_is_raw_http n buff = Ok false ->
  ff_request_parse_chunk r n buff = Ok r' ->
  rq_source r' = rq_source r /\ rq_received_at r' = rq_received_at r /\
  next_state (rq_state r) (rq_state r') /\
  (rq_state r' <> FF_REQUEST_STATE_RECEIVING_FAIL ->
   rq_version r' = FF_VERSION_1 /\ rq_request_id r' = be_at 8 buff 2).
Proof.
  intros Hp Hraw. unfold ff_request_parse_chunk. destruct (rq_version r =? 0).
  - rewrite parse_first_chunk_eq by done. rewrite Hraw. cbn [mbind res_bind].
    destruct (n <? _); [intros [= <-]; split_and!; try done; right; by right|].
    intros H. apply parse_data_chunk_frame in H as ([] & Hn & Hf); [|done].
    cbn in *. split_and!; try done. intros Hs. destruct (Hf Hs). split; congruence.
  - intros H. apply parse_data_chunk_frame in H as ([] & Hn & Hf); [|done].
    split_and!; try done. intros Hs. destruct (Hf Hs). split; congruence.
Qed.

Lemma parse_chunk_raw r n buff :
  packet_ok n buff -> ff_request_is_raw_http n buff = Ok true -> rq_version r = 0 ->
  ff_request_parse_chunk r n buff = Ok (raw_request r n buff).
Proof.
  intros Hp Hraw Hv. unfold ff_request_parse_chunk. rewrite Hv. cbn.
  rewrite parse_first_chunk_eq by done. by rewrite Hraw.
Qed.

Lemma parse_id_ok n buff :
  ff_request_is_raw_http n buff = Ok false -> readable 8 buff 2 ->
  ff_request_parse_id n buff = Ok (be_at 8 buff 2).
Proof.
  intros Hraw Hr. unfold ff_request_parse_id. rewrite Hraw. cbn [mbind res_bind].
  by apply load_ntohll.
Qed.

(** ** What the stages of a worker change *)

(** A worker keeps the id of its request and does not make it one that is
    being received. *)
Definition worker_keeps (r r' : ff_request) : Prop :=
  rq_request_id r' = rq_request_id r /\
  (rq_state r <> FF_REQUEST_STATE_RECEIVING -> rq_state r' <> FF_REQUEST_STATE_RECEIVING).

Lemma vectorise_keeps r r' :
  ff_request_vectorise_payload r = Ok r' -> worker_keeps r r'.
Proof.
  unfold ff_request_vectorise_payload. destruct (rq_payload r) as [[|n1 [|n2 ns]]|]; try done.
  - by intros [= <-].
  - destruct (vectorise_loop _ _); [|done]. by intros [= <-].
Qed.

Lemma parse_options_from_payload_keeps r r' :
  ff_request_parse_options_from_payload r = Ok r' -> worker_keeps r r'.
Proof.
  unfold worker_keeps, ff_request_parse_options_from_payload.
  destruct (rq_payload r) as [[|n1 [|n2 ns]]|]; try done.
  destruct (negb _); [by intros [= <-]|].
  destruct (ff_request_parse_options _ _ _ _) as [[k r1]|] eqn:Eo; [|done].
  apply parse_options_frame in Eo as [[_ Hid _ _] _]. cbn [mbind res_bind].
  change (rq_request_id (set_state _ r)) with (rq_request_id r) in Hid. rewrite <- Hid.
  destruct (k =? 0); [by intros [= <-]|]. destruct (_ <=? k); [by intros [= <-]|].
  destruct (rq_payload_contains_options r1); [by intros [= <-]|].
  destruct (ff_request_payload_load_buff _ _ _ _); [|done]. by intros [= <-].
Qed.

Lemma send_request_keeps lg env r r' ev :
  ff_http_send_request lg env r = Ok (r', ev) -> worker_keeps r r'.
Proof.
  unfold ff_http_send_request, send_over. intros (options&_&(https&_&H)%bind_ok)%bind_ok.
  apply bind_ok in H as ([h|]&_&(_&_&H)%bind_ok); [|by injection H as <- _].
  apply bind_ok in H as ([ev1 []]&_&[= <- _]); done.
Qed.

Section Decrypt.
Context {OS : OpenSSL}.

Lemma try_bind_some {A B} (m : res (option A)) (f : A -> res (option B)) b :
  try_bind m f = Ok (Some b) <-> exists a, m = Ok (Some a) /\ f a = Ok (Some b).
Proof. unfold try_bind. destruct m as [[a|]|]; cbn; naive_solver. Qed.

Lemma decrypt_aes_id r config iv n tag k r' :
  ff_decrypt_request_aes_256_gcm r config iv n tag k = Ok (Some r') ->
  rq_request_id r' = rq_request_id r.
Proof.
  unfold ff_decrypt_request_aes_256_gcm. intros H.
  do 5 (apply try_bind_some in H as (?&_&H)).
  destruct (rq_payload r) as [[|n1 ns]|]; [done| |done].
  apply try_bind_some in H as ([[c1 b1] l1]&_&H).
  do 2 (apply try_bind_some in H as (?&_&H)).
  destruct (mem_write _ _ _); [|done]. by injection H as <-.
Qed.

Lemma decrypt_keeps r config r' :
  ff_decrypt_request r config = Ok r' -> worker_keeps r r'.
Proof.
  unfold ff_decrypt_request. destruct (visited_options _); [|done]. cbn [mbind res_bind].
  destruct (crypto_options_loop _ _) as [c|]; [|done]. cbn [mbind res_bind].
  destruct (co_mode c =? 0); [case_match; by intros [= <-]|].
  destruct (match config with Some _ => _ | None => _ end) as [cf|]; [|by intros [= <-]].
  destruct (co_iv c); [|by intros [= <-]]. destruct (_ =? 0); [by intros [= <-]|].
  destruct (co_tag c); [|by intros [= <-]]. destruct (_ =? 0); [by intros [= <-]|].
  destruct (_ =? _); [|by intros [= <-]].
  destruct (ff_decrypt_request_aes_256_gcm _ _ _ _ _ _) as [[r1|]|] eqn:E; [| |done];
    cbn [mbind res_bind]; intros [= <-]; [|done].
  apply decrypt_aes_id in E. by split.
Qed.
End Decrypt.
End Frames.
