(* ===== verification/ServerInv.v ===== *)
(** * The invariant of the server

    Who owns a request: the table and the main thread while it is received,
    then one worker.  The invariant is proved for every step of the three
    kinds of threads, against the interface of the table. *)

From S2P Require Import Prelude Bytes HashTable HashTableOps HashTableUpdate HashTableSpec.
From S2P Require Import Request Strings Logging Config Parser ParserFacts Crypto CryptoFacts Http.
From S2P Require Import Server ServerFacts.

(** ** Association lists *)

Lemma assoc_get_in id A :
  Forall (fun kv => kv.2 <> NULL) A ->
  assoc_get id A <> NULL /\ (id, assoc_get id A) ∈ A \/ assoc_get id A = NULL /\ id ∉ A.*1.
Proof.
  induction 1 as [|[k v] A Hv _ IH]; cbn [assoc_get]; [right; split; [done|set_solver]|].
  destruct (Z.eqb_spec k id) as [->|Hk]; [left; split; [done|left]|].
  destruct IH as [[? ?]|[? ?]]; [left; split; [done|by right]|right; split; [done|]].
  cbn. set_solver.
Qed.

Lemma assoc_put_new id v A : id ∉ A.*1 -> assoc_put id v A = A ++ [(id, v)].
Proof. intros H. unfold assoc_put. by rewrite bool_decide_false. Qed.

Lemma assoc_remove_in k v id A :
  (k, v) ∈ assoc_remove id A <-> k <> id /\ (k, v) ∈ A.
Proof. unfold assoc_remove. rewrite list_elem_of_filter. done. Qed.

Lemma NoDup_snd_remove id A : NoDup A.*2 -> NoDup (assoc_remove id A).*2.
Proof.
  unfold assoc_remove. induction A as [|[k v] A IH]; [done|]. rewrite fmap_cons.
  intros [Hv HA]%NoDup_cons. rewrite filter_cons. destruct (decide _); [|by apply IH].
  rewrite fmap_cons. constructor; [|by apply IH]. intros ([k' v']&E&[_ Hin]%list_elem_of_filter)%list_elem_of_fmap.
  cbn in E. subst v'. apply Hv. by apply (list_elem_of_fmap_2 snd _ (k', v)).
Qed.

(** ** The invariant *)

Section Invariant.
Context {HO : HostOrder} {OS : OpenSSL} {T : Type} {RT : RequestTable T} {RL : RequestTableLaws T}.
Implicit Types (st : server T) (A : list (Z * Z)).

Definition in_flight st (p : Z) : Prop := p ∈ wk_request <$> sv_workers st.

(** A request that is being received under the id [k]; [new] holds between its
    allocation and its first packet. *)
Record entry_ok (k : Z) (new : Prop) (r : ff_request) : Prop := {
  eo_wf : wf_request r;
  eo_state : rq_state r = FF_REQUEST_STATE_RECEIVING;
  eo_version : rq_version r = FF_VERSION_1 /\ rq_request_id r = k \/ new /\ rq_version r = 0;
}.

(** [A] is the table, [q] the request the main thread has just allocated
    ([NULL] between two packets), [pending] the pointers the clean-up thread
    has still to remove. *)
Record server_inv (q : Z) A (pending : list Z) st : Prop := {
  sv_rep : tbl_rep A (sv_table st);
  sv_fresh_pos : 0 < sv_fresh st;
  sv_range p r : sv_heap st !! p = Some r -> 0 < p < sv_fresh st;
  sv_values : NoDup A.*2;
  sv_entry k p : (k, p) ∈ A -> k <> 0 /\ exists r, sv_heap st !! p = Some r /\
    (in_flight st p -> rq_request_id r = k) /\
    (~ in_flight st p -> entry_ok k (p = q) r);
  sv_owned : NoDup (wk_request <$> sv_workers st);
  sv_live w : w ∈ sv_workers st -> exists r, sv_heap st !! wk_request w = Some r /\
    rq_state r <> FF_REQUEST_STATE_RECEIVING;
  sv_released w : w ∈ sv_workers st -> wk_stage w = Release -> wk_request w ∉ A.*2;
  sv_pending p : p ∈ pending -> ~ in_flight st p /\ is_Some (sv_heap st !! p);
}.

Lemma inv_nonnull q A pending st :
  server_inv q A pending st -> Forall (fun kv => kv.2 <> NULL) A.
Proof.
  intros H. apply Forall_forall. intros [k p] Hin. destruct (sv_entry _ _ _ _ H k p Hin) as (_&r&Hr&_).
  apply (sv_range _ _ _ _ H) in Hr. cbn. unfold NULL. lia.
Qed.

Lemma inv_key q A pending st k k' p :
  server_inv q A pending st -> (k, p) ∈ A -> (k', p) ∈ A -> k = k'.
Proof.
  intros H H1 H2. pose proof (sv_values _ _ _ _ H) as Hnd.
  apply list_elem_of_lookup in H1 as [i Hi]. apply list_elem_of_lookup in H2 as [j Hj].
  assert (i = j) as ->; [|congruence].
  eapply (NoDup_lookup A.*2 i j p); [done|..]; by rewrite list_lookup_fmap, ?Hi, ?Hj.
Qed.

Lemma inv_in_flight_live q A pending st p :
  server_inv q A pending st -> in_flight st p -> exists r, sv_heap st !! p = Some r /\
    rq_state r <> FF_REQUEST_STATE_RECEIVING.
Proof.
  intros H (w&->&Hw)%list_elem_of_fmap. by apply (sv_live _ _ _ _ H).
Qed.

(** *** Removal of an id *)

Lemma table_remove_ok A id st :
  tbl_rep A (sv_table st) ->
  exists t, table_remove id st = Ok (put_table t st) /\ tbl_rep (assoc_remove id A) t.
Proof.
  intros H. unfold table_remove. destruct (tbl_remove_ok A (sv_table st) id H) as (t&->&Ht).
  by exists t.
Qed.

Lemma inv_remove q A pending st id t :
  server_inv q A pending st -> tbl_rep (assoc_remove id A) t ->
  server_inv q (assoc_remove id A) pending (put_table t st).
Proof.
  intros H Ht. destruct H as [Hrep Hf Hr Hv He Ho Hl Hrel Hp]. split; try done.
  - by apply NoDup_snd_remove.
  - intros k p [_ Hin]%assoc_remove_in. by apply He.
  - intros w Hw Hs Hin. apply (Hrel w Hw Hs).
    apply list_elem_of_fmap in Hin as ([k p]&->&[_ Hin]%assoc_remove_in).
    by apply (list_elem_of_fmap_2 snd _ (k, p)).
Qed.

(** *** Changing a request *)

Lemma load_store p r st : load_request p (store_request p r st) = Ok r.
Proof. unfold load_request. cbn. by rewrite lookup_insert_eq. Qed.

(** A worker changes its request and keeps the id. *)
Lemma inv_store_in_flight q A pending st p r r' :
  server_inv q A pending st -> in_flight st p -> sv_heap st !! p = Some r ->
  worker_keeps r r' -> server_inv q A pending (store_request p r' st).
Proof.
  intros H Hfl Hr [Hid Hns].
  assert (rq_state r' <> FF_REQUEST_STATE_RECEIVING) as Hst.
  { apply Hns. destruct (inv_in_flight_live _ _ _ _ _ H Hfl) as (r1&?&?). congruence. }
  destruct H as [Hrep Hf Hra Hv He Ho Hl Hrel Hp]. split; try done; cbn.
  - intros p' r1 H1. destruct (decide (p = p')) as [->|Hne]; [by eapply Hra|].
    rewrite lookup_insert_ne in H1 by done. by eapply Hra.
  - intros k p' Hin. destruct (He k p' Hin) as (Hk&r1&H1&H2&H3). split; [done|].
    destruct (decide (p = p')) as [<-|Hne].
    + exists r'. rewrite lookup_insert_eq. assert (r1 = r) as -> by congruence.
      split_and!; [done|intros _; rewrite Hid; by apply H2|by intros []].
    + exists r1. by rewrite lookup_insert_ne.
  - intros w Hw. destruct (Hl w Hw) as (r1&H1&Hs1). destruct (decide (p = wk_request w)) as [<-|Hne].
    + exists r'. by rewrite lookup_insert_eq.
    + exists r1. by rewrite lookup_insert_ne.
  - intros p' Hin. destruct (Hp p' Hin) as [H1 H2]. split; [done|].
    destruct (decide (p = p')) as [->|Hne]; [by rewrite lookup_insert_eq|by rewrite lookup_insert_ne].
Qed.

(** The main thread changes the request it receives. *)
Lemma inv_store_entry q A pending st k p r' :
  server_inv q A pending st -> (k, p) ∈ A -> ~ in_flight st p ->
  entry_ok k (p = NULL) r' -> (q = NULL \/ q = p) ->
  server_inv NULL A pending (store_request p r' st).
Proof.
  intros H Hkp Hfl Hok Hq.
  assert (exists r, sv_heap st !! p = Some r) as [r Hr].
  { destruct (sv_entry _ _ _ _ H k p Hkp) as (_&r&Hr&_). eauto. }
  pose proof (fun k' p' => inv_key _ _ _ _ k k' p' H) as Hkey.
  destruct (H) as [Hrep Hf Hra Hv He Ho Hl Hrel Hp]. split; try done; cbn.
  - intros p' r1 H1. destruct (decide (p = p')) as [->|Hne]; [by eapply Hra|].
    rewrite lookup_insert_ne in H1 by done. by eapply Hra.
  - intros k' p' Hin. destruct (He k' p' Hin) as (Hk&r1&H1&H2&H3). split; [done|].
    destruct (decide (p = p')) as [<-|Hne].
    + exists r'. rewrite lookup_insert_eq. by rewrite <- (Hkey k' p Hkp Hin).
    + exists r1. rewrite lookup_insert_ne by done. split_and!; [done|done|]. intros Hn.
      destruct (H3 Hn) as [W S [V|[-> V]]]; split; try done; [by left|].
      destruct Hq as [->| ->]; [|done]. apply Hra in H1. unfold NULL in H1. lia.
  - intros w Hw. destruct (Hl w Hw) as (r1&H1&Hs1). exists r1.
    rewrite lookup_insert_ne; [done|]. intros ->. apply Hfl. by apply list_elem_of_fmap_2.
  - intros p' Hin. destruct (Hp p' Hin) as [H1 H2]. split; [done|].
    destruct (decide (p = p')) as [->|Hne]; [by rewrite lookup_insert_eq|by rewrite lookup_insert_ne].
Qed.

(** The request is complete: a worker takes it over. *)
Lemma inv_start q A pending st k p r' :
  server_inv q A pending st -> (k, p) ∈ A -> ~ in_flight st p -> p ∉ pending ->
  rq_request_id r' = k -> rq_state r' <> FF_REQUEST_STATE_RECEIVING -> (q = NULL \/ q = p) ->
  server_inv NULL A pending
    (set_workers (sv_workers st ++ [mk_worker p Vectorise]) (store_request p r' st)).
Proof.
  intros H Hkp Hfl Hnp Hid Hst Hq.
  pose proof (fun k' p' => inv_key _ _ _ _ k k' p' H) as Hkey.
  assert (exists r, sv_heap st !! p = Some r) as [r Hr].
  { destruct (sv_entry _ _ _ _ H k p Hkp) as (_&r&Hr&_). eauto. }
  destruct (H) as [Hrep Hf Hra Hv He Ho Hl Hrel Hp]. split; try done; cbn.
  - intros p' r1 H1. destruct (decide (p = p')) as [->|Hne]; [by eapply Hra|].
    rewrite lookup_insert_ne in H1 by done. by eapply Hra.
  - intros k' p' Hin. destruct (He k' p' Hin) as (Hk&r1&H1&H2&H3). split; [done|].
    unfold in_flight. cbn [sv_workers set_workers].
    destruct (decide (p = p')) as [<-|Hne].
    + exists r'. rewrite lookup_insert_eq. split_and!; [done|intros _|intros Hn; exfalso; apply Hn].
      * rewrite Hid. by apply (Hkey k' p).
      * rewrite fmap_app. set_solver.
    + exists r1. rewrite lookup_insert_ne by done. rewrite fmap_app. split_and!; [done|..].
      * intros [Hin'|Hin']%elem_of_app; [by apply H2|]. cbn in Hin'. set_solver.
      * intros Hn. assert (~ in_flight st p') as Hn' by (unfold in_flight; set_solver).
        destruct (H3 Hn') as [W S [V|[-> V]]]; split; try done; [by left|].
        destruct Hq as [->| ->]; [|done]. apply Hra in H1. unfold NULL in H1. lia.
  - rewrite fmap_app. apply NoDup_app. split_and!; [done|..|cbn; apply NoDup_singleton].
    intros x Hx Hx'. cbn in Hx'. apply list_elem_of_singleton in Hx' as ->. by apply Hfl.
  - intros w [Hw|Hw]%elem_of_app.
    + destruct (Hl w Hw) as (r1&H1&Hs1). exists r1.
      rewrite lookup_insert_ne; [done|]. intros ->. apply Hfl. by apply list_elem_of_fmap_2.
    + apply list_elem_of_singleton in Hw as ->. exists r'. cbn. by rewrite lookup_insert_eq.
  - intros w [Hw|Hw]%elem_of_app; [by apply Hrel|]. by apply list_elem_of_singleton in Hw as ->.
  - intros p' Hin. destruct (Hp p' Hin) as [H1 H2]. assert (p <> p') as Hne by (by intros ->).
    rewrite lookup_insert_ne by done. split; [|done]. unfold in_flight in *.
    cbn [sv_workers set_workers]. rewrite fmap_app. cbn. set_solver.
Qed.

(** The request is dropped: its id is not in the table any more. *)
Lemma inv_drop q A A' pending st p t :
  server_inv q A pending st -> ~ in_flight st p -> p ∉ pending -> (q = NULL \/ q = p) ->
  tbl_rep A' t -> NoDup A'.*2 ->
  (forall k p', (k, p') ∈ A' -> (k, p') ∈ A /\ p' <> p) ->
  server_inv NULL A' pending
    (mk_server t (delete p (sv_heap st)) (sv_fresh st) (sv_workers st) (sv_sent st)).
Proof.
  intros H Hfl Hnp Hq Ht Hnd Hsub. destruct (H) as [Hrep Hf Hra Hv He Ho Hl Hrel Hp].
  split; try done; cbn.
  - intros p' r1 [_ H1]%lookup_delete_Some. by eapply Hra.
  - intros k p' [Hin Hne]%Hsub. destruct (He k p' Hin) as (Hk&r1&H1&H2&H3). split; [done|].
    exists r1. rewrite lookup_delete_ne by done. split_and!; [done|done|]. intros Hn.
    destruct (H3 Hn) as [W S [V|[-> V]]]; split; try done; [by left|].
    destruct Hq as [->| ->]; [|done]. apply Hra in H1. unfold NULL in H1. lia.
  - intros w Hw. destruct (Hl w Hw) as (r1&H1&Hs1). exists r1. rewrite lookup_delete_ne; [done|].
    intros ->. apply Hfl. by apply list_elem_of_fmap_2.
  - intros w Hw Hs Hin. apply (Hrel w Hw Hs).
    apply list_elem_of_fmap in Hin as ([k p']&->&[Hin _]%Hsub).
    by apply (list_elem_of_fmap_2 snd _ (k, p')).
  - intros p' Hin. destruct (Hp p' Hin) as [H1 H2]. split; [done|].
    rewrite lookup_delete_ne; [done|]. by intros ->.
Qed.
End Invariant.
