(* ===== verification/ServerSteps.v ===== *)
(** * The steps of the server keep its invariant

    And the steps of the main thread and of the clean-up thread do not fault
    in a state that satisfies it. *)

From S2P Require Import Prelude Bytes HashTable HashTableOps HashTableUpdate HashTableSpec.
From S2P Require Import Request Strings Logging Config Parser ParserFacts Crypto CryptoFacts Http.
From S2P Require Import Server ServerFacts.
From S2P Require Import ServerInv.

Section Steps.
Context {HO : HostOrder} {OS : OpenSSL} {T : Type} {RT : RequestTable T} {RL : RequestTableLaws T}.
Implicit Types (st : server T) (A : list (Z * Z)).

(** ** A packet *)

(** A received packet: its bytes, an id that can be read, and its source. *)
Record packet_in (n : Z) (buff src : list Z) : Prop := {
  pi_packet : packet_ok n buff;
  pi_readable : ff_request_is_raw_http n buff = Ok false -> readable 8 buff 2;
  pi_src : sizeof_sockaddr <= zlen src;
}.

(** The request of the id of the packet, if there is one, is held neither by a
    worker nor by the clean-up thread, which has still to remove [pending]. *)
Definition undisturbed (pending : list Z) st (n : Z) (buff : list Z) : Prop :=
  ff_request_is_raw_http n buff = Ok false ->
  forall p t, tbl_get (be_at 8 buff 2) (sv_table st) = Ok (p, t) ->
    ~ in_flight st p /\ p ∉ pending.

(** A request allocated and put into the table. *)
Lemma inv_new A pending st id src r t :
  server_inv NULL A pending st -> id <> 0 -> id ∉ A.*1 ->
  r = set_source (slice src 0 sizeof_sockaddr) (set_received_at (rq_received_at r) ff_request_alloc) ->
  tbl_rep (A ++ [(id, sv_fresh st)]) t ->
  let st1 := put_table t (snd (new_request r st)) in
  server_inv (sv_fresh st) (A ++ [(id, sv_fresh st)]) pending st1 /\
  ~ in_flight st1 (sv_fresh st) /\ (sv_fresh st ∉ pending) /\
  sv_heap st1 !! sv_fresh st = Some r /\
  entry_ok id (sv_fresh st = sv_fresh st) r.
Proof.
  intros H Hid Hnin Hr Ht st1. destruct (H) as [Hrep Hf Hra Hv He Ho Hl Hrel Hp].
  assert (~ in_flight st1 (sv_fresh st)) as Hnf.
  { intros (r1&H1&_)%(inv_in_flight_live _ _ _ _ _ H). apply Hra in H1. lia. }
  assert (entry_ok id (sv_fresh st = sv_fresh st) r) as Hok.
  { rewrite Hr. split; [|done|by right].
    apply wf_set_source, wf_set_received_at, wf_request_alloc. }
  assert (forall p r1, sv_heap st !! p = Some r1 -> sv_fresh st <> p) as Hlt.
  { intros p r1 H1%Hra. lia. }
  assert (sv_fresh st ∉ pending) as Hnp by (intros [_ [r1 H1%Hlt]]%Hp; done).
  split_and!; [|done|done|cbn; by rewrite lookup_insert_eq|done]. split; try done; cbn.
  - lia.
  - intros p r1. destruct (decide (sv_fresh st = p)) as [<-|Hne]; [lia|].
    rewrite lookup_insert_ne by done. intros H1%Hra. lia.
  - rewrite fmap_app. apply NoDup_app. split_and!; [done| |apply NoDup_singleton].
    intros x ([k p]&->&Hin)%list_elem_of_fmap Hx. cbn in Hx. apply list_elem_of_singleton in Hx.
    destruct (He k p Hin) as (_&r1&H1&_). cbn in Hx. by apply (Hlt _ _ H1).
  - intros k p [Hin|Hin]%elem_of_app.
    + destruct (He k p Hin) as (Hk&r1&H1&H2&H3). split; [done|]. exists r1.
      rewrite lookup_insert_ne by (by eapply Hlt). split_and!; [done|done|].
      intros Hn. destruct (H3 Hn) as [W S [V|[-> V]]]; split; try done; [by left|].
      apply Hra in H1. unfold NULL in H1. lia.
    + apply list_elem_of_singleton in Hin. injection Hin as -> ->. split; [done|]. exists r.
      rewrite lookup_insert_eq. split_and!; [done|by intros ?%Hnf|done].
  - intros w Hw. destruct (Hl w Hw) as (r1&H1&Hs1). exists r1.
    rewrite lookup_insert_ne by (by eapply Hlt). done.
  - intros w Hw Hs. rewrite fmap_app. intros [Hin|Hin]%elem_of_app; [by apply (Hrel w Hw Hs)|].
    cbn in Hin. apply list_elem_of_singleton in Hin. destruct (Hl w Hw) as (r1&H1&Hs1).
    rewrite Hin in H1. apply Hra in H1. lia.
  - intros p Hin. destruct (Hp p Hin) as [H1 H2]. split; [done|].
    rewrite lookup_insert_ne; [done|]. intros E. by rewrite E in Hnp.
Qed.

Lemma set_table_id t st : sv_table st = t -> put_table t st = st.
Proof. destruct st. cbn. by intros ->. Qed.

Lemma find_request_ok A pending st id src now :
  server_inv NULL A pending st -> id <> 0 -> sizeof_sockaddr <= zlen src ->
  ~ in_flight st (assoc_get id A) -> assoc_get id A ∉ pending ->
  exists q p r st1 A1, find_request id src now st = Ok (p, st1) /\
    server_inv q A1 pending st1 /\
    (q = NULL \/ q = p /\ rq_source r = slice src 0 sizeof_sockaddr) /\ (id, p) ∈ A1 /\
    ~ in_flight st1 p /\ (p ∉ pending) /\
    sv_heap st1 !! p = Some r /\ entry_ok id (p = q) r /\ sv_workers st1 = sv_workers st.
Proof.
  intros H Hid Hsrc Hnf Hnp. unfold find_request.
  rewrite (tbl_get_ok A _ id (sv_rep _ _ _ _ H)). cbn [mbind res_bind].
  rewrite (set_table_id (sv_table st) st) by done.
  destruct (assoc_get_in id A (inv_nonnull _ _ _ _ H)) as [[Hne Hin]|[-> Hnin]].
  - rewrite (proj2 (Z.eqb_neq _ _)) by done.
    destruct (sv_entry _ _ _ _ H _ _ Hin) as (_&r&Hr&_&Hok). specialize (Hok Hnf).
    exists NULL, (assoc_get id A), r, st, A. split_and!; try done. by left.
  - cbn [Z.eqb NULL]. unfold NULL at 1. cbn [Z.eqb].
    rewrite mem_read_slice by (unfold sizeof_sockaddr in *; lia). cbn [mbind res_bind].
    unfold new_request at 1.
    destruct (tbl_put_ok A (sv_table st) id (sv_fresh st) (sv_rep _ _ _ _ H)) as (t&Hput&Ht).
    cbn [sv_table]. rewrite Hput. cbn [mbind res_bind]. rewrite assoc_put_new in Ht by done.
    destruct (inv_new A pending st id src
      (set_source (slice src 0 sizeof_sockaddr) (set_received_at now ff_request_alloc)) t)
      as (Hi&Hn&Hnew&Hr&Hok); try done.
    eexists (sv_fresh st), (sv_fresh st),
      (set_source (slice src 0 sizeof_sockaddr) (set_received_at now ff_request_alloc)),
      _, (A ++ [(id, sv_fresh st)]).
    split_and!; [reflexivity|exact Hi|by right| |exact Hn|done|exact Hr|exact Hok|done].
    set_solver.
Qed.

(** *** The end of the handler *)

Lemma free_request_ok p r st :
  sv_heap st !! p = Some r -> wf_request r ->
  free_request p st =
    Ok (mk_server (sv_table st) (delete p (sv_heap st)) (sv_fresh st) (sv_workers st) (sv_sent st)).
Proof.
  intros Hr [Hl _ _ _ (nodes&Hn&_)]. unfold free_request, load_request. rewrite Hr.
  cbn [mbind res_bind]. unfold ff_request_free. rewrite Hl, bool_decide_true by lia.
  cbn [mbind res_bind guard_res]. by rewrite Hn.
Qed.

(** What the [switch] does with the request [r'] the parser left. *)
Lemma switch_state_ok q A pending st id p r' :
  server_inv q A pending st -> (q = NULL \/ q = p) -> (id, p) ∈ A -> ~ in_flight st p ->
  p ∉ pending ->
  wf_request r' ->
  next_state FF_REQUEST_STATE_RECEIVING (rq_state r') ->
  (rq_state r' <> FF_REQUEST_STATE_RECEIVING_FAIL ->
   rq_version r' = FF_VERSION_1 /\ rq_request_id r' = id) ->
  exists st' A', switch_state id p (store_request p r' st) = Ok st' /\
    server_inv NULL A' pending st'.
Proof.
  intros H Hq Hin Hnf Hnp Hwf Hst Hid. unfold switch_state. rewrite load_store. cbn [mbind res_bind].
  destruct Hst as [E|[E|E]]; rewrite E in *; cbn [Z.eqb Pos.eqb].
  - eexists _, A. split; [done|]. eapply inv_store_entry; try done.
    destruct Hid; [done|]. split; [done|done|by left].
  - eexists _, A. split; [done|]. eapply (inv_start q A pending st id p r'); try done; [by apply Hid|by rewrite E].
  - destruct (sv_entry _ _ _ _ H _ _ Hin) as (Hid0&r&Hr&_).
    rewrite (proj2 (Z.eqb_neq id 0)) by done. cbn [negb].
    destruct (table_remove_ok A id (store_request p r' st) (sv_rep _ _ _ _ H)) as (t&Hrm&Ht).
    cbn [FF_REQUEST_STATE_RECEIVING_FAIL FF_REQUEST_STATE_RECEIVING Z.eqb Pos.eqb].
    change (FF_REQUEST_STATE_RECEIVING_FAIL =? FF_REQUEST_STATE_RECEIVING) with false.
    change (FF_REQUEST_STATE_RECEIVING_FAIL =? FF_REQUEST_STATE_RECEIVING_FAIL) with true.
    cbv iota. rewrite Hrm. cbn [mbind res_bind].
    rewrite (free_request_ok p r') by (done || apply lookup_insert_eq).
    eexists _, (assoc_remove id A). split; [done|].
    cbn [sv_table put_table sv_heap store_request sv_fresh sv_workers sv_sent].
    rewrite delete_insert_eq.
    apply (inv_drop q A); try done; [apply NoDup_snd_remove; apply H|].
    intros k p' [Hk Hin']%assoc_remove_in. split; [done|]. intros ->. apply Hk.
    by eapply inv_key.
Qed.

Lemma raw_packet_ok A pending st n buff :
  server_inv NULL A pending st -> packet_ok n buff ->
  let st1 := snd (new_request ff_request_alloc st) in
  server_inv NULL A pending
    (set_workers (sv_workers st ++ [mk_worker (sv_fresh st) Vectorise])
       (store_request (sv_fresh st) (raw_request ff_request_alloc n buff) st1)).
Proof.
  intros H Hp st1. destruct (H) as [Hrep Hf Hra Hv He Ho Hl Hrel Hpd].
  assert (forall p r1, sv_heap st !! p = Some r1 -> sv_fresh st <> p) as Hlt.
  { intros p r1 H1%Hra. lia. }
  split; try done; cbn; rewrite ?insert_insert_eq.
  - lia.
  - intros p r1. destruct (decide (sv_fresh st = p)) as [<-|Hne]; [lia|].
    rewrite lookup_insert_ne by done. intros H1%Hra. lia.
  - intros k p Hin. destruct (He k p Hin) as (Hk&r1&H1&H2&H3). split; [done|]. exists r1.
    rewrite lookup_insert_ne by (by eapply Hlt). unfold in_flight. cbn [sv_workers set_workers].
    rewrite fmap_app. cbn. pose proof (Hlt _ _ H1). unfold in_flight in *.
    split_and!; [done|intros ?; apply H2|intros ?; apply H3]; set_solver.
  - rewrite fmap_app. apply NoDup_app. split_and!; [done| |apply NoDup_singleton].
    intros x (w&->&Hw)%list_elem_of_fmap Hx. cbn in Hx. apply list_elem_of_singleton in Hx.
    destruct (Hl w Hw) as (r1&H1&Hs1). by apply (Hlt _ _ H1).
  - intros w [Hw|Hw]%elem_of_app.
    + destruct (Hl w Hw) as (r1&H1&Hs1). exists r1. by rewrite lookup_insert_ne by (by eapply Hlt).
    + apply list_elem_of_singleton in Hw as ->. eexists. cbn. by rewrite lookup_insert_eq.
  - intros w [Hw|Hw]%elem_of_app; [by apply Hrel|]. by apply list_elem_of_singleton in Hw as ->.
  - intros p Hin. destruct (Hpd p Hin) as [H1 [r1 H2]]. pose proof (Hlt _ _ H2).
    rewrite lookup_insert_ne by done. split; [|by exists r1]. unfold in_flight in *.
    cbn [sv_workers set_workers]. rewrite fmap_app. cbn. set_solver.
Qed.

Lemma incoming_packet_ok A pending st n buff src now :
  server_inv NULL A pending st -> packet_in n buff src -> undisturbed pending st n buff ->
  exists st' A', ff_proxy_process_incoming_packet src buff n now st = Ok st' /\
    server_inv NULL A' pending st'.
Proof.
  intros H [Hp Hid Hsrc] Hq. unfold ff_proxy_process_incoming_packet.
  destruct (is_raw_http_total n buff Hp) as [raw Hraw]. rewrite Hraw. cbn [mbind res_bind].
  destruct raw.
  - unfold new_request. unfold load_request. cbn [sv_heap]. rewrite lookup_insert_eq.
    cbn [mbind res_bind]. rewrite parse_chunk_raw by done. cbn [mbind res_bind].
    unfold switch_state. rewrite load_store. cbn [mbind res_bind].
    eexists _, A. split; [reflexivity|]. exact (raw_packet_ok A pending st n buff H Hp).
  - rewrite parse_id_ok by auto. cbn [mbind res_bind].
    destruct (Z.eqb_spec (be_at 8 buff 2) 0) as [|Hid0]; [by exists st, A|].
    assert (~ in_flight st (assoc_get (be_at 8 buff 2) A) /\
            assoc_get (be_at 8 buff 2) A ∉ pending) as [Hnf Hnp].
    { eapply (Hq Hraw). by rewrite (tbl_get_ok A _ _ (sv_rep _ _ _ _ H)). }
    destruct (find_request_ok A pending st (be_at 8 buff 2) src now H Hid0 Hsrc Hnf Hnp)
      as (q&p&r&st1&A1&Hfind&H1&Hqp&Hin&Hnf1&Hnp1&Hr&Hok&Hws).
    rewrite Hfind. cbn [mbind res_bind]. unfold load_request. rewrite Hr. cbn [mbind res_bind].
    rewrite mem_read_slice by (unfold sizeof_sockaddr in *; lia). cbn [mbind res_bind].
    case_bool_decide as Hs; cbn [negb].
    + destruct (parse_chunk_wf r n buff (eo_wf _ _ _ Hok) Hp) as (r'&Hr'&Hwf').
      rewrite Hr'. cbn [mbind res_bind].
      destruct (parse_chunk_frame r n buff r' Hp Hraw Hr') as (_&_&Hns&Hid').
      rewrite (eo_state _ _ _ Hok) in Hns. eapply switch_state_ok; try done. by destruct Hqp as [?|[? _]]; [left|right].
    + (* a new request has the source of its packet *)
      exists st1, A1. split; [done|]. by destruct Hqp as [->|[_ ?]].
Qed.

(** ** A worker *)

Lemma inv_stages q A pending st ws :
  server_inv q A pending st -> wk_request <$> ws = wk_request <$> sv_workers st ->
  (forall w, w ∈ ws -> wk_stage w = Release -> wk_request w ∉ A.*2) ->
  server_inv q A pending (set_workers ws st).
Proof.
  intros H Hws Hr. destruct H as [Hrep Hf Hra Hv He Ho Hl Hrel Hp].
  assert (forall p, in_flight (set_workers ws st) p <-> in_flight st p) as Hfl.
  { intros p. unfold in_flight. cbn. by rewrite Hws. }
  split; try done; cbn.
  - intros k p Hin. destruct (He k p Hin) as (Hk&r&H1&H2&H3). split; [done|]. exists r.
    by rewrite Hfl.
  - by rewrite Hws.
  - intros w Hw. apply (list_elem_of_fmap_2 wk_request) in Hw. rewrite Hws in Hw.
    apply list_elem_of_fmap in Hw as (w'&->&Hw'). by apply Hl.
  - intros p Hin. rewrite Hfl. by apply Hp.
Qed.

Lemma inv_sent q A pending st ev :
  server_inv q A pending st -> server_inv q A pending (add_sent ev st).
Proof. by destruct 1. Qed.

(** The last stage: the worker ends and its request is freed. *)
Lemma inv_release A pending st l1 p l2 :
  server_inv NULL A pending st -> sv_workers st = l1 ++ mk_worker p Release :: l2 ->
  server_inv NULL A pending
    (mk_server (sv_table st) (delete p (sv_heap st)) (sv_fresh st) (l1 ++ l2) (sv_sent st)).
Proof.
  intros H Hws. destruct (H) as [Hrep Hf Hra Hv He Ho Hl Hrel Hp].
  assert (p ∉ A.*2) as HpA. { apply (Hrel (mk_worker p Release)); [rewrite Hws; set_solver|done]. }
  assert (p ∉ wk_request <$> l1 ++ l2) as Hpl.
  { rewrite Hws, fmap_app, fmap_cons in Ho. apply NoDup_app in Ho as (_&Hd&Ho).
    apply NoDup_cons in Ho as [Ho _]. rewrite fmap_app. intros [Hi|Hi]%elem_of_app; [|done].
    apply (Hd p Hi). left. }
  set (st' := mk_server _ _ _ _ _).
  assert (forall p', in_flight st p' <-> in_flight st' p' \/ p' = p) as Hfl.
  { intros p'. unfold in_flight, st'. cbn [sv_workers]. rewrite Hws, !fmap_app, fmap_cons.
    set_solver. }
  assert (forall w, w ∈ l1 ++ l2 -> w ∈ sv_workers st) as Hsub by (rewrite Hws; set_solver).
  split; try done; cbn.
  - intros p' r [_ H1]%lookup_delete_Some. by eapply Hra.
  - intros k p' Hin. destruct (He k p' Hin) as (Hk&r&H1&H2&H3). split; [done|]. exists r.
    assert (p' <> p). { intros ->. apply HpA. by apply (list_elem_of_fmap_2 snd _ (k, p)). }
    rewrite lookup_delete_ne by done. rewrite Hfl in H2, H3. naive_solver.
  - rewrite Hws in Ho. rewrite fmap_app, fmap_cons in Ho. rewrite fmap_app.
    apply NoDup_app in Ho as (?&Hd&[_ ?]%NoDup_cons). apply NoDup_app. set_solver.
  - intros w Hw. destruct (Hl w (Hsub w Hw)) as (r&H1&H2). exists r.
    rewrite lookup_delete_ne; [done|]. intros ->. by apply Hpl, list_elem_of_fmap_2.
  - intros w Hw. by apply Hrel, Hsub.
  - intros p' Hin. destruct (Hp p' Hin) as [H1 H2]. rewrite Hfl in H1.
    rewrite lookup_delete_ne by naive_solver. naive_solver.
Qed.

Lemma load_request_ok p st r : load_request p st = Ok r -> sv_heap st !! p = Some r.
Proof. unfold load_request. destruct (sv_heap st !! p); naive_solver. Qed.

(** A stage changes the request and goes on to a stage that is not the last. *)
Lemma inv_stage A pending st l1 w l2 r r' s :
  server_inv NULL A pending st -> sv_workers st = l1 ++ w :: l2 ->
  sv_heap st !! wk_request w = Some r -> worker_keeps r r' -> s <> Release ->
  server_inv NULL A pending
    (set_workers (l1 ++ mk_worker (wk_request w) s :: l2) (store_request (wk_request w) r' st)).
Proof.
  intros H Hws Hr Hk Hs. apply inv_stages.
  - eapply inv_store_in_flight; try done. unfold in_flight. rewrite Hws, fmap_app. set_solver.
  - cbn [sv_workers store_request]. by rewrite Hws, !fmap_app, !fmap_cons.
  - intros w' Hw' Hs'. apply elem_of_app in Hw' as [Hw'|[->|Hw']%elem_of_cons]; [|done|];
      apply (sv_released _ _ _ _ H); try done; rewrite Hws; set_solver.
Qed.

Lemma store_same p r st : sv_heap st !! p = Some r -> store_request p r st = st.
Proof. destruct st. cbn. intros H. unfold store_request. cbn. by rewrite insert_id. Qed.

(** Removal of the id of the worker's request. *)
Lemma inv_removed A pending st l1 w l2 r :
  server_inv NULL A pending st -> sv_workers st = l1 ++ w :: l2 ->
  sv_heap st !! wk_request w = Some r ->
  (rq_request_id r = 0 \/ forall p, (rq_request_id r, p) ∉ A) ->
  server_inv NULL A pending
    (set_workers (l1 ++ mk_worker (wk_request w) Release :: l2) st).
Proof.
  intros H Hws Hr Hid. apply inv_stages; [done|by rewrite Hws, !fmap_app, !fmap_cons|].
  intros w' Hw' Hs'. apply elem_of_app in Hw' as [Hw'|[->|Hw']%elem_of_cons].
  - apply (sv_released _ _ _ _ H); [rewrite Hws; set_solver|done].
  - intros ([k p]&Hkp&Hin)%list_elem_of_fmap. cbn [snd wk_request] in Hkp.
    destruct (sv_entry _ _ _ _ H k p Hin) as (Hk&r1&H1&H2&_). subst p.
    assert (r1 = r) as -> by congruence.
    assert (rq_request_id r = k) as Hrk.
    { apply H2. unfold in_flight. rewrite Hws, fmap_app. set_solver. }
    destruct Hid as [Hid|Hid]; [congruence|]. apply (Hid (wk_request w)). by rewrite Hrk.
  - apply (sv_released _ _ _ _ H); [rewrite Hws; set_solver|done].
Qed.

Definition next_workers (l1 : list worker) (next : option worker) (l2 : list worker) :
    list worker :=
  l1 ++ match next with Some w => [w] | None => [] end ++ l2.

Lemma worker_step_ok A pending config env time st l1 w l2 st' next :
  server_inv NULL A pending st -> sv_workers st = l1 ++ w :: l2 ->
  worker_stage config env time w st = Ok (st', next) ->
  exists A', server_inv NULL A' pending (set_workers (next_workers l1 next l2) st').
Proof.
  intros H Hws. destruct w as [p s]. unfold worker_stage. cbn [wk_request wk_stage].
  destruct s.
  - intros (r&Hr%load_request_ok&(r'&Hr'%vectorise_keeps&[= <- <-])%bind_ok)%bind_ok.
    exists A. by eapply (inv_stage A pending st l1 (mk_worker p _) l2).
  - intros (r&Hr%load_request_ok&(r'&Hr'%decrypt_keeps&[= <- <-])%bind_ok)%bind_ok.
    exists A. eapply (inv_stage A pending st l1 (mk_worker p _) l2); try done. by case_match.
  - intros (r&Hr%load_request_ok&(r'&Hr'%parse_options_from_payload_keeps&[= <- <-])%bind_ok)%bind_ok.
    exists A. eapply (inv_stage A pending st l1 (mk_worker p _) l2); try done. by case_match.
  - intros (r&Hr%load_request_ok&(valid&_&[= <- <-])%bind_ok)%bind_ok.
    exists A. rewrite <- (store_same p r st Hr).
    eapply (inv_stage A pending st l1 (mk_worker p _) l2); try done. by destruct valid.
  - intros (r&Hr%load_request_ok&([r' ev]&Hr'%send_request_keeps&[= <- <-])%bind_ok)%bind_ok.
    exists A. apply (inv_sent _ _ _ (set_workers _ (store_request p r' st)) ev).
    by eapply (inv_stage A pending st l1 (mk_worker p _) l2).
  - intros (r&Hr%load_request_ok&(st1&H1&[= <- <-])%bind_ok)%bind_ok.
    destruct (Z.eqb_spec (rq_request_id r) 0) as [Hz|Hz]; cbn [negb] in H1.
    + injection H1 as <-. exists A. eapply (inv_removed A pending st l1 (mk_worker p _) l2); eauto.
    + destruct (table_remove_ok A (rq_request_id r) st (sv_rep _ _ _ _ H)) as (t&Ht1&Ht).
      rewrite Ht1 in H1. injection H1 as <-. exists (assoc_remove (rq_request_id r) A).
      eapply (inv_removed _ pending (put_table t st) l1 (mk_worker p _) l2); try done.
      * by apply inv_remove.
      * right. intros p' [Hne _]%assoc_remove_in. done.
  - unfold free_request. rewrite bind_ok. intros (st1&H1&[= <- <-]).
    apply bind_ok in H1 as (r&Hr%load_request_ok&(u&_&[= <-])%bind_ok).
    exists A. by apply (inv_release A pending st l1 p l2).
Qed.
End Steps.
