(* ===== verification/ServerClean.v ===== *)
(** * The clean-up thread of the server

    The scan collects the expired requests in the order of the table, and the
    removals take exactly these out of it. *)

From S2P Require Import Prelude Bytes HashTable HashTableOps HashTableUpdate HashTableSpec.
From S2P Require Import Request Strings Logging Config Parser ParserFacts Crypto CryptoFacts Http.
From S2P Require Import Server ServerFacts.
From S2P Require Import ServerInv ServerSteps.

(** An entry of the table whose request has expired: it is still being
    received, and its first packet came a minute ago or earlier. *)
Definition expired (now : Z) (heap : gmap Z ff_request) (kv : Z * Z) : Prop :=
  exists r, heap !! kv.2 = Some r /\
    rq_state r = FF_REQUEST_STATE_RECEIVING /\ rq_received_at r + 60 <= now.

(** The test of the code decides it. *)
Lemma expired_iff now heap kv r :
  heap !! kv.2 = Some r -> expired now heap kv <-> has_expired now r = true.
Proof.
  intros Hr. unfold expired, has_expired, FF_PROXY_OLD_REQUEST_THRESHOLD_SECS.
  rewrite andb_true_iff, Z.eqb_eq, Z.leb_le. split.
  - intros (r1&H1&H2&H3). assert (r1 = r) as -> by congruence. lia.
  - intros [H1 H2]. exists r. split_and!; [done|done|lia].
Qed.

#[export] Instance expired_dec now heap kv : Decision (expired now heap kv).
Proof.
  refine (match heap !! kv.2 as o return heap !! kv.2 = o -> _ with
          | Some r => fun H => cast_if (decide (has_expired now r = true))
          | None => fun H => right _
          end eq_refl).
  - by apply (expired_iff _ _ _ r).
  - by rewrite (expired_iff _ _ _ r).
  - intros (r&Hr&_). congruence.
Defined.

Section Clean.
Context {HO : HostOrder} {OS : OpenSSL} {T : Type} {RT : RequestTable T} {RL : RequestTableLaws T}.
Implicit Types (st : server T) (A : list (Z * Z)).

Lemma expired_loop_ok A heap now room rest : forall it t fuel acc,
  tbl_iter_rep A rest it t ->
  Forall (fun kv => kv.2 <> NULL /\ is_Some (heap !! kv.2)) rest ->
  zlen acc + zlen rest <= room -> (length rest < fuel)%nat ->
  exists it', tbl_iter_rep A [] it' t /\
    expired_loop fuel now room heap it t acc =
      Ok (acc ++ (filter (expired now heap) rest).*2, t).
Proof.
  induction rest as [|[k p] rest IH]; intros it t fuel acc Hit Hok Hroom Hf;
    (destruct fuel as [|fuel]; [cbn in Hf; lia|]); cbn [expired_loop].
  - destruct (tbl_iter_end_ok A it t Hit) as (it'&->&Hit'). cbn [mbind res_bind]. exists it'.
    split; [done|]. change (filter _ []) with (@nil (Z * Z)). by rewrite app_nil_r.
  - destruct (tbl_iter_next_ok A k p rest it t Hit) as (it'&->&Hit'). cbn [mbind res_bind].
    apply Forall_cons in Hok as [[Hp [r Hr]] Hok]. cbn [snd] in Hp, Hr.
    rewrite (proj2 (Z.eqb_neq p NULL)) by done. rewrite Hr. rewrite zlen_cons in Hroom.
    pose proof (zlen_nonneg rest). rewrite filter_cons. cbn [length] in Hf.
    pose proof (expired_iff now heap (k, p) r Hr) as Hexp.
    destruct (has_expired now r) eqn:E.
    + rewrite bool_decide_true by lia. cbn [guard_res mbind res_bind].
      destruct (IH it' t fuel (acc ++ [p])) as (it2&Hit2&->); try done; [|lia|].
      { rewrite zlen_app. change (zlen [p]) with 1. lia. }
      exists it2. split; [done|]. rewrite decide_True by tauto.
      by rewrite fmap_cons, <- app_assoc.
    + destruct (IH it' t fuel acc) as (it2&Hit2&->); try done; [lia|lia|].
      exists it2. split; [done|]. by rewrite decide_False by (rewrite Hexp; done).
Qed.

Lemma inv_entries_live q A pending st :
  server_inv q A pending st ->
  Forall (fun kv => kv.2 <> NULL /\ is_Some (sv_heap st !! kv.2)) A.
Proof.
  intros H. apply Forall_forall. intros [k p] Hin.
  destruct (sv_entry _ _ _ _ H k p Hin) as (_&r&Hr&_). cbn. split; [|eauto].
  apply (sv_range _ _ _ _ H) in Hr. unfold NULL. lia.
Qed.

Lemma scan_ok A now st :
  server_inv NULL A [] st -> zlen A < 2 ^ 32 ->
  exists t, clean_up_scan now st =
      Ok ((filter (expired now (sv_heap st)) A).*2, put_table t st) /\ tbl_rep A t.
Proof.
  intros H Hlen. unfold clean_up_scan.
  destruct (tbl_iter_init_ok A _ (sv_rep _ _ _ _ H)) as (it&t&->&Hit). cbn [mbind res_bind].
  rewrite (tbl_iter_length_ok A A it t Hit). rewrite u32_small by (pose proof (zlen_nonneg A); lia).
  destruct (expired_loop_ok A (sv_heap st) now (zlen A) A it t (S (Z.to_nat (zlen A))) [])
    as (it'&Hit'&->); [done|by eapply inv_entries_live|change (zlen []) with 0; lia|unfold zlen; lia|].
  cbn [mbind res_bind app]. destruct (tbl_iter_free_ok A [] it' t Hit') as (t'&->&Ht').
  cbn [mbind res_bind]. by exists t'.
Qed.

(** A scan that ends has seen every entry, so its fuel was enough. *)
Lemma expired_loop_fuel A heap now room rest : forall it t fuel acc out,
  tbl_iter_rep A rest it t -> Forall (fun kv => kv.2 <> NULL) rest ->
  expired_loop fuel now room heap it t acc = Ok out -> (length rest < fuel)%nat.
Proof.
  induction rest as [|[k p] rest IH]; intros it t fuel acc out Hit Hok;
    (destruct fuel as [|fuel]; [done|]); [cbn; lia|]. cbn [expired_loop].
  destruct (tbl_iter_next_ok A k p rest it t Hit) as (it'&->&Hit'). cbn [mbind res_bind].
  apply Forall_cons in Hok as [Hp Hok]. cbn [snd] in Hp.
  rewrite (proj2 (Z.eqb_neq p NULL)) by done. destruct (heap !! p); [|done].
  cbn [length]. destruct (has_expired _ _).
  - intros (?&_&H)%bind_ok. eapply IH in H; [lia|done|done].
  - intros H. eapply IH in H; [lia|done|done].
Qed.

Lemma scan_small A now st out :
  server_inv NULL A [] st -> clean_up_scan now st = Ok out -> zlen A < 2 ^ 32.
Proof.
  intros H. unfold clean_up_scan.
  destruct (tbl_iter_init_ok A _ (sv_rep _ _ _ _ H)) as (it&t&->&Hit). cbn [mbind res_bind].
  rewrite (tbl_iter_length_ok A A it t Hit). intros (o&Ho&_)%bind_ok.
  eapply expired_loop_fuel in Ho; [|done|by eapply inv_nonnull].
  pose proof (u32_range (zlen A)). unfold zlen in *. lia.
Qed.

(** The table is not larger than the heap. *)
Lemma entries_heap_size A pending st :
  server_inv NULL A pending st -> zlen A <= Z.of_nat (size (sv_heap st)).
Proof.
  intros H. pose proof (sv_values _ _ _ _ H) as Hnd.
  assert (list_to_set A.*2 ⊆ dom (sv_heap st)) as Hsub.
  { intros p (k&Hin)%elem_of_list_to_set%list_elem_of_fmap. destruct k as [k p'], Hin as [-> Hin].
    destruct (sv_entry _ _ _ _ H k p' Hin) as (_&r&Hr&_). by apply elem_of_dom_2 in Hr. }
  apply subseteq_size in Hsub. rewrite size_list_to_set, size_dom, length_fmap in Hsub by done.
  unfold zlen. lia.
Qed.

Lemma inv_table A pending st t :
  server_inv NULL A pending st -> tbl_rep A t -> server_inv NULL A pending (put_table t st).
Proof. by destruct 1. Qed.

Lemma inv_pending A pending st l :
  server_inv NULL A pending st -> Forall (fun p => ~ in_flight st p /\ is_Some (sv_heap st !! p)) l ->
  server_inv NULL A l st.
Proof. intros [] Hl. split; try done. intros p Hp. rewrite Forall_forall in Hl. by apply Hl. Qed.

(** The expired requests are not those of workers, and have the id of their
    entry. *)
Lemma expired_entry A pending st now k p :
  server_inv NULL A pending st -> (k, p) ∈ A -> expired now (sv_heap st) (k, p) ->
  ~ in_flight st p /\ exists r, sv_heap st !! p = Some r /\ rq_request_id r = k.
Proof.
  intros H Hin Hexp. destruct (sv_entry _ _ _ _ H k p Hin) as (_&r&Hr&_&Hok).
  destruct Hexp as (r2&H2&Hst&_). cbn [snd] in H2. assert (r2 = r) as -> by congruence.
  assert (~ in_flight st p) as Hnf.
  { intros (r1&H1&H3)%(inv_in_flight_live _ _ _ _ _ H). congruence. }
  split; [done|]. exists r. split; [done|].
  destruct (Hok Hnf) as [_ _ [[_ ?]|[-> _]]]; [done|]. apply (sv_range _ _ _ _ H) in Hr.
  unfold NULL in Hr. lia.
Qed.

Lemma scan_inv A now st :
  server_inv NULL A [] st -> zlen A < 2 ^ 32 ->
  exists pending st', clean_up_scan now st = Ok (pending, st') /\ server_inv NULL A pending st'.
Proof.
  intros H Hlen. destruct (scan_ok A now st H Hlen) as (t&Hscan&Ht).
  eexists _, _. split; [exact Hscan|]. eapply inv_pending; [by apply inv_table|].
  apply Forall_forall. intros p ([k p']&->&[Hexp Hin]%list_elem_of_filter)%list_elem_of_fmap.
  destruct (expired_entry A [] st now k p' H Hin Hexp) as (?&r&?&_). split; [done|eauto].
Qed.

(** One removal. *)
Lemma clean_up_remove_ok A p pending st :
  server_inv NULL A (p :: pending) st ->
  exists st' A', clean_up_remove p st = Ok st' /\ server_inv NULL A' pending st'.
Proof.
  intros H. destruct (sv_pending _ _ _ _ H p) as [Hnf [r Hr]]; [left|].
  unfold clean_up_remove, load_request. rewrite Hr. cbn [mbind res_bind].
  destruct (table_remove_ok A (rq_request_id r) st (sv_rep _ _ _ _ H)) as (t&->&Ht).
  eexists _, _. split; [done|]. eapply inv_pending; [by apply inv_remove|].
  apply Forall_forall. intros p' Hp'. apply (sv_pending _ _ _ _ H). by right.
Qed.

(** All of them. *)
Lemma clean_up_removals_ok E : forall A st,
  tbl_rep A (sv_table st) ->
  Forall (fun kv => exists r, sv_heap st !! kv.2 = Some r /\ rq_request_id r = kv.1) E ->
  exists t, clean_up_removals E.*2 st = Ok (put_table t st) /\
    tbl_rep (filter (fun kv => kv.1 ∉ E.*1) A) t.
Proof.
  induction E as [|[k p] E IH]; intros A st Ht HE.
  - exists (sv_table st). rewrite list_filter_id by (intros; set_solver).
    split; [by destruct st|done].
  - apply Forall_cons in HE as [(r&Hr&Hk) HE]. cbn [fst snd] in Hr, Hk. rewrite fmap_cons.
    cbn [clean_up_removals]. unfold clean_up_remove, load_request. cbn [snd]. rewrite Hr.
    cbn [mbind res_bind].
    destruct (table_remove_ok A (rq_request_id r) st Ht) as (t&->&Ht'). cbn [mbind res_bind].
    destruct (IH (assoc_remove (rq_request_id r) A) (put_table t st) Ht' HE) as (t2&->&Ht2).
    exists t2. split; [done|]. unfold assoc_remove in Ht2. rewrite list_filter_filter in Ht2.
    rewrite Hk in Ht2. erewrite list_filter_iff; [exact Ht2|]. intros kv.
    rewrite fmap_cons, not_elem_of_cons. cbn. naive_solver.
Qed.

Lemma NoDup_fst_inj A k p p' : NoDup A.*1 -> (k, p) ∈ A -> (k, p') ∈ A -> p = p'.
Proof.
  intros Hnd [i Hi]%list_elem_of_lookup [j Hj]%list_elem_of_lookup.
  assert (i = j) as ->; [|congruence].
  eapply (NoDup_lookup A.*1 i j k); [done|..]; by rewrite list_lookup_fmap, ?Hi, ?Hj.
Qed.

Lemma filter_expired_keys A now heap :
  NoDup A.*1 ->
  filter (fun kv => kv.1 ∉ (filter (expired now heap) A).*1) A =
  filter (fun kv => ~ expired now heap kv) A.
Proof.
  intros Hnd. assert (forall B : list (Z * Z), (forall kv, kv ∈ B -> kv ∈ A) ->
    filter (fun kv => kv.1 ∉ (filter (expired now heap) A).*1) B =
    filter (fun kv => ~ expired now heap kv) B) as Hgen; [|by apply Hgen].
  induction B as [|[k p] B IH]; intros Hsub; [done|]. rewrite !filter_cons.
  rewrite IH by (intros; apply Hsub; by right).
  assert ((k, p).1 ∉ (filter (expired now heap) A).*1 <-> ~ expired now heap (k, p)) as Hiff.
  { cbn. split; intros Hn Hx; apply Hn.
    - apply (list_elem_of_fmap_2 fst _ (k, p)), list_elem_of_filter. split; [done|].
      apply Hsub. left.
    - apply list_elem_of_fmap in Hx as ([k' p']&->&[Hx Hin]%list_elem_of_filter). cbn in *.
      assert (p' = p) as <-; [|done].
      eapply (NoDup_fst_inj A k'); [done|done|]. apply Hsub. left. }
  destruct (decide _), (decide _); tauto.
Qed.
End Clean.
