(* ===== verification/ServerEndToEnd.v ===== *)
(** * From the datagrams of a client to the request sent on

    The loop of the server on the packets of one message that arrive in
    order, and the run of the worker it starts. *)

From S2P Require Import Prelude Bytes HashTable HashTableOps HashTableUpdate HashTableSpec.
From S2P Require Import Request Strings Logging Config Parser ParserFacts Reassembly.
From S2P Require Import PayloadOptions Crypto CryptoFacts.
From S2P Require Import Client ClientFacts ClientCryptoFacts EndToEnd Http HttpFacts.
From S2P Require Import HttpSendFacts HttpProps HttpSendProps Server ServerFacts ServerInv.
From S2P Require Import ServerSteps.

Section Receive.
Context {HO : HostOrder} {T : Type} {RT : RequestTable T} {RL : RequestTableLaws T}.
Implicit Types st : server T.

(** A request as the server allocates it. *)
Definition new_received (source : list Z) (now : Z) : ff_request :=
  set_source source (set_received_at now ff_request_alloc).

Lemma prefix_new id P source now :
  prefix_received id P (new_received source now) [] 0.
Proof.
  split; [|done|done|constructor]. split; [|done|constructor|by left|done].
  apply wf_set_source, wf_set_received_at, wf_request_alloc.
Qed.

Variables (id : Z) (P : list Z) (src : list Z) (now : Z).
Hypothesis HP : bytes P.
Hypothesis HPlen : zlen P < 65536.
Hypothesis Hid : 0 < id < 2 ^ 64.
Hypothesis Hsrc : sizeof_sockaddr <= zlen src.

(** The datagram of a packet. *)
Definition packet_datagram (p : packet) : received := Datagram src (wire_packet p) now.

Lemma recvfrom_ok buffer p :
  zlen (wire_packet p) <= zlen buffer ->
  recvfrom buffer (wire_packet p) =
    (zlen (wire_packet p), wire_packet p ++ drop (length (wire_packet p)) buffer).
Proof. intros H. unfold recvfrom. rewrite take_ge by (unfold zlen in H; lia). done. Qed.

Lemma zlen_refill buffer p :
  zlen (wire_packet p) <= zlen buffer ->
  zlen (wire_packet p ++ drop (length (wire_packet p)) buffer) = zlen buffer.
Proof. intros H. unfold zlen in *. rewrite length_app, length_drop. lia. Qed.

(** One turn of the loop. *)
Lemma proxy_loop_packet p ds buffer st :
  packet_of id P p -> zlen (wire_packet p) <= zlen buffer ->
  proxy_loop (packet_datagram p :: ds) buffer st =
    (let buffer' := wire_packet p ++ drop (length (wire_packet p)) buffer in
     st' ← ff_proxy_process_incoming_packet src buffer' (zlen (wire_packet p)) now st;
     proxy_loop ds buffer' st').
Proof using HPlen.
  intros Hp Hz. cbn [proxy_loop packet_datagram]. rewrite recvfrom_ok by done.
  destruct (packet_bounds id P p HPlen Hp) as (_&?&Hw&?).
  by rewrite (proj2 (Z.eqb_neq _ 0)) by lia.
Qed.

(** A packet for a request that is in the table. *)
Lemma packet_to_entry A st ptr r r' p rest :
  tbl_rep A (sv_table st) -> assoc_get id A = ptr -> ptr <> NULL ->
  sv_heap st !! ptr = Some r -> rq_source r = slice src 0 sizeof_sockaddr ->
  packet_of id P p ->
  ff_request_parse_chunk r (zlen (wire_packet p)) (wire_packet p ++ rest) = Ok r' ->
  ff_proxy_process_incoming_packet src (wire_packet p ++ rest) (zlen (wire_packet p)) now st =
    switch_state id ptr (store_request ptr r' st).
Proof using All.
  intros Ht Hget Hptr Hr Hs Hp Hpc. unfold ff_proxy_process_incoming_packet.
  rewrite (wire_not_raw id P HP) by done. cbn [mbind res_bind].
  destruct (packet_fields id P p rest HPlen ltac:(lia) Hp) as (_&Hf&_).
  rewrite parse_id_ok; [|by apply (wire_not_raw id P HP)|].
  2:{ eapply packet_readable; [by eapply (packet_ok_wire id P)|lia|].
      destruct (packet_bounds id P p HPlen Hp) as (_&?&->&?). lia. }
  cbn [mbind res_bind]. rewrite Hf, (proj2 (Z.eqb_neq id 0)) by lia.
  unfold find_request. rewrite (tbl_get_ok A _ id Ht), Hget. cbn [mbind res_bind].
  rewrite (set_table_id (sv_table st) st), (proj2 (Z.eqb_neq ptr NULL)) by done.
  cbn [mbind res_bind]. unfold load_request. rewrite Hr. cbn [mbind res_bind].
  rewrite mem_read_slice by (unfold sizeof_sockaddr in *; lia). cbn [mbind res_bind].
  rewrite bool_decide_true by done. cbn [negb]. by rewrite Hpc.
Qed.

Definition started st (ptr : Z) (r : ff_request) : server T :=
  set_workers (sv_workers st ++ [mk_worker ptr Vectorise]) (store_request ptr r st).

Lemma switch_receiving st ptr r :
  rq_state r = FF_REQUEST_STATE_RECEIVING ->
  switch_state id ptr (store_request ptr r st) = Ok (store_request ptr r st).
Proof. intros H. unfold switch_state. rewrite load_store. cbn [mbind res_bind]. by rewrite H. Qed.

Lemma switch_received st ptr r :
  rq_state r = FF_REQUEST_STATE_RECEIVED ->
  switch_state id ptr (store_request ptr r st) = Ok (started st ptr r).
Proof. intros H. unfold switch_state. rewrite load_store. cbn [mbind res_bind]. by rewrite H. Qed.

Lemma store_store ptr r r' st : store_request ptr r' (store_request ptr r st) = store_request ptr r' st.
Proof. unfold store_request. cbn. by rewrite insert_insert_eq. Qed.

(** The source of a request survives a packet of the message. *)
Lemma packet_source r r' p rest :
  packet_of id P p ->
  ff_request_parse_chunk r (zlen (wire_packet p)) (wire_packet p ++ rest) = Ok r' ->
  rq_source r' = rq_source r.
Proof using HP.
  intros Hp Hpc. eapply parse_chunk_frame; [|..|exact Hpc];
    [by eapply (packet_ok_wire id P)|by apply (wire_not_raw id P HP)].
Qed.

Lemma loop_in_order A ptr ps : forall st r nodes off buffer p,
  tbl_rep A (sv_table st) -> assoc_get id A = ptr -> ptr <> NULL ->
  sv_heap st !! ptr = Some r -> rq_source r = slice src 0 sizeof_sockaddr ->
  prefix_received id P r nodes off -> options_fit p r ->
  Forall (packet_of id P) (p :: ps) ->
  Forall (fun p => zlen (wire_packet p) <= zlen buffer) (p :: ps) ->
  consecutive off (p :: ps) (zlen P) ->
  exists r' nodes' buffer',
    proxy_loop (map packet_datagram (p :: ps)) buffer st = Ok (Waiting buffer', started st ptr r') /\
    receiving id P r' nodes' /\ rq_state r' = FF_REQUEST_STATE_RECEIVED /\
    rq_options r' = rq_options (packet_options p r) /\
    rq_payload_contains_options r' = rq_payload_contains_options (packet_options p r).
Proof using All.
  induction ps as [|p' ps IH]; intros st r nodes off buffer p Ht Hget Hptr Hr Hs Hpx Hof Hps Hsz Hc;
    apply Forall_cons in Hps as [Hp Hps]; apply Forall_cons in Hsz as [Hz Hsz];
    destruct Hc as (Ho&Hlen&Hc); cbn [map]; rewrite proxy_loop_packet by done; cbv zeta;
    pose proof (parse_chunk_packet id P HP HPlen ltac:(lia) r nodes p
      (drop (length (wire_packet p)) buffer) ltac:(apply Hpx) Hp) as Hpc;
    rewrite (packet_to_entry A st ptr r _ p _ Ht Hget Hptr Hr Hs Hp Hpc);
    destruct (receive_in_order id P HP HPlen r nodes off p Hpx Hp Ho Hof)
      as (Hr'&Eo&Ec&Hdone&Hmore).
  - rewrite switch_received by (by apply Hdone). cbn [mbind res_bind]. eexists _, _, _.
    split_and!; [done..|by apply Hdone|done|done].
  - pose proof Hc as (Ho'&Hlen'&Hle%consecutive_le). cbn in Ho', Hlen', Hle.
    pose proof (po_offset _ _ _ Hp).
    assert (prefix_received id P (receive_packet (opened id P r p) nodes p)
              (nodes ++ [packet_node p]) (off + zlen (pk_data p))) as Hpx'.
    { apply Hmore. lia. }
    rewrite switch_receiving by apply Hpx'. cbn [mbind res_bind].
    assert (pk_offset p' <> 0) as Hne by lia.
    assert (packet_options p' (receive_packet (opened id P r p) nodes p) =
            receive_packet (opened id P r p) nodes p) as Ep.
    { unfold packet_options at 1. by rewrite (proj2 (Z.eqb_neq _ _)). }
    edestruct (IH (store_request ptr (receive_packet (opened id P r p) nodes p) st))
      as (r'&nodes'&buffer'&Hl&Hrc&Hst&Eo'&Ec'); [exact Ht|exact Hget|exact Hptr|..|exact Hc|].
    + cbn. by rewrite lookup_insert_eq.
    + by rewrite (packet_source r _ p _ Hp Hpc).
    + exact Hpx'.
    + by intros ?.
    + exact Hps.
    + rewrite zlen_refill by done. exact Hsz.
    + rewrite Ep in Eo', Ec'. exists r', nodes', buffer'. cbn [map] in Hl. rewrite Hl.
      unfold started. rewrite store_store. cbn [sv_workers store_request].
      split_and!; [done..|congruence|congruence].
Qed.
End Receive.

(** ** The time stamp *)

Section Timestamp.
Context {HO : HostOrder}.

Definition is_stamp (o : ff_request_option_node) : Prop :=
  opt_type o = FF_REQUEST_OPTION_TYPE_TIMESTAMP /\ opt_length o = 8.
#[export] Instance is_stamp_dec o : Decision (is_stamp o).
Proof. unfold is_stamp. apply _. Defined.

Lemma is_stamp_eq o :
  (opt_type o =? FF_REQUEST_OPTION_TYPE_TIMESTAMP) && (opt_length o =? 8) = bool_decide (is_stamp o).
Proof.
  apply Bool.eq_iff_eq_true. rewrite andb_true_iff, bool_decide_eq_true, !Z.eqb_eq. done.
Qed.

Lemma stamp_value o :
  wf_option o -> is_stamp o ->
  ntohll <$> load_uint 8 (opt_value o) 0 = Ok (be_combine (opt_bytes o)).
Proof.
  intros [_ _ _ _ [Hv Hb]] [_ Hl]. rewrite Hl in *.
  rewrite load_ntohll by (split_and!; [lia|cbn; lia|done]).
  unfold be_at, opt_bytes. by rewrite Hl.
Qed.

Lemma timestamp_loop_app l1 l2 x :
  timestamp_loop (l1 ++ l2) x = (y ← timestamp_loop l1 x; timestamp_loop l2 y).
Proof.
  revert x. induction l1 as [|o l1 IH]; intros x; [done|]. cbn [app timestamp_loop].
  destruct (_ && _); [|apply IH].
  destruct (ntohll <$> load_uint 8 (opt_value o) 0); [|done]. apply IH.
Qed.

Lemma timestamp_loop_total l x : Forall wf_option l -> is_ok (timestamp_loop l x).
Proof.
  intros Hl. revert x. induction Hl as [|o l Ho _ IH]; intros x; [by eexists|].
  cbn [timestamp_loop]. rewrite is_stamp_eq. case_bool_decide; [|apply IH].
  rewrite stamp_value by done. apply IH.
Qed.

Lemma timestamp_loop_other l x : Forall (fun o => ~ is_stamp o) l -> timestamp_loop l x = Ok x.
Proof.
  induction 1 as [|o l Ho _ IH]; [done|]. cbn [timestamp_loop].
  by rewrite is_stamp_eq, bool_decide_false.
Qed.

(** The value of the first stamp, whatever follows. *)
Lemma timestamp_first pre o post :
  Forall (fun o => ~ is_stamp o) pre -> is_stamp o -> wf_option o -> Forall wf_option post ->
  timestamp_loop (rev (pre ++ o :: post)) 0 = Ok (be_combine (opt_bytes o)).
Proof.
  intros Hpre Ho Hwf Hpost. rewrite rev_app_distr. cbn [rev]. rewrite <- app_assoc.
  rewrite timestamp_loop_app. destruct (timestamp_loop_total (rev post) 0) as [y ->];
    [by apply Forall_rev|]. cbn [mbind res_bind app timestamp_loop].
  rewrite is_stamp_eq, bool_decide_true, stamp_value by done. cbn [mbind res_bind].
  by apply timestamp_loop_other, Forall_rev.
Qed.

(** The distance of two times, as the code computes it. *)
Lemma timestamp_diff a b :
  0 <= a < 2 ^ 64 -> 0 <= b < 2 ^ 64 ->
  (if a <? b then u64 (b - a) else u64 (a - b)) = Z.abs (b - a).
Proof. intros Ha Hb. destruct (Z.ltb_spec a b); rewrite u64_small; lia. Qed.
End Timestamp.

(** ** The options the client sends *)

Section Sealed.
Context {OS : OpenSSL}.

Lemma sealed_plain_options config M salt iv c opts :
  sealed config M salt iv = Some (c, opts) ->
  Forall (fun o => ~ is_stamp o /\ ~ is_https o) opts.
Proof.
  unfold sealed. destruct (ec_key config); [|intros [= _ <-]; constructor].
  destruct (c_string l); [|done]. destruct (PKCS5_PBKDF2_HMAC _ _ _ _); [|done].
  cbn [mbind option_bind]. destruct (gcm_encrypt _ _ _ _) as [[c' tag]|]; [|done].
  cbn [mbind option_bind]. intros [= _ <-]. cbn [encryption_options map].
  repeat constructor; unfold is_stamp, is_https; cbn; intros; naive_solver.
Qed.

Definition stamp_option (now : Z) : ff_request_option_node :=
  loaded (mk_option FF_REQUEST_OPTION_TYPE_TIMESTAMP 8 (be_split 8 (u64 now))).

Definition secure_option : ff_request_option_node :=
  loaded (mk_option FF_REQUEST_OPTION_TYPE_HTTPS 1 [1]).

Lemma payload_options_loaded https now :
  map loaded (payload_options https now) =
    (if https then [secure_option] else []) ++ [stamp_option now].
Proof. unfold payload_options. by destruct https. Qed.

Lemma stamp_option_value now : be_combine (opt_bytes (stamp_option now)) = u64 now.
Proof.
  unfold stamp_option. assert (Forall wf_option (payload_options false now)) as Hwf
    by apply payload_options_wf. apply Forall_cons in Hwf as [Hwf _].
  rewrite opt_bytes_loaded by done. unfold opt_bytes. cbn [opt_value opt_length].
  rewrite slice_full by (unfold zlen; by rewrite length_be_split).
  rewrite be_combine_split. unfold u64. change (256 ^ Z.of_nat 8) with (2 ^ 64).
  by rewrite Zmod_mod.
Qed.

Lemma client_stamp {HO : HostOrder} opts https now :
  Forall (fun o => ~ is_stamp o /\ ~ is_https o) opts ->
  timestamp_loop (rev (opts ++ map loaded (payload_options https now))) 0 = Ok (u64 now).
Proof.
  intros Hopts. rewrite payload_options_loaded.
  assert (opts ++ (if https then [secure_option] else []) ++ [stamp_option now] =
    (opts ++ if https then [secure_option] else []) ++ stamp_option now :: []) as ->.
  { by rewrite <- app_assoc. }
  rewrite timestamp_first; [by rewrite stamp_option_value|..|constructor].
  - apply Forall_app. split; [eapply Forall_impl; [exact Hopts|]; by intros ? [? ?]|].
    destruct https; [|constructor]. constructor; [|constructor]. by intros [? _].
  - done.
  - pose proof (map_loaded_wf _ (payload_options_wf false now)) as Hwf.
    by apply Forall_cons in Hwf as [Hwf _].
Qed.

Lemma client_https opts https now :
  Forall (fun o => ~ is_stamp o /\ ~ is_https o) opts ->
  https_loop (rev (opts ++ map loaded (payload_options https now))) false = Ok https.
Proof.
  intros Hopts. rewrite payload_options_loaded, rev_app_distr, rev_app_distr, <- app_assoc.
  rewrite https_loop_app. change (https_loop (rev [stamp_option now]) false) with (Ok false).
  cbn [mbind res_bind]. rewrite https_loop_app.
  assert (https_loop (rev (if https then [secure_option] else [])) false = Ok https) as ->.
  { by destruct https. }
  cbn [mbind res_bind]. apply https_loop_other, Forall_rev.
  eapply Forall_impl; [exact Hopts|]. by intros ? [? ?].
Qed.
End Sealed.
