(* ===== verification/ServerRun.v ===== *)
(** * The life of a request in the server

    A request is allocated at its first packet, started at its last, and gone
    from the table and the heap when its worker is done. *)

From S2P Require Import Prelude Bytes HashTable HashTableOps HashTableUpdate HashTableSpec.
From S2P Require Import Request Strings Logging Config Parser ParserFacts Reassembly.
From S2P Require Import PayloadOptions Crypto CryptoFacts.
From S2P Require Import Client ClientFacts ClientCryptoFacts EndToEnd Http HttpFacts.
From S2P Require Import HttpSendFacts HttpProps HttpSendProps Server ServerFacts ServerInv.
From S2P Require Import ServerSteps ServerEndToEnd.

Lemma assoc_get_snoc id p A : id ∉ A.*1 -> assoc_get id (A ++ [(id, p)]) = p.
Proof.
  induction A as [|[k v] A IH]; intros Hn; cbn [app assoc_get]; [by rewrite Z.eqb_refl|].
  rewrite fmap_cons in Hn. rewrite (proj2 (Z.eqb_neq k id)) by set_solver. apply IH. set_solver.
Qed.

Lemma assoc_remove_snoc id p A : id ∉ A.*1 -> assoc_remove id (A ++ [(id, p)]) = A.
Proof.
  intros Hn. unfold assoc_remove. rewrite filter_app.
  rewrite list_filter_id.
  - change (filter ?Q [(id, p)]) with (if decide (Q (id, p)) then [(id, p)] else []).
    rewrite decide_False; [by rewrite app_nil_r|]. cbn. tauto.
  - intros [k v] Hin. cbn. intros ->. apply Hn. by apply (list_elem_of_fmap_2 fst _ (id, v)).
Qed.

Section Life.
Context {HO : HostOrder} {OS : OpenSSL} {T : Type} {RT : RequestTable T} {RL : RequestTableLaws T}.
Implicit Types (st : server T) (A : list (Z * Z)).

(** ** Reception *)

Section Packets.
Variables (id : Z) (P : list Z) (src : list Z) (now : Z).
Hypothesis HP : bytes P.
Hypothesis HPlen : zlen P < 65536.
Hypothesis Hid : 0 < id < 2 ^ 64.
Hypothesis Hsrc : sizeof_sockaddr <= zlen src.

(** The server after it allocated the request of [id]. *)
Definition allocated (t : T) st : server T :=
  put_table t (snd (new_request (new_received (slice src 0 sizeof_sockaddr) now) st)).

Lemma find_request_new A st :
  tbl_rep A (sv_table st) -> id ∉ A.*1 ->
  exists t, find_request id src now st = Ok (sv_fresh st, allocated t st) /\
    tbl_rep (A ++ [(id, sv_fresh st)]) t.
Proof using Hsrc RL.
  intros Ht Hn. unfold find_request. rewrite (tbl_get_ok A _ id Ht), (assoc_get_notin id A Hn).
  cbn [mbind res_bind]. rewrite (set_table_id (sv_table st) st) by done.
  change (NULL =? NULL) with true. cbv iota.
  rewrite mem_read_slice by (unfold sizeof_sockaddr in *; lia). cbn [mbind res_bind].
  unfold new_request at 1. cbn [sv_table].
  destruct (tbl_put_ok A (sv_table st) id (sv_fresh st) Ht) as (t&->&Ht').
  cbn [mbind res_bind]. rewrite assoc_put_new in Ht' by done. by exists t.
Qed.

Lemma find_request_old A st p :
  tbl_rep A (sv_table st) -> assoc_get id A = p -> p <> NULL ->
  find_request id src now st = Ok (p, st).
Proof using RL.
  intros Ht Hget Hp. unfold find_request. rewrite (tbl_get_ok A _ id Ht), Hget.
  cbn [mbind res_bind]. rewrite (set_table_id (sv_table st) st) by done.
  by rewrite (proj2 (Z.eqb_neq p NULL)) by done.
Qed.

Lemma loop_new A st ps buffer p :
  tbl_rep A (sv_table st) -> id ∉ A.*1 -> 0 < sv_fresh st ->
  (pk_offset p = 0 -> zlen (pk_options p) < FF_REQUEST_MAX_OPTIONS) ->
  Forall (packet_of id P) (p :: ps) ->
  Forall (fun p => zlen (wire_packet p) <= zlen buffer) (p :: ps) ->
  consecutive 0 (p :: ps) (zlen P) ->
  exists t r nodes buffer',
    proxy_loop (map (packet_datagram src now) (p :: ps)) buffer st =
      Ok (Waiting buffer', started (allocated t st) (sv_fresh st) r) /\
    tbl_rep (A ++ [(id, sv_fresh st)]) t /\ receiving id P r nodes /\
    rq_state r = FF_REQUEST_STATE_RECEIVED /\
    rq_options r = map loaded (pk_options p) /\ rq_payload_contains_options r = pk_contains p.
Proof using All.
  intros Ht Hn Hf Hopt Hps Hsz Hc. destruct (find_request_new A st Ht Hn) as (t&Hfind&Ht').
  pose proof (find_request_old _ (allocated t st) (sv_fresh st) Ht'
    (assoc_get_snoc id (sv_fresh st) A Hn) ltac:(unfold NULL; lia)) as Hfind'.
  pose proof Hps as Hps'. apply Forall_cons in Hps' as [Hp _].
  pose proof Hsz as Hsz'. apply Forall_cons in Hsz' as [Hz _]. destruct (Hc) as (Ho&_).
  assert (proxy_loop (map (packet_datagram src now) (p :: ps)) buffer st =
          proxy_loop (map (packet_datagram src now) (p :: ps)) buffer (allocated t st)) as ->.
  { cbn [map]. rewrite !(proxy_loop_packet id P) by done. cbv zeta.
    unfold ff_proxy_process_incoming_packet. rewrite (wire_not_raw id P HP) by done.
    cbn [mbind res_bind].
    destruct (packet_fields id P p (drop (length (wire_packet p)) buffer) HPlen ltac:(lia) Hp)
      as (_&Hfd&_).
    rewrite parse_id_ok; [|by apply (wire_not_raw id P HP)|].
    2:{ eapply packet_readable; [by eapply (packet_ok_wire id P)|lia|].
        destruct (packet_bounds id P p HPlen Hp) as (_&?&->&?). lia. }
    cbn [mbind res_bind]. rewrite Hfd, (proj2 (Z.eqb_neq id 0)) by lia.
    by rewrite Hfind, Hfind'. }
  destruct (loop_in_order id P src now HP HPlen Hid Hsrc (A ++ [(id, sv_fresh st)]) (sv_fresh st) ps
    (allocated t st) (new_received (slice src 0 sizeof_sockaddr) now) [] 0 buffer p)
    as (r&nodes&buffer'&Hl&Hr&Hst&Eo&Ec); try done.
  - by apply assoc_get_snoc.
  - unfold NULL. lia.
  - cbn. by rewrite lookup_insert_eq.
  - apply prefix_new.
  - exists t, r, nodes, buffer'. unfold packet_options in Eo, Ec. rewrite Ho in Eo, Ec.
    split_and!; done.
Qed.
End Packets.

(** ** The worker *)

(** What the stages of a worker compute for a request that is sent. *)
Record processed (config : ff_config) (env : send_env) (time : Z) (r r' : ff_request)
    (ev : sent_event) : Prop := {
  pr_free : ff_request_free r' = Ok tt;
  pr_stages : exists r2 r3 r4,
    ff_request_vectorise_payload r = Ok r2 /\
    ff_decrypt_request r2 (Some (cf_encryption config)) = Ok r3 /\
    rq_state r3 = FF_REQUEST_STATE_DECRYPTED /\
    ff_request_parse_options_from_payload r3 = Ok r4 /\
    rq_state r4 = FF_REQUEST_STATE_PARSED_OPTIONS /\
    ff_proxy_validate_request_timestamp r4 config time = Ok true /\
    ff_http_send_request (mk_log_env (cf_logging_level config) (se_nowinfo env)) env r4 =
      Ok (r', Some ev);
}.

Lemma run_worker_step fuel config env time w st st' w' :
  worker_stage config env time w st = Ok (st', Some w') ->
  run_worker (S fuel) config env time w st = run_worker fuel config env time w' st'.
Proof. intros H. cbn [run_worker]. by rewrite H. Qed.

Lemma process_request_ok config env time A st p r r' ev :
  tbl_rep A (sv_table st) -> sv_heap st !! p = Some r ->
  processed config env time r r' ev ->
  exists t, ff_proxy_process_request config env time p st =
      Ok (mk_server t (delete p (sv_heap st)) (sv_fresh st) (sv_workers st) (sv_sent st ++ [ev])) /\
    tbl_rep (if rq_request_id r' =? 0 then A else assoc_remove (rq_request_id r') A) t.
Proof.
  intros Ht Hr [Hfree (r2&r3&r4&H2&H3&S3&H4&S4&Hv&Hs)]. unfold ff_proxy_process_request.
  assert (forall q st, load_request p (store_request p q st) = Ok q) as Hload by
    (intros; apply load_store).
  erewrite run_worker_step.
  2:{ unfold worker_stage, load_request. cbn [wk_request wk_stage]. rewrite Hr.
      cbn [mbind res_bind]. rewrite H2. reflexivity. }
  erewrite run_worker_step.
  2:{ unfold worker_stage. cbn [wk_request wk_stage]. rewrite Hload. cbn [mbind res_bind].
      rewrite H3. cbn [mbind res_bind]. rewrite S3. reflexivity. }
  erewrite run_worker_step.
  2:{ unfold worker_stage. cbn [wk_request wk_stage]. rewrite Hload. cbn [mbind res_bind].
      rewrite H4. cbn [mbind res_bind]. rewrite S4. reflexivity. }
  erewrite run_worker_step.
  2:{ unfold worker_stage. cbn [wk_request wk_stage]. rewrite Hload. cbn [mbind res_bind].
      rewrite Hv. reflexivity. }
  erewrite run_worker_step.
  2:{ unfold worker_stage. cbn [wk_request wk_stage]. rewrite Hload. cbn [mbind res_bind].
      rewrite Hs. reflexivity. }
  rewrite !store_store.
  assert (exists t, (if negb (rq_request_id r' =? 0)
      then table_remove (rq_request_id r') (add_sent (Some ev) (store_request p r' st))
      else Ok (add_sent (Some ev) (store_request p r' st))) =
      Ok (put_table t (add_sent (Some ev) (store_request p r' st))) /\
      tbl_rep (if rq_request_id r' =? 0 then A else assoc_remove (rq_request_id r') A) t)
    as (t&Hrm&Ht').
  { destruct (rq_request_id r' =? 0); [by exists (sv_table st)|]. by apply table_remove_ok. }
  erewrite run_worker_step.
  2:{ unfold worker_stage, load_request. cbn [wk_request wk_stage add_sent sv_heap store_request].
      rewrite lookup_insert_eq. cbn [mbind res_bind]. rewrite Hrm. reflexivity. }
  exists t. split; [|done]. cbn [run_worker worker_stage wk_stage wk_request].
  unfold free_request, load_request. cbn [put_table sv_heap add_sent store_request].
  rewrite lookup_insert_eq. cbn [mbind res_bind]. rewrite Hfree. cbn [mbind res_bind].
  by rewrite delete_insert_eq.
Qed.

(** ** Sending *)

(** The transports work, the server of the host is the one it should be and
    answers, and the name of the host fits the log at the level of the
    configuration. *)
Record network_ok (config : ff_config) (env : send_env) (host : list Z) : Prop := {
  nw_http : http_calls (se_http env) /\ http_writes (se_http env) /\
    http_reachable (se_http env) host = true;
  nw_http_reply : exists reply, http_reply (se_http env) reply;
  nw_tls : tls_calls (se_tls env) /\ tls_writes (se_tls env) /\
    tls_verified (se_tls env) host = true;
  nw_reply : exists reply, tls_reply (se_tls env) reply;
  nw_reads : (0 < se_tls_reads env)%nat;
  nw_log : host_logged (mk_log_env (cf_logging_level config) (se_nowinfo env)) host;
}.

Lemma log_destination_ok lg host :
  host_logged lg host -> log_destination_host lg (Some host) = Ok tt.
Proof.
  intros H. cbn [log_destination_host].
  eapply (log_host_ok lg host); [done|done|decide_compute|by eapply host_arg|reflexivity|lia].
Qed.

Lemma send_request_ok config env r P host https :
  network_ok config env host -> holds_payload P r -> 0 < zlen P ->
  ff_http_get_destination_host r = Ok (Some host) ->
  rq_options_length r = zlen (rq_options r) ->
  https_loop (rev (rq_options r)) false = Ok https ->
  exists s, ff_http_send_request (mk_log_env (cf_logging_level config) (se_nowinfo env)) env r =
    Ok (set_state s r, Some (sent_over https host P)).
Proof.
  intros [(C1&W1&R1) (answer&Hans) (C2&W2&V2) (reply&Hrep) Hn Hlog] HR Hpos Hhost Hlen Hhttps.
  unfold ff_http_send_request. rewrite visited_all by done. cbn [mbind res_bind].
  rewrite Hhttps. cbn [mbind res_bind]. unfold send_over. rewrite Hhost. cbn [mbind res_bind].
  rewrite log_destination_ok by done. cbn [mbind res_bind]. destruct https.
  - destruct (se_tls_reads env) as [|n]; [lia|].
    rewrite (send_tls_ok _ (se_tls env) n P r host reply) by done. by eexists.
  - rewrite (send_unencrypted_ok _ (se_http env) P r host answer) by done. by eexists.
Qed.
End Life.
