(* ===== verification/ServerProps.v ===== *)
(** * Properties of the server *)

From S2P Require Import Prelude Bytes HashTable HashTableOps HashTableUpdate HashTableSpec.
From S2P Require Import Request Strings Logging Config Parser ParserFacts Reassembly.
From S2P Require Import PayloadOptions Crypto CryptoFacts.
From S2P Require Import Client ClientFacts ClientCryptoFacts EndToEnd Http HttpFacts.
From S2P Require Import HttpSendFacts HttpProps HttpSendProps Server ServerFacts ServerInv.
From S2P Require Import ServerSteps ServerClean ServerEndToEnd ServerRun.

(** ** Executions

    The main thread, the workers and the clean-up thread take steps in any
    order.  [sys_pending] is what the clean-up thread has still to remove. *)

Section Executions.
Context {HO : HostOrder} {OS : OpenSSL} {T : Type} {RT : RequestTable T}.

Record system : Type := mk_system {
  sys_server : server T;
  sys_pending : list Z;
}.

(** Who takes a step, and for the main thread the packet it received. *)
Inductive thread_step : Type :=
  | Packet (src buff : list Z) (n now : Z)
  | Worker
  | Scan
  | Removal.

(** A step of a thread, in any state: what [recvfrom] gives is a block that
    starts with a packet of [n] bytes, and an address. *)
Inductive server_step (config : ff_config) : thread_step -> system -> system -> Prop :=
  | StepPacket src buff n now st st' pending :
      packet_ok n buff -> sizeof_sockaddr <= zlen src ->
      ff_proxy_process_incoming_packet src buff n now st = Ok st' ->
      server_step config (Packet src buff n now) (mk_system st pending) (mk_system st' pending)
  | StepWorker env time l1 w l2 st st' next pending :
      sv_workers st = l1 ++ w :: l2 ->
      worker_stage config env time w st = Ok (st', next) ->
      server_step config Worker (mk_system st pending)
        (mk_system (set_workers (next_workers l1 next l2) st') pending)
  | StepScan now st st' pending :
      clean_up_scan now st = Ok (pending, st') ->
      server_step config Scan (mk_system st []) (mk_system st' pending)
  | StepRemove p pending st st' :
      clean_up_remove p st = Ok st' ->
      server_step config Removal (mk_system st (p :: pending)) (mk_system st' pending).

(** The constraint on an execution: no packet comes for a request that a
    worker or the clean-up thread holds.  Without it the code does use freed
    requests ([late_packet_use_after_free]). *)
Definition undisturbing (l : thread_step) (s : system) : Prop :=
  match l with
  | Packet _ buff n _ => undisturbed (sys_pending s) (sys_server s) n buff
  | _ => True
  end.

Definition undisturbed_step (config : ff_config) (s s' : system) : Prop :=
  exists l, undisturbing l s /\ server_step config l s s'.
End Executions.
Arguments system T : clear implicits.

Section Claims.
Context {HO : HostOrder} {OS : OpenSSL} {T : Type} {RT : RequestTable T} {RL : RequestTableLaws T}.
Implicit Types (st : server T) (A : list (Z * Z)).

(** The states of undisturbed executions. *)
Definition reachable (config : ff_config) (t : T) (s : system T) : Prop :=
  rtc (undisturbed_step config) (mk_system (initial t) []) s.

Lemma initial_inv t : tbl_rep [] t -> server_inv NULL [] [] (initial t).
Proof.
  intros Ht. split; try done; cbn; try lia.
  - constructor.
  - by intros k p ?%elem_of_nil.
  - constructor.
  - by intros w ?%elem_of_nil.
  - by intros w ?%elem_of_nil.
  - by intros p ?%elem_of_nil.
Qed.

(** The id of a packet that was handled could be read. *)
Lemma handled_packet_in src buff n now st st' :
  packet_ok n buff -> sizeof_sockaddr <= zlen src ->
  ff_proxy_process_incoming_packet src buff n now st = Ok st' -> packet_in n buff src.
Proof.
  intros Hp Hsrc Hr. split; [done| |done]. intros Hraw. revert Hr.
  unfold ff_proxy_process_incoming_packet, ff_request_parse_id. rewrite Hraw.
  cbn [mbind res_bind]. destruct (load_uint 8 buff 2) eqn:Hl; [|done]. intros _.
  by apply load_uint_readable in Hl.
Qed.

Lemma step_inv config s s' A :
  undisturbed_step config s s' -> server_inv NULL A (sys_pending s) (sys_server s) ->
  exists A', server_inv NULL A' (sys_pending s') (sys_server s').
Proof.
  intros (l&Hl&Hs) Hi. destruct Hs as [src buff n now st st' pending Hp Hsrc Hr
    |env time l1 w l2 st st' next pending Hw Hr|now st st' pending Hr|p pending st st' Hr];
    cbn in *.
  - pose proof (handled_packet_in src buff n now st st' Hp Hsrc Hr) as Hin.
    destruct (incoming_packet_ok A pending st n buff src now Hi Hin Hl) as (st1&A'&H1&H2).
    exists A'. congruence.
  - by eapply worker_step_ok.
  - destruct (scan_inv A now st Hi (scan_small A now st _ Hi Hr)) as (pd&st1&H1&H2). exists A.
    congruence.
  - destruct (clean_up_remove_ok A p pending st Hi) as (st1&A'&H1&H2). exists A'. congruence.
Qed.

Lemma reachable_inv config t s :
  tbl_rep [] t -> reachable config t s ->
  exists A, server_inv NULL A (sys_pending s) (sys_server s).
Proof.
  intros Ht Hr. assert (exists A, server_inv NULL A [] (initial t)) as Hi
    by (exists []; by apply initial_inv).
  change (@nil Z) with (sys_pending (mk_system (initial t) [])) in Hi.
  change (initial t) with (sys_server (mk_system (initial t) [])) in Hi at 2.
  revert Hi. unfold reachable in Hr. induction Hr as [|s1 s2 s3 Hs _ IH]; [done|].
  intros [A Hi]. apply IH. by eapply step_inv.
Qed.

(** C4: Ownership of requests.  In every state of an execution of the main
    thread, the workers and the clean-up thread, in any order of their steps
    but without a packet for a request that a worker or the clean-up thread
    holds at that time: each worker has a request of its own, which is alive;
    each entry of the table is alive and has the id of its key; and it is
    either the request of a worker, or one that is still being received and
    well-formed. *)
Theorem server_ownership (config : ff_config) (t : T) (s : system T) :
  tbl_rep [] t -> reachable config t s ->
  NoDup (wk_request <$> sv_workers (sys_server s)) /\
  (forall w, w ∈ sv_workers (sys_server s) ->
     is_Some (sv_heap (sys_server s) !! wk_request w)) /\
  exists A, tbl_rep A (sv_table (sys_server s)) /\
    forall k p, (k, p) ∈ A -> exists r, sv_heap (sys_server s) !! p = Some r /\
      rq_request_id r = k /\
      (p ∈ wk_request <$> sv_workers (sys_server s) \/
       rq_state r = FF_REQUEST_STATE_RECEIVING /\ wf_request r).
Proof.
  intros Ht Hr. destruct (reachable_inv config t s Ht Hr) as [A Hi].
  split_and!; [apply Hi| |exists A; split; [apply Hi|]].
  - intros w Hw. destruct (sv_live _ _ _ _ Hi w Hw) as (r&Hr'&_). eauto.
  - intros k p Hin. destruct (sv_entry _ _ _ _ Hi k p Hin) as (_&r&Hr'&H1&H2). exists r.
    destruct (decide (p ∈ wk_request <$> sv_workers (sys_server s))) as [Hf|Hf].
    { split_and!; auto. }
    destruct (H2 Hf) as [Hwf Hst [[_ Hid]|[-> _]]]; [split_and!; auto|].
    apply (sv_range _ _ _ _ Hi) in Hr'. unfold NULL in Hr'. lia.
Qed.

(** C7: The main thread and the clean-up thread do not fault.  In every
    state of an execution without a packet for a request that a worker or the
    clean-up thread holds, a packet of any bytes is handled, also between the
    scan and the removals of a clean-up, unless its own request is held by one
    of them, and provided that the bytes 2 to 9 of the buffer, where the id
    is, have been written; the scan of a clean-up (of fewer than 2^32
    requests) and its removals are done: no freed request is touched, no
    buffer left, no lock taken twice. *)
Theorem server_no_fault (config : ff_config) (t : T) (s : system T) :
  tbl_rep [] t -> reachable config t s ->
  (forall src buff n now, packet_in n buff src ->
     undisturbed (sys_pending s) (sys_server s) n buff ->
     is_ok (ff_proxy_process_incoming_packet src buff n now (sys_server s))) /\
  (sys_pending s = [] -> Z.of_nat (size (sv_heap (sys_server s))) < 2 ^ 32 ->
     forall now, is_ok (clean_up_scan now (sys_server s))) /\
  (forall p rest, sys_pending s = p :: rest -> is_ok (clean_up_remove p (sys_server s))).
Proof.
  intros Ht Hr. destruct (reachable_inv config t s Ht Hr) as [A Hi]. split_and!.
  - intros src buff n now Hp Hq.
    destruct (incoming_packet_ok A _ _ n buff src now Hi Hp Hq) as (st1&_&H1&_). by exists st1.
  - intros E Hsz now. rewrite E in Hi. pose proof (entries_heap_size _ _ _ Hi).
    destruct (scan_inv A now _ Hi) as (pd&st1&H1&_); [lia|]. by eexists.
  - intros p rest E. rewrite E in Hi.
    destruct (clean_up_remove_ok A p rest _ Hi) as (st1&_&H1&_). by eexists.
Qed.

(** *** End to end *)

Context {OL : OpenSSLLaws}.

(** The datagrams of the client, as the server receives them. *)
Definition arrive (src : list Z) (now : Z) (sent : list (list Z)) : list received :=
  map (fun data => Datagram src data now) sent.

Lemma arrive_wire src now ps :
  arrive src now (map wire_packet ps) = map (packet_datagram src now) ps.
Proof. unfold arrive. by rewrite map_map. Qed.

(** What the worker makes of the joined payload of a client. *)
Lemma client_processed config env time (sealing : ff_encryption_config) https now salt iv file host
    c opts id r1 nodes :
  let M := wire_options (payload_options https now) false ++ file in
  cf_encryption config = sealing -> key_ok sealing ->
  bytes file -> 0 < zlen file <= FF_CLIENT_READ_PAYLOAD_BUFFER_SIZE ->
  of_size 16 salt -> of_size 12 iv -> sealed sealing M salt iv = Some (c, opts) ->
  Z.abs (u64 time - u64 now) <= cf_timestamp_fudge_factor config ->
  network_ok config env host -> id <> 0 ->
  (forall r, holds_payload file r -> ff_http_get_destination_host r = Ok (Some host)) ->
  receiving id c r1 nodes -> rq_state r1 = FF_REQUEST_STATE_RECEIVED ->
  rq_options r1 = opts -> rq_payload_contains_options r1 = true ->
  exists r', processed config env time r1 r' (sent_over https host file) /\ rq_request_id r' = id.
Proof.
  intros M Henc Hkey Hb Hf Hs Hi Hseal Hfudge Hnet Hid0 Hhost Hrc Hst Ho Hcont.
  unfold FF_CLIENT_READ_PAYLOAD_BUFFER_SIZE in Hf.
  assert (zlen M < 2000 /\ bytes M) as [HM1 HM].
  { unfold M. rewrite zlen_app, zlen_payload_options. split; [destruct https; lia|].
    apply Forall_app. split; [apply bytes_wire_options, payload_options_wf|done]. }
  destruct (sealed_facts _ M salt iv c opts HM Hs Hi Hseal) as (Hzc&Bc&Hwfo&Hld&H5&_).
  destruct (received_joined id c r1 nodes Bc ltac:(lia) Hrc Hst)
    as (r2&Hv&Hwf2&Hsp&Eo&Ec&El&Eid). rewrite Ho in Eo. rewrite Hcont in Ec.
  destruct (sealed_received sealing M salt iv c opts r2 Hkey HM)
    as (r3&node&Hdec&Hst3&Hwf3&Hp3&Hnb&Ho3&Hc3); try done; [lia|].
  destruct (from_payload_body r3 node (payload_options https now) file)
    as (r4&Hparse&Hst4&Ho4&Hol4&_&Hl4&Hsp4); try done.
  { congruence. }
  { apply payload_options_wf. }
  { intros ->. unfold zlen in Hf. cbn in Hf. lia. }
  { rewrite Ho3. unfold FF_REQUEST_MAX_OPTIONS.
    assert (zlen (payload_options https now) <= 2) by (by destruct https). lia. }
  rewrite Ho3 in Ho4. pose proof (sealed_plain_options _ _ _ _ _ _ Hseal) as Hplain.
  assert (holds_payload file r4) as HR by (split; [done|done|done|lia]).
  destruct (send_request_ok config env r4 file host https Hnet HR ltac:(lia) (Hhost r4 HR) Hol4)
    as (sst&Hsend); [rewrite Ho4; by apply client_https|].
  assert (rq_request_id r4 = id) as Hid4.
  { destruct (parse_options_from_payload_keeps r3 r4 Hparse) as [-> _].
    destruct (decrypt_keeps r2 (Some sealing) r3 Hdec) as [-> _]. done. }
  exists (set_state sst r4). split; [|done]. split.
  - unfold ff_request_free. cbn [rq_options_length rq_options set_state rq_payload].
    rewrite Hol4, bool_decide_true by lia. cbn.
    destruct Hsp4 as (nd&->&_). done.
  - exists r2, r3, r4. rewrite Henc. split_and!; try done.
    unfold ff_proxy_validate_request_timestamp. rewrite visited_all by done. cbn [mbind res_bind].
    rewrite Ho4, client_stamp by done. cbn [mbind res_bind].
    destruct (u64 now =? 0); [done|]. cbv zeta.
    rewrite timestamp_diff by apply u64_range. by rewrite (proj2 (Z.leb_le _ _)) by lia.
Qed.

(** The whole way of a request; the lemma behind the claim. *)
Lemma client_proxied (client : ff_client_config) (net : client_net) (config : ff_config)
    (env : send_env)
    (file host salt iv id_bytes src buffer : list Z) (now time received_at : Z)
    (lines : list (list Z)) (hdr : list Z) (k : nat) (c : Z) (rest : list Z)
    A st :
  let rnd := mk_client_random (Some salt) (Some iv) (Some id_bytes) in
  let M := wire_options (payload_options (cc_https client) now) false ++ file in
  host_request lines hdr k host c rest file -> zlen host <= POSIX_HOST_NAME_MAX ->
  bytes file -> zlen file <= FF_CLIENT_READ_PAYLOAD_BUFFER_SIZE ->
  key_ok (cc_encryption client) -> of_size 16 salt -> of_size 12 iv -> of_size 8 id_bytes ->
  cf_encryption config = cc_encryption client ->
  Z.abs (u64 time - u64 now) <= cf_timestamp_fudge_factor config ->
  client_net_ok client net -> network_ok config env host ->
  sizeof_sockaddr <= zlen src -> zlen buffer = FF_PROXY_BUFF_SIZE ->
  tbl_rep A (sv_table st) -> 0 < sv_fresh st -> sv_heap st !! sv_fresh st = None ->
  le_combine id_bytes <> 0 -> le_combine id_bytes ∉ A.*1 ->
  is_Some (sealed (cc_encryption client) M salt iv) ->
  exists sent buffer' st1 st2,
    ff_client_make_request client file now rnd net = Ok (sent, 0) /\
    proxy_loop (arrive src received_at sent) buffer st = Ok (Waiting buffer', st1) /\
    sv_workers st1 = sv_workers st ++ [mk_worker (sv_fresh st) Vectorise] /\
    ff_proxy_process_request config env time (sv_fresh st) st1 = Ok st2 /\
    sv_sent st2 = sv_sent st ++ [sent_over (cc_https client) host file] /\
    tbl_rep A (sv_table st2) /\ sv_heap st2 = sv_heap st.
Proof.
  intros rnd M Hreq Hhl Hb Hf Hkey Hs Hi Hid Henc Hfudge Hcn Hnet Hsrc Hbuf Ht Hfr Hnone Hid0 Hnin
    [[ct opts] Hseal].
  assert (0 < zlen file <= FF_CLIENT_READ_PAYLOAD_BUFFER_SIZE) as Hf'.
  { split; [|done]. rewrite (hr_text _ _ _ _ _ _ _ Hreq), !zlen_app, zlen_cons.
    pose proof (zlen_nonneg (header_text lines)). pose proof (zlen_nonneg hdr).
    pose proof (zlen_nonneg (replicate k 32)). pose proof (zlen_nonneg host).
    pose proof (zlen_nonneg rest). lia. }
  pose proof (make_packets_request client file now salt iv (Some id_bytes) Hb Hf' Hkey Hs Hi) as Hmk.
  cbv zeta in Hmk. fold M rnd in Hmk. rewrite Hseal in Hmk. destruct Hmk as (r&Hsend&Hmk).
  unfold FF_CLIENT_READ_PAYLOAD_BUFFER_SIZE in Hf'.
  assert (zlen M < 2000 /\ 0 < zlen M /\ bytes M) as (HM1&HM0&HM).
  { unfold M. rewrite zlen_app, zlen_payload_options. split_and!; [destruct (cc_https client); lia..|].
    apply Forall_app. split; [apply bytes_wire_options, payload_options_wf|done]. }
  destruct (sealed_facts _ M salt iv ct opts HM Hs Hi Hseal) as (Hzc&Bc&Hwfo&Hld&H5&_).
  destruct (generate_request_id_ok id_bytes Hid) as [Hgen Hrange].
  set (id := le_combine id_bytes) in *.
  destruct (packetise_ok id ct opts true r (Some id_bytes) (Hsend _ Hrange)) as (ps&Hpk&Hps&Hsm&Hc);
    [lia|done|].
  destruct (loop_new id ct src received_at Bc ltac:(lia) ltac:(lia) Hsrc A st ps buffer
    (next_packet id ct opts true 0)) as (t&r1&nodes&buffer'&Hloop&Ht1&Hrc&Hst1&Ho1&Hc1); try done.
  { intros _. cbn. unfold FF_REQUEST_MAX_OPTIONS. lia. }
  { eapply Forall_impl; [exact Hsm|]. rewrite Hbuf. cbn.
    unfold FF_CLIENT_MAX_PACKET_LENGTH, FF_PROXY_BUFF_SIZE. lia. }
  cbn in Ho1. rewrite Hld in Ho1.
  destruct (client_processed config env time (cc_encryption client) (cc_https client) now salt iv
    file host ct opts id r1 nodes) as (r'&Hpr&Hidr); try done.
  { intros r0 Hr0. by eapply get_destination_host_found. }
  destruct (process_request_ok config env time (A ++ [(id, sv_fresh st)])
    (started (allocated src received_at t st) (sv_fresh st) r1) (sv_fresh st) r1 r'
    (sent_over (cc_https client) host file)) as (t2&Hrun&Ht2); try done.
  { cbn. by rewrite lookup_insert_eq. }
  rewrite Hidr, (proj2 (Z.eqb_neq id 0)), assoc_remove_snoc in Ht2 by done.
  eexists (map wire_packet _), _, _, _. rewrite arrive_wire. unfold ff_client_make_request.
  rewrite Hmk, Hpk. cbn [mbind res_bind]. rewrite send_packets_ok by done. cbn [mbind res_bind].
  rewrite (sendable_free _ _ _ _ _ (Hsend _ Hrange)). cbn [mbind res_bind].
  split_and!; [done|exact Hloop|done|exact Hrun|done|done|].
  cbn. rewrite insert_insert_eq, delete_insert_id; done.
Qed.

(** C2: The proxy proxies.  The C client, given a file of at most 1024 bytes
    that is an HTTP request for some host, sends it in datagrams, sealed if
    there is a key; the server receives them, in whatever state its other
    requests are, and starts one worker; the worker sends exactly the file to
    exactly that host, over HTTPS if the client asked for it, when the host is
    reached, answers with an HTTP response and has a name that fits the log;
    and then the request is gone from the table and from the heap. *)
Theorem proxy_end_to_end (client : ff_client_config) (net : client_net) (config : ff_config)
    (env : send_env)
    (file host salt iv id_bytes src buffer : list Z) (now time received_at : Z)
    (lines : list (list Z)) (hdr : list Z) (k : nat) (c : Z) (rest : list Z)
    A st :
  let rnd := mk_client_random (Some salt) (Some iv) (Some id_bytes) in
  let M := wire_options (payload_options (cc_https client) now) false ++ file in
  host_request lines hdr k host c rest file -> zlen host <= POSIX_HOST_NAME_MAX ->
  bytes file -> zlen file <= FF_CLIENT_READ_PAYLOAD_BUFFER_SIZE ->
  key_ok (cc_encryption client) -> of_size 16 salt -> of_size 12 iv -> of_size 8 id_bytes ->
  cf_encryption config = cc_encryption client ->
  Z.abs (u64 time - u64 now) <= cf_timestamp_fudge_factor config ->
  client_net_ok client net -> network_ok config env host ->
  sizeof_sockaddr <= zlen src -> zlen buffer = FF_PROXY_BUFF_SIZE ->
  tbl_rep A (sv_table st) -> 0 < sv_fresh st -> sv_heap st !! sv_fresh st = None ->
  le_combine id_bytes <> 0 -> le_combine id_bytes ∉ A.*1 ->
  is_Some (sealed (cc_encryption client) M salt iv) ->
  exists sent buffer' st1 st2,
    ff_client_make_request client file now rnd net = Ok (sent, 0) /\
    proxy_loop (arrive src received_at sent) buffer st = Ok (Waiting buffer', st1) /\
    sv_workers st1 = sv_workers st ++ [mk_worker (sv_fresh st) Vectorise] /\
    ff_proxy_process_request config env time (sv_fresh st) st1 = Ok st2 /\
    sv_sent st2 = sv_sent st ++ [sent_over (cc_https client) host file] /\
    tbl_rep A (sv_table st2) /\ sv_heap st2 = sv_heap st.
Proof. apply client_proxied. Qed.
End Claims.
