(* ===== verification/ListTable.v ===== *)
(** * A table that is an association list

    The reference implementation of the interface of the request table: it
    shows that the laws can hold, and it computes. *)

From S2P Require Import Prelude Bytes HashTable HashTableOps HashTableUpdate HashTableSpec.

Definition list_table : Type := list (Z * Z).

#[export] Instance list_request_table : RequestTable list_table := {
  tbl_iterator := list (Z * Z);
  tbl_get id t := Ok (assoc_get id t, t);
  tbl_put id v t := Ok (tt, assoc_put id v t);
  tbl_remove id t := Ok (tt, assoc_remove id t);
  tbl_length t := u32 (zlen t);
  tbl_iter_init t := Ok (t, t);
  tbl_iter_next i t := match i with
                       | [] => Ok ((NULL, []), t)
                       | (_, v) :: i => Ok ((v, i), t)
                       end;
  tbl_iter_free t := Ok (tt, t);
  tbl_free t := Ok (tt, []);
  tbl_rep A t := t = A /\ NoDup A.*1;
  tbl_iter_rep A r i t := t = A /\ NoDup A.*1 /\ i = r;
}.

Lemma NoDup_assoc_put id v A : NoDup A.*1 -> NoDup (assoc_put id v A).*1.
Proof.
  intros H. unfold assoc_put. case_bool_decide as Hin.
  - replace (map _ A).*1 with A.*1; [done|]. rewrite <- list_fmap_compose. apply list_fmap_ext.
    intros _ [k w] _. cbn. by destruct (k =? id).
  - rewrite fmap_app. apply NoDup_app. split_and!; [done| |apply NoDup_singleton].
    intros x Hx Hx'%list_elem_of_singleton. cbn in Hx'. by subst x.
Qed.

Lemma NoDup_assoc_remove id A : NoDup A.*1 -> NoDup (assoc_remove id A).*1.
Proof.
  unfold assoc_remove. induction A as [|[k v] A IH]; [done|]. rewrite fmap_cons.
  intros [Hv HA]%NoDup_cons. rewrite filter_cons. destruct (decide _); [|by apply IH].
  rewrite fmap_cons. constructor; [|by apply IH].
  intros ([k' v']&E&[_ Hin]%list_elem_of_filter)%list_elem_of_fmap.
  cbn in E. subst k'. apply Hv. by apply (list_elem_of_fmap_2 fst _ (k, v')).
Qed.

#[export] Instance list_request_table_laws : RequestTableLaws list_table.
Proof.
  constructor; cbn.
  - by intros A t [_ H].
  - by intros A t id [-> _].
  - intros A t id v [-> H]. eexists. split; [done|]. split; [done|]. by apply NoDup_assoc_put.
  - intros A t id [-> H]. eexists. split; [done|]. split; [done|]. by apply NoDup_assoc_remove.
  - by intros A t [-> _].
  - intros A t [-> H]. by exists A, A.
  - by intros A r i t (->&_).
  - intros A k v r i t (->&H&->). by exists r.
  - intros A i t (->&H&->). by exists [].
  - intros A r i t (->&H&_). by exists A.
  - intros A t _. by exists [].
Qed.
