(* ===== verification/ServerHandling.v ===== *)
(** * Further properties of the server

    Raw HTTP requests, the time stamp, the clean-up, and the packets the
    server does not survive. *)

From S2P Require Import Prelude Bytes HashTable HashTableOps HashTableUpdate HashTableSpec.
From S2P Require Import Request Strings Logging Config Parser ParserFacts Reassembly.
From S2P Require Import PayloadOptions Crypto CryptoFacts.
From S2P Require Import Client ClientFacts ClientCryptoFacts EndToEnd Http HttpFacts.
From S2P Require Import HttpSendFacts HttpProps HttpSendProps Server ServerFacts ServerInv.
From S2P Require Import ServerSteps ServerClean ServerEndToEnd ServerRun ServerProps.

Section Claims.
Context {HO : HostOrder} {OS : OpenSSL} {T : Type} {RT : RequestTable T} {RL : RequestTableLaws T}.
Implicit Types (st : server T) (A : list (Z * Z)).

(** ** Raw HTTP *)

(** The request of a raw packet in a buffer. *)
Lemma raw_holds data rest :
  bytes data -> zlen data < 65536 ->
  holds_payload data (raw_request ff_request_alloc (zlen data) (data ++ rest)).
Proof.
  intros Hb Hs. pose proof (zlen_nonneg data). split; try done.
  eexists. split_and!; [reflexivity|done|done| |]; cbn [node_value];
    rewrite (slice_0_app data rest) by done.
  - rewrite zlen_app. pose proof (zlen_nonneg (replicate (7 * Z.to_nat (zlen data)) indet)). lia.
  - by apply slice_0_app.
Qed.

Lemma raw_processed config env time data rest host :
  ec_key (cf_encryption config) = None -> bytes data -> 0 < zlen data < 65536 ->
  network_ok config env host ->
  (forall r, holds_payload data r -> ff_http_get_destination_host r = Ok (Some host)) ->
  exists r', processed config env time (raw_request ff_request_alloc (zlen data) (data ++ rest)) r'
      (SentHttp host data) /\ rq_request_id r' = 0.
Proof.
  intros Hkey Hb Hs Hnet Hhost.
  set (r1 := raw_request ff_request_alloc (zlen data) (data ++ rest)).
  set (r4 := set_state FF_REQUEST_STATE_PARSED_OPTIONS (set_state FF_REQUEST_STATE_PARSING_OPTIONS
    (set_state FF_REQUEST_STATE_DECRYPTED r1))).
  assert (holds_payload data r4) as HR.
  { destruct (raw_holds data rest Hb ltac:(lia)). by split. }
  destruct (send_request_ok config env r4 data host false Hnet HR ltac:(lia) (Hhost _ HR) eq_refl eq_refl)
    as (s&Hsend).
  exists (set_state s r4). split; [|done]. split; [done|].
  assert (packet_ok (zlen data) (data ++ rest)) as Hp.
  { split; [rewrite zlen_app; pose proof (zlen_nonneg rest); lia|lia|by rewrite slice_0_app]. }
  assert (wf_request r1) as Hwf by (apply wf_raw_request; [apply wf_request_alloc|done]).
  exists r1, (set_state FF_REQUEST_STATE_DECRYPTED r1), r4. split_and!; try done.
  rewrite decrypt_request_no_key by eauto. done.
Qed.

(** A buffer that starts with a method is raw HTTP, whatever follows. *)
Lemma raw_detected data rest :
  bytes data -> 7 <= zlen data < 65536 -> Exists (fun m => m `prefix_of` data) HTTP_METHODS ->
  ff_request_is_raw_http (zlen data) (data ++ rest) = Ok true.
Proof.
  intros Hb Hs Hm. unfold ff_request_is_raw_http. rewrite (proj2 (Z.eqb_neq _ _)) by lia.
  assert (packet_ok (zlen data) (data ++ rest)) as Hp.
  { split; [rewrite zlen_app; pose proof (zlen_nonneg rest); lia|lia|by rewrite slice_0_app]. }
  destruct (is_raw_http_loop_spec HTTP_METHODS _ _ Hp methods_nonzero) as (b&->&_&H).
  f_equal. apply H.
  - repeat constructor; etrans; try apply Hs; done.
  - eapply Exists_impl; [exact Hm|]. intros m [k ->]. rewrite <- app_assoc. by apply slice_0_app.
Qed.

(** C15: A raw HTTP request.  A datagram of 7 to 2000 bytes that is itself an
    HTTP request with a Host header, on a server without a pre-shared key,
    starts a worker that sends these bytes to that host over plain HTTP, when
    the host is reached, answers with an HTTP response and has a name that
    fits the log; the table and the requests in the heap are as before. *)
Theorem raw_http_proxied (config : ff_config) (env : send_env) (data host src buffer : list Z)
    (now time : Z) (lines : list (list Z)) (hdr : list Z) (k : nat) (c : Z) (rest : list Z)
    A st :
  ec_key (cf_encryption config) = None ->
  host_request lines hdr k host c rest data -> zlen host <= POSIX_HOST_NAME_MAX ->
  bytes data -> 7 <= zlen data <= FF_PROXY_BUFF_SIZE -> zlen buffer = FF_PROXY_BUFF_SIZE ->
  Exists (fun m => m `prefix_of` data) HTTP_METHODS ->
  network_ok config env host -> tbl_rep A (sv_table st) -> sv_heap st !! sv_fresh st = None ->
  exists buffer' st1 st2,
    proxy_loop [Datagram src data now] buffer st = Ok (Waiting buffer', st1) /\
    sv_workers st1 = sv_workers st ++ [mk_worker (sv_fresh st) Vectorise] /\
    ff_proxy_process_request config env time (sv_fresh st) st1 = Ok st2 /\
    sv_sent st2 = sv_sent st ++ [SentHttp host data] /\
    tbl_rep A (sv_table st2) /\ sv_heap st2 = sv_heap st.
Proof.
  unfold FF_PROXY_BUFF_SIZE. intros Hkey Hreq Hhl Hb Hs Hbuf Hm Hnet Ht Hnone.
  set (rest' := drop (length data) buffer).
  destruct (raw_processed config env time data rest' host Hkey Hb ltac:(lia) Hnet) as (r'&Hpr&Hid).
  { intros r Hr. by eapply get_destination_host_found. }
  assert (packet_ok (zlen data) (data ++ rest')) as Hp.
  { split; [rewrite zlen_app; pose proof (zlen_nonneg rest'); lia|lia|by rewrite slice_0_app]. }
  pose proof (raw_detected data rest' Hb ltac:(lia) Hm) as Hraw.
  set (r1 := raw_request ff_request_alloc (zlen data) (data ++ rest')) in *.
  set (st0 := snd (new_request ff_request_alloc st)).
  assert (proxy_loop [Datagram src data now] buffer st =
          Ok (Waiting (data ++ rest'), started st0 (sv_fresh st) r1)) as Hloop.
  { cbn [proxy_loop recvfrom]. rewrite take_ge by (unfold zlen in *; lia). fold rest'.
    rewrite (proj2 (Z.eqb_neq _ 0)) by lia. unfold ff_proxy_process_incoming_packet.
    rewrite Hraw. cbn [mbind res_bind]. unfold new_request. unfold load_request. cbn [sv_heap].
    rewrite lookup_insert_eq. cbn [mbind res_bind]. rewrite parse_chunk_raw by done.
    cbn [mbind res_bind]. fold r1. rewrite switch_received by done. done. }
  destruct (process_request_ok config env time A (started st0 (sv_fresh st) r1) (sv_fresh st) r1 r'
    (SentHttp host data)) as (t&Hrun&Ht'); try done.
  { cbn. by rewrite lookup_insert_eq. }
  rewrite Hid in Ht'. eexists _, _, _.
  split_and!; [exact Hloop|done|exact Hrun|done|exact Ht'|].
  cbn. rewrite insert_insert_eq, delete_insert_id; done.
Qed.

(** ** The time stamp *)

(** C21: The time stamp of a request.  It is the first option of type
    TIMESTAMP with eight bytes; the request is accepted if there is none, if
    it is 0, or if it is at most [timestamp_fudge_factor] seconds away from
    the clock of the server, on either side. *)
Theorem timestamp_window (r : ff_request) (config : ff_config) (time : Z) :
  wf_request r ->
  ff_proxy_validate_request_timestamp r config time =
    Ok (match head (filter is_stamp (rq_options r)) with
        | None => true
        | Some o =>
            let timestamp := be_combine (opt_bytes o) in
            (timestamp =? 0) ||
            (Z.abs (u64 time - timestamp) <=? cf_timestamp_fudge_factor config)
        end).
Proof.
  intros Hwf. unfold ff_proxy_validate_request_timestamp.
  rewrite visited_all by apply Hwf. cbn [mbind res_bind].
  pose proof (wf_options _ Hwf) as Hopts. revert Hopts. generalize (rq_options r). intros options Hopts.
  destruct (filter is_stamp options) as [|o rest] eqn:Ef; cbn [head].
  - rewrite timestamp_loop_other; [done|]. apply Forall_rev, Forall_forall. intros o Ho Hs.
    apply (elem_of_nil o). rewrite <- Ef. by apply list_elem_of_filter.
  - destruct (filter_split is_stamp options o rest Ef) as (pre&post&->&Hpre&Ho).
    apply Forall_app in Hopts as [_ Hopts]. apply Forall_cons in Hopts as [Hwo Hpost].
    rewrite timestamp_first by done. cbn [mbind res_bind].
    assert (0 <= be_combine (opt_bytes o) < 2 ^ 64) as Hrange.
    { assert (bytes (opt_bytes o)) as Hb by (apply Hwo).
      pose proof (be_combine_range _ Hb) as Hr. rewrite zlen_opt_bytes in Hr by done.
      destruct Ho as [_ Hl]. rewrite Hl in Hr. exact Hr. }
    destruct (_ =? 0); [done|]. cbv zeta. cbn [orb].
    by rewrite timestamp_diff by (done || apply u64_range).
Qed.

(** ** The clean-up *)

(** C20: The clean-up removes exactly the expired requests from the table:
    those in state RECEIVING whose first packet came sixty seconds ago or
    earlier.  It frees none of them: the heap stays as it was, so their memory
    is lost.  This holds in every state of an execution without a packet for a
    request that a worker or the clean-up thread holds, with fewer than 2^32
    requests. *)
Theorem clean_up_exact (config : ff_config) (t : T) st (now : Z) :
  tbl_rep [] t -> reachable config t (mk_system st []) ->
  Z.of_nat (size (sv_heap st)) < 2 ^ 32 ->
  exists A st', tbl_rep A (sv_table st) /\ clean_up_old_requests now st = Ok st' /\
    tbl_rep (filter (fun kv => ~ expired now (sv_heap st) kv) A) (sv_table st') /\
    sv_heap st' = sv_heap st /\ sv_workers st' = sv_workers st.
Proof.
  intros Ht Hr Hsz. destruct (reachable_inv config t _ Ht Hr) as [A Hi]. cbn in Hi.
  pose proof (entries_heap_size _ _ _ Hi). exists A. unfold clean_up_old_requests.
  destruct (scan_ok A now st Hi) as (t1&->&Ht1); [lia|]. cbn [mbind res_bind].
  destruct (clean_up_removals_ok (filter (expired now (sv_heap st)) A) A (put_table t1 st) Ht1)
    as (t2&->&Ht2).
  { apply Forall_forall. intros [k p] [Hexp Hin]%list_elem_of_filter.
    by destruct (expired_entry A [] st now k p Hi Hin Hexp) as (_&r&Hr'&Hk); exists r. }
  rewrite filter_expired_keys in Ht2 by (eapply tbl_rep_nodup, Hi).
  eexists. split_and!; [apply Hi|done|exact Ht2|done|done].
Qed.

(** ** What stops the server *)


(** C29: A packet for a request in use frees it.  When the packet of an entry
    of the table fails, for instance because it repeats a chunk, its request
    is freed even if a worker or the clean-up thread holds it: each later
    stage of a worker, and a pending removal, then uses freed memory. *)
Theorem late_packet_use_after_free (id p : Z) (r r' : ff_request) (src buff : list Z) (n now : Z)
    A st :
  tbl_rep A (sv_table st) -> assoc_get id A = p -> p <> NULL -> sv_heap st !! p = Some r ->
  wf_request r -> rq_source r = slice src 0 sizeof_sockaddr -> packet_in n buff src ->
  ff_request_is_raw_http n buff = Ok false -> be_at 8 buff 2 = id -> id <> 0 ->
  ff_request_parse_chunk r n buff = Ok r' -> rq_state r' = FF_REQUEST_STATE_RECEIVING_FAIL ->
  exists st', ff_proxy_process_incoming_packet src buff n now st = Ok st' /\
    sv_workers st' = sv_workers st /\
    (forall config env time s,
       worker_stage config env time (mk_worker p s) st' = Err UseAfterFree) /\
    clean_up_remove p st' = Err UseAfterFree.
Proof.
  intros Ht Hget Hp Hr Hwf Hs [Hpk Hrd Hsrc] Hraw Hid Hid0 Hpc Hst.
  unfold ff_proxy_process_incoming_packet. rewrite Hraw. cbn [mbind res_bind].
  rewrite parse_id_ok by auto. cbn [mbind res_bind]. rewrite Hid, (proj2 (Z.eqb_neq id 0)) by done.
  rewrite (find_request_old id src now A st p Ht Hget Hp). cbn [mbind res_bind].
  unfold load_request at 1. rewrite Hr. cbn [mbind res_bind].
  rewrite mem_read_slice by (unfold sizeof_sockaddr in *; lia). cbn [mbind res_bind].
  rewrite bool_decide_true by done. cbn [negb]. rewrite Hpc. cbn [mbind res_bind].
  assert (wf_request r') as Hwf'.
  { destruct (parse_chunk_wf r n buff Hwf Hpk) as (r2&H2&?). congruence. }
  unfold switch_state. rewrite load_store. cbn [mbind res_bind]. rewrite Hst.
  change (FF_REQUEST_STATE_RECEIVING_FAIL =? FF_REQUEST_STATE_RECEIVING) with false.
  change (FF_REQUEST_STATE_RECEIVING_FAIL =? FF_REQUEST_STATE_RECEIVING_FAIL) with true.
  rewrite (proj2 (Z.eqb_neq id 0)) by done. cbn [negb].
  destruct (table_remove_ok A id (store_request p r' st) Ht) as (t&->&_). cbn [mbind res_bind].
  rewrite (free_request_ok p r') by (done || apply lookup_insert_eq).
  eexists. split_and!; [reflexivity|done|..].
  - intros config env time s. unfold worker_stage, free_request, load_request.
    cbn [wk_request wk_stage sv_heap put_table store_request]. rewrite lookup_delete_eq.
    unfold bad_pointer. rewrite (proj2 (Z.eqb_neq p NULL)) by done. by destruct s.
  - unfold clean_up_remove, load_request. cbn [sv_heap put_table store_request].
    rewrite lookup_delete_eq. unfold bad_pointer. by rewrite (proj2 (Z.eqb_neq p NULL)) by done.
Qed.

(** C39: A short packet is read past its end.  The id is taken from the bytes
    2 to 9 of the buffer whatever the length of the packet: a packet of fewer
    than ten bytes, the first the server receives, makes it use bytes of its
    stack that were never written. *)
Theorem short_packet_overread (src data : list Z) (now : Z) (rest : list received) st :
  bytes data -> 0 < zlen data < 10 ->
  ff_request_is_raw_http (zlen data) (data ++ drop (length data) (malloc FF_PROXY_BUFF_SIZE)) =
    Ok false ->
  proxy_loop (Datagram src data now :: rest) (malloc FF_PROXY_BUFF_SIZE) st = Err Indeterminate.
Proof.
  intros Hb Hl Hraw. cbn [proxy_loop].
  assert (recvfrom (malloc FF_PROXY_BUFF_SIZE) data =
    (zlen data, data ++ drop (length data) (malloc FF_PROXY_BUFF_SIZE))) as ->.
  { unfold recvfrom. rewrite take_ge; [done|]. unfold malloc, FF_PROXY_BUFF_SIZE.
    rewrite length_replicate. unfold zlen in Hl. lia. }
  rewrite (proj2 (Z.eqb_neq _ 0)) by lia. unfold ff_proxy_process_incoming_packet.
  rewrite Hraw. cbn [mbind res_bind]. unfold ff_request_parse_id. rewrite Hraw.
  cbn [mbind res_bind]. unfold load_uint, load_bytes.
  assert (length data < 10)%nat as Hn by (unfold zlen in Hl; lia).
  assert (10 <= zlen (data ++ drop (length data) (malloc FF_PROXY_BUFF_SIZE))) as Hlen.
  { unfold zlen, malloc, FF_PROXY_BUFF_SIZE. rewrite length_app, length_drop, length_replicate.
    lia. }
  change (Z.of_nat 8) with 8. rewrite (mem_read_slice _ 2 8) by lia.
  cbn [mbind res_bind]. rewrite bool_decide_false; [done|]. intros Hby.
  assert (slice (data ++ drop (length data) (malloc FF_PROXY_BUFF_SIZE)) 2 8 !! Z.to_nat 7 =
    Some indet) as Hlk.
  { rewrite lookup_slice by lia. rewrite lookup_app_r by (cbn; lia).
    unfold malloc. rewrite drop_replicate. apply lookup_replicate_2.
    unfold FF_PROXY_BUFF_SIZE. cbn. lia. }
  eapply Forall_lookup_1 in Hby; [|exact Hlk]. by destruct Hby.
Qed.
End Claims.
