(* ===== verification/ServerWitnesses.v ===== *)
(** * Runs of the server

    The hypotheses of the properties of the server hold in concrete
    executions: on the hash table with the width the server gives it, and on
    the table that is an association list. *)

From S2P Require Import Prelude Bytes HashTable HashTableOps HashTableUpdate HashTableSpec.
From S2P Require Import ListTable Request Strings Logging Config Parser ParserFacts Reassembly.
From S2P Require Import PayloadOptions Crypto.
From S2P Require Import CryptoFacts CryptoProps Client ClientFacts ClientCryptoFacts EndToEnd.
From S2P Require Import EndToEndProps Http HttpFacts HttpSendFacts HttpProps HttpSendProps Server.
From S2P Require Import ServerFacts ServerInv ServerSteps ServerClean ServerEndToEnd ServerRun.
From S2P Require Import ServerProps ServerHandling.
Import Toy.

#[local] Instance little_endian : HostOrder := LittleEndian.

Definition sample_config : ff_config := mk_config None None 30 toy_config FF_ERROR false.
Definition open_config : ff_config := 
  mk_config None None 30 (mk_encryption_config None 1000) FF_ERROR false.

Definition sample_src : list Z := replicate 16 9.

(** The first half of a message of eight bytes. *)
Definition half_packet : packet := mk_packet 5 8 0 [] false [71; 69; 84; 32].
Definition half_buffer : list Z := wire_packet half_packet ++ replicate 10 0.
Definition half_size : Z := zlen (wire_packet half_packet).

Lemma half_ok : packet_ok half_size half_buffer.
Proof. split; [by split|done|]. decide_compute. Qed.

Lemma half_in : packet_in half_size half_buffer sample_src.
Proof. split; [exact half_ok| |done]. intros _. by eapply packet_readable; [exact half_ok|..]. Qed.

(** A whole message in one packet. *)
Definition whole_packet : packet := mk_packet 6 4 0 [] false [71; 69; 84; 32].
Definition whole_buffer : list Z := wire_packet whole_packet ++ replicate 10 0.
Definition whole_size : Z := zlen (wire_packet whole_packet).

Lemma whole_ok : packet_ok whole_size whole_buffer.
Proof. split; [by split|done|]. decide_compute. Qed.

Lemma whole_in : packet_in whole_size whole_buffer sample_src.
Proof. split; [exact whole_ok| |done]. intros _. by eapply packet_readable; [exact whole_ok|..]. Qed.

(** The table of the server at its start. *)
Lemma sample_init : exists t : ht_state, ff_hash_table_init 16 = Ok t /\ tbl_rep [] t.
Proof. apply (ht_init_rep 16). done. Qed.

(** ** Executions on the association list *)

(** The state after a packet. *)
Definition after_packet (buff : list Z) (n : Z) (st : server list_table) : server list_table :=
  match ff_proxy_process_incoming_packet sample_src buff n 0 st with
  | Ok st' => st'
  | Err _ => st
  end.

(** Half of the first message is received, then the second message. *)
Definition half_received : server list_table := after_packet half_buffer half_size (initial []).
Definition both_received : server list_table := after_packet whole_buffer whole_size half_received.

(** A minute later, between the scan and the removals of the clean-up. *)
Definition half_scanned : server list_table :=
  match clean_up_scan 60 half_received with
  | Ok (_, st) => st
  | Err _ => half_received
  end.

Lemma empty_list_rep : tbl_rep [] ([] : list_table).
Proof. split; [done|constructor]. Qed.

Lemma unheld_undisturbed pending (st : server list_table) n buff :
  sv_workers st = [] -> assoc_get (be_at 8 buff 2) (sv_table st) ∉ pending ->
  undisturbed pending st n buff.
Proof.
  intros Hw Hp _ p t [= <- _]. unfold in_flight. rewrite Hw. split; [apply not_elem_of_nil|done].
Qed.

Lemma half_reachable : reachable sample_config ([] : list_table) (mk_system half_received []).
Proof.
  eapply rtc_l; [|apply rtc_refl]. exists (Packet sample_src half_buffer half_size 0). split.
  - apply unheld_undisturbed; [done|apply not_elem_of_nil].
  - constructor; [exact half_ok|done|vm_compute; reflexivity].
Qed.

Lemma both_reachable : reachable sample_config ([] : list_table) (mk_system both_received []).
Proof.
  eapply rtc_r; [exact half_reachable|]. exists (Packet sample_src whole_buffer whole_size 0). split.
  - apply unheld_undisturbed; [by vm_compute|apply not_elem_of_nil].
  - constructor; [exact whole_ok|done|vm_compute; reflexivity].
Qed.

Lemma scanned_reachable : reachable sample_config ([] : list_table) (mk_system half_scanned [1]).
Proof.
  eapply rtc_r; [exact half_reachable|]. exists Scan. split; [done|].
  apply (StepScan _ 60). vm_compute. reflexivity.
Qed.

(** Witness of C4: the first request is being received, the second is the
    request of a worker. *)
Lemma server_ownership_witness :
  wk_request <$> sv_workers both_received = [2] /\ NoDup (wk_request <$> sv_workers both_received) /\
  exists A, tbl_rep A (sv_table both_received) /\
    forall k p, (k, p) ∈ A -> exists r, sv_heap both_received !! p = Some r /\
      rq_request_id r = k /\
      (p ∈ wk_request <$> sv_workers both_received \/
       rq_state r = FF_REQUEST_STATE_RECEIVING /\ wf_request r).
Proof.
  split; [vm_compute; reflexivity|].
  destruct (server_ownership sample_config ([] : list_table) (mk_system both_received [])
    empty_list_rep both_reachable) as (Hnd&_&HA).
  exact (conj Hnd HA).
Defined.

(** Witness of C7: a packet between the scan and the removal, and the
    removal. *)
Lemma server_no_fault_witness :
  is_ok (ff_proxy_process_incoming_packet sample_src whole_buffer whole_size 0 half_scanned) /\
  is_ok (clean_up_remove 1 half_scanned).
Proof.
  destruct (server_no_fault sample_config ([] : list_table) (mk_system half_scanned [1])
    empty_list_rep scanned_reachable) as (Hpk&_&Hrm).
  split; [|by apply (Hrm 1 [])].
  apply (Hpk sample_src whole_buffer whole_size 0 whole_in).
  apply unheld_undisturbed; [by vm_compute|]. decide_compute.
Defined.

(** ** End to end *)

Lemma sample_network config : network_ok config sample_send (chars "a.b").
Proof.
  split.
  - split_and!; [apply sample_http_calls, sample_reply_line|apply sample_http_writes|reflexivity].
  - exists sample_reply. exact sample_http_reply.
  - split_and!; [apply sample_tls_calls|apply sample_tls_writes|reflexivity].
  - exists sample_reply. apply sample_tls_reply.
  - cbn. lia.
  - exact (sample_host_logged (cf_logging_level config)).
Qed.

Lemma host_payload_request :
  host_request sample_lines (chars "HoSt:") 1 (chars "a.b") 13 [10; 13; 10] host_payload.
Proof.
  apply sample_request. repeat (constructor; [by split|]). constructor.
Qed.

Definition sample_net : client_net := mk_client_net (fun _ _ => true) true (fun _ bs => zlen bs).

Lemma sample_net_ok client : client_net_ok client sample_net.
Proof. by split. Qed.

(** Witness of C2: a sealed request over HTTPS. *)
Lemma proxy_end_to_end_witness :
  exists (t : ht_state) sent buffer' st1 st2, ff_hash_table_init 16 = Ok t /\
    ff_client_make_request (toy_client true) host_payload 1600000000
      (mk_client_random (Some (replicate 16 3)) (Some (replicate 12 4)) (Some (replicate 8 5)))
      sample_net = Ok (sent, 0) /\
    proxy_loop (arrive sample_src 0 sent) (malloc FF_PROXY_BUFF_SIZE) (initial t) =
      Ok (Waiting buffer', st1) /\
    ff_proxy_process_request sample_config sample_send 1600000010 1 st1 = Ok st2 /\
    sv_sent st2 = [SentHttps (chars "a.b") host_payload] /\ sv_heap st2 = ∅.
Proof.
  destruct sample_init as (t&Ht&Hrep).
  destruct (proxy_end_to_end (toy_client true) sample_net sample_config sample_send host_payload (chars "a.b")
    (replicate 16 3) (replicate 12 4) (replicate 8 5) sample_src (malloc FF_PROXY_BUFF_SIZE)
    1600000000 1600000010 0 sample_lines (chars "HoSt:") 1 13 [10; 13; 10] [] (initial t))
    as (sent&buffer'&st1&st2&H1&H2&_&H3&H4&_&H5).
  - exact host_payload_request.
  - done.
  - exact host_payload_bytes.
  - done.
  - exact toy_key_ok.
  - exact toy_salt.
  - exact toy_iv.
  - exact toy_id.
  - reflexivity.
  - done.
  - exact (sample_net_ok _).
  - exact (sample_network _).
  - done.
  - reflexivity.
  - exact Hrep.
  - done.
  - reflexivity.
  - done.
  - intros ?%elem_of_nil. done.
  - vm_compute. by eexists.
  - exists t, sent, buffer', st1, st2.
    exact (conj Ht (conj H1 (conj H2 (conj H3 (conj H4 H5))))).
Defined.

Lemma host_payload_method : Exists (fun m => m `prefix_of` host_payload) HTTP_METHODS.
Proof. left. eexists. reflexivity. Qed.

(** Witness of C15. *)
Lemma raw_http_proxied_witness :
  exists (t : ht_state) buffer' st1 st2, ff_hash_table_init 16 = Ok t /\
    proxy_loop [Datagram sample_src host_payload 0] (malloc FF_PROXY_BUFF_SIZE) (initial t) =
      Ok (Waiting buffer', st1) /\
    ff_proxy_process_request open_config sample_send 0 1 st1 = Ok st2 /\
    sv_sent st2 = [SentHttp (chars "a.b") host_payload] /\ sv_heap st2 = ∅.
Proof.
  destruct sample_init as (t&Ht&Hrep).
  destruct (raw_http_proxied open_config sample_send host_payload (chars "a.b") sample_src
    (malloc FF_PROXY_BUFF_SIZE) 0 0 sample_lines (chars "HoSt:") 1 13 [10; 13; 10] [] (initial t))
    as (buffer'&st1&st2&H1&_&H2&H3&_&H4).
  - reflexivity.
  - exact host_payload_request.
  - done.
  - exact host_payload_bytes.
  - done.
  - reflexivity.
  - exact host_payload_method.
  - exact (sample_network _).
  - exact Hrep.
  - reflexivity.
  - exists t, buffer', st1, st2. exact (conj Ht (conj H1 (conj H2 (conj H3 H4)))).
Defined.

(** ** The time stamp *)

Definition stamped : ff_request := with_options host_payload [stamp_option 1600000000; stamp_option 5].

Lemma stamped_wf : wf_request stamped.
Proof.
  apply wf_with_options; [exact host_payload_bytes|reflexivity| |reflexivity].
  assert (forall n, wf_option (stamp_option n)) as Hs.
  { intros n. pose proof (map_loaded_wf _ (payload_options_wf false n)) as Hwf.
    by apply Forall_cons in Hwf as [Hwf _]. }
  by repeat constructor.
Qed.

(** Witness of C21: thirty seconds are accepted, the second stamp ignored. *)
Lemma timestamp_window_witness :
  ff_proxy_validate_request_timestamp stamped sample_config 1600000030 = Ok true.
Proof.
  rewrite (timestamp_window stamped sample_config 1600000030 stamped_wf).
  vm_compute. reflexivity.
Defined.

(** ** Runs on the association list *)

(** Witness of C20: after a minute the half message is removed. *)
Lemma clean_up_exact_witness :
  exists A st', clean_up_old_requests 60 half_received = Ok st' /\
    tbl_rep (filter (fun kv => ~ expired 60 (sv_heap half_received) kv) A) (sv_table st') /\
    sv_heap st' = sv_heap half_received.
Proof.
  destruct (clean_up_exact sample_config ([] : list_table) half_received 60 empty_list_rep
    half_reachable) as (A&st'&_&H1&H2&H3&_); [reflexivity|].
  exists A, st'. exact (conj H1 (conj H2 H3)).
Defined.


Definition half_request : ff_request := default ff_request_alloc (sv_heap half_received !! 1).

Definition repeated_request : ff_request :=
  match ff_request_parse_chunk half_request half_size half_buffer with
  | Ok r => r
  | Err _ => ff_request_alloc
  end.

Lemma half_request_wf : wf_request half_request.
Proof.
  destruct (parse_chunk_wf (new_received (slice sample_src 0 sizeof_sockaddr) 0) half_size half_buffer)
    as (r&Hr&Hwf).
  - apply wf_set_source, wf_set_received_at, wf_request_alloc.
  - exact half_ok.
  - assert (ff_request_parse_chunk (new_received (slice sample_src 0 sizeof_sockaddr) 0) half_size
      half_buffer = Ok half_request) as Heq by (vm_compute; reflexivity). congruence.
Qed.

Lemma half_rep : tbl_rep [(5, 1)] (sv_table half_received).
Proof. split; [vm_compute; reflexivity|apply NoDup_singleton]. Qed.

(** Witness of C29: the packet is received twice. *)
Lemma late_packet_use_after_free_witness :
  exists st', ff_proxy_process_incoming_packet sample_src half_buffer half_size 1 half_received =
      Ok st' /\ clean_up_remove 1 st' = Err UseAfterFree.
Proof.
  destruct (late_packet_use_after_free 5 1 half_request repeated_request sample_src half_buffer
    half_size 1 [(5, 1)] half_received half_rep) as (st'&H1&_&_&H2).
  - reflexivity.
  - discriminate.
  - vm_compute. reflexivity.
  - exact half_request_wf.
  - vm_compute. reflexivity.
  - exact half_in.
  - vm_compute. reflexivity.
  - vm_compute. reflexivity.
  - discriminate.
  - vm_compute. reflexivity.
  - vm_compute. reflexivity.
  - exists st'. exact (conj H1 H2).
Defined.

Lemma one_byte : bytes [1].
Proof. by constructor. Qed.

(** Witness of C39. *)
Lemma short_packet_overread_witness :
  proxy_loop [Datagram sample_src [1] 0] (malloc FF_PROXY_BUFF_SIZE) (initial ([] : list_table)) =
    Err Indeterminate.
Proof.
  apply (short_packet_overread sample_src [1] 0 [] (initial ([] : list_table))).
  - exact one_byte.
  - done.
  - vm_compute. reflexivity.
Defined.
