(* ===== verification/MainProps.v ===== *)
(** * Properties of the programs

    From the two command lines to the request sent on, and what the programs
    do with a command line they do not accept. *)

From S2P Require Import Prelude Bytes HashTable HashTableOps HashTableUpdate HashTableSpec.
From S2P Require Import Request Strings Logging LoggingFacts Args Parser ParserFacts Reassembly.
From S2P Require Import PayloadOptions Crypto CryptoFacts Config Client ClientConfig ConfigFacts.
From S2P Require Import ClientConfigFacts ConfigProps ClientFacts ClientCryptoFacts EndToEnd Http.
From S2P Require Import HttpFacts HttpSendFacts HttpProps HttpSendProps Server ServerFacts.
From S2P Require Import ServerInv ServerSteps ServerEndToEnd ServerRun ServerProps Main.

(** ** Command lines with a port and a key *)

Definition key_args (key : option (list Z)) : list (list Z) :=
  match key with Some k => [chars "--pre-shared-key"; k] | None => [] end.

Definition port_args (port : list Z) (key : option (list Z)) : list (list Z) :=
  chars "--port" :: port :: key_args key.

Definition https_args (https : bool) : list (list Z) := if https then [chars "--https"] else [].

(** The encryption both programs are configured with. *)
Definition key_config (key : option (list Z)) : ff_encryption_config :=
  mk_encryption_config (c_block <$> key) 1000.

Definition server_settings (port : list Z) (key : option (list Z)) : ff_config :=
  mk_config (Some port) (Some default_listen_address) 30 (key_config key) FF_ERROR false.

Definition client_settings (port : list Z) (key : option (list Z)) (https : bool)
    : ff_client_config :=
  mk_client_config (Some port) (Some default_ip_address) https (key_config key) FF_ERROR.

Lemma port_args_chars port key : c_chars port -> (forall k, key = Some k -> c_chars k) ->
  Forall c_chars (port_args port key).
Proof.
  intros Hp Hk. apply Forall_cons. split; [by apply chars_lower|]. apply Forall_cons. split; [done|].
  destruct key as [k|]; [|constructor]. apply Forall_cons. split; [by apply chars_lower|].
  apply Forall_cons. split; [by apply Hk|constructor].
Qed.

Lemma server_port_reading inet_pton port key : small_number port ->
  server_reading inet_pton (port_args port key)
    (Value OptPort port :: match key with Some k => [Value OptPsk k] | None => [] end) EndOfArgs.
Proof.
  intros Hp. apply reading_value; [done|done|]. destruct key as [k|]; [|constructor].
  by apply reading_value; [| |constructor].
Qed.

Lemma server_port_parsed inet_pton prog port key :
  c_chars port -> (forall k, key = Some k -> c_chars k) -> small_number port ->
  ff_parse_arguments inet_pton zero_config (prog :: port_args port key) =
    (FF_ACTION_START_PROXY, server_settings port key, []).
Proof.
  intros Hc Hk Hp. erewrite ff_parse_arguments_outcome;
    [|by apply server_port_reading|by apply port_args_chars]. by destruct key.
Qed.

Lemma client_port_parsed prog port key https :
  c_chars port -> (forall k, key = Some k -> c_chars k) -> small_number port ->
  ff_client_parse_arguments zero_client_config
    (prog :: port_args port key ++ https_args https) =
    (FF_CLIENT_ACTION_MAKE_REQUEST, client_settings port key https, []).
Proof.
  intros Hc Hk Hp.
  rewrite (ff_client_parse_arguments_result prog _
    ((Value ClientPort port :: match key with Some k => [Value ClientPsk k] | None => [] end) ++
     if https then [Flag Https] else []) EndOfArgs).
  - by destruct key, https.
  - apply reading_app.
    + apply reading_value; [done|done|]. destruct key as [k|]; [|constructor].
      by apply reading_value; [| |constructor].
    + destruct https; [|constructor]. by apply reading_flag; [|constructor].
  - apply Forall_app. split; [by apply port_args_chars|]. destruct https; [|constructor].
    apply Forall_cons. split; [by apply chars_lower|constructor].
Qed.

Lemma key_config_ok key : (forall k, key = Some k -> c_chars k) -> key_ok (key_config key).
Proof.
  intros Hk block Hb. destruct key as [k|]; [|done]. cbn in Hb. simplify_eq. exists k.
  rewrite <- (app_nil_r (c_block k)). apply c_string_block. by apply Hk.
Qed.

(** The system gives the proxy its socket. *)
Record proxy_ready (env : proxy_env) (address port : list Z) : Prop := {
  pr_found : is_Some (pe_getaddrinfo env address port);
  pr_socket : pe_socket env = true;
  pr_bound : pe_bind env = true;
}.

Section Claims.
Context {HO : HostOrder} {OS : OpenSSL} {OL : OpenSSLLaws}.

(** C1: The two programs together.  The client is started with a port,
    perhaps a key and [--https], and the server with the same port and key.
    Given a file of at most 1024 bytes that is an HTTP request for a host, the
    client exits with 0; the server, fed with the datagrams the client sent,
    is serving and has started one worker; and the worker sends exactly the
    file to exactly that host, over HTTPS if the client was told so, when the
    host is reached and answers with an HTTP response, and frees the request.
    At the level these programs log, the name of the host is not logged. *)
Theorem programs_end_to_end (inet_pton : address_family -> list Z -> bool) (env : proxy_env)
    (net : client_net) (send : send_env) (nowinfo : tm)
    (server_name client_name port : list Z) (key : option (list Z)) (https : bool)
    (file host salt iv id_bytes src : list Z) (now time received_at : Z)
    (lines : list (list Z)) (hdr : list Z) (k : nat) (c : Z) (rest : list Z) :
  let rnd := mk_client_random (Some salt) (Some iv) (Some id_bytes) in
  let M := wire_options (payload_options https now) false ++ file in
  c_chars port -> small_number port -> (forall s, key = Some s -> c_chars s) ->
  host_request lines hdr k host c rest file -> zlen host <= POSIX_HOST_NAME_MAX ->
  bytes file -> zlen file <= FF_CLIENT_READ_PAYLOAD_BUFFER_SIZE ->
  of_size 16 salt -> of_size 12 iv -> of_size 8 id_bytes -> le_combine id_bytes <> 0 ->
  is_Some (sealed (key_config key) M salt iv) ->
  Z.abs (u64 time - u64 now) <= 30 -> sizeof_sockaddr <= zlen src ->
  proxy_ready env default_listen_address port ->
  client_net_ok (client_settings port key https) net ->
  network_ok (server_settings port key) send host ->
  exists sent calls buffer st1 st2,
    client_main (client_name :: port_args port key ++ https_args https) file now rnd net nowinfo =
      Ok (ClientSent sent 0) /\
    server_main inet_pton env nowinfo (server_name :: port_args port key)
      (arrive src received_at sent) =
      Ok (Serving (server_settings port key) calls buffer st1) /\
    sv_workers st1 = [mk_worker 1 Vectorise] /\
    ff_proxy_process_request (server_settings port key) send time 1 st1 = Ok st2 /\
    sv_sent st2 = [sent_over https host file] /\ sv_heap st2 = ∅.
Proof.
  intros rnd M Hc Hp Hk Hreq Hhost Hb Hz Hs Hi Hid Hid0 Hseal Htime Hsrc Hready Hnet Hsend.
  assert (exists t : ht_state, ff_hash_table_init 16 = Ok t /\ tbl_rep [] t) as (t&Ht&Hrep)
    by (by apply (ht_init_rep 16)).
  destruct (client_proxied (client_settings port key https) net (server_settings port key) send
    file host salt iv id_bytes src (malloc FF_PROXY_BUFF_SIZE) now time received_at lines hdr k c
    rest [] (initial t)) as (sent&buffer&st1&st2&Hmk&Hloop&Hw&Hrun&Hout&_&Hheap); try done.
  { by apply key_config_ok. }
  { intros ?%elem_of_nil. done. }
  unfold client_main, server_main. rewrite client_port_parsed, server_port_parsed by done.
  fold rnd in Hmk. rewrite Hmk. cbn [mbind res_bind]. exists sent. destruct Hready as [[family Hf] Hsk Hbd].
  unfold ff_proxy_start. rewrite Ht. cbn [mbind res_bind]. cbn [server_settings cf_ip_address cf_port].
  rewrite Hf, Hsk, Hbd. cbn [negb]. rewrite Hloop. cbn [mbind res_bind].
  by eexists _, buffer, st1, st2.
Qed.

(** ** Command lines that are not accepted *)

(** The line [main] logs before it returns. *)
Definition exit_log (nowinfo : tm) : list Z := log_line nowinfo FF_INFO (chars "Exiting...").

Lemma exit_line_ok nowinfo : year_fits nowinfo -> exit_line nowinfo = Ok (exit_log nowinfo).
Proof.
  intros Hy. unfold exit_line. rewrite (ff_log_text _ _ _ _ _ (chars "Exiting...")); [done|done|done|].
  decide_compute.
Qed.

(** A reading that does not start the proxy because of an error. *)
Definition rejected (items : server_items) (e : ending server_option) : Prop :=
  match e with
  | UnknownArg _ | BadValue _ _ => True
  | EndOfArgs | MissingValue _ => last_value OptPort items = None
  | Help | Version => False
  end.

(** C26: What the server does with a command line that does not start it:
    help and version are printed to standard output and it exits with 0; for
    an error, a message and the usage are printed to standard error and it
    exits with 1.  No packet is read. *)
Theorem server_main_exits (inet_pton : address_family -> list Z -> bool) (env : proxy_env)
    (nowinfo : tm) (prog : list Z) (args : list (list Z)) (packets : list received)
    (items : server_items) (e : ending server_option) :
  year_fits nowinfo -> Forall c_chars args -> server_reading inet_pton args items e ->
  (e = Help -> server_main inet_pton env nowinfo (prog :: args) packets =
     Ok (Exited (mk_exited 0 (ff_print_usage ++ exit_log nowinfo) []))) /\
  (e = Version -> server_main inet_pton env nowinfo (prog :: args) packets =
     Ok (Exited (mk_exited 0 (ff_print_version ++ exit_log nowinfo) []))) /\
  (rejected items e -> exists message, message <> [] /\
     server_main inet_pton env nowinfo (prog :: args) packets =
     Ok (Exited (mk_exited 1 (exit_log nowinfo) (message ++ ff_print_usage)))).
Proof.
  intros Hy Hc Hr. unfold server_main.
  rewrite (ff_parse_arguments_outcome _ prog args items e) by done.
  split_and!; [intros ->|intros ->|].
  - cbn [server_outcome]. by rewrite exit_line_ok.
  - cbn [server_outcome]. by rewrite exit_line_ok.
  - intros He. destruct e; cbn [rejected] in He; try done; cbn [server_outcome]; rewrite ?He;
      rewrite exit_line_ok by done; eexists; (split; [|reflexivity]); done.
Qed.

(** [getaddrinfo] with [AI_NUMERICSERV] takes a numeric port: it fails when a
    letter is in it. *)
Definition isalpha (c : Z) : bool := ((65 <=? c) && (c <=? 90)) || ((97 <=? c) && (c <=? 122)).

Definition numeric_service (env : proxy_env) : Prop :=
  forall address service, existsb isalpha service = true ->
    pe_getaddrinfo env address service = None.

(** C34: A port that starts with a number is accepted whatever follows it, but
    the system finds no address for it; the server does not test for that and
    uses the pointer [res], which was never set. *)
Theorem port_suffix_crash (inet_pton : address_family -> list Z -> bool) (env : proxy_env)
    (nowinfo : tm) (prog rest : list Z) (n c : Z) (packets : list received) :
  0 < n <= UINT16_MAX -> isalpha c = true -> c_chars rest -> numeric_service env ->
  server_main inet_pton env nowinfo
    [prog; chars "--port"; show_unsigned n ++ c :: rest] packets = Err Indeterminate.
Proof.
  intros Hn Hc Hrest Henv. unfold UINT16_MAX in Hn. set (port := show_unsigned n ++ c :: rest).
  assert (isdigit c = false /\ is_byte c /\ c <> 0) as (Hd&Hb&H0).
  { unfold isalpha in Hc. unfold isdigit, is_byte. lia. }
  assert (small_number port) as Hsmall.
  { unfold small_number, port. rewrite atoi_digits by (done || lia). done. }
  assert (c_chars port) as Hport.
  { apply Forall_app. split; [apply show_unsigned_chars; lia|]. by apply Forall_cons. }
  unfold server_main. change [prog; chars "--port"; port] with (prog :: port_args port None).
  rewrite server_port_parsed by done. cbv beta iota zeta. unfold ff_proxy_start.
  destruct (ht_init_rep 16) as (t&Ht&_); [done|]. rewrite Ht. cbn [mbind res_bind].
  cbn [server_settings cf_ip_address cf_port]. rewrite Henv; [done|].
  unfold port. rewrite existsb_app. cbn [existsb]. by rewrite Hc, orb_true_r.
Qed.
End Claims.
