(* ===== verification/MainWitnesses.v ===== *)
(** * Runs of the programs

    The hypotheses of the properties of the programs hold in concrete runs. *)

From S2P Require Import Prelude Bytes HashTable HashTableOps HashTableUpdate HashTableSpec.
From S2P Require Import Request Strings Logging LoggingFacts Args Parser ParserFacts Reassembly.
From S2P Require Import PayloadOptions Crypto CryptoFacts CryptoProps Config Client ClientConfig.
From S2P Require Import ConfigFacts ClientConfigFacts ConfigProps ClientFacts ClientCryptoFacts.
From S2P Require Import EndToEnd EndToEndProps Http HttpFacts HttpSendFacts HttpProps.
From S2P Require Import HttpSendProps.
From S2P Require Import Server ServerFacts ServerInv ServerSteps ServerEndToEnd ServerRun.
From S2P Require Import ServerProps.
From S2P Require Import Main MainProps ServerHandling ServerWitnesses.
Import Toy.

#[local] Instance little_endian : HostOrder := LittleEndian.

(** A system that finds every address, for a numeric port. *)
Definition sample_proxy_env : proxy_env :=
  mk_proxy_env (fun _ service => if existsb isalpha service then None else Some AF_INET) true true.

Definition sample_time : tm := mk_tm 120 1 29 13 37 5.

Definition sample_key : option (list Z) := Some (chars "secret").

Lemma sample_key_chars s : sample_key = Some s -> c_chars s.
Proof. intros [= <-]. decide_compute. Qed.

(** Witness of C1: with a key, over HTTPS. *)
Lemma programs_end_to_end_witness :
  exists sent calls buffer st1 st2,
    client_main [chars "ff_client"; chars "--port"; chars "8080"; chars "--pre-shared-key";
        chars "secret"; chars "--https"] host_payload 1600000000
      (mk_client_random (Some (replicate 16 3)) (Some (replicate 12 4)) (Some (replicate 8 5)))
      sample_net sample_time = Ok (ClientSent sent 0) /\
    server_main sample_pton sample_proxy_env sample_time
      [chars "ff"; chars "--port"; chars "8080"; chars "--pre-shared-key"; chars "secret"]
      (arrive sample_src 0 sent) =
      Ok (Serving (server_settings (chars "8080") sample_key) calls buffer st1) /\
    sv_workers st1 = [mk_worker 1 Vectorise] /\
    ff_proxy_process_request (server_settings (chars "8080") sample_key) sample_send 1600000010 1
      st1 = Ok st2 /\
    sv_sent st2 = [SentHttps (chars "a.b") host_payload] /\ sv_heap st2 = ∅.
Proof.
  apply (programs_end_to_end sample_pton sample_proxy_env sample_net sample_send sample_time
    (chars "ff") (chars "ff_client") (chars "8080") sample_key true host_payload (chars "a.b")
    (replicate 16 3) (replicate 12 4) (replicate 8 5) sample_src 1600000000 1600000010 0
    sample_lines (chars "HoSt:") 1 13 [10; 13; 10]).
  - decide_compute.
  - by vm_compute.
  - exact sample_key_chars.
  - exact host_payload_request.
  - done.
  - exact host_payload_bytes.
  - done.
  - exact toy_salt.
  - exact toy_iv.
  - exact toy_id.
  - done.
  - vm_compute. by eexists.
  - done.
  - done.
  - split; [by eexists|done|done].
  - exact (sample_net_ok _).
  - exact (sample_network _).
Defined.

(** Witness of C26: the port is missing. *)
Lemma server_main_exits_witness :
  exists message, message <> [] /\
    server_main sample_pton sample_proxy_env sample_time [chars "ff"; chars "-v"] [] =
      Ok (Exited (mk_exited 1 (exit_log sample_time) (message ++ ff_print_usage))).
Proof.
  destruct (server_main_exits sample_pton sample_proxy_env sample_time (chars "ff") [chars "-v"] []
    [Flag VerboseWarning] EndOfArgs) as (_&_&H).
  - done.
  - decide_compute.
  - apply reading_flag; [reflexivity|apply reading_end].
  - apply H. reflexivity.
Defined.

(** Witness of C34: [--port 80a]. *)
Lemma port_suffix_crash_witness :
  server_main sample_pton sample_proxy_env sample_time
    [chars "ff"; chars "--port"; show_unsigned 80 ++ [97]] [] = Err Indeterminate.
Proof.
  apply (port_suffix_crash sample_pton sample_proxy_env sample_time (chars "ff") [] 80 97 []).
  - done.
  - reflexivity.
  - constructor.
  - intros address service Hs. cbn [sample_proxy_env pe_getaddrinfo]. by rewrite Hs.
Defined.
